(* ===== verification/_CoqProject ===== *)
-Q . S2P
Prelude.v
PyStd.v
Effects.v
Models.v
Session.v
Snapshot.v
Crud.v
Stability.v
RoleService.v
Security.v
UserService.v
Permissions.v
TenantService.v
InvitationService.v
Overlap.v
Sha256.v
ApiKeyService.v
Deps.v
PathPermissions.v
InvitationApi.v
TenantApi.v
RoleApi.v
Api.v
Rbac.v
Replies.v
RateLimiter.v
Config.v
Routing.v
Schemas.v
Settings.v
App.v
Http.v
HttpSession.v
ApiClient.v
Frame.v
Imports.v
ModuleTable.v
ImportGraph.v
Scripts.v
Catalog.v
Migrations.v
States.v
History.v
AlembicEnv.v
ReadyCheck.v
SeedTables.v
