(* ===== verification/Prelude.v ===== *)
(** * VirtualStack backend: a verified model

    VirtualStack's backend is a multi-tenant identity service: FastAPI endpoints
    over services over SQLAlchemy models, under [src/src/virtualstack].  This
    library models its services, its authentication and permission
    dependencies, its endpoints with their routes, request and response models,
    the rate limiter, settings and start-up with the imports it takes, the scripts
    under [src/scripts], and the schema migrations under [src/alembic], and proves
    what they keep and what they do.

    ** How a request is modelled

    A request runs in a world ([Session.World]): a database session, a clock, and
    sources of identifiers and random bytes.  A coroutine is a computation
    [M (World S) A] ([Effects]): it returns or raises a Python exception, and
    [try_catch] is [try]/[except].  The session ([Session.Session]) is an
    interface, because SQLAlchemy and PostgreSQL are not in the repository: what
    the session reads ([view]), what is committed ([durable]), whether a failed
    flush awaits a rollback ([usable]), with the laws [SessionLaws] of [flush],
    [commit], [rollback]; a page's [OFFSET] and [LIMIT] are [bigint]s, and the driver
    refuses other numbers ([query_page]).  The order of unordered rows, the collation, the value
    of [select(exists())], whether timestamps come back aware, what refreshing an
    unmapped attribute raises and what SQLAlchemy makes of [|] between a column
    and an identifier are left open by the interface, and theorems
    hold for every choice unless they name one.  [Snapshot] implements the
    interface and a sample database [w0] on which witnesses compute.
    Statements about a computation have the form [post m w Q]: running [m] from
    [w] ends in a result and a world that satisfy [Q].  Every model is a total
    function, so [post] includes termination.

    ** Files and the code they model

    - [PyStd], [Sha256]: the parts of Python the code uses - [uuid.UUID] parsing
      and printing, base64url, [datetime] arithmetic and comparison with its
      naive/aware distinction, [hashlib.sha256] on wrapped 32-bit words.
    - [Models]: [models/iam/*.py] and the migrations' constraints: rows, tables,
      unique columns, foreign keys, cascades; [db_ok] is integrity.
    - [Session]: [db/session.py: get_db] and the session interface; [Crud]:
      [services/base.py: CRUDBase], generic over the class [OrmModel].
    - [RoleService], [UserService], [Permissions], [TenantService],
      [InvitationService], [ApiKeyService]: [services/iam/*.py] and
      [core/permissions.py], one definition per method, under the method's name.
      [services/iam/role.py] imports neither [HTTPException] nor [status], so each
      of its [raise] statements is a [NameError] ([HTTPException_unbound]).
    - [Overlap]: [create_invitation] and [create_custom_role] cut between their
      check and their insert, as a step machine over any number of requests.
    - [Security]: [core/security.py], over the interfaces [Passlib] and [Jose] of
      the two libraries, with their documented laws.
    - [Deps]: [api/deps.py], where a dependency takes the results of the
      dependencies it names; the last of several definitions is the one in force.
      [PathPermissions] has the ones it replaces.
    - [InvitationApi], [TenantApi], [RoleApi]: [api/v1/endpoints/*.py], a Module
      per file where a Rocq file holds several; [Api]: the router, request
      sequences, integrity over all of them.
    - [Rbac]: an abstract machine of access control (users, tenants,
      permissions, roles, grants, holders; create, edit, hold, delete a role), and
      the refinement of the endpoints of [Api] to it.
    - [Replies]: [schemas/*.py], the response models as lists of fields, over the
      interface [ResponseModel] of pydantic's reading of objects; [respond] is
      the router with its response models.
    - [Routing]: the routes as [main.py], [api.py] and the decorators declare them,
      over the interface [Starlette] of the choice among routes.  [Schemas]: the
      request models, over the interface [RequestModel] of pydantic's reading of
      JSON.  [Http]: the application from a request - method, path, query, headers,
      body - to a status and a body: middleware, route, dependencies, arguments,
      session.  [HttpSession]: a client's login and what follows it.  [Frame]:
      what no request changes.  [ApiClient]: [scripts/test_api_basic.py], over a
      network that may be the application at an address.
    - [RateLimiter]: [core/rate_limiter.py] over an interface [Redis] of sorted
      sets with expiry, and its specification, a sliding window.
    - [App]: [api/middleware.py], [db/init_db.py] and [main.py]; [Config]: the
      validators of [core/config.py]; [Settings]: its fields, what an environment
      makes of them over the interface [SettingsSource] - text that does not decode
      is a [SettingsError], any other refusal a [ValidationError] - and the import
      of [db/session.py].
    - [Imports]: Python's import system as the package uses it - [sys.modules],
      packages before their modules, a body that raises, [from]-imports with the
      fallback to a submodule, star imports - over any table of modules;
      [ModuleTable]: the top level of every module of [src/virtualstack], a
      definition per file; [ImportGraph]: what importing them does, with the
      settings of [Settings] and the engine's and Redis client's constructors
      ([Drivers]) as what may raise.
    - [Scripts]: [scripts/seed_initial_data.py] and [run_seed.py]; [ReadyCheck]:
      [scripts/check_db_ready.py] and [check_db.py], on the catalogues of
      [History].
    - [Catalog]: the part of PostgreSQL the migrations use, as one function per
      statement, and the type system of its catalogue.  [Migrations]:
      [alembic/versions/*.py], a list of statements per [upgrade] and
      [downgrade], the revision graph, and the tables [models/iam/*.py] expect.
      [States]: the catalogue after each revision.  [History]: the theorems on
      sequences of migrations, over the interface [Alembic] of the version table.
      [AlembicEnv]: [alembic/env.py], over the interfaces [Engine] and [Context]
      of SQLAlchemy's connection, with its transaction and commit, and Alembic's
      migration context.  [SeedTables]:
      the [table(...)] helpers the seeding revisions insert through.
    - [Stability]: two closure properties of computations, [sound] (integrity is
      kept) and [nocommit] (nothing is committed), with hint databases that
      follow the structure of a handler.

    Attribute updates are functional updates of the row followed by [flush_row];
    a field absent from a partial update is [None], a field set to null is
    [Some None].

    ** What is proved

    - Refinement: whatever requests arrive, what they make of access control is a
      run of the machine of [Rbac], so holders of roles stay within the tenant of
      the role and the fixed part stays fixed ([Rbac], [App.startup_seeds_nothing]).
      [Http.http_refines_access_control] carries this and integrity over to
      anything a client can send.
    - Integrity: every write of [Models] preserves [db_ok], and so does every
      sequence of requests ([Api.requests_preserve_integrity]).
    - The frame: accounts, tenants and permissions outlast every request, no API
      key can be withdrawn and no invitation is accepted ([Frame]); a [GET]
      commits nothing ([ApiClient.get_commits_nothing]).
    - Imports: every import terminates, runs no body twice and needs all it
      requires ([ImportGraph.import_spec]); with the files as they are the
      application does not import, because [db/base_class.py] is not among them
      ([ImportGraph.application_imports]); with one it starts in the environments
      [ImportGraph.start_spec] names.  Every other file models the code with that
      module supplied.
    - Access control: who passes the permission dependency and by which
      credentials, the active tenant, what the four permission checks decide as far
      as the database answers a bare [EXISTS], authentication by token
      and key, whose API keys a caller reaches ([Deps], [RoleApi], [TenantApi]),
      which endpoints ask for credentials at all ([Http.http_credentials]).
    - Requests: every endpoint but one is found under its own URL
      ([Routing.routing_roundtrip]), which bodies each request model accepts
      ([Schemas.request_models_accept]), pages are bounded and, for the users of a
      tenant, add up to the listing ([Http.listing_bounds]).
    - Round trips: a login's token identifies the account until it expires,
      whatever requests come in between ([HttpSession.http_session]), a
      created API key is answered as its stored row says in every later state, a printed UUID parses back, the
      migrations that can be undone are ([History.migration_roundtrips]).
    - The invitation state machine: [status_step] and its invariance under any
      sequence of operations, and each operation on every branch.
    - Overlap: under every interleaving of checks and inserts the stored
      invitations stay and every answer is one of them; a request that checks
      after an answer inserts nothing while that invitation has not expired, two
      that overlap insert two
      ([Overlap.overlapping_invitations]).
    - Services: the exact effect of role assignment and deletion, user creation,
      listing and removal, tenant listing, on every branch, errors included.
    - Replies: no body shows a stored secret but the one of the creation of an
      invitation, which may show an earlier invitation's token; a result outside its response model
      becomes an error that leaves the handler's effects ([Replies]).
    - The rate limiter decides the sliding-window specification, bounds what it
      lets through, and lets clients in again.
    - Migrations: every history keeps the catalogue well typed, the graph is one
      line, the way to the head succeeds, which steps can not be undone, how the
      head differs from the models, and that the online run commits nothing although
      a commit would have stored what it did.
    - Operation: what an environment decides and what stops the start
      ([Settings.settings_spec]), what the seeding script does and what it needs
      ([Scripts.seed_script_spec]), when the readiness check answers ready, what
      the API's test script reports ([ApiClient.basic_api_test_spec]).
    - Endpoints: statuses and effects, among them the ones that never succeed,
      whose success is never committed, or that ask for no permission; each such
      theorem states the behaviour of the code as it is.

    ** Bounds

    [Sha256.blocks] takes as fuel the number of words of the padded message, one
    block consuming sixteen.  [Migrations.lineage] takes the number of revisions,
    eight: no walk visits one twice ([History.history_linear]).
    [Catalog.delete_rows] takes the number of tables, which a cascade along
    foreign keys without a cycle never exceeds; they have none.
    [Imports.import_module] takes more than the number of modules: the bodies on
    the stack are all different ([Imports.import_terminates]), so [ImportGraph.fuel]
    is enough for the 58 files and the missing one.  [run] and
    [run_ops] recurse on the list of requests, [run_ddl] on the list of
    statements.

    ** Not modelled

    Starlette's CORS middleware (only the origins it is given), the pages FastAPI
    generates (only their routes), and the bodies of error replies; logging; the
    transport, so that a request is its method, path, query, the headers the code
    reads and a body already told apart as JSON or form.  What a definition at a
    module's top level evaluates in third-party code (decorators, mapped classes)
    is taken not to raise, and [attribute]s of imported modules are not looked up.
    The mixins of [models/base.py], the soft-delete schema and the schemas no
    endpoint names have no reader.  The catalogue of [Catalog] has no column widths
    and no privileges.  Rows of other transactions do not appear during a request:
    sessions are interleaved request by request, except in [Overlap], which cuts
    the two requests that check before they insert. *)

From stdpp Require Export base tactics list gmap strings.
From Stdlib Require Export ZArith Lia.

(** ** Conventions *)

(** Strings are Python [str] values restricted to 8-bit code points. *)
#[global] Open Scope string_scope.
#[global] Open Scope list_scope.

(** A UUID is the 128-bit integer [uuid.UUID.int]. *)
Notation Uuid := N (only parsing).

(** ** Notations of the development *)

Declare Scope vs_scope.
Delimit Scope vs_scope with vs.

(** Truth value of an [Optional] in a Python condition, when the contained
    values are themselves truthy (ORM rows, UUIDs). *)
Notation "'truthy' o" := (bool_decide (is_Some o)) (at level 10, o at level 9, only parsing) : vs_scope.

#[global] Open Scope vs_scope.

(** ** Hint databases *)

(** [db]: facts on tables; [world]: rewriting of the observations of a
    request's world. *)
Create HintDb db.
Create HintDb world.

(** ** Tactics *)

Ltac case_if :=
  match goal with
  | |- context [if ?b then _ else _] => destruct b eqn:?
  | H : context [if ?b then _ else _] |- _ => destruct b eqn:?
  end.

Ltac case_match_goal :=
  match goal with
  | |- context [match ?x with _ => _ end] => destruct x eqn:?
  end.

(** Turn boolean tests in the context into propositions. *)
Ltac reflect_bools :=
  repeat match goal with
  | H : _ && _ = true |- _ => apply andb_true_iff in H as [? ?]
  | H : _ || _ = false |- _ => apply orb_false_iff in H as [? ?]
  | H : negb _ = true |- _ => apply negb_true_iff in H
  | H : negb _ = false |- _ => apply negb_false_iff in H
  | H : bool_decide _ = true |- _ => apply bool_decide_eq_true in H
  | H : bool_decide _ = false |- _ => apply bool_decide_eq_false in H
  | H : (_ <? _)%Z = true |- _ => apply Z.ltb_lt in H
  | H : (_ <? _)%Z = false |- _ => apply Z.ltb_ge in H
  | H : (_ <=? _)%Z = true |- _ => apply Z.leb_le in H
  | H : (_ <=? _)%Z = false |- _ => apply Z.leb_gt in H
  end.

(** ** Lists *)

Lemma head_filter_Some {A} (P : A → Prop) `{!∀ x, Decision (P x)} l x :
  head (filter P l) = Some x → P x ∧ x ∈ l.
Proof.
  intros Hh. apply head_Some in Hh as [l' Hl'].
  assert (x ∈ filter P l) as Hin by (rewrite Hl'; set_solver).
  by apply list_elem_of_filter in Hin.
Qed.

Lemma head_filter_None {A} (P : A → Prop) `{!∀ x, Decision (P x)} l :
  head (filter P l) = None → ∀ x, x ∈ l → ¬ P x.
Proof.
  intros Hh x Hin HP. apply head_None in Hh.
  assert (x ∈ filter P l) as Hc by (by apply list_elem_of_filter).
  rewrite Hh in Hc. by apply not_elem_of_nil in Hc.
Qed.

(** When exactly one element satisfies [P], every ordering of the list gives
    the same first match. *)
Lemma head_filter_unique {A} (P : A → Prop) `{!∀ x, Decision (P x)} l x :
  x ∈ l → P x → (∀ y, y ∈ l → P y → y = x) → head (filter P l) = Some x.
Proof.
  intros Hin HP Huniq. destruct (head (filter P l)) as [y|] eqn:Hh.
  - apply head_filter_Some in Hh as [??]. f_equal. by apply Huniq.
  - exfalso. by eapply head_filter_None.
Qed.

Lemma filter_nil_iff {A} (P : A → Prop) `{!∀ x, Decision (P x)} l :
  filter P l = [] ↔ ∀ x, x ∈ l → ¬ P x.
Proof.
  split.
  - intros Hf x Hin HP.
    assert (x ∈ filter P l) as Hc by (by apply list_elem_of_filter).
    rewrite Hf in Hc. by apply not_elem_of_nil in Hc.
  - intros Hn. destruct (filter P l) as [|y k] eqn:Hf; [done|].
    assert (y ∈ filter P l) as Hc by (rewrite Hf; set_solver).
    apply list_elem_of_filter in Hc as [HP Hin]. by destruct (Hn y Hin).
Qed.

Lemma filter_fmap {A B} (f : A → B) (P : B → Prop) `{!∀ y, Decision (P y)} (l : list A) :
  filter P (f <$> l) = f <$> filter (P ∘ f) l.
Proof.
  induction l as [|x l IH]; [done|]. rewrite fmap_cons, !filter_cons, IH. unfold compose.
  by case_decide.
Qed.

Lemma filter_eq_NoDup `{EqDecision A} (x : A) (l : list A) :
  NoDup l → filter (eq x) l = if decide (x ∈ l) then [x] else [].
Proof.
  intros Hl. induction Hl as [|y l Hy Hl IH]; [done|]. rewrite filter_cons, IH.
  destruct (decide (x = y)) as [->|Hne].
  - rewrite (decide_False _ _ Hy), decide_True by set_solver. done.
  - destruct (decide (x ∈ l)); [by rewrite decide_True by set_solver|].
    by rewrite decide_False by set_solver.
Qed.

(** Python's [xs[skip:skip+limit]], equally SQL's [OFFSET skip LIMIT limit]
    for non-negative arguments. *)
Definition page {A} (skip limit : nat) (l : list A) : list A := take limit (drop skip l).

Lemma page_elem_of {A} skip limit (l : list A) x : x ∈ page skip limit l → x ∈ l.
Proof.
  intros Hin. unfold page in Hin. apply list_elem_of_lookup in Hin as [i Hi].
  apply lookup_take_Some in Hi as [Hi _]. rewrite lookup_drop in Hi.
  by eapply list_elem_of_lookup_2.
Qed.

Lemma page_length {A} skip limit (l : list A) : (length (page skip limit l) ≤ limit)%nat.
Proof. unfold page. rewrite length_take. lia. Qed.

Lemma page_all {A} limit (l : list A) : (length l ≤ limit)%nat → page 0 limit l = l.
Proof. intros. unfold page. simpl. by apply take_ge. Qed.

(** ** Maps *)

Lemma map_filter_lookup_key {K V} `{Countable K} (P : K * V → Prop)
    `{!∀ x, Decision (P x)} (m : gmap K V) k v :
  filter P m !! k = Some v ↔ m !! k = Some v ∧ P (k, v).
Proof. apply map_lookup_filter_Some. Qed.

#[export] Hint Resolve head_filter_unique : db.
