(* ===== verification/PyStd.v ===== *)
(** * The parts of Python and its standard library the backend uses

    Strings as lists of code points, [uuid.UUID] parsing and printing,
    URL-safe base64 ([secrets.token_urlsafe]), [datetime] and [timedelta]. *)

From stdpp Require Import base tactics list numbers strings.
From Stdlib Require Import ZArith Lia Ascii String.
From S2P Require Import Prelude.

#[local] Open Scope N_scope.

(** ** Strings *)

Notation chars := String.list_ascii_of_string.
Notation of_chars := String.string_of_list_ascii.

(** Python [len(s)]. *)
Definition str_len (s : string) : nat := List.length (chars s).

(** Python [s[:n]]. *)
Definition str_prefix (n : nat) (s : string) : string := of_chars (take n (chars s)).

(** Truth value of a [str]. *)
Definition str_truthy (s : string) : bool := negb (String.eqb s "").

Definition starts_with (pat l : list ascii) : bool := bool_decide (take (List.length pat) l = pat).

(** Python [pat in s]. *)
Fixpoint contains (pat l : list ascii) : bool :=
  starts_with pat l || match l with [] => false | _ :: l' => contains pat l' end.

Definition str_contains (pat s : string) : bool := contains (chars pat) (chars s).

(** [s.replace(pat, '')] for a non-empty [pat]: [skip] characters of the
    current match remain to be dropped. *)
Fixpoint remove_sub (pat : list ascii) (skip : nat) (l : list ascii) : list ascii :=
  match l with
  | [] => []
  | c :: l' =>
      match skip with
      | S k => remove_sub pat k l'
      | O => if starts_with pat l then remove_sub pat (List.length pat - 1) l'
             else c :: remove_sub pat 0 l'
      end
  end.

Fixpoint lstrip (p : ascii → bool) (l : list ascii) : list ascii :=
  match l with
  | c :: l' => if p c then lstrip p l' else l
  | [] => []
  end.

(** [s.strip(chars)]. *)
Definition strip (p : ascii → bool) (l : list ascii) : list ascii :=
  rev (lstrip p (rev (lstrip p l))).

Lemma strip_id p l : Forall (λ c, p c = false) l → strip p l = l.
Proof.
  intros Hl. assert (∀ k, Forall (λ c, p c = false) k → lstrip p k = k) as Hs.
  { intros k Hk. destruct Hk as [|c k Hc _]; simpl; [done|by rewrite Hc]. }
  unfold strip. rewrite (Hs l Hl), Hs by (by apply Forall_rev). apply rev_involutive.
Qed.

(** ** Integers from text: [int(s, 16)] *)

(** Whitespace of [str.strip()] among 8-bit code points. *)
Definition is_space (c : ascii) : bool :=
  let n := N_of_ascii c in
  ((9 <=? n) && (n <=? 13)) || ((28 <=? n) && (n <=? 32)) || (n =? 133) || (n =? 160).

Definition hex_val (c : ascii) : option N :=
  let n := N_of_ascii c in
  if (48 <=? n) && (n <=? 57) then Some (n - 48)
  else if (97 <=? n) && (n <=? 102) then Some (n - 87)
  else if (65 <=? n) && (n <=? 70) then Some (n - 55)
  else None.

(** The digit loop: single underscores may separate digits. [prev] tells
    whether the previous character was a digit. *)
Fixpoint hex_digits_val (acc : N) (prev : bool) (l : list ascii) : option N :=
  match l with
  | [] => if prev then Some acc else None
  | c :: l' =>
      if Ascii.eqb c "_" then
        if prev then
          match l' with
          | [] => None
          | _ => hex_digits_val acc false l'
          end
        else None
      else
        match hex_val c with
        | Some d => hex_digits_val (16 * acc + d) true l'
        | None => None
        end
  end.

(** An optional [0x] prefix; one underscore may follow it. *)
Definition skip_hex_prefix (l : list ascii) : list ascii :=
  match l with
  | c0 :: c1 :: l' =>
      if Ascii.eqb c0 "0" && (Ascii.eqb c1 "x" || Ascii.eqb c1 "X") then
        match l' with
        | c2 :: l'' => if Ascii.eqb c2 "_" then l'' else l'
        | [] => l'
        end
      else l
  | _ => l
  end.

(** [int(s, 16)]; [None] is [ValueError]. *)
Definition int16 (l : list ascii) : option Z :=
  match strip is_space l with
  | [] => None
  | c :: l' =>
      if Ascii.eqb c "-" then Z.opp ∘ Z.of_N <$> hex_digits_val 0 false (skip_hex_prefix l')
      else if Ascii.eqb c "+" then Z.of_N <$> hex_digits_val 0 false (skip_hex_prefix l')
      else Z.of_N <$> hex_digits_val 0 false (skip_hex_prefix (c :: l'))
  end.

(** ** [uuid.UUID] *)

Definition uuid_bound : N := 2 ^ 128.

Definition is_brace (c : ascii) : bool := Ascii.eqb c "{" || Ascii.eqb c "}".

(** [UUID(s)]; [None] is [ValueError]. *)
Definition uuid_parse (s : string) : option Uuid :=
  let h := remove_sub (chars "uuid:") 0 (remove_sub (chars "urn:") 0 (chars s)) in
  let h := filter (λ c, Ascii.eqb c "-" = false) (strip is_brace h) in
  if bool_decide (List.length h = 32%nat) then
    match int16 h with
    | Some z => if (0 <=? z)%Z && (z <? 2 ^ 128)%Z then Some (Z.to_N z) else None
    | None => None
    end
  else None.

Definition hex_char (d : N) : ascii :=
  if d <? 10 then ascii_of_N (48 + d) else ascii_of_N (87 + d).

(** The [k] low hexadecimal digits of [n], most significant first. *)
Fixpoint hex_of (k : nat) (n : N) : list ascii :=
  match k with
  | O => []
  | S k' => (hex_of k' (n / 16) ++ [hex_char (n mod 16)])%list
  end.

(** [str(uuid)]: ['%032x' % int] cut 8-4-4-4-12. *)
Definition uuid_chars (n : Uuid) : list ascii :=
  let h := hex_of 32 n in
  (take 8 h ++ "-"%char :: take 4 (drop 8 h) ++ "-"%char :: take 4 (drop 12 h)
   ++ "-"%char :: take 4 (drop 16 h) ++ "-"%char :: drop 20 h)%list.

Definition uuid_str (n : Uuid) : string := of_chars (uuid_chars n).

Example uuid_str_ex : uuid_str 1 = "00000000-0000-0000-0000-000000000001".
Proof. reflexivity. Qed.
Example uuid_parse_braces :
  uuid_parse "{urn:uuid:0000000000000000000000000000ABcd}" = Some 43981.
Proof. vm_compute. reflexivity. Qed.
(** [int] accepts a [0x] prefix, so this odd spelling is a UUID too. *)
Example uuid_parse_prefix : uuid_parse "0x0000000000000000000000000000ff" = Some 255.
Proof. vm_compute. reflexivity. Qed.
Example uuid_parse_short : uuid_parse "not-a-uuid" = None.
Proof. vm_compute. reflexivity. Qed.

(** ** Parsing what was printed *)

Lemma hex_char_val d : d < 16 → hex_val (hex_char d) = Some d.
Proof.
  intros. assert (d ∈ [0;1;2;3;4;5;6;7;8;9;10;11;12;13;14;15]) as Hin.
  { assert (∃ k, d = N.of_nat k ∧ (k < 16)%nat) as (k & -> & Hk)
      by (exists (N.to_nat d); lia).
    do 16 (destruct k as [|k]; [set_solver|]). lia. }
  repeat (apply elem_of_cons in Hin as [->|Hin]; [reflexivity|]).
  by apply not_elem_of_nil in Hin.
Qed.

(** The characters of a printed UUID. *)
Definition is_hex_char (c : ascii) : Prop := ∃ d, d < 16 ∧ c = hex_char d.

Lemma hex_char_cases c : is_hex_char c → c ∈ chars "0123456789abcdef".
Proof.
  intros (d & Hd & ->).
  assert (∃ k, d = N.of_nat k ∧ (k < 16)%nat) as (k & -> & Hk)
    by (exists (N.to_nat d); lia).
  do 16 (destruct k as [|k]; [by vm_compute; set_solver|]). lia.
Qed.

(** Close a goal about one hexadecimal digit by trying all sixteen. *)
Ltac hex_cases H :=
  apply hex_char_cases in H; simpl in H;
  repeat (let E := fresh "E" in
          apply elem_of_cons in H as [E|H]; [first [discriminate E | rewrite E; try done]|]);
  try by apply not_elem_of_nil in H.

Lemma hex_of_length k n : List.length (hex_of k n) = k.
Proof. revert n; induction k as [|k IH]; intros n; simpl; [done|]. rewrite length_app, IH. simpl. lia. Qed.

Lemma hex_of_chars k n : Forall is_hex_char (hex_of k n).
Proof.
  revert n; induction k as [|k IH]; intros n; simpl; [constructor|].
  apply Forall_app; split; [apply IH|]. constructor; [|constructor].
  exists (n mod 16). split; [apply N.mod_lt; lia|done].
Qed.

Lemma hex_digits_val_app acc prev l d :
  Forall is_hex_char l → d < 16 →
  hex_digits_val acc prev (l ++ [hex_char d])
  = match l with
    | [] => Some (16 * acc + d)
    | _ => (λ v, 16 * v + d) <$> hex_digits_val acc prev l
    end.
Proof.
  intros Hl Hd. revert acc prev. induction Hl as [|c l Hc Hl IH]; intros acc prev.
  - simpl. rewrite hex_char_val by done.
    assert (Ascii.eqb (hex_char d) "_" = false) as ->
      by (assert (is_hex_char (hex_char d)) as Hx by (by exists d); hex_cases Hx).
    done.
  - assert (Ascii.eqb c "_" = false) as Hu by (hex_cases Hc).
    destruct Hc as (e & He & ->). simpl. rewrite Hu, hex_char_val by done.
    destruct l as [|c' l]; [|rewrite IH; done].
    simpl. rewrite hex_char_val by done.
    assert (Ascii.eqb (hex_char d) "_" = false) as ->
      by (assert (is_hex_char (hex_char d)) as Hx by (by exists d); hex_cases Hx).
    done.
Qed.

Lemma hex_of_val k n :
  hex_digits_val 0 false (hex_of (S k) n) = Some (n mod 16 ^ N.of_nat (S k)).
Proof.
  revert n. induction k as [|k IH]; intros n.
  - change (hex_of 1 n) with ([] ++ [hex_char (n mod 16)])%list.
    rewrite hex_digits_val_app by first [constructor | apply N.mod_lt; lia].
    change (16 ^ N.of_nat 1) with 16. f_equal.
  - remember (S k) as k' eqn:Hk'. simpl hex_of.
    rewrite hex_digits_val_app by (apply hex_of_chars || (apply N.mod_lt; lia)).
    destruct (hex_of k' (n / 16)) as [|c l] eqn:Hh.
    { assert (List.length (hex_of k' (n / 16)) = 0%nat) as Hlen by (by rewrite Hh).
      rewrite hex_of_length in Hlen. lia. }
    rewrite <- Hh. rewrite IH. simpl. f_equal.
    rewrite Nnat.Nat2N.inj_succ, N.pow_succ_r'.
    rewrite N.Div0.mod_mul_r. lia.
Qed.

Lemma int16_hex_of n : n < uuid_bound → int16 (hex_of 32 n) = Some (Z.of_N n).
Proof.
  intros Hn. pose proof (hex_of_chars 32 n) as Hf. pose proof (hex_of_length 32 n) as Hlen.
  pose proof (hex_of_val 31 n) as Hv.
  rewrite N.mod_small in Hv by done.
  destruct (hex_of 32 n) as [|c0 l]; [done|].
  assert (strip is_space (c0 :: l) = c0 :: l) as Hs.
  { assert (∀ k, Forall is_hex_char k → lstrip is_space k = k) as Hls.
    { intros k Hk. destruct Hk as [|c k Hc]; [done|]. simpl.
      assert (is_space c = false) as -> by (hex_cases Hc). done. }
    unfold strip. rewrite (Hls (c0 :: l)) by done.
    rewrite Hls by (by apply List.Forall_rev). apply rev_involutive. }
  unfold int16. rewrite Hs. inv Hf.
  assert (Ascii.eqb c0 "-" = false ∧ Ascii.eqb c0 "+" = false) as [-> ->]
    by (match goal with H : is_hex_char c0 |- _ => hex_cases H end).
  assert (skip_hex_prefix (c0 :: l) = c0 :: l) as ->.
  { destruct l as [|c1 l]; [done|]. simpl.
    match goal with H : Forall _ (c1 :: _) |- _ => inv H end.
    assert (Ascii.eqb c1 "x" = false ∧ Ascii.eqb c1 "X" = false) as [-> ->]
      by (match goal with H : is_hex_char c1 |- _ => hex_cases H end).
    simpl. by rewrite andb_false_r. }
  by rewrite Hv.
Qed.

Lemma remove_sub_absent p pat l : p ∉ l → remove_sub (p :: pat) 0 l = l.
Proof.
  induction l as [|c l IH]; intros Hn; [done|]. simpl.
  unfold starts_with. rewrite bool_decide_eq_false_2.
  - by rewrite IH by set_solver.
  - simpl. intros [= ->]. set_solver.
Qed.

Lemma lstrip_id p l : (∀ c, head l = Some c → p c = false) → lstrip p l = l.
Proof. destruct l as [|c l]; intros Hl; [done|]. simpl. by rewrite Hl. Qed.

Lemma filter_no_dash l : Forall is_hex_char l → filter (λ c, Ascii.eqb c "-" = false) l = l.
Proof.
  induction 1 as [|c l Hc _ IH]; [done|]. rewrite filter_cons_True; [by rewrite IH|].
  hex_cases Hc.
Qed.

Lemma uuid_chars_no_dash n : filter (λ c, Ascii.eqb c "-" = false) (uuid_chars n) = hex_of 32 n.
Proof.
  unfold uuid_chars. pose proof (hex_of_chars 32 n) as Hf.
  repeat (rewrite filter_app || rewrite filter_cons_False by done).
  rewrite !filter_no_dash by (repeat first [apply Forall_take | apply Forall_drop]; done).
  rewrite !app_assoc, !take_take_drop. apply take_drop.
Qed.

Lemma uuid_chars_elem n c : c ∈ uuid_chars n → c = "-"%char ∨ is_hex_char c.
Proof.
  pose proof (hex_of_chars 32 n) as Hf. rewrite Forall_forall in Hf.
  unfold uuid_chars. intros Hin.
  repeat (apply elem_of_app in Hin as [Hin|Hin]; [right; apply Hf; revert Hin |
          apply elem_of_cons in Hin as [->|Hin]; [by left|]]);
  [.. | right; apply Hf; revert Hin];
  intros Hin; repeat first [apply elem_of_take in Hin as (? & Hin & _); apply list_elem_of_lookup_2 in Hin];
  try done; apply list_elem_of_lookup in Hin as [i Hi]; rewrite lookup_drop in Hi;
  by eapply list_elem_of_lookup_2.
Qed.

(** Every UUID survives printing and parsing, as the token subject and the
    path parameters rely on. *)
Lemma uuid_parse_str n : n < uuid_bound → uuid_parse (uuid_str n) = Some n.
Proof.
  intros Hn. unfold uuid_parse, uuid_str.
  rewrite list_ascii_of_string_of_list_ascii.
  assert ("u"%char ∉ uuid_chars n) as Hu.
  { intros Hin. apply uuid_chars_elem in Hin as [?|Hx]; [done|]. hex_cases Hx. }
  change (chars "urn:") with ("u"%char :: chars "rn:").
  change (chars "uuid:") with ("u"%char :: chars "uid:").
  rewrite (remove_sub_absent _ (chars "rn:")) by done. rewrite remove_sub_absent by done.
  assert (∀ c, c ∈ uuid_chars n → is_brace c = false) as Hb.
  { intros c [->|Hx]%uuid_chars_elem; [done|]. hex_cases Hx. }
  assert (strip is_brace (uuid_chars n) = uuid_chars n) as ->.
  { unfold strip. rewrite (lstrip_id _ (uuid_chars n)).
    - rewrite lstrip_id; [by rewrite rev_involutive|].
      intros c [? Hc]%head_Some. apply Hb. apply elem_of_reverse.
      unfold reverse. rewrite <- rev_alt, Hc. set_solver.
    - intros c [? Hc]%head_Some. apply Hb. rewrite Hc. set_solver. }
  rewrite uuid_chars_no_dash, hex_of_length, bool_decide_eq_true_2 by done.
  rewrite int16_hex_of by done.
  unfold uuid_bound in Hn.
  assert ((0 <=? Z.of_N n)%Z && (Z.of_N n <? 2 ^ 128)%Z = true) as ->.
  { apply andb_true_iff; split; [apply Z.leb_le; lia|]. apply Z.ltb_lt.
    change (2 ^ 128)%Z with (Z.of_N (2 ^ 128)). lia. }
  by rewrite N2Z.id.
Qed.

(** ** [datetime] *)

(** A naive [datetime] holding UTC, in microseconds since the epoch. *)
Notation datetime := Z (only parsing).

(** [datetime] objects are naive or carry a UTC offset (in microseconds). *)
Inductive PyDateTime :=
  | Naive (us : Z)
  | Aware (utc_us : Z) (offset : Z).

#[global] Instance PyDateTime_eq_dec : EqDecision PyDateTime.
Proof. solve_decision. Defined.

(** [a < b]; [None] is the [TypeError] Python raises when one side is naive
    and the other aware. *)
Definition dt_lt (a b : PyDateTime) : option bool :=
  match a, b with
  | Naive x, Naive y => Some (x <? y)%Z
  | Aware x _, Aware y _ => Some (x <? y)%Z
  | _, _ => None
  end.

(** The instant a [datetime] denotes once naive values are read as UTC. *)
Definition dt_instant (d : PyDateTime) : Z :=
  match d with Naive x => x | Aware x _ => x end.

(** [d.astimezone(timezone.utc)]; a naive value is local time, [local_offset]
    microseconds ahead of UTC. *)
Definition astimezone_utc (local_offset : Z → Z) (d : PyDateTime) : PyDateTime :=
  match d with
  | Naive x => Aware (x - local_offset x)%Z 0
  | Aware x _ => Aware x 0
  end.

Definition us_per_day : Z := 86400 * 1000000.

(** [datetime.min] and [datetime.max] in microseconds since the epoch. *)
Definition dt_min : Z := -62135596800000000.
Definition dt_max : Z := 253402300799999999.

(** [timedelta(days=n)] in microseconds; [None] is [OverflowError]. *)
Definition timedelta_days (n : Z) : option Z :=
  if (Z.abs n <=? 999999999)%Z then Some (n * us_per_day)%Z else None.

(** [d + delta] on naive datetimes; [None] is [OverflowError]. *)
Definition dt_add (d delta : Z) : option Z :=
  let r := (d + delta)%Z in
  if (dt_min <=? r)%Z && (r <=? dt_max)%Z then Some r else None.

(** ** More on strings *)

(** [s.lower()] on 8-bit code points. *)
Definition ascii_lower (c : ascii) : ascii :=
  let n := N_of_ascii c in
  if ((65 <=? n) && (n <=? 90)) || ((192 <=? n) && (n <=? 222) && negb (n =? 215))
  then ascii_of_N (n + 32) else c.

Definition str_lower (s : string) : string := of_chars (ascii_lower <$> chars s).

(** [s.strip()]. *)
Definition str_strip (s : string) : string := of_chars (strip is_space (chars s)).

(** [s.startswith(p)]. *)
Definition str_starts_with (p s : string) : bool := starts_with (chars p) (chars s).

(** [s.split(sep)] for a separator of one character. *)
Fixpoint split_on (sep : ascii) (l : list ascii) : list (list ascii) :=
  match l with
  | [] => [[]]
  | c :: l' =>
      match split_on sep l' with
      | item :: items => if Ascii.eqb c sep then [] :: item :: items else (c :: item) :: items
      | [] => [[c]]
      end
  end.

(** [sep.join(items)]. *)
Fixpoint join_on (sep : ascii) (items : list (list ascii)) : list ascii :=
  match items with
  | [] => []
  | [item] => item
  | item :: items' => item ++ sep :: join_on sep items'
  end.

Lemma split_on_free sep l : sep ∉ l → split_on sep l = [l].
Proof.
  induction l as [|c l IH]; intros Hl; simpl; [done|].
  rewrite IH by set_solver. destruct (Ascii.eqb c sep) eqn:Hc; [|done].
  apply Ascii.eqb_eq in Hc as ->. set_solver.
Qed.

Lemma split_on_cons sep item l : sep ∉ item →
  split_on sep (item ++ sep :: l) = item :: split_on sep l.
Proof.
  induction item as [|c item IH]; intros Hi; simpl.
  - rewrite Ascii.eqb_refl. destruct (split_on sep l) eqn:Hl; [|done]. destruct l; simpl in Hl; [done|].
    by repeat case_match.
  - rewrite IH by set_solver. destruct (Ascii.eqb c sep) eqn:Hc; [|done].
    apply Ascii.eqb_eq in Hc as ->. set_solver.
Qed.

Lemma split_join sep items : items ≠ [] → Forall (λ item, sep ∉ item) items →
  split_on sep (join_on sep items) = items.
Proof.
  intros Hne Hall. induction Hall as [|item items Hi Hall IH]; [done|].
  destruct items as [|item' items]; [by apply split_on_free|].
  change (join_on sep (item :: item' :: items)) with (item ++ sep :: join_on sep (item' :: items)).
  by rewrite split_on_cons, IH.
Qed.

Example str_lower_ex : str_lower "Key (Email)" = "key (email)"%string.
Proof. reflexivity. Qed.
Example str_strip_ex : str_strip " Ada Lovelace " = "Ada Lovelace"%string.
Proof. reflexivity. Qed.

(** ** [secrets.token_urlsafe]: URL-safe base64 without padding *)

Definition b64_char (d : N) : ascii :=
  if d <? 26 then ascii_of_N (65 + d)
  else if d <? 52 then ascii_of_N (71 + d)
  else if d <? 62 then ascii_of_N (d - 4)
  else if d =? 62 then "-"%char else "_"%char.

(** [base64.urlsafe_b64encode(bs).rstrip(b'=')]. *)
Fixpoint b64_encode (bs : list N) : list ascii :=
  match bs with
  | [] => []
  | [a] => [b64_char (N.shiftr a 2); b64_char (N.shiftl (N.land a 3) 4)]
  | [a; b] =>
      [b64_char (N.shiftr a 2);
       b64_char (N.lor (N.shiftl (N.land a 3) 4) (N.shiftr b 4));
       b64_char (N.shiftl (N.land b 15) 2)]
  | a :: b :: c :: bs' =>
      b64_char (N.shiftr a 2)
      :: b64_char (N.lor (N.shiftl (N.land a 3) 4) (N.shiftr b 4))
      :: b64_char (N.lor (N.shiftl (N.land b 15) 2) (N.shiftr c 6))
      :: b64_char (N.land c 63)
      :: b64_encode bs'
  end.

Example b64_ex : of_chars (b64_encode [77; 97; 110; 255; 254]) = "TWFu__4"%string.
Proof. reflexivity. Qed.

(** The alphabet. *)
Definition b64_alphabet : list ascii := b64_char ∘ N.of_nat <$> seq 0 64.

Lemma b64_char_in d : d < 64 → b64_char d ∈ b64_alphabet.
Proof.
  intros Hd. apply list_elem_of_fmap. exists (N.to_nat d).
  split; [simpl; by rewrite N2Nat.id|]. apply elem_of_seq. lia.
Qed.

Lemma land_lor_small a b n : a < 2 ^ n → b < 2 ^ n → N.lor a b < 2 ^ n.
Proof.
  intros Ha Hb. destruct (decide (N.lor a b = 0)) as [->|Hne]; [lia|].
  apply N.log2_lt_pow2; [lia|]. rewrite N.log2_lor.
  destruct (decide (a = 0)) as [->|]; destruct (decide (b = 0)) as [->|]; simpl.
  - done.
  - rewrite N.max_r by apply N.le_0_l. apply N.log2_lt_pow2; lia.
  - rewrite N.max_l by apply N.le_0_l. apply N.log2_lt_pow2; lia.
  - apply N.max_lub_lt; apply N.log2_lt_pow2; lia.
Qed.

Lemma land_small a n : N.land a (N.ones n) < 2 ^ n.
Proof. rewrite N.land_ones. apply N.mod_lt. apply N.pow_nonzero. lia. Qed.

Lemma shiftl_small a k n : a < 2 ^ n → N.shiftl a k < 2 ^ (n + k).
Proof.
  intros Ha. rewrite N.shiftl_mul_pow2, N.pow_add_r. apply N.mul_lt_mono_pos_r; [|done].
  apply N.neq_0_lt_0, N.pow_nonzero. lia.
Qed.

Lemma shiftr_small a k n : a < 2 ^ (n + k) → N.shiftr a k < 2 ^ n.
Proof.
  intros Ha. rewrite N.shiftr_div_pow2. apply N.Div0.div_lt_upper_bound.
  rewrite N.pow_add_r in Ha. lia.
Qed.

(** Every sextet of an encoding is below 64. *)
Ltac b64_bound :=
  apply b64_char_in; change 64 with (2 ^ 6);
  repeat apply land_lor_small;
  first [ apply (shiftr_small _ 2 6); assumption
        | apply (shiftl_small _ 4 2), (land_small _ 2)
        | apply (N.lt_le_trans _ (2 ^ 4)); [apply (shiftr_small _ 4 4); assumption|done]
        | apply (shiftl_small _ 2 4), (land_small _ 4)
        | apply (N.lt_le_trans _ (2 ^ 2)); [apply (shiftr_small _ 6 2); assumption|done]
        | apply (land_small _ 6) ].

Lemma b64_encode_alphabet bs :
  Forall (λ b, b < 256) bs → Forall (.∈ b64_alphabet) (b64_encode bs).
Proof.
  change 256 with (2 ^ 8).
  enough (∀ n bs, (List.length bs <= n)%nat → Forall (λ b, b < 2 ^ 8) bs →
    Forall (.∈ b64_alphabet) (b64_encode bs)) as Hn by eauto.
  clear bs. intros n. induction n as [|n IH]; intros bs Hlen Hbs.
  { destruct bs; [constructor|simpl in Hlen; lia]. }
  destruct bs as [|a [|b [|c bs]]]; [constructor| | |];
    repeat match goal with H : Forall _ (_ :: _) |- _ => inv H end;
    cbn [b64_encode];
    repeat (apply List.Forall_cons; [b64_bound|]); try constructor.
  apply IH; [simpl in Hlen; lia|done].
Qed.

(** Three bytes give four characters, a remainder of one or two gives two or
    three. *)
Lemma b64_encode_length3 a b c bs :
  List.length (b64_encode (a :: b :: c :: bs)) = (4 + List.length (b64_encode bs))%nat.
Proof. done. Qed.
