(* ===== verification/Effects.v ===== *)
(** * Exceptions and effectful computations

    A coroutine of the backend is a computation over a world [W] that either
    returns a value or raises a Python exception; [try_catch] is a
    [try]/[except] whose handler decides, as the source's [except] clauses do,
    which exceptions it takes and what it raises instead. *)

From stdpp Require Import base tactics list strings.
From Stdlib Require Import ZArith Lia.
From S2P Require Import Prelude.

(** ** Exceptions *)

(** The exceptions the backend raises, catches or lets through.
    [HTTPException] carries status and detail; the next four are
    [core/exceptions.py]; the rest are Python's, pydantic's, those of
    pydantic-settings, SQLAlchemy's and jose's. *)
Inductive Exn :=
  | HTTPException (status : Z) (detail : string)
  | NotFoundError (msg : string)
  | AuthorizationError (msg : string)
  | AppValidationError (msg : string)
  | ValueError (msg : string)
  | PydanticValidationError (msg : string)
  | TypeError (msg : string)
  | AttributeError (name : string)
  | ModuleNotFoundError (name : string)
  | KeyError (key : string)
  | NameError (name : string)
  | SettingsError (field : string)
  | OverflowError
  | RuntimeError (msg : string)
  | IntegrityError (msg : string)
  | ProgrammingError
  | DBAPIError (msg : string)
  | PendingRollbackError
  | ExpiredSignatureError
  | JWTError.

#[global] Instance Exn_eq_dec : EqDecision Exn.
Proof. solve_decision. Defined.

(** [isinstance] tests of the [except] clauses. pydantic's
    [ValidationError] is a [ValueError], and so is the [SettingsError] of
    pydantic-settings. *)
Definition is_http (e : Exn) : bool :=
  match e with HTTPException _ _ => true | _ => false end.
Definition is_not_found (e : Exn) : bool :=
  match e with NotFoundError _ => true | _ => false end.
Definition is_authorization (e : Exn) : bool :=
  match e with AuthorizationError _ => true | _ => false end.
Definition is_value_error (e : Exn) : bool :=
  match e with ValueError _ | PydanticValidationError _ | SettingsError _ => true | _ => false end.
Definition is_integrity (e : Exn) : bool :=
  match e with IntegrityError _ => true | _ => false end.

(** [str(e)] for the exceptions whose message the backend puts in a reply. *)
Definition exn_str (e : Exn) : string :=
  match e with
  | HTTPException _ m | NotFoundError m | AuthorizationError m | AppValidationError m
  | ValueError m | PydanticValidationError m | TypeError m | RuntimeError m
  | IntegrityError m | DBAPIError m => m
  | AttributeError n | ModuleNotFoundError n | KeyError n => n
  | NameError n => "name '" +:+ n +:+ "' is not defined"
  | SettingsError f => "error parsing value for field " +:+ f
  | OverflowError => "OverflowError"
  | ProgrammingError => "ProgrammingError"
  | PendingRollbackError => "PendingRollbackError"
  | ExpiredSignatureError => "Signature has expired."
  | JWTError => "JWTError"
  end%string.

(** ** Exception factories of [core/exceptions.py] *)

Definition http_not_found_error (detail : string) : Exn := HTTPException 404 detail.
Definition http_authentication_error (detail : string) : Exn := HTTPException 401 detail.
Definition http_authorization_error (detail : string) : Exn := HTTPException 403 detail.
Definition http_validation_error (detail : string) : Exn := HTTPException 422 detail.
Definition http_bad_request_error (detail : string) : Exn := HTTPException 400 detail.

(** ** Computations *)

Inductive outcome (A : Type) :=
  | Ret (a : A)
  | Raise (e : Exn).
Arguments Ret {A} a.
Arguments Raise {A} e.

Definition M (W A : Type) : Type := W → outcome A * W.

#[global] Instance M_ret W : MRet (M W) := λ A a w, (Ret a, w).
#[global] Instance M_bind W : MBind (M W) := λ A B f m w,
  match m w with
  | (Ret a, w') => f a w'
  | (Raise e, w') => (Raise e, w')
  end.
#[global] Instance M_fmap W : FMap (M W) := λ A B f m w,
  match m w with
  | (Ret a, w') => (Ret (f a), w')
  | (Raise e, w') => (Raise e, w')
  end.

Section ops.
Context {W : Type}.

Definition raise {A} (e : Exn) : M W A := λ w, (Raise e, w).

(** [try: body except ...: handler]. *)
Definition try_catch {A} (body : M W A) (handler : Exn → M W A) : M W A := λ w,
  match body w with
  | (Ret a, w') => (Ret a, w')
  | (Raise e, w') => handler e w'
  end.

(** [if cond: raise e]. *)
Definition raise_if (cond : bool) (e : Exn) : M W unit :=
  if cond then raise e else mret tt.

(** [if not o: raise e], continuing with the value of [o]. *)
Definition require {A} (o : option A) (e : Exn) : M W A :=
  match o with Some a => mret a | None => raise e end.

(** A parsing or checking step of the standard library. *)
Definition lift {A} (r : A + Exn) : M W A :=
  match r with inl a => mret a | inr e => raise e end.
End ops.

(** ** Running computations *)

Section run.
Context {W : Type}.
Implicit Types w : W.

Lemma ret_run {A} (a : A) w : (mret a : M W A) w = (Ret a, w).
Proof. done. Qed.

Lemma bind_ret_run {A B} (m : M W A) (f : A → M W B) w a w' :
  m w = (Ret a, w') → (m ≫= f) w = f a w'.
Proof. intros Hm. unfold mbind, M_bind. by rewrite Hm. Qed.

Lemma bind_raise_run {A B} (m : M W A) (f : A → M W B) w e w' :
  m w = (Raise e, w') → (m ≫= f) w = (Raise e, w').
Proof. intros Hm. unfold mbind, M_bind. by rewrite Hm. Qed.

Lemma try_ret_run {A} (m : M W A) h w a w' :
  m w = (Ret a, w') → try_catch m h w = (Ret a, w').
Proof. intros Hm. unfold try_catch. by rewrite Hm. Qed.

Lemma try_raise_run {A} (m : M W A) h w e w' :
  m w = (Raise e, w') → try_catch m h w = h e w'.
Proof. intros Hm. unfold try_catch. by rewrite Hm. Qed.

(** The monad laws, pointwise in the world. *)
Lemma bind_assoc {A B C} (m : M W A) (f : A → M W B) (g : B → M W C) w :
  ((m ≫= f) ≫= g) w = (m ≫= (λ a, f a ≫= g)) w.
Proof. unfold mbind, M_bind. by destruct (m w) as [[a|e] w']. Qed.

Lemma bind_ret_r {A} (m : M W A) w : (m ≫= mret) w = m w.
Proof. unfold mbind, M_bind. by destruct (m w) as [[a|e] w']. Qed.

(** An exception a handler passes on is raised unchanged. *)
Lemma try_catch_pass {A} (m : M W A) h w e w' :
  m w = (Raise e, w') → h e = raise e → try_catch m h w = (Raise e, w').
Proof. intros Hm Hh. unfold try_catch. by rewrite Hm, Hh. Qed.
End run.

(** ** A postcondition calculus

    [post m w Q]: running [m] from [w] ends with an outcome and a world that
    satisfy [Q]; every computation here terminates. *)

Definition post {W A} (m : M W A) (w : W) (Q : outcome A → W → Prop) : Prop :=
  let '(r, w') := m w in Q r w'.

Section post.
Context {W : Type}.
Implicit Types w : W.

Lemma post_ret {A} (a : A) w (Q : outcome A → W → Prop) : Q (Ret a) w → post (mret a) w Q.
Proof. done. Qed.

Lemma post_raise {A} e w (Q : outcome A → W → Prop) : Q (Raise e) w → post (raise e) w Q.
Proof. done. Qed.

Lemma post_bind {A B} (m : M W A) (f : A → M W B) w Q :
  post m w (λ r w', match r with Ret a => post (f a) w' Q | Raise e => Q (Raise e) w' end) →
  post (m ≫= f) w Q.
Proof. unfold post, mbind, M_bind. by destruct (m w) as [[a|e] w']. Qed.

Lemma post_try {A} (m : M W A) h w Q :
  post m w (λ r w', match r with Ret a => Q (Ret a) w' | Raise e => post (h e) w' Q end) →
  post (try_catch m h) w Q.
Proof. unfold post, try_catch. by destruct (m w) as [[a|e] w']. Qed.

Lemma post_mono {A} (m : M W A) w (P Q : outcome A → W → Prop) :
  post m w P → (∀ r w', P r w' → Q r w') → post m w Q.
Proof. unfold post. destruct (m w). eauto. Qed.

Lemma post_run {A} (m : M W A) w (Q : outcome A → W → Prop) r w' :
  m w = (r, w') → post m w Q ↔ Q r w'.
Proof. intros Hm. unfold post. by rewrite Hm. Qed.

Lemma post_elim {A} (m : M W A) w (Q : outcome A → W → Prop) r w' :
  post m w Q → m w = (r, w') → Q r w'.
Proof. intros HP Hm. by apply (post_run _ _ _ _ _ Hm). Qed.
End post.

#[export] Hint Resolve post_ret post_raise : py.

Arguments post : simpl never.
Arguments try_catch : simpl never.
Arguments raise_if : simpl never.
Arguments require : simpl never.
