(* ===== verification/Models.v ===== *)
(** * The relational schema of [src/virtualstack/models/iam]

    One record per ORM class, the tables as finite maps from primary keys,
    and the constraints the classes declare: unique columns, foreign keys and
    their [ON DELETE] rules.  [insert_row] and [put_row] give a write its effect
    or the constraint it violates, [delete_roles] and [delete_tenant] a deletion
    with its cascades; [db_ok] is the integrity invariant and every write
    preserves it. *)

From stdpp Require Import base tactics list gmap strings.
From Stdlib Require Import ZArith Lia.
From S2P Require Import Prelude PyStd.

(** ** Rows *)

(** [schemas/iam/api_key.py: APIKeyScope]. *)
Inductive APIKeyScope := GLOBAL | TENANT.

(** [models/iam/invitation.py: InvitationStatus]. *)
Inductive InvitationStatus := PENDING | ACCEPTED | EXPIRED | REVOKED.

#[global] Instance APIKeyScope_eq_dec : EqDecision APIKeyScope.
Proof. solve_decision. Defined.
#[global] Instance InvitationStatus_eq_dec : EqDecision InvitationStatus.
Proof. solve_decision. Defined.

Record Tenant := mkTenant {
  t_id : Uuid;
  t_name : string;
  t_slug : string;
  t_description : option string;
  t_is_active : bool;
  t_created_at : datetime;
  t_updated_at : datetime;
}.

Record User := mkUser {
  u_id : Uuid;
  u_email : string;
  u_hashed_password : string;
  u_full_name : option string;
  u_is_active : bool;
  u_is_superuser : bool;
  u_last_login : option datetime;
  u_created_at : datetime;
  u_updated_at : datetime;
}.

Record Role := mkRole {
  r_id : Uuid;
  r_name : string;
  r_description : option string;
  r_tenant_id : option Uuid;
  r_is_system_role : bool;
  r_created_at : datetime;
  r_updated_at : datetime;
}.

Record Permission := mkPermission {
  p_id : Uuid;
  p_name : string;
  p_code : string;
  p_description : option string;
  p_created_at : datetime;
  p_updated_at : datetime;
}.

Record APIKey := mkAPIKey {
  k_id : Uuid;
  k_name : string;
  k_key_prefix : string;
  k_key_hash : string;
  k_description : option string;
  k_is_active : bool;
  k_expires_at : option PyDateTime;
  k_last_used_at : option PyDateTime;
  k_user_id : Uuid;
  k_tenant_id : option Uuid;
  k_created_at : PyDateTime;
  k_updated_at : PyDateTime;
  k_scope : APIKeyScope;
}.

Record Invitation := mkInvitation {
  i_id : Uuid;
  i_email : string;
  i_token : string;
  i_status : InvitationStatus;
  i_expires_at : datetime;
  i_accepted_at : option datetime;
  i_tenant_id : Uuid;
  i_inviter_id : Uuid;
  i_user_id : option Uuid;
  i_role_id : option Uuid;
  i_created_at : datetime;
  i_updated_at : datetime;
}.

#[global] Instance Tenant_eq_dec : EqDecision Tenant.
Proof. solve_decision. Defined.
#[global] Instance User_eq_dec : EqDecision User.
Proof. solve_decision. Defined.
#[global] Instance Role_eq_dec : EqDecision Role.
Proof. solve_decision. Defined.
#[global] Instance Permission_eq_dec : EqDecision Permission.
Proof. solve_decision. Defined.
#[global] Instance APIKey_eq_dec : EqDecision APIKey.
Proof. solve_decision. Defined.
#[global] Instance Invitation_eq_dec : EqDecision Invitation.
Proof. solve_decision. Defined.

(** Rows of [user_tenant_roles] are keyed by (user, role, tenant) and carry
    [created_at]; the other association tables have only their keys. *)
Record Tables := mkTables {
  users : gmap Uuid User;
  tenants : gmap Uuid Tenant;
  roles : gmap Uuid Role;
  permissions : gmap Uuid Permission;
  api_keys : gmap Uuid APIKey;
  invitations : gmap Uuid Invitation;
  role_permissions : gset (Uuid * Uuid);
  tenant_roles : gset (Uuid * Uuid);
  user_tenant_roles : gmap (Uuid * Uuid * Uuid) datetime;
}.

Definition empty_tables : Tables := mkTables ∅ ∅ ∅ ∅ ∅ ∅ ∅ ∅ ∅.

Definition set_users m t := mkTables m (tenants t) (roles t) (permissions t) (api_keys t)
  (invitations t) (role_permissions t) (tenant_roles t) (user_tenant_roles t).
Definition set_tenants m t := mkTables (users t) m (roles t) (permissions t) (api_keys t)
  (invitations t) (role_permissions t) (tenant_roles t) (user_tenant_roles t).
Definition set_roles m t := mkTables (users t) (tenants t) m (permissions t) (api_keys t)
  (invitations t) (role_permissions t) (tenant_roles t) (user_tenant_roles t).
Definition set_permissions m t := mkTables (users t) (tenants t) (roles t) m (api_keys t)
  (invitations t) (role_permissions t) (tenant_roles t) (user_tenant_roles t).
Definition set_api_keys m t := mkTables (users t) (tenants t) (roles t) (permissions t) m
  (invitations t) (role_permissions t) (tenant_roles t) (user_tenant_roles t).
Definition set_invitations m t := mkTables (users t) (tenants t) (roles t) (permissions t)
  (api_keys t) m (role_permissions t) (tenant_roles t) (user_tenant_roles t).
Definition set_role_permissions_tbl s t := mkTables (users t) (tenants t) (roles t)
  (permissions t) (api_keys t) (invitations t) s (tenant_roles t) (user_tenant_roles t).
Definition set_tenant_roles_tbl s t := mkTables (users t) (tenants t) (roles t)
  (permissions t) (api_keys t) (invitations t) (role_permissions t) s (user_tenant_roles t).
Definition set_user_tenant_roles m t := mkTables (users t) (tenants t) (roles t)
  (permissions t) (api_keys t) (invitations t) (role_permissions t) (tenant_roles t) m.

(** ** Constraints *)

Inductive Constraint :=
  | UqUserEmail | UqTenantName | UqTenantSlug | UqPermissionName | UqPermissionCode
  | UqApiKeyPrefix | UqInvitationToken | UqRolePermission | UqUserRoleTenant
  | PrimaryKey
  | NotNull (column : string)
  | FkApiKeyUser | FkApiKeyTenant | FkInvitationTenant | FkInvitationInviter
  | FkInvitationUser | FkRoleTenant
  | FkRolePermission | FkUserTenantRole.

#[global] Instance Constraint_eq_dec : EqDecision Constraint.
Proof. solve_decision. Defined.

(** A reference a foreign key makes. *)
Inductive Ref := RefUser (i : Uuid) | RefTenant (i : Uuid) | RefRole (i : Uuid)
  | RefPermission (i : Uuid).

Definition ref_ok (t : Tables) (r : Ref) : Prop :=
  match r with
  | RefUser i => is_Some (users t !! i)
  | RefTenant i => is_Some (tenants t !! i)
  | RefRole i => is_Some (roles t !! i)
  | RefPermission i => is_Some (permissions t !! i)
  end.

#[global] Instance ref_ok_dec t r : Decision (ref_ok t r).
Proof. destruct r; simpl; apply _. Defined.

(** What the declarations of an ORM class give: its table, its primary key,
    its unique columns and its foreign keys. *)
Class OrmModel (R : Type) := {
  table : Tables → gmap Uuid R;
  set_table : gmap Uuid R → Tables → Tables;
  row_id : R → Uuid;
  unique_keys : R → list (Constraint * string);
  foreign_keys : R → list (Constraint * Ref);
  touch : Z → R → R  (** [onupdate] of [updated_at] *)
}.

Definition opt_fk {A} (c : Constraint) (f : A → Ref) (o : option A) : list (Constraint * Ref) :=
  match o with Some a => [(c, f a)] | None => [] end.

#[global] Instance Tenant_model : OrmModel Tenant := {|
  table := tenants; set_table := set_tenants; row_id := t_id;
  unique_keys r := [(UqTenantName, t_name r); (UqTenantSlug, t_slug r)];
  foreign_keys r := [];
  touch now r := mkTenant (t_id r) (t_name r) (t_slug r) (t_description r) (t_is_active r)
    (t_created_at r) now |}.

#[global] Instance User_model : OrmModel User := {|
  table := users; set_table := set_users; row_id := u_id;
  unique_keys r := [(UqUserEmail, u_email r)];
  foreign_keys r := [];
  touch now r := mkUser (u_id r) (u_email r) (u_hashed_password r) (u_full_name r)
    (u_is_active r) (u_is_superuser r) (u_last_login r) (u_created_at r) now |}.

#[global] Instance Role_model : OrmModel Role := {|
  table := roles; set_table := set_roles; row_id := r_id;
  unique_keys r := [];
  foreign_keys r := opt_fk FkRoleTenant RefTenant (r_tenant_id r);
  touch now r := mkRole (r_id r) (r_name r) (r_description r) (r_tenant_id r)
    (r_is_system_role r) (r_created_at r) now |}.

#[global] Instance Permission_model : OrmModel Permission := {|
  table := permissions; set_table := set_permissions; row_id := p_id;
  unique_keys r := [(UqPermissionName, p_name r); (UqPermissionCode, p_code r)];
  foreign_keys r := [];
  touch now r := mkPermission (p_id r) (p_name r) (p_code r) (p_description r)
    (p_created_at r) now |}.

#[global] Instance APIKey_model : OrmModel APIKey := {|
  table := api_keys; set_table := set_api_keys; row_id := k_id;
  unique_keys r := [(UqApiKeyPrefix, k_key_prefix r)];
  foreign_keys r := (FkApiKeyUser, RefUser (k_user_id r))
                    :: opt_fk FkApiKeyTenant RefTenant (k_tenant_id r);
  touch now r := mkAPIKey (k_id r) (k_name r) (k_key_prefix r) (k_key_hash r)
    (k_description r) (k_is_active r) (k_expires_at r) (k_last_used_at r) (k_user_id r)
    (k_tenant_id r) (k_created_at r) (Aware now 0) (k_scope r) |}.

#[global] Instance Invitation_model : OrmModel Invitation := {|
  table := invitations; set_table := set_invitations; row_id := i_id;
  unique_keys r := [(UqInvitationToken, i_token r)];
  foreign_keys r := (FkInvitationTenant, RefTenant (i_tenant_id r))
                    :: (FkInvitationInviter, RefUser (i_inviter_id r))
                    :: opt_fk FkInvitationUser RefUser (i_user_id r);
  touch now r := mkInvitation (i_id r) (i_email r) (i_token r) (i_status r) (i_expires_at r)
    (i_accepted_at r) (i_tenant_id r) (i_inviter_id r) (i_user_id r) (i_role_id r)
    (i_created_at r) now |}.

(** ** Writes *)

Section writes.
Context {R : Type} `{OrmModel R}.

(** The first unique column on which [r] meets another row. *)
Definition unique_clash (r : R) (t : Tables) : option Constraint :=
  fst <$> head (filter (λ '(c, v), map_Exists (λ j r', j ≠ row_id r ∧ (c, v) ∈ unique_keys r')
                                             (table t)) (unique_keys r)).

(** The first foreign key of [r] without a target. *)
Definition fk_missing (r : R) (t : Tables) : option Constraint :=
  fst <$> head (filter (λ '(c, ref), ¬ ref_ok t ref) (foreign_keys r)).

Definition row_violation (r : R) (t : Tables) : option Constraint :=
  match unique_clash r t with Some c => Some c | None => fk_missing r t end.

(** Write row [r] in place of the row with its primary key. *)
Definition put_row (r : R) (t : Tables) : Tables + Constraint :=
  match row_violation r t with
  | Some c => inr c
  | None => inl (set_table (<[row_id r := r]> (table t)) t)
  end.

(** [INSERT] of row [r]. *)
Definition insert_row (r : R) (t : Tables) : Tables + Constraint :=
  match table t !! row_id r with
  | Some _ => inr PrimaryKey
  | None => put_row r t
  end.
End writes.

(** [INSERT INTO role_permissions VALUES ...] of all pairs of the role with
    [pids], in one statement. *)
Fixpoint insert_role_permissions (rid : Uuid) (pids : list Uuid) (t : Tables) : Tables + Constraint :=
  match pids with
  | [] => inl t
  | pid :: pids' =>
      if decide ((rid, pid) ∈ role_permissions t) then inr UqRolePermission
      else if decide (ref_ok t (RefRole rid) ∧ ref_ok t (RefPermission pid)) then
        insert_role_permissions rid pids'
          (set_role_permissions_tbl ({[(rid, pid)]} ∪ role_permissions t) t)
      else inr FkRolePermission
  end.

Definition delete_role_permissions (rid : Uuid) (t : Tables) : Tables :=
  set_role_permissions_tbl (filter (λ k, k.1 ≠ rid) (role_permissions t)) t.

(** [INSERT INTO user_tenant_roles] of one row. *)
Definition insert_user_tenant_role (now : datetime) (uid rid tid : Uuid) (t : Tables)
    : Tables + Constraint :=
  match user_tenant_roles t !! (uid, rid, tid) with
  | Some _ => inr UqUserRoleTenant
  | None =>
      if decide (ref_ok t (RefUser uid) ∧ ref_ok t (RefRole rid) ∧ ref_ok t (RefTenant tid))
      then inl (set_user_tenant_roles (<[(uid, rid, tid) := now]> (user_tenant_roles t)) t)
      else inr FkUserTenantRole
  end.

(** [INSERT ... ON CONFLICT DO NOTHING] of the rows ([uid], [rid], [tid]) for
    each [uid]. *)
Fixpoint insert_users_for_role (now : datetime) (rid tid : Uuid) (uids : list Uuid) (t : Tables)
    : Tables + Constraint :=
  match uids with
  | [] => inl t
  | uid :: uids' =>
      match insert_user_tenant_role now uid rid tid t with
      | inl t' => insert_users_for_role now rid tid uids' t'
      | inr UqUserRoleTenant => insert_users_for_role now rid tid uids' t
      | inr c => inr c
      end
  end.

(** [DELETE FROM user_tenant_roles WHERE p]. *)
Definition delete_user_tenant_roles (p : Uuid * Uuid * Uuid → Prop) `{!∀ k, Decision (p k)}
    (t : Tables) : Tables :=
  set_user_tenant_roles (filter (λ kv, ¬ p kv.1) (user_tenant_roles t)) t.

(** ** Deletions and their cascades *)

(** [DELETE FROM roles WHERE id IN d]: [role_permissions], [tenant_roles] and
    [user_tenant_roles] cascade. *)
Definition delete_roles (d : Uuid → Prop) `{!∀ i, Decision (d i)} (t : Tables) : Tables :=
  mkTables (users t) (tenants t) (filter (λ kv, ¬ d kv.1) (roles t)) (permissions t)
    (api_keys t) (invitations t)
    (filter (λ k, ¬ d k.1) (role_permissions t))
    (filter (λ k, ¬ d k.2) (tenant_roles t))
    (filter (λ kv, ¬ d kv.1.1.2) (user_tenant_roles t)).

Definition delete_role (rid : Uuid) (t : Tables) : Tables := delete_roles (λ i, i = rid) t.

(** [DELETE FROM tenants WHERE id = tid]: the tenant's API keys, invitations
    and roles go with it, and every association row that mentions the tenant
    or one of those roles. *)
Definition delete_tenant (tid : Uuid) (t : Tables) : Tables :=
  let t1 := delete_roles (λ i, (r_tenant_id <$> roles t !! i) = Some (Some tid)) t in
  mkTables (users t1) (delete tid (tenants t1)) (roles t1) (permissions t1)
    (filter (λ kv, k_tenant_id kv.2 ≠ Some tid) (api_keys t1))
    (filter (λ kv, i_tenant_id kv.2 ≠ tid) (invitations t1))
    (role_permissions t1)
    (filter (λ k, k.1 ≠ tid) (tenant_roles t1))
    (filter (λ kv, kv.1.2 ≠ tid) (user_tenant_roles t1)).

Definition delete_api_key (kid : Uuid) (t : Tables) : Tables :=
  set_api_keys (delete kid (api_keys t)) t.

(** ** Integrity *)

Section integrity.
Context (R : Type) `{OrmModel R}.

(** What the database guarantees of one table: rows sit under their primary
    key, unique columns differ between rows, foreign keys have targets. *)
Record model_ok (t : Tables) : Prop := {
  model_ids : ∀ i (r : R), table t !! i = Some r → row_id r = i;
  model_unique : ∀ i j (ri rj : R) k, table t !! i = Some ri → table t !! j = Some rj →
    k ∈ unique_keys ri → k ∈ unique_keys rj → i = j;
  model_fk : ∀ i (r : R) c ref, table t !! i = Some r → (c, ref) ∈ foreign_keys r →
    ref_ok t ref
}.
End integrity.

Arguments model_ids {R _ t} _ i r _.
Arguments model_unique {R _ t} _ i j ri rj k _ _ _ _.
Arguments model_fk {R _ t} _ i r c ref _ _.

Record db_ok (t : Tables) : Prop := {
  ok_users : model_ok User t;
  ok_tenants : model_ok Tenant t;
  ok_roles : model_ok Role t;
  ok_permissions : model_ok Permission t;
  ok_api_keys : model_ok APIKey t;
  ok_invitations : model_ok Invitation t;
  ok_role_permissions : ∀ rid pid, (rid, pid) ∈ role_permissions t →
    ref_ok t (RefRole rid) ∧ ref_ok t (RefPermission pid);
  ok_tenant_roles : ∀ tid rid, (tid, rid) ∈ tenant_roles t →
    ref_ok t (RefTenant tid) ∧ ref_ok t (RefRole rid);
  ok_user_tenant_roles : ∀ uid rid tid, is_Some (user_tenant_roles t !! (uid, rid, tid)) →
    ref_ok t (RefUser uid) ∧ ref_ok t (RefRole rid) ∧ ref_ok t (RefTenant tid)
}.

Lemma db_ok_empty : db_ok empty_tables.
Proof.
  split; try split; intros; simpl in *;
    try match goal with
    | H : ∅ !! _ = Some _ |- _ => by rewrite lookup_empty in H
    | H : is_Some (∅ !! _) |- _ => destruct H as [? H]; by rewrite lookup_empty in H
    | H : _ ∈ ∅ |- _ => by apply elem_of_empty in H
    end.
Qed.

(** References that resolve in [t] resolve in [t']. *)
Definition refs_le (t t' : Tables) : Prop := ∀ r, ref_ok t r → ref_ok t' r.

Lemma refs_le_refl t : refs_le t t.
Proof. by intros r. Qed.

Lemma model_ok_frame R `{OrmModel R} t t' :
  table t' = table t → refs_le t t' → model_ok R t → model_ok R t'.
Proof.
  intros Ht Hle [Hid Huq Hfk]. split; rewrite Ht; [done|done|].
  intros i r c ref Hi Hin. by eapply Hle, Hfk.
Qed.

Lemma unique_clash_None {R} `{OrmModel R} (r : R) t :
  unique_clash r t = None → ∀ k j rj, k ∈ unique_keys r → table t !! j = Some rj →
  k ∈ unique_keys rj → j = row_id r.
Proof.
  unfold unique_clash. intros Hn%fmap_None [c v] j rj Hk Hj Hkj.
  eapply (head_filter_None _ _) in Hn; [|exact Hk]. simpl in Hn.
  destruct (decide (j = row_id r)) as [|Hne]; [done|]. exfalso. apply Hn. by exists j, rj.
Qed.

Lemma fk_missing_None {R} `{OrmModel R} (r : R) t :
  fk_missing r t = None → ∀ c ref, (c, ref) ∈ foreign_keys r → ref_ok t ref.
Proof.
  unfold fk_missing. intros Hn%fmap_None c ref Hin.
  eapply (head_filter_None _ _) in Hn; [|exact Hin]. simpl in Hn.
  by destruct (decide (ref_ok t ref)).
Qed.

(** A row the database accepts leaves its table well formed. *)
Lemma put_row_model_ok {R} `{OrmModel R} (r : R) t t' :
  table t' = <[row_id r := r]> (table t) → refs_le t t' → row_violation r t = None →
  model_ok R t → model_ok R t'.
Proof.
  intros Ht Hle Hv [Hid Huq Hfk]. unfold row_violation in Hv.
  destruct (unique_clash r t) eqn:Hc; [done|].
  pose proof (unique_clash_None r t Hc) as Hu. pose proof (fk_missing_None r t Hv) as Hf.
  split; rewrite Ht.
  - intros i x [[<- <-]|[? Hx]]%lookup_insert_Some; [done|by apply Hid].
  - intros i j ri rj k [[<- <-]|[Hi Hri]]%lookup_insert_Some
      [[<- <-]|[Hj Hrj]]%lookup_insert_Some Hki Hkj; try done.
    + symmetry. by eapply Hu.
    + by eapply Hu.
    + by eapply Huq.
  - intros i x c ref [[<- <-]|[? Hx]]%lookup_insert_Some Hin; eapply Hle; eauto.
Qed.

(** Laws of the six ORM classes: what replacing one entity table does. *)
Class OrmLaws (R : Type) `{OrmModel R} : Prop := {
  table_set : ∀ (m : gmap Uuid R) t, table (set_table m t) = m;
  set_table_refs : ∀ (m : gmap Uuid R) t,
    (∀ i, is_Some (table t !! i) → is_Some (m !! i)) → refs_le t (set_table m t);
  set_table_ok : ∀ (m : gmap Uuid R) t, db_ok t → model_ok R (set_table m t) →
    refs_le t (set_table m t) → db_ok (set_table m t);
  touch_id : ∀ now (r : R), row_id (touch now r) = row_id r;
  touch_keys : ∀ now (r : R), unique_keys (touch now r) = unique_keys r;
  touch_fks : ∀ now (r : R), foreign_keys (touch now r) = foreign_keys r
}.

Ltac solve_orm_laws :=
  split; try done;
  [ intros m t Hm [i|i|i|i]; simpl in *; eauto
  | intros m t [] Hm Hle;
    split; try done; try (by (eapply model_ok_frame; [|exact Hle|]; [reflexivity|assumption]));
    simpl in *; intros;
    repeat match goal with
    | Hx : ∀ _ _, (_, _) ∈ _ → _, Hin : (_, _) ∈ _ |- _ => apply Hx in Hin as [? ?]
    | Hx : ∀ _ _ _, is_Some _ → _, Hin : is_Some _ |- _ => apply Hx in Hin as (? & ? & ?)
    end;
    repeat split; match goal with Hr : is_Some (?tb _ !! ?i) |- _ => idtac end;
    try (by apply (Hle (RefUser _))); try (by apply (Hle (RefTenant _)));
    try (by apply (Hle (RefRole _))); try (by apply (Hle (RefPermission _))) ].

#[global] Instance Tenant_laws : OrmLaws Tenant.
Proof. solve_orm_laws. Qed.
#[global] Instance User_laws : OrmLaws User.
Proof. solve_orm_laws. Qed.
#[global] Instance Role_laws : OrmLaws Role.
Proof. solve_orm_laws. Qed.
#[global] Instance Permission_laws : OrmLaws Permission.
Proof. solve_orm_laws. Qed.
#[global] Instance APIKey_laws : OrmLaws APIKey.
Proof. solve_orm_laws. Qed.
#[global] Instance Invitation_laws : OrmLaws Invitation.
Proof. solve_orm_laws. Qed.

Section write_ok.
Context {R : Type} `{OrmLaws R}.

Lemma put_row_eq (r : R) t t' :
  put_row r t = inl t' → t' = set_table (<[row_id r := r]> (table t)) t ∧ row_violation r t = None.
Proof. unfold put_row. destruct (row_violation r t); naive_solver. Qed.

Lemma insert_row_eq (r : R) t t' :
  insert_row r t = inl t' →
  table t !! row_id r = None ∧ t' = set_table (<[row_id r := r]> (table t)) t ∧
  row_violation r t = None.
Proof. unfold insert_row. destruct (table t !! row_id r); [done|]. intros []%put_row_eq. done. Qed.

(** What makes the database refuse an [INSERT]. *)
Lemma insert_row_error (r : R) t c :
  insert_row r t = inr c →
  is_Some (table t !! row_id r) ∨
  (∃ k j rj, k ∈ unique_keys r ∧ table t !! j = Some rj ∧ k ∈ unique_keys rj) ∨
  ∃ k ref, (k, ref) ∈ foreign_keys r ∧ ¬ ref_ok t ref.
Proof.
  unfold insert_row. destruct (table t !! row_id r) as [r'|]; [intros _; left; by exists r'|].
  intros Hp. right. unfold put_row, row_violation in Hp.
  destruct (unique_clash r t) as [c'|] eqn:Hu; [left|right].
  - unfold unique_clash in Hu. apply fmap_Some in Hu as ([k v] & Hh & _).
    apply head_filter_Some in Hh as [(j & x & Hj & _ & Hx) Hin]. by exists (k, v), j, x.
  - unfold fk_missing in Hp. destruct (head _) as [[k ref]|] eqn:Hh; [|done].
    apply head_filter_Some in Hh as [Hno Hin]. by exists k, ref.
Qed.

Lemma put_row_ok (r : R) t t' : db_ok t → model_ok R t → put_row r t = inl t' → db_ok t'.
Proof.
  intros Hok Hm [-> Hv]%put_row_eq.
  assert (refs_le t (set_table (<[row_id r:=r]> (table t)) t)) as Hle.
  { apply set_table_refs. intros i Hi. rewrite lookup_insert. by case_decide. }
  apply set_table_ok; [done| |done]. eapply put_row_model_ok; eauto. by rewrite table_set.
Qed.

Lemma insert_row_ok (r : R) t t' : db_ok t → model_ok R t → insert_row r t = inl t' → db_ok t'.
Proof. intros Hok Hm (? & -> & Hv)%insert_row_eq. eapply put_row_ok; eauto.
  unfold put_row. by rewrite Hv. Qed.

Lemma put_row_lookup (r : R) t t' i :
  put_row r t = inl t' → table t' !! i = if decide (row_id r = i) then Some r else table t !! i.
Proof. intros [-> _]%put_row_eq. by rewrite table_set, lookup_insert. Qed.
End write_ok.

(** Replacing a row by one with the same key and unique columns can only
    violate a foreign key. *)
Lemma row_violation_same {R} `{OrmModel R} (r0 r : R) t :
  model_ok R t → table t !! row_id r0 = Some r0 → row_id r = row_id r0 →
  unique_keys r = unique_keys r0 → row_violation r t = fk_missing r t.
Proof.
  intros Hm Hl Hid Hk. unfold row_violation. destruct (unique_clash r t) as [c|] eqn:Hc; [|done].
  exfalso. unfold unique_clash in Hc. apply fmap_Some in Hc as ([c' v] & Hh & _).
  apply head_filter_Some in Hh as [(j & x & Hj & Hne & Hx) Hin]. rewrite Hk in Hin.
  pose proof (model_unique Hm _ _ _ _ _ Hl Hj Hin Hx) as Heq. congruence.
Qed.

Lemma fk_missing_iff {R} `{OrmModel R} (r : R) t :
  fk_missing r t = None ↔ ∀ c ref, (c, ref) ∈ foreign_keys r → ref_ok t ref.
Proof.
  split; [apply fk_missing_None|]. intros Hall. unfold fk_missing.
  assert (filter (λ '(c, ref), ¬ ref_ok t ref) (foreign_keys r) = []) as ->; [|done].
  apply filter_nil_iff. intros [c ref] Hin Hn. apply Hn. by eapply Hall.
Qed.

(** ** Association tables *)

(** Integrity only depends on the entity tables through the references. *)
Lemma db_ok_assoc t rp tr utr :
  db_ok t →
  (∀ rid pid, (rid, pid) ∈ rp → ref_ok t (RefRole rid) ∧ ref_ok t (RefPermission pid)) →
  (∀ tid rid, (tid, rid) ∈ tr → ref_ok t (RefTenant tid) ∧ ref_ok t (RefRole rid)) →
  (∀ uid rid tid, is_Some (utr !! (uid, rid, tid)) →
    ref_ok t (RefUser uid) ∧ ref_ok t (RefRole rid) ∧ ref_ok t (RefTenant tid)) →
  db_ok (mkTables (users t) (tenants t) (roles t) (permissions t) (api_keys t) (invitations t)
           rp tr utr).
Proof.
  intros [] Hrp Htr Hutr. split; try done;
    (apply (model_ok_frame _ t); [done|by intros [i|i|i|i] ?|done]).
Qed.

Lemma insert_role_permissions_inv rid pids t t' :
  insert_role_permissions rid pids t = inl t' →
  t' = set_role_permissions_tbl (list_to_set ((pair rid) <$> pids) ∪ role_permissions t) t ∧
  NoDup pids ∧
  ∀ pid, pid ∈ pids →
    (rid, pid) ∉ role_permissions t ∧ ref_ok t (RefRole rid) ∧ ref_ok t (RefPermission pid).
Proof.
  revert t. induction pids as [|pid pids IH]; intros t; simpl.
  - intros [= <-]. split_and!; [|constructor|set_solver].
    destruct t; unfold set_role_permissions_tbl; simpl. f_equal. set_solver.
  - repeat case_decide; try done. intros (-> & Hnd & Hall)%IH.
    simpl in Hall. split_and!.
    + unfold set_role_permissions_tbl; simpl. f_equal. set_solver.
    + constructor; [|done]. intros Hin. destruct (Hall _ Hin) as [Hx _]. set_solver.
    + intros p [->|Hp]%elem_of_cons; [tauto|]. destruct (Hall _ Hp) as (? & ? & ?). set_solver.
Qed.

Lemma insert_role_permissions_ok rid pids t t' :
  db_ok t → insert_role_permissions rid pids t = inl t' → db_ok t'.
Proof.
  intros Hok (-> & _ & Hall)%insert_role_permissions_inv.
  apply db_ok_assoc; [done| |apply Hok|apply Hok].
  intros r p [Hin|Hin]%elem_of_union; [|by apply Hok].
  apply elem_of_list_to_set, list_elem_of_fmap in Hin as (p' & [= -> ->] & Hp').
  by apply Hall.
Qed.

Lemma delete_role_permissions_ok rid t : db_ok t → db_ok (delete_role_permissions rid t).
Proof.
  intros Hok. apply db_ok_assoc; [done| |apply Hok|apply Hok].
  intros r p [_ Hin]%elem_of_filter. by apply Hok.
Qed.

Lemma insert_user_tenant_role_inv now uid rid tid t t' :
  insert_user_tenant_role now uid rid tid t = inl t' →
  t' = set_user_tenant_roles (<[(uid, rid, tid) := now]> (user_tenant_roles t)) t ∧
  user_tenant_roles t !! (uid, rid, tid) = None ∧
  ref_ok t (RefUser uid) ∧ ref_ok t (RefRole rid) ∧ ref_ok t (RefTenant tid).
Proof.
  unfold insert_user_tenant_role. destruct (_ !! _); [done|]. case_decide; [|done]. by intros [= <-].
Qed.

Lemma insert_user_tenant_role_ok now uid rid tid t t' :
  db_ok t → insert_user_tenant_role now uid rid tid t = inl t' → db_ok t'.
Proof.
  intros Hok (-> & _ & Hr)%insert_user_tenant_role_inv.
  apply db_ok_assoc; [done|apply Hok|apply Hok|].
  intros u r x [y Hy]. apply lookup_insert_Some in Hy as [[[= <- <- <-] _]|[_ Hy]]; [done|].
  apply (ok_user_tenant_roles _ Hok). by exists y.
Qed.

Lemma insert_users_for_role_ok now rid tid uids t t' :
  db_ok t → insert_users_for_role now rid tid uids t = inl t' → db_ok t'.
Proof.
  revert t. induction uids as [|uid uids IH]; intros t Hok; simpl; [by intros [= <-]|].
  destruct (insert_user_tenant_role _ _ _ _ _) as [t1|c] eqn:Hi.
  - apply IH. by eapply insert_user_tenant_role_ok.
  - destruct c; try done. by apply IH.
Qed.

(** Which rows exist after the bulk insert. *)
Lemma insert_users_for_role_lookup now rid tid uids t t' :
  insert_users_for_role now rid tid uids t = inl t' →
  (∃ m, t' = set_user_tenant_roles m t) ∧
  (∀ k, is_Some (user_tenant_roles t' !! k) ↔
        is_Some (user_tenant_roles t !! k) ∨ ∃ uid, uid ∈ uids ∧ k = (uid, rid, tid)) ∧
  (∀ k x, user_tenant_roles t !! k = Some x → user_tenant_roles t' !! k = Some x).
Proof.
  revert t. induction uids as [|uid uids IH]; intros t; simpl.
  - intros [= <-]. split_and!; [exists (user_tenant_roles t); by destruct t| |done].
    intros k. split; [by left|]. intros [?|(? & ?%not_elem_of_nil & _)]; done.
  - destruct (insert_user_tenant_role _ _ _ _ _) as [t1|c] eqn:Hi.
    + apply insert_user_tenant_role_inv in Hi as (-> & Hnone & _).
      intros (Hm & Hs & Hp)%IH. split_and!.
      * destruct Hm as [m ->]. by exists m.
      * intros k. rewrite Hs. simpl. rewrite lookup_insert_is_Some.
        destruct (decide (k = (uid, rid, tid))) as [->|Hne].
        -- split; [right; set_solver|left; by left].
        -- split.
           ++ intros [[?|[_ ?]]|(u & Hu & ->)]; [done|by left|right; set_solver].
           ++ intros [?|(u & [->|Hu]%elem_of_cons & ->)]; [left; right; naive_solver|done|].
              right. eauto.
      * intros k x Hk. apply Hp. simpl. rewrite lookup_insert_ne; [done|]. congruence.
    + unfold insert_user_tenant_role in Hi. destruct (user_tenant_roles t !! _) eqn:Hk;
        [|case_decide; [done|]; injection Hi as <-; done]. injection Hi as <-. intros (Hm & Hs & Hp)%IH. split_and!; [done| |done].
      intros k. rewrite Hs. split; [intros [?|(u & ? & ->)]; [by left|right; set_solver]|].
      intros [?|(u & [->|Hu]%elem_of_cons & ->)]; [by left|left; eauto|right; eauto].
Qed.

Lemma delete_user_tenant_roles_ok p `{!∀ k, Decision (p k)} t :
  db_ok t → db_ok (delete_user_tenant_roles p t).
Proof.
  intros Hok. apply db_ok_assoc; [done|apply Hok|apply Hok|].
  intros u r x [y [Hy _]%map_lookup_filter_Some]. apply (ok_user_tenant_roles _ Hok). by exists y.
Qed.

(** The bulk insert can only fail on a missing reference: a user, role or
    tenant that does not exist. *)
Lemma insert_users_for_role_total now rid tid uids t :
  (∀ uid, uid ∈ uids → ref_ok t (RefUser uid)) → ref_ok t (RefRole rid) → ref_ok t (RefTenant tid) →
  ∃ t', insert_users_for_role now rid tid uids t = inl t'.
Proof.
  intros Hu Hr Ht. revert t Hu Hr Ht. induction uids as [|uid uids IH]; intros t Hu Hr Ht; simpl; eauto.
  destruct (insert_user_tenant_role _ _ _ _ _) as [t1|c] eqn:Hi.
  - apply insert_user_tenant_role_inv in Hi as (-> & _). apply IH; [|done..].
    intros u ?. apply Hu. set_solver.
  - unfold insert_user_tenant_role in Hi. destruct (user_tenant_roles t !! _).
    + injection Hi as <-. apply IH; [|done..]. intros u ?. apply Hu. set_solver.
    + rewrite decide_True in Hi; [done|]. split_and!; [|done..]. apply Hu. set_solver.
Qed.

Lemma insert_users_for_role_missing now rid tid uids t uid :
  uid ∈ uids → ¬ ref_ok t (RefUser uid) → db_ok t →
  ∃ c, insert_users_for_role now rid tid uids t = inr c.
Proof.
  intros Hin Hno Hok. destruct (insert_users_for_role now rid tid uids t) as [t'|c] eqn:Hi; [|eauto].
  exfalso. pose proof (insert_users_for_role_ok _ _ _ _ _ _ Hok Hi) as Hok'.
  apply insert_users_for_role_lookup in Hi as ([m ->] & Hs & _).
  destruct (ok_user_tenant_roles _ Hok' uid rid tid) as [Hu _]; [|done].
  apply Hs. right. eauto.
Qed.

(** ** Deletions keep integrity *)

Lemma model_ok_sub R `{OrmModel R} t t' :
  (∀ i (r : R), table t' !! i = Some r → table t !! i = Some r ∧
     ∀ c ref, (c, ref) ∈ foreign_keys r → ref_ok t ref → ref_ok t' ref) →
  model_ok R t → model_ok R t'.
Proof.
  intros Hsub [Hid Huq Hfk]. split.
  - intros i r [Hi _]%Hsub. by apply Hid.
  - intros i j ri rj k [Hi _]%Hsub [Hj _]%Hsub. by eapply Huq.
  - intros i r c ref Hi Hin. apply Hsub in Hi as [Hi Hr]. eauto.
Qed.

(** Contradict a foreign key whose target the row cannot name. *)
Ltac fk_cases Hin :=
  simpl in Hin; unfold opt_fk in Hin;
  repeat match type of Hin with
  | _ ∈ match ?o with Some _ => _ | None => _ end => destruct o; simpl in Hin
  | _ ∈ _ :: _ => let E := fresh "E" in
      apply elem_of_cons in Hin as [E|Hin]; [exfalso; congruence|]
  | _ ∈ [] => by apply not_elem_of_nil in Hin
  end.

Ltac no_fk t :=
  apply (model_ok_sub _ t);
    [let Hin := fresh "Hin" in intros ? ? ?; split; [done|]; intros ? ? Hin; fk_cases Hin | done].

Lemma delete_roles_ok d `{!∀ i, Decision (d i)} t : db_ok t → db_ok (delete_roles d t).
Proof.
  intros [Hu Ht Hr Hp Hk Hi Hrp Htr Hutr].
  assert (∀ ref, (∀ i, ref ≠ RefRole i) → ref_ok t ref → ref_ok (delete_roles d t) ref) as Hle.
  { intros [i|i|i|i] Hne; simpl; try done. by destruct (Hne i). }
  assert (∀ rid, ¬ d rid → ref_ok t (RefRole rid) → ref_ok (delete_roles d t) (RefRole rid)) as Hrole.
  { intros rid Hn [r Hl]. exists r. simpl. by apply map_lookup_filter_Some. }
  split.
  - no_fk t.
  - no_fk t.
  - apply (model_ok_sub _ t); [|done]. intros i r [Hl _]%map_lookup_filter_Some.
    split; [done|]. simpl. intros c ref Hin. apply Hle. intros j ->. fk_cases Hin.
  - no_fk t.
  - apply (model_ok_sub _ t); [|done]. intros i r Hl. split; [done|]. simpl.
    intros c ref Hin. apply Hle. intros j ->. fk_cases Hin.
  - apply (model_ok_sub _ t); [|done]. intros i r Hl. split; [done|]. simpl.
    intros c ref Hin. apply Hle. intros j ->. fk_cases Hin.
  - intros rid pid [Hn Hin]%elem_of_filter. apply Hrp in Hin as [??]. auto.
  - intros tid rid [Hn Hin]%elem_of_filter. apply Htr in Hin as [??]. auto.
  - intros uid rid tid [x [Hl Hn]%map_lookup_filter_Some].
    destruct (Hutr uid rid tid) as (?&?&?); [by eexists|]. auto.
Qed.

Lemma delete_tenant_ok tid t : db_ok t → db_ok (delete_tenant tid t).
Proof.
  intros Hok. unfold delete_tenant. set (d := λ i, _).
  pose proof (delete_roles_ok d t Hok) as Hok1.
  assert (∀ i r, roles (delete_roles d t) !! i = Some r → r_tenant_id r ≠ Some tid) as Hnr.
  { intros i r [Hl Hn]%map_lookup_filter_Some Heq. apply Hn. subst d. simpl. by rewrite Hl, <- Heq. }
  revert Hok1 Hnr. generalize (delete_roles d t). clear d t Hok. intros t [Hu Ht Hr Hp Hk Hi Hrp Htr Hutr] Hnr.
  match goal with |- db_ok ?x => set (t' := x) end.
  assert (∀ ref, ref ≠ RefTenant tid → ref_ok t ref → ref_ok t' ref) as Hle.
  { intros [i|i|i|i] Hne; simpl; try done. rewrite lookup_delete_ne; [done|]. intros ->. by apply Hne. }
  split.
  - no_fk t.
  - apply (model_ok_sub _ t); [|done]. intros i r Hl. split.
    + simpl in Hl. by apply lookup_delete_Some in Hl as [_ ?].
    + intros c ref Hin. fk_cases Hin.
  - apply (model_ok_sub _ t); [|done]. intros i r Hl. split; [done|]. intros c ref Hin. apply Hle.
    intros ->. apply Hnr in Hl. fk_cases Hin.
  - no_fk t.
  - apply (model_ok_sub _ t); [|done]. intros i r [Hl Hn]%map_lookup_filter_Some.
    split; [done|]. intros c ref Hin. apply Hle. intros ->. simpl in Hn. fk_cases Hin.
  - apply (model_ok_sub _ t); [|done]. intros i r [Hl Hn]%map_lookup_filter_Some.
    split; [done|]. intros c ref Hin. apply Hle. intros ->. simpl in Hn. fk_cases Hin.
  - intros rid pid Hin. apply Hrp in Hin as [??]. auto.
  - intros x rid [Hn Hin]%elem_of_filter. apply Htr in Hin as [??]. simpl in Hn.
    split; apply Hle; congruence.
  - intros uid rid x [y [Hl Hn]%map_lookup_filter_Some]. simpl in Hn.
    destruct (Hutr uid rid x) as (?&?&?); [by eexists|]. split_and!; apply Hle; congruence.
Qed.

Lemma delete_api_key_ok kid t : db_ok t → db_ok (delete_api_key kid t).
Proof.
  intros Hok. assert (refs_le t (delete_api_key kid t)) as Hle by (by intros [i|i|i|i] ?).
  change (db_ok (set_table (R := APIKey) (delete kid (api_keys t)) t)).
  apply set_table_ok; [done| |done].
  apply (model_ok_sub _ t); [|apply Hok]. intros i r Hl. split.
  - simpl in Hl. by apply lookup_delete_Some in Hl as [_ ?].
  - intros c ref _. apply Hle.
Qed.

#[export] Hint Resolve insert_role_permissions_ok delete_role_permissions_ok
  insert_user_tenant_role_ok insert_users_for_role_ok delete_user_tenant_roles_ok
  delete_roles_ok delete_tenant_ok delete_api_key_ok : db.
#[export] Hint Resolve ok_users ok_tenants ok_roles ok_permissions ok_api_keys ok_invitations : db.

#[global] Opaque delete_tenant.
