(* ===== verification/Session.v ===== *)
(** * Database sessions and the world of a request

    SQLAlchemy's [AsyncSession] on PostgreSQL is not part of the repository:
    it is the interface [Session] and its documented laws [SessionLaws].  The
    services' theorems are proved against the interface; [Snapshot] is a
    concrete implementation on which witnesses compute.

    [World] is what a request can observe and change: the session, the clock
    and the sources of fresh identifiers and random bytes. *)

From stdpp Require Import base tactics list gmap sorting strings.
From Stdlib Require Import ZArith Lia.
From S2P Require Import Prelude PyStd Effects Models.

(** ** The session interface *)

Class Session (S : Type) := {
  sess_open : Tables → S;       (** a new session on this committed content *)
  sess_view : S → Tables;       (** what the session's own statements read *)
  sess_durable : S → Tables;    (** what is committed *)
  sess_usable : S → bool;       (** no failed flush awaits a rollback *)
  sess_write : Tables → S → S;  (** a flush or DML statement the database accepts *)
  sess_fail : S → S;            (** a flush or DML statement the database rejects *)
  sess_commit : S → S;
  sess_rollback : S → S;
  sess_order : ∀ {A : Type}, list A → list A;
    (** the order in which a [SELECT] without [ORDER BY] delivers rows *)
  sess_collate : string → string → bool;
    (** the database's order on strings *)
  sess_tz_aware : bool;
    (** whether [DateTime(timezone=True)] columns are read back as aware values *)
  sess_bare_exists : option bool;
    (** the value of the column [EXISTS (SELECT * )] in a [SELECT] list; [None]
        if the database rejects the statement *)
  sess_refresh_unmapped : string → option Exn;
    (** what [refresh(obj, attribute_names=[n])] raises, if anything, when the
        class of [obj] maps no attribute [n] *)
  sess_or_column : option (Uuid → bool → option Uuid);
    (** the SQL value of [x | column], for a [UUID] [x] and a Boolean column; [None]
        if neither class defines the operator and Python raises [TypeError] *)
  integrity_text : Constraint → string
    (** [str()] of the [IntegrityError] a violated constraint raises *)
}.

Class SessionLaws (S : Type) `{Session S} : Prop := {
  open_view t : sess_view (sess_open t : S) = t;
  open_durable t : sess_durable (sess_open t : S) = t;
  open_usable t : sess_usable (sess_open t : S) = true;
  write_view t (s : S) : sess_view (sess_write t s) = t;
  write_durable t (s : S) : sess_durable (sess_write t s) = sess_durable s;
  write_usable t (s : S) : sess_usable (sess_write t s) = sess_usable s;
  fail_durable (s : S) : sess_durable (sess_fail s) = sess_durable s;
  fail_usable (s : S) : sess_usable (sess_fail s) = false;
  commit_view (s : S) : sess_view (sess_commit s) = sess_view s;
  commit_durable (s : S) : sess_durable (sess_commit s) = sess_view s;
  commit_usable (s : S) : sess_usable (sess_commit s) = sess_usable s;
  rollback_view (s : S) : sess_view (sess_rollback s) = sess_durable s;
  rollback_durable (s : S) : sess_durable (sess_rollback s) = sess_durable s;
  rollback_usable (s : S) : sess_usable (sess_rollback s) = true;
  order_perm {A} (l : list A) : sess_order l ≡ₚ l;
  collate_total a b : sess_collate a b = true ∨ sess_collate b a = true;
  collate_trans a b c : sess_collate a b = true → sess_collate b c = true → sess_collate a c = true;
  (** SQLAlchemy raises no web framework's exceptions *)
  refresh_error n e : sess_refresh_unmapped (S := S) n = Some e → is_http e = false
}.

(** ** Inputs of the running program *)

(** Clock readings (microseconds UTC), [uuid.uuid4()] results and
    [secrets.token_bytes(32)] results, by position. *)
Class Inputs := {
  clock : nat → Z;
  uuid4_at : nat → Uuid;
  token_bytes_at : nat → list N;
  local_offset : Z → Z
}.

(** [secrets.token_bytes(32)] gives 32 bytes. *)
Class InputsLaws `{Inputs} : Prop := {
  token_length n : length (token_bytes_at n) = 32%nat;
  token_range n : Forall (λ b, (b < 256)%N) (token_bytes_at n)
}.

Record World (S : Type) := mkWorld {
  w_db : S;
  w_clock : nat;
  w_uuid : nat;
  w_rand : nat
}.
Arguments mkWorld {S}.
Arguments w_db {S}. Arguments w_clock {S}. Arguments w_uuid {S}. Arguments w_rand {S}.

Section world.
Context {S : Type} `{Session S} `{Inputs}.
Implicit Types w : World S.

Definition view w : Tables := sess_view (w_db w).
Definition durable w : Tables := sess_durable (w_db w).
Definition usable w : bool := sess_usable (w_db w).

Definition on_db (f : S → S) w : World S := mkWorld (f (w_db w)) (w_clock w) (w_uuid w) (w_rand w).
Definition tick w : World S := mkWorld (w_db w) (1 + w_clock w) (w_uuid w) (w_rand w).
Definition next_uuid w : World S := mkWorld (w_db w) (w_clock w) (1 + w_uuid w) (w_rand w).
Definition next_rand w : World S := mkWorld (w_db w) (w_clock w) (w_uuid w) (1 + w_rand w).

(** A fresh session on the committed content. *)
Definition reopen w : World S := on_db (λ s, sess_open (sess_durable s)) w.

(** The reading the next call to the clock returns. *)
Definition now w : Z := clock (w_clock w).

(** ** Primitive effects *)

(** [datetime.utcnow()]. *)
Definition utcnow : M (World S) datetime := λ w, (Ret (now w), tick w).

(** [datetime.now(timezone.utc)]. *)
Definition now_aware : M (World S) PyDateTime := λ w, (Ret (Aware (now w) 0), tick w).

(** The [default=uuid.uuid4] of a primary key. *)
Definition uuid4 : M (World S) Uuid := λ w, (Ret (uuid4_at (w_uuid w)), next_uuid w).

Definition token_bytes : M (World S) (list N) :=
  λ w, (Ret (token_bytes_at (w_rand w)), next_rand w).

(** [await db.execute(select ...)]. *)
Definition query {A} (q : Tables → A) : M (World S) A := λ w,
  if usable w then (Ret (q (view w)), w) else (Raise PendingRollbackError, w).

(** [.offset(skip).limit(limit)] at the end of a query: both are [bigint]
    parameters, and the driver refuses a number that is none. *)
Definition page_fits (skip limit : nat) : bool :=
  (Z.of_nat skip <? 2 ^ 63)%Z && (Z.of_nat limit <? 2 ^ 63)%Z.

Definition out_of_int64 : Exn := DBAPIError "value out of int64 range".

Definition query_page {A} (skip limit : nat) (q : Tables → list A) : M (World S) (list A) :=
  l ← query q;
  raise_if (negb (page_fits skip limit)) out_of_int64 ;;
  mret (page skip limit l).

(** A flush, or a DML statement. *)
Definition exec (u : Tables → Tables + Constraint) : M (World S) unit := λ w,
  if usable w then
    match u (view w) with
    | inl t => (Ret tt, on_db (sess_write t) w)
    | inr c => (Raise (IntegrityError (integrity_text (S := S) c)), on_db sess_fail w)
    end
  else (Raise PendingRollbackError, w).

Definition commit : M (World S) unit := λ w,
  if usable w then (Ret tt, on_db sess_commit w) else (Raise PendingRollbackError, w).

Definition rollback : M (World S) unit := λ w, (Ret tt, on_db sess_rollback w).

(** ** Reading rows *)

(** All rows of an entity table in the order the database delivers them. *)
Definition rows (R : Type) `{OrmModel R} (t : Tables) : list R :=
  sess_order (S := S) (snd <$> map_to_list (table t)).

(** [select(R).where(P)]. *)
Definition select {R} `{OrmModel R} (P : R → Prop) `{!∀ r, Decision (P r)} (t : Tables) : list R :=
  filter P (rows R t).

(** [.scalars().first()]. *)
Definition first {A} (l : list A) : option A := head l.

(** [.order_by(key)] on a string column. *)
Definition collate_le {A} (key : A → string) (a b : A) : Prop :=
  sess_collate (S := S) (key a) (key b) = true.

#[global] Instance collate_le_dec {A} (key : A → string) a b : Decision (collate_le key a b).
Proof. unfold collate_le. apply _. Defined.

Definition order_by_str {A} (key : A → string) (l : list A) : list A :=
  merge_sort (collate_le key) l.

(** [.order_by(key.desc())] on a timestamp column. *)
Definition newer {A} (key : A → Z) (a b : A) : Prop := (key b ≤ key a)%Z.

#[global] Instance newer_dec {A} (key : A → Z) a b : Decision (newer key a b).
Proof. unfold newer. apply _. Defined.

Definition order_by_desc {A} (key : A → Z) (l : list A) : list A :=
  merge_sort (newer key) l.

(** [select(A).join(B, on)]: the pairs of rows the condition relates. *)
Definition join {A B} (on : A → B → Prop) `{!∀ a b, Decision (on a b)} (la : list A) (lb : list B)
    : list (A * B) :=
  la ≫= λ a, pair a <$> filter (on a) lb.

(** Rows of [user_tenant_roles]: (user, role, tenant). *)
Definition utr_rows (t : Tables) : list (Uuid * Uuid * Uuid) :=
  sess_order (S := S) (elements (dom (user_tenant_roles t))).

(** Rows of [role_permissions]: (role, permission). *)
Definition rp_rows (t : Tables) : list (Uuid * Uuid) :=
  sess_order (S := S) (elements (role_permissions t)).

(** ** Requests *)

(** [db/session.py: get_db]: the endpoint runs in a session of its own; an
    exception rolls it back, and it is closed without a commit. *)
Definition get_db {A} (endpoint : M (World S) A) : M (World S) A := λ w,
  let '(r, w') :=
    try_catch endpoint (λ e, rollback ;; raise e) (reopen w) in
  (r, reopen w').
End world.

(** The HTTP status of an endpoint whose success status is [ok]: exceptions
    other than [HTTPException] reach the server error handler. *)
Definition http_status {A} (ok : Z) (r : outcome A) : Z :=
  match r with
  | Ret _ => ok
  | Raise (HTTPException c _) => c
  | Raise _ => 500
  end.

(** ** Laws of the world *)

Section laws.
Context {S : Type} `{SessionLaws S} `{Inputs}.
Implicit Types w : World S.

Lemma view_write t w : view (on_db (sess_write t) w) = t.
Proof. apply write_view. Qed.
Lemma durable_write t w : durable (on_db (sess_write t) w) = durable w.
Proof. apply write_durable. Qed.
Lemma usable_write t w : usable (on_db (sess_write t) w) = usable w.
Proof. apply write_usable. Qed.
Lemma durable_fail w : durable (on_db sess_fail w) = durable w.
Proof. apply fail_durable. Qed.
Lemma usable_fail w : usable (on_db sess_fail w) = false.
Proof. apply fail_usable. Qed.
Lemma view_commit w : view (on_db sess_commit w) = view w.
Proof. apply commit_view. Qed.
Lemma durable_commit w : durable (on_db sess_commit w) = view w.
Proof. apply commit_durable. Qed.
Lemma usable_commit w : usable (on_db sess_commit w) = usable w.
Proof. apply commit_usable. Qed.
Lemma view_rollback w : view (on_db sess_rollback w) = durable w.
Proof. apply rollback_view. Qed.
Lemma durable_rollback w : durable (on_db sess_rollback w) = durable w.
Proof. apply rollback_durable. Qed.
Lemma usable_rollback w : usable (on_db sess_rollback w) = true.
Proof. apply rollback_usable. Qed.
Lemma view_reopen w : view (reopen w) = durable w.
Proof. apply open_view. Qed.
Lemma durable_reopen w : durable (reopen w) = durable w.
Proof. apply open_durable. Qed.
Lemma usable_reopen w : usable (reopen w) = true.
Proof. apply open_usable. Qed.

Lemma view_tick w : view (tick w) = view w. Proof. done. Qed.
Lemma durable_tick w : durable (tick w) = durable w. Proof. done. Qed.
Lemma usable_tick w : usable (tick w) = usable w. Proof. done. Qed.
Lemma view_next_uuid w : view (next_uuid w) = view w. Proof. done. Qed.
Lemma durable_next_uuid w : durable (next_uuid w) = durable w. Proof. done. Qed.
Lemma usable_next_uuid w : usable (next_uuid w) = usable w. Proof. done. Qed.
Lemma view_next_rand w : view (next_rand w) = view w. Proof. done. Qed.
Lemma durable_next_rand w : durable (next_rand w) = durable w. Proof. done. Qed.
Lemma usable_next_rand w : usable (next_rand w) = usable w. Proof. done. Qed.

Lemma query_run {A} (q : Tables → A) w : usable w = true → query q w = (Ret (q (view w)), w).
Proof. intros Hu. unfold query. by rewrite Hu. Qed.

Lemma exec_run u w t : usable w = true → u (view w) = inl t →
  exec u w = (Ret tt, on_db (sess_write t) w).
Proof. intros Hu Ht. unfold exec. by rewrite Hu, Ht. Qed.

Lemma exec_fail_run u w c : usable w = true → u (view w) = inr c →
  exec u w = (Raise (IntegrityError (integrity_text c)), on_db sess_fail w).
Proof. intros Hu Ht. unfold exec. by rewrite Hu, Ht. Qed.

Lemma commit_run w : usable w = true → commit w = (Ret tt, on_db sess_commit w).
Proof. intros Hu. unfold commit. by rewrite Hu. Qed.

Lemma get_db_durable {A} (m : M (World S) A) w :
  durable (get_db m w).2 = durable (m (reopen w)).2.
Proof.
  unfold get_db, try_catch. destruct (m (reopen w)) as [[a|e] w'] eqn:Hm; simpl.
  - apply durable_reopen.
  - unfold rollback, raise, mbind, M_bind. simpl. by rewrite durable_reopen, durable_rollback.
Qed.

Lemma get_db_outcome {A} (m : M (World S) A) w : (get_db m w).1 = (m (reopen w)).1.
Proof.
  unfold get_db, try_catch. by destruct (m (reopen w)) as [[a|e] w'] eqn:Hm.
Qed.

(** Rows are those of the table, in some order. *)
Lemma elem_of_rows {R} `{OrmModel R} t (r : R) :
  r ∈ rows (S := S) R t ↔ ∃ i, table t !! i = Some r.
Proof.
  unfold rows. rewrite order_perm, list_elem_of_fmap. split.
  - intros ([i r'] & -> & Hin%elem_of_map_to_list). by exists i.
  - intros [i Hi]. exists (i, r). split; [done|]. by apply elem_of_map_to_list.
Qed.

Lemma NoDup_rows {R} `{OrmModel R} t : model_ok R t → NoDup (rows (S := S) R t).
Proof.
  intros Hm. unfold rows. rewrite order_perm. apply NoDup_fmap_2_strong; [|apply NoDup_map_to_list].
  intros [i r] [j r'] Hi Hj Hr. simpl in Hr. subst r'.
  apply elem_of_map_to_list in Hi, Hj.
  pose proof (model_ids Hm i r Hi). pose proof (model_ids Hm j r Hj). congruence.
Qed.

Lemma elem_of_select {R} `{OrmModel R} (P : R → Prop) `{!∀ r, Decision (P r)} t (r : R) :
  r ∈ select (S := S) P t ↔ P r ∧ ∃ i, table t !! i = Some r.
Proof. unfold select. by rewrite list_elem_of_filter, elem_of_rows. Qed.

Lemma first_select_Some {R} `{OrmModel R} (P : R → Prop) `{!∀ r, Decision (P r)} t (r : R) :
  first (select (S := S) P t) = Some r → P r ∧ ∃ i, table t !! i = Some r.
Proof. intros [HP Hin]%head_filter_Some. by rewrite elem_of_rows in Hin. Qed.

Lemma first_select_None {R} `{OrmModel R} (P : R → Prop) `{!∀ r, Decision (P r)} t :
  first (select (S := S) P t) = None ↔ ∀ i r, table t !! i = Some r → ¬ P r.
Proof.
  split.
  - intros Hn i r Hi. eapply head_filter_None; [done|]. apply elem_of_rows. by exists i.
  - intros Hn. apply head_None. apply filter_nil_iff.
    intros r [i Hi]%elem_of_rows. by eapply Hn.
Qed.

(** When one row at most can match, [first] returns it whatever the order. *)
Lemma first_select_unique {R} `{OrmModel R} (P : R → Prop) `{!∀ r, Decision (P r)} t i (r : R) :
  table t !! i = Some r → P r →
  (∀ j r', table t !! j = Some r' → P r' → r' = r) →
  first (select (S := S) P t) = Some r.
Proof.
  intros Hi HP Hu. apply head_filter_unique; [apply elem_of_rows; by exists i|done|].
  intros y [j Hj]%elem_of_rows. by eapply Hu.
Qed.

(** Lookup by primary key. *)
Lemma first_select_id {R} `{OrmModel R} t (i : Uuid) :
  model_ok R t → first (select (S := S) (λ r : R, row_id r = i) t) = table t !! i.
Proof.
  intros Hm. destruct (table t !! i) as [r|] eqn:Hi.
  - eapply first_select_unique; [done|by eapply model_ids|].
    intros j r' Hj Hr'. pose proof (model_ids Hm _ _ Hj). congruence.
  - apply first_select_None. intros j r Hj Hr. pose proof (model_ids Hm _ _ Hj). congruence.
Qed.

(** Lookup by a unique column. *)
Lemma first_select_key {R} `{OrmModel R} (P : R → Prop) `{!∀ r, Decision (P r)} (c : Constraint) v t
    (r : R) i :
  model_ok R t → (∀ r, P r ↔ (c, v) ∈ unique_keys r) →
  table t !! i = Some r → P r → first (select (S := S) P t) = Some r.
Proof.
  intros Hm HP Hi Hr. eapply first_select_unique; [done|done|].
  intros j r' Hj Hr'. apply HP in Hr, Hr'.
  pose proof (model_unique Hm i j r r' _ Hi Hj Hr Hr') as ->. congruence.
Qed.

Lemma order_by_str_perm {A} (key : A → string) l : order_by_str (S := S) key l ≡ₚ l.
Proof. apply merge_sort_Permutation. Qed.
Lemma order_by_desc_perm {A} (key : A → Z) l : order_by_desc key l ≡ₚ l.
Proof. apply merge_sort_Permutation. Qed.

Lemma order_by_str_sorted {A} (key : A → string) l :
  StronglySorted (collate_le (S := S) key) (order_by_str (S := S) key l).
Proof.
  apply StronglySorted_merge_sort.
  - intros a b c. apply collate_trans.
  - intros a b. apply collate_total.
Qed.
Lemma order_by_desc_sorted {A} (key : A → Z) l :
  StronglySorted (newer key) (order_by_desc key l).
Proof.
  apply StronglySorted_merge_sort.
  - intros a b c. unfold newer. lia.
  - intros a b. unfold newer. lia.
Qed.

Lemma elem_of_join {A B} (on : A → B → Prop) `{!∀ a b, Decision (on a b)} la lb a b :
  (a, b) ∈ join on la lb ↔ a ∈ la ∧ b ∈ lb ∧ on a b.
Proof.
  unfold join. rewrite list_elem_of_bind. split.
  - intros (a' & Hin & Ha). apply list_elem_of_fmap in Hin as (b' & [= -> ->] & Hb).
    apply list_elem_of_filter in Hb as [??]. done.
  - intros (Ha & Hb & Hon). exists a. split; [|done]. apply list_elem_of_fmap.
    exists b. split; [done|]. by apply list_elem_of_filter.
Qed.

Lemma elem_of_utr_rows t k : k ∈ utr_rows (S := S) t ↔ is_Some (user_tenant_roles t !! k).
Proof. unfold utr_rows. by rewrite order_perm, elem_of_elements, elem_of_dom. Qed.

Lemma elem_of_rp_rows t k : k ∈ rp_rows (S := S) t ↔ k ∈ role_permissions t.
Proof. unfold rp_rows. by rewrite order_perm, elem_of_elements. Qed.
End laws.

#[global] Hint Rewrite @view_write @durable_write @usable_write @durable_fail @usable_fail
  @view_commit @durable_commit @usable_commit @view_rollback @durable_rollback @usable_rollback
  @view_reopen @durable_reopen @usable_reopen using typeclasses eauto : world.
#[global] Hint Rewrite @view_tick @durable_tick @usable_tick @view_next_uuid @durable_next_uuid
  @usable_next_uuid @view_next_rand @durable_next_rand @usable_next_rand : world.

(** ** Weakest preconditions of the primitive effects *)

Section wp.
Context {S : Type} `{SessionLaws S} `{Inputs}.
Implicit Types w : World S.

Lemma post_utcnow w Q : Q (Ret (now w)) (tick w) → post utcnow w Q.
Proof. done. Qed.
Lemma post_now_aware w Q : Q (Ret (Aware (now w) 0)) (tick w) → post now_aware w Q.
Proof. done. Qed.
Lemma post_uuid4 w Q : Q (Ret (uuid4_at (w_uuid w))) (next_uuid w) → post uuid4 w Q.
Proof. done. Qed.
Lemma post_token_bytes w Q : Q (Ret (token_bytes_at (w_rand w))) (next_rand w) → post token_bytes w Q.
Proof. done. Qed.
Lemma post_query {A} (q : Tables → A) w Q :
  usable w = true → Q (Ret (q (view w))) w → post (query q) w Q.
Proof. intros Hu HQ. unfold post. by rewrite query_run. Qed.
Lemma post_exec u w Q :
  usable w = true →
  (∀ t, u (view w) = inl t → Q (Ret tt) (on_db (sess_write t) w)) →
  (∀ c, u (view w) = inr c → Q (Raise (IntegrityError (integrity_text c))) (on_db sess_fail w)) →
  post (exec u) w Q.
Proof. intros Hu Ht Hc. unfold post, exec. rewrite Hu. destruct (u (view w)); eauto. Qed.
Lemma post_commit w Q : usable w = true → Q (Ret tt) (on_db sess_commit w) → post commit w Q.
Proof. intros Hu HQ. unfold post. by rewrite commit_run. Qed.
Lemma post_rollback w Q : Q (Ret tt) (on_db sess_rollback w) → post rollback w Q.
Proof. done. Qed.
Lemma post_raise_if b e w Q :
  (b = true → Q (Raise e) w) → (b = false → Q (Ret tt) w) → post (raise_if b e) w Q.
Proof. destruct b; intros Ht Hf; [by apply Ht|by apply Hf]. Qed.
Lemma post_query_page {A} skip limit (q : Tables → list A) w Q :
  usable w = true →
  (page_fits skip limit = true → Q (Ret (page skip limit (q (view w)))) w) →
  (page_fits skip limit = false → Q (Raise out_of_int64) w) →
  post (query_page skip limit q) w Q.
Proof.
  intros Hu Ht Hf. unfold post, query_page, mbind, M_bind. rewrite query_run by done.
  destruct (page_fits skip limit); [by apply Ht|by apply Hf].
Qed.
Lemma post_require {A} (o : option A) e w Q :
  (o = None → Q (Raise e) w) → (∀ a, o = Some a → Q (Ret a) w) → post (require o e) w Q.
Proof. destruct o as [a|]; intros Hn Hs; [by apply (Hs a)|by apply Hn]. Qed.
Lemma post_get_db {A} (m : M (World S) A) w Q :
  post m (reopen w) (λ r w', ∀ w'', w'' = reopen w' ∨ w'' = reopen (on_db sess_rollback w') →
                             Q r w'') →
  post (get_db m) w Q.
Proof.
  unfold post, get_db, try_catch. destruct (m (reopen w)) as [[a|e] w']; simpl; auto.
Qed.
(** What matters of a request is its reply and what it committed. *)
Lemma post_get_db_durable {A} (m : M (World S) A) w Q :
  post m (reopen w) (λ r w', ∀ w'', durable w'' = durable w' → Q r w'') →
  post (get_db m) w Q.
Proof.
  intros HP. apply post_get_db. eapply post_mono; [exact HP|].
  intros r w' HQ w'' [->| ->]; apply HQ; by autorewrite with world.
Qed.
End wp.

(** [usable] side conditions. *)
Ltac solve_usable :=
  repeat match goal with H : usable _ = true |- _ => revert H end; intros;
  autorewrite with world; solve [assumption | done | eauto].

(** One step of symbolic execution of a goal [post m w Q]. *)
Ltac wp_step :=
  lazymatch goal with
  | |- post (mret _) _ _ => apply post_ret
  | |- post (raise _) _ _ => apply post_raise
  | |- post (_ ≫= _) _ _ => apply post_bind
  | |- post (try_catch _ _) _ _ => apply post_try
  | |- post utcnow _ _ => apply post_utcnow
  | |- post now_aware _ _ => apply post_now_aware
  | |- post uuid4 _ _ => apply post_uuid4
  | |- post token_bytes _ _ => apply post_token_bytes
  | |- post (query _) _ _ => apply post_query; [solve_usable|]
  | |- post (exec _) _ _ => apply post_exec; [solve_usable|intros ? ?|intros ? ?]
  | |- post commit _ _ => apply post_commit; [solve_usable|]
  | |- post rollback _ _ => apply post_rollback
  | |- post (raise_if _ _) _ _ => apply post_raise_if; intros ?
  | |- post (require _ _) _ _ => apply post_require; [intros ?|intros ? ?]
  | |- post (if ?b then _ else _) _ _ => destruct b eqn:?; try discriminate
  | |- post (match ?x with _ => _ end) _ _ => destruct x eqn:?
  end; cbv beta iota.

Ltac wp := repeat wp_step.
