(* ===== verification/Snapshot.v ===== *)
(** * A concrete session and a sample database

    [Snap] implements the session interface with two copies of the tables and
    obeys its laws, so the laws are consistent; [sample] is a small database,
    [w0] a request on it.  Witnesses of the theorems compute here. *)

From stdpp Require Import base tactics list gmap strings.
From Stdlib Require Import ZArith Lia.
From S2P Require Import Prelude PyStd Effects Models Session.

Record Snap := mkSnap {
  snap_view : Tables;
  snap_durable : Tables;
  snap_usable : bool
}.

(** PostgreSQL with the constraint names of the repository's migrations.
    [tz], [bare] and [orc] choose among the behaviours the interface leaves open. *)
Definition snap_session (tz : bool) (bare : option bool)
    (orc : option (Uuid → bool → option Uuid)) : Session Snap := {|
  sess_open t := mkSnap t t true;
  sess_view := snap_view;
  sess_durable := snap_durable;
  sess_usable := snap_usable;
  sess_write t s := mkSnap t (snap_durable s) (snap_usable s);
  sess_fail s := mkSnap (snap_view s) (snap_durable s) false;
  sess_commit s := mkSnap (snap_view s) (snap_view s) (snap_usable s);
  sess_rollback s := mkSnap (snap_durable s) (snap_durable s) true;
  sess_order A l := l;
  sess_collate := String.leb;
  sess_tz_aware := tz;
  sess_bare_exists := bare;
  sess_refresh_unmapped n := Some (KeyError n);
  sess_or_column := orc;
  integrity_text c :=
    match c with
    | UqUserEmail => "duplicate key value violates unique constraint uq_user_email"
    | UqTenantSlug => "duplicate key value violates unique constraint uq_tenant_slug"
    | _ => "constraint violated"
    end
|}.

Lemma string_leb_total a b : String.leb a b = true ∨ String.leb b a = true.
Proof. apply String.leb_total. Qed.

Lemma string_compare_trans a b c :
  String.compare a b ≠ Gt → String.compare b c ≠ Gt → String.compare a c ≠ Gt.
Proof.
  revert b c. induction a as [|x a IH]; intros [|y b] [|z c]; simpl; try done.
  unfold Ascii.compare. intros Hxy Hyz.
  destruct (N.compare_spec (Ascii.N_of_ascii x) (Ascii.N_of_ascii y)) as [H1|H1|H1]; [| |done];
  destruct (N.compare_spec (Ascii.N_of_ascii y) (Ascii.N_of_ascii z)) as [H2|H2|H2]; try done;
  destruct (N.compare_spec (Ascii.N_of_ascii x) (Ascii.N_of_ascii z)) as [H3|H3|H3]; try done;
    try lia. by eapply IH.
Qed.

Lemma snap_laws tz bare orc : @SessionLaws Snap (snap_session tz bare orc).
Proof.
  split; try done; simpl.
  - apply string_leb_total.
  - intros a b c. unfold String.leb.
    pose proof (string_compare_trans a b c) as Ht.
    destruct (String.compare a b), (String.compare b c), (String.compare a c); try done;
      intros; exfalso; by apply Ht.
  - by intros n e [= <-].
Qed.

#[global] Instance snap : Session Snap := snap_session false (Some true) None.
#[global] Instance snap_ok : SessionLaws Snap := snap_laws false (Some true) None.

(** A clock that advances one microsecond per reading from 2023-11-14. *)
#[global] Instance inputs : Inputs := {|
  clock k := (1700000000000000 + Z.of_nat k)%Z;
  uuid4_at k := (1000 + N.of_nat k)%N;
  token_bytes_at k := replicate 32 (N.of_nat k mod 256)%N;
  local_offset _ := 0%Z
|}.

#[global] Instance inputs_ok : InputsLaws.
Proof.
  split; intros n; [apply length_replicate|]. apply Forall_replicate. by apply N.mod_lt.
Qed.

(** ** A database built by accepted writes *)

Fixpoint build (ops : list (Tables → Tables + Constraint)) (t : Tables) : Tables + Constraint :=
  match ops with
  | [] => inl t
  | op :: ops' => match op t with inl t' => build ops' t' | inr c => inr c end
  end.

Definition preserves_ok (op : Tables → Tables + Constraint) : Prop :=
  ∀ t t', db_ok t → op t = inl t' → db_ok t'.

Lemma build_ok ops t t' : Forall preserves_ok ops → db_ok t → build ops t = inl t' → db_ok t'.
Proof.
  intros Hf. revert t. induction Hf as [|op ops Hop _ IH]; intros t Hok; simpl; [by intros [= <-]|].
  destruct (op t) as [t1|] eqn:Ht; [|done]. apply IH. by eapply Hop.
Qed.

Definition t0 : Z := 1699999000000000.
Definition alice := mkUser 1 "alice@acme.io" "h:wonderland" (Some "Alice") true false None t0 t0.
Definition bob := mkUser 2 "bob@acme.io" "h2" (Some "Bob") true false None t0 t0.
Definition root := mkUser 3 "root@virtualstack.io" "h3" None true true None t0 t0.
Definition carol := mkUser 4 "carol@acme.io" "h:caroling" (Some "Carol") false false None t0 t0.
Definition acme := mkTenant 10 "Acme" "acme" None true t0 t0.
Definition globex := mkTenant 11 "Globex" "globex" None true t0 t0.
Definition admin_role := mkRole 20 "admin" None (Some 10%N) false t0 t0.
Definition viewer_role := mkRole 21 "viewer" None None true t0 t0.
Definition globex_role := mkRole 22 "ops" None (Some 11%N) false t0 t0.
Definition spare_role := mkRole 23 "spare" None (Some 10%N) false t0 t0.
Definition default_role := mkRole 24 "Default User Role" None (Some 10%N) false t0 t0.
Definition manage_invitations :=
  mkPermission 30 "Manage invitations" "tenant:manage_invitations" None t0 t0.
Definition read_roles := mkPermission 31 "View Roles" "role:read" None t0 t0.
(** Pending, and overdue since before the sample clock starts. *)
Definition pending_inv := mkInvitation 40 "dave@acme.io" "tok-pending" PENDING
  1800000000000000 None 10 1 None (Some 20%N) t0 t0.
Definition overdue_inv := mkInvitation 41 "erin@acme.io" "tok-overdue" PENDING
  1600000000000000 None 10 1 None None t0 t0.
Definition accepted_inv := mkInvitation 42 "bob@acme.io" "tok-accepted" ACCEPTED
  1600000000000000 (Some t0) 10 1 (Some 2%N) None t0 t0.

Definition sample_ops : list (Tables → Tables + Constraint) :=
  [ insert_row alice; insert_row bob; insert_row root; insert_row carol;
    insert_row acme; insert_row globex;
    insert_row admin_role; insert_row viewer_role; insert_row globex_role; insert_row spare_role;
    insert_row default_role;
    insert_row manage_invitations; insert_row read_roles;
    insert_role_permissions 20 [30; 31]%N;
    insert_user_tenant_role t0 1 20 10; insert_user_tenant_role t0 2 21 10;
    insert_user_tenant_role t0 4 20 10;
    insert_row pending_inv; insert_row overdue_inv; insert_row accepted_inv ].

Definition sample : Tables :=
  match build sample_ops empty_tables with inl t => t | inr _ => empty_tables end.

Lemma sample_ok : db_ok sample.
Proof.
  unfold sample. destruct (build sample_ops empty_tables) eqn:Hb; [|apply db_ok_empty].
  eapply build_ok; [|apply db_ok_empty|exact Hb]. unfold sample_ops.
  repeat (apply List.Forall_cons; [intros ? ? Hok Ht; first
    [ refine (insert_row_ok _ _ _ Hok _ Ht); apply Hok
    | by eapply insert_role_permissions_ok, Ht
    | by eapply insert_user_tenant_role_ok, Ht ]|]).
  apply List.Forall_nil.
Qed.

Example sample_built : ∃ t, build sample_ops empty_tables = inl t.
Proof. eexists. vm_compute. reflexivity. Qed.

Definition w0 : World Snap := mkWorld (sess_open sample) 0 0 0.

(** The next request on what a request left behind. *)
Definition again (w : World Snap) : World Snap := reopen w.

Lemma w0_usable : usable w0 = true.
Proof. reflexivity. Qed.

Lemma w0_ok : db_ok (view w0).
Proof. exact sample_ok. Qed.

Lemma w0_durable_ok : db_ok (durable w0).
Proof. exact sample_ok. Qed.
