(* ===== verification/Crud.v ===== *)
(** * [services/base.py: CRUDBase]

    The generic operations every service inherits, for any ORM class. *)

From stdpp Require Import base tactics list gmap strings.
From Stdlib Require Import ZArith Lia.
From S2P Require Import Prelude PyStd Effects Models Session.

(** ORM classes whose rows some service deletes. *)
Class Deletable (R : Type) `{OrmModel R} := {
  delete_row : Uuid → Tables → Tables
}.

Class DeletableLaws (R : Type) `{Deletable R} : Prop := {
  delete_row_lookup : ∀ i j (t : Tables),
    table (delete_row i t) !! j = if decide (i = j) then None else table t !! j;
  delete_row_ok : ∀ i t, db_ok t → db_ok (delete_row i t)
}.

#[global] Instance Tenant_deletable : Deletable Tenant := {| delete_row := delete_tenant |}.
#[global] Instance Role_deletable : Deletable Role := {| delete_row := delete_role |}.
#[global] Instance APIKey_deletable : Deletable APIKey := {| delete_row := delete_api_key |}.

Section crud.
Context {S : Type} `{Session S} `{Inputs}.
Context {R : Type} `{OrmModel R} `{EqDecision R}.

(** [get]. *)
Definition get (record_id : Uuid) : M (World S) (option R) :=
  query (λ t, first (select (S := S) (λ r : R, row_id r = record_id) t)).

(** [get_multi]: [offset(skip).limit(limit)] without an order. *)
Definition get_multi (skip limit : nat) : M (World S) (list R) :=
  query_page skip limit (λ t, rows (S := S) R t).

(** [create]: [add], [flush], [refresh].  [mk] is the ORM constructor applied
    to the input, awaiting the column defaults [id], [created_at] and
    [updated_at], which the flush evaluates. *)
Definition create (mk : Uuid → datetime → datetime → R) : M (World S) R :=
  i ← uuid4;
  c ← utcnow;
  u ← utcnow;
  let r := mk i c u in
  exec (insert_row r) ;;
  mret r.

(** Flush of a row loaded as [r] and now [r']: no statement without a net
    change, otherwise an [UPDATE] that also sets [updated_at]. *)
Definition flush_row (r r' : R) : M (World S) R :=
  if decide (r' = r) then mret r
  else
    n ← utcnow;
    exec (put_row (touch n r')) ;;
    mret (touch n r').

(** [update]: [patch] sets the attributes named in the update data; [inr] is a
    [NOT NULL] column set to [None]. *)
Definition update (db_obj : R) (patch : R → R + Constraint) : M (World S) R :=
  match patch db_obj with
  | inl r' => flush_row db_obj r'
  | inr c => exec (λ _, inr c) ;; mret db_obj
  end.

(** [delete]. *)
Definition delete_record `{!Deletable R} (record_id : Uuid) : M (World S) (option R) :=
  db_obj ← get record_id;
  match db_obj with
  | None => mret None
  | Some r =>
      exec (λ t, inl (delete_row record_id t)) ;;
      mret (Some r)
  end.

(** [count]: no model has a [deleted_at] column. *)
Definition count : M (World S) nat :=
  query (λ t, List.length (rows (S := S) R t)).
End crud.

Arguments get {S _} R {_} record_id _.
Arguments get_multi {S _} R {_} skip limit _.
Arguments count {S _} R {_} _.
Arguments delete_record {S _} R {_ _} record_id _.

(** [o if o is given]: an optional update of a nullable column. *)
Definition patched {A} (o : option A) (old : A) : A := default old o.

(** ** Facts *)

#[global] Instance Tenant_deletable_laws : DeletableLaws Tenant.
Proof.
  split.
  - intros i j t. simpl. Transparent delete_tenant. unfold delete_tenant. simpl.
    by rewrite lookup_delete.
  - apply delete_tenant_ok.
Qed.
#[global] Opaque delete_tenant.

#[global] Instance Role_deletable_laws : DeletableLaws Role.
Proof.
  split.
  - intros i j t. simpl. unfold delete_role, delete_roles. simpl. case_decide as Hd.
    + apply map_lookup_filter_None. right. simpl. subst. naive_solver.
    + destruct (roles t !! j) as [r|] eqn:Hj.
      * apply map_lookup_filter_Some. naive_solver.
      * apply map_lookup_filter_None. by left.
  - intros i t. apply delete_roles_ok.
Qed.

#[global] Instance APIKey_deletable_laws : DeletableLaws APIKey.
Proof.
  split; [|apply delete_api_key_ok]. intros i j t. simpl. by rewrite lookup_delete.
Qed.

Section facts.
Context {S : Type} `{SessionLaws S} `{Inputs}.
Context {R : Type} `{OrmLaws R} `{EqDecision R}.
Implicit Types w : World S.

Lemma get_run i w : usable w = true → model_ok R (view w) →
  get R i w = (Ret (table (view w) !! i), w).
Proof. intros Hu Hm. unfold get. by rewrite query_run, first_select_id. Qed.

(** [get] never changes the world. *)
Lemma post_get i w Q :
  usable w = true → model_ok R (view w) → Q (Ret (table (view w) !! i)) w →
  post (get R i) w Q.
Proof. intros Hu Hm HQ. unfold post. by rewrite get_run. Qed.

(** A flush of a row either writes it or reports a violated constraint. *)
Lemma post_flush_row (r r' : R) w Q :
  usable w = true →
  (r' = r → Q (Ret r) w) →
  (∀ n t w', r' ≠ r → n = now w → put_row (touch n r') (view w) = inl t →
     w' = on_db (sess_write t) (tick w) → Q (Ret (touch n r')) w') →
  (∀ n c w', r' ≠ r → n = now w → put_row (touch n r') (view w) = inr c →
     w' = on_db sess_fail (tick w) → Q (Raise (IntegrityError (integrity_text c))) w') →
  post (flush_row r r') w Q.
Proof.
  intros Hu Hsame Hok Hfail. unfold flush_row. case_decide; [by apply post_ret, Hsame|].
  wp; simpl in *; eauto.
Qed.
End facts.
