(* ===== verification/Stability.v ===== *)
(** * Two predicates on computations, closed under composition

    [nocommit m]: running [m] never changes what is committed.
    [keeps P m]: [m] keeps the property [P] of the tables, both in the session
    and in what is committed; [sound] is the case of integrity.  The hint databases [nocommit] and [sound] prove them
    by following the structure of a handler. *)

From stdpp Require Import base tactics list gmap strings.
From Stdlib Require Import ZArith Lia.
From S2P Require Import Prelude PyStd Effects Models Session Crud.

Create HintDb nocommit.
Create HintDb sound.

Section predicates.
Context {S : Type} `{SessionLaws S} `{Inputs}.
Implicit Types w : World S.

Definition nocommit {A} (m : M (World S) A) : Prop := ∀ w, durable (m w).2 = durable w.

(** [P] holds of the committed content, and of the session's view while the
    session is usable. *)
Definition holds (P : Tables → Prop) w : Prop :=
  P (durable w) ∧ (usable w = true → P (view w)).

Definition keeps (P : Tables → Prop) {A} (m : M (World S) A) : Prop :=
  ∀ w, holds P w → holds P (m w).2.

Context (P : Tables → Prop).

(** ** Structure *)

Lemma nocommit_ret {A} (a : A) : nocommit (mret a).
Proof. done. Qed.
Lemma nocommit_raise {A} e : nocommit (A := A) (raise e).
Proof. done. Qed.
Lemma nocommit_bind {A B} (m : M (World S) A) (f : A → M (World S) B) :
  nocommit m → (∀ a, nocommit (f a)) → nocommit (m ≫= f).
Proof.
  intros Hm Hf w. specialize (Hm w). unfold mbind, M_bind.
  destruct (m w) as [[a|e] w']; simpl in *; [by rewrite Hf|done].
Qed.
Lemma nocommit_fmap {A B} (f : A → B) (m : M (World S) A) : nocommit m → nocommit (f <$> m).
Proof. intros Hm w. specialize (Hm w). unfold fmap, M_fmap. by destruct (m w) as [[a|e] w']. Qed.
Lemma nocommit_try {A} (m : M (World S) A) h :
  nocommit m → (∀ e, nocommit (h e)) → nocommit (try_catch m h).
Proof.
  intros Hm Hf w. specialize (Hm w). unfold try_catch.
  destruct (m w) as [[a|e] w']; simpl in *; [done|by rewrite Hf].
Qed.
Lemma nocommit_raise_if b e : nocommit (raise_if b e).
Proof. by destruct b. Qed.
Lemma nocommit_require {A} (o : option A) e : nocommit (require o e).
Proof. by destruct o. Qed.
Lemma nocommit_lift {A} (r : A + Exn) : nocommit (lift r).
Proof. by destruct r. Qed.

Lemma keeps_ret {A} (a : A) : keeps P (mret a).
Proof. intros w Hw. exact Hw. Qed.
Lemma keeps_raise {A} e : keeps P (A := A) (raise e).
Proof. intros w Hw. exact Hw. Qed.
Lemma keeps_bind {A B} (m : M (World S) A) (f : A → M (World S) B) :
  keeps P m → (∀ a, keeps P (f a)) → keeps P (m ≫= f).
Proof.
  intros Hm Hf w Hw. specialize (Hm w Hw). unfold mbind, M_bind.
  destruct (m w) as [[a|e] w']; simpl in *; [by apply Hf|done].
Qed.
Lemma keeps_fmap {A B} (f : A → B) (m : M (World S) A) : keeps P m → keeps P (f <$> m).
Proof. intros Hm w Hw. specialize (Hm w Hw). unfold fmap, M_fmap. by destruct (m w) as [[a|e] w']. Qed.
Lemma keeps_try {A} (m : M (World S) A) h :
  keeps P m → (∀ e, keeps P (h e)) → keeps P (try_catch m h).
Proof.
  intros Hm Hf w Hw. specialize (Hm w Hw). unfold try_catch.
  destruct (m w) as [[a|e] w']; simpl in *; [done|by apply Hf].
Qed.
Lemma keeps_raise_if b e : keeps P (raise_if b e).
Proof. destruct b; intros w Hw; exact Hw. Qed.
Lemma keeps_require {A} (o : option A) e : keeps P (require o e).
Proof. destruct o; intros w Hw; exact Hw. Qed.
Lemma keeps_lift {A} (r : A + Exn) : keeps P (lift r).
Proof. destruct r; intros w Hw; exact Hw. Qed.

(** ** Primitive effects *)

Lemma nocommit_utcnow : nocommit utcnow. Proof. done. Qed.
Lemma nocommit_now_aware : nocommit now_aware. Proof. done. Qed.
Lemma nocommit_uuid4 : nocommit uuid4. Proof. done. Qed.
Lemma nocommit_token_bytes : nocommit token_bytes. Proof. done. Qed.
Lemma nocommit_query {A} (q : Tables → A) : nocommit (query q).
Proof. intros w. unfold query. by destruct (usable w). Qed.
Lemma nocommit_query_page {A} k l (q : Tables → list A) : nocommit (query_page k l q).
Proof.
  apply nocommit_bind; [apply nocommit_query|intros a].
  apply nocommit_bind; [apply nocommit_raise_if|intros ?; apply nocommit_ret].
Qed.
Lemma nocommit_exec u : nocommit (exec u).
Proof.
  intros w. unfold exec. destruct (usable w); [|done].
  destruct (u (view w)); simpl; by autorewrite with world.
Qed.
Lemma nocommit_rollback : nocommit rollback.
Proof. intros w. simpl. by autorewrite with world. Qed.
Lemma nocommit_get_db {A} (m : M (World S) A) : nocommit m → nocommit (get_db m).
Proof. intros Hm w. rewrite get_db_durable, Hm. by autorewrite with world. Qed.

Lemma keeps_utcnow : keeps P utcnow. Proof. intros w Hw. exact Hw. Qed.
Lemma keeps_now_aware : keeps P now_aware. Proof. intros w Hw. exact Hw. Qed.
Lemma keeps_uuid4 : keeps P uuid4. Proof. intros w Hw. exact Hw. Qed.
Lemma keeps_token_bytes : keeps P token_bytes. Proof. intros w Hw. exact Hw. Qed.
Lemma keeps_query {A} (q : Tables → A) : keeps P (query q).
Proof. intros w Hw. unfold query. by destruct (usable w). Qed.
Lemma keeps_query_page {A} k l (q : Tables → list A) : keeps P (query_page k l q).
Proof.
  apply keeps_bind; [apply keeps_query|intros a].
  apply keeps_bind; [apply keeps_raise_if|intros ?; apply keeps_ret].
Qed.
Lemma keeps_exec u : (∀ t t', P t → u t = inl t' → P t') → keeps P (exec u).
Proof.
  intros Hok w [Hd Hv]. unfold exec. destruct (usable w) eqn:Hu; [|simpl; split; [done|by rewrite Hu]].
  destruct (u (view w)) as [t|c] eqn:Ht; simpl; split; autorewrite with world; try done.
  intros _. by eapply Hok; [apply Hv|].
Qed.
Lemma keeps_rollback : keeps P rollback.
Proof. intros w [Hd _]. simpl. split; by autorewrite with world. Qed.
Lemma keeps_commit : keeps P commit.
Proof.
  intros w [Hd Hv]. unfold commit. destruct (usable w) eqn:Hu; simpl; split; autorewrite with world;
    rewrite ?Hu; auto.
Qed.
Lemma inv_reopen w : P (durable w) → holds P (reopen w).
Proof. intros Hok. split; by autorewrite with world. Qed.
Lemma keeps_get_db {A} (m : M (World S) A) w :
  keeps P m → P (durable w) → P (durable (get_db m w).2).
Proof. intros Hm Hok. rewrite get_db_durable. by apply Hm, inv_reopen. Qed.
End predicates.

Notation inv := (holds db_ok).
Notation sound := (keeps db_ok).

(** ** The operations of [CRUDBase] *)

Section crud.
Context {S : Type} `{SessionLaws S} `{Inputs}.
Context {R : Type} `{OrmLaws R} `{EqDecision R}.

Lemma nocommit_get i : nocommit (S := S) (get R i).
Proof. apply nocommit_query. Qed.
Lemma nocommit_get_multi a b : nocommit (S := S) (get_multi R a b).
Proof. apply nocommit_query_page. Qed.
Lemma nocommit_create mk : nocommit (S := S) (create (R := R) mk).
Proof.
  unfold create. repeat (apply nocommit_bind; [|intros ?]).
  - apply nocommit_uuid4.
  - apply nocommit_utcnow.
  - apply nocommit_utcnow.
  - apply nocommit_exec.
  - apply nocommit_ret.
Qed.
Lemma nocommit_flush_row (r r' : R) : nocommit (S := S) (flush_row r r').
Proof.
  unfold flush_row. case_decide; [apply nocommit_ret|].
  repeat (apply nocommit_bind; [|intros ?]).
  - apply nocommit_utcnow.
  - apply nocommit_exec.
  - apply nocommit_ret.
Qed.
Lemma nocommit_update (r : R) patch : nocommit (S := S) (update r patch).
Proof.
  unfold update. destruct (patch r); [apply nocommit_flush_row|].
  apply nocommit_bind; [apply nocommit_exec|intros ?; apply nocommit_ret].
Qed.
Lemma nocommit_delete_record `{!Deletable R} i : nocommit (S := S) (delete_record R i).
Proof.
  unfold delete_record. apply nocommit_bind; [apply nocommit_get|]. intros [r|]; [|apply nocommit_ret].
  apply nocommit_bind; [apply nocommit_exec|intros ?; apply nocommit_ret].
Qed.

Lemma keeps_get P i : keeps (S := S) P (get R i).
Proof. apply keeps_query. Qed.
Lemma keeps_get_multi P a b : keeps (S := S) P (get_multi R a b).
Proof. apply keeps_query_page. Qed.

(** A property blind to the table of [R] survives every write of an [R]. *)
Section blind.
Context (P : Tables → Prop) (Hblind : ∀ (m : gmap Uuid R) t, P t → P (set_table m t)).

Lemma keeps_put_row (r : R) : keeps (S := S) P (exec (put_row r)).
Proof. apply keeps_exec. intros t t' Ht [-> _]%put_row_eq. by apply Hblind. Qed.
Lemma keeps_create mk : keeps (S := S) P (create (R := R) mk).
Proof.
  unfold create. repeat (apply keeps_bind; [|intros ?]);
    auto using keeps_uuid4, keeps_utcnow, keeps_ret.
  apply keeps_exec. intros t t' Ht (_ & -> & _)%insert_row_eq. by apply Hblind.
Qed.
Lemma keeps_flush_row (r r' : R) : keeps (S := S) P (flush_row r r').
Proof.
  unfold flush_row. case_decide; [apply keeps_ret|].
  repeat (apply keeps_bind; [|intros ?]); auto using keeps_utcnow, keeps_put_row, keeps_ret.
Qed.
End blind.

Lemma put_row_sound (Hmo : ∀ t, db_ok t → model_ok R t) (r : R) :
  keeps (S := S) db_ok (exec (put_row r)).
Proof. apply keeps_exec. intros t t' Hok. apply put_row_ok; auto. Qed.

Lemma sound_create (Hmo : ∀ t, db_ok t → model_ok R t) mk : keeps (S := S) db_ok (create (R := R) mk).
Proof.
  unfold create. repeat (apply keeps_bind; [|intros ?]).
  - apply keeps_uuid4.
  - apply keeps_utcnow.
  - apply keeps_utcnow.
  - apply keeps_exec. intros t t' Hok. apply insert_row_ok; auto.
  - apply keeps_ret.
Qed.
Lemma sound_flush_row (Hmo : ∀ t, db_ok t → model_ok R t) (r r' : R) :
  keeps (S := S) db_ok (flush_row r r').
Proof.
  unfold flush_row. case_decide; [apply keeps_ret|].
  repeat (apply keeps_bind; [|intros ?]).
  - apply keeps_utcnow.
  - by apply put_row_sound.
  - apply keeps_ret.
Qed.
Lemma sound_update (Hmo : ∀ t, db_ok t → model_ok R t) (r : R) patch :
  keeps (S := S) db_ok (update r patch).
Proof.
  unfold update. destruct (patch r); [by apply sound_flush_row|].
  apply keeps_bind; [by apply keeps_exec|intros ?; apply keeps_ret].
Qed.
Lemma sound_delete_record `{!Deletable R, !DeletableLaws R} i : keeps (S := S) db_ok (delete_record R i).
Proof.
  unfold delete_record. apply keeps_bind; [apply keeps_get|]. intros [r|]; [|apply keeps_ret].
  apply keeps_bind; [|intros ?; apply keeps_ret].
  apply keeps_exec. intros t t' Hok [= <-]. by apply delete_row_ok.
Qed.
End crud.

#[export] Hint Resolve nocommit_ret nocommit_raise nocommit_raise_if nocommit_require nocommit_lift
  nocommit_utcnow nocommit_now_aware nocommit_uuid4 nocommit_token_bytes nocommit_query nocommit_query_page nocommit_exec
  nocommit_rollback nocommit_get nocommit_get_multi nocommit_create nocommit_flush_row
  nocommit_update nocommit_delete_record : nocommit.
#[export] Hint Resolve keeps_ret keeps_raise keeps_raise_if keeps_require keeps_lift
  keeps_utcnow keeps_now_aware keeps_uuid4 keeps_token_bytes keeps_query keeps_query_page
  keeps_rollback keeps_commit keeps_get keeps_get_multi : sound.
#[export] Hint Extern 1 (sound (create _)) => apply sound_create; auto with db : sound.
#[export] Hint Extern 1 (sound (flush_row _ _)) => apply sound_flush_row; auto with db : sound.
#[export] Hint Extern 1 (sound (update _ _)) => apply sound_update; auto with db : sound.
#[export] Hint Extern 1 (sound (delete_record _ _)) => apply sound_delete_record : sound.

(** What follows or handles without committing leaves the committed content. *)
Section tails.
Context {S : Type} `{SessionLaws S} `{Inputs}.
Implicit Types w : World S.

Lemma post_bind_tail {A B} (m : M (World S) A) (f : A → M (World S) B) w (Q : Tables → Prop) :
  (∀ a, nocommit (f a)) → post m w (λ _ w', Q (durable w')) →
  post (m ≫= f) w (λ _ w', Q (durable w')).
Proof.
  intros Hf Hm. apply post_bind. eapply post_mono; [exact Hm|]. intros [a|e] w' HQ; [|done].
  unfold post. pose proof (Hf a w') as Hd. destruct (f a w') as [r w2]. simpl in Hd. by rewrite Hd.
Qed.
Lemma post_try_tail {A} (m : M (World S) A) h w (Q : Tables → Prop) :
  (∀ e, nocommit (h e)) → post m w (λ _ w', Q (durable w')) →
  post (try_catch m h) w (λ _ w', Q (durable w')).
Proof.
  intros Hf Hm. apply post_try. eapply post_mono; [exact Hm|]. intros [a|e] w' HQ; [done|].
  unfold post. pose proof (Hf e w') as Hd. destruct (h e w') as [r w2]. simpl in Hd. by rewrite Hd.
Qed.
End tails.

(** Follow the structure of a handler. *)
Ltac nocommit_step :=
  lazymatch goal with
  | |- nocommit (_ ≫= _) => apply nocommit_bind; [|intros ?]
  | |- nocommit (_ <$> _) => apply nocommit_fmap
  | |- nocommit (try_catch _ _) => apply nocommit_try; [|intros ?]
  | |- nocommit (get_db _) => apply nocommit_get_db
  | |- nocommit (if ?b then _ else _) => destruct b
  | |- nocommit (match ?x with _ => _ end) => destruct x
  | |- nocommit (let _ := _ in _) => cbv zeta
  | |- nocommit _ => solve [eauto with nocommit]
  end.
Ltac solve_nocommit := repeat nocommit_step.

Ltac sound_step :=
  lazymatch goal with
  | |- keeps _ (_ ≫= _) => apply keeps_bind; [|intros ?]
  | |- keeps _ (_ <$> _) => apply keeps_fmap
  | |- keeps _ (try_catch _ _) => apply keeps_try; [|intros ?]
  | |- keeps _ (if ?b then _ else _) => destruct b
  | |- keeps _ (match ?x with _ => _ end) => destruct x
  | |- keeps _ (exec _) => apply keeps_exec; [intros ? ? ? ?; simplify_eq; eauto with db]
  | |- keeps _ _ => solve [eauto with sound]
  end.
Ltac solve_sound := repeat sound_step.
