(* ===== verification/RoleService.v ===== *)
(** * [services/iam/role.py: RoleService]

    Custom roles of a tenant, their permissions, and the users assigned to a
    role within a tenant. *)

From stdpp Require Import base tactics list gmap sorting strings.
From Stdlib Require Import ZArith Lia.
From S2P Require Import Prelude PyStd Effects Models Session Snapshot Crud.

(** ** Input schemas ([schemas/iam/role.py]) *)

Record RoleCreate := mkRoleCreate {
  rc_name : string;
  rc_description : option string;
  rc_permission_ids : option (list Uuid)
}.

(** A field of a partial update: [None] when unset, otherwise its value. *)
Record RoleUpdate := mkRoleUpdate {
  ru_name : option (option string);
  ru_description : option (option string);
  ru_permission_ids : option (list Uuid)
}.

(** A row of the role listing. *)
Record RoleList := mkRoleList {
  rl_id : Uuid;
  rl_name : string;
  rl_description : option string;
  rl_is_system_role : bool;
  rl_user_count : nat
}.

(** The attributes the class [Role] maps. *)
Definition Role_attributes : list string :=
  ["id"; "name"; "description"; "tenant_id"; "is_system_role"; "created_at"; "updated_at";
   "tenant"].

(** ** Exceptions

    The methods raise [HTTPException(status_code=status..., detail=...)], but the
    module imports neither name: the [raise] statement looks [HTTPException] up
    first and ends in a [NameError] with the status and the message unread. *)
Definition HTTPException_unbound (status : Z) (detail : string) : Exn := NameError "HTTPException".

(** ** Operations *)

Section role_service.
Context {S : Type} `{Session S} `{Inputs}.

Definition get_by_name_in_tenant (name : string) (tenant_id : Uuid) : M (World S) (option Role) :=
  query (λ t, first (select (S := S) (λ r, r_name r = name ∧ r_tenant_id r = Some tenant_id) t)).

(** [self.model.tenant_id == tenant_id | self.model.is_system_role == True]:
    [|] binds before [==], so this chains [tenant_id == x] and [x == True] for
    [x = tenant_id | is_system_role]; the truth value of the first comparison, of
    two different expressions, is false, and the chain is that comparison. *)
Definition accessible_filter (tenant_id : Uuid) : (Role → bool) + Exn :=
  match sess_or_column (S := S) with
  | Some or_column =>
      inl (λ r, match or_column tenant_id (r_is_system_role r) with
                | Some x => bool_decide (r_tenant_id r = Some x)
                | None => false
                end)
  | None => inr (TypeError "unsupported operand type(s) for |: 'UUID' and 'InstrumentedAttribute'")
  end.

Definition get_multi_by_tenant (tenant_id : Uuid) (skip limit : nat) : M (World S) (list Role) :=
  where_ ← lift (accessible_filter tenant_id);
  query_page skip limit (λ t,
    order_by_str (S := S) r_name (select (S := S) (λ r, where_ r = true) t)).

(** The users per role in this tenant: [GROUP BY role_id]. *)
Definition user_count_subq (tenant_id : Uuid) (t : Tables) : list (Uuid * nat) :=
  let role_ids := (λ '(_, r, _), r) <$> filter (λ '(_, _, tn), tn = tenant_id) (utr_rows (S := S) t) in
  (λ r, (r, length (filter (eq r) role_ids))) <$> remove_dups role_ids.

(** [.outerjoin(user_count_subq, ...)] with [coalesce(user_count, 0)]. *)
Definition with_user_count (tenant_id : Uuid) (t : Tables) (r : Role) : list RoleList :=
  (λ n, mkRoleList (r_id r) (r_name r) (r_description r) (r_is_system_role r) n) <$>
    match filter (λ c, r_id r = c.1) (user_count_subq tenant_id t) with
    | [] => [0%nat]
    | counts => counts.*2
    end.

Definition get_multi_by_tenant_with_user_count (tenant_id : Uuid) (skip limit : nat)
    : M (World S) (list RoleList) :=
  where_ ← lift (accessible_filter tenant_id);
  query_page skip limit (λ t,
    order_by_str (S := S) rl_name
      (select (S := S) (λ r, where_ r = true) t ≫= with_user_count tenant_id t)).

(** [await db.refresh(role, attribute_names=names)]: the row is unchanged; a
    name that [Role] does not map is the session's business. *)
Fixpoint refresh_role (names : list string) : M (World S) unit :=
  match names with
  | [] => mret tt
  | n :: names' =>
      if decide (n ∈ Role_attributes) then refresh_role names'
      else match sess_refresh_unmapped (S := S) n with
           | Some e => raise e
           | None => refresh_role names'
           end
  end.

(** [selectinload(self.model.permissions)]: [Role] has no such attribute. *)
Definition get_role_with_permissions (role_id : Uuid) : M (World S) (option Role) :=
  if decide ("permissions" ∈ Role_attributes) then get Role role_id
  else raise (AttributeError "permissions").

Definition set_role_permissions (role_id : Uuid) (permission_ids : list Uuid)
    : M (World S) unit :=
  exec (λ t, inl (delete_role_permissions role_id t)) ;;
  match permission_ids with
  | [] => mret tt
  | _ =>
      try_catch
        (exec (insert_role_permissions role_id permission_ids))
        (λ e, if is_integrity e then
                rollback ;; raise (HTTPException_unbound 400 "Invalid permission ID provided.")
              else raise e)
  end.

Definition create_custom_role (obj_in : RoleCreate) (tenant_id : Uuid) : M (World S) Role :=
  existing_role ← get_by_name_in_tenant (rc_name obj_in) tenant_id;
  raise_if (truthy existing_role)
    (HTTPException_unbound 409 ("Role with name '" +:+ rc_name obj_in
                        +:+ "' already exists in this tenant")) ;;
  db_role ← create (λ i c u,
    mkRole i (rc_name obj_in) (rc_description obj_in) (Some tenant_id) false c u);
  commit ;;
  match rc_permission_ids obj_in with
  | Some (p :: ps) => set_role_permissions (r_id db_role) (p :: ps) ;; commit
  | _ => mret tt
  end ;;
  refresh_role ["permissions"] ;;
  mret db_role.

(** [setattr] of the fields of [obj_in.model_dump(exclude_unset=True,
    exclude={"permission_ids"})]. *)
Definition role_patch (obj_in : RoleUpdate) (r : Role) : Role + Constraint :=
  match ru_name obj_in with
  | Some None => inr (NotNull "name")
  | n =>
      inl (mkRole (r_id r)
             (match n with Some (Some v) => v | _ => r_name r end)
             (patched (ru_description obj_in) (r_description r))
             (r_tenant_id r) (r_is_system_role r) (r_created_at r) (r_updated_at r))
  end.

Definition update_custom_role (db_obj : Role) (obj_in : RoleUpdate) : M (World S) Role :=
  raise_if (r_is_system_role db_obj) (HTTPException_unbound 403 "Cannot modify system roles.") ;;
  match ru_permission_ids obj_in with
  | Some ps => set_role_permissions (r_id db_obj) ps
  | None => mret tt
  end ;;
  role ← update db_obj (role_patch obj_in);
  commit ;;
  refresh_role ["permissions"] ;;
  mret role.

Definition check_role_assigned (role_id tenant_id : Uuid) : M (World S) bool :=
  query (λ t, bool_decide (Exists (λ '(_, r, tn), r = role_id ∧ tn = tenant_id)
                                  (utr_rows (S := S) t))).

Definition delete_custom_role (role_id tenant_id : Uuid) : M (World S) (option Role) :=
  role ← get Role role_id;
  match role with
  | None => mret None
  | Some r =>
      raise_if (r_is_system_role r) (HTTPException_unbound 403 "Cannot delete system roles.") ;;
      raise_if (bool_decide (r_tenant_id r ≠ Some tenant_id))
        (HTTPException_unbound 403 "Role does not belong to this tenant.") ;;
      user_assigned ← check_role_assigned role_id tenant_id;
      raise_if user_assigned
        (HTTPException_unbound 400 "Cannot delete role with assigned users. Please reassign users first.") ;;
      exec (λ t, inl (delete_role (r_id r) t)) ;;
      commit ;;
      mret (Some r)
  end.

(** The users joined with their assignments of this role in this tenant. *)
Definition get_users_for_role (role_id tenant_id : Uuid) : M (World S) (list User) :=
  query (λ t, fst <$> join (λ u '(uid, r, tn), u_id u = uid ∧ r = role_id ∧ tn = tenant_id)
                           (rows (S := S) User t) (utr_rows (S := S) t)).

Definition set_users_for_role (role_id tenant_id : Uuid) (user_ids : list Uuid)
    : M (World S) (list Uuid) :=
  role ← get Role role_id;
  raise_if (match role with
            | None => true
            | Some r => negb (r_is_system_role r) && bool_decide (r_tenant_id r ≠ Some tenant_id)
            end)
    (HTTPException_unbound 404 ("Role " +:+ uuid_str role_id
                        +:+ " not found or not accessible in this tenant.")) ;;
  exec (λ t, inl (delete_user_tenant_roles
                    (λ k, k.1.2 = role_id ∧ k.2 = tenant_id) t)) ;;
  added_user_ids ←
    match user_ids with
    | [] => mret []
    | _ =>
        now ← utcnow;
        try_catch
          (exec (insert_users_for_role now role_id tenant_id user_ids) ;; mret user_ids)
          (λ e,
            if is_integrity e then
              rollback ;;
              raise (HTTPException_unbound 400 "One or more user IDs are invalid or could not be assigned.")
            else
              rollback ;;
              raise (HTTPException_unbound 500 "Failed to assign users to role."))
    end;
  commit ;;
  mret added_user_ids.
End role_service.

(** ** Behaviour *)

Section role_facts.
Context {S : Type} `{SessionLaws S} `{Inputs}.
Implicit Types w : World S.

(** A role a tenant may assign: a system role or one of its own. *)
Definition accessible (t : Tables) (role_id tenant_id : Uuid) : Prop :=
  match roles t !! role_id with
  | Some r => r_is_system_role r = true ∨ r_tenant_id r = Some tenant_id
  | None => False
  end.

#[global] Instance accessible_dec t rid tid : Decision (accessible t rid tid).
Proof. unfold accessible. destruct (roles t !! rid); apply _. Defined.

(** The membership of a role in a tenant, before and after [set_users_for_role]. *)
Definition assigned (t : Tables) (uid rid tid : Uuid) : Prop :=
  is_Some (user_tenant_roles t !! (uid, rid, tid)).

Definition users_replaced (rid tid : Uuid) (uids : list Uuid) (t t' : Tables) : Prop :=
  (∃ m, t' = set_user_tenant_roles m t) ∧
  ∀ u r tn, assigned t' u r tn ↔
    if decide (r = rid ∧ tn = tid) then u ∈ uids else assigned t u r tn.

(** ** The role listing *)

(** The users assigned to a role within a tenant. *)
Definition holders (t : Tables) (rid tid : Uuid) : gset (Uuid * Uuid * Uuid) :=
  filter (λ k, k.1.2 = rid ∧ k.2 = tid) (dom (user_tenant_roles t)).

Lemma count_role_ids t rid tid :
  length (filter (eq rid) ((λ '(_, r, _), r) <$>
    filter (λ '(_, _, tn), tn = tid) (utr_rows (S := S) t))) = size (holders t rid tid).
Proof.
  rewrite filter_fmap, length_fmap, list_filter_filter. unfold holders, size, set_size. simpl.
  unfold utr_rows. rewrite order_perm. apply Permutation_length, NoDup_Permutation.
  - apply NoDup_filter, NoDup_elements.
  - apply NoDup_elements.
  - intros [[u r] tn]. rewrite list_elem_of_filter, !elem_of_elements, elem_of_filter. simpl.
    naive_solver.
Qed.

(** The outer join keeps one line per role, with its number of holders. *)
Lemma with_user_count_spec tid t r :
  with_user_count (S := S) tid t r =
    [mkRoleList (r_id r) (r_name r) (r_description r) (r_is_system_role r)
       (size (holders t (r_id r) tid))].
Proof.
  unfold with_user_count, user_count_subq. rewrite <-count_role_ids.
  set (ids := _ <$> filter _ (utr_rows t)).
  rewrite filter_fmap. change (filter _ (remove_dups ids)) with (filter (eq (r_id r)) (remove_dups ids)).
  rewrite filter_eq_NoDup by apply NoDup_remove_dups. case_decide as Hin; [done|].
  rewrite elem_of_remove_dups in Hin. simpl. do 2 f_equal. symmetry.
  apply length_zero_iff_nil, filter_nil_iff. by intros x Hx <-.
Qed.

(** The lines of the listing for a filter on roles: by name, one per role, with
    the number of its holders in the tenant. *)
Definition role_listing (where_ : Role → bool) (tid : Uuid) (t : Tables) (l : list RoleList) : Prop :=
  StronglySorted (collate_le (S := S) rl_name) l ∧ NoDup (rl_id <$> l) ∧
  ∀ e, e ∈ l ↔ ∃ r, roles t !! r_id r = Some r ∧ where_ r = true ∧
    e = mkRoleList (r_id r) (r_name r) (r_description r) (r_is_system_role r)
          (size (holders t (r_id r) tid)).

Lemma role_listing_correct where_ tid t : db_ok t →
  role_listing where_ tid t (order_by_str (S := S) rl_name
    (select (S := S) (λ r, where_ r = true) t ≫= with_user_count (S := S) tid t)).
Proof.
  intros Hok. set (line := λ r, mkRoleList (r_id r) (r_name r) (r_description r) (r_is_system_role r)
                                 (size (holders t (r_id r) tid))).
  assert (∀ l, l ≫= with_user_count (S := S) tid t = line <$> l) as ->.
  { induction l as [|r l IH]; [done|]. rewrite bind_cons, IH, with_user_count_spec. done. }
  split; [apply order_by_str_sorted|]. split.
  - rewrite order_by_str_perm, <-list_fmap_compose. apply NoDup_fmap_2_strong.
    + intros r r' Hr Hr' Heq. simpl in Heq. apply elem_of_select in Hr as [_ [i Hi]].
      apply elem_of_select in Hr' as [_ [j Hj]].
      pose proof (model_ids (ok_roles _ Hok) _ _ Hi). pose proof (model_ids (ok_roles _ Hok) _ _ Hj).
      simpl in *. congruence.
    + apply NoDup_filter, NoDup_rows. apply Hok.
  - intros e. rewrite order_by_str_perm, list_elem_of_fmap. split.
    + intros (r & -> & [Hw [i Hi]]%elem_of_select). exists r.
      pose proof (model_ids (ok_roles _ Hok) _ _ Hi). simpl in *. by subst i.
    + intros (r & Hr & Hw & ->). exists r. split; [done|]. apply elem_of_select. eauto.
Qed.

(** Without an operator [|] the listing fails before any statement; with one it
    is a page of the right lines, as long as the page's numbers are [bigint]s. *)
Lemma get_multi_by_tenant_with_user_count_post tid skip limit w :
  usable w = true → db_ok (view w) →
  post (get_multi_by_tenant_with_user_count tid skip limit) w (λ r w', w' = w ∧
    match accessible_filter (S := S) tid with
    | inl where_ =>
        if page_fits skip limit
        then ∃ l, r = Ret (page skip limit l) ∧ role_listing where_ tid (view w) l
        else r = Raise out_of_int64
    | inr e => r = Raise e
    end).
Proof.
  intros Hu Hok. unfold get_multi_by_tenant_with_user_count. apply post_bind.
  destruct (accessible_filter tid) as [f|e]; simpl; [|done].
  apply post_ret, post_query_page; [done| |]; intros ->; [|done].
  split; [done|]. eexists. split; [done|]. by apply role_listing_correct.
Qed.

Lemma inaccessible_test t rid tid :
  match roles t !! rid with
  | None => true
  | Some r => negb (r_is_system_role r) && bool_decide (r_tenant_id r ≠ Some tid)
  end = negb (bool_decide (accessible t rid tid)).
Proof.
  destruct (decide (accessible t rid tid)) as [Ha|Ha];
    [rewrite (bool_decide_eq_true_2 _ Ha)|rewrite (bool_decide_eq_false_2 _ Ha)];
    unfold accessible in Ha; destruct (roles t !! rid) as [r|]; try done;
    destruct (r_is_system_role r); simpl; try case_bool_decide; naive_solver.
Qed.

Lemma deleted_assignments t rid tid u r tn :
  assigned (delete_user_tenant_roles (λ k, k.1.2 = rid ∧ k.2 = tid) t) u r tn ↔
  assigned t u r tn ∧ ¬ (r = rid ∧ tn = tid).
Proof.
  unfold assigned, delete_user_tenant_roles. simpl. split.
  - intros [x [Hx Hn]%map_lookup_filter_Some]. split; [by exists x|done].
  - intros [[x Hx] Hn]. exists x. by apply map_lookup_filter_Some.
Qed.

Lemma users_replaced_intro now rid tid uids t t' :
  insert_users_for_role now rid tid uids
    (delete_user_tenant_roles (λ k, k.1.2 = rid ∧ k.2 = tid) t) = inl t' →
  users_replaced rid tid uids t t'.
Proof.
  intros ([m ->] & Hs & _)%insert_users_for_role_lookup. split; [by exists m|].
  intros u r tn. unfold assigned at 1. rewrite Hs. fold (assigned (delete_user_tenant_roles
    (λ k, k.1.2 = rid ∧ k.2 = tid) t) u r tn). rewrite deleted_assignments.
  case_decide as Hd; [destruct Hd as [-> ->]|]; naive_solver.
Qed.

Lemma users_replaced_nil rid tid t :
  users_replaced rid tid [] t (delete_user_tenant_roles (λ k, k.1.2 = rid ∧ k.2 = tid) t).
Proof.
  split; [by eexists|]. intros u r tn. rewrite deleted_assignments.
  case_decide; set_solver.
Qed.

(** Every outcome of [set_users_for_role]. *)
Lemma set_users_for_role_post rid tid uids w :
  usable w = true → db_ok (view w) →
  post (set_users_for_role rid tid uids) w (λ r w',
    match r with
    | Ret l => l = uids ∧ accessible (view w) rid tid ∧
               users_replaced rid tid uids (view w) (durable w') ∧ db_ok (durable w')
    | Raise e => durable w' = durable w ∧ e = NameError "HTTPException" ∧
        (¬ accessible (view w) rid tid
         ∨ accessible (view w) rid tid ∧
           ∃ now c, insert_users_for_role now rid tid uids
             (delete_user_tenant_roles (λ k, k.1.2 = rid ∧ k.2 = tid) (view w)) = inr c)
    end).
Proof.
  intros Hu Hok. unfold set_users_for_role.
  apply post_bind, post_get; [done|apply Hok|]. simpl. rewrite inaccessible_test.
  apply post_bind, post_raise_if; intros Hacc; reflect_bools; [by auto|].
  apply post_bind, post_exec; [done| |done]. intros t [= <-].
  set (t1 := delete_user_tenant_roles _ _) in *.
  assert (db_ok t1) as Hok1 by (by apply delete_user_tenant_roles_ok).
  destruct uids as [|uid uids].
  - wp. autorewrite with world. split_and!; [done..|apply users_replaced_nil|done].
  - do 4 wp_step. apply post_bind, post_exec; [solve_usable| |].
    + intros t Ht. autorewrite with world in Ht. wp. autorewrite with world.
      split_and!; [done..| |by eauto with db]. by eapply users_replaced_intro.
    + intros c Hc. autorewrite with world in Hc. simpl. wp. autorewrite with world.
      split_and!; [done..|]. right. eauto.
Qed.

(** Exactly the pairs of [role_id] with [pids], and nothing else changed. *)
Definition permissions_replaced (rid : Uuid) (pids : list Uuid) (t t' : Tables) : Prop :=
  (∃ s, t' = set_role_permissions_tbl s t) ∧
  ∀ r p, (r, p) ∈ role_permissions t' ↔
    if decide (r = rid) then p ∈ pids else (r, p) ∈ role_permissions t.

Lemma permissions_replaced_intro rid pids t t' :
  insert_role_permissions rid pids (delete_role_permissions rid t) = inl t' →
  permissions_replaced rid pids t t'.
Proof.
  intros (-> & _ & _)%insert_role_permissions_inv. split; [by eexists|].
  intros r p. simpl. rewrite elem_of_union, elem_of_list_to_set, list_elem_of_fmap, elem_of_filter.
  case_decide; naive_solver.
Qed.

(** [set_role_permissions] in an open transaction. *)
Lemma set_role_permissions_post rid pids w :
  usable w = true → db_ok (view w) →
  post (set_role_permissions rid pids) w (λ r w',
    durable w' = durable w ∧ usable w' = true ∧
    match r with
    | Ret _ => permissions_replaced rid pids (view w) (view w') ∧ db_ok (view w')
    | Raise e => e = NameError "HTTPException" ∧
                 view w' = durable w ∧
                 ∃ c, insert_role_permissions rid pids (delete_role_permissions rid (view w)) = inr c
    end).
Proof.
  intros Hu Hok. unfold set_role_permissions.
  apply post_bind, post_exec; [done| |done]. intros t [= <-].
  set (t1 := delete_role_permissions _ _).
  assert (db_ok t1) as Hok1 by (by apply delete_role_permissions_ok).
  destruct pids as [|pid pids].
  - wp. autorewrite with world. split_and!; try done. by apply permissions_replaced_intro.
  - apply post_try, post_exec; [solve_usable| |].
    + intros t Ht. autorewrite with world in *. split_and!; [done..| |by eauto with db].
      by apply permissions_replaced_intro.
    + intros c Hc. autorewrite with world in Hc. wp. autorewrite with world.
      split_and!; eauto.
Qed.

(** Loading [Role.permissions] always fails. *)
Lemma get_role_with_permissions_run rid w :
  get_role_with_permissions (S := S) rid w = (Raise (AttributeError "permissions"), w).
Proof. done. Qed.

(** The exception, if any, a refresh of [permissions] ends with. *)
Lemma post_refresh_permissions w Q :
  (∀ e, sess_refresh_unmapped (S := S) "permissions" = Some e → Q (Raise e) w) →
  (sess_refresh_unmapped (S := S) "permissions" = None → Q (Ret tt) w) →
  post (refresh_role (S := S) ["permissions"]) w Q.
Proof.
  intros He Hn. unfold post, refresh_role. rewrite decide_False by (vm_compute; set_solver).
  destruct (sess_refresh_unmapped "permissions"); simpl; [by apply He|by apply Hn].
Qed.

Definition name_taken (name : string) (tid : Uuid) (t : Tables) : Prop :=
  ∃ i r, roles t !! i = Some r ∧ r_name r = name ∧ r_tenant_id r = Some tid.

Lemma get_by_name_in_tenant_post name tid w Q :
  usable w = true →
  (∀ r i, roles (view w) !! i = Some r → r_name r = name → r_tenant_id r = Some tid →
    Q (Ret (Some r)) w) →
  (¬ name_taken name tid (view w) → Q (Ret None) w) →
  post (get_by_name_in_tenant name tid) w Q.
Proof.
  intros Hu Hs Hn. apply post_query; [done|].
  destruct (first _) as [r|] eqn:Hf.
  - apply first_select_Some in Hf as [[??] [i Hi]]. by eapply Hs.
  - apply Hn. intros (i & r & Hi & ? & ?). rewrite first_select_None in Hf.
    by destruct (Hf i r Hi).
Qed.

(** Deleting a role. *)
Lemma delete_custom_role_post rid tid w :
  usable w = true → db_ok (view w) →
  post (delete_custom_role rid tid) w (λ r w',
    match r with
    | Ret None => roles (view w) !! rid = None ∧ w' = w
    | Ret (Some x) =>
        roles (view w) !! rid = Some x ∧ r_is_system_role x = false ∧
        r_tenant_id x = Some tid ∧ (∀ uid, ¬ assigned (view w) uid rid tid) ∧
        durable w' = delete_role rid (view w)
    | Raise e => w' = w ∧ ∃ x, roles (view w) !! rid = Some x ∧
        e = NameError "HTTPException" ∧
        (r_is_system_role x = true
         ∨ r_is_system_role x = false ∧ r_tenant_id x ≠ Some tid
         ∨ r_is_system_role x = false ∧ r_tenant_id x = Some tid ∧
           ∃ uid, assigned (view w) uid rid tid)
    end).
Proof.
  intros Hu Hok. unfold delete_custom_role.
  apply post_bind, post_get; [done|apply Hok|]. simpl.
  destruct (roles (view w) !! rid) as [x|] eqn:Hx; [|by wp].
  pose proof (model_ids (ok_roles _ Hok) rid x Hx) as Hid. simpl in Hid.
  apply post_bind, post_raise_if; intros Hsys; [naive_solver|].
  apply post_bind, post_raise_if; intros Hten; reflect_bools; [naive_solver|].
  apply dec_stable in Hten.
  assert (∀ b : bool, b = bool_decide (Exists (λ '(_, r, tn), r = rid ∧ tn = tid)
            (utr_rows (S := S) (view w))) → b = true ↔ ∃ uid, assigned (view w) uid rid tid) as Hb.
  { intros b ->. rewrite bool_decide_eq_true, Exists_exists. split.
    - intros ([[u r] tn] & Hin & -> & ->). exists u. by apply elem_of_utr_rows in Hin.
    - intros [u Hu']. exists (u, rid, tid). by rewrite elem_of_utr_rows. }
  unfold check_role_assigned. do 2 wp_step. specialize (Hb _ eq_refl).
  apply post_bind, post_raise_if; intros Has.
  - apply Hb in Has. naive_solver.
  - wp; [|done]. autorewrite with world. subst. split_and!; try done; [|congruence].
    intros u Hu'. rewrite (proj2 Hb) in Has by eauto. done.
Qed.

(** The row [create_custom_role] inserts. *)
Definition new_role (obj_in : RoleCreate) (tid : Uuid) w : Role :=
  mkRole (uuid4_at (w_uuid w)) (rc_name obj_in) (rc_description obj_in) (Some tid) false
    (now (next_uuid w)) (now (tick (next_uuid w))).

(** The only constraint a role row must meet is its tenant's existence. *)
Lemma role_violation_iff (r : Role) t :
  row_violation r t = match r_tenant_id r with
                      | Some tid => if decide (is_Some (tenants t !! tid)) then None
                                    else Some FkRoleTenant
                      | None => None
                      end.
Proof.
  unfold row_violation, unique_clash, fk_missing. simpl.
  destruct (r_tenant_id r) as [tid|]; simpl; [|done].
  case_decide as Hd.
  - rewrite filter_cons_False; [done|]. simpl. tauto.
  - rewrite filter_cons_True; [done|]. simpl. tauto.
Qed.

(** [set_role_permissions] and the commit after it, as [create_custom_role]
    runs them. *)
Definition permissions_outcome (pids : option (list Uuid)) (rid : Uuid) (t t' : Tables) : Prop :=
  match pids with
  | Some (p :: ps) => permissions_replaced rid (p :: ps) t t'
  | _ => t' = t
  end.

(** Neither the name nor the identifier of the new role is in use. *)
Definition role_free (obj_in : RoleCreate) (tid : Uuid) w : Prop :=
  ¬ name_taken (rc_name obj_in) tid (view w) ∧ roles (view w) !! r_id (new_role obj_in tid w) = None.

Lemma create_custom_role_post obj_in tid w :
  usable w = true → db_ok (view w) →
  post (create_custom_role obj_in tid) w (λ r w',
    let role := new_role obj_in tid w in
    let t1 := set_roles (<[r_id role := role]> (roles (view w))) (view w) in
    match r with
    | Ret x => x = role ∧ role_free obj_in tid w ∧
        permissions_outcome (rc_permission_ids obj_in) (r_id role) t1 (durable w') ∧
        db_ok (durable w')
    | Raise e =>
        (e = NameError "HTTPException" ∧
         name_taken (rc_name obj_in) tid (view w) ∧ w' = w)
        ∨ (∃ c, e = IntegrityError (integrity_text c) ∧ durable w' = durable w ∧
           insert_row role (view w) = inr c)
        ∨ (e = NameError "HTTPException" ∧ durable w' = t1 ∧
           role_free obj_in tid w ∧ db_ok t1)
        ∨ (sess_refresh_unmapped (S := S) "permissions" = Some e ∧
           role_free obj_in tid w ∧
           permissions_outcome (rc_permission_ids obj_in) (r_id role) t1 (durable w') ∧
           db_ok (durable w'))
    end).
Proof.
  intros Hu Hok. unfold create_custom_role. cbv zeta.
  apply post_bind, get_by_name_in_tenant_post; [done| |].
  { intros r i Hi Hn Ht. wp; [|done]. left. split_and!; [done| |done]. by exists i, r. }
  intros Hfree. apply post_bind, post_raise_if; intros Hb; [done|].
  apply post_bind. unfold create. do 6 wp_step.
  change (mkRole _ _ _ _ _ _ _) with (new_role obj_in tid w).
  apply post_bind, post_exec; [solve_usable| |].
  2:{ intros c Hc. autorewrite with world in *. right; left. eauto. }
  intros t Ht. autorewrite with world in Ht.
  pose proof (insert_row_ok _ _ _ Hok (ok_roles _ Hok) Ht) as Hokt.
  apply insert_row_eq in Ht as (Hn & -> & _). pose proof (conj Hfree Hn : role_free obj_in tid w).
  change (set_table (<[row_id (new_role obj_in tid w) := new_role obj_in tid w]>
            (table (view w))) (view w))
    with (set_roles (<[r_id (new_role obj_in tid w) := new_role obj_in tid w]>
            (roles (view w))) (view w)) in *.
  set (t1 := set_roles _ _) in *. do 3 wp_step. apply post_bind.
  assert (∀ w', usable w' = true → durable w' = t1 → view w' = t1 →
    post (match rc_permission_ids obj_in with
          | Some (p :: ps) =>
              set_role_permissions (r_id (new_role obj_in tid w)) (p :: ps) ;; commit
          | _ => mret tt
          end) w'
      (λ r w'', match r with
       | Ret _ => permissions_outcome (rc_permission_ids obj_in) (r_id (new_role obj_in tid w))
                    t1 (durable w'') ∧ db_ok (durable w'')
       | Raise e => e = NameError "HTTPException" ∧ durable w'' = t1
       end)) as Hperm.
  { intros w' Hu' Hd' Hv'. unfold permissions_outcome.
    destruct (rc_permission_ids obj_in) as [[|p ps]|];
      [by wp; rewrite Hd'| |by wp; rewrite Hd'].
    apply post_bind. eapply post_mono; [apply set_role_permissions_post; [done|by rewrite Hv']|].
    intros [[]|e] w''; rewrite Hd', Hv'.
    - intros (Hd & Huw & Hp & Hokp). wp. by autorewrite with world.
    - by intros (-> & _ & -> & _). }
  eapply post_mono; [apply Hperm; by autorewrite with world|].
  intros [[]|e] w''; simpl.
  - intros [Hp Hokp]. apply post_bind, post_refresh_permissions; [|by wp].
    intros e He. right; right; right. eauto.
  - intros [-> ->]. right; right; left. eauto.
Qed.

(** The effect of a successful [update_custom_role]. *)
Definition role_updated (obj_in : RoleUpdate) (old new : Role) (t t' : Tables) : Prop :=
  (∃ y, role_patch obj_in old = inl y ∧ (new = y ∨ ∃ n, new = touch n y)) ∧
  (∃ s, t' = set_roles (<[r_id old := new]> (roles t)) (set_role_permissions_tbl s t)) ∧
  ∀ r p, (r, p) ∈ role_permissions t' ↔
    match ru_permission_ids obj_in with
    | Some ps => if decide (r = r_id old) then p ∈ ps else (r, p) ∈ role_permissions t
    | None => (r, p) ∈ role_permissions t
    end.

(** Flushing the patched row: the role stays where it is, in its tenant. *)
Lemma update_role_post obj_in db_obj w :
  usable w = true → db_ok (view w) → roles (view w) !! r_id db_obj = Some db_obj →
  post (update db_obj (role_patch obj_in)) w (λ r w',
    durable w' = durable w ∧
    match r with
    | Ret x => usable w' = true ∧ db_ok (view w') ∧
        (∃ y, role_patch obj_in db_obj = inl y ∧ (x = y ∨ ∃ n, x = touch n y)) ∧
        view w' = set_roles (<[r_id db_obj := x]> (roles (view w))) (view w)
    | Raise e => e = IntegrityError (integrity_text (NotNull "name")) ∧ ru_name obj_in = Some None
    end).
Proof.
  intros Hu Hok Hl. unfold update. destruct (role_patch obj_in db_obj) as [y|c] eqn:Hp.
  - assert (r_id y = r_id db_obj ∧ r_tenant_id y = r_tenant_id db_obj) as [Hid Hten].
    { unfold role_patch in Hp. destruct (ru_name obj_in) as [[?|]|]; by simplify_eq/=. }
    apply post_flush_row; [done| | |].
    + intros ->. split_and!; eauto. rewrite insert_id by done. by destruct (view w).
    + intros n t w' _ _ Ht ->. autorewrite with world. rewrite <- Hid.
      split_and!; eauto; [exact (put_row_ok _ _ _ Hok (ok_roles _ Hok) Ht)|].
      by apply put_row_eq in Ht as [-> _].
    + intros n c w' _ _ Ht _. exfalso. unfold put_row in Ht.
      rewrite role_violation_iff in Ht. simpl in Ht. rewrite Hten in Ht.
      destruct (r_tenant_id db_obj) as [tid|] eqn:Htid; [|done].
      pose proof (model_fk (ok_roles _ Hok) _ db_obj FkRoleTenant (RefTenant tid) Hl) as Hfk.
      simpl in Hfk. rewrite Htid in Hfk. rewrite decide_True in Ht; [done|].
      apply Hfk. set_solver.
  - assert (c = NotNull "name" ∧ ru_name obj_in = Some None) as [-> Hn].
    { unfold role_patch in Hp. destruct (ru_name obj_in) as [[?|]|]; by simplify_eq/=. }
    wp; [done|]. autorewrite with world. naive_solver.
Qed.

Lemma update_custom_role_post obj_in db_obj w :
  usable w = true → db_ok (view w) → roles (view w) !! r_id db_obj = Some db_obj →
  post (update_custom_role db_obj obj_in) w (λ r w',
    match r with
    | Ret x => role_updated obj_in db_obj x (view w) (durable w') ∧ db_ok (durable w') ∧
               r_is_system_role db_obj = false
    | Raise e =>
        (durable w' = durable w ∧
         (e = NameError "HTTPException"
          ∨ e = IntegrityError (integrity_text (NotNull "name")) ∧ ru_name obj_in = Some None))
        ∨ (sess_refresh_unmapped (S := S) "permissions" = Some e ∧ db_ok (durable w') ∧
           r_is_system_role db_obj = false ∧
           ∃ x, role_updated obj_in db_obj x (view w) (durable w'))
    end).
Proof.
  intros Hu Hok Hl. unfold update_custom_role.
  apply post_bind, post_raise_if; intros Hsys; [naive_solver|].
  apply post_bind.
  assert (post (match ru_permission_ids obj_in with
                | Some ps => set_role_permissions (r_id db_obj) ps
                | None => mret tt
                end) w (λ r w', durable w' = durable w ∧ usable w' = true ∧
            match r with
            | Ret _ => db_ok (view w') ∧
                (∃ s, view w' = set_role_permissions_tbl s (view w)) ∧
                ∀ r p, (r, p) ∈ role_permissions (view w') ↔
                  match ru_permission_ids obj_in with
                  | Some ps => if decide (r = r_id db_obj) then p ∈ ps
                               else (r, p) ∈ role_permissions (view w)
                  | None => (r, p) ∈ role_permissions (view w)
                  end
            | Raise e => e = NameError "HTTPException"
            end)) as Hperm.
  { destruct (ru_permission_ids obj_in) as [ps|].
    - eapply post_mono; [by apply set_role_permissions_post|].
      intros [[]|e] w' (Hd & Hu' & Hr); [|naive_solver].
      destruct Hr as [[Hs Hp] Hokw]. done.
    - wp. split_and!; try done. exists (role_permissions (view w)). by destruct (view w). }
  eapply post_mono; [exact Hperm|]. clear Hperm.
  intros [[]|e] w1 (Hd1 & Hu1 & Hr); [|left; naive_solver].
  destruct Hr as (Hok1 & [s Hs] & Hrp). apply post_bind.
  eapply post_mono; [apply update_role_post; [done..|by rewrite Hs]|].
  intros [x|e] w2 [Hd2 Hx].
  - destruct Hx as (Hu2 & Hok2 & Hpatch & Hv2). do 3 wp_step.
    assert (role_updated obj_in db_obj x (view w) (durable (on_db sess_commit w2))) as Hdone.
    { autorewrite with world. split; [done|]. rewrite Hv2. split.
      - exists s. by rewrite Hs.
      - intros r p. simpl. by rewrite Hrp. }
    assert (db_ok (durable (on_db sess_commit w2))) by by autorewrite with world.
    apply post_refresh_permissions; [|by wp]. intros e He. right. eauto.
  - left. rewrite Hd2, Hd1. naive_solver.
Qed.
End role_facts.

(** ** Properties *)

Section role_properties.
Context {S : Type} `{SessionLaws S} `{Inputs}.
Implicit Types w : World S.

(** When the bulk insert succeeds. *)
Lemma insert_users_for_role_iff nw rid tid uids t :
  db_ok t → ref_ok t (RefRole rid) →
  (∃ t', insert_users_for_role nw rid tid uids t = inl t') ↔
  (∀ uid, uid ∈ uids → ref_ok t (RefUser uid)) ∧ (uids = [] ∨ ref_ok t (RefTenant tid)).
Proof.
  intros Hok Hr. split.
  - intros [t' Ht]. pose proof (insert_users_for_role_ok _ _ _ _ _ _ Hok Ht) as Hok'.
    apply insert_users_for_role_lookup in Ht as ([m ->] & Hs & _).
    assert (∀ uid, uid ∈ uids → ref_ok t (RefUser uid) ∧ ref_ok t (RefTenant tid)) as Hall.
    { intros uid Hin. destruct (ok_user_tenant_roles _ Hok' uid rid tid) as (?&_&?); [|done].
      apply Hs. right. eauto. }
    split; [naive_solver|]. destruct uids as [|u us]; [by left|right].
    eapply Hall. by left.
  - intros [Hu [->|Ht]]; [by exists t|]. by apply insert_users_for_role_total.
Qed.

(** C15. [set_users_for_role] replaces exactly the users of this role in this
    tenant, returns the requested list and commits, when the role is accessible
    to the tenant and the users (and, for a non-empty list, the tenant) exist;
    in every other case it fails and commits nothing.  The failure is never the
    404 or the 400 the method names but the [NameError] of the exception class
    the module does not import. *)
Theorem set_users_for_role_spec rid tid uids w :
  usable w = true → db_ok (view w) →
  let possible := accessible (view w) rid tid ∧
    (∀ uid, uid ∈ uids → ref_ok (view w) (RefUser uid)) ∧
    (uids = [] ∨ ref_ok (view w) (RefTenant tid)) in
  post (set_users_for_role rid tid uids) w (λ r w',
    match r with
    | Ret l => possible ∧ l = uids ∧ db_ok (durable w') ∧
        (∃ m, durable w' = set_user_tenant_roles m (view w)) ∧
        ∀ u r tn, assigned (durable w') u r tn ↔
          if decide (r = rid ∧ tn = tid) then u ∈ uids else assigned (view w) u r tn
    | Raise e => ¬ possible ∧ durable w' = durable w ∧
        e = NameError "HTTPException"
    end).
Proof.
  intros Hu Hok possible. pose proof (set_users_for_role_post rid tid uids w Hu Hok) as HP.
  set (t1 := delete_user_tenant_roles (λ k, k.1.2 = rid ∧ k.2 = tid) (view w)) in *.
  assert (db_ok t1) as Hok1 by (by apply delete_user_tenant_roles_ok).
  assert (accessible (view w) rid tid → ref_ok t1 (RefRole rid)) as Hrole.
  { unfold accessible. simpl. destruct (roles (view w) !! rid); [by eexists|done]. }
  pose proof (λ nw Ha, insert_users_for_role_iff nw rid tid uids t1 Hok1 (Hrole Ha)) as Hiff.
  eapply post_mono; [exact HP|]. intros [l|e] w'.
  - intros (-> & Ha & [Hm Hs] & Hok'). split_and!; try done.
    assert (∀ u, u ∈ uids → ref_ok (view w) (RefUser u) ∧ ref_ok (view w) (RefTenant tid)) as Hall.
    { destruct Hm as [m Hm]. intros u Hin. rewrite Hm in Hok', Hs.
      destruct (ok_user_tenant_roles _ Hok' u rid tid) as (?&_&?); [|done].
      apply Hs. by rewrite decide_True. }
    split_and!; [done|naive_solver|]. destruct uids as [|u us]; [by left|right].
    eapply Hall. by left.
  - intros (Hd & -> & [Hn|(Ha & nw & c & Hi)]).
    + unfold possible. naive_solver.
    + split_and!; [|done..]. intros (_ & Hpos).
      apply (Hiff nw Ha) in Hpos as [t' Ht]. congruence.
Qed.

(** C18. [delete_custom_role] deletes exactly a custom role of the tenant that
    no user of the tenant holds, together with every association that names
    it, and commits; of a role that does not exist it returns [None], and in
    every other case it ends in the [NameError] and changes nothing. *)
Theorem delete_custom_role_spec rid tid w :
  usable w = true → db_ok (view w) →
  post (delete_custom_role rid tid) w (λ r w',
    match roles (view w) !! rid with
    | None => r = Ret None ∧ w' = w
    | Some x =>
        if r_is_system_role x || bool_decide (r_tenant_id x ≠ Some tid) then
          r = Raise (NameError "HTTPException") ∧ w' = w
        else
          (r = Raise (NameError "HTTPException") ∧ w' = w ∧
           ∃ uid, assigned (view w) uid rid tid)
          ∨ (r = Ret (Some x) ∧ (∀ uid, ¬ assigned (view w) uid rid tid) ∧
             db_ok (durable w') ∧ roles (durable w') = delete rid (roles (view w)) ∧
             (∀ u tn, ¬ assigned (durable w') u rid tn) ∧
             (∀ p, (rid, p) ∉ role_permissions (durable w')) ∧
             ∀ u r' tn, r' ≠ rid → assigned (durable w') u r' tn ↔ assigned (view w) u r' tn)
    end).
Proof.
  intros Hu Hok. eapply post_mono; [by apply delete_custom_role_post|].
  intros [[x|]|e] w'.
  - intros (-> & -> & Hten & Hna & Hd). rewrite bool_decide_eq_false_2 by (rewrite Hten; tauto).
    right. rewrite Hd. split_and!; try done.
    + by apply delete_roles_ok.
    + apply map_eq. intros i. rewrite lookup_delete.
      pose proof (delete_row_lookup (R := Role) rid i (view w)) as Hx. simpl in Hx |- *.
      rewrite Hx. by repeat case_decide.
    + by intros u tn [y [_ Hy]%map_lookup_filter_Some].
    + intros p. simpl. rewrite elem_of_filter. simpl. tauto.
    + intros u r' tn Hne. unfold assigned. simpl. split.
      * intros [y [Hy _]%map_lookup_filter_Some]. by exists y.
      * intros [y Hy]. exists y. by apply map_lookup_filter_Some.
  - intros [Hl ->]. by rewrite Hl.
  - intros (-> & x & -> & -> & [->|[[-> Hn]|(-> & Ht & Ha)]]).
    + done.
    + by rewrite bool_decide_eq_true_2.
    + rewrite bool_decide_eq_false_2 by (rewrite Ht; tauto). by left.
Qed.
End role_properties.

Lemma set_users_for_role_witness :
  post (set_users_for_role 21 10 [1; 2; 3]%N) w0 (λ r w', r = Ret [1; 2; 3]%N ∧
    assigned (durable w') 3 21 10).
Proof.
  eapply post_mono; [apply (set_users_for_role_spec 21 10 [1; 2; 3]%N w0);
    [reflexivity|apply sample_ok]|].
  intros [l|e] w'.
  - intros (_ & -> & _ & _ & Hs). split; [done|]. apply Hs. rewrite decide_True by done.
    set_solver.
  - intros (Hn & _). exfalso. apply Hn. split_and!.
    + apply (bool_decide_unpack _). vm_compute. done.
    + intros u Hin. repeat (apply elem_of_cons in Hin as [->|Hin];
        [eexists; vm_compute; reflexivity|]). by apply not_elem_of_nil in Hin.
    + right. eexists. vm_compute. reflexivity.
Defined.

Lemma delete_custom_role_witness :
  post (delete_custom_role 23 10) w0 (λ r w', r = Ret (Some spare_role) ∧
    roles (durable w') !! 23%N = None).
Proof.
  eapply post_mono; [apply (delete_custom_role_spec 23 10 w0); [reflexivity|apply sample_ok]|].
  assert (roles (view w0) !! 23%N = Some spare_role) as -> by (vm_compute; reflexivity).
  intros r w'. simpl. intros [(_ & _ & u & Hu)|(-> & _ & _ & -> & _)].
  - exfalso. assert (¬ Exists (λ '(_, r, tn), r = 23%N ∧ tn = 10%N)
      (utr_rows (S := Snap) (view w0))) as Hn by (apply (bool_decide_unpack _); vm_compute; done).
    apply Hn, Exists_exists. exists (u, 23%N, 10%N). split; [|done].
    by apply (elem_of_utr_rows (S := Snap)).
  - split; [done|]. apply lookup_delete_eq.
Defined.
