(* ===== verification/Security.v ===== *)
(** * [core/security.py]: passwords and access tokens

    passlib and python-jose are third-party: their functions are the fields of
    [Passlib] and [Jose], with the documented behaviour the code relies on as
    laws.  [Toy] libraries at the end satisfy the laws, for witnesses. *)

From stdpp Require Import base tactics list strings.
From Stdlib Require Import ZArith Lia.
From S2P Require Import Prelude PyStd Effects Models Session Snapshot.

(** ** The libraries *)

Class Passlib := {
  (** [CryptContext(schemes=["bcrypt"]).hash], given the salt's random bytes *)
  pwd_hash : list N → string → string + Exn;
  (** [CryptContext.verify(plain, hash)] *)
  pwd_verify : string → string → bool + Exn
}.

Class PasslibLaws `{Passlib} : Prop := {
  verify_hash salt p h : pwd_hash salt p = inl h → pwd_verify p h = inl true;
  (** passlib rejects a password with [ValueError]s (a NUL, an excessive size) *)
  hash_errors salt p e : pwd_hash salt p = inr e → ∃ m, e = ValueError m
}.

(** The claims the backend puts into a token; [exp] in seconds. *)
Record Claims := mkClaims {
  c_exp : option Z;
  c_sub : option string
}.

#[global] Instance Claims_eq_dec : EqDecision Claims.
Proof. solve_decision. Defined.

Class Jose := {
  (** [jwt.encode] with the configured key and HS256 *)
  jwt_encode : Z → string → string;
  (** [jwt.decode] with the same key, at this second *)
  jwt_decode : Z → string → Claims + Exn;
  (** the exception class [jwt.PyJWTError], if the module has that attribute *)
  jwt_PyJWTError : option (Exn → bool)
}.

Class JoseLaws `{Jose} : Prop := {
  (** an encoded token decodes to its claims until it expires *)
  decode_encode nw e sub : (0 ≤ e < 2 ^ 63)%Z →
    jwt_decode nw (jwt_encode e sub) =
      if (e <? nw)%Z then inr ExpiredSignatureError else inl (mkClaims (Some e) (Some sub));
  (** a compact serialisation has two dots *)
  encode_nonempty e sub : jwt_encode e sub ≠ "";
  (** the exceptions of [jwt.decode] are jose's *)
  decode_errors nw t e : jwt_decode nw t = inr e → e = ExpiredSignatureError ∨ e = JWTError;
  (** python-jose has no attribute [PyJWTError] *)
  no_PyJWTError : jwt_PyJWTError = None
}.

(** ** Operations *)

Definition us_per_s : Z := 1000000.

(** [settings.JWT_ACCESS_TOKEN_EXPIRE_MINUTES]. *)
Definition JWT_ACCESS_TOKEN_EXPIRE_MINUTES : Z := 30.

Section security.
Context {S : Type} `{Session S} `{Inputs} `{Passlib} `{Jose}.

Definition create_password_hash (password : string) : M (World S) string :=
  salt ← token_bytes;
  lift (pwd_hash salt password).

Definition verify_password (plain_password hashed_password : string) : M (World S) bool :=
  lift (pwd_verify plain_password hashed_password).

(** [expires_delta] in microseconds; a zero [timedelta] is falsy. The claim
    is [timegm(expire.utctimetuple())]. *)
Definition create_access_token (subject : string) (expires_delta : option Z) : M (World S) string :=
  n ← utcnow;
  let delta := match expires_delta with
               | Some d => if (d =? 0)%Z then JWT_ACCESS_TOKEN_EXPIRE_MINUTES * 60 * us_per_s else d
               | None => JWT_ACCESS_TOKEN_EXPIRE_MINUTES * 60 * us_per_s
               end%Z in
  expire ← require (dt_add n delta) OverflowError;
  mret (jwt_encode (expire / us_per_s)%Z subject).
End security.

(** ** Libraries for witnesses *)

(** Passwords are stored with a marker; tokens print their expiry as 32
    hexadecimal digits before the subject. *)
#[global] Instance toy_passlib : Passlib := {|
  pwd_hash _ p := inl ("h:" +:+ p);
  pwd_verify p h := inl (String.eqb h ("h:" +:+ p))
|}.

#[global] Instance toy_passlib_laws : PasslibLaws.
Proof. split; [|done]. intros salt p h [= <-]. simpl. f_equal. apply String.eqb_refl. Qed.

#[global] Instance toy_jose : Jose := {|
  jwt_encode e sub := of_chars (hex_of 32 (Z.to_N e) ++ chars sub);
  jwt_decode nw t :=
    if bool_decide (List.length (take 32 (chars t)) = 32%nat) then
      match hex_digits_val 0 false (take 32 (chars t)) with
      | Some e => if (Z.of_N e <? nw)%Z then inr ExpiredSignatureError
                  else inl (mkClaims (Some (Z.of_N e)) (Some (of_chars (drop 32 (chars t)))))
      | None => inr JWTError
      end
    else inr JWTError;
  jwt_PyJWTError := None
|}.

#[global] Instance toy_jose_laws : JoseLaws.
Proof.
  split.
  - intros nw e sub He. unfold jwt_decode, jwt_encode, toy_jose.
    rewrite String.list_ascii_of_string_of_list_ascii.
    rewrite take_app_le, take_ge, drop_app_ge, hex_of_length, Nat.sub_diag, drop_0
      by (rewrite hex_of_length; lia).
    rewrite bool_decide_eq_true_2 by done.
    rewrite hex_of_val, N.mod_small.
    + rewrite Z2N.id by lia. by rewrite String.string_of_list_ascii_of_string.
    + change (16 ^ N.of_nat 32)%N with (Z.to_N (2 ^ 128)). apply Z2N.inj_lt; lia.
  - intros e sub Hn. apply (f_equal chars) in Hn. unfold jwt_encode, toy_jose in Hn.
    rewrite String.list_ascii_of_string_of_list_ascii in Hn.
    apply app_eq_nil in Hn as [Hn _]. by apply (f_equal List.length) in Hn; rewrite hex_of_length in Hn.
  - intros nw t e. simpl. repeat case_match; naive_solver.
  - done.
Qed.
