(* ===== verification/UserService.v ===== *)
(** * [services/iam/user.py: UserService]

    Users and their membership of tenants: creation with the default role,
    updates, the paginated listing, role assignment and removal. *)

From stdpp Require Import base tactics list gmap sorting strings.
From Stdlib Require Import ZArith Lia.
From S2P Require Import Prelude PyStd Effects Models Session Snapshot Crud RoleService Security.

(** ** Input schemas ([schemas/iam/user.py]) *)

Record UserCreate := mkUserCreate {
  uc_email : string;
  uc_password : string;
  uc_first_name : string;
  uc_last_name : string;
  uc_is_active : bool;
  uc_is_superuser : bool
}.

(** The fields present in [model_dump(exclude_unset=True)].  [first_name] and
    [last_name] name no column of [User]; the update ignores them. *)
Record UserUpdate := mkUserUpdate {
  uu_email : option (option string);
  uu_first_name : option (option string);
  uu_last_name : option (option string);
  uu_password : option (option string);
  uu_is_active : option (option bool)
}.

Definition DEFAULT_ROLE_NAME : string := "Default User Role".

(** The attributes the class [User] maps. *)
Definition User_attributes : list string :=
  ["id"; "email"; "hashed_password"; "full_name"; "is_active"; "is_superuser"; "last_login";
   "created_at"; "updated_at"; "api_keys"; "sent_invitations"; "received_invitations"].

(** ** Operations *)

Section user_service.
Context {S : Type} `{Session S} `{Inputs} `{Passlib}.

Definition get_by_email (email : string) : M (World S) (option User) :=
  query (λ t, first (select (S := S) (λ u, u_email u = email) t)).

(** The first [try] block of [create]: hash, [User(...)], [flush]. *)
Definition create_user_row (obj_in : UserCreate) : M (World S) User :=
  try_catch
    (hashed_password ← create_password_hash (uc_password obj_in);
     let full_name := str_strip (uc_first_name obj_in +:+ " " +:+ uc_last_name obj_in) in
     Crud.create (λ i c u,
       mkUser i (uc_email obj_in) hashed_password (Some full_name)
         (uc_is_active obj_in) (uc_is_superuser obj_in) None c u))
    (λ e,
      if is_integrity e then
        rollback ;;
        if str_contains "users_email_key" (str_lower (exn_str e)) then
          raise (AppValidationError ("User with email " +:+ uc_email obj_in +:+ " already exists."))
        else raise e
      else rollback ;; raise e).

(** The second: [UserTenantRole(...)], [flush]. *)
Definition create_association (user_id tenant_id role_id : Uuid) : M (World S) unit :=
  try_catch
    (n ← utcnow;
     exec (insert_user_tenant_role n user_id role_id tenant_id))
    (λ e,
      if is_integrity e then
        rollback ;;
        raise (AppValidationError ("Could not associate user with tenant " +:+ uuid_str tenant_id
          +:+ " and role " +:+ uuid_str role_id +:+ ". Invalid tenant/role or duplicate entry?"))
      else rollback ;; raise e).

Definition create (obj_in : UserCreate) (tenant_id : Uuid) (autocommit : bool) : M (World S) User :=
  db_user ← create_user_row obj_in;
  default_role ← get_by_name_in_tenant DEFAULT_ROLE_NAME tenant_id;
  match default_role with
  | None =>
      raise (ValueError ("Default role '" +:+ DEFAULT_ROLE_NAME +:+ "' not found in tenant "
                         +:+ uuid_str tenant_id +:+ "."))
  | Some default_role =>
      create_association (u_id db_user) tenant_id (r_id default_role) ;;
      (if autocommit then commit else mret tt) ;;
      mret db_user
  end.

(** The columns [update_data] sets. *)
Definition user_patch (obj_in : UserUpdate) (hashed : option string) (r : User) : User + Constraint :=
  match uu_email obj_in, uu_is_active obj_in with
  | Some None, _ => inr (NotNull "email")
  | _, Some None => inr (NotNull "is_active")
  | e, a =>
      inl (mkUser (u_id r)
             (match e with Some (Some v) => v | _ => u_email r end)
             (default (u_hashed_password r) hashed)
             (u_full_name r)
             (match a with Some (Some v) => v | _ => u_is_active r end)
             (u_is_superuser r) (u_last_login r) (u_created_at r) (u_updated_at r))
  end.

Definition update (db_obj : User) (obj_in : UserUpdate) : M (World S) User :=
  hashed ←
    match uu_password obj_in with
    | Some (Some plain_password) =>
        if str_truthy plain_password then Some <$> create_password_hash plain_password
        else mret None
    | _ => mret None
    end;
  Crud.update db_obj (user_patch obj_in hashed).

(** [select(User).join(UserTenantRole).where(tenant_id == tenant_id).distinct()]. *)
Definition members (tenant_id : Uuid) (t : Tables) : list User :=
  remove_dups (fst <$> join (λ u '(uid, _, tn), u_id u = uid ∧ tn = tenant_id)
                            (rows (S := S) User t) (utr_rows (S := S) t)).

(** [user_roles_map]: role names per user, in the order of the rows. *)
Definition role_name_rows (tenant_id : Uuid) (user_ids : list Uuid) (t : Tables)
    : list (Uuid * string) :=
  (λ '((uid, _, _), r), (uid, r_name r)) <$>
    join (λ k r, k.1.2 = r_id r ∧ k.2 = tenant_id ∧ k.1.1 ∈ user_ids)
         (utr_rows (S := S) t) (rows (S := S) Role t).

Definition user_roles_map (l : list (Uuid * string)) : gmap Uuid (list string) :=
  foldl (λ m '(uid, name), <[uid := (default [] (m !! uid) ++ [name])%list]> m) ∅ l.

Definition get_multi_by_tenant_paginated (tenant_id : Uuid) (skip limit : nat)
    (search : option string) : M (World S) (list (User * list string) * nat) :=
  (match search with
   | Some s => raise_if (str_truthy s && bool_decide ("first_name" ∉ User_attributes))
                 (AttributeError "first_name")
   | None => mret tt
   end) ;;
  total_count ← query (λ t, List.length (members tenant_id t));
  users ← query_page skip limit (λ t, order_by_str (S := S) u_email (members tenant_id t));
  roles_of ←
    match users with
    | [] => mret ∅
    | _ => query (λ t, user_roles_map (role_name_rows tenant_id (u_id <$> users) t))
    end;
  mret ((λ u, (u, default [] (roles_of !! u_id u))) <$> users, total_count).

Definition get_by_id_and_tenant (record_id tenant_id : Uuid) : M (World S) (option User) :=
  query (λ t, first (fst <$>
    join (λ u '(uid, _, tn), u_id u = uid ∧ u_id u = record_id ∧ tn = tenant_id)
         (rows (S := S) User t) (utr_rows (S := S) t))).

(** [DELETE FROM user_tenant_roles WHERE p], with the row count. *)
Definition delete_assignments (p : Uuid * Uuid * Uuid → Prop) `{!∀ k, Decision (p k)}
    : M (World S) nat :=
  rowcount ← query (λ t, List.length (filter p (utr_rows (S := S) t)));
  exec (λ t, inl (delete_user_tenant_roles p t)) ;;
  mret rowcount.

Definition delete (record_id tenant_id : Uuid) (autocommit : bool) : M (World S) nat :=
  rowcount ← delete_assignments (λ k, k.1.1 = record_id ∧ k.2 = tenant_id);
  (if autocommit then commit else mret tt) ;;
  mret rowcount.

(** [role_service.get_role_by_id_and_tenant]: neither [RoleService] nor
    [CRUDBase] defines it, so the attribute lookup raises and the rest of the
    method is unreachable. *)
Definition assign_role_to_user_in_tenant (user_id role_id tenant_id : Uuid) : M (World S) bool :=
  user ← get_by_id_and_tenant user_id tenant_id;
  raise_if (negb (truthy user))
    (NotFoundError ("User " +:+ uuid_str user_id +:+ " not found in tenant "
                    +:+ uuid_str tenant_id)) ;;
  raise (AttributeError "get_role_by_id_and_tenant").

Definition remove_role_from_user_in_tenant (user_id role_id tenant_id : Uuid)
    (autocommit : bool) : M (World S) nat :=
  rowcount ← delete_assignments (λ k, k.1.1 = user_id ∧ k.2 = tenant_id ∧ k.1.2 = role_id);
  (if autocommit then commit else mret tt) ;;
  mret rowcount.

Definition is_user_in_tenant (user_id tenant_id : Uuid) : M (World S) bool :=
  query (λ t, bool_decide (Exists (λ '(u, _, tn), u = user_id ∧ tn = tenant_id)
                                  (utr_rows (S := S) t))).

Definition get_user_roles_in_tenant (user_id tenant_id : Uuid) : M (World S) (list Role) :=
  query (λ t, fst <$> join (λ r '(u, rid, tn), r_id r = rid ∧ u = user_id ∧ tn = tenant_id)
                           (rows (S := S) Role t) (utr_rows (S := S) t)).

(** [models/iam/role_permission.py] does not exist, so its import raises. *)
Definition get_user_permissions_in_tenant (user_id tenant_id : Uuid) : M (World S) (list string) :=
  raise (ModuleNotFoundError "virtualstack.models.iam.role_permission").
End user_service.

(** ** Behaviour *)

Section user_facts.
Context {S : Type} `{SessionLaws S} `{Inputs} `{PasslibLaws}.
Implicit Types w : World S.

Definition email_taken (email : string) (t : Tables) : Prop :=
  ∃ i u, users t !! i = Some u ∧ u_email u = email.

(** The only constraint a user row must meet is the unique e-mail address. *)
Lemma user_violation (u : User) t :
  row_violation u t = None ∨
  row_violation u t = Some UqUserEmail ∧
    ∃ i x, users t !! i = Some x ∧ i ≠ u_id u ∧ u_email x = u_email u.
Proof.
  unfold row_violation. destruct (unique_clash u t) as [c|] eqn:Hc; [right|by left].
  unfold unique_clash in Hc. apply fmap_Some in Hc as ([c' v] & Hh & ->).
  apply head_filter_Some in Hh as [(i & x & Hi & Hne & Hx) Hin].
  simpl in Hin. apply list_elem_of_singleton in Hin as [= -> ->].
  simpl in Hx. apply list_elem_of_singleton in Hx as [= He]. eauto 10.
Qed.

Lemma user_insert_violation (u : User) t c :
  insert_row u t = inr c →
  c = PrimaryKey ∧ is_Some (users t !! u_id u) ∨ c = UqUserEmail ∧ email_taken (u_email u) t.
Proof.
  unfold insert_row, put_row. simpl. destruct (users t !! u_id u) eqn:Hl; [intros [= <-]; eauto|].
  destruct (user_violation u t) as [->|[-> (i & x & ? & ? & ?)]]; [done|].
  intros [= <-]. right. split; [done|]. by exists i, x.
Qed.

Lemma get_by_email_post email w Q :
  usable w = true →
  (∀ i u, users (view w) !! i = Some u → u_email u = email → Q (Ret (Some u)) w) →
  (¬ email_taken email (view w) → Q (Ret None) w) →
  post (get_by_email email) w Q.
Proof.
  intros Hu Hs Hn. apply post_query; [done|]. destruct (first _) as [u|] eqn:Hf.
  - apply first_select_Some in Hf as [? [i Hi]]. by eapply Hs.
  - apply Hn. intros (i & u & Hi & ?). rewrite first_select_None in Hf. by destruct (Hf i u Hi).
Qed.

(** The message of the exception a rejected [INSERT] of a user turns into. *)
Definition email_error (email : string) (c : Constraint) : Exn :=
  if str_contains "users_email_key" (str_lower (integrity_text (S := S) c))
  then AppValidationError ("User with email " +:+ email +:+ " already exists.")
  else IntegrityError (integrity_text (S := S) c).

Definition user_row_of (obj_in : UserCreate) (u : User) : Prop :=
  u_email u = uc_email obj_in ∧ u_is_active u = uc_is_active obj_in ∧
  u_is_superuser u = uc_is_superuser obj_in ∧
  u_full_name u = Some (str_strip (uc_first_name obj_in +:+ " " +:+ uc_last_name obj_in)) ∧
  ∃ salt, pwd_hash salt (uc_password obj_in) = inl (u_hashed_password u).

Lemma create_user_row_post obj_in w :
  usable w = true → db_ok (view w) →
  post (create_user_row obj_in) w (λ r w',
    durable w' = durable w ∧ usable w' = true ∧
    match r with
    | Ret u => user_row_of obj_in u ∧ db_ok (view w') ∧ insert_row u (view w) = inl (view w')
    | Raise e => view w' = durable w ∧
        ((∃ salt, pwd_hash salt (uc_password obj_in) = inr e)
         ∨ e = email_error (uc_email obj_in) UqUserEmail ∧ email_taken (uc_email obj_in) (view w)
         ∨ e = email_error (uc_email obj_in) PrimaryKey ∧ is_Some (users (view w) !! uuid4_at (w_uuid w)))
    end).
Proof.
  intros Hu Hok. unfold create_user_row. apply post_try, post_bind.
  unfold create_password_hash. do 2 wp_step. unfold lift.
  destruct (pwd_hash _ _) as [h|e] eqn:Hh.
  - apply post_ret. unfold Crud.create. do 6 wp_step.
    apply post_bind, post_exec; [solve_usable| |]; autorewrite with world.
    + intros t Ht. wp. autorewrite with world. split_and!; try done.
      * split_and!; eauto.
      * exact (insert_row_ok _ _ _ Hok (ok_users _ Hok) Ht).
    + intros c Hc. apply user_insert_violation in Hc. simpl in Hc. simpl.
      unfold email_error. wp; autorewrite with world; split_and!; try done; right;
      destruct Hc as [[-> ?]|[-> ?]]; simpl in *; simplify_option_eq; eauto;
      match goal with Hx : str_contains _ _ = _ |- _ => rewrite Hx end; eauto.
  - destruct (hash_errors _ _ _ Hh) as [m ->]. apply post_raise. simpl. wp.
    autorewrite with world. eauto 10.
Qed.

(** The row and the membership [create] adds. *)
Definition user_created (obj_in : UserCreate) (tid : Uuid) (u : User) (t t' : Tables) : Prop :=
  user_row_of obj_in u ∧ users t !! u_id u = None ∧
  ∃ n role, roles t !! r_id role = Some role ∧ r_name role = DEFAULT_ROLE_NAME ∧
    r_tenant_id role = Some tid ∧
    t' = set_user_tenant_roles (<[(u_id u, r_id role, tid) := n]> (user_tenant_roles t))
           (set_users (<[u_id u := u]> (users t)) t).

(** The association of a user just inserted with a role of the tenant cannot
    violate a constraint. *)
Lemma association_accepted n u role tid t :
  db_ok t → users t !! u_id u = None → roles t !! r_id role = Some role →
  r_tenant_id role = Some tid →
  insert_user_tenant_role n (u_id u) (r_id role) tid (set_users (<[u_id u := u]> (users t)) t) =
    inl (set_user_tenant_roles (<[(u_id u, r_id role, tid) := n]> (user_tenant_roles t))
           (set_users (<[u_id u := u]> (users t)) t)).
Proof.
  intros Hok Hnone Hr Ht. unfold insert_user_tenant_role. simpl.
  destruct (user_tenant_roles t !! _) eqn:Hx.
  - exfalso. destruct (ok_user_tenant_roles _ Hok (u_id u) (r_id role) tid) as [[? Hy] _];
      [by eexists|]. congruence.
  - rewrite decide_True; [done|]. rewrite lookup_insert_eq. split_and!; try by eexists.
    pose proof (model_fk (ok_roles _ Hok) _ role FkRoleTenant (RefTenant tid) Hr) as Hfk.
    simpl in Hfk. rewrite Ht in Hfk. apply Hfk. set_solver.
Qed.

Lemma create_user_post obj_in tid autocommit w :
  usable w = true → db_ok (view w) →
  post (create obj_in tid autocommit) w (λ r w',
    match r with
    | Ret u => user_created obj_in tid u (view w) (view w') ∧ db_ok (view w') ∧
               durable w' = if autocommit then view w' else durable w
    | Raise e => durable w' = durable w ∧
        ((∃ salt, pwd_hash salt (uc_password obj_in) = inr e)
         ∨ e = email_error (uc_email obj_in) UqUserEmail ∧ email_taken (uc_email obj_in) (view w)
         ∨ e = email_error (uc_email obj_in) PrimaryKey ∧ is_Some (users (view w) !! uuid4_at (w_uuid w))
         ∨ e = ValueError ("Default role '" +:+ DEFAULT_ROLE_NAME +:+ "' not found in tenant "
                           +:+ uuid_str tid +:+ ".") ∧ ¬ name_taken DEFAULT_ROLE_NAME tid (view w))
    end).
Proof.
  intros Hu Hok. unfold create. apply post_bind.
  eapply post_mono; [by apply create_user_row_post|]. intros [u|e] w1 (Hd & Hu1 & Hr); [|naive_solver].
  destruct Hr as (Hrow & Hok1 & Hins). apply insert_row_eq in Hins as (Hnone & Hv & _).
  change (set_table _ _) with (set_users (<[u_id u := u]> (users (view w))) (view w)) in Hv.
  simpl in Hnone. apply post_bind, get_by_name_in_tenant_post; [done| |].
  - intros role i Hi Hname Hten. rewrite Hv in Hi. simpl in Hi.
    pose proof (model_ids (ok_roles _ Hok) i role Hi) as Hid. simpl in Hid. subst i.
    unfold create_association. apply post_bind, post_try, post_bind. wp_step.
    pose proof (association_accepted (now w1) u role tid _ Hok Hnone Hi Hten) as Hacc.
    apply post_exec; [solve_usable| |]; autorewrite with world; rewrite Hv; intros t Ht;
      rewrite Hacc in Ht; [injection Ht as <-|done].
    assert (user_created obj_in tid u (view w)
      (set_user_tenant_roles (<[(u_id u, r_id role, tid) := now w1]> (user_tenant_roles (view w)))
           (set_users (<[u_id u := u]> (users (view w))) (view w)))) as Hc.
    { split_and!; [done..|]. exists (now w1), role. done. }
    assert (db_ok (set_user_tenant_roles (<[(u_id u, r_id role, tid) := now w1]> (user_tenant_roles (view w)))
           (set_users (<[u_id u := u]> (users (view w))) (view w)))).
    { eapply insert_user_tenant_role_ok, Hacc. by rewrite <- Hv. }
    destruct autocommit; wp; autorewrite with world; by split_and!.
  - intros Hno. wp. split; [done|]. right; right; right. split; [done|].
    intros (i & r & Hi & ?). apply Hno. exists i, r. by rewrite Hv.
Qed.

(** Deleting assignments counts and removes exactly the matching rows. *)
Lemma delete_assignments_post p `{!∀ k, Decision (p k)} w Q :
  usable w = true →
  (∀ n w', usable w' = true → durable w' = durable w →
     view w' = delete_user_tenant_roles p (view w) →
     n = size (filter (λ kv, p kv.1) (user_tenant_roles (view w))) → Q (Ret n) w') →
  post (delete_assignments p) w Q.
Proof.
  intros Hu HQ. unfold delete_assignments. do 2 wp_step. apply post_bind, post_exec; [done| |done].
  intros t [= <-]. apply post_ret, HQ; autorewrite with world; try done.
  unfold utr_rows. rewrite order_perm. symmetry.
  rewrite <- (size_dom (D := gset _)). unfold size, set_size.
  apply Permutation_length, NoDup_Permutation.
  - apply NoDup_elements.
  - apply NoDup_filter, NoDup_elements.
  - intros k. rewrite list_elem_of_filter, !elem_of_elements, !elem_of_dom. split.
    + intros [x [??]%map_lookup_filter_Some]. eauto.
    + intros [? [x ?]]. exists x. by apply map_lookup_filter_Some.
Qed.

(** The value an optional update leaves in a column that is not nullable. *)
Definition set_or {A} (o : option (option A)) (old : A) : A :=
  match o with Some (Some v) => v | _ => old end.

(** The new row of a successful [update]; only [updated_at] is left open. *)
Definition user_updated (obj_in : UserUpdate) (old new : User) : Prop :=
  uu_email obj_in ≠ Some None ∧ uu_is_active obj_in ≠ Some None ∧
  u_id new = u_id old ∧ u_email new = set_or (uu_email obj_in) (u_email old) ∧
  u_is_active new = set_or (uu_is_active obj_in) (u_is_active old) ∧
  u_full_name new = u_full_name old ∧ u_is_superuser new = u_is_superuser old ∧
  u_last_login new = u_last_login old ∧ u_created_at new = u_created_at old ∧
  match uu_password obj_in with
  | Some (Some p) => if str_truthy p then ∃ salt, pwd_hash salt p = inl (u_hashed_password new)
                     else u_hashed_password new = u_hashed_password old
  | _ => u_hashed_password new = u_hashed_password old
  end.

Lemma user_patch_inv obj_in h (old : User) :
  match user_patch obj_in h old with
  | inl y => uu_email obj_in ≠ Some None ∧ uu_is_active obj_in ≠ Some None ∧
      u_id y = u_id old ∧ u_email y = set_or (uu_email obj_in) (u_email old) ∧
      u_is_active y = set_or (uu_is_active obj_in) (u_is_active old) ∧
      u_full_name y = u_full_name old ∧ u_is_superuser y = u_is_superuser old ∧
      u_last_login y = u_last_login old ∧ u_created_at y = u_created_at old ∧
      u_hashed_password y = default (u_hashed_password old) h
  | inr c => c = NotNull "email" ∧ uu_email obj_in = Some None
             ∨ c = NotNull "is_active" ∧ uu_is_active obj_in = Some None
  end.
Proof.
  unfold user_patch. destruct (uu_email obj_in) as [[?|]|], (uu_is_active obj_in) as [[?|]|];
    simpl; naive_solver.
Qed.

(** The flush of a patched user, whatever hash the patch carries. *)
Lemma update_user_row_post obj_in h (old : User) w :
  usable w = true → db_ok (view w) → users (view w) !! u_id old = Some old →
  post (Crud.update old (user_patch obj_in h)) w (λ r w',
    durable w' = durable w ∧
    match r with
    | Ret x => usable w' = true ∧ db_ok (view w') ∧
        view w' = set_users (<[u_id old := x]> (users (view w))) (view w) ∧
        ∃ y, user_patch obj_in h old = inl y ∧ (x = y ∨ ∃ n, x = touch n y)
    | Raise e => ∃ c, e = IntegrityError (integrity_text c) ∧
        (c = NotNull "email" ∧ uu_email obj_in = Some None
         ∨ c = NotNull "is_active" ∧ uu_is_active obj_in = Some None
         ∨ c = UqUserEmail ∧ ∃ i x, users (view w) !! i = Some x ∧ i ≠ u_id old ∧
             uu_email obj_in = Some (Some (u_email x)))
    end).
Proof.
  intros Hu Hok Hl. unfold Crud.update. pose proof (user_patch_inv obj_in h old) as Hp.
  destruct (user_patch obj_in h old) as [y|c].
  - destruct Hp as (He & Ha & Hid & Hem & _). apply post_flush_row; [done| | |].
    + intros ->. split_and!; eauto. rewrite insert_id by done. by destruct (view w).
    + intros n t w' _ _ Ht ->. autorewrite with world. split_and!; eauto.
      * exact (put_row_ok _ _ _ Hok (ok_users _ Hok) Ht).
      * apply put_row_eq in Ht as [-> _]. simpl. by rewrite Hid.
    + intros n c w' _ _ Ht ->. autorewrite with world. split; [done|]. exists c. split; [done|].
      unfold put_row in Ht. destruct (user_violation (touch n y) (view w)) as [Hv|[Hv Hx]];
        rewrite Hv in Ht; [done|]. injection Ht as <-. right; right. split; [done|].
      destruct Hx as (i & x & Hi & Hne & Hxe). exists i, x. simpl in *. rewrite Hid in Hne.
      split_and!; [done..|]. rewrite Hxe, Hem. destruct (uu_email obj_in) as [[v|]|] eqn:Hue;
        [done|done|]. exfalso. apply Hne. simpl in *.
      eapply (model_unique (ok_users _ Hok) i (u_id old) x old (UqUserEmail, u_email x)); eauto;
        simpl; [set_solver|]. rewrite Hxe, Hem. set_solver.
  - wp; [done|]. simplify_eq. autorewrite with world. naive_solver.
Qed.

Lemma update_post obj_in (old : User) w :
  usable w = true → db_ok (view w) → users (view w) !! u_id old = Some old →
  post (update old obj_in) w (λ r w',
    durable w' = durable w ∧
    match r with
    | Ret x => user_updated obj_in old x ∧ usable w' = true ∧ db_ok (view w') ∧
        view w' = set_users (<[u_id old := x]> (users (view w))) (view w)
    | Raise e =>
        (∃ p salt, uu_password obj_in = Some (Some p) ∧ pwd_hash salt p = inr e)
        ∨ ∃ c, e = IntegrityError (integrity_text c) ∧
        (c = NotNull "email" ∧ uu_email obj_in = Some None
         ∨ c = NotNull "is_active" ∧ uu_is_active obj_in = Some None
         ∨ c = UqUserEmail ∧ ∃ i x, users (view w) !! i = Some x ∧ i ≠ u_id old ∧
             uu_email obj_in = Some (Some (u_email x)))
    end).
Proof.
  intros Hu Hok Hl. unfold update.
  assert (∀ h w1, usable w1 = true → view w1 = view w → durable w1 = durable w →
    match uu_password obj_in with
    | Some (Some p) => if str_truthy p then ∃ salt v, pwd_hash salt p = inl v ∧ h = Some v else h = None
    | _ => h = None
    end →
    post (Crud.update old (user_patch obj_in h)) w1 (λ r w',
      durable w' = durable w ∧
      match r with
      | Ret x => user_updated obj_in old x ∧ usable w' = true ∧ db_ok (view w') ∧
          view w' = set_users (<[u_id old := x]> (users (view w))) (view w)
      | Raise e => ∃ c, e = IntegrityError (integrity_text c) ∧
        (c = NotNull "email" ∧ uu_email obj_in = Some None
         ∨ c = NotNull "is_active" ∧ uu_is_active obj_in = Some None
         ∨ c = UqUserEmail ∧ ∃ i x, users (view w) !! i = Some x ∧ i ≠ u_id old ∧
             uu_email obj_in = Some (Some (u_email x)))
      end)) as Hrow.
  { intros h w1 Hu1 Hv1 Hd1 Hh. eapply post_mono;
      [apply update_user_row_post; [done|by rewrite Hv1|by rewrite Hv1]|].
    rewrite Hv1, Hd1. intros [x|e] w' [Hd Hr]; [|done]. split; [done|].
    destruct Hr as (? & ? & ? & y & Hy & Hx). split; [|done].
    pose proof (user_patch_inv obj_in h old) as Hp. rewrite Hy in Hp.
    destruct Hp as (?&?&?&?&?&?&?&?&?&Hpw).
    assert (u_hashed_password x = default (u_hashed_password old) h) as Hxh
      by (by destruct Hx as [->|[n ->]]).
    split_and!; try done; try (by destruct Hx as [->|[n ->]]).
    rewrite Hxh. destruct (uu_password obj_in) as [[p|]|]; [|by subst..].
    destruct (str_truthy p); [|by subst]. destruct Hh as (salt & v & ? & ->). eauto. }
  apply post_bind. destruct (uu_password obj_in) as [[p|]|] eqn:Hpw;
    [|apply post_ret; eapply post_mono; [by apply Hrow|]; intros [?|?] ? [??]; eauto..].
  destruct (str_truthy p) eqn:Htr;
    [|apply post_ret; eapply post_mono; [by apply Hrow|]; intros [?|?] ? [??]; eauto].
  unfold create_password_hash, fmap, M_fmap, post, mbind, M_bind, token_bytes, lift. simpl.
  destruct (pwd_hash _ p) as [v|e] eqn:Hh; simpl.
  - assert (∀ {A} (m : M (World S) A) x Q, post m x Q → let '(r, w') := m x in Q r w') as Hgo by done.
    apply Hgo. eapply post_mono; [apply Hrow; eauto|]. intros [?|?] ? [??]; eauto.
  - split; [done|]. left. eauto.
Qed.
End user_facts.

(** ** The listing of a tenant's users *)

Section listing.
Context {S : Type} `{SessionLaws S} `{Inputs} `{Passlib}.
Implicit Types w : World S.

Lemma elem_of_members tid t u :
  db_ok t →
  u ∈ members (S := S) tid t ↔
  users t !! u_id u = Some u ∧ ∃ rid, assigned t (u_id u) rid tid.
Proof.
  intros Hok. unfold members. rewrite elem_of_remove_dups, list_elem_of_fmap. split.
  - intros ([u' [[uid rid] tn]] & -> & Hin). apply elem_of_join in Hin as (Hu & Hk & <- & ->).
    apply elem_of_utr_rows in Hk. apply elem_of_rows in Hu as [i Hi]. simpl in *.
    pose proof (model_ids (ok_users _ Hok) i u' Hi) as Hid. simpl in Hid. subst i.
    split; [done|]. by exists rid.
  - intros [Hi [rid Ha]]. exists (u, (u_id u, rid, tid)). split; [done|].
    apply elem_of_join. rewrite elem_of_utr_rows. split_and!; [|done..].
    apply elem_of_rows. by exists (u_id u).
Qed.

Lemma user_roles_map_app (l1 : gmap Uuid (list string)) l2 u :
  default [] (foldl (λ m '(uid, name), <[uid := (default [] (m !! uid) ++ [name])%list]> m)
                l1 l2 !! u)
  = (default [] (l1 !! u) ++ (snd <$> filter (λ x, x.1 = u) l2))%list.
Proof.
  revert l1. induction l2 as [|[uid name] l2 IH]; intros l1; simpl; [by rewrite app_nil_r|].
  rewrite IH, lookup_insert. rewrite filter_cons. simpl.
  destruct (decide (uid = u)) as [->|]; [|done]. simpl. by rewrite <- app_assoc.
Qed.

(** The names collected for a user are those of his role rows, in order. *)
Lemma user_roles_map_lookup l u :
  default [] (user_roles_map l !! u) = snd <$> filter (λ x, x.1 = u) l.
Proof. unfold user_roles_map. rewrite user_roles_map_app. by rewrite lookup_empty. Qed.

Lemma elem_of_role_names tid t us u name :
  db_ok t → u ∈ us →
  name ∈ default [] (user_roles_map (role_name_rows (S := S) tid us t) !! u) ↔
  ∃ rid r, assigned t u rid tid ∧ roles t !! rid = Some r ∧ r_name r = name.
Proof.
  intros Hok Hin. rewrite user_roles_map_lookup, list_elem_of_fmap. unfold role_name_rows. split.
  - intros ([u' name'] & -> & [Hu Hx]%list_elem_of_filter). simpl in Hu. subst u'.
    apply list_elem_of_fmap in Hx as ([[[u' rid] tn] r] & [= -> ->] & Hj).
    apply elem_of_join in Hj as (Hk & Hr & Hrid & Htn & _). simpl in *. subst rid tn.
    apply elem_of_utr_rows in Hk. apply elem_of_rows in Hr as [i Hi].
    pose proof (model_ids (ok_roles _ Hok) i r Hi) as Hid. simpl in Hid. subst i.
    exists (r_id r), r. done.
  - intros (rid & r & Ha & Hr & <-). exists (u, r_name r). split; [done|].
    apply list_elem_of_filter. split; [done|]. apply list_elem_of_fmap.
    exists (u, rid, tid, r). split; [done|]. apply elem_of_join.
    rewrite elem_of_utr_rows, elem_of_rows. pose proof (model_ids (ok_roles _ Hok) rid r Hr) as Hid.
    simpl in Hid. subst rid. split_and!; eauto.
Qed.
End listing.

(** ** Properties *)

Section user_properties.
Context {S : Type} `{SessionLaws S} `{Inputs} `{PasslibLaws}.
Implicit Types w : World S.


(** The roles fetched for a page of users are those held in the tenant. *)
Lemma page_roles_post tid us w :
  usable w = true → db_ok (view w) →
  post (match us with
        | [] => mret ∅
        | _ => query (λ t, user_roles_map (role_name_rows (S := S) tid (u_id <$> us) t))
        end) w (λ r w', w' = w ∧ ∃ m, r = Ret m ∧ ∀ u name, u ∈ us →
          name ∈ default [] (m !! u_id u) ↔ ∃ rid r, assigned (view w) (u_id u) rid tid ∧
            roles (view w) !! rid = Some r ∧ r_name r = name).
Proof.
  intros Hu Hok. destruct us as [|u0 us'] eqn:Hus.
  - apply post_ret. split; [done|]. eexists. split; [done|]. intros u name Hin. set_solver.
  - apply post_query; [done|]. split; [done|]. eexists. split; [done|]. intros u name Hin.
    apply elem_of_role_names; [done|]. apply list_elem_of_fmap. by exists u.
Qed.

(** Every page of the listing is cut from one list. *)
Definition tenant_listing (tid : Uuid) (t : Tables) : list User :=
  order_by_str (S := S) u_email (members (S := S) tid t).

Lemma tenant_listing_spec tid t : db_ok t →
  NoDup (tenant_listing tid t) ∧ StronglySorted (collate_le (S := S) u_email) (tenant_listing tid t) ∧
  ∀ u, u ∈ tenant_listing tid t ↔ users t !! u_id u = Some u ∧ ∃ rid, assigned t (u_id u) rid tid.
Proof.
  intros Hok. unfold tenant_listing.
  assert (order_by_str (S := S) u_email (members (S := S) tid t) ≡ₚ members (S := S) tid t) as Hperm
    by apply order_by_str_perm.
  split_and!; [|apply order_by_str_sorted|].
  - rewrite Hperm. apply NoDup_remove_dups.
  - intros u. rewrite Hperm. by apply elem_of_members.
Qed.

Lemma listing_page_post tid skip limit search w :
  usable w = true → db_ok (view w) →
  post (get_multi_by_tenant_paginated tid skip limit search) w (λ r w', w' = w ∧
    match search with
    | Some (String _ _) => r = Raise (AttributeError "first_name")
    | _ => if page_fits skip limit then ∃ items,
             r = Ret (items, length (tenant_listing tid (view w))) ∧
             fst <$> items = page skip limit (tenant_listing tid (view w)) ∧
             ∀ u names, (u, names) ∈ items → ∀ name, name ∈ names ↔
               ∃ rid r, assigned (view w) (u_id u) rid tid ∧ roles (view w) !! rid = Some r ∧ r_name r = name
           else r = Raise out_of_int64
    end).
Proof.
  intros Hu Hok. unfold get_multi_by_tenant_paginated. apply post_bind. set (all := tenant_listing tid (view w)).
  assert (post (total_count ← query (λ t, length (members (S := S) tid t));
     users ← query_page skip limit (λ t, order_by_str (S := S) u_email (members (S := S) tid t));
     roles_of ← match users with
                | [] => mret ∅
                | _ => query (λ t, user_roles_map (role_name_rows (S := S) tid (u_id <$> users) t))
                end;
     mret ((λ u, (u, default [] (roles_of !! u_id u))) <$> users, total_count)) w
    (λ r w', w' = w ∧
      if page_fits skip limit then ∃ items, r = Ret (items, length all) ∧ fst <$> items = page skip limit all ∧
        ∀ u names, (u, names) ∈ items → ∀ name, name ∈ names ↔
          ∃ rid r, assigned (view w) (u_id u) rid tid ∧ roles (view w) !! rid = Some r ∧ r_name r = name
      else r = Raise out_of_int64)) as Hmain.
  { do 2 wp_step. apply post_bind, post_query_page; [done| |]; intros ->; [|done].
    apply post_bind. eapply post_mono; [by apply page_roles_post|]. intros r w' (-> & m & -> & Hm).
    apply post_ret. split; [done|]. eexists. split_and!.
    - do 2 f_equal. symmetry. apply Permutation_length, order_by_str_perm.
    - rewrite <- list_fmap_compose. apply list_fmap_id.
    - intros u names (u' & [= <- ->] & Hin)%list_elem_of_fmap name. by apply Hm. }
  destruct search as [[|c s]|]; [exact Hmain| |exact Hmain].
  apply post_raise_if; intros Hb; [done|]. exfalso. simpl in Hb. by vm_compute in Hb.
Qed.

(** A page of the listing of a tenant's users, and the total. *)
Definition user_page (tid : Uuid) (skip limit : nat) (t : Tables)
    (r : outcome (list (User * list string) * nat)) : Prop :=
  ∃ all items,
    r = Ret (items, length all) ∧ fst <$> items = page skip limit all ∧
    NoDup all ∧ StronglySorted (collate_le (S := S) u_email) all ∧
    (∀ u, u ∈ all ↔ users t !! u_id u = Some u ∧ ∃ rid, assigned t (u_id u) rid tid) ∧
    ∀ u names, (u, names) ∈ items → ∀ name, name ∈ names ↔
      ∃ rid r, assigned t (u_id u) rid tid ∧ roles t !! rid = Some r ∧ r_name r = name.

(** A page of the listing holds, in the database's order of e-mail
    addresses and without repetitions, the users with some role in the tenant
    between [skip] and [skip + limit], each with exactly the names of the
    roles he holds there; the total counts all of them.  Numbers beyond a
    [bigint] make the call fail, and so does a search term, because the filter
    names [User.first_name]. *)
Theorem list_users_spec tid skip limit search w :
  usable w = true → db_ok (view w) →
  post (get_multi_by_tenant_paginated tid skip limit search) w (λ r w', w' = w ∧
    match search with
    | Some (String _ _) => r = Raise (AttributeError "first_name")
    | _ => if page_fits skip limit then user_page tid skip limit (view w) r else r = Raise out_of_int64
    end).
Proof.
  intros Hu Hok. eapply post_mono; [by apply listing_page_post|]. intros r w' [-> Hr]. split; [done|].
  destruct (tenant_listing_spec tid (view w) Hok) as (Hnd & Hs & Hm).
  destruct search as [[|c s]|]; [|done|]; destruct (page_fits skip limit); try done;
    destruct Hr as (items & -> & Hpage & Hnames); by exists (tenant_listing tid (view w)), items.
Qed.

(** Removing a user from a tenant deletes exactly that user's assignments
    in that tenant and returns their number; the account, other users and the
    user's other tenants are untouched. *)
Theorem delete_user_isolated uid tid autocommit w :
  usable w = true → db_ok (view w) →
  post (delete uid tid autocommit) w (λ r w',
    r = Ret (size (filter (λ kv, kv.1.1.1 = uid ∧ kv.1.2 = tid) (user_tenant_roles (view w)))) ∧
    db_ok (view w') ∧ durable w' = (if autocommit then view w' else durable w) ∧
    (∃ m, view w' = set_user_tenant_roles m (view w)) ∧
    ∀ u r tn, assigned (view w') u r tn ↔ assigned (view w) u r tn ∧ ¬ (u = uid ∧ tn = tid)).
Proof.
  intros Hu Hok. unfold delete. apply post_bind, delete_assignments_post; [done|].
  intros n w' Hu' Hd Hv ->. 
  assert (∀ u r tn, assigned (delete_user_tenant_roles (λ k, k.1.1 = uid ∧ k.2 = tid) (view w)) u r tn
    ↔ assigned (view w) u r tn ∧ ¬ (u = uid ∧ tn = tid)) as Ha.
  { intros u r tn. unfold assigned. simpl. split.
    - intros [x [Hx Hn]%map_lookup_filter_Some]. split; [by exists x|done].
    - intros [[x Hx] Hn]. exists x. by apply map_lookup_filter_Some. }
  assert (db_ok (view w')) by (rewrite Hv; by apply delete_user_tenant_roles_ok).
  destruct autocommit; wp; autorewrite with world; rewrite Hv in *; split_and!; try done;
    by eexists.
Qed.
End user_properties.

Definition dave : UserCreate := mkUserCreate "dave@acme.io" "longenough" "Dave" "Ng" true false.


Lemma list_users_witness :
  post (get_multi_by_tenant_paginated 10 0 2 None) w0 (λ r w', ∃ items total,
    r = Ret (items, total) ∧ (total ≥ length items)%nat).
Proof.
  eapply post_mono; [apply (list_users_spec 10 0 2 None w0); [reflexivity|apply sample_ok]|].
  intros r w' (_ & all & items & -> & Hp & _). eexists _, _. split; [done|].
  rewrite <- (length_fmap fst items), Hp. unfold page. rewrite length_take, length_drop. lia.
Defined.

Lemma delete_user_witness :
  post (delete 1 10 true) w0 (λ r w', r = Ret 1%nat ∧ ¬ assigned (durable w') 1 20 10).
Proof.
  eapply post_mono; [apply (delete_user_isolated 1 10 true w0); [reflexivity|apply sample_ok]|].
  intros r w' (-> & _ & -> & _ & Ha). split; [vm_compute; reflexivity|].
  rewrite Ha. tauto.
Defined.
