(* ===== verification/Permissions.v ===== *)
(** * [core/permissions.py], [services/iam/permission.py] and the seeded rows

    The permission enumeration, the built-in permission sets, the permission
    lookups and the permissions the migration [20240330_seed_permissions]
    inserts. *)

From stdpp Require Import base tactics list gmap strings.
From Stdlib Require Import ZArith Lia.
From S2P Require Import Prelude PyStd Effects Models Session Snapshot Crud.

(** ** [class Permission(str, Enum)] *)

Inductive PermissionEnum :=
  | USER_READ | USER_CREATE | USER_UPDATE | USER_DELETE
  | TENANT_READ | TENANT_CREATE | TENANT_UPDATE | TENANT_DELETE
  | API_KEY_READ | API_KEY_CREATE | API_KEY_UPDATE | API_KEY_DELETE
  | VM_READ | VM_CREATE | VM_UPDATE | VM_DELETE | VM_START | VM_STOP | VM_RESTART
  | ROLE_READ | ROLE_CREATE | ROLE_UPDATE | ROLE_DELETE | ROLE_ASSIGN_USERS | ROLE_ASSIGN
  | PERMISSION_READ | PERMISSION_ASSIGN
  | TENANT_MANAGE_ROLES | TENANT_VIEW_ROLES | TENANT_MANAGE_ROLE_PERMISSIONS
  | TENANT_VIEW_USERS | TENANT_MANAGE_INVITATIONS.

#[global] Instance PermissionEnum_eq_dec : EqDecision PermissionEnum.
Proof. solve_decision. Defined.

(** [.value]. *)
Definition value (p : PermissionEnum) : string :=
  match p with
  | USER_READ => "user:read" | USER_CREATE => "user:create"
  | USER_UPDATE => "user:update" | USER_DELETE => "user:delete"
  | TENANT_READ => "tenant:read" | TENANT_CREATE => "tenant:create"
  | TENANT_UPDATE => "tenant:update" | TENANT_DELETE => "tenant:delete"
  | API_KEY_READ => "api_key:read" | API_KEY_CREATE => "api_key:create"
  | API_KEY_UPDATE => "api_key:update" | API_KEY_DELETE => "api_key:delete"
  | VM_READ => "vm:read" | VM_CREATE => "vm:create" | VM_UPDATE => "vm:update"
  | VM_DELETE => "vm:delete" | VM_START => "vm:start" | VM_STOP => "vm:stop"
  | VM_RESTART => "vm:restart"
  | ROLE_READ => "role:read" | ROLE_CREATE => "role:create" | ROLE_UPDATE => "role:update"
  | ROLE_DELETE => "role:delete" | ROLE_ASSIGN_USERS => "role:assign_users"
  | ROLE_ASSIGN => "role:assign"
  | PERMISSION_READ => "permission:read" | PERMISSION_ASSIGN => "permission:assign"
  | TENANT_MANAGE_ROLES => "tenant:manage_roles" | TENANT_VIEW_ROLES => "tenant:view_roles"
  | TENANT_MANAGE_ROLE_PERMISSIONS => "tenant:manage_role_permissions"
  | TENANT_VIEW_USERS => "tenant:view_users"
  | TENANT_MANAGE_INVITATIONS => "tenant:manage_invitations"
  end%string.

(** [set(Permission)]. *)
Definition all_permissions : list PermissionEnum :=
  [USER_READ; USER_CREATE; USER_UPDATE; USER_DELETE; TENANT_READ; TENANT_CREATE; TENANT_UPDATE;
   TENANT_DELETE; API_KEY_READ; API_KEY_CREATE; API_KEY_UPDATE; API_KEY_DELETE; VM_READ; VM_CREATE;
   VM_UPDATE; VM_DELETE; VM_START; VM_STOP; VM_RESTART; ROLE_READ; ROLE_CREATE; ROLE_UPDATE;
   ROLE_DELETE; ROLE_ASSIGN_USERS; ROLE_ASSIGN; PERMISSION_READ; PERMISSION_ASSIGN;
   TENANT_MANAGE_ROLES; TENANT_VIEW_ROLES; TENANT_MANAGE_ROLE_PERMISSIONS; TENANT_VIEW_USERS;
   TENANT_MANAGE_INVITATIONS].

Definition tenant_admin_permissions : list PermissionEnum :=
  [USER_READ; USER_CREATE; USER_UPDATE; USER_DELETE; TENANT_READ; TENANT_UPDATE;
   API_KEY_READ; API_KEY_CREATE; API_KEY_UPDATE; API_KEY_DELETE;
   VM_READ; VM_CREATE; VM_UPDATE; VM_DELETE; VM_START; VM_STOP; VM_RESTART;
   ROLE_READ; ROLE_CREATE; ROLE_UPDATE; ROLE_DELETE; ROLE_ASSIGN;
   PERMISSION_READ; PERMISSION_ASSIGN].

Definition user_permissions : list PermissionEnum :=
  [USER_READ; USER_UPDATE; TENANT_READ;
   API_KEY_READ; API_KEY_CREATE; API_KEY_UPDATE; API_KEY_DELETE;
   VM_READ; VM_CREATE; VM_UPDATE; VM_DELETE; VM_START; VM_STOP; VM_RESTART].

Definition viewer_permissions : list PermissionEnum :=
  [USER_READ; TENANT_READ; API_KEY_READ; VM_READ].

(** The dictionary [ROLE_PERMISSIONS]. *)
Definition ROLE_PERMISSIONS : gmap string (list PermissionEnum) :=
  list_to_map [("admin", all_permissions); ("tenant_admin", tenant_admin_permissions);
               ("user", user_permissions); ("viewer", viewer_permissions)].

(** ** The rows of the seeding migration: name and code *)

Definition SYSTEM_PERMISSIONS : list (string * string) :=
  [("View Tenants", "tenant:read"); ("Create Tenant", "tenant:create");
   ("Update Tenant", "tenant:update"); ("Delete Tenant", "tenant:delete");
   ("View Users", "user:read"); ("Create User", "user:create");
   ("Update User", "user:update"); ("Delete User", "user:delete");
   ("View Roles", "role:read"); ("Create Role", "role:create");
   ("Update Role", "role:update"); ("Delete Role", "role:delete");
   ("View Permissions", "permission:read"); ("Assign Permissions", "permission:assign");
   ("View VMs", "vm:read"); ("Create VM", "vm:create"); ("Update VM", "vm:update");
   ("Delete VM", "vm:delete"); ("Power VM", "vm:power");
   ("View Templates", "template:read"); ("Create Template", "template:create");
   ("Update Template", "template:update"); ("Delete Template", "template:delete")].

(** [permission_codes] of [downgrade]. *)
Definition permission_codes : list string := snd <$> SYSTEM_PERMISSIONS.

(** ** [PermissionService] *)

Section permission_service.
Context {S : Type} `{Session S}.

Definition get_by_name (name : string) : M (World S) (option Permission) :=
  query (λ t, first (select (S := S) (λ p, p_name p = name) t)).

Definition get_by_names (names : list string) : M (World S) (list Permission) :=
  query (λ t, select (S := S) (λ p, p_name p ∈ names) t).

Definition get_by_code (code : string) : M (World S) (option Permission) :=
  query (λ t, first (select (S := S) (λ p, p_code p = code) t)).
End permission_service.

(** ** Facts *)

Lemma all_permissions_complete p : p ∈ all_permissions.
Proof. destruct p; apply (bool_decide_unpack _); vm_compute; exact I. Qed.

#[global] Instance value_inj : Inj (=) (=) value.
Proof.
  intros p q Hpq.
  assert (Forall (λ p, Forall (λ q, value p = value q → p = q) all_permissions) all_permissions) as Ha
    by (apply (bool_decide_unpack _); vm_compute; exact I).
  rewrite Forall_forall in Ha. specialize (Ha p (all_permissions_complete p)).
  rewrite Forall_forall in Ha. exact (Ha q (all_permissions_complete q) Hpq).
Qed.

Section properties.
Context {S : Type} `{SessionLaws S}.
Implicit Types w : World S.

(** The built-in permission sets form a chain: a viewer's permissions are
    a user's, a user's are a tenant administrator's, and an administrator has
    every permission of the enumeration. *)
Theorem role_permissions_chain :
  ∃ admin tenant_admin user viewer,
    ROLE_PERMISSIONS !! "admin" = Some admin ∧
    ROLE_PERMISSIONS !! "tenant_admin" = Some tenant_admin ∧
    ROLE_PERMISSIONS !! "user" = Some user ∧ ROLE_PERMISSIONS !! "viewer" = Some viewer ∧
    viewer ⊆ user ∧ user ⊆ tenant_admin ∧ ∀ p, p ∈ admin.
Proof.
  eexists _, _, _, _. do 4 (split; [reflexivity|]).
  split_and!; [| |exact all_permissions_complete]; intros p Hp;
    repeat (apply elem_of_cons in Hp as [->|Hp];
      [apply (bool_decide_unpack _); vm_compute; exact I|]); by apply not_elem_of_nil in Hp.
Qed.

(** Permission lookup by code finds the one row with the code, whatever
    order the database delivers rows in, and nothing exactly when there is
    none. *)
Theorem get_by_code_spec code w :
  usable w = true → db_ok (view w) →
  ∃ o, get_by_code code w = (Ret o, w) ∧
    ∀ p, o = Some p ↔ permissions (view w) !! p_id p = Some p ∧ p_code p = code.
Proof.
  intros Hu Hok. eexists. split; [unfold get_by_code; by rewrite query_run|]. intros p. split.
  - intros [Hc [i Hi]]%first_select_Some.
    pose proof (model_ids (ok_permissions _ Hok) i p Hi) as Hid. simpl in *. by subst i.
  - intros [Hi Hc]. eapply first_select_unique; [exact Hi|done|]. intros j q Hj Hq. simpl in *.
    assert (p_id p = j) as Hpj.
    { eapply (model_unique (ok_permissions _ Hok) (p_id p) j p q (UqPermissionCode, code));
        simpl; rewrite ?Hc, ?Hq; set_solver. }
    congruence.
Qed.

(** Fourteen permissions of the enumeration have no seeded row, among them
    the one the invitation endpoints require; on a database whose permission
    rows are seeded ones, looking up their codes finds nothing. *)
Theorem unseeded_permissions w p :
  usable w = true →
  (∀ i r, permissions (view w) !! i = Some r → p_code r ∈ permission_codes) →
  value p ∉ permission_codes →
  p ∈ [API_KEY_READ; API_KEY_CREATE; API_KEY_UPDATE; API_KEY_DELETE; VM_START; VM_STOP;
       VM_RESTART; ROLE_ASSIGN_USERS; ROLE_ASSIGN; TENANT_MANAGE_ROLES; TENANT_VIEW_ROLES;
       TENANT_MANAGE_ROLE_PERMISSIONS; TENANT_VIEW_USERS; TENANT_MANAGE_INVITATIONS] ∧
  get_by_code (value p) w = (Ret None, w).
Proof.
  intros Hu Hseed Hno. split.
  - destruct p; try (apply (bool_decide_unpack _); vm_compute; exact I);
      exfalso; apply Hno; apply (bool_decide_unpack _); vm_compute; exact I.
  - unfold get_by_code. rewrite query_run by done. do 2 f_equal.
    apply first_select_None. intros i r Hi Hc. apply Hno. rewrite <- Hc. by eapply Hseed.
Qed.
End properties.

Lemma get_by_code_witness :
  ∃ o, get_by_code "role:read" w0 = (Ret o, w0) ∧ (o = Some read_roles).
Proof.
  destruct (@get_by_code_spec Snap snap snap_ok "role:read" w0 eq_refl sample_ok) as (o & Ho & Hs).
  exists o. split; [exact Ho|]. apply Hs. split; vm_compute; reflexivity.
Defined.

(** A database with the seeded rows [View Roles] and [View Users]. *)
Definition seeded : World Snap :=
  mkWorld (sess_open (set_permissions
    {[ 31%N := read_roles; 32%N := mkPermission 32 "View Users" "user:read" None t0 t0 ]} sample)) 0 0 0.

Lemma unseeded_witness :
  get_by_code (value TENANT_MANAGE_INVITATIONS) seeded = (Ret None, seeded).
Proof.
  apply (@unseeded_permissions Snap snap snap_ok seeded TENANT_MANAGE_INVITATIONS).
  - reflexivity.
  - intros i r Hi. simpl in Hi. apply lookup_insert_Some in Hi as [[_ <-]|[_ Hi]].
    + apply (bool_decide_unpack _). vm_compute. exact I.
    + apply lookup_singleton_Some in Hi as [_ <-]. apply (bool_decide_unpack _). vm_compute. exact I.
  - apply (bool_decide_unpack _). vm_compute. exact I.
Defined.
