(* ===== verification/TenantService.v ===== *)
(** * [services/iam/tenant.py: TenantService]

    Tenants: listing per user, lookups, creation and update, and the constraints
    on names and slugs. *)

From stdpp Require Import base tactics list gmap sorting strings.
From Stdlib Require Import ZArith Lia.
From S2P Require Import Prelude PyStd Effects Models Session Snapshot Crud RoleService.

(** ** Input schemas ([schemas/iam/tenant.py]) *)

(** [constr(min_length=3, max_length=50, pattern="^[a-z0-9-]+$")]. *)
Definition slug_char (c : Ascii.ascii) : bool :=
  let n := Ascii.N_of_ascii c in
  (97 <=? n)%N && (n <=? 122)%N || (48 <=? n)%N && (n <=? 57)%N || (n =? 45)%N.

Definition valid_slug (s : string) : bool :=
  (3 <=? str_len s)%nat && (str_len s <=? 50)%nat && forallb slug_char (chars s).

Record TenantCreate := mkTenantCreate {
  tc_name : string;
  tc_slug : string;
  tc_description : option string;
  tc_is_active : option bool
}.

Record TenantUpdate := mkTenantUpdate {
  tu_name : option (option string);
  tu_description : option (option string);
  tu_is_active : option (option bool)
}.

(** ** Operations *)

Section tenant_service.
Context {S : Type} `{Session S} `{Inputs}.

(** The join keeps one row per assignment. *)
Definition get_multi_by_user (user_id : Uuid) : M (World S) (list Tenant) :=
  query (λ t, order_by_str (S := S) t_name (fst <$>
    join (λ x '(uid, _, tn), t_id x = tn ∧ uid = user_id)
         (rows (S := S) Tenant t) (utr_rows (S := S) t))).

Definition get_by_name (name : string) : M (World S) (option Tenant) :=
  query (λ t, first (select (S := S) (λ x, t_name x = name) t)).

Definition get_by_slug (slug : string) : M (World S) (option Tenant) :=
  query (λ t, first (select (S := S) (λ x, t_slug x = slug) t)).

(** A column set to [None] takes its default, so [is_active] becomes true. *)
Definition create (obj_in : TenantCreate) : M (World S) Tenant :=
  Crud.create (λ i c u,
    mkTenant i (tc_name obj_in) (tc_slug obj_in) (tc_description obj_in)
      (default true (tc_is_active obj_in)) c u).

Definition tenant_patch (obj_in : TenantUpdate) (r : Tenant) : Tenant + Constraint :=
  match tu_name obj_in, tu_is_active obj_in with
  | Some None, _ => inr (NotNull "name")
  | _, Some None => inr (NotNull "is_active")
  | n, a =>
      inl (mkTenant (t_id r)
             (match n with Some (Some v) => v | _ => t_name r end)
             (t_slug r)
             (patched (tu_description obj_in) (t_description r))
             (match a with Some (Some v) => v | _ => t_is_active r end)
             (t_created_at r) (t_updated_at r))
  end.

Definition update (db_obj : Tenant) (obj_in : TenantUpdate) : M (World S) Tenant :=
  Crud.update db_obj (tenant_patch obj_in).
End tenant_service.

(** ** Behaviour *)

Section tenant_facts.
Context {S : Type} `{SessionLaws S} `{Inputs}.
Implicit Types w : World S.

(** Another tenant has this name or slug. *)
Definition tenant_clash (x : Tenant) (t : Tables) : Prop :=
  ∃ i y, tenants t !! i = Some y ∧ i ≠ t_id x ∧ (t_name y = t_name x ∨ t_slug y = t_slug x).

Lemma tenant_violation (x : Tenant) t :
  row_violation x t = None ∧ ¬ tenant_clash x t ∨
  (∃ c, row_violation x t = Some c ∧ (c = UqTenantName ∨ c = UqTenantSlug)) ∧ tenant_clash x t.
Proof.
  unfold row_violation. destruct (unique_clash x t) as [c|] eqn:Hc.
  - right. unfold unique_clash in Hc. apply fmap_Some in Hc as ([c' v] & Hh & ->).
    apply head_filter_Some in Hh as [(i & y & Hi & Hne & Hy) Hin]. simpl in *.
    split; [exists c'; split; [done|]|exists i, y; split_and!; [done..|]];
      repeat (apply elem_of_cons in Hin as [[= -> ->]|Hin]; [set_solver|]); set_solver.
  - left. split; [done|]. intros (i & y & Hi & Hne & Hy).
    pose proof (unique_clash_None x t Hc) as Hu. simpl in Hu.
    destruct Hy as [Hy|Hy]; apply Hne.
    + eapply (Hu (UqTenantName, t_name x) i y); [set_solver|done|rewrite Hy; set_solver].
    + eapply (Hu (UqTenantSlug, t_slug x) i y); [set_solver|done|rewrite Hy; set_solver].
Qed.

Lemma create_tenant_post obj_in w :
  usable w = true → db_ok (view w) →
  post (create obj_in) w (λ r w',
    durable w' = durable w ∧
    match r with
    | Ret x => usable w' = true ∧ db_ok (view w') ∧ tenants (view w) !! t_id x = None ∧
        view w' = set_tenants (<[t_id x := x]> (tenants (view w))) (view w) ∧
        ¬ tenant_clash x (view w) ∧
        t_name x = tc_name obj_in ∧ t_slug x = tc_slug obj_in ∧
        t_description x = tc_description obj_in ∧ t_is_active x = default true (tc_is_active obj_in)
    | Raise e => usable w' = false ∧ ∃ c, e = IntegrityError (integrity_text c) ∧
        (c = PrimaryKey ∧ is_Some (tenants (view w) !! uuid4_at (w_uuid w))
         ∨ (c = UqTenantName ∨ c = UqTenantSlug) ∧ ∃ i y, tenants (view w) !! i = Some y ∧
           (t_name y = tc_name obj_in ∨ t_slug y = tc_slug obj_in))
    end).
Proof.
  intros Hu Hok. unfold create, Crud.create. do 6 wp_step.
  apply post_bind, post_exec; [solve_usable| |]; autorewrite with world.
  - intros t Ht. apply post_ret. autorewrite with world.
    pose proof (insert_row_ok _ _ _ Hok (ok_tenants _ Hok) Ht).
    apply insert_row_eq in Ht as (Hn & -> & Hv).
    destruct (tenant_violation (mkTenant (uuid4_at (w_uuid w)) (tc_name obj_in) (tc_slug obj_in)
      (tc_description obj_in) (default true (tc_is_active obj_in)) (now (next_uuid w))
      (now (tick (next_uuid w)))) (view w)) as [[_ ?]|[(c & Hc & _) _]];
      [by split_and!|]. rewrite Hv in Hc. done.
  - intros c Hc. autorewrite with world. split_and!; try done. exists c. split; [done|].
    unfold insert_row, put_row in Hc.
    destruct (_ !! _) as [y|] eqn:Hy; [injection Hc as <-; left; split; [done|by exists y]|].
    match type of Hc with context [row_violation ?x ?t] =>
      destruct (tenant_violation x t) as [[Hv _]|[(c' & Hv & Hcc) (i & z & Hi & _ & Hz)]];
        rewrite Hv in Hc end; [done|]. injection Hc as <-. right. eauto.
Qed.

Lemma get_by_slug_post slug w Q :
  usable w = true →
  (∀ i x, tenants (view w) !! i = Some x → t_slug x = slug → Q (Ret (Some x)) w) →
  ((∀ i x, tenants (view w) !! i = Some x → t_slug x ≠ slug) → Q (Ret None) w) →
  post (get_by_slug slug) w Q.
Proof.
  intros Hu Hs Hn. apply post_query; [done|]. destruct (first _) as [x|] eqn:Hf.
  - apply first_select_Some in Hf as [? [i Hi]]. by eapply Hs.
  - apply Hn. intros i x Hi ?. rewrite first_select_None in Hf. by destruct (Hf i x Hi).
Qed.
End tenant_facts.

Section tenant_properties.
Context {S : Type} `{SessionLaws S} `{Inputs}.
Implicit Types w : World S.

(** The occurrences of a tenant in the joined list are the user's assignments
    there. *)
Lemma join_count {A B} (f : A → Prop) `{!∀ a, Decision (f a)} (on : A → B → Prop)
    `{!∀ a b, Decision (on a b)} la lb :
  length (filter (λ a, f a) (fst <$> join on la lb)) =
  sum_list ((λ a, length (filter (on a) lb)) <$> filter f la).
Proof.
  induction la as [|a la IH]; [done|]. change (join on (a :: la) lb) with
    ((pair a <$> filter (on a) lb) ++ join on la lb)%list.
  rewrite fmap_app, filter_app, length_app, IH, filter_cons, <- list_fmap_compose.
  assert (∀ l : list B, length (filter (λ x, f x) ((fst ∘ pair a) <$> l)) =
    if decide (f a) then length l else 0%nat) as Hl.
  { intros l. induction l as [|b l IHl]; [by case_decide|]. rewrite fmap_cons, filter_cons. simpl.
    case_decide; simpl; [by rewrite IHl|done]. }
  rewrite Hl. by case_decide.
Qed.

(** [get_multi_by_user] lists, ordered by name, exactly the tenants in which
    the user has a role - once for every role he has there. *)
Theorem get_multi_by_user_spec uid w :
  usable w = true → db_ok (view w) →
  ∃ l, get_multi_by_user uid w = (Ret l, w) ∧
    StronglySorted (collate_le (S := S) t_name) l ∧
    (∀ x, x ∈ l ↔ tenants (view w) !! t_id x = Some x ∧ ∃ rid, assigned (view w) uid rid (t_id x)) ∧
    ∀ x, tenants (view w) !! t_id x = Some x →
      length (filter (λ y, y = x) l) =
      size (filter (λ k, k.1.1 = uid ∧ k.2 = t_id x) (dom (user_tenant_roles (view w)))).
Proof.
  intros Hu Hok. eexists. split; [unfold get_multi_by_user; by rewrite query_run|].
  split; [apply order_by_str_sorted|]. split.
  - intros x. rewrite order_by_str_perm, list_elem_of_fmap. split.
    + intros ([x' [[u rid] tn]] & -> & Hin). apply elem_of_join in Hin as (Hx & Hk & <- & ->).
      apply elem_of_utr_rows in Hk. apply elem_of_rows in Hx as [i Hi]. simpl in *.
      pose proof (model_ids (ok_tenants _ Hok) i x' Hi) as Hid. simpl in Hid. subst i.
      split; [done|]. by exists rid.
    + intros [Hi [rid Ha]]. exists (x, (uid, rid, t_id x)). split; [done|].
      apply elem_of_join. rewrite elem_of_utr_rows, elem_of_rows. split_and!; [|done..].
      by exists (t_id x).
  - intros x Hx. rewrite order_by_str_perm, (join_count (λ y, y = x)).
    assert (filter (λ y, y = x) (rows (S := S) Tenant (view w)) ≡ₚ [x]) as Hone.
    { apply NoDup_Permutation.
      - apply NoDup_filter, NoDup_rows, Hok.
      - apply NoDup_singleton.
      - intros y. rewrite list_elem_of_filter, list_elem_of_singleton, elem_of_rows.
        split; [by intros [-> _]|]. intros ->. split; [done|]. by exists (t_id x). }
    rewrite Hone. simpl. rewrite Nat.add_0_r. unfold utr_rows. rewrite order_perm.
    unfold size, set_size. apply Permutation_length, NoDup_Permutation.
    + apply NoDup_filter, NoDup_elements.
    + apply NoDup_elements.
    + intros [[u r] tn]. rewrite list_elem_of_filter, !elem_of_elements, elem_of_filter. naive_solver.
Qed.
End tenant_properties.

Lemma get_multi_by_user_witness :
  ∃ l, get_multi_by_user 1 w0 = (Ret l, w0) ∧ acme ∈ l.
Proof.
  destruct (get_multi_by_user_spec 1 w0 w0_usable w0_ok) as (l & Hl & _ & Hin & _).
  exists l. split; [exact Hl|]. apply Hin. split; [vm_compute; reflexivity|].
  exists 20%N. eexists. vm_compute. reflexivity.
Defined.
