(* ===== verification/InvitationService.v ===== *)
(** * [services/iam/invitation.py: InvitationService] and the invitation model

    Invitations are created with a random token, verified, accepted or revoked;
    the state machine of their status is the relation [status_step]. *)

From stdpp Require Import base tactics list gmap sorting strings.
From Stdlib Require Import ZArith Lia.
From S2P Require Import Prelude PyStd Effects Models Session Snapshot Crud RoleService UserService.

(** ** [models/iam/invitation.py]: the properties of [Invitation] *)

Definition is_expired (n : datetime) (i : Invitation) : bool := (i_expires_at i <? n)%Z.

Definition is_pending (n : datetime) (i : Invitation) : bool :=
  bool_decide (i_status i = PENDING) && negb (is_expired n i).

(** Attribute assignments. *)
Definition set_status (s : InvitationStatus) (i : Invitation) : Invitation :=
  mkInvitation (i_id i) (i_email i) (i_token i) s (i_expires_at i) (i_accepted_at i)
    (i_tenant_id i) (i_inviter_id i) (i_user_id i) (i_role_id i) (i_created_at i) (i_updated_at i).

Definition set_accepted (user_id : Uuid) (n : datetime) (i : Invitation) : Invitation :=
  mkInvitation (i_id i) (i_email i) (i_token i) ACCEPTED (i_expires_at i) (Some n)
    (i_tenant_id i) (i_inviter_id i) (Some user_id) (i_role_id i) (i_created_at i) (i_updated_at i).

(** The dictionary of [get_invitation_with_details]: the encoded invitation and
    the four added entries. *)
Record InvitationDetails := mkInvitationDetails {
  d_invitation : Invitation;
  d_tenant_name : option string;
  d_inviter_email : option string;
  d_is_expired : bool;
  d_is_pending : bool
}.

(** ** Operations *)

Section invitation_service.
Context {S : Type} `{Session S} `{Inputs}.

(** The invitations that are pending and not yet due at [n]. *)
Definition active (n : datetime) (i : Invitation) : Prop :=
  i_status i = PENDING ∧ (n < i_expires_at i)%Z.

(** [secrets.token_urlsafe(32)]. *)
Definition token_urlsafe : M (World S) string :=
  bs ← token_bytes;
  mret (of_chars (b64_encode bs)).

Definition create_invitation (email : string) (tenant_id inviter_id : Uuid) (role_id : option Uuid)
    (expires_in_days : option Z) : M (World S) (Invitation * string) :=
  n ← utcnow;
  existing ← query (λ t, first (select (S := S)
               (λ i, i_email i = email ∧ i_tenant_id i = tenant_id ∧ active n i) t));
  match existing with
  | Some existing => mret (existing, i_token existing)
  | None =>
      token ← token_urlsafe;
      n' ← utcnow;
      days ← require expires_in_days (TypeError "unsupported type for timedelta days component: NoneType");
      delta ← require (timedelta_days days) OverflowError;
      expires_at ← require (dt_add n' delta) OverflowError;
      db_obj ← Crud.create (λ i c u,
        mkInvitation i email token PENDING expires_at None tenant_id inviter_id None role_id c u);
      commit ;;
      mret (db_obj, token)
  end.

Definition get_by_token (token : string) : M (World S) (option Invitation) :=
  query (λ t, first (select (S := S) (λ i, i_token i = token) t)).

Definition get_by_email_and_tenant (email : string) (tenant_id : Uuid)
    : M (World S) (list Invitation) :=
  query (λ t, select (S := S) (λ i, i_email i = email ∧ i_tenant_id i = tenant_id) t).

Definition get_pending_by_tenant (tenant_id : Uuid) (skip limit : nat)
    : M (World S) (list Invitation) :=
  n ← utcnow;
  query_page skip limit (λ t, order_by_desc i_created_at
    (select (S := S) (λ i, i_tenant_id i = tenant_id ∧ active n i) t)).

Definition verify_token (token : string) : M (World S) (option Invitation) :=
  invitation ← get_by_token token;
  match invitation with
  | None => mret None
  | Some invitation =>
      n ← utcnow;
      if (i_expires_at invitation <? n)%Z then
        flush_row invitation (set_status EXPIRED invitation) ;;
        commit ;;
        mret None
      else if bool_decide (i_status invitation ≠ PENDING) then mret None
      else mret (Some invitation)
  end.

(** With a role, the first statement of [assign_role_to_user_in_tenant]
    flushes the modified invitation (autoflush) inside the [try]; without one
    the commit flushes it. *)
Definition accept_invitation (token : string) (user_id : Uuid) : M (World S) (option Invitation) :=
  invitation ← verify_token token;
  match invitation with
  | None => mret None
  | Some invitation =>
      n ← utcnow;
      let accepted := set_accepted user_id n invitation in
      match i_role_id invitation with
      | Some role_id =>
          flushed ← try_catch (o ← flush_row invitation accepted; mret (Some o)) (λ _, mret None);
          try_catch
            (match flushed with
             | Some _ => assign_role_to_user_in_tenant user_id role_id (i_tenant_id invitation) ;;
                         mret tt
             | None => mret tt
             end)
            (λ _, mret tt) ;;
          commit ;;
          mret (Some (default accepted flushed))
      | None =>
          o ← flush_row invitation accepted;
          commit ;;
          mret (Some o)
      end
  end.

Definition revoke_invitation (invitation_id : Uuid) : M (World S) (option Invitation) :=
  invitation ← get Invitation invitation_id;
  match invitation with
  | None => mret None
  | Some invitation =>
      if bool_decide (i_status invitation ≠ PENDING) then mret (Some invitation)
      else
        o ← flush_row invitation (set_status REVOKED invitation);
        commit ;;
        mret (Some o)
  end.

Definition get_invitation_with_details (invitation_id : Uuid) : M (World S) (option InvitationDetails) :=
  invitation ← get Invitation invitation_id;
  match invitation with
  | None => mret None
  | Some invitation =>
      tenant ← query (λ t, first (select (S := S) (λ x, t_id x = i_tenant_id invitation) t));
      inviter ← query (λ t, first (select (S := S) (λ u, u_id u = i_inviter_id invitation) t));
      n ← utcnow;
      pending ←
        (if bool_decide (i_status invitation = PENDING) then
           n' ← utcnow; mret (negb (is_expired n' invitation))
         else mret false);
      mret (Some (mkInvitationDetails invitation (t_name <$> tenant) (u_email <$> inviter)
                    (is_expired n invitation) pending))
  end.

Definition generate_invitation_link (FRONTEND_URL token : string) : string :=
  FRONTEND_URL +:+ "/accept-invitation?token=" +:+ token.

Definition get_multi_by_tenant (tenant_id : Uuid) (skip limit : nat)
    : M (World S) (list Invitation) :=
  query_page skip limit (λ t, order_by_desc i_created_at
    (select (S := S) (λ i, i_tenant_id i = tenant_id) t)).
End invitation_service.

(** ** Behaviour *)

Section invitation_facts.
Context {S : Type} `{SessionLaws S} `{Inputs}.
Implicit Types w : World S.

(** [o] is [i] as the database stores it: [updated_at] may have moved. *)
Definition stored (o i : Invitation) : Prop := o = i ∨ ∃ n, o = touch n i.

Lemma stored_fields o i : stored o i →
  i_id o = i_id i ∧ i_email o = i_email i ∧ i_token o = i_token i ∧ i_status o = i_status i ∧
  i_expires_at o = i_expires_at i ∧ i_accepted_at o = i_accepted_at i ∧
  i_tenant_id o = i_tenant_id i ∧ i_inviter_id o = i_inviter_id i ∧ i_user_id o = i_user_id i ∧
  i_role_id o = i_role_id i.
Proof. by intros [->|[n ->]]. Qed.

Definition with_invitation (o : Invitation) (t : Tables) : Tables :=
  set_invitations (<[i_id o := o]> (invitations t)) t.

(** Flushing a changed invitation: only the reference to the accepting user
    can be rejected. *)
Lemma flush_invitation_post (i i' : Invitation) w :
  usable w = true → db_ok (view w) → invitations (view w) !! i_id i = Some i →
  i_id i' = i_id i → i_token i' = i_token i → i_tenant_id i' = i_tenant_id i →
  i_inviter_id i' = i_inviter_id i →
  post (flush_row i i') w (λ r w', durable w' = durable w ∧
    match r with
    | Ret o => usable w' = true ∧ db_ok (view w') ∧ stored o i' ∧
               view w' = with_invitation o (view w) ∧
               (i_user_id i' = i_user_id i ∨ ∀ u, i_user_id i' = Some u → ref_ok (view w) (RefUser u))
    | Raise e => usable w' = false ∧ e = IntegrityError (integrity_text FkInvitationUser) ∧
                 ∃ u, i_user_id i' = Some u ∧ ¬ ref_ok (view w) (RefUser u)
    end).
Proof.
  intros Hu Hok Hl Hid Htok Hten Hinv. pose proof (ok_invitations _ Hok) as Hm.
  assert (ref_ok (view w) (RefTenant (i_tenant_id i))) as Hrt.
  { eapply (model_fk Hm (i_id i) i FkInvitationTenant); [exact Hl|]. simpl. set_solver. }
  assert (ref_ok (view w) (RefUser (i_inviter_id i))) as Hri.
  { eapply (model_fk Hm (i_id i) i FkInvitationInviter); [exact Hl|]. simpl. set_solver. }
  assert (∀ n, row_violation (touch n i') (view w) = fk_missing (touch n i') (view w)) as Hrv.
  { intros n. apply (row_violation_same i); [done|done|done|]. simpl. by rewrite Htok. }
  apply post_flush_row; [done| | |].
  - intros ->. split_and!; try done; [by left| |by left].
    unfold with_invitation. rewrite insert_id by done. by destruct (view w).
  - intros n t w' _ _ Ht ->. autorewrite with world.
    pose proof (put_row_ok _ _ _ Hok Hm Ht). apply put_row_eq in Ht as [-> Hv].
    split_and!; try done; [right; by exists n|].
    rewrite Hrv, fk_missing_iff in Hv. right. intros u Hu'. apply (Hv FkInvitationUser). simpl. rewrite Hu'. set_solver.
  - intros n c w' _ _ Hc ->. autorewrite with world. unfold put_row in Hc. rewrite Hrv in Hc.
    unfold fk_missing in Hc. simpl in Hc. rewrite Hten, Hinv in Hc.
    rewrite !filter_cons_False in Hc by tauto.
    destruct (i_user_id i') as [u|]; [|done]. simpl in Hc.
    destruct (decide (is_Some (users (view w) !! u))) as [Hs|Hs].
    + rewrite filter_cons_False in Hc by tauto. done.
    + rewrite filter_cons_True in Hc by done. injection Hc as <-. split_and!; eauto.
Qed.

Definition has_token (t : Tables) (token : string) (i : Invitation) : Prop :=
  invitations t !! i_id i = Some i ∧ i_token i = token.

Lemma get_by_token_post token w Q :
  usable w = true → db_ok (view w) →
  ((∀ i, ¬ has_token (view w) token i) → Q (Ret None) w) →
  (∀ i, has_token (view w) token i → Q (Ret (Some i)) w) →
  post (get_by_token token) w Q.
Proof.
  intros Hu Hok Hn Hs. apply post_query; [done|]. destruct (first _) as [i|] eqn:Hf.
  - apply first_select_Some in Hf as [Ht [j Hj]]. simpl in Hj.
    pose proof (model_ids (ok_invitations _ Hok) j i Hj) as Hid. simpl in Hid. subst j. by apply Hs.
  - apply Hn. intros i [Hi Ht]. rewrite first_select_None in Hf. by destruct (Hf (i_id i) i Hi).
Qed.

Lemma has_token_unique t token i j :
  db_ok t → has_token t token i → has_token t token j → i = j.
Proof.
  intros Hok [Hi Hti] [Hj Htj].
  assert (i_id i = i_id j) as Hid.
  { eapply (model_unique (ok_invitations _ Hok) _ _ i j (UqInvitationToken, token)); eauto;
      simpl; rewrite ?Hti, ?Htj; set_solver. }
  congruence.
Qed.

Lemma verify_token_post token w Q :
  usable w = true → db_ok (view w) →
  ((∀ i, ¬ has_token (view w) token i) → Q (Ret None) w) →
  (∀ i, has_token (view w) token i → (now w ≤ i_expires_at i)%Z →
     Q (Ret (if decide (i_status i = PENDING) then Some i else None)) (tick w)) →
  (∀ i o w', has_token (view w) token i → (i_expires_at i < now w)%Z →
     stored o (set_status EXPIRED i) → view w' = with_invitation o (view w) →
     durable w' = view w' → usable w' = true → db_ok (view w') → Q (Ret None) w') →
  post (verify_token token) w Q.
Proof.
  intros Hu Hok Hnone Hlive Hdue. unfold verify_token.
  apply post_bind, get_by_token_post; [done..| |]; [by wp; auto|]. intros i [Hi Ht].
  do 2 wp_step. destruct (i_expires_at i <? now w)%Z eqn:Hexp; reflect_bools.
  - apply post_bind. eapply post_mono; [by apply flush_invitation_post|].
    intros [o|e] w' [Hd Hr].
    + destruct Hr as (Hu' & Hok' & Hst & Hv & _). autorewrite with world in Hv. wp.
      eapply Hdue; eauto; autorewrite with world; done.
    + exfalso. destruct Hr as (_ & _ & u & Hiu & Hno). apply Hno. simpl in Hiu.
      eapply (model_fk (ok_invitations _ Hok) (i_id i) i FkInvitationUser); [exact Hi|].
      simpl. rewrite Hiu. set_solver.
  - specialize (Hlive i (conj Hi Ht) Hexp). case_bool_decide as Hp; wp.
    + by rewrite decide_False in Hlive.
    + rewrite decide_True in Hlive by (destruct (decide (i_status i = PENDING)); [done|by destruct Hp]). done.
Qed.

(** Assigning the role on acceptance always raises, and changes nothing. *)
Lemma assign_role_raises uid rid tid w :
  post (assign_role_to_user_in_tenant uid rid tid) w (λ r w', w' = w ∧ ∃ e, r = Raise e).
Proof.
  unfold assign_role_to_user_in_tenant. apply post_bind. unfold get_by_id_and_tenant, query, post.
  destruct (usable w); [|by eauto]. unfold raise_if, raise, mbind, M_bind.
  destruct (negb _); simpl; split; eauto.
Qed.
End invitation_facts.

Section creation.
Context {S : Type} `{SessionLaws S} `{Inputs}.
Implicit Types w : World S.

(** An invitation [create_invitation] would return again at [n]. *)
Definition invited (n : Z) (email : string) (tid : Uuid) (t : Tables) (i : Invitation) : Prop :=
  invitations t !! i_id i = Some i ∧ i_email i = email ∧ i_tenant_id i = tid ∧ active n i.

(** The fields of a new invitation. *)
Definition new_invitation (email : string) (tid inviter : Uuid) (role : option Uuid) (days : Z)
    w (i : Invitation) : Prop :=
  i_email i = email ∧ i_tenant_id i = tid ∧ i_inviter_id i = inviter ∧ i_role_id i = role ∧
  i_status i = PENDING ∧ i_user_id i = None ∧ i_accepted_at i = None ∧
  i_token i = of_chars (b64_encode (token_bytes_at (w_rand w))) ∧
  i_expires_at i = (clock (1 + w_clock w) + days * us_per_day)%Z.

(** The database refuses a new row: the identifier or the token drawn for it is
    in use, or the tenant or the inviter does not exist. *)
Definition refused (tid inviter : Uuid) w : Prop :=
  is_Some (invitations (view w) !! uuid4_at (w_uuid w)) ∨
  (∃ i, has_token (view w) (of_chars (b64_encode (token_bytes_at (w_rand w)))) i) ∨
  ¬ ref_ok (view w) (RefTenant tid) ∨ ¬ ref_ok (view w) (RefUser inviter).

(** Why a creation fails once nothing active is found. *)
Definition creation_error (tid inviter : Uuid) (days : option Z) w (e : Exn) : Prop :=
  (∃ m, e = TypeError m) ∧ days = None
  ∨ e = OverflowError ∧ (∃ d, days = Some d ∧
      (delta ← timedelta_days d; dt_add (clock (1 + w_clock w)) delta) = None)
  ∨ (∃ c, e = IntegrityError (integrity_text (S := S) c)) ∧ refused tid inviter w.

Lemma create_invitation_post email tid inviter role days w :
  usable w = true → db_ok (view w) →
  post (create_invitation email tid inviter role days) w (λ r w',
    match r with
    | Ret (i, token) => token = i_token i ∧
        (invited (now w) email tid (view w) i ∧ w' = tick w
         ∨ (∀ j, ¬ invited (now w) email tid (view w) j) ∧
           (∃ d, days = Some d ∧ new_invitation email tid inviter role d w i) ∧
           invitations (view w) !! i_id i = None ∧ db_ok (durable w') ∧
           durable w' = with_invitation i (view w))
    | Raise e => durable w' = durable w ∧ (∀ j, ¬ invited (now w) email tid (view w) j) ∧
        creation_error tid inviter days w e
    end).
Proof.
  intros Hu Hok. unfold create_invitation. do 2 wp_step. apply post_bind, post_query; [solve_usable|].
  autorewrite with world. destruct (first _) as [i|] eqn:Hf.
  { apply first_select_Some in Hf as [(He & Ht & Ha) [j Hj]]. simpl in Hj.
    pose proof (model_ids (ok_invitations _ Hok) j i Hj) as Hid. simpl in Hid. subst j.
    wp. split; [done|]. by left. }
  assert (∀ j, ¬ invited (now w) email tid (view w) j) as Hno.
  { intros j (Hj & ? & ? & ?). rewrite first_select_None in Hf. by destruct (Hf (i_id j) j Hj). }
  unfold token_urlsafe. do 6 wp_step. apply post_bind, post_require.
  { intros ->. autorewrite with world. split_and!; [done..|]. left. eauto. }
  intros d ->. apply post_bind, post_require.
  { intros Hdelta. autorewrite with world. split_and!; [done..|]. right; left. split; [done|].
    exists d. by rewrite Hdelta. }
  intros delta Hdelta. apply post_bind, post_require.
  { intros Hexp. autorewrite with world. split_and!; [done..|]. right; left. split; [done|].
    exists d. by rewrite Hdelta. }
  intros expires Hexp. apply post_bind. unfold Crud.create. do 6 wp_step.
  apply post_bind, post_exec; [solve_usable| |]; autorewrite with world.
  - intros t Ht. pose proof (insert_row_ok _ _ _ Hok (ok_invitations _ Hok) Ht).
    apply insert_row_eq in Ht as (Hn & -> & _). wp. autorewrite with world.
    split; [done|]. right. split; [done|]. split; [|by split_and!].
    exists d. split; [done|]. split_and!; try done. simpl.
    unfold timedelta_days in Hdelta. case_match; [|done]. injection Hdelta as <-.
    unfold dt_add in Hexp. case_match; [|done]. by injection Hexp as <-.
  - intros c Hc. autorewrite with world. split_and!; [done..|]. right; right. split; [by exists c|].
    apply insert_row_error in Hc. simpl in Hc.
    destruct Hc as [Hid|[(k & j & i & Hk & Hj & Hki)|(k & ref & Hk & Href)]]; [by left|right..].
    + left. apply list_elem_of_singleton in Hk as ->. apply list_elem_of_singleton in Hki as [= Ht].
      pose proof (model_ids (ok_invitations _ Hok) j i Hj) as Hid. simpl in Hid. subst j. by exists i.
    + right. unfold opt_fk in Hk. simpl in Hk.
      apply elem_of_cons in Hk as [[= -> ->]|Hk]; [by left|].
      apply elem_of_cons in Hk as [[= -> ->]|Hk]; [by right|]. by apply elem_of_nil in Hk.
Qed.
End creation.

(** ** Life cycle *)

Inductive status_step : Invitation → Invitation → Prop :=
  | step_accept i o u n : i_status i = PENDING → stored o (set_accepted u n i) → status_step i o
  | step_revoke i o : i_status i = PENDING → stored o (set_status REVOKED i) → status_step i o
  | step_expire i o n : (i_expires_at i < n)%Z → stored o (set_status EXPIRED i) → status_step i o.

Section lifecycle.
Context {S : Type} `{SessionLaws S} `{Inputs}.
Implicit Types w : World S.

Lemma status_step_id i o : status_step i o → i_id o = i_id i.
Proof. by intros []; destruct (stored_fields _ _ ltac:(eassumption)) as (-> & _). Qed.

(** Every invitation of [t] is still in [t'], some steps later. *)
Definition advances (t t' : Tables) : Prop :=
  db_ok t' ∧ ∀ id i, invitations t !! id = Some i →
    ∃ o, invitations t' !! id = Some o ∧ rtc status_step i o.

Lemma advances_refl t : db_ok t → advances t t.
Proof. intros Hok. split; [done|]. intros id i Hi. by exists i. Qed.

Lemma advances_trans t1 t2 t3 : advances t1 t2 → advances t2 t3 → advances t1 t3.
Proof.
  intros [_ H12] [Hok H23]. split; [done|]. intros id i Hi.
  apply H12 in Hi as (o & Ho & Hs). apply H23 in Ho as (p & Hp & Hs'). exists p.
  split; [done|]. by etrans.
Qed.

Lemma advances_step t i o :
  db_ok (with_invitation o t) → invitations t !! i_id i = Some i → status_step i o →
  advances t (with_invitation o t).
Proof.
  intros Hok Hi Hs. split; [done|]. intros id j Hj. simpl.
  rewrite (status_step_id _ _ Hs), lookup_insert. case_decide as Hd; [|by exists j].
  subst id. rewrite Hi in Hj. injection Hj as <-. exists o. split; [done|]. by apply rtc_once.
Qed.

Lemma advances_new t o :
  db_ok (with_invitation o t) → invitations t !! i_id o = None → advances t (with_invitation o t).
Proof.
  intros Hok Hn. split; [done|]. intros id j Hj. simpl. exists j. split; [|done].
  rewrite lookup_insert_ne; [done|]. congruence.
Qed.

(** The requests that can reach an invitation. *)
Inductive Op :=
  | OpCreate (email : string) (tid inviter : Uuid) (role : option Uuid) (days : option Z)
  | OpVerify (token : string)
  | OpAccept (token : string) (user_id : Uuid)
  | OpRevoke (invitation_id : Uuid).

Definition op_body (o : Op) : M (World S) unit :=
  match o with
  | OpCreate email tid inviter role days => create_invitation email tid inviter role days ;; mret tt
  | OpVerify token => verify_token token ;; mret tt
  | OpAccept token user_id => accept_invitation token user_id ;; mret tt
  | OpRevoke invitation_id => revoke_invitation invitation_id ;; mret tt
  end.

(** The requests one after another, each in its own session. *)
Fixpoint run_ops (ops : list Op) w : World S :=
  match ops with
  | [] => w
  | o :: ops' => run_ops ops' (get_db (op_body o) w).2
  end.

Lemma verify_advances token w :
  usable w = true → db_ok (view w) → durable w = view w →
  post (verify_token token) w (λ r w', advances (view w) (durable w') ∧ durable w' = view w' ∧
    usable w' = true ∧
    ∃ o, r = Ret o ∧ ∀ i, o = Some i → has_token (view w') token i ∧ i_status i = PENDING ∧
                                       view w' = view w).
Proof.
  intros Hu Hok Hd. apply verify_token_post; [done..| | |].
  - intros _. rewrite Hd. split_and!; [by apply advances_refl|done..|]. by eexists.
  - intros i Hi _. autorewrite with world. rewrite Hd.
    split_and!; [by apply advances_refl|done..|]. eexists. split; [done|].
    intros j. case_decide; [|done]. intros [= <-]. by autorewrite with world.
  - intros i o w' [Hi _] He Hst Hv Hd' Hu' Hok'. rewrite Hd'. split_and!; try done.
    + rewrite Hv in *. eapply advances_step; [done..|]. by eapply step_expire.
    + by eexists.
Qed.

Lemma accept_advances token uid w :
  usable w = true → db_ok (view w) → durable w = view w →
  post (accept_invitation token uid) w (λ _ w', advances (view w) (durable w')).
Proof.
  intros Hu Hok Hd. unfold accept_invitation. apply post_bind.
  eapply post_mono; [by apply verify_advances|].
  intros r w1 (Hadv & Hd1 & Hu1 & o & -> & Ho). destruct o as [i|]; [|by wp].
  destruct (Ho i eq_refl) as ([Hi Ht] & Hp & Hv). do 2 wp_step.
  assert (db_ok (view w1)) as Hok1 by (by rewrite Hv).
  pose proof (flush_invitation_post i (set_accepted uid (now w1) i) (tick w1) Hu1 Hok1 Hi
                eq_refl eq_refl eq_refl eq_refl) as Hflush.
  assert (∀ o, db_ok (with_invitation o (view w)) → stored o (set_accepted uid (now w1) i) →
    advances (view w) (with_invitation o (view w))) as Hstep.
  { intros o Hoko Hst. rewrite Hv in Hi. eapply advances_step; [done..|]. by eapply step_accept. }
  destruct (i_role_id i) as [rid|].
  - apply post_bind, post_try, post_bind. eapply post_mono; [exact Hflush|].
    intros [o|e] w2 [Hd2 Hr]; autorewrite with world in *.
    + destruct Hr as (Hu2 & Hok2 & Hst & Hv2 & _). apply post_ret.
      apply post_bind, post_try, post_bind. eapply post_mono; [apply assign_role_raises|].
      intros r w3 (-> & e & ->). wp. autorewrite with world. rewrite Hv2, Hv in *. by apply Hstep.
    + destruct Hr as (Hu2 & _). apply post_ret. apply post_bind, post_try, post_ret.
      apply post_bind. unfold commit, post. rewrite Hu2. by rewrite Hd2, Hd1, <- Hd1.
  - apply post_bind. eapply post_mono; [exact Hflush|].
    intros [o|e] w2 [Hd2 Hr]; autorewrite with world in *.
    + destruct Hr as (Hu2 & Hok2 & Hst & Hv2 & _). wp. autorewrite with world.
      rewrite Hv2, Hv in *. by apply Hstep.
    + by rewrite Hd2.
Qed.
End lifecycle.

Section revocation.
Context {S : Type} `{SessionLaws S} `{Inputs}.
Implicit Types w : World S.

Lemma revoke_invitation_post id w :
  usable w = true → db_ok (view w) →
  post (revoke_invitation id) w (λ r w',
    match invitations (view w) !! id with
    | None => r = Ret None ∧ w' = w
    | Some i =>
        if decide (i_status i = PENDING) then
          ∃ o, r = Ret (Some o) ∧ stored o (set_status REVOKED i) ∧
               durable w' = with_invitation o (view w) ∧ db_ok (durable w')
        else r = Ret (Some i) ∧ w' = w
    end).
Proof.
  intros Hu Hok. unfold revoke_invitation. apply post_bind, post_get; [done|apply Hok|]. simpl.
  destruct (invitations (view w) !! id) as [i|] eqn:Hi; [|by wp].
  pose proof (model_ids (ok_invitations _ Hok) id i Hi) as Hid. simpl in Hid. subst id.
  destruct (decide (i_status i = PENDING)) as [Hp|Hp].
  - rewrite bool_decide_eq_false_2 by tauto. apply post_bind.
    eapply post_mono; [by apply (flush_invitation_post i (set_status REVOKED i))|].
    intros [o|e] w' [Hd Hr].
    + destruct Hr as (Hu' & Hok' & Hst & Hv & _). wp. exists o. autorewrite with world. by rewrite Hv in *.
    + exfalso. destruct Hr as (_ & _ & u & Hiu & Hno). apply Hno. simpl in Hiu.
      eapply (model_fk (ok_invitations _ Hok) (i_id i) i FkInvitationUser); [exact Hi|].
      simpl. rewrite Hiu. set_solver.
  - rewrite bool_decide_eq_true_2 by done. by wp.
Qed.

Lemma op_advances o w :
  usable w = true → db_ok (view w) → durable w = view w →
  post (op_body o) w (λ _ w', advances (view w) (durable w')).
Proof.
  intros Hu Hok Hd. destruct o as [email tid inviter role days|token|token uid|id]; simpl; apply post_bind.
  - eapply post_mono; [by apply create_invitation_post|]. intros [[i tok]|e] w'.
    + intros (_ & [[_ ->]|(_ & _ & Hn & Hok' & Hv)]); wp.
      * autorewrite with world. rewrite Hd. by apply advances_refl.
      * rewrite Hv in *. by apply advances_new.
    + intros (-> & _). rewrite Hd. by apply advances_refl.
  - eapply post_mono; [by apply verify_advances|]. intros r w' (? & _ & _ & o & -> & _). by wp.
  - eapply post_mono; [by apply accept_advances|]. intros [r|e] w' ?; by wp.
  - eapply post_mono; [by apply revoke_invitation_post|]. intros r w'.
    destruct (invitations (view w) !! id) as [i|] eqn:Hi.
    + case_decide.
      * intros (o & -> & Hst & Hv & Hok'). wp. rewrite Hv in *.
        pose proof (model_ids (ok_invitations _ Hok) id i Hi) as Hid. simpl in Hid. subst id.
        eapply advances_step; [done..|]. by apply step_revoke.
      * intros [-> ->]. wp. rewrite Hd. by apply advances_refl.
    + intros [-> ->]. wp. rewrite Hd. by apply advances_refl.
Qed.

Lemma run_ops_advances ops w :
  db_ok (durable w) → advances (durable w) (durable (run_ops ops w)).
Proof.
  revert w. induction ops as [|o ops IH]; intros w Hok; simpl; [by apply advances_refl|].
  assert (advances (durable w) (durable (get_db (op_body o) w).2)) as Hone.
  { rewrite get_db_durable. pose proof (op_advances o (reopen w)) as Hop.
    autorewrite with world in Hop. specialize (Hop eq_refl Hok eq_refl).
    unfold post in Hop. by destruct (op_body o (reopen w)) as [r w']. }
  eapply advances_trans; [exact Hone|]. apply IH. apply Hone.
Qed.

(** What the steps can never change, and that a closed invitation stays closed. *)
Lemma status_steps_facts i o :
  rtc status_step i o →
  i_id o = i_id i ∧ i_token o = i_token i ∧ i_email o = i_email i ∧ i_tenant_id o = i_tenant_id i ∧
  i_role_id o = i_role_id i ∧ i_inviter_id o = i_inviter_id i ∧ i_expires_at o = i_expires_at i ∧
  (i_status i ≠ PENDING → i_user_id o = i_user_id i ∧ i_accepted_at o = i_accepted_at i ∧
    (i_status o = i_status i ∨ i_status o = EXPIRED)) ∧
  (i_status o = PENDING → i_user_id o = i_user_id i).
Proof.
  induction 1 as [i|i o p Hs _ IH]; [split_and!; auto|].
  destruct IH as (Hid & Htok & Hem & Hten & Hro & Hinv & Hexp & Hcl & Hpe).
  assert (∀ x, stored o x → i_id o = i_id x ∧ i_email o = i_email x ∧ i_token o = i_token x ∧
    i_status o = i_status x ∧ i_expires_at o = i_expires_at x ∧ i_accepted_at o = i_accepted_at x ∧
    i_tenant_id o = i_tenant_id x ∧ i_inviter_id o = i_inviter_id x ∧ i_user_id o = i_user_id x ∧
    i_role_id o = i_role_id x) as Hf by (intros x; apply stored_fields).
  destruct Hs as [i o u n Hp Hst|i o Hp Hst|i o n He Hst];
    apply Hf in Hst as (E1&E2&E3&E4&E5&E6&E7&E8&E9&E10); simpl in *;
    rewrite E1 in *; rewrite E4 in *; rewrite ?Hid, ?Htok, ?Hem, ?Hten, ?Hro, ?Hinv, ?Hexp;
    destruct Hcl as (Hc1 & Hc2 & Hc3); try done; split_and!; try congruence;
    try (intros; split_and!; try congruence; naive_solver);
    intros Hpp; exfalso; destruct Hc3 as [Hc3|Hc3]; congruence.
Qed.
End revocation.

(** ** Properties *)

Section invitation_properties.
Context {S : Type} `{SessionLaws S} `{Inputs}.
Implicit Types w : World S.

(** C6. Whatever requests create, verify, accept and revoke invitations, an
    invitation never disappears, keeps its token, address, tenant, role and
    expiry, and moves along the state machine only; once it is accepted,
    revoked or expired it is never pending again and keeps its user - the
    only later change is from a closed status to [EXPIRED]. *)
Theorem invitation_lifecycle ops w i :
  db_ok (durable w) → invitations (durable w) !! i_id i = Some i →
  let t' := durable (run_ops ops w) in
  db_ok t' ∧ ∃ o, invitations t' !! i_id i = Some o ∧ rtc status_step i o ∧
    i_token o = i_token i ∧ i_email o = i_email i ∧ i_tenant_id o = i_tenant_id i ∧
    i_role_id o = i_role_id i ∧ i_expires_at o = i_expires_at i ∧
    (i_status i ≠ PENDING →
      i_status o ≠ PENDING ∧ i_user_id o = i_user_id i ∧ i_accepted_at o = i_accepted_at i ∧
      (i_status o = i_status i ∨ i_status o = EXPIRED)).
Proof.
  intros Hok Hi t'. destruct (run_ops_advances ops w Hok) as [Hok' Ha]. split; [done|].
  apply Ha in Hi as (o & Ho & Hs). exists o.
  destruct (status_steps_facts _ _ Hs) as (_ & ? & ? & ? & ? & _ & ? & Hcl & _).
  split_and!; try done. intros Hne. destruct (Hcl Hne) as (? & ? & Hst). split_and!; try done.
  destruct Hst as [Hst|Hst]; rewrite Hst; done.
Qed.

(** C21. [verify_token] returns an invitation exactly when one with the token is
    pending and not past its expiry, and then changes nothing; past the expiry
    - which the comparison [<] leaves out, so the instant itself still counts
    as valid - it marks the invitation expired, whatever its status was. *)
Theorem verify_token_spec token w :
  usable w = true → db_ok (view w) →
  post (verify_token token) w (λ r w',
    ((∀ i, ¬ has_token (view w) token i) ∧ r = Ret None ∧ w' = w)
    ∨ ∃ i, has_token (view w) token i ∧
        if decide (i_expires_at i < now w)%Z then
          r = Ret None ∧ ∃ o, stored o (set_status EXPIRED i) ∧
            durable w' = with_invitation o (view w)
        else w' = tick w ∧ r = Ret (if decide (i_status i = PENDING) then Some i else None)).
Proof.
  intros Hu Hok. apply verify_token_post; [done..|by left| |].
  - intros i Hi He. right. exists i. split; [done|]. by rewrite decide_False by lia.
  - intros i o w' Hi He Hst Hv Hd _ _. right. exists i. split; [done|]. rewrite decide_True by done.
    split; [done|]. exists o. by rewrite Hd.
Qed.

(** Accepting a pending invitation in time. *)
Lemma accept_pending_post token uid w i :
  usable w = true → db_ok (view w) → durable w = view w →
  has_token (view w) token i → i_status i = PENDING → (now w ≤ i_expires_at i)%Z →
  post (accept_invitation token uid) w (λ r w',
    if decide (ref_ok (view w) (RefUser uid)) then
      ∃ o, r = Ret (Some o) ∧ stored o (set_accepted uid (clock (1 + w_clock w)) i) ∧
           durable w' = with_invitation o (view w) ∧
           user_tenant_roles (durable w') = user_tenant_roles (view w)
    else durable w' = durable w ∧
         r = Raise (match i_role_id i with
                    | Some _ => PendingRollbackError
                    | None => IntegrityError (integrity_text (S := S) FkInvitationUser)
                    end)).
Proof.
  intros Hu Hok Hdv Hi Hp He. unfold accept_invitation. apply post_bind, verify_token_post; [done..| | |].
  { intros Hno. by destruct (Hno i). }
  2:{ intros j o w' Hj Hlt. pose proof (has_token_unique _ _ _ _ Hok Hi Hj) as <-. lia. }
  intros j Hj _. pose proof (has_token_unique _ _ _ _ Hok Hi Hj) as <-. rewrite decide_True by done.
  clear Hj. do 2 wp_step.
  change (now (tick w)) with (clock (1 + w_clock w)). set (acc := set_accepted _ _ _).
  pose proof (flush_invitation_post i acc (tick (tick w)) Hu Hok (proj1 Hi)
                eq_refl eq_refl eq_refl eq_refl) as Hflush.
  autorewrite with world in Hflush.
  assert (∀ o, user_tenant_roles (with_invitation o (view w)) = user_tenant_roles (view w)) as Hutr
    by done.
  assert ((i_user_id acc = i_user_id i ∨ ∀ u, i_user_id acc = Some u → ref_ok (view w) (RefUser u)) →
    ref_ok (view w) (RefUser uid)) as Hfk.
  { intros [Hx|Hx]; [|by apply Hx]. simpl in Hx.
    eapply (model_fk (ok_invitations _ Hok) (i_id i) i FkInvitationUser); [apply Hi|].
    simpl. rewrite <- Hx. simpl. set_solver. }
  destruct (i_role_id i) as [rid|].
  - apply post_bind, post_try, post_bind. eapply post_mono; [exact Hflush|].
    intros [o|e] w2 [Hd2 Hr].
    + destruct Hr as (Hu2 & Hok2 & Hst & Hv2 & Hx). apply post_ret.
      apply post_bind, post_try, post_bind. eapply post_mono; [apply assign_role_raises|].
      intros r w3 (-> & e & ->). wp. autorewrite with world.
      rewrite decide_True by auto. exists o. by rewrite Hv2.
    + destruct Hr as (Hu2 & _ & u & [= <-] & Hno). apply post_ret. apply post_bind, post_try, post_ret.
      apply post_bind. unfold commit, post. rewrite Hu2. by rewrite decide_False.
  - apply post_bind. eapply post_mono; [exact Hflush|]. intros [o|e] w2 [Hd2 Hr].
    + destruct Hr as (Hu2 & Hok2 & Hst & Hv2 & Hx). wp. autorewrite with world.
      rewrite decide_True by auto. exists o. by rewrite Hv2.
    + destruct Hr as (Hu2 & -> & u & [= <-] & Hno). by rewrite decide_False.
Qed.

(** C14. [accept_invitation] on every branch.  A token no invitation has gives
    [None] and so does one that is not pending; an overdue one is marked
    expired, whatever its status was.  Only a pending invitation in time is
    accepted, for an existing user: status, user and time are recorded and that
    one row is committed.  For a user that does not exist it fails and commits
    nothing.  The role the invitation names is never assigned. *)
Theorem accept_invitation_spec token uid w :
  usable w = true → db_ok (view w) → durable w = view w →
  post (accept_invitation token uid) w (λ r w',
    user_tenant_roles (durable w') = user_tenant_roles (view w) ∧
    ((∀ i, ¬ has_token (view w) token i) ∧ r = Ret None ∧ durable w' = view w
     ∨ ∃ i, has_token (view w) token i ∧
       if decide (i_expires_at i < now w)%Z then
         r = Ret None ∧ ∃ o, stored o (set_status EXPIRED i) ∧ durable w' = with_invitation o (view w)
       else if decide (i_status i = PENDING) then
         if decide (ref_ok (view w) (RefUser uid)) then
           ∃ o, r = Ret (Some o) ∧ stored o (set_accepted uid (clock (1 + w_clock w)) i) ∧
                durable w' = with_invitation o (view w)
         else durable w' = view w ∧
              r = Raise (match i_role_id i with
                         | Some _ => PendingRollbackError
                         | None => IntegrityError (integrity_text (S := S) FkInvitationUser)
                         end)
       else r = Ret None ∧ durable w' = view w)).
Proof.
  intros Hu Hok Hd.
  destruct (decide (map_Exists (λ _ i, i_token i = token ∧ i_status i = PENDING ∧ (now w ≤ i_expires_at i)%Z)
              (invitations (view w)))) as [(j & i & Hj & Ht & Hp & He)|Hno].
  - pose proof (model_ids (ok_invitations _ Hok) j i Hj) as Hid. simpl in Hid. subst j.
    eapply post_mono; [apply (accept_pending_post token uid w i); first [done|by split]|]. intros r w' HP.
    case_decide as Hr.
    + destruct HP as (o & -> & Hst & Hv & Hutr). split; [done|]. right. exists i. split; [by split|].
      rewrite decide_False by lia. rewrite !decide_True by done. by exists o.
    + destruct HP as [Hv ->]. rewrite Hv, Hd. split; [done|]. right. exists i. split; [by split|].
      rewrite decide_False by lia. by rewrite decide_True.
  - unfold accept_invitation. apply post_bind, verify_token_post; [done..| | |].
    + intros Hnone. wp. rewrite Hd. split; [done|]. by left.
    + intros i [Hi Ht] He. case_decide as Hp; [destruct Hno; by exists (i_id i), i|].
      wp. autorewrite with world. rewrite Hd. split; [done|]. right. exists i. split; [by split|].
      by rewrite decide_False, decide_False by (done || lia).
    + intros i o w' Hi He Hst Hv Hd' _ _. wp. rewrite Hd', Hv. split; [done|]. right. exists i.
      split; [done|]. rewrite decide_True by done. split; [done|]. by exists o.
Qed.

(** C20. [create_invitation] returns an invitation that is active already for
    the address and tenant, writing nothing; otherwise it adds exactly one
    pending invitation with the requested expiry and a fresh random token.  It
    fails, and commits nothing, only when none is active and the number of days
    is missing or out of range, or the database refuses the row.  Where at most
    one invitation for the address and tenant was active before, at most one is
    after. *)
Theorem create_invitation_spec email tid inviter role days w :
  usable w = true → db_ok (view w) → durable w = view w →
  post (create_invitation email tid inviter role days) w (λ r w',
    match r with
    | Ret (i, token) => token = i_token i ∧
        (invited (now w) email tid (view w) i ∧ durable w' = view w
         ∨ (∀ j, ¬ invited (now w) email tid (view w) j) ∧
           (∃ d, days = Some d ∧ new_invitation email tid inviter role d w i) ∧
           invitations (view w) !! i_id i = None ∧ durable w' = with_invitation i (view w))
    | Raise e => durable w' = view w ∧ (∀ j, ¬ invited (now w) email tid (view w) j) ∧
        creation_error tid inviter days w e
    end ∧
    ((∀ i j, invited (now w) email tid (view w) i → invited (now w) email tid (view w) j → i = j) →
     ∀ i j, invited (now w) email tid (durable w') i → invited (now w) email tid (durable w') j → i = j)).
Proof.
  intros Hu Hok Hd. eapply post_mono; [by apply create_invitation_post|].
  intros [[i token]|e] w'; [|intros (-> & Hno & He); rewrite Hd; by split_and!].
  intros (-> & [[Hi ->]|(Hno & Hnew & Hn & Hok' & Hv)]).
  - autorewrite with world. rewrite Hd. split; [|done]. split; [done|]. by left.
  - split; [split; [done|]; right; by split_and!|]. intros _.
    rewrite Hv. intros a b (Ha & Ha') (Hb & Hb'). simpl in Ha, Hb.
    assert (∀ x, <[i_id i:=i]> (invitations (view w)) !! i_id x = Some x →
      i_email x = email ∧ i_tenant_id x = tid ∧ active (now w) x → x = i) as Hone.
    { intros x Hx Hx'. apply lookup_insert_Some in Hx as [[_ ?]|[_ Hx]]; [done|].
      by destruct (Hno x). }
    by rewrite (Hone a), (Hone b).
Qed.

(** [revoke_invitation] turns a pending invitation into a revoked one and
    commits; an invitation that is not pending is returned as it is. *)
Theorem revoke_invitation_spec id w :
  usable w = true → db_ok (view w) →
  post (revoke_invitation id) w (λ r w',
    match invitations (view w) !! id with
    | None => r = Ret None ∧ w' = w
    | Some i =>
        if decide (i_status i = PENDING) then
          ∃ o, r = Ret (Some o) ∧ i_status o = REVOKED ∧ stored o (set_status REVOKED i) ∧
               durable w' = with_invitation o (view w) ∧ db_ok (durable w')
        else r = Ret (Some i) ∧ w' = w
    end).
Proof.
  intros Hu Hok. eapply post_mono; [by apply revoke_invitation_post|]. intros r w'.
  destruct (invitations (view w) !! id); [|done]. case_decide; [|done].
  intros (o & ? & Hst & ?). exists o. split_and!; try done; [|tauto..].
  by destruct (stored_fields _ _ Hst) as (_ & _ & _ & -> & _).
Qed.
End invitation_properties.

Lemma pending_has_token : has_token (view w0) "tok-pending" pending_inv.
Proof. split; vm_compute; reflexivity. Qed.

Lemma invitation_lifecycle_witness :
  ∃ o, invitations (durable (run_ops [OpAccept "tok-pending" 2; OpVerify "tok-pending"; OpRevoke 40] w0))
         !! 40%N = Some o ∧ i_token o = "tok-pending".
Proof.
  destruct (invitation_lifecycle [OpAccept "tok-pending" 2; OpVerify "tok-pending"; OpRevoke 40]
    w0 pending_inv) as (_ & o & Ho & _ & Ht & _).
  - exact w0_ok.
  - exact (proj1 pending_has_token).
  - exists o. split; [exact Ho|exact Ht].
Defined.

Lemma verify_token_witness :
  post (verify_token "tok-pending") w0 (λ r w', r = Ret (Some pending_inv) ∧ w' = tick w0).
Proof.
  eapply post_mono; [apply (verify_token_spec "tok-pending" w0 w0_usable w0_ok)|].
  intros r w' [(Hno & _)|(i & Hi & Hr)]; [destruct (Hno _ pending_has_token)|].
  rewrite (has_token_unique _ _ _ _ w0_ok Hi pending_has_token) in Hr.
  rewrite decide_False in Hr by (vm_compute; discriminate).
  destruct Hr as [-> ->]. rewrite decide_True by reflexivity. split; reflexivity.
Defined.

(** The sample's pending invitation is accepted. *)
Lemma accept_invitation_witness :
  post (accept_invitation "tok-pending" 2) w0 (λ r w', ∃ o, r = Ret (Some o) ∧ i_status o = ACCEPTED ∧
    user_tenant_roles (durable w') = user_tenant_roles (view w0)).
Proof.
  eapply post_mono; [apply (accept_invitation_spec "tok-pending" 2 w0 w0_usable w0_ok eq_refl)|].
  intros r w' [Hutr [(Hno & _)|(i & Hi & HP)]]; [destruct (Hno _ pending_has_token)|].
  rewrite (has_token_unique _ _ _ _ w0_ok Hi pending_has_token) in HP.
  rewrite decide_False in HP by (vm_compute; discriminate).
  rewrite decide_True in HP by reflexivity. rewrite decide_True in HP by (eexists; vm_compute; reflexivity).
  destruct HP as (o & -> & Hst & _). exists o. split; [reflexivity|]. split; [|exact Hutr].
  by destruct (stored_fields _ _ Hst) as (_ & _ & _ & -> & _).
Defined.

(** A new invitation for a week, stored. *)
Lemma create_invitation_witness :
  post (create_invitation "new@acme.io" 10 1 None (Some 7%Z)) w0 (λ r w',
    ∃ i token, r = Ret (i, token) ∧ token = i_token i ∧ i_status i = PENDING ∧
      invitations (durable w') !! i_id i = Some i).
Proof.
  pose proof (create_invitation_spec "new@acme.io" 10 1 None (Some 7%Z) w0 w0_usable w0_ok eq_refl) as HP.
  assert (match (create_invitation "new@acme.io" 10 1 None (Some 7%Z) w0).1 with
          | Ret (i, _) => bool_decide (invitations (view w0) !! i_id i = None)
          | Raise _ => false end = true) as Hr by (vm_compute; reflexivity).
  unfold post in *. destruct (create_invitation _ _ _ _ _ w0) as [[[i token]|e] w']; [|discriminate Hr].
  change (bool_decide (invitations (view w0) !! i_id i = None) = true) in Hr.
  apply bool_decide_eq_true in Hr. destruct HP as [(-> & Hc) _]. exists i, (i_token i).
  split; [reflexivity|]. split; [reflexivity|].
  destruct Hc as [[(Hi & _) _]|(_ & (d & _ & Hnew) & _ & ->)]; [congruence|].
  split; [apply Hnew|apply lookup_insert_eq].
Defined.

Lemma revoke_invitation_witness :
  post (revoke_invitation 40) w0 (λ r w', ∃ o, r = Ret (Some o) ∧ i_status o = REVOKED).
Proof.
  eapply post_mono; [apply (revoke_invitation_spec 40 w0 w0_usable w0_ok)|]. intros r w'. cbv beta.
  assert (invitations (view w0) !! 40%N = Some pending_inv) as -> by (vm_compute; reflexivity).
  rewrite decide_True by reflexivity. intros (o & -> & Ho & _). exists o. split; [reflexivity|exact Ho].
Defined.
