(* ===== verification/Overlap.v ===== *)
(** * Requests that overlap

    [services/iam/invitation.py: create_invitation] and
    [services/iam/role.py: create_custom_role] first look whether what they are to
    create exists and then insert it, with other requests' awaits in between.  A
    request is cut at that point, where its session has written nothing, so that
    its next statement reads what is committed then (PostgreSQL's default
    isolation); a schedule says in which order the halves of any number of
    requests run. *)

From stdpp Require Import base tactics list gmap strings.
From Stdlib Require Import ZArith Lia.
From S2P Require Import Prelude PyStd Effects Models Session Snapshot Crud.
From S2P Require Import RoleService InvitationService.

(** ** Schedules of two-step requests *)

Section machine.
Context {S : Type} `{Session S} `{Inputs}.
Context {Q C R : Type} (check : Q → M (World S) C) (act : Q → C → M (World S) R).

Inductive Progress :=
  | Waiting
  | Checked (c : C)
  | Finished (r : outcome R).

Record System := mkSystem {
  progress : gmap nat Progress;
  world : World S
}.

Definition at_ (s : System) (i : nat) : Progress := default Waiting (progress s !! i).

(** The next half of request [i], in a session on what is committed. *)
Definition step (qs : list Q) (s : System) (i : nat) : System :=
  match qs !! i with
  | None => s
  | Some q =>
      match at_ s i with
      | Waiting =>
          let '(r, w) := check q (reopen (world s)) in
          mkSystem (<[i := match r with Ret c => Checked c | Raise e => Finished (Raise e) end]> (progress s)) w
      | Checked c =>
          let '(r, w) := act q c (reopen (world s)) in mkSystem (<[i := Finished r]> (progress s)) w
      | Finished _ => s
      end
  end.

Definition schedule (qs : list Q) (l : list nat) (s : System) : System := foldl (step qs) s l.

(** Nothing has started. *)
Definition initial (w : World S) : System := mkSystem ∅ w.

Lemma schedule_app qs l l' s : schedule qs (l ++ l') s = schedule qs l' (schedule qs l s).
Proof. apply foldl_app. Qed.

Lemma schedule_nil qs s : schedule qs [] s = s.
Proof. done. Qed.
Lemma schedule_one qs i s : schedule qs [i] s = step qs s i.
Proof. done. Qed.

(** The request in one piece. *)
Definition whole (q : Q) : M (World S) R := c ← check q; act q c.
End machine.
Arguments Progress : clear implicits. Arguments System S C R : clear implicits.

Section machine_facts.
Context {S : Type} `{SessionLaws S} `{Inputs}.
Context {Q C R : Type} (check : Q → M (World S) C) (act : Q → C → M (World S) R).
Context (Hcheck : ∀ q w, w_db (check q w).2 = w_db w).

Lemma at_step qs s i j : i ≠ j → at_ (step check act qs s i) j = at_ s j.
Proof.
  intros Hne. unfold step. destruct (qs !! i) as [q|]; [|done]. unfold at_. destruct (default Waiting (progress s !! i)); [| |done].
  - destruct (check q _) as [r w]. simpl. by rewrite lookup_insert_ne.
  - destruct (act q c _) as [r w]. simpl. by rewrite lookup_insert_ne.
Qed.

(** A request that is not interrupted is the whole request. *)
Lemma uninterrupted qs q i s : qs !! i = Some q → at_ s i = Waiting →
  schedule check act qs [i; i] s =
    let '(r, w) := whole check act q (reopen (world s)) in mkSystem (<[i := Finished r]> (progress s)) w.
Proof.
  intros Hq Hi. unfold schedule. simpl. unfold step at 2. rewrite Hq, Hi. unfold whole, mbind, M_bind.
  pose proof (Hcheck q (reopen (world s))) as Hdb.
  destruct (check q (reopen (world s))) as [[c|e] w]; unfold step; rewrite Hq; unfold at_; simpl;
    rewrite lookup_insert_eq; simpl; [|done].
  assert (reopen w = w) as ->.
  { destruct w as [d k u n]. simpl in Hdb. subst d. unfold reopen, on_db. simpl. by rewrite open_durable. }
  destruct (act q c w) as [r w']. by rewrite insert_insert_eq.
Qed.
End machine_facts.

(** ** Invitations *)

(** What [create_invitation] is called with. *)
Record Invite := mkInvite {
  inv_email : string;
  inv_tenant : Uuid;
  inv_inviter : Uuid;
  inv_role : option Uuid;
  inv_days : option Z
}.

Section invitations.
Context {S : Type} `{Session S} `{Inputs}.

(** Up to [existing = result.scalars().first()]. *)
Definition find_active (q : Invite) : M (World S) (option Invitation) :=
  n ← utcnow;
  query (λ t, first (select (S := S) (λ i, i_email i = inv_email q ∧ i_tenant_id i = inv_tenant q ∧ active n i) t)).

(** From [if existing] on. *)
Definition invite (q : Invite) (existing : option Invitation) : M (World S) (Invitation * string) :=
  match existing with
  | Some existing => mret (existing, i_token existing)
  | None =>
      token ← token_urlsafe;
      n' ← utcnow;
      days ← require (inv_days q) (TypeError "unsupported type for timedelta days component: NoneType");
      delta ← require (timedelta_days days) OverflowError;
      expires_at ← require (dt_add n' delta) OverflowError;
      db_obj ← Crud.create (λ i c u,
        mkInvitation i (inv_email q) token PENDING expires_at None (inv_tenant q) (inv_inviter q) None (inv_role q) c u);
      commit ;;
      mret (db_obj, token)
  end.
End invitations.

Section invitation_facts.
Context {S : Type} `{SessionLaws S} `{Inputs}.
Implicit Types w : World S.

Lemma whole_invite q w :
  whole find_active invite q w =
    create_invitation (inv_email q) (inv_tenant q) (inv_inviter q) (inv_role q) (inv_days q) w.
Proof.
  unfold whole, find_active, create_invitation, mbind, M_bind. simpl.
  destruct (query _ (tick w)) as [[[i|]|e] w']; reflexivity.
Qed.

Lemma find_active_keeps q w : w_db (find_active q w).2 = w_db w.
Proof. unfold find_active, mbind, M_bind, query. simpl. by destruct (usable (tick w)). Qed.

Lemma find_active_post q w : usable w = true → db_ok (view w) →
  post (find_active q) w (λ r w', w' = tick w ∧
    match r with
    | Ret (Some i) => invited (now w) (inv_email q) (inv_tenant q) (view w) i
    | Ret None => ∀ i, ¬ invited (now w) (inv_email q) (inv_tenant q) (view w) i
    | Raise _ => False
    end).
Proof.
  intros Hu Hok. unfold find_active. wp_step. wp_step. apply post_query; [solve_usable|]. split; [done|].
  autorewrite with world. destruct (first _) as [i|] eqn:Hf.
  - apply first_select_Some in Hf as [(He & Ht & Ha) [j Hj]]. simpl in Hj.
    pose proof (model_ids (ok_invitations _ Hok) j i Hj) as Hid. simpl in Hid. by subst j.
  - intros j (Hj & ? & ? & ?). rewrite first_select_None in Hf. by destruct (Hf (i_id j) j Hj).
Qed.

(** The insertion, whatever is there by then. *)
Lemma invite_post q w : usable w = true → db_ok (view w) → durable w = view w →
  post (invite q None) w (λ r w', db_ok (durable w') ∧
    match r with
    | Ret (i, token) => token = i_token i ∧ i_email i = inv_email q ∧ i_tenant_id i = inv_tenant q ∧
        i_status i = PENDING ∧ invitations (view w) !! i_id i = None ∧ durable w' = with_invitation i (view w)
    | Raise _ => durable w' = view w
    end).
Proof.
  intros Hu Hok Hd. unfold invite, token_urlsafe. do 5 wp_step.
  apply post_bind, post_require; [intros _; autorewrite with world; by rewrite Hd|].
  intros d _. apply post_bind, post_require; [intros _; autorewrite with world; by rewrite Hd|].
  intros delta _. apply post_bind, post_require; [intros _; autorewrite with world; by rewrite Hd|].
  intros expires _. apply post_bind. unfold Crud.create. do 6 wp_step.
  apply post_bind, post_exec; [solve_usable| |]; autorewrite with world.
  - intros t Ht. pose proof (insert_row_ok _ _ _ Hok (ok_invitations _ Hok) Ht).
    apply insert_row_eq in Ht as (Hn & -> & _). wp. autorewrite with world. by split_and!.
  - intros c _. autorewrite with world. by rewrite Hd.
Qed.
End invitation_facts.

(** ** Any number of invitations, in any order *)

Section overlapping.
Context {S : Type} `{SessionLaws S} `{Inputs}.
Context (qs : list Invite).
Implicit Types (w : World S) (s : System S (option Invitation) (Invitation * string)).

Notation stepI := (step find_active invite qs).
Notation runI := (schedule find_active invite qs).

(** [x] is a stored, pending invitation request [i] asks for. *)
Definition answers_request (t : Tables) (i : nat) (x : Invitation) : Prop :=
  ∃ q, qs !! i = Some q ∧ invitations t !! i_id x = Some x ∧
    i_email x = inv_email q ∧ i_tenant_id x = inv_tenant q ∧ i_status x = PENDING.

Definition answered (t : Tables) (i : nat) (p : Progress (option Invitation) (Invitation * string)) : Prop :=
  match p with
  | Checked (Some x) => answers_request t i x
  | Finished (Ret (x, token)) => token = i_token x ∧ answers_request t i x
  | _ => True
  end.

(** What every schedule keeps, from the committed tables [t0]. *)
Record system_ok (t0 : Tables) s : Prop := {
  sys_db : db_ok (durable (world s));
  sys_grows : invitations t0 ⊆ invitations (durable (world s));
  sys_answered i : answered (durable (world s)) i (at_ s i)
}.

Lemma answers_grow t t' i x :
  invitations t ⊆ invitations t' → answers_request t i x → answers_request t' i x.
Proof.
  intros Hsub (q & Hq & Hx & Hr). exists q. split; [done|]. split; [|done]. by eapply lookup_weaken.
Qed.

Lemma answered_grow t t' i p : invitations t ⊆ invitations t' → answered t i p → answered t' i p.
Proof.
  intros Hsub. destruct p as [|[x|]|[[x token]|e]]; simpl; try done; [by apply answers_grow|].
  intros [-> Hx]. split; [done|]. by eapply answers_grow.
Qed.

Lemma at_insert s i p w j : at_ (mkSystem (<[i := p]> (progress s)) w) j = if decide (i = j) then p else at_ s j.
Proof.
  unfold at_. simpl. destruct (decide (i = j)) as [->|Hne]; [by rewrite lookup_insert_eq|by rewrite lookup_insert_ne].
Qed.

(** One step: what it commits and where its request is then. *)
Lemma step_cases t0 s i : system_ok t0 s →
  durable (world (stepI s i)) = durable (world s) ∧ (∀ j, at_ (stepI s i) j = at_ s j)
  ∨ durable (world (stepI s i)) = durable (world s) ∧ at_ s i = Waiting ∧
    (∃ q, qs !! i = Some q ∧
      (∃ x, at_ (stepI s i) i = Checked (Some x) ∧
         invited (now (world s)) (inv_email q) (inv_tenant q) (durable (world s)) x
       ∨ at_ (stepI s i) i = Checked None ∧
         ∀ x, ¬ invited (now (world s)) (inv_email q) (inv_tenant q) (durable (world s)) x))
  ∨ durable (world (stepI s i)) = durable (world s) ∧
    (∃ x, at_ s i = Checked (Some x) ∧ at_ (stepI s i) i = Finished (Ret (x, i_token x)))
  ∨ at_ s i = Checked None ∧ db_ok (durable (world (stepI s i))) ∧ ∃ q, qs !! i = Some q ∧
    ((∃ e, at_ (stepI s i) i = Finished (Raise e) ∧ durable (world (stepI s i)) = durable (world s))
     ∨ ∃ x, at_ (stepI s i) i = Finished (Ret (x, i_token x)) ∧ i_email x = inv_email q ∧
         i_tenant_id x = inv_tenant q ∧ i_status x = PENDING ∧ invitations (durable (world s)) !! i_id x = None ∧
         durable (world (stepI s i)) = with_invitation x (durable (world s))).
Proof.
  intros Hok. unfold step. destruct (qs !! i) as [q|] eqn:Hq; [|by left].
  destruct (at_ s i) as [|c|r] eqn:Hi; [| |by left].
  - right. left. pose proof (find_active_post q (reopen (world s)) (usable_reopen _)) as HP.
    rewrite view_reopen in HP. specialize (HP (sys_db _ _ Hok)). unfold post in HP.
    destruct (find_active q (reopen (world s))) as [r w]. destruct HP as [-> HP].
    cbn [world]. autorewrite with world. split; [done|]. split; [done|]. exists q. split; [done|].
    rewrite !at_insert, !decide_True by done. change (now (reopen (world s))) with (now (world s)) in HP.
    destruct r as [[x|]|e]; [exists x; by left|eexists; by right|done].
    Unshelve. exact (mkInvitation 0%N "" "" PENDING 0%Z None 0%N 0%N None None 0%Z 0%Z).
  - destruct c as [x|].
    + right. right. left. simpl. unfold mret, M_ret. cbn [world]. autorewrite with world. split; [done|].
      exists x. split; [done|]. by rewrite at_insert, decide_True.
    + right. right. right. split; [done|].
      pose proof (invite_post q (reopen (world s)) (usable_reopen _)) as HP.
      rewrite view_reopen, durable_reopen in HP. specialize (HP (sys_db _ _ Hok) eq_refl). unfold post in HP.
      destruct (invite q None (reopen (world s))) as [r w]. cbn [world]. destruct HP as [Hdb HP]. split; [done|].
      exists q. split; [done|]. rewrite !at_insert, !decide_True by done.
      destruct r as [[x token]|e]; [|left; by exists e]. destruct HP as (-> & HP). right. exists x. by split.
Qed.

Lemma system_ok_initial w : db_ok (durable w) → system_ok (durable w) (initial w).
Proof. intros Hok. split; [done|done|]. intros i. unfold at_, initial. simpl. by rewrite lookup_empty. Qed.

(** The other requests stay where they are, and what they refer to stays stored. *)
Lemma system_ok_by t0 s i :
  system_ok t0 s → db_ok (durable (world (stepI s i))) →
  invitations (durable (world s)) ⊆ invitations (durable (world (stepI s i))) →
  answered (durable (world (stepI s i))) i (at_ (stepI s i) i) → system_ok t0 (stepI s i).
Proof.
  intros [Hdb Hgrow Hans] Hdb' Hsub Hi. split; [done|by etrans|]. intros j.
  destruct (decide (i = j)) as [->|Hne]; [done|]. rewrite at_step by done. by eapply answered_grow.
Qed.

Lemma system_ok_step t0 s i : system_ok t0 s → system_ok t0 (stepI s i).
Proof.
  intros Hok. pose proof (sys_db _ _ Hok) as Hdb. pose proof (sys_answered _ _ Hok i) as Hans.
  destruct (step_cases t0 s i Hok)
    as [[Hd Hat]|[(Hd & _ & q & Hq & x & Hx)|[(Hd & x & Hc & Hx)|(_ & Hdb' & q & Hq & Hx)]]];
    apply (system_ok_by _ _ _ Hok); rewrite ?Hd; try done.
  - by rewrite Hat.
  - destruct Hx as [[-> (Hi & He & Ht & Hp & _)]|[-> _]]; [|done]. by exists q.
  - rewrite Hx. rewrite Hc in Hans. by split.
  - destruct Hx as [(e & _ & ->)|(x & _ & _ & _ & _ & Hn & ->)]; [done|]. by apply insert_subseteq.
  - destruct Hx as [(e & -> & _)|(x & -> & He & Ht & Hp & Hn & ->)]; [done|]. simpl. split; [done|].
    exists q. simpl. by rewrite lookup_insert_eq.
Qed.

Lemma system_ok_schedule t0 l s : system_ok t0 s → system_ok t0 (runI l s).
Proof. revert s. induction l as [|i l IH]; intros s Hok; [done|]. apply IH. by apply system_ok_step. Qed.

(** The position of a request that has found an invitation. *)
Definition spares (p : Progress (option Invitation) (Invitation * string)) : Prop :=
  match p with
  | Checked (Some _) | Finished (Ret _) => True
  | Waiting | Checked None | Finished (Raise _) => False
  end.

(** [q] asks for an invitation of the address and tenant of [x]. *)
Definition same_place (q : Invite) (x : Invitation) : Prop :=
  i_email x = inv_email q ∧ i_tenant_id x = inv_tenant q.

Lemma spares_step t0 s i j : system_ok t0 s → spares (at_ s j) → spares (at_ (stepI s i) j).
Proof.
  intros Hok Hs. destruct (decide (i = j)) as [->|Hne]; [|by rewrite at_step].
  destruct (step_cases t0 s j Hok) as [[_ Hat]|[(_ & Hw & _)|[(_ & y & _ & Hy)|(Hc & _)]]].
  - by rewrite Hat.
  - by rewrite Hw in Hs.
  - by rewrite Hy.
  - by rewrite Hc in Hs.
Qed.

(** It writes nothing whenever it goes on. *)
Lemma spares_writes_nothing t0 s j l : system_ok t0 s → spares (at_ s j) →
  durable (world (stepI (runI l s) j)) = durable (world (runI l s)).
Proof.
  revert s. induction l as [|i l IH]; intros s Hok Hs.
  - destruct (step_cases t0 s j Hok) as [[? _]|[[? _]|[[? _]|(Hc & _)]]]; [done..|].
    by rewrite Hc in Hs.
  - apply IH; [by apply system_ok_step|by eapply spares_step].
Qed.

Lemma at_schedule l s j : j ∉ l → at_ (runI l s) j = at_ s j.
Proof.
  revert s. induction l as [|i l IH]; intros s Hj; [done|]. apply not_elem_of_cons in Hj as [Hne Hj].
  change (runI (i :: l) s) with (runI l (stepI s i)). rewrite IH by done. by apply at_step.
Qed.

(** Where an invitation is stored and active, the check of a request for its
    address and tenant finds one. *)
Lemma look_finds t0 s j q x :
  system_ok t0 s → at_ s j = Waiting → qs !! j = Some q → same_place q x → i_status x = PENDING →
  invitations (durable (world s)) !! i_id x = Some x → (now (world s) < i_expires_at x)%Z →
  ∃ y, at_ (stepI s j) j = Checked (Some y) ∧
    invited (now (world s)) (inv_email q) (inv_tenant q) (durable (world s)) y.
Proof.
  intros Hok Hw Hq [He Ht] Hp Hx Hlt.
  destruct (step_cases t0 s j Hok)
    as [[_ Hat]|[(_ & _ & q' & Hq' & y & Hy)|[(_ & y & Hc & _)|(Hc & _)]]].
  - exfalso. revert Hat. unfold step. rewrite Hq, Hw. intros Hat. specialize (Hat j).
    destruct (find_active q _) as [r w']. rewrite at_insert, decide_True, Hw in Hat by done. by destruct r.
  - simplify_eq. destruct Hy as [Hy|[_ Hno]]; [by exists y|]. destruct (Hno x). by repeat split.
  - by rewrite Hw in Hc.
  - by rewrite Hw in Hc.
Qed.

Lemma stored_schedule t0 l s : system_ok t0 s →
  invitations (durable (world s)) ⊆ invitations (durable (world (runI l s))).
Proof.
  intros Hok. apply (sys_grows (durable (world s))), system_ok_schedule. split; [apply Hok|done|apply Hok].
Qed.

(** Two requests that both found nothing both insert. *)
Lemma insert_step t0 s i x tx :
  system_ok t0 s → at_ s i = Checked None → at_ (stepI s i) i = Finished (Ret (x, tx)) →
  invitations (durable (world s)) !! i_id x = None ∧ invitations (durable (world (stepI s i))) !! i_id x = Some x.
Proof.
  intros Hok Hi Hx.
  destruct (step_cases t0 s i Hok) as [[_ Hat]|[(_ & Hw & _)|[(_ & y & Hc & _)|(_ & _ & q & _ & Hy)]]].
  - by rewrite Hat, Hi in Hx.
  - by rewrite Hi in Hw.
  - by rewrite Hi in Hc.
  - destruct Hy as [(e & He & _)|(y & Hy & _ & _ & _ & Hn & Hd)]; [by rewrite He in Hx|].
    rewrite Hy in Hx. simplify_eq. split; [done|]. rewrite Hd. simpl. by rewrite lookup_insert_eq.
Qed.

Lemma both_insert t0 s i j x y tx ty :
  system_ok t0 s → i ≠ j → at_ s i = Checked None → at_ s j = Checked None →
  at_ (runI [i; j] s) i = Finished (Ret (x, tx)) → at_ (runI [i; j] s) j = Finished (Ret (y, ty)) →
  i_id x ≠ i_id y.
Proof.
  intros Hok Hne Hi Hj. unfold schedule. simpl. rewrite at_step by done. intros Hx Hy Hid.
  pose proof (system_ok_step _ _ i Hok) as Hok'.
  destruct (insert_step _ _ _ _ _ Hok Hi Hx) as [_ Hsome].
  rewrite <-(at_step find_active invite qs s i j) in Hj by done.
  destruct (insert_step _ _ _ _ _ Hok' Hj Hy) as [Hnone _]. by rewrite <-Hid, Hsome in Hnone.
Qed.

Lemma at_initial w i : at_ (initial w : System S (option Invitation) (Invitation * string)) i = Waiting.
Proof. unfold at_, initial. simpl. by rewrite lookup_empty. Qed.

Lemma look_step s i q :
  db_ok (durable (world s)) → qs !! i = Some q → at_ s i = Waiting →
  (∀ x, ¬ invited (now (world s)) (inv_email q) (inv_tenant q) (durable (world s)) x) →
  at_ (stepI s i) i = Checked None ∧ world (stepI s i) = tick (reopen (world s)).
Proof.
  intros Hok Hq Hi Hno. unfold step. rewrite Hq, Hi.
  pose proof (find_active_post q (reopen (world s)) (usable_reopen _)) as HP.
  rewrite view_reopen in HP. specialize (HP Hok). unfold post in HP.
  destruct (find_active q (reopen (world s))) as [r w']. destruct HP as [-> HP].
  rewrite at_insert, decide_True by done. destruct r as [[x|]|e]; [by destruct (Hno x)|done..].
Qed.

(** Two requests that look before either goes on, where nothing is active, find nothing. *)
Lemma both_look w i j qi qj :
  db_ok (durable w) → i ≠ j → qs !! i = Some qi → qs !! j = Some qj →
  (∀ x, ¬ invited (clock (w_clock w)) (inv_email qi) (inv_tenant qi) (durable w) x) →
  (∀ x, ¬ invited (clock (1 + w_clock w)) (inv_email qj) (inv_tenant qj) (durable w) x) →
  at_ (runI [i; j] (initial w)) i = Checked None ∧ at_ (runI [i; j] (initial w)) j = Checked None.
Proof.
  intros Hok Hne Hqi Hqj Hni Hnj. unfold schedule. simpl. rewrite at_step by done.
  destruct (look_step (initial w) i qi Hok Hqi (at_initial w i) Hni) as [-> Hwi]. split; [done|].
  apply (look_step _ j qj); [rewrite Hwi; by autorewrite with world|done|by rewrite at_step, at_initial|].
  rewrite Hwi. by autorewrite with world.
Qed.

(** C35. Requests for invitations whose halves run in any order [l]: the
    database keeps its constraints, no stored invitation disappears or
    changes, and every answer is a stored pending invitation for its request's
    address and tenant.  A request [j] whose check comes after another was
    answered with [x] for its address and tenant, whatever [l'] runs in
    between, finds an invitation unless [x] has expired at that very reading
    of the clock, and then never writes, however the rest [l''] is interleaved.
    Two requests that both look before either goes on both find nothing, and
    then they store two invitations: the check is no guard. *)
Theorem overlapping_invitations w l :
  db_ok (durable w) →
  let s := runI l (initial w) in
  (db_ok (durable (world s)) ∧ invitations (durable w) ⊆ invitations (durable (world s)) ∧
   ∀ i x token, at_ s i = Finished (Ret (x, token)) →
     token = i_token x ∧ answers_request (durable (world s)) i x) ∧
  (∀ i j q x token l', at_ s i = Finished (Ret (x, token)) → at_ s j = Waiting → qs !! j = Some q →
     same_place q x → j ∉ l' → (now (world (runI l' s)) < i_expires_at x)%Z →
     let s1 := stepI (runI l' s) j in
     (∃ y, at_ s1 j = Checked (Some y) ∧
        invited (now (world (runI l' s))) (inv_email q) (inv_tenant q) (durable (world s1)) y) ∧
     ∀ l'', durable (world (stepI (runI l'' s1) j)) = durable (world (runI l'' s1))) ∧
  (∀ i j qi qj, i ≠ j → qs !! i = Some qi → qs !! j = Some qj →
     (∀ x, ¬ invited (clock (w_clock w)) (inv_email qi) (inv_tenant qi) (durable w) x) →
     (∀ x, ¬ invited (clock (1 + w_clock w)) (inv_email qj) (inv_tenant qj) (durable w) x) →
     at_ (runI [i; j] (initial w)) i = Checked None ∧ at_ (runI [i; j] (initial w)) j = Checked None) ∧
  (∀ i j x y tx ty, i ≠ j → at_ s i = Checked None → at_ s j = Checked None →
     at_ (runI [i; j] s) i = Finished (Ret (x, tx)) → at_ (runI [i; j] s) j = Finished (Ret (y, ty)) →
     i_id x ≠ i_id y).
Proof.
  intros Hok s. pose proof (system_ok_schedule _ l _ (system_ok_initial _ Hok)) as Hs.
  change (system_ok (durable w) s) in Hs. split_and!.
  - apply Hs.
  - apply Hs.
  - intros i x token Hi. pose proof (sys_answered _ _ Hs i) as Ha. by rewrite Hi in Ha.
  - intros i j q x token l' Hi Hj Hq Hqx Hl' Hlt s1. pose proof (sys_answered _ _ Hs i) as Ha.
    rewrite Hi in Ha. destruct Ha as [_ (_ & _ & Hx & _ & _ & Hp)].
    pose proof (system_ok_schedule _ l' _ Hs) as Hs'.
    destruct (look_finds _ _ j q x Hs') as (y & Hy & Hinv); try done.
    { by rewrite at_schedule. }
    { eapply lookup_weaken; [exact Hx|]. by eapply stored_schedule. }
    assert (spares (at_ s1 j)) as Hsp by (unfold s1; by rewrite Hy).
    pose proof (system_ok_step _ _ j Hs') as Hs1. split.
    + exists y. split; [done|]. destruct Hinv as (Hyl & Hinv). split; [|done].
      eapply lookup_weaken; [exact Hyl|]. apply (stored_schedule _ [j] _ Hs').
    + intros l''. by eapply spares_writes_nothing.
  - intros i j qi qj. by apply both_look.
  - intros i j x y tx ty. by eapply both_insert.
Qed.
End overlapping.

(** ** Custom roles *)

Section custom_roles.
Context {S : Type} `{Session S} `{Inputs}.

(** Up to the exception for a name in use. *)
Definition role_name_free (q : RoleCreate * Uuid) : M (World S) unit :=
  existing_role ← get_by_name_in_tenant (rc_name q.1) q.2;
  raise_if (truthy existing_role)
    (HTTPException_unbound 409 ("Role with name '" +:+ rc_name q.1 +:+ "' already exists in this tenant")).

(** From [db_role = self.model(...)] on. *)
Definition store_role (q : RoleCreate * Uuid) (_ : unit) : M (World S) Role :=
  db_role ← Crud.create (λ i c u,
    mkRole i (rc_name q.1) (rc_description q.1) (Some q.2) false c u);
  commit ;;
  match rc_permission_ids q.1 with
  | Some (p :: ps) => set_role_permissions (r_id db_role) (p :: ps) ;; commit
  | _ => mret tt
  end ;;
  refresh_role ["permissions"] ;;
  mret db_role.

Lemma whole_role q w : whole role_name_free store_role q w = create_custom_role q.1 q.2 w.
Proof.
  unfold whole, role_name_free, create_custom_role, mbind, M_bind.
  destruct (get_by_name_in_tenant _ _ w) as [[[r|]|e] w']; reflexivity.
Qed.
End custom_roles.

(** The roles of a tenant with a name. *)
Definition roles_named (name : string) (tid : Uuid) (t : Tables) : list Uuid :=
  (map_to_list (filter (λ p, r_name p.2 = name ∧ r_tenant_id p.2 = Some tid) (roles t))).*1.

Definition two_roles : list (RoleCreate * Uuid) :=
  [(mkRoleCreate "auditor" None None, 10%N); (mkRoleCreate "auditor" None None, 10%N)].

(** One after the other, the name is stored once; overlapping, twice. *)
Example role_names :
  length (roles_named "auditor" 10
    (durable (world (schedule role_name_free store_role two_roles [0; 0; 1; 1]%nat (initial w0))))) = 1%nat ∧
  length (roles_named "auditor" 10
    (durable (world (schedule role_name_free store_role two_roles [0; 1; 0; 1]%nat (initial w0))))) = 2%nat.
Proof. vm_compute. split; reflexivity. Qed.

(** ** Two administrators invite one address at once *)

Definition two_invites : list Invite :=
  [mkInvite "new@acme.io" 10 1 None (Some 7%Z); mkInvite "new@acme.io" 10 2 None (Some 7%Z)].

Definition answer_at (s : System Snap (option Invitation) (Invitation * string)) (i : nat) : option Invitation :=
  match at_ s i with Finished (Ret (x, _)) => Some x | _ => None end.

(** One after the other, the second gets the first one's invitation. *)
Example in_turn :
  let s := schedule find_active invite two_invites [0; 0; 1; 1]%nat (initial w0) in
  is_Some (answer_at s 0) ∧ i_id <$> answer_at s 0 = i_id <$> answer_at s 1.
Proof. vm_compute. split; [by eexists|reflexivity]. Qed.

(** The position of request [i] after the schedule [l]. *)
Definition sys (l : list nat) : System Snap (option Invitation) (Invitation * string) :=
  schedule find_active invite two_invites l (initial w0).

Lemma answer_at_inv s i z : answer_at s i = Some z → ∃ t, at_ s i = Finished (Ret (z, t)).
Proof. unfold answer_at. destruct (at_ s i) as [| |[[? ?]|]]; intros [= ->]. by eexists. Qed.

(** After the first request's answer the second finds an invitation and writes
    nothing; interleaved they store two. *)
Lemma overlapping_invitations_witness :
  (∃ y, at_ (sys ([0; 0] ++ [1])%nat) 1 = Checked (Some y) ∧ i_email y = "new@acme.io" ∧
     durable (world (step find_active invite two_invites (sys ([0; 0] ++ [1])%nat) 1)) =
       durable (world (sys ([0; 0] ++ [1])%nat))) ∧
  match answer_at (sys ([0; 1] ++ [0; 1])%nat) 0, answer_at (sys ([0; 1] ++ [0; 1])%nat) 1 with
  | Some x, Some y => i_id x ≠ i_id y ∧ i_email x = i_email y ∧ i_tenant_id x = i_tenant_id y
  | _, _ => False
  end.
Proof.
  split.
  - destruct (overlapping_invitations two_invites w0 [0; 0]%nat w0_durable_ok) as (_ & Hseq & _).
    destruct (answer_at (sys [0; 0]%nat) 0) as [x|] eqn:Hx; [|vm_compute in Hx; discriminate].
    assert (i_expires_at x = i_expires_at x ∧ i_email x = "new@acme.io" ∧ i_tenant_id x = 10%N ∧
      bool_decide (now (world (sys [0; 0]%nat)) < i_expires_at x)%Z = true) as (_ & He & Ht & Hlt)
      by (vm_compute in Hx; injection Hx as <-; vm_compute; repeat split).
    apply answer_at_inv in Hx as [t Hx]. apply bool_decide_eq_true in Hlt.
    destruct (Hseq 0%nat 1%nat (mkInvite "new@acme.io" 10 2 None (Some 7%Z)) x t []) as ((y & Hy & Hinv) & Hd).
    + exact Hx.
    + vm_compute. reflexivity.
    + reflexivity.
    + split; [exact He|exact Ht].
    + apply not_elem_of_nil.
    + exact Hlt.
    + specialize (Hd []). rewrite !schedule_nil in *. exists y. unfold sys.
      rewrite schedule_app, schedule_one. split; [exact Hy|].
      split; [exact (proj1 (proj2 Hinv))|exact Hd].
  - destruct (overlapping_invitations two_invites w0 [0; 1]%nat w0_durable_ok) as (_ & _ & _ & Htwo).
    specialize (Htwo 0%nat 1%nat). unfold sys. rewrite schedule_app.
    match goal with |- match ?a with _ => _ end => destruct a as [x|] eqn:Hx end; [|vm_compute in Hx; discriminate].
    match goal with |- match ?a with _ => _ end => destruct a as [y|] eqn:Hy end; [|vm_compute in Hy; discriminate].
    split; [|vm_compute in Hx, Hy; simplify_eq; split; reflexivity].
    apply answer_at_inv in Hx as [tx Hx], Hy as [ty Hy].
    eapply Htwo; [lia|vm_compute; reflexivity|vm_compute; reflexivity|exact Hx|exact Hy].
Defined.
