(* ===== verification/Sha256.v ===== *)
(** * [hashlib.sha256(s.encode()).hexdigest()]

    UTF-8 encoding and the SHA-256 of the standard library, on 32-bit words
    kept in [N] with their wrap-around written out. *)

From stdpp Require Import base tactics list numbers strings.
From Stdlib Require Import ZArith Lia Ascii String.
From S2P Require Import Prelude PyStd.

#[local] Open Scope N_scope.

(** [str.encode()] of 8-bit code points. *)
Definition utf8 (s : string) : list N :=
  chars s ≫= λ c, let n := N_of_ascii c in
    if n <? 128 then [n] else [192 + n / 64; 128 + n mod 64].

Definition w32 (n : N) : N := n mod 2 ^ 32.
Definition add32 (a b : N) : N := w32 (a + b).
Definition rotr (k x : N) : N := N.lor (N.shiftr x k) (w32 (N.shiftl x (32 - k))).
Definition not32 (x : N) : N := N.lxor x (2 ^ 32 - 1).

Definition Ch x y z := N.lxor (N.land x y) (N.land (not32 x) z).
Definition Maj x y z := N.lxor (N.lxor (N.land x y) (N.land x z)) (N.land y z).
Definition Sigma0 x := N.lxor (N.lxor (rotr 2 x) (rotr 13 x)) (rotr 22 x).
Definition Sigma1 x := N.lxor (N.lxor (rotr 6 x) (rotr 11 x)) (rotr 25 x).
Definition sigma0 x := N.lxor (N.lxor (rotr 7 x) (rotr 18 x)) (N.shiftr x 3).
Definition sigma1 x := N.lxor (N.lxor (rotr 17 x) (rotr 19 x)) (N.shiftr x 10).

(** The constants are digits of irrational roots of the first primes: [K256] the
    first 32 fractional bits of cube roots, [H256] of square roots. *)
Definition is_prime (n : N) : bool :=
  forallb (λ d, negb (n mod d =? 0)) (N.of_nat <$> seq 2 (N.to_nat n - 2)).

Definition primes (bound : nat) : list N := filter is_prime (N.of_nat <$> seq 2 (bound - 2)).

(** The integer cube root of [x], one binary digit after the other below [2 ^ k]. *)
Fixpoint cube_root (k : nat) (acc x : N) : N :=
  match k with
  | O => acc
  | S k' => let c := acc + 2 ^ N.of_nat k' in cube_root k' (if c * c * c <=? x then c else acc) x
  end.

Definition K256 : list N :=
  Eval vm_compute in (λ p, w32 (cube_root 36 0 (N.shiftl p 96))) <$> primes 312.

Definition H256 : list N :=
  Eval vm_compute in (λ p, w32 (N.sqrt (N.shiftl p 64))) <$> primes 20.

(** The padded message: a one bit, zeros, the bit length in 64 bits. *)
Definition pad (msg : list N) : list N :=
  let len := N.of_nat (List.length msg) in
  (msg ++ [128] ++ replicate (N.to_nat ((119 - len mod 64) mod 64)) 0
   ++ ((λ k, (8 * len / 2 ^ k) mod 256) <$> [56; 48; 40; 32; 24; 16; 8; 0]))%list.

Fixpoint words (bs : list N) : list N :=
  match bs with
  | a :: b :: c :: d :: bs' => (a * 2 ^ 24 + b * 2 ^ 16 + c * 2 ^ 8 + d) :: words bs'
  | _ => []
  end.

(** The message schedule, newest word first. *)
Fixpoint schedule (n : nat) (ws : list N) : list N :=
  match n with
  | O => ws
  | S n' =>
      let w := add32 (add32 (sigma1 (nth 1 ws 0)) (nth 6 ws 0))
                     (add32 (sigma0 (nth 14 ws 0)) (nth 15 ws 0)) in
      schedule n' (w :: ws)
  end.

Definition round (st : list N) (kw : N * N) : list N :=
  match st with
  | [a; b; c; d; e; f; g; h] =>
      let t1 := add32 (add32 (add32 h (Sigma1 e)) (Ch e f g)) (add32 kw.1 kw.2) in
      let t2 := add32 (Sigma0 a) (Maj a b c) in
      [add32 t1 t2; a; b; c; add32 d t1; e; f; g]
  | _ => st
  end.

Definition compress (st block : list N) : list N :=
  let ws := rev (schedule 48 (rev block)) in
  zip_with add32 st (foldl round st (zip K256 ws)).

(** [fuel] blocks at most; a message of [n] words has [n / 16]. *)
Fixpoint blocks (fuel : nat) (st ws : list N) : list N :=
  match fuel, ws with
  | O, _ | _, [] => st
  | S fuel', _ => blocks fuel' (compress st (take 16 ws)) (drop 16 ws)
  end.

Definition sha256 (msg : list N) : list N :=
  let ws := words (pad msg) in blocks (List.length ws) H256 ws.

Definition hexdigest (st : list N) : string := of_chars (st ≫= hex_of 8).

Definition sha256_hex (s : string) : string := hexdigest (sha256 (utf8 s)).

(** The published test vectors. *)
Example sha256_abc :
  sha256_hex "abc" = "ba7816bf8f01cfea414140de5dae2223b00361a396177a9cb410ff61f20015ad"%string.
Proof. vm_compute. reflexivity. Qed.
Example sha256_empty :
  sha256_hex "" = "e3b0c44298fc1c149afbf4c8996fb92427ae41e4649b934ca495991b7852b855"%string.
Proof. vm_compute. reflexivity. Qed.
Example sha256_two_blocks :
  sha256_hex "abcdbcdecdefdefgefghfghighijhijkijkljklmklmnlmnomnopnopq"
  = "248d6a61d20638b8e5c026930c3e6039a33ce45964ff2167f6ecedd419db06c1"%string.
Proof. vm_compute. reflexivity. Qed.

(** ** The length of a digest *)

Lemma compress_length st block : List.length st = 8%nat → List.length (compress st block) = 8%nat.
Proof.
  intros Hl. unfold compress. rewrite length_zip_with.
  assert (∀ kws s, List.length s = 8%nat → List.length (foldl round s kws) = 8%nat) as Hf.
  { intros kws. induction kws as [|kw kws IH]; intros s Hs; [done|]. simpl. apply IH.
    do 9 (destruct s as [|? s]; try done). }
  rewrite Hf by done. lia.
Qed.

Lemma blocks_length fuel st ws : List.length st = 8%nat → List.length (blocks fuel st ws) = 8%nat.
Proof.
  revert st ws. induction fuel as [|fuel IH]; intros st [|w ws] Hl; try done.
  apply IH. by apply compress_length.
Qed.

Lemma sha256_hex_length s : str_len (sha256_hex s) = 64%nat.
Proof.
  unfold str_len, sha256_hex, hexdigest. rewrite list_ascii_of_string_of_list_ascii.
  pose proof (blocks_length (List.length (words (pad (utf8 s)))) H256 (words (pad (utf8 s))) eq_refl) as Hl.
  unfold sha256. cbv zeta. destruct (blocks _ _ _) as [|a [|b [|c [|d [|e [|f [|g [|h [|]]]]]]]]]; try done.
Qed.
