(* ===== verification/ApiKeyService.v ===== *)
(** * [services/iam/api_key.py: APIKeyService]

    API keys: generation, hashed storage under a prefix, listing, validation. *)

From stdpp Require Import base tactics list gmap strings.
From Stdlib Require Import ZArith Lia.
From S2P Require Import Prelude PyStd Sha256 Effects Models Session Snapshot Crud.

(** ** Input schemas ([schemas/iam/api_key.py]) *)

Record APIKeyCreate := mkAPIKeyCreate {
  ak_name : string;
  ak_description : option string;
  ak_is_active : bool;
  ak_expires_at : option PyDateTime;
  ak_scope : APIKeyScope;
  ak_tenant_id : option Uuid
}.

Record APIKeyUpdate := mkAPIKeyUpdate {
  au_name : option (option string);
  au_description : option (option string);
  au_is_active : option (option bool);
  au_expires_at : option (option PyDateTime)
}.

(** ** Operations *)

Section api_key_service.
Context {S : Type} `{Session S} `{Inputs}.

Definition _generate_api_key : M (World S) string :=
  bs ← token_bytes;
  mret ("vsak_" +:+ of_chars (b64_encode bs)).

Definition _hash_api_key (key_value : string) : string := sha256_hex key_value.

(** [expires_at.astimezone(timezone.utc)]; [OverflowError] out of range. *)
Definition expires_in_utc (d : PyDateTime) : option PyDateTime :=
  let u := astimezone_utc local_offset d in
  if (dt_min <=? dt_instant u)%Z && (dt_instant u <=? dt_max)%Z then Some u else None.

(** The row holds the instants; a key read back has them as the session
    delivers them ([loaded]). *)
Definition create_with_user (obj_in : APIKeyCreate) (user_id : Uuid) (tenant_id : option Uuid)
    : M (World S) (APIKey * string) :=
  raw_key ← _generate_api_key;
  let key_prefix := str_prefix 8 raw_key in
  let key_hash := _hash_api_key raw_key in
  key_tenant ←
    match ak_scope obj_in with
    | TENANT =>
        Some <$> require (match tenant_id with Some i => Some i | None => ak_tenant_id obj_in end)
                   (ValueError "tenant_id is required for tenant-scoped API keys")
    | GLOBAL => mret None
    end;
  expires_at ←
    match ak_expires_at obj_in with
    | Some d => Some <$> require (expires_in_utc d) OverflowError
    | None => mret None
    end;
  try_catch
    (db_obj ← create (λ i c u,
       mkAPIKey i (ak_name obj_in) key_prefix key_hash (ak_description obj_in)
         (ak_is_active obj_in) expires_at None user_id key_tenant (Aware c 0) (Aware u 0)
         (ak_scope obj_in));
     commit ;;
     mret (db_obj, raw_key))
    (λ e,
      rollback ;;
      if is_integrity e then
        raise (HTTPException 500 ("Failed to create API key: " +:+ exn_str e))
      else raise (HTTPException 500 ("An unexpected error occurred: " +:+ exn_str e))).

Definition get_by_prefix (prefix : string) : M (World S) (option APIKey) :=
  query (λ t, first (select (S := S) (λ k, k_key_prefix k = prefix) t)).

(** The refresh of each key keeps it whether or not it succeeds. *)
Definition get_multi_by_user (user_id : Uuid) (skip limit : nat) : M (World S) (list APIKey) :=
  query_page skip limit (λ t, select (S := S) (λ k, k_user_id k = user_id) t).

Definition get_multi_by_tenant (tenant_id : Uuid) (skip limit : nat) : M (World S) (list APIKey) :=
  query_page skip limit (λ t, select (S := S) (λ k, k_tenant_id k = Some tenant_id) t).

Definition get_multi (skip limit : nat) : M (World S) (list APIKey) :=
  query_page skip limit (λ t, rows (S := S) APIKey t).

Definition set_last_used (d : PyDateTime) (k : APIKey) : APIKey :=
  mkAPIKey (k_id k) (k_name k) (k_key_prefix k) (k_key_hash k) (k_description k) (k_is_active k)
    (k_expires_at k) (Some d) (k_user_id k) (k_tenant_id k) (k_created_at k) (k_updated_at k)
    (k_scope k).

Definition update_last_used (db_obj : APIKey) : M (World S) APIKey :=
  n ← now_aware;
  k ← flush_row db_obj (set_last_used n db_obj);
  commit ;;
  mret k.

(** A stored instant as [DateTime(timezone=True)] delivers it. *)
Definition loaded (d : PyDateTime) : PyDateTime :=
  if sess_tz_aware (S := S) then Aware (dt_instant d) 0 else Naive (dt_instant d).

(** Refreshing the [user] relationship flushes the new [last_used_at]. *)
Definition validate_api_key (api_key : string) : M (World S) (option (APIKey * User)) :=
  if negb (str_truthy api_key) || (str_len api_key <? 8)%nat then mret None
  else
    let key_prefix := str_prefix 8 api_key in
    let key_hash := _hash_api_key api_key in
    db_obj ← query (λ t, first (select (S := S)
               (λ k, k_key_prefix k = key_prefix ∧ k_key_hash k = key_hash ∧ k_is_active k = true) t));
    match db_obj with
    | None => mret None
    | Some db_obj =>
        now_naive_utc ← utcnow;
        expired ←
          match k_expires_at db_obj with
          | Some e => require (dt_lt (loaded e) (Naive now_naive_utc))
                        (TypeError "can't compare offset-naive and offset-aware datetimes")
          | None => mret false
          end;
        if (expired : bool) then mret None
        else
          n ← now_aware;
          k ← flush_row db_obj (set_last_used n db_obj);
          user ← query (λ t, users t !! k_user_id k);
          match user with
          | None => mret None
          | Some user => mret (Some (k, user))
          end
    end.

(** [CRUDBase.update] on a key; the driver stores a naive [expires_at] as
    local time. *)
Definition api_key_patch (obj_in : APIKeyUpdate) (r : APIKey) : APIKey + Constraint :=
  match au_name obj_in, au_is_active obj_in with
  | Some None, _ => inr (NotNull "name")
  | _, Some None => inr (NotNull "is_active")
  | n, a =>
      inl (mkAPIKey (k_id r) (match n with Some (Some v) => v | _ => k_name r end)
             (k_key_prefix r) (k_key_hash r)
             (patched (au_description obj_in) (k_description r))
             (match a with Some (Some v) => v | _ => k_is_active r end)
             (patched (fmap (M := option) (astimezone_utc local_offset) <$> au_expires_at obj_in)
                (k_expires_at r))
             (k_last_used_at r) (k_user_id r) (k_tenant_id r) (k_created_at r) (k_updated_at r)
             (k_scope r))
  end.

Definition update (db_obj : APIKey) (obj_in : APIKeyUpdate) : M (World S) APIKey :=
  Crud.update db_obj (api_key_patch obj_in).
End api_key_service.

(** ** Behaviour *)

Section api_key_facts.
Context {S : Type} `{SessionLaws S} `{Inputs}.
Implicit Types w : World S.

Definition with_key (k : APIKey) (t : Tables) : Tables :=
  set_api_keys (<[k_id k := k]> (api_keys t)) t.

(** Touching [last_used_at] violates nothing. *)
Lemma flush_key_post (k k' : APIKey) w :
  usable w = true → db_ok (view w) → api_keys (view w) !! k_id k = Some k →
  k_id k' = k_id k → k_key_prefix k' = k_key_prefix k → k_user_id k' = k_user_id k →
  k_tenant_id k' = k_tenant_id k →
  post (flush_row k k') w (λ r w', durable w' = durable w ∧ usable w' = true ∧ db_ok (view w') ∧
    ∃ o, r = Ret o ∧ (o = k' ∨ ∃ n, o = touch n k') ∧ view w' = with_key o (view w)).
Proof.
  intros Hu Hok Hl Hid Hpre Hus Hten. pose proof (ok_api_keys _ Hok) as Hm.
  apply post_flush_row; [done| | |].
  - intros ->. split_and!; try done. exists k. split; [done|]. split; [by left|].
    unfold with_key. rewrite insert_id by done. by destruct (view w).
  - intros n t w' _ _ Ht ->. autorewrite with world.
    pose proof (put_row_ok _ _ _ Hok Hm Ht). apply put_row_eq in Ht as [-> _].
    split_and!; try done. exists (touch n k'). split_and!; [done|by right; exists n|done].
  - intros n c w' _ _ Hc _. exfalso.
    assert (row_violation (touch n k') (view w) = None) as Hrv.
    { rewrite (row_violation_same k); [|done|done|done|by simpl; rewrite Hpre].
      apply fk_missing_iff. simpl. rewrite Hus, Hten. intros c' ref Hin.
      eapply (model_fk Hm (k_id k) k c'); [exact Hl|done]. }
    unfold put_row in Hc. by rewrite Hrv in Hc.
Qed.

(** The row a raw key authenticates as. *)
Definition authenticates (t : Tables) (raw : string) (k : APIKey) : Prop :=
  api_keys t !! k_id k = Some k ∧ k_key_prefix k = str_prefix 8 raw ∧
  k_key_hash k = sha256_hex raw ∧ k_is_active k = true.

Lemma authenticates_unique t raw j k :
  db_ok t → authenticates t raw j → authenticates t raw k → j = k.
Proof.
  intros Hok (Hj & Hpj & _) (Hk & Hpk & _).
  assert (k_id j = k_id k) as Hid.
  { eapply (model_unique (ok_api_keys _ Hok) _ _ j k (UqApiKeyPrefix, str_prefix 8 raw)); eauto;
      simpl; rewrite ?Hpj, ?Hpk; set_solver. }
  congruence.
Qed.

(** Whether the expiry test can be evaluated, and its result. *)
Definition expiry_test (k : APIKey) (n : Z) : option bool :=
  match k_expires_at k with
  | Some e => dt_lt (loaded (S := S) e) (Naive n)
  | None => Some false
  end.

Lemma validate_api_key_post raw w :
  usable w = true → db_ok (view w) →
  post (validate_api_key raw) w (λ r w', durable w' = durable w ∧ db_ok (view w') ∧ usable w' = true ∧
    (((str_len raw < 8)%nat ∨ ∀ k, ¬ authenticates (view w) raw k) ∧ r = Ret None ∧ w' = w
     ∨ (8 ≤ str_len raw)%nat ∧ ∃ k, authenticates (view w) raw k ∧
         match expiry_test k (now w) with
         | None => (∃ m, r = Raise (TypeError m)) ∧ w' = tick w
         | Some true => r = Ret None ∧ w' = tick w
         | Some false => ∃ k' u, r = Ret (Some (k', u)) ∧
             users (view w) !! k_user_id k = Some u ∧ view w' = with_key k' (view w) ∧
             (k' = set_last_used (Aware (clock (1 + w_clock w)) 0) k ∨
              ∃ n, k' = touch n (set_last_used (Aware (clock (1 + w_clock w)) 0) k))
         end)).
Proof.
  intros Hu Hok. unfold validate_api_key. destruct (negb _ || _) eqn:Hlen.
  { apply post_ret. split_and!; [done..|]. left. split; [|done]. left.
    apply orb_true_iff in Hlen as [Hlen|Hlen]; [|by apply Nat.ltb_lt].
    unfold str_truthy in Hlen. rewrite negb_involutive in Hlen. apply String.eqb_eq in Hlen as ->.
    unfold str_len. simpl. lia. }
  apply orb_false_iff in Hlen as [_ Hlen]. apply Nat.ltb_ge in Hlen.
  apply post_bind, post_query; [done|]. destruct (first _) as [k|] eqn:Hf.
  2:{ apply post_ret. split_and!; [done..|]. left. split; [|done]. right.
      intros k (Hk & ?). rewrite first_select_None in Hf. by destruct (Hf (k_id k) k Hk). }
  apply first_select_Some in Hf as [Ha [j Hj]]. simpl in Hj.
  pose proof (model_ids (ok_api_keys _ Hok) j k Hj) as Hid. simpl in Hid. subst j.
  assert (authenticates (view w) raw k) as Hauth by (by split).
  do 2 wp_step.
  assert (post (match k_expires_at k with
          | Some e => require (dt_lt (loaded (S := S) e) (Naive (now w)))
                        (TypeError "can't compare offset-naive and offset-aware datetimes")
          | None => mret false
          end) (tick w) (λ r w', w' = tick w ∧ match expiry_test k (now w) with
            | Some b => r = Ret b | None => ∃ m, r = Raise (TypeError m) end)) as Hexp.
  { unfold expiry_test. destruct (k_expires_at k); [|by apply post_ret].
    apply post_require; [intros ->; eauto|by intros ? ->]. }
  apply post_bind. eapply post_mono; [exact Hexp|]. intros r w1 [-> Hr].
  destruct (expiry_test k (now w)) as [[]|] eqn:Hx; [subst r| subst r|destruct Hr as [m ->]].
  - apply post_ret. autorewrite with world. split_and!; [done..|]. right. split; [done|].
    exists k. by rewrite Hx.
  - do 2 wp_step. change (now (tick w)) with (clock (1 + w_clock w)).
    apply post_bind. eapply post_mono; [apply flush_key_post; done|].
    intros r w2 (Hd & Hu2 & Hok2 & o & -> & Ho & Hv). autorewrite with world in *.
    apply post_bind, post_query; [done|].
    assert (ref_ok (view w) (RefUser (k_user_id k))) as [u Husr].
    { eapply (model_fk (ok_api_keys _ Hok) (k_id k) k FkApiKeyUser); [exact Hj|]. simpl. set_solver. }
    assert (users (view w2) !! k_user_id o = Some u) as ->.
    { rewrite Hv. simpl. by destruct Ho as [->|[n ->]]. }
    apply post_ret. split_and!; [done..|]. right. split; [done|].
    exists k. split; [done|]. rewrite Hx. exists o, u. by split_and!.
  - autorewrite with world. split_and!; [done..|]. right. split; [done|]. exists k. rewrite Hx.
    split_and!; eauto.
Qed.
End api_key_facts.

Section key_creation.
Context {S : Type} `{SessionLaws S} `{InputsLaws}.
Implicit Types w : World S.

Definition raw_key_of (bs : list N) : string := "vsak_" +:+ of_chars (b64_encode bs).

(** The tenant a new key is bound to. *)
Definition key_tenant (obj_in : APIKeyCreate) (tenant_id : option Uuid) : option Uuid :=
  match ak_scope obj_in with
  | TENANT => match tenant_id with Some i => Some i | None => ak_tenant_id obj_in end
  | GLOBAL => None
  end.

Lemma create_with_user_post obj_in uid tid w :
  usable w = true → db_ok (view w) →
  post (create_with_user obj_in uid tid) w (λ r w',
    match r with
    | Ret (k, raw) =>
        raw = raw_key_of (token_bytes_at (w_rand w)) ∧ k_key_prefix k = str_prefix 8 raw ∧
        k_key_hash k = sha256_hex raw ∧ k_is_active k = ak_is_active obj_in ∧
        k_user_id k = uid ∧ k_tenant_id k = key_tenant obj_in tid ∧
        (ak_scope obj_in = TENANT → is_Some (k_tenant_id k)) ∧ k_scope k = ak_scope obj_in ∧
        k_expires_at k = astimezone_utc local_offset <$> ak_expires_at obj_in ∧
        api_keys (view w) !! k_id k = None ∧ durable w' = with_key k (view w) ∧
        db_ok (durable w') ∧ usable w' = true
    | Raise e => durable w' = durable w ∧
        (e = ValueError "tenant_id is required for tenant-scoped API keys" ∧
           ak_scope obj_in = TENANT ∧ key_tenant obj_in tid = None
         ∨ e = OverflowError
         ∨ (∃ c, e = HTTPException 500 ("Failed to create API key: " +:+ integrity_text c)))
    end).
Proof.
  intros Hu Hok. unfold create_with_user, _generate_api_key. do 4 wp_step.
  change ("vsak_" +:+ _) with (raw_key_of (token_bytes_at (w_rand w))). set (raw := raw_key_of _).
  assert (post (match ak_scope obj_in with
    | TENANT => Some <$> require (match tid with Some i => Some i | None => ak_tenant_id obj_in end)
                   (ValueError "tenant_id is required for tenant-scoped API keys")
    | GLOBAL => mret None end) (next_rand w) (λ r w', w' = next_rand w ∧
      match r with
      | Ret o => o = key_tenant obj_in tid ∧ (ak_scope obj_in = TENANT → is_Some o)
      | Raise e => e = ValueError "tenant_id is required for tenant-scoped API keys" ∧
           ak_scope obj_in = TENANT ∧ key_tenant obj_in tid = None
      end)) as Hten.
  { unfold key_tenant, require, post. destruct (ak_scope obj_in); [by split_and!|].
    destruct tid as [x|]; [|destruct (ak_tenant_id obj_in) as [x|]];
      unfold fmap, M_fmap; simpl; split_and!; eauto. }
  apply post_bind. eapply post_mono; [exact Hten|]. clear Hten. intros [o|e] w1 [-> Ho];
    [|autorewrite with world; eauto].
  destruct Ho as [-> Hsome].
  assert (post (match ak_expires_at obj_in with
    | Some d => Some <$> require (expires_in_utc d) OverflowError
    | None => mret None end) (next_rand w) (λ r w', w' = next_rand w ∧
      match r with
      | Ret o => o = astimezone_utc local_offset <$> ak_expires_at obj_in
      | Raise e => e = OverflowError
      end)) as Hexp.
  { unfold post, require, expires_in_utc. destruct (ak_expires_at obj_in) as [d|]; [|done].
    cbv zeta. case_if; unfold fmap, M_fmap; done. }
  apply post_bind. eapply post_mono; [exact Hexp|]. clear Hexp. intros [o|e] w1 [-> Ho];
    [|autorewrite with world; eauto].
  subst o. apply post_try, post_bind. unfold create. do 6 wp_step.
  apply post_bind, post_exec; [solve_usable| |]; autorewrite with world.
  - intros t Ht. pose proof (insert_row_ok _ _ _ Hok (ok_api_keys _ Hok) Ht).
    apply insert_row_eq in Ht as (Hn & -> & _). wp. autorewrite with world.
    split_and!; try done. 
  - intros c _. simpl; wp. autorewrite with world. eauto 10.
Qed.

Lemma raw_key_chars bs :
  length bs = 32%nat → Forall (λ b, (b < 256)%N) bs →
  ∃ a b c l, chars (raw_key_of bs) = (chars "vsak_" ++ a :: b :: c :: l)%list ∧
    a ∈ b64_alphabet ∧ b ∈ b64_alphabet ∧ c ∈ b64_alphabet.
Proof.
  intros Hl Hr. pose proof (b64_encode_alphabet bs Hr) as Ha.
  destruct bs as [|x [|y [|z bs]]]; try done.
  exists (b64_char (N.shiftr x 2)), (b64_char (N.lor (N.shiftl (N.land x 3) 4) (N.shiftr y 4))),
    (b64_char (N.lor (N.shiftl (N.land y 15) 2) (N.shiftr z 6))),
    (b64_char (N.land z 63) :: b64_encode bs).
  cbn [b64_encode] in Ha. do 3 (apply Forall_cons in Ha as [? Ha]). split_and!; try done.
  unfold raw_key_of. simpl. rewrite String.list_ascii_of_string_of_list_ascii. done.
Qed.

Lemma raw_key_length bs : length bs = 32%nat → Forall (λ b, (b < 256)%N) bs →
  (8 ≤ str_len (raw_key_of bs))%nat.
Proof.
  intros Hl Hr. destruct (raw_key_chars bs Hl Hr) as (a & b & c & l & He & _).
  unfold str_len. rewrite He. simpl. lia.
Qed.

(** Every prefix a generated key can have. *)
Definition possible_prefixes : list string :=
  a ← b64_alphabet; b ← b64_alphabet; c ← b64_alphabet;
  [of_chars (chars "vsak_" ++ [a; b; c])%list].

Lemma possible_prefixes_complete bs : length bs = 32%nat → Forall (λ b, (b < 256)%N) bs →
  str_prefix 8 (raw_key_of bs) ∈ possible_prefixes.
Proof.
  intros Hl Hr. destruct (raw_key_chars bs Hl Hr) as (a & b & c & l & He & Ha & Hb & Hc).
  unfold possible_prefixes, str_prefix. rewrite He.
  apply list_elem_of_bind. exists a. split; [|done]. apply list_elem_of_bind. exists b. split; [|done].
  apply list_elem_of_bind. exists c. split; [|done]. simpl. apply list_elem_of_singleton. done.
Qed.

Lemma bind_length_const {A B} (f : A → list B) n l :
  (∀ x, length (f x) = n) → length (l ≫= f) = (length l * n)%nat.
Proof.
  intros Hf. induction l as [|x l IH]; [done|]. change ((x :: l) ≫= f) with (f x ++ (l ≫= f))%list.
  rewrite length_app, Hf, IH. simpl. lia.
Qed.

Lemma possible_prefixes_length : N.of_nat (length possible_prefixes) = 262144%N.
Proof.
  assert (length b64_alphabet = 64%nat) as Hb by (unfold b64_alphabet; by rewrite length_fmap).
  unfold possible_prefixes.
  rewrite (bind_length_const _ (64 * 64)).
  - rewrite Hb, !Nnat.Nat2N.inj_mul. reflexivity.
  - intros a. rewrite (bind_length_const _ 64); [by rewrite Hb|].
    intros b. rewrite (bind_length_const _ 1); [by rewrite Hb|done].
Qed.
End key_creation.

#[global] Opaque possible_prefixes.

(** ** Properties *)

Section api_key_properties.
Context {S : Type} `{SessionLaws S} `{InputsLaws}.
Implicit Types w : World S.

(** C12. A key that was created authenticates as its own row and its own owner
    in every later request [w1] that finds the row, while it is active and not
    past its expiry, and is refused otherwise; where the database delivers
    aware timestamps a key with an expiry raises instead.  Nothing is
    committed by the validation, nor by a creation that fails. *)
Theorem api_key_roundtrip obj_in uid tid w :
  usable w = true → db_ok (view w) →
  post (create_with_user obj_in uid tid) w (λ r w',
    match r with
    | Ret (k, raw) =>
        durable w' = with_key k (view w) ∧ k_user_id k = uid ∧ k_tenant_id k = key_tenant obj_in tid ∧
        ∀ w1, db_ok (durable w1) → api_keys (durable w1) !! k_id k = Some k →
        post (validate_api_key raw) (reopen w1) (λ r' w2, durable w2 = durable w1 ∧
          let granted := ∃ k' u, r' = Ret (Some (k', u)) ∧ k_id k' = k_id k ∧
                           u_id u = uid ∧ users (durable w1) !! uid = Some u in
          if ak_is_active obj_in then
            match ak_expires_at obj_in with
            | None => granted
            | Some e =>
                if sess_tz_aware (S := S) then ∃ m, r' = Raise (TypeError m)
                else if (dt_instant (astimezone_utc local_offset e) <? now w1)%Z then r' = Ret None
                else granted
            end
          else r' = Ret None)
    | Raise _ => durable w' = durable w
    end).
Proof.
  intros Hu Hok. eapply post_mono; [by apply create_with_user_post|].
  intros [[k raw]|e] w'; [|tauto].
  intros (Hraw & Hpre & Hhash & Ha & Hus & Hten & _ & _ & He & _ & Hd & _ & _).
  split_and!; [done..|]. intros w1 Hok1 Hk1.
  eapply post_mono; [apply validate_api_key_post; by autorewrite with world|].
  intros r' w2 (Hd' & _ & _ & Hcase). autorewrite with world in *. split; [done|].
  assert (∀ k2, authenticates (durable w1) raw k2 → k2 = k) as Huniq.
  { intros k2 (Hk2 & Hp2 & _). assert (k_id k2 = k_id k) as Hid; [|congruence].
    eapply (model_unique (ok_api_keys _ Hok1) _ _ k2 k (UqApiKeyPrefix, str_prefix 8 raw)); eauto;
      simpl; rewrite ?Hp2, ?Hpre; set_solver. }
  destruct Hcase as [(Hno & -> & _)|(_ & k2 & Hk2 & Hr)].
  - destruct (ak_is_active obj_in) eqn:Hact; [|done]. exfalso. destruct Hno as [Hlen|Hno].
    + pose proof (raw_key_length _ (token_length (w_rand w)) (token_range (w_rand w))). subst raw. lia.
    + apply (Hno k). split_and!; try done.
  - pose proof (Huniq _ Hk2) as ->. rewrite <-Ha, (proj2 (proj2 (proj2 Hk2))). change (now (reopen w1)) with (now w1) in Hr.
    unfold expiry_test in Hr. rewrite He in Hr. unfold loaded in Hr.
    assert (∀ k' u, (k' = set_last_used (Aware (clock (1 + w_clock (reopen w1))) 0) k ∨
        ∃ n, k' = touch n (set_last_used (Aware (clock (1 + w_clock (reopen w1))) 0) k)) →
      users (durable w1) !! k_user_id k = Some u → k_id k' = k_id k ∧ u_id u = uid ∧
      users (durable w1) !! uid = Some u) as Hgrant.
    { intros k' u Hk' Hu'. rewrite Hus in Hu'. pose proof (model_ids (ok_users _ Hok1) uid u Hu') as Hid.
      split; [|done]. by destruct Hk' as [->|[? ->]]. }
    destruct (ak_expires_at obj_in) as [e|]; simpl in Hr.
    + destruct sess_tz_aware; simpl in Hr; [by destruct Hr as [[m ->] _]; exists m|].
      destruct (_ <? _)%Z; [by destruct Hr as [-> _]|].
      destruct Hr as (k' & u & -> & Hu' & _ & Hk'). exists k', u. split; [done|]. by apply Hgrant.
    + destruct Hr as (k' & u & -> & Hu' & _ & Hk'). exists k', u. split; [done|]. by apply Hgrant.
Qed.

(** C19. Validation grants a key only if the raw key's prefix and SHA-256 are
    those of an active row that is not past its expiry, and then as the row's
    user; it never commits.  If the database delivers aware timestamps, a key
    with any expiry makes the comparison raise instead. *)
Theorem validate_api_key_spec raw w :
  usable w = true → db_ok (view w) →
  post (validate_api_key raw) w (λ r w', durable w' = durable w ∧
    match r with
    | Ret (Some (k', u)) => (8 ≤ str_len raw)%nat ∧ ∃ k, authenticates (view w) raw k ∧
        users (view w) !! k_user_id k = Some u ∧ k_id k' = k_id k ∧
        (∀ e, k_expires_at k = Some e → (now w ≤ dt_instant e)%Z ∧ sess_tz_aware (S := S) = false)
    | Ret None => (str_len raw < 8)%nat ∨ (∀ k, ¬ authenticates (view w) raw k) ∨
        ∃ k e, authenticates (view w) raw k ∧ k_expires_at k = Some e ∧ (dt_instant e < now w)%Z
    | Raise x => (∃ m, x = TypeError m) ∧ sess_tz_aware (S := S) = true ∧
        ∃ k e, authenticates (view w) raw k ∧ k_expires_at k = Some e
    end).
Proof.
  intros Hu Hok. eapply post_mono; [by apply validate_api_key_post|].
  intros r w' (Hd & _ & _ & [(Hno & -> & ->)|(Hlen & k & Hk & Hr)]); (split; [done|]).
  { destruct Hno; auto. }
  assert (expiry_test (S := S) k (now w) = match k_expires_at k with
    | Some e => if sess_tz_aware (S := S) then None else Some (dt_instant e <? now w)%Z
    | None => Some false end) as Hx.
  { unfold expiry_test, loaded. destruct (k_expires_at k); [|done]. by destruct sess_tz_aware. }
  rewrite Hx in Hr. destruct (k_expires_at k) as [e|] eqn:He.
  - destruct sess_tz_aware eqn:Htz.
    + destruct Hr as [[m ->] _]. split_and!; [by exists m|done|by exists k, e].
    + destruct (dt_instant e <? now w)%Z eqn:Hlt; reflect_bools.
      * destruct Hr as [-> _]. right; right. by exists k, e.
      * destruct Hr as (k' & u & -> & Hu' & _ & Hk'). split; [done|]. exists k. split_and!; try done.
        -- by destruct Hk' as [->|[? ->]].
        -- intros e' He'. rewrite He in He'. injection He' as <-. done.
  - destruct Hr as (k' & u & -> & Hu' & _ & Hk'). split; [done|]. exists k. split_and!; try done.
    + by destruct Hk' as [->|[? ->]].
    + intros e' He'. congruence.
Qed.

(** A table of generated keys never holds more than 64^3 = 262144 rows: the
    unique prefix has three random characters, so from then on every creation
    fails whatever the random source gives. *)
Theorem api_key_capacity obj_in uid tid w :
  usable w = true → db_ok (view w) →
  (∀ i k, api_keys (view w) !! i = Some k → k_key_prefix k ∈ possible_prefixes) →
  (N.of_nat (size (api_keys (view w))) ≤ 262144)%N ∧
  (N.of_nat (size (api_keys (view w))) = 262144%N →
   post (create_with_user obj_in uid tid) w (λ r w', durable w' = durable w ∧ ∃ e, r = Raise e)).
Proof.
  intros Hu Hok Hpre.
  set (ps := k_key_prefix <$> (snd <$> map_to_list (api_keys (view w)))).
  assert (NoDup ps) as Hnd.
  { unfold ps. rewrite <- list_fmap_compose. apply NoDup_fmap_2_strong; [|apply NoDup_map_to_list].
    intros [i x] [j y] Hi%elem_of_map_to_list Hj%elem_of_map_to_list Hxy. simpl in Hxy.
    assert (i = j) as ->; [|congruence].
    eapply (model_unique (ok_api_keys _ Hok) i j x y (UqApiKeyPrefix, k_key_prefix x)); eauto; simpl;
      [set_solver|]. rewrite Hxy. set_solver. }
  assert (length ps = size (api_keys (view w))) as Hlen
    by (unfold ps; rewrite !length_fmap; apply length_map_to_list).
  assert (ps ⊆ possible_prefixes) as Hsub.
  { intros p Hp. unfold ps in Hp. rewrite <- list_fmap_compose in Hp.
    apply list_elem_of_fmap in Hp as ([i k] & -> & Hi%elem_of_map_to_list). by eapply Hpre. }
  assert (ps ⊆+ possible_prefixes) as Hsm by (by apply NoDup_submseteq).
  pose proof possible_prefixes_length as Hcap.
  split; [apply submseteq_length in Hsm; lia|]. intros Hfull.
  assert (ps ≡ₚ possible_prefixes) as Hperm by (apply submseteq_length_Permutation; [exact Hsm|];
        apply Nat.eq_le_incl, Nnat.Nat2N.inj; by rewrite Hlen, Hfull).
  eapply post_mono; [apply create_with_user_post; [exact Hu|exact Hok]|].
  intros [[k raw]|e] w'; [|intros [Hd _]; split; [exact Hd|by exists e]].
  intros (-> & Hp & _ & _ & _ & _ & _ & _ & _ & Hn & Hd & Hokd & _). exfalso.
  pose proof (possible_prefixes_complete _ (token_length (w_rand w)) (token_range (w_rand w))) as Hin.
  rewrite <- Hp, <- Hperm in Hin. unfold ps in Hin. rewrite <- list_fmap_compose in Hin.
  apply list_elem_of_fmap in Hin as ([i x] & Hx & Hi%elem_of_map_to_list). simpl in Hx.
  rewrite Hd in Hokd.
  assert (i = k_id k) as ->.
  { eapply (model_unique (ok_api_keys _ Hokd) i (k_id k) x k (UqApiKeyPrefix, k_key_prefix k)); simpl.
    - rewrite lookup_insert_ne; [exact Hi|]. congruence.
    - by rewrite lookup_insert_eq.
    - rewrite Hx. apply elem_of_cons. by left.
    - apply elem_of_cons. by left. }
  congruence.
Qed.
End api_key_properties.

Definition ci_key : APIKeyCreate := mkAPIKeyCreate "ci" None true None GLOBAL None.

(** A key that lasts an hour: granted at once. *)
Definition hour_key : APIKeyCreate :=
  mkAPIKeyCreate "ci" None true (Some (Aware (clock 0 + 3600000000) 0)) GLOBAL None.

Lemma api_key_roundtrip_witness :
  ∃ k raw w', create_with_user hour_key 1 None w0 = (Ret (k, raw), w') ∧
    post (validate_api_key raw) (reopen w') (λ r' _, ∃ k' u, r' = Ret (Some (k', u)) ∧ u_id u = 1%N).
Proof.
  pose proof (api_key_roundtrip hour_key 1 None w0 w0_usable w0_ok) as HP.
  assert (match create_with_user hour_key 1 None w0 with
    | (Ret _, w') => bool_decide (now w' ≤ clock 0 + 3600000000)%Z | _ => false end = true) as Hr
    by (vm_compute; reflexivity).
  assert (db_ok (durable (create_with_user hour_key 1 None w0).2)) as Hok'.
  { pose proof (create_with_user_post hour_key 1 None w0 w0_usable w0_ok) as HQ. unfold post in HQ.
    destruct (create_with_user hour_key 1 None w0) as [[[k raw]|e] w']; [|discriminate Hr].
    apply HQ. }
  unfold post in HP. destruct (create_with_user hour_key 1 None w0) as [[[k raw]|e] w'];
    [|discriminate Hr].
  destruct HP as (Hd & _ & _ & HP). exists k, raw, w'. split; [reflexivity|].
  apply bool_decide_eq_true in Hr.
  eapply post_mono; [apply (HP w' Hok'); rewrite Hd; apply lookup_insert_eq|].
  intros r' w2 [_ Hg]. simpl in Hg.
  match type of Hg with context [(?a <? ?b)%Z] => replace (a <? b)%Z with false in Hg by (symmetry; apply Z.ltb_ge; exact Hr) end.
  destruct Hg as (k' & u & -> & _ & Hu & _). exists k', u. split; [reflexivity|exact Hu].
Defined.

Lemma validate_api_key_witness :
  post (validate_api_key "short") w0 (λ r w', durable w' = durable w0).
Proof.
  eapply post_mono; [apply (validate_api_key_spec "short" w0 w0_usable w0_ok)|].
  intros r w' [Hd _]. exact Hd.
Defined.

Lemma api_key_capacity_witness : (N.of_nat (size (api_keys (view w0))) ≤ 262144)%N.
Proof.
  refine (proj1 (api_key_capacity ci_key 1 None w0 w0_usable w0_ok _)).
  intros i k Hi. exfalso. apply (lookup_empty_Some i k).
  assert (api_keys (view w0) = ∅) as <- by (vm_compute; reflexivity). exact Hi.
Defined.
