(* ===== verification/Deps.v ===== *)
(** * [api/deps.py]: authentication, tenant context and permission checks

    FastAPI resolves the dependencies of a handler in the order of its
    parameters; here each dependency is a computation and takes the results of
    the dependencies it names. *)

From stdpp Require Import base tactics list gmap strings.
From Stdlib Require Import ZArith Lia.
From S2P Require Import Prelude PyStd Effects Models Session Snapshot Crud.
From S2P Require Import RoleService Security ApiKeyService.
From S2P Require Permissions TenantService.
Import Permissions(PermissionEnum, value).

(** The parts of a request the dependencies read. *)
Record Request := mkRequest {
  rq_token : option string;         (** [Authorization: Bearer] *)
  rq_api_key_header : option string;
  rq_api_key_query : option string;
  rq_tenant_header : option string  (** [X-Tenant-ID] *)
}.

(** [o or None] for an optional string: an empty one is falsy. *)
Definition non_empty (o : option string) : option string :=
  match o with Some s => if str_truthy s then Some s else None | None => None end.

(** [user_tenant_roles.role_id == role_permissions.role_id]. *)
Definition same_role (a : Uuid * Uuid * Uuid) (b : Uuid * Uuid) : Prop := a.1.2 = b.1.

#[global] Instance same_role_dec a b : Decision (same_role a b).
Proof. unfold same_role. apply _. Defined.

Section deps.
Context {S : Type} `{Session S} `{Inputs} `{Jose}.

(** ** Authentication *)

(** The [except] clauses of [get_current_user_from_token]. Python evaluates
    [jwt.PyJWTError] only when the first clause does not match. *)
Definition token_handler {A} (e : Exn) : M (World S) A :=
  if bool_decide (e = ExpiredSignatureError) then
    raise (http_authentication_error "Token has expired")
  else match jwt_PyJWTError with
       | None => raise (AttributeError "PyJWTError")
       | Some isPyJWTError =>
           if isPyJWTError e then raise (http_authentication_error "Could not validate token")
           else if is_value_error e then
             raise (http_authentication_error "Invalid user ID format in token")
           else raise e
       end.

Definition get_current_user_from_token (token : option string) : M (World S) (option User) :=
  match non_empty token with
  | None => mret None
  | Some token =>
      try_catch
        (n ← utcnow;
         payload ← lift (jwt_decode (n / us_per_s)%Z token);
         user_id_str ← require (c_sub payload)
           (http_authentication_error "Invalid token payload: Subject missing");
         user_id ← require (uuid_parse user_id_str)
           (ValueError "badly formed hexadecimal UUID string");
         user ← get User user_id;
         user ← require user (http_authentication_error "User not found for token");
         mret (Some user))
        token_handler
  end.

Definition get_current_user_from_api_key (header query : option string) : M (World S) (option User) :=
  match non_empty match non_empty header with Some k => Some k | None => query end with
  | None => mret None
  | Some api_key =>
      result ← validate_api_key api_key;
      match result with
      | None => raise (http_authentication_error "Invalid or expired API Key")
      | Some (_, user) => mret (Some user)
      end
  end.

Definition get_current_user (rq : Request) : M (World S) User :=
  token_user ← get_current_user_from_token (rq_token rq);
  api_key_user ← get_current_user_from_api_key (rq_api_key_header rq) (rq_api_key_query rq);
  require (match token_user with Some u => Some u | None => api_key_user end)
    (http_authentication_error "Not authenticated").

Definition get_current_active_user (rq : Request) : M (World S) User :=
  current_user ← get_current_user rq;
  raise_if (negb (u_is_active current_user)) (HTTPException 400 "Inactive user") ;;
  mret current_user.

Definition get_current_superuser (rq : Request) : M (World S) User :=
  current_user ← get_current_active_user rq;
  raise_if (negb (u_is_superuser current_user)) (HTTPException 403 "Not enough permissions") ;;
  mret current_user.

(** ** Tenant context *)

Definition get_tenant_id_from_path (path_tenant_id : option string) : M (World S) Uuid :=
  tenant_id_str ← require (non_empty path_tenant_id)
    (HTTPException 500 "Tenant context could not be determined from URL path.");
  require (uuid_parse tenant_id_str) (HTTPException 400 "Invalid Tenant ID format in URL path.").

Definition check_tenant_exists (tenant_id : Uuid) : M (World S) Uuid :=
  tenant ← get Tenant tenant_id;
  raise_if (negb (truthy tenant)) (HTTPException 404 ("Tenant " +:+ uuid_str tenant_id +:+ " not found.")) ;;
  mret tenant_id.

(** The later of the two definitions. *)
Definition get_tenant_from_path (tenant_id : Uuid) : M (World S) Tenant :=
  tenant ← get Tenant tenant_id;
  require tenant (HTTPException 404 ("Tenant " +:+ uuid_str tenant_id +:+ " not found.")).

(** [db.scalar(select(exists()).select_from(rows)...)]: each row yields the
    value of [EXISTS (SELECT * )], no row yields [None]. *)
Definition scalar_exists {A} (rows : Tables → list A) : M (World S) bool :=
  l ← query rows;
  match sess_bare_exists (S := S) with
  | None => raise ProgrammingError
  | Some b => mret (match l with [] => false | _ => b end)
  end.

Definition get_current_active_tenant (current_user : User) (x_tenant_id : option string)
    : M (World S) Tenant :=
  x_tenant_id ← require (non_empty x_tenant_id) (HTTPException 400 "X-Tenant-ID header is required.");
  tenant_id ← require (uuid_parse x_tenant_id)
    (HTTPException 400 "Invalid Tenant ID format in X-Tenant-ID header.");
  tenant ← get Tenant tenant_id;
  tenant ← require tenant (HTTPException 404 ("Specified tenant " +:+ uuid_str tenant_id
                                              +:+ " not found or you do not have access."));
  (if u_is_superuser current_user then mret tt
   else
     is_member ← scalar_exists (λ t,
       filter (λ '(uid, _, tn), uid = u_id current_user ∧ tn = tenant_id) (utr_rows (S := S) t));
     raise_if (negb is_member) (HTTPException 403 "You do not have access to the specified tenant.")) ;;
  mret tenant.

(** ** Permission checks *)

(** The join of assignments, role permissions and permissions on a user, a
    tenant and a permission code. *)
Definition permission_rows (user_id tenant_id : Uuid) (code : string) (t : Tables) :=
  join (λ k p, k.2.2 = p_id p ∧ k.1.1.1 = user_id ∧ k.1.2 = tenant_id ∧ p_code p = code)
    (join same_role (utr_rows (S := S) t) (rp_rows (S := S) t))
    (rows (S := S) Permission t).

(** The factory [require_permission] is defined three times; this is the
    dependency the first definition returns. *)
Definition check_permission (permission : PermissionEnum) (current_user : User) (tenant_id : Uuid)
    : M (World S) User :=
  if u_is_superuser current_user then mret current_user
  else
    has_perm ← scalar_exists (permission_rows (u_id current_user) tenant_id (value permission));
    raise_if (negb has_perm)
      (HTTPException 403 "You do not have permission to perform this action in this tenant.") ;;
    mret current_user.

(** The last definition has only a docstring: it returns [None], and this is
    the one the name refers to. *)
Definition require_permission (permission : string) : option (User → Tenant → M (World S) User) :=
  None.

Definition check_active_tenant_permission (permission : PermissionEnum) (current_user : User)
    (tenant : Tenant) : M (World S) User :=
  if u_is_superuser current_user then mret current_user
  else
    has_perm ← scalar_exists (permission_rows (u_id current_user) (t_id tenant) (value permission));
    raise_if (negb has_perm)
      (HTTPException 403 "You do not have permission to perform this action in this tenant context.") ;;
    mret current_user.

(** [require_permission_in_active_tenant] with the dependencies it names:
    the user, then the active tenant (which shares the cached user). *)
Definition require_permission_in_active_tenant (permission : PermissionEnum) (rq : Request)
    : M (World S) (User * Tenant) :=
  current_user ← get_current_active_user rq;
  tenant ← get_current_active_tenant current_user (rq_tenant_header rq);
  user ← check_active_tenant_permission permission current_user tenant;
  mret (user, tenant).

(** [require_permission_old_style_for_reference]: the codes the user's roles
    in the tenant give. *)
Definition old_style_permission_check (required_permission : string) (current_user : User)
    (tenant : Tenant) : M (World S) User :=
  if u_is_superuser current_user then mret current_user
  else
    user_permissions ← query (λ t, remove_dups ((λ '(_, p), p_code p) <$>
      join (λ k p, k.2.2 = p_id p ∧ k.1.1.1 = u_id current_user ∧ k.1.2 = t_id tenant)
        (join same_role (utr_rows (S := S) t) (rp_rows (S := S) t))
        (rows (S := S) Permission t)));
    raise_if (bool_decide (required_permission ∉ user_permissions))
      (AuthorizationError ("Permission '" +:+ required_permission +:+ "' required.")) ;;
    mret current_user.

(** The later definitions of [require_any_permission] and
    [require_all_permissions] check nothing. *)
Definition require_any_permission (required_permissions : list string) (tenant : Tenant)
    (current_user : User) : M (World S) User := mret current_user.
Definition require_all_permissions (required_permissions : list string) (tenant : Tenant)
    (current_user : User) : M (World S) User := mret current_user.

(** [endpoints/invitations.py: check_user_permission_for_tenant]. *)
Definition check_user_permission_for_tenant (user_id tenant_id : Uuid) (permission : PermissionEnum)
    : M (World S) bool :=
  required_perm_obj ← Permissions.get_by_code (value permission);
  match required_perm_obj with
  | None => mret false
  | Some p =>
      query (λ t, bool_decide (filter (λ '((u, _, tn), (_, pid)),
                    u = user_id ∧ tn = tenant_id ∧ pid = p_id p)
                  (join same_role (utr_rows (S := S) t) (rp_rows (S := S) t)) ≠ []))
  end.
End deps.

(** ** The access-control specification *)

(** The user holds, in the tenant, a role that grants the permission. *)
Definition permits (t : Tables) (uid tid : Uuid) (code : string) : Prop :=
  ∃ rid pid p, assigned t uid rid tid ∧ (rid, pid) ∈ role_permissions t ∧
    permissions t !! pid = Some p ∧ p_code p = code.

Definition member (t : Tables) (uid tid : Uuid) : Prop := ∃ rid, assigned t uid rid tid.

Lemma permits_member t uid tid code : permits t uid tid code → member t uid tid.
Proof. intros (rid & _ & _ & Ha & _). by exists rid. Qed.

Section rbac.
Context {S : Type} `{SessionLaws S} `{Inputs} `{Jose}.
Implicit Types w : World S.

Lemma permission_rows_iff uid tid code t :
  db_ok t → permission_rows (S := S) uid tid code t ≠ [] ↔ permits t uid tid code.
Proof.
  intros Hok. split.
  - intros Hne. destruct (permission_rows _ _ _ _) as [|[[[[u rid] tn] [r' pid]] p] l] eqn:Hl; [done|].
    assert ((u, rid, tn, (r', pid), p) ∈ permission_rows (S := S) uid tid code t) as Hin
      by (rewrite Hl; by left).
    apply elem_of_join in Hin as (Hj & Hp & Hon). simpl in Hon. destruct Hon as (-> & -> & -> & Hc).
    apply elem_of_join in Hj as (Hu & Hr & Heq). unfold same_role in Heq. simpl in Heq. subst r'.
    apply elem_of_utr_rows in Hu. apply elem_of_rp_rows in Hr. apply elem_of_rows in Hp as [i Hi].
    pose proof (model_ids (ok_permissions _ Hok) i p Hi) as Hid. simpl in Hid. subst i.
    by exists rid, (p_id p), p.
  - intros (rid & pid & p & Ha & Hr & Hp & Hc) Hnil.
    assert ((uid, rid, tid, (rid, pid), p) ∈ permission_rows (S := S) uid tid code t) as Hin.
    { apply elem_of_join. rewrite elem_of_join, elem_of_utr_rows, elem_of_rp_rows, elem_of_rows.
      pose proof (model_ids (ok_permissions _ Hok) pid p Hp) as Hid. simpl in Hid. subst pid.
      split_and!; try done. by exists (p_id p). }
    rewrite Hnil in Hin. by apply not_elem_of_nil in Hin.
Qed.

(** What a check built on [select(exists())] answers. *)
Definition exists_answer (P : Prop) `{!Decision P} : outcome bool :=
  match sess_bare_exists (S := S) with
  | None => Raise ProgrammingError
  | Some b => Ret (bool_decide P && b)
  end.

Lemma scalar_exists_post {A} (rows : Tables → list A) w Q :
  usable w = true →
  (sess_bare_exists (S := S) = None → Q (Raise ProgrammingError) w) →
  (∀ b, sess_bare_exists (S := S) = Some b →
     Q (Ret (match rows (view w) with [] => false | _ => b end)) w) →
  post (scalar_exists rows) w Q.
Proof.
  intros Hu Hn Hs. unfold scalar_exists. apply post_bind, post_query; [done|].
  destruct sess_bare_exists as [b|]; [by apply post_ret, Hs|by apply post_raise, Hn].
Qed.

(** A check on the rows of [l] can only be positive when there are some. *)
Lemma member_rows_iff uid tid t :
  filter (λ '(u, _, tn), u = uid ∧ tn = tid) (utr_rows (S := S) t) ≠ [] ↔ member t uid tid.
Proof.
  split.
  - intros Hne. destruct (filter _ _) as [|[[u rid] tn] l] eqn:Hl; [done|].
    assert ((u, rid, tn) ∈ filter (λ '(u, _, tn), u = uid ∧ tn = tid) (utr_rows (S := S) t)) as Hin
      by (rewrite Hl; by left).
    apply list_elem_of_filter in Hin as [[-> ->] Hin]. apply elem_of_utr_rows in Hin. by exists rid.
  - intros [rid Ha] Hnil. apply filter_nil_iff with (x := (uid, rid, tid)) in Hnil; [|by apply elem_of_utr_rows].
    by apply Hnil.
Qed.

Lemma check_user_permission_post uid tid perm w Q :
  usable w = true → db_ok (view w) →
  (∀ b, (b = true ↔ permits (view w) uid tid (value perm)) → Q (Ret b) w) →
  post (check_user_permission_for_tenant uid tid perm) w Q.
Proof.
  intros Hu Hok HQ. unfold check_user_permission_for_tenant. apply post_bind.
  unfold Permissions.get_by_code. apply post_query; [done|].
  destruct (first _) as [p|] eqn:Hf.
  - apply first_select_Some in Hf as [Hc [i Hi]]. simpl in Hi.
    pose proof (model_ids (ok_permissions _ Hok) i p Hi) as Hid. simpl in Hid. subst i.
    apply post_query; [done|]. apply HQ. rewrite bool_decide_eq_true. split.
    + intros Hne. destruct (filter _ _) as [|[[[u rid] tn] [r' pid]] l] eqn:Hl; [done|].
      match type of Hl with filter ?P ?rs = _ =>
        assert ((u, rid, tn, (r', pid)) ∈ filter P rs) as Hin by (rewrite Hl; by left) end.
      apply list_elem_of_filter in Hin as [Hon Hin]. simpl in Hon. destruct Hon as (-> & -> & ->).
      apply elem_of_join in Hin as (Ha & Hr & Heq). unfold same_role in Heq. simpl in Heq. subst r'.
      apply elem_of_utr_rows in Ha. apply elem_of_rp_rows in Hr. by exists rid, (p_id p), p.
    + intros (rid & pid & p' & Ha & Hr & Hp & Hc') Hnil.
      assert (pid = p_id p) as ->.
      { eapply (model_unique (ok_permissions _ Hok) pid (p_id p) p' p (UqPermissionCode, value perm));
          eauto; simpl; rewrite ?Hc, ?Hc'; set_solver. }
      apply filter_nil_iff with (x := (uid, rid, tid, (rid, p_id p))) in Hnil; [by apply Hnil|].
      apply elem_of_join. by rewrite elem_of_utr_rows, elem_of_rp_rows.
  - apply post_ret, HQ. split; [done|]. intros (rid & pid & p & _ & _ & Hp & Hc).
    rewrite first_select_None in Hf. by destruct (Hf pid p Hp).
Qed.
End rbac.

(** ** Authentication, and what it leaves behind *)

Section authentication.
Context {S : Type} `{SessionLaws S} `{Inputs} `{JoseLaws}.
Implicit Types w : World S.

(** Authentication only ever touches API-key rows, and commits nothing. *)
Definition only_keys w w' : Prop :=
  durable w' = durable w ∧ usable w' = true ∧ db_ok (view w') ∧
  ∃ m, view w' = set_api_keys m (view w).

Lemma only_keys_refl w w' :
  usable w = true → db_ok (view w) → w_db w' = w_db w → only_keys w w'.
Proof.
  intros Hu Hok Hw. unfold only_keys, durable, usable, view in *. rewrite Hw. split_and!; try done.
  exists (api_keys (sess_view (w_db w))). by destruct (sess_view (w_db w)).
Qed.

Lemma only_keys_trans w1 w2 w3 : only_keys w1 w2 → only_keys w2 w3 → only_keys w1 w3.
Proof.
  intros (Hd & _ & _ & m & Hv) (Hd' & Hu & Hok & m' & Hv'). split_and!; [congruence|done..|].
  exists m'. by rewrite Hv', Hv.
Qed.

(** The token names this user: it decodes at [n] to the printed UUID of a row. *)
Definition token_user (n : Z) (t : Tables) (token : string) (u : User) : Prop :=
  ∃ c s i, jwt_decode (n / us_per_s)%Z token = inl c ∧ c_sub c = Some s ∧
    uuid_parse s = Some i ∧ users t !! i = Some u ∧ u_id u = i.

Lemma token_handler_run {A} e w :
  token_handler (S := S) (A := A) e w =
    (Raise (if bool_decide (e = ExpiredSignatureError)
            then http_authentication_error "Token has expired" else AttributeError "PyJWTError"), w).
Proof. unfold token_handler. rewrite no_PyJWTError. by destruct (bool_decide _). Qed.

Lemma get_current_user_from_token_post token w :
  usable w = true → db_ok (view w) →
  post (get_current_user_from_token token) w (λ r w', w_db w' = w_db w ∧
    match non_empty token with
    | None => r = Ret None ∧ w' = w
    | Some token =>
        match r with
        | Ret o => ∃ u, o = Some u ∧ token_user (now w) (view w) token u
        | Raise e => (∀ u, ¬ token_user (now w) (view w) token u) ∧
            e = if bool_decide (jwt_decode (now w / us_per_s)%Z token = inr ExpiredSignatureError)
                then http_authentication_error "Token has expired" else AttributeError "PyJWTError"
        end
    end).
Proof.
  intros Hu Hok. unfold get_current_user_from_token. destruct (non_empty token) as [tok|]; [|by wp].
  apply post_try, post_bind. wp_step. apply post_bind.
  assert (∀ e, e ≠ ExpiredSignatureError → bool_decide (e = ExpiredSignatureError) = false) as Hne
    by (intros; by apply bool_decide_eq_false_2).
  destruct (jwt_decode (now w / us_per_s)%Z tok) as [c|e] eqn:Hdec; simpl.
  2:{ apply post_raise. unfold post. rewrite token_handler_run. split; [done|]. split.
      - intros u (c & s & i & Hc & _). congruence.
      - destruct (decide (e = ExpiredSignatureError)) as [->|He].
        + by rewrite !bool_decide_eq_true_2.
        + rewrite !bool_decide_eq_false_2; congruence. }
  try (rewrite bool_decide_eq_false_2 by done).
  assert (∀ e : Exn, e ≠ ExpiredSignatureError → (∀ u, ¬ token_user (now w) (view w) tok u) →
    post (token_handler e) (tick w) (λ r w', w_db w' = w_db w ∧
      match r with
      | Ret o => ∃ u, o = Some u ∧ token_user (now w) (view w) tok u
      | Raise e => (∀ u, ¬ token_user (now w) (view w) tok u) ∧ e = AttributeError "PyJWTError"
      end)) as Hraise.
  { intros e He Hno. unfold post. rewrite token_handler_run, bool_decide_eq_false_2 by done. done. }
  apply post_ret. apply post_bind, post_require.
  { intros Hs. apply Hraise; [done|]. intros u (c' & s & i & Hc & Hs' & _). congruence. }
  intros s Hs. apply post_bind, post_require.
  { intros Hi. apply Hraise; [done|]. intros u (c' & s' & i & Hc & Hs' & Hi' & _). congruence. }
  intros i Hi. apply post_bind, post_get; [done|apply Hok|]. simpl.
  apply post_bind, post_require.
  { intros Hus. autorewrite with world in Hus. apply Hraise; [done|].
    intros u (c' & s' & i' & Hc & Hs' & Hi' & Hu' & _). simplify_eq. congruence. }
  intros u Hus. autorewrite with world in Hus. apply post_ret. split; [done|].
  exists u. split; [done|]. exists c, s, i. split_and!; try done.
  by apply (model_ids (ok_users _ Hok) i u Hus).
Qed.

(** The API key of a request. *)
Definition presented_key (rq : Request) : option string :=
  non_empty match non_empty (rq_api_key_header rq) with Some k => Some k | None => rq_api_key_query rq end.

Lemma get_current_user_from_api_key_post rq w :
  usable w = true → db_ok (view w) →
  post (get_current_user_from_api_key (rq_api_key_header rq) (rq_api_key_query rq)) w
    (λ r w', durable w' = durable w ∧ match r with
      | Ret o => only_keys w w' ∧ ∀ u, o = Some u → ∃ key k, presented_key rq = Some key ∧
          authenticates (view w) key k ∧ expiry_test (S := S) k (now w) = Some false ∧
          users (view w) !! k_user_id k = Some u
      | Raise _ => True end).
Proof.
  intros Hu Hok. unfold get_current_user_from_api_key. fold (presented_key rq).
  destruct (presented_key rq) as [key|].
  2:{ apply post_ret. split; [done|]. split; [|done]. by apply only_keys_refl. }
  apply post_bind. eapply post_mono; [by apply validate_api_key_post|].
  intros r' w2 (Hd2 & Hok2 & Hu2 & Hcase). destruct r' as [[[k u]|]|e]; [|by wp|done].
  apply post_ret. split; [done|].
  destruct Hcase as [(_ & [=] & _)|(_ & k0 & Hk0 & Hc)].
  destruct (expiry_test k0 (now w)) as [[]|] eqn:Hx; [destruct Hc as [[=] _]| |by destruct Hc as [[? [=]] _]].
  destruct Hc as (k' & u' & [= <- <-] & Hus & Hv2 & _).
  split; [split_and!; try done; by eexists|]. intros u' [= <-]. by exists key, k0.
Qed.

(** The request's credentials name this user: a token of his that has not
    expired or, without a token, an active API key of his not past its expiry. *)
Definition authenticated (rq : Request) w (u : User) : Prop :=
  match non_empty (rq_token rq) with
  | Some token => token_user (now w) (view w) token u
  | None => ∃ key k, presented_key rq = Some key ∧ authenticates (view w) key k ∧
      expiry_test (S := S) k (now w) = Some false ∧ users (view w) !! k_user_id k = Some u
  end.

Lemma get_current_user_post rq w :
  usable w = true → db_ok (view w) →
  post (get_current_user rq) w (λ r w', durable w' = durable w ∧
    match r with
    | Ret u => only_keys w w' ∧ users (view w) !! u_id u = Some u ∧ authenticated rq w u
    | Raise _ => True
    end).
Proof.
  intros Hu Hok. unfold get_current_user. apply post_bind.
  eapply post_mono; [by apply get_current_user_from_token_post|]. intros r w1 [Hw Hr].
  assert (only_keys w w1) as Hk by (by apply only_keys_refl).
  destruct r as [o|e]; [|by destruct Hk as [? _]].
  destruct Hk as (Hd1 & Hu1 & Hok1 & m1 & Hv1). apply post_bind.
  eapply post_mono; [by apply get_current_user_from_api_key_post|].
  intros [o'|e] w2 [Hd2 Hr2]; [|split; [congruence|done]].
  destruct Hr2 as [Hk2 Ho']. apply post_require; [intros _; split; [congruence|done]|]. intros u Hu2.
  split; [congruence|]. split; [eapply only_keys_trans; [by split_and!; [done..|exists m1]|done]|].
  unfold authenticated. destruct (non_empty (rq_token rq)) as [token|].
  - destruct Hr as (u' & -> & Ht). injection Hu2 as <-. split; [|done].
    destruct Ht as (c & s' & i & _ & _ & _ & Hi & Hid). by rewrite Hid.
  - destruct Hr as [[= ->] ->]. destruct (Ho' u Hu2) as (key & k & Hp & Ha & Hx & Hus).
    pose proof (model_ids (ok_users _ Hok) _ u Hus) as Hid. simpl in Hid. rewrite Hid. eauto 10.
Qed.

Lemma get_current_active_user_post rq w :
  usable w = true → db_ok (view w) →
  post (get_current_active_user rq) w (λ r w', durable w' = durable w ∧
    match r with
    | Ret u => only_keys w w' ∧ users (view w) !! u_id u = Some u ∧ u_is_active u = true ∧ authenticated rq w u
    | Raise _ => True
    end).
Proof.
  intros Hu Hok. unfold get_current_active_user. apply post_bind.
  eapply post_mono; [by apply get_current_user_post|]. intros [u|e] w' [Hd Hr]; [|done].
  apply post_bind, post_raise_if; intros Ha; [done|]. apply negb_false_iff in Ha. apply post_ret. naive_solver.
Qed.

(** What a request's session shows once authentication has run. *)
Lemma authenticated_view rq u w1 w :
  db_ok (durable w) → get_current_user rq (reopen w) = (Ret u, w1) →
  usable w1 = true ∧ db_ok (view w1) ∧ durable w1 = durable w ∧
  (∃ m, view w1 = set_api_keys m (durable w)) ∧ users (durable w) !! u_id u = Some u.
Proof.
  intros Hok Hrun. pose proof (get_current_user_post rq (reopen w) (usable_reopen w)) as HP.
  rewrite view_reopen in HP. specialize (HP Hok). unfold post in HP. rewrite Hrun in HP.
  destruct HP as (_ & (Hd & Hu & Hok' & m & Hv) & Hus & _). autorewrite with world in *. eauto 10.
Qed.
End authentication.

Section tenant_context.
Context {S : Type} `{SessionLaws S} `{Inputs} `{Jose}.
Implicit Types w : World S.

(** A check that ends in [if not has_perm: raise]. *)
Definition verdict {A} (allowed : bool) (a : A) (denied : Exn) : outcome A :=
  match sess_bare_exists (S := S) with
  | None => Raise ProgrammingError
  | Some b => if allowed && b then Ret a else Raise denied
  end.

Lemma scalar_exists_verdict {A B} (rows : Tables → list B) (allowed : bool) (a : A) denied w
    (k : bool → M (World S) A) Q :
  usable w = true → (allowed = true ↔ rows (view w) ≠ []) →
  (∀ b, k b = (raise_if (negb b) denied ;; mret a)) →
  Q (verdict allowed a denied) w →
  post (scalar_exists rows ≫= k) w Q.
Proof.
  intros Hu Hal Hk HQ. apply post_bind, scalar_exists_post; [done| |]; unfold verdict in HQ.
  - intros Hb. by rewrite Hb in HQ.
  - intros b Hb. rewrite Hb in HQ. rewrite Hk. destruct (rows (view w)) as [|r l].
    + destruct allowed; [exfalso; by apply Hal|]. by apply post_bind, post_raise.
    + assert (allowed = true) as -> by (by apply Hal). simpl in HQ.
      destruct b; unfold raise_if; simpl; [by apply post_bind, post_ret, post_ret|].
      by apply post_bind, post_raise.
Qed.

Lemma get_current_active_tenant_post u hdr is_member w :
  usable w = true → db_ok (view w) →
  (∀ tid, is_member tid = true ↔ member (view w) (u_id u) tid) →
  post (get_current_active_tenant u hdr) w (λ r w', w' = w ∧
    r = match non_empty hdr with
        | None => Raise (HTTPException 400 "X-Tenant-ID header is required.")
        | Some s =>
            match uuid_parse s with
            | None => Raise (HTTPException 400 "Invalid Tenant ID format in X-Tenant-ID header.")
            | Some tid =>
                match tenants (view w) !! tid with
                | None => Raise (HTTPException 404 ("Specified tenant " +:+ uuid_str tid
                                   +:+ " not found or you do not have access."))
                | Some x => if u_is_superuser u then Ret x
                            else verdict (is_member tid) x
                                   (HTTPException 403 "You do not have access to the specified tenant.")
                end
            end
        end).
Proof.
  intros Hu Hok Hm. unfold get_current_active_tenant.
  apply post_bind, post_require; [by intros ->|]. intros s ->.
  apply post_bind, post_require; [by intros ->|]. intros tid ->.
  apply post_bind, post_get; [done|apply Hok|]. simpl.
  apply post_bind, post_require; [by intros ->|]. intros x ->.
  destruct (u_is_superuser u); [by do 2 wp_step; apply post_ret|].
  assert (post (is_member ← scalar_exists (λ t,
       filter (λ '(uid, _, tn), uid = u_id u ∧ tn = tid) (utr_rows (S := S) t));
     raise_if (negb is_member) (HTTPException 403 "You do not have access to the specified tenant."))
     w (λ r w', w' = w ∧ r = verdict (is_member tid) tt
          (HTTPException 403 "You do not have access to the specified tenant."))) as Hv.
  { eapply scalar_exists_verdict; [done| | |done].
    - rewrite Hm. symmetry. apply member_rows_iff.
    - intros b. unfold raise_if. by destruct b. }
  apply post_bind. eapply post_mono; [exact Hv|]. intros r w' [-> ->]. unfold verdict.
  destruct sess_bare_exists as [b|]; [|done]. by destruct (is_member tid && b).
Qed.

Lemma check_active_tenant_permission_post perm u x allowed w :
  usable w = true → db_ok (view w) →
  (allowed = true ↔ permits (view w) (u_id u) (t_id x) (value perm)) →
  post (check_active_tenant_permission perm u x) w (λ r w', w' = w ∧
    r = if u_is_superuser u then Ret u
        else verdict allowed u (HTTPException 403
          "You do not have permission to perform this action in this tenant context.")).
Proof.
  intros Hu Hok Hal. unfold check_active_tenant_permission. destruct (u_is_superuser u); [by wp|].
  eapply scalar_exists_verdict; [done| |done|done]. by rewrite permission_rows_iff.
Qed.
End tenant_context.

Section guarded.
Context {S : Type} `{SessionLaws S} `{Inputs} `{JoseLaws}.
Implicit Types w : World S.

(** Whom the header, the database and the permission let through. *)
Definition cleared (perm : PermissionEnum) (rq : Request) (u : User) (x : Tenant) w w' : Prop :=
  only_keys w w' ∧ users (view w) !! u_id u = Some u ∧ u_is_active u = true ∧ authenticated rq w u ∧
  tenants (view w) !! t_id x = Some x ∧
  (∃ s, rq_tenant_header rq = Some s ∧ uuid_parse s = Some (t_id x)) ∧
  (u_is_superuser u = true ∨
   sess_bare_exists (S := S) = Some true ∧ permits (view w) (u_id u) (t_id x) (value perm)).

(** The dependency as the handlers behind it see it. *)
Lemma require_permission_post perm rq w :
  usable w = true → db_ok (view w) →
  post (require_permission_in_active_tenant perm rq) w (λ r w', durable w' = durable w ∧
    match r with
    | Ret (u, x) => cleared perm rq u x w w'
    | Raise _ => True
    end).
Proof.
  intros Hu Hok. unfold require_permission_in_active_tenant, cleared. apply post_bind.
  eapply post_mono; [by apply get_current_active_user_post|]. intros [u|e] w1 [Hd Hr]; [|done].
  destruct Hr as (Hk & Hus & Hact & Hauth). pose proof Hk as (_ & Hu1 & Hok1 & m & Hv). apply post_bind.
  set (mem := λ tid, negb (bool_decide (filter (λ '(uid, _, tn), uid = u_id u ∧ tn = tid)
                             (utr_rows (S := S) (view w1)) = []))).
  eapply post_mono; [apply (get_current_active_tenant_post u (rq_tenant_header rq) mem w1); try done|].
  { intros tid. unfold mem. rewrite negb_true_iff, bool_decide_eq_false. apply member_rows_iff. }
  intros r w2 [-> ->]. destruct (non_empty (rq_tenant_header rq)) as [s|] eqn:Hs; [|done].
  destruct (uuid_parse s) as [tid|] eqn:Hp; [|done].
  destruct (tenants (view w1) !! tid) as [x|] eqn:Hx; [|done].
  pose proof (model_ids (ok_tenants _ Hok1) tid x Hx) as Hid. simpl in Hid. subst tid.
  assert (rq_tenant_header rq = Some s) as Hhdr.
  { unfold non_empty in Hs. destruct (rq_tenant_header rq); [|done]. case_if; congruence. }
  assert (tenants (view w) !! t_id x = Some x) as Hxw by (by rewrite Hv in Hx).
  eassert (post (user ← check_active_tenant_permission perm u x; mret (user, x)) w1 _) as Hgo;
    [|destruct (u_is_superuser u); [exact Hgo|]; unfold verdict at 1;
      destruct sess_bare_exists as [b|] eqn:Hb; [|done]; by destruct (mem (t_id x) && b)].
  apply post_bind. eapply post_mono; [apply (check_active_tenant_permission_post perm u x
      (negb (bool_decide (permission_rows (S := S) (u_id u) (t_id x) (value perm) (view w1) = []))));
      try done|].
  { rewrite negb_true_iff, bool_decide_eq_false. by apply permission_rows_iff. }
  intros r w2 [-> ->]. destruct (u_is_superuser u) eqn:Hsu.
  - apply post_ret. split; [done|]. rewrite Hsu. split_and!; try done; [by exists s|by left].
  - unfold verdict. destruct sess_bare_exists as [b|]; [|done].
    destruct (bool_decide _) eqn:Hb; [done|]. destruct b; [|done]. apply post_ret.
    apply bool_decide_eq_false, permission_rows_iff in Hb; [|done]. rewrite Hv in Hb.
    split; [done|]. split_and!; try done; [by exists s|by right].
Qed.
End guarded.

(** ** Properties *)

Section deps_properties.
Context {S : Type} `{SessionLaws S} `{Inputs} `{JoseLaws}.
Implicit Types w : World S.

(** C1. Whoever passes [require_permission_in_active_tenant] is an active user
    of the database whom the request's own credentials name - a token of his
    that decodes now or, when the request has no token, an active API key of
    his that is not past its expiry - in an existing tenant, the one the
    [X-Tenant-ID] header names, and is a superuser or holds in that very tenant
    a role that grants the permission.  This holds whatever value the database
    gives the bare [EXISTS]; if it rejects the statement only superusers pass.
    Nothing is ever committed by the check. *)
Theorem access_control_sound perm rq w :
  usable w = true → db_ok (view w) →
  post (require_permission_in_active_tenant perm rq) w (λ r w', durable w' = durable w ∧
    ∀ u x, r = Ret (u, x) →
      users (view w) !! u_id u = Some u ∧ u_is_active u = true ∧
      match non_empty (rq_token rq) with
      | Some token => token_user (now w) (view w) token u
      | None => ∃ key k, presented_key rq = Some key ∧ authenticates (view w) key k ∧
          expiry_test (S := S) k (now w) = Some false ∧ users (view w) !! k_user_id k = Some u
      end ∧
      tenants (view w) !! t_id x = Some x ∧
      (∃ s, rq_tenant_header rq = Some s ∧ uuid_parse s = Some (t_id x)) ∧
      (u_is_superuser u = true ∨
       sess_bare_exists (S := S) = Some true ∧ permits (view w) (u_id u) (t_id x) (value perm))).
Proof.
  intros Hu Hok. eapply post_mono; [by apply require_permission_post|].
  intros [[u x]|e] w' [Hd Hr]; (split; [done|]); [|done].
  intros u0 x0 [= <- <-]. destruct Hr as (_ & ? & ? & ? & ? & ? & ?). by split_and!.
Qed.

(** The active tenant is the existing tenant the header names, for a
    superuser or a member of it; every other request gets its own status. *)
Theorem active_tenant_spec u hdr is_member w :
  usable w = true → db_ok (view w) →
  (∀ tid, is_member tid = true ↔ member (view w) (u_id u) tid) →
  sess_bare_exists (S := S) = Some true →
  ∃ r, get_current_active_tenant u hdr w = (r, w) ∧
    (∀ x, r = Ret x ↔ ∃ s, hdr = Some s ∧ s ≠ "" ∧ uuid_parse s = Some (t_id x) ∧
       tenants (view w) !! t_id x = Some x ∧
       (u_is_superuser u = true ∨ member (view w) (u_id u) (t_id x))) ∧
    (∀ e, r = Raise e → http_status 200 r =
       match non_empty hdr with
       | None => 400
       | Some s => match uuid_parse s with
                   | None => 400
                   | Some tid => if decide (is_Some (tenants (view w) !! tid)) then 403 else 404
                   end
       end)%Z.
Proof.
  intros Hu Hok Hm Hb. pose proof (get_current_active_tenant_post u hdr is_member w Hu Hok Hm) as HP.
  unfold post in HP. destruct (get_current_active_tenant u hdr w) as [r w']. destruct HP as [-> ->].
  eexists. split; [done|]. unfold verdict. rewrite Hb.
  destruct hdr as [[|c s]|]; simpl; [split; [naive_solver|done]| |split; [naive_solver|done]].
  destruct (uuid_parse (String c s)) as [tid|] eqn:Hp; [|split; [naive_solver|done]].
  destruct (tenants (view w) !! tid) as [x|] eqn:Hx.
  2:{ split; [naive_solver|]. intros e _. rewrite decide_False; [done|]. by intros [? ?]. }
  pose proof (model_ids (ok_tenants _ Hok) tid x Hx) as Hid. simpl in Hid. subst tid.
  rewrite decide_True by eauto. specialize (Hm (t_id x)). rewrite andb_true_r.
  split.
  - intros y. split.
    + intros Hy. assert (y = x ∧ (u_is_superuser u = true ∨ is_member (t_id x) = true)) as [-> Hor].
      { destruct (u_is_superuser u), (is_member (t_id x)); simplify_eq; auto. }
      exists (String c s). split_and!; try done. rewrite <- Hm. done.
    + intros (s' & [= <-] & _ & Hp' & Hy & Hor). assert (y = x) as -> by congruence.
      rewrite <- Hm in Hor. destruct (u_is_superuser u), (is_member (t_id x)); naive_solver.
  - intros e He. destruct (u_is_superuser u), (is_member (t_id x)); by simplify_eq/=.
Qed.

(** C22. The permission checks of the code base decide one predicate, whether
    the user's roles in the tenant grant the permission.  The one that collects
    codes and the helper of the invitation endpoints decide exactly it.  The two
    on [select(exists())] pass a user who is no superuser only with it, and
    agree with each other whatever the database makes of [EXISTS (SELECT * )]
    without a table: where it rejects the statement, as PostgreSQL does, both
    end in an error for everyone but superusers, granted or not. *)
Theorem permission_checks_agree perm u x allowed w :
  usable w = true → db_ok (view w) →
  (allowed = true ↔ permits (view w) (u_id u) (t_id x) (value perm)) →
  let pass := u_is_superuser u || allowed in
  let by_exists denied :=
    if u_is_superuser u then Ret u
    else match sess_bare_exists (S := S) with
         | None => Raise ProgrammingError
         | Some b => if allowed && b then Ret u else Raise (HTTPException 403 denied)
         end in
  check_permission perm u (t_id x) w =
    (by_exists "You do not have permission to perform this action in this tenant.", w) ∧
  check_active_tenant_permission perm u x w =
    (by_exists "You do not have permission to perform this action in this tenant context.", w) ∧
  old_style_permission_check (value perm) u x w =
    (if pass then Ret u else Raise (AuthorizationError
       ("Permission '" +:+ value perm +:+ "' required.")), w) ∧
  check_user_permission_for_tenant (u_id u) (t_id x) perm w = (Ret allowed, w).
Proof.
  intros Hu Hok Hal pass by_exists.
  assert (∀ {A} (m : M (World S) A) r, post m w (λ r' w', w' = w ∧ r' = r) → m w = (r, w)) as Hrun.
  { intros A m r. unfold post. destruct (m w). by intros [-> ->]. }
  split_and!.
  - apply Hrun. unfold check_permission, by_exists. destruct (u_is_superuser u); [by wp|].
    eapply scalar_exists_verdict; [done| |done|done]. by rewrite permission_rows_iff.
  - apply Hrun. eapply post_mono; [by apply check_active_tenant_permission_post|].
    by intros r w' [-> ->].
  - apply Hrun. unfold old_style_permission_check, pass. destruct (u_is_superuser u); [by wp|]. simpl.
    apply post_bind, post_query; [done|].
    set (codes := remove_dups _).
    assert (value perm ∈ codes ↔ permits (view w) (u_id u) (t_id x) (value perm)) as Hc.
    { unfold codes. rewrite elem_of_remove_dups, list_elem_of_fmap. split.
      - intros ([[[[v rid] tn] [r' pid]] p] & Hval & Hin). rewrite Hval in *.
        apply permission_rows_iff; [done|]. intros Hnil.
        apply elem_of_join in Hin as (Hj & Hp & Hon). simpl in Hon. destruct Hon as (E1 & E2 & E3).
        assert ((v, rid, tn, (r', pid), p) ∈
          permission_rows (S := S) (u_id u) (t_id x) (p_code p) (view w)) as Hin'
          by (apply elem_of_join; split_and!; done).
        rewrite Hnil in Hin'. by apply not_elem_of_nil in Hin'.
      - intros Hper. apply permission_rows_iff in Hper; [|done].
        destruct (permission_rows _ _ _ _) as [|[k p] l] eqn:Hl; [done|].
        assert ((k, p) ∈ permission_rows (S := S) (u_id u) (t_id x) (value perm) (view w)) as Hin
          by (rewrite Hl; by left).
        apply elem_of_join in Hin as (Hj & Hp & E1 & E2 & E3 & E4).
        exists (k, p). split; [done|]. apply elem_of_join. split_and!; done. }
    apply post_bind, post_raise_if; intros Hd; reflect_bools.
    + destruct allowed; [|done]. exfalso. apply Hd, Hc, Hal. done.
    + apply dec_stable, Hc, Hal in Hd. rewrite Hd. by apply post_ret.
  - apply Hrun. apply check_user_permission_post; [done..|]. intros b Hb'. split; [done|].
    f_equal. destruct b, allowed; naive_solver.
Qed.

(** A bearer token authenticates exactly the user whose printed UUID its
    subject carries.  Every failure other than expiry - a bad signature, a
    missing or malformed subject, an unknown user - surfaces as an
    [AttributeError] instead of the 401 the handlers name, because the
    [except] clause they go through names an attribute jose does not have. *)
Theorem token_authentication_spec token w :
  usable w = true → db_ok (view w) → token ≠ "" →
  post (get_current_user_from_token (Some token)) w (λ r w', durable w' = durable w ∧
    match r with
    | Ret o => ∃ u, o = Some u ∧ token_user (now w) (view w) token u
    | Raise e => (∀ u, ¬ token_user (now w) (view w) token u) ∧
        http_status 200 r =
          if bool_decide (jwt_decode (now w / us_per_s)%Z token = inr ExpiredSignatureError)
          then 401%Z else 500%Z
    end).
Proof.
  intros Hu Hok Hne. eapply post_mono; [by apply get_current_user_from_token_post|].
  intros r w' [Hw Hr]. split; [unfold durable; by rewrite Hw|].
  destruct token as [|c s]; [done|]. simpl in Hr. destruct r as [o|e]; [done|].
  destruct Hr as [Hno ->]. split; [done|]. by destruct (bool_decide _).
Qed.
(** The tenant of a path survives printing and reading: the printed form of
    every UUID gives back that UUID, and two UUIDs never share a printed form;
    a missing segment ends in 500 and a string of any other shape in 400. *)
Theorem tenant_path_roundtrip n w :
  (n < uuid_bound)%N →
  get_tenant_id_from_path (Some (uuid_str n)) w = (Ret n, w) ∧
  (∀ m, (m < uuid_bound)%N → uuid_str m = uuid_str n → m = n) ∧
  http_status 200 (get_tenant_id_from_path None w).1 = 500%Z ∧
  ∀ s, s ≠ "" → http_status 200 (get_tenant_id_from_path (Some s) w).1 =
    if decide (is_Some (uuid_parse s)) then 200%Z else 400%Z.
Proof.
  intros Hn. assert (∀ s, s ≠ "" → non_empty (Some s) = Some s) as Hne by (by intros [|c s]).
  split_and!; [|intros m Hm Heq; apply (f_equal uuid_parse) in Heq;
    rewrite (uuid_parse_str m Hm), (uuid_parse_str n Hn) in Heq; congruence|done|].
  - unfold get_tenant_id_from_path. rewrite Hne.
    + rewrite (bind_ret_run _ _ _ (uuid_str n) w eq_refl). by rewrite (uuid_parse_str n Hn).
    + intros He. pose proof (uuid_parse_str n Hn) as Hp. rewrite He in Hp. discriminate Hp.
  - intros s Hs. unfold get_tenant_id_from_path. rewrite Hne by done.
    rewrite (bind_ret_run _ _ _ s w eq_refl). destruct (uuid_parse s); case_decide as Hd;
      try done; destruct Hd; by eexists.
Qed.
End deps_properties.

Lemma access_control_witness :
  post (require_permission_in_active_tenant Permissions.TENANT_MANAGE_INVITATIONS
    (mkRequest (Some (jwt_encode 2000000000 (uuid_str 1))) None None (Some (uuid_str 10)))) w0
    (λ r w', r = Ret (alice, acme) ∧ durable w' = sample ∧ permits sample 1 10 "tenant:manage_invitations").
Proof.
  set (rq := mkRequest _ _ _ _).
  pose proof (access_control_sound Permissions.TENANT_MANAGE_INVITATIONS rq w0 w0_usable w0_ok) as HP.
  assert ((require_permission_in_active_tenant Permissions.TENANT_MANAGE_INVITATIONS rq w0).1
          = Ret (alice, acme)) as Hr by (vm_compute; reflexivity).
  unfold post in *. destruct (require_permission_in_active_tenant _ rq w0) as [r w'].
  simpl in Hr. subst r. destruct HP as [Hd HP].
  destruct (HP alice acme eq_refl) as (_ & _ & _ & _ & _ & [Hsu|[_ Hper]]); [discriminate Hsu|].
  split; [reflexivity|]. split; [exact Hd|exact Hper].
Defined.

Lemma active_tenant_witness :
  get_current_active_tenant alice (Some (uuid_str 10)) w0 = (Ret acme, w0) ∧
  ∃ e, get_current_active_tenant alice (Some (uuid_str 11)) w0 = (Raise e, w0).
Proof.
  set (mem := λ tid, negb (bool_decide (filter (λ '(uid, _, tn), uid = 1%N ∧ tn = tid)
                             (utr_rows (S := Snap) (view w0)) = []))).
  assert (∀ tid, mem tid = true ↔ member (view w0) 1 tid) as Hm.
  { intros tid. unfold mem. rewrite negb_true_iff, bool_decide_eq_false.
    apply (member_rows_iff (S := Snap)). }
  split.
  - destruct (active_tenant_spec alice (Some (uuid_str 10)) mem w0 w0_usable w0_ok Hm eq_refl)
      as (r & Hr & Hiff & _).
    rewrite Hr. f_equal. apply Hiff. exists (uuid_str 10). split; [reflexivity|].
    split; [vm_compute; discriminate|]. split; [vm_compute; reflexivity|].
    split; [vm_compute; reflexivity|]. right. exists 20%N. eexists. vm_compute. reflexivity.
  - destruct (active_tenant_spec alice (Some (uuid_str 11)) mem w0 w0_usable w0_ok Hm eq_refl)
      as (r & Hr & Hiff & _).
    destruct r as [x|e]; [|exists e; exact Hr]. exfalso.
    destruct (proj1 (Hiff x) eq_refl) as (s & Hs & _ & Hp & _ & [Hsu|Hmem]); [discriminate Hsu|].
    injection Hs as <-. assert (uuid_parse (uuid_str 11) = Some 11%N) as H11 by (vm_compute; reflexivity).
    rewrite H11 in Hp. injection Hp as Hp. rewrite <- Hp in Hmem. apply Hm in Hmem.
    assert (mem 11%N = false) as Hf by (vm_compute; reflexivity). congruence.
Defined.

(** A database that rejects [EXISTS (SELECT * )], as PostgreSQL does. *)
Definition rejecting : Session Snap := snap_session false None None.

(** Alice may read roles: the helper says so on either database, the check
    behind the endpoints only where the statement is accepted. *)
Lemma permission_checks_witness :
  check_active_tenant_permission Permissions.ROLE_READ alice acme w0 = (Ret alice, w0) ∧
  @check_active_tenant_permission Snap rejecting Permissions.ROLE_READ alice acme w0 = (Raise ProgrammingError, w0) ∧
  @check_user_permission_for_tenant Snap rejecting 1 10 Permissions.ROLE_READ w0 = (Ret true, w0).
Proof.
  assert (permits (view w0) 1 10 (value Permissions.ROLE_READ)) as Hp.
  { exists 20%N, 31%N, read_roles. split_and!.
    - eexists. vm_compute. reflexivity.
    - apply (bool_decide_unpack _). vm_compute. exact I.
    - vm_compute. reflexivity.
    - reflexivity. }
  destruct (permission_checks_agree Permissions.ROLE_READ alice acme true w0 w0_usable w0_ok)
    as (_ & H2 & _); [split; [intros _; exact Hp|reflexivity]|].
  destruct (@permission_checks_agree Snap rejecting (snap_laws _ _ _) Permissions.ROLE_READ alice acme true
    w0 w0_usable w0_ok) as (_ & H3 & _ & H4); [split; [intros _; exact Hp|reflexivity]|].
  split; [exact H2|]. split; [exact H3|exact H4].
Defined.

Lemma token_authentication_witness :
  post (get_current_user_from_token (Some "garbage")) w0 (λ r w',
    match r with Ret _ => True | Raise _ => http_status 200 r = 500%Z end).
Proof.
  eapply post_mono; [apply (token_authentication_spec "garbage" w0 w0_usable w0_ok); discriminate|].
  intros [o|e] w' [_ Hr]; [exact I|]. destruct Hr as [_ ->].
  rewrite bool_decide_eq_false_2; [reflexivity|]. vm_compute. discriminate.
Defined.

Lemma tenant_path_witness :
  get_tenant_id_from_path (Some "00000000-0000-0000-0000-00000000000a") w0 = (Ret 10%N, w0).
Proof.
  destruct (tenant_path_roundtrip 10 w0) as [Hr _]; [reflexivity|].
  assert (uuid_str 10 = "00000000-0000-0000-0000-00000000000a") as Hs by (vm_compute; reflexivity).
  rewrite Hs in Hr. exact Hr.
Defined.
