(* ===== verification/PathPermissions.v ===== *)
(** * [api/deps.py]: the definitions later ones replace

    Python keeps the last of several definitions of a name.  The earlier ones
    here are the checks the comments speak of: [get_tenant_from_path] with its
    first message, [require_permission] on the permissions the user service
    lists, and the [any] and [all] variants; the ones in force are in [Deps].
    [service] is [user_service.get_user_permissions_in_tenant]. *)

From stdpp Require Import base tactics list gmap strings.
From Stdlib Require Import ZArith Lia.
From S2P Require Import Prelude PyStd Effects Models Session Snapshot Crud Stability.
From S2P Require Import RoleService Security ApiKeyService Deps.
From S2P Require UserService.

(** [', '.join(l)]. *)
Fixpoint comma_separated (l : list string) : string :=
  match l with
  | [] => ""
  | [s] => s
  | s :: l' => s +:+ ", " +:+ comma_separated l'
  end.

Section first_definitions.
Context {S : Type} `{Session S} `{Inputs}.

(** [get_tenant_from_path], the first time. *)
Definition get_tenant_from_path1 (tenant_id : Uuid) : M (World S) Tenant :=
  tenant ← get Tenant tenant_id;
  require tenant (HTTPException 404 ("Tenant with ID " +:+ uuid_str tenant_id +:+ " not found")).

(** The [except] clauses of the three checks. *)
Definition check_errors {A} (e : Exn) : M (World S) A :=
  if is_not_found e then raise (HTTPException 404 (exn_str e))
  else if is_authorization e then raise e
  else raise (HTTPException 500 "An error occurred while verifying permissions.").

Context (service : Uuid → Uuid → M (World S) (list string)).

(** [require_permission], the second time. *)
Definition require_permission2 (required_permission : string) (tenant : Tenant) (current_user : User)
    : M (World S) User :=
  if u_is_superuser current_user then mret current_user
  else
    try_catch
      (user_permissions ← service (u_id current_user) (t_id tenant);
       raise_if (bool_decide (required_permission ∉ user_permissions))
         (AuthorizationError ("User does not have required permission: " +:+ required_permission)) ;;
       mret current_user)
      check_errors.

(** [require_any_permission], the first time. *)
Definition require_any_permission1 (required_permissions : list string) (tenant : Tenant) (current_user : User)
    : M (World S) User :=
  if u_is_superuser current_user then mret current_user
  else
    try_catch
      (user_permissions ← service (u_id current_user) (t_id tenant);
       raise_if (negb (existsb (λ perm_str, bool_decide (perm_str ∈ user_permissions)) required_permissions))
         (AuthorizationError ("User does not have any of the required permissions: "
                              +:+ comma_separated required_permissions)) ;;
       mret current_user)
      check_errors.

(** [require_all_permissions], the first time. *)
Definition require_all_permissions1 (required_permissions : list string) (tenant : Tenant) (current_user : User)
    : M (World S) User :=
  if u_is_superuser current_user then mret current_user
  else
    try_catch
      (user_permissions ← service (u_id current_user) (t_id tenant);
       let missing_perms := filter (λ p, p ∉ user_permissions) required_permissions in
       raise_if (negb (forallb (λ perm_str, bool_decide (perm_str ∈ user_permissions)) required_permissions))
         (AuthorizationError ("User lacks required permissions: " +:+ comma_separated missing_perms)) ;;
       mret current_user)
      check_errors.
End first_definitions.

(** ** Properties *)

Lemma any_held (held ps : list string) :
  existsb (λ p, bool_decide (p ∈ held)) ps = bool_decide (Exists (.∈ held) ps).
Proof.
  induction ps as [|p ps IH]; [done|]. simpl. rewrite IH.
  apply eq_true_iff_eq. rewrite orb_true_iff, !bool_decide_eq_true. by rewrite Exists_cons.
Qed.

Lemma all_held (held ps : list string) :
  forallb (λ p, bool_decide (p ∈ held)) ps = bool_decide (Forall (.∈ held) ps).
Proof.
  induction ps as [|p ps IH]; [done|]. simpl. rewrite IH.
  apply eq_true_iff_eq. rewrite andb_true_iff, !bool_decide_eq_true. by rewrite Forall_cons.
Qed.

Section properties.
Context {S : Type} `{Session S} `{Inputs}.
Implicit Types w : World S.

(** The checks that were replaced.  Over a service that lists [held], the
    first [any] check admits a user holding one of the permissions, the first
    [all] check one holding all of them, and on a single permission both are
    the check of that permission; a refusal is an [AuthorizationError], which
    no handler turns into a 403.  Over the service as it is - its import fails -
    all of them answer 500 to everybody but superusers.  The definitions in
    force admit everybody, whatever is asked. *)
Theorem replaced_checks_spec p ps tenant user w :
  (∀ service held, service (u_id user) (t_id tenant) w = (Ret held, w) →
     require_permission2 service p tenant user w =
       (if u_is_superuser user || bool_decide (p ∈ held) then Ret user
        else Raise (AuthorizationError ("User does not have required permission: " +:+ p)), w) ∧
     require_any_permission1 service ps tenant user w =
       (if u_is_superuser user || bool_decide (Exists (.∈ held) ps) then Ret user
        else Raise (AuthorizationError ("User does not have any of the required permissions: "
                                        +:+ comma_separated ps)), w) ∧
     require_all_permissions1 service ps tenant user w =
       (if u_is_superuser user || bool_decide (Forall (.∈ held) ps) then Ret user
        else Raise (AuthorizationError ("User lacks required permissions: "
                                        +:+ comma_separated (filter (.∉ held) ps))), w)) ∧
  (u_is_superuser user = false → ∀ check,
     check ∈ [require_permission2 UserService.get_user_permissions_in_tenant p;
              require_any_permission1 UserService.get_user_permissions_in_tenant ps;
              require_all_permissions1 UserService.get_user_permissions_in_tenant ps] →
     check tenant user w = (Raise (HTTPException 500 "An error occurred while verifying permissions."), w)) ∧
  require_permission (S := S) p = None ∧
  require_any_permission ps tenant user w = (Ret user, w) ∧
  require_all_permissions ps tenant user w = (Ret user, w).
Proof.
  split_and!; [| |done..].
  - intros service held Hs. unfold require_permission2, require_any_permission1, require_all_permissions1.
    destruct (u_is_superuser user); [done|]. unfold try_catch. rewrite !(bind_ret_run _ _ _ _ _ Hs). simpl.
    rewrite any_held, all_held. split_and!; [|by destruct (bool_decide (Exists _ _))|by destruct (bool_decide (Forall _ _))].
    destruct (decide (p ∈ held)); [by rewrite bool_decide_false, bool_decide_true by tauto|].
    by rewrite bool_decide_true, bool_decide_false by done.
  - intros Hno check Hc. unfold require_permission2, require_any_permission1, require_all_permissions1 in Hc.
    repeat (apply elem_of_cons in Hc as [->|Hc]; [by rewrite Hno|]). by apply elem_of_nil in Hc.
Qed.
End properties.

(** A service that answers, for the example. *)
Definition one_permission (_ _ : Uuid) : M (World Snap) (list string) := mret ["role:read"].

Lemma replaced_checks_witness :
  require_any_permission1 one_permission ["user:read"; "role:read"] acme bob w0 = (Ret bob, w0) ∧
  require_permission2 UserService.get_user_permissions_in_tenant "role:read" acme bob w0 =
    (Raise (HTTPException 500 "An error occurred while verifying permissions."), w0).
Proof.
  pose proof (replaced_checks_spec "role:read" ["user:read"; "role:read"] acme bob w0) as (Hheld & Hreal & _).
  split.
  - destruct (Hheld one_permission ["role:read"] eq_refl) as (_ & -> & _). reflexivity.
  - apply Hreal; [reflexivity|left].
Defined.
