(* ===== verification/InvitationApi.v ===== *)
(** * [api/v1/endpoints/invitations.py]

    Each handler is modelled with the dependencies its signature and its route
    name, in FastAPI's order; [get_db] runs it in a session of its own.
    pydantic's checks of the request body are a parameter; a reply is the row
    the handler returns. *)

From stdpp Require Import base tactics list gmap sorting strings.
From Stdlib Require Import ZArith Lia.
From S2P Require Import Prelude PyStd Effects Models Session Snapshot Crud.
From S2P Require Import RoleService UserService Security InvitationService Deps.
From S2P Require Permissions.
Import Permissions(TENANT_MANAGE_INVITATIONS).

(** What pydantic and email-validator decide. *)
Class Pydantic := {
  email_valid : string → bool;          (** the string is an [EmailStr] *)
  validation_message : string → string  (** [str()] of a [ValidationError] of a model *)
}.

(** ** Request bodies *)

Record InvitationCreate := mkInvitationCreate {
  ic_email : string;
  ic_tenant_id : Uuid;
  ic_role_id : option Uuid;
  ic_expires_in_days : option Z
}.

Record InvitationAccept := mkInvitationAccept {
  ia_token : string;
  ia_password : string;
  ia_first_name : option string;
  ia_last_name : option string
}.

(** [InvitationTokenResponse]. *)
Record TokenResponse := mkTokenResponse {
  tr_valid : bool;
  tr_email : string;
  tr_tenant_id : Uuid;
  tr_tenant_name : option string;
  tr_inviter_email : option string;
  tr_expires_at : datetime;
  tr_role_id : option Uuid;
  tr_token : string
}.

Section invitation_api.
Context {S : Type} `{Session S} `{Inputs} `{Passlib} `{Jose} `{Pydantic}.

(** The [except Exception] clauses of this module. *)
Definition unexpected {A} (detail : string) : M (World S) A := raise (HTTPException 500 detail).

Definition create_invitation (rq : Request) (invitation_in : InvitationCreate)
    : M (World S) (Invitation * string) :=
  '(current_user, _) ← require_permission_in_active_tenant TENANT_MANAGE_INVITATIONS rq;
  try_catch
    (InvitationService.create_invitation (ic_email invitation_in) (ic_tenant_id invitation_in)
       (u_id current_user) (ic_role_id invitation_in) (ic_expires_in_days invitation_in))
    (λ e,
      if is_not_found e then raise (HTTPException 404 (exn_str e))
      else if is_value_error e then raise (http_bad_request_error (exn_str e))
      else if is_authorization e then raise (HTTPException 403 (exn_str e))
      else unexpected "An unexpected error occurred while creating the invitation.").

Definition list_invitations (rq : Request) (tenant_id : Uuid) (status_filter : option InvitationStatus)
    (skip limit : nat) : M (World S) (list Invitation) :=
  current_user ← get_current_active_user rq;
  has_permission ← check_user_permission_for_tenant (u_id current_user) tenant_id
                     TENANT_MANAGE_INVITATIONS;
  raise_if (negb has_permission && negb (u_is_superuser current_user))
    (HTTPException 403 ("Not enough permissions to manage invitations for tenant "
                        +:+ uuid_str tenant_id)) ;;
  try_catch
    (match status_filter with
     | Some status =>
         invitations ← get_multi_by_tenant tenant_id 0 1000;
         let filtered_invitations := filter (λ inv, i_status inv = status) invitations in
         mret (page skip limit filtered_invitations)
     | None => get_multi_by_tenant tenant_id skip limit
     end)
    (λ e, unexpected "An unexpected error occurred while listing invitations.").

Definition verify_invitation_token (token : string) : M (World S) TokenResponse :=
  try_catch
    (invitation ← verify_token token;
     invitation ← require invitation (HTTPException 400 "Invitation token is invalid or expired.");
     details ← get_invitation_with_details (i_id invitation);
     details ← require details (AttributeError "get");
     let i := d_invitation details in
     mret (mkTokenResponse true (i_email i) (i_tenant_id i) (d_tenant_name details)
             (d_inviter_email details) (i_expires_at i) (i_role_id i) token))
    (λ e, if is_http e then raise e
          else unexpected "An unexpected error occurred while verifying the invitation token.").

Definition read_invitation (rq : Request) (invitation_id : Uuid) : M (World S) InvitationDetails :=
  current_user ← get_current_user rq;
  try_catch
    (details ← get_invitation_with_details invitation_id;
     details ← require details (NotFoundError "Invitation not found");
     (if u_is_superuser current_user then mret tt
      else
        has_permission ← check_user_permission_for_tenant (u_id current_user)
                           (i_tenant_id (d_invitation details)) TENANT_MANAGE_INVITATIONS;
        raise_if (negb has_permission)
          (HTTPException 403 "Not enough permissions to view this invitation")) ;;
     mret details)
    (λ e, if is_not_found e then raise (HTTPException 404 (exn_str e))
          else unexpected "An unexpected error occurred while reading the invitation.").

Definition revoke_invitation (rq : Request) (invitation_id : Uuid) : M (World S) Invitation :=
  current_user ← get_current_user rq;
  try_catch
    (invitation ← get Invitation invitation_id;
     invitation ← require invitation (NotFoundError "Invitation not found");
     (if u_is_superuser current_user then mret tt
      else
        has_permission ← check_user_permission_for_tenant (u_id current_user)
                           (i_tenant_id invitation) TENANT_MANAGE_INVITATIONS;
        raise_if (negb has_permission)
          (HTTPException 403 "Not enough permissions to revoke this invitation")) ;;
     revoked_invitation ← InvitationService.revoke_invitation invitation_id;
     require revoked_invitation
       (NotFoundError "Invitation could not be revoked (not found after initial check)"))
    (λ e,
      if is_not_found e then raise (HTTPException 404 (exn_str e))
      else if is_authorization e then raise (HTTPException 403 (exn_str e))
      else unexpected "An unexpected error occurred while revoking the invitation.").

(** [UserCreate( ** user_in_dict)]. *)
Definition user_create_schema (email password : string) (first_name last_name : option string)
    : UserCreate + Exn :=
  match first_name, last_name with
  | Some f, Some l =>
      if email_valid email && (8 <=? str_len password)%nat then
        inl (mkUserCreate email password f l true false)
      else inr (PydanticValidationError (validation_message "UserCreate"))
  | _, _ => inr (PydanticValidationError (validation_message "UserCreate"))
  end.

(** [user_service.create(db=db, obj_in=user_create_schema)]: the method's
    required keyword argument [tenant_id] is not given. *)
Definition create_user_call (obj_in : UserCreate) : M (World S) User :=
  raise (TypeError "UserService.create() missing 1 required keyword-only argument: 'tenant_id'").

Definition accept_invitation (payload : InvitationAccept) : M (World S) User :=
  try_catch
    (invitation ← verify_token (ia_token payload);
     invitation ← require invitation (HTTPException 400 "Invitation token is invalid or expired.");
     new_user ← try_catch
       (schema ← lift (user_create_schema (i_email invitation) (ia_password payload)
                         (ia_first_name payload) (ia_last_name payload));
        create_user_call schema)
       (λ val_err,
         if is_value_error val_err then
           raise (http_bad_request_error ("Invalid user data provided: " +:+ exn_str val_err))
         else
           rollback ;; raise (HTTPException 500 "Failed to create associated user account."));
     accepted_invitation ← InvitationService.accept_invitation (ia_token payload) (u_id new_user);
     (match accepted_invitation with
      | None => rollback ;; raise (HTTPException 500 "Failed to finalize invitation acceptance.")
      | Some _ => mret tt
      end) ;;
     final_user ← get User (u_id new_user);
     require final_user (HTTPException 500 "Internal error finding newly created user."))
    (λ e,
      if is_http e then raise e
      else if is_value_error e then raise (http_bad_request_error (exn_str e))
      else
        rollback ;; unexpected "An unexpected error occurred while accepting the invitation.").
End invitation_api.

#[global] Instance toy_pydantic : Pydantic := {|
  email_valid s := str_contains "@" s;
  validation_message m := "validation error for " +:+ m
|}.

(** ** Properties *)

Section invitation_api_properties.
Context {S : Type} `{SessionLaws S} `{Inputs} `{Passlib} `{JoseLaws} `{Pydantic}.
Implicit Types w : World S.

(** Accepting an invitation over the API never succeeds: the reply is 400
    for a bad token or bad user data and 500 otherwise, no user is created and
    no invitation becomes accepted - at most an overdue one is marked
    expired. *)
Theorem accept_endpoint_never_succeeds payload w :
  db_ok (durable w) →
  let '(r, w') := get_db (accept_invitation payload) w in
  (http_status 200 r = 400%Z ∨ http_status 200 r = 500%Z) ∧
  (http_status 200 r = 500%Z → ∃ i, has_token (durable w) (ia_token payload) i ∧ i_status i = PENDING) ∧
  users (durable w') = users (durable w) ∧ user_tenant_roles (durable w') = user_tenant_roles (durable w) ∧
  (durable w' = durable w ∨ ∃ i o, has_token (durable w) (ia_token payload) i ∧
     (i_expires_at i < now w)%Z ∧ stored o (set_status EXPIRED i) ∧
     durable w' = with_invitation o (durable w)).
Proof.
  intros Hok. change (post (get_db (accept_invitation payload)) w (λ r w',
    (http_status 200 r = 400%Z ∨ http_status 200 r = 500%Z) ∧
    (http_status 200 r = 500%Z → ∃ i, has_token (durable w) (ia_token payload) i ∧ i_status i = PENDING) ∧
    users (durable w') = users (durable w) ∧ user_tenant_roles (durable w') = user_tenant_roles (durable w) ∧
    (durable w' = durable w ∨ ∃ i o, has_token (durable w) (ia_token payload) i ∧
     (i_expires_at i < now w)%Z ∧ stored o (set_status EXPIRED i) ∧
     durable w' = with_invitation o (durable w)))).
  apply post_get_db_durable.
  assert (usable (reopen w) = true) as Hu by apply usable_reopen.
  assert (view (reopen w) = durable w) as Hv by apply view_reopen.
  unfold accept_invitation. apply post_try, post_bind, verify_token_post; rewrite ?Hv; [done..| | |].
  - intros Hno. apply post_bind, post_require; [|done]. intros _. apply post_raise. simpl.
    intros w2 Hw2. rewrite Hw2. autorewrite with world. split_and!; auto. done.
  - intros i Hi Hle. case_decide as Hp.
    2:{ apply post_bind, post_require; [|done]. intros _. apply post_raise. simpl.
        intros w2 Hw2. rewrite Hw2. autorewrite with world. split_and!; auto. done. }
    apply post_bind, post_ret, post_bind, post_try, post_bind. unfold lift, create_user_call.
    destruct (user_create_schema _ _ _ _) as [sch|e] eqn:Hsch.
    + apply post_ret, post_raise. simpl. wp. intros w2 Hw2. rewrite Hw2.
      autorewrite with world. simpl. split_and!; auto. intros _. by exists i.
    + assert (is_value_error e = true) as Hve.
      { unfold user_create_schema in Hsch. repeat case_match; by simplify_eq. }
      apply post_raise. rewrite Hve. apply post_raise. simpl. apply post_raise.
      intros w2 Hw2. rewrite Hw2. autorewrite with world. simpl. split_and!; auto. done.
  - intros i o w' Hi Hlt Hst Hv' Hd' _ _. apply post_bind, post_require; [|done]. intros _.
    apply post_raise. simpl. intros w2 Hw2. rewrite Hw2, Hd', Hv'.
    split_and!; auto; [done|]. right. exists i, o. by split_and!.
Qed.

(** C40. Revoking over the API: an authenticated user revokes a pending
    invitation exactly when he is a superuser or holds
    [tenant:manage_invitations] in the invitation's tenant; a user without the
    permission gets 500, because the 403 is raised inside the [try] whose
    [except Exception] takes it, and nothing is committed. *)
Theorem revoke_endpoint_spec rq id u w1 w :
  db_ok (durable w) → get_current_user rq (reopen w) = (Ret u, w1) →
  post (get_db (revoke_invitation rq id)) w (λ r w',
    match invitations (durable w) !! id with
    | None => http_status 200 r = 404%Z ∧ durable w' = durable w
    | Some i =>
        (u_is_superuser u = true ∨
         permits (durable w) (u_id u) (i_tenant_id i) "tenant:manage_invitations") ∧
        (∃ o, r = Ret o ∧ invitations (durable w') !! id = Some o ∧
              (if decide (i_status i = PENDING) then stored o (set_status REVOKED i)
               else o = i ∧ durable w' = durable w))
        ∨ u_is_superuser u = false ∧
          ¬ permits (durable w) (u_id u) (i_tenant_id i) "tenant:manage_invitations" ∧
          http_status 200 r = 500%Z ∧ durable w' = durable w
    end).
Proof.
  intros Hok Hrun. destruct (authenticated_view _ _ _ _ Hok Hrun) as (Hu1 & Hok1 & Hd1 & [m Hv1] & _).
  apply post_get_db_durable.
  unfold revoke_invitation. apply post_bind. unfold post at 1. rewrite Hrun.
  apply post_try, post_bind, post_get; [done|apply Hok1|]. simpl.
  assert (invitations (view w1) = invitations (durable w)) as -> by (by rewrite Hv1).
  destruct (invitations (durable w) !! id) as [i|] eqn:Hi.
  2:{ apply post_bind, post_require; [|done]. intros _. apply post_raise. simpl.
      intros w2 Hw2. by rewrite Hw2, Hd1. }
  apply post_bind, post_require; [done|]. intros i' [= <-].
  assert (post (InvitationService.revoke_invitation id) w1 (λ r w', match r with
      | Ret (Some o) => invitations (durable w') !! id = Some o ∧
          (if decide (i_status i = PENDING) then stored o (set_status REVOKED i)
           else o = i ∧ durable w' = durable w)
      | _ => False end)) as Hrev.
  { eapply post_mono; [by apply revoke_invitation_post|]. intros r w'. rewrite Hv1. simpl. rewrite Hi.
    case_decide; [|intros [-> ->]; by rewrite Hd1].
    intros (o & -> & Hst & Hdw & _). rewrite Hdw. split; [|done]. simpl.
    destruct (stored_fields _ _ Hst) as (Hid & _). simpl in Hid.
    pose proof (model_ids (ok_invitations _ Hok) id i Hi) as Hid'. simpl in Hid'. subst id.
    by rewrite Hid, lookup_insert_eq. }
  apply post_bind. destruct (u_is_superuser u) eqn:Hsu.
  - apply post_ret, post_bind. eapply post_mono; [exact Hrev|]. intros [[o|]|e] w2 Hr2; try done.
    apply post_ret. simpl. intros w3 Hw3. rewrite Hw3. left. split; [by left|]. by exists o.
  - apply post_bind, check_user_permission_post; [done..|]. intros b Hb. rewrite Hv1 in Hb.
    apply post_raise_if; intros Hbb.
    + simpl. apply post_raise. intros w2 Hw2. rewrite Hw2, Hd1. right.
      apply negb_true_iff in Hbb. subst b. split_and!; try done. intros Hp. by apply Hb in Hp.
    + apply negb_false_iff in Hbb. subst b. apply post_bind.
      eapply post_mono; [exact Hrev|]. intros [[o|]|e] w2 Hr2; try done.
      apply post_ret. simpl. intros w3 Hw3. rewrite Hw3. left. split; [right; by apply Hb|].
      by exists o.
Qed.

(** Over HTTP the token is the invitation's own, and the invitation is a new
    one or one the database holds already. *)
Lemma create_invitation_token rq body w :
  usable w = true → db_ok (view w) →
  post (create_invitation rq body) w (λ r _, ∀ i token, r = Ret (i, token) →
    token = i_token i ∧ i_email i = ic_email body ∧ i_tenant_id i = ic_tenant_id body ∧
    (invitations (view w) !! i_id i = Some i ∨ invitations (view w) !! i_id i = None)).
Proof.
  intros Hu Hok. unfold create_invitation. apply post_bind.
  eapply post_mono; [by apply require_permission_post|]. intros [[u x]|e] w1 [Hd1 Hr]; [|done].
  destruct Hr as ((_ & Hu1 & Hok1 & m & Hv1) & _).
  apply post_try. eapply post_mono; [by apply create_invitation_post|]. intros [[i token]|e] w2.
  - rewrite Hv1. cbn [invitations set_api_keys]. intros (-> & Hcase) i' token' [= <- <-]. split; [done|].
    destruct Hcase as [[(Hi & He & Ht & _) _]|(_ & (d & _ & Hnew) & Hno & _)].
    + by split_and!; [..|left].
    + destruct Hnew as (? & ? & _). by split_and!; [..|right].
  - intros _. unfold unexpected, http_bad_request_error. by repeat case_match_goal; apply post_raise.
Qed.

(** An invitation created over the API is for the tenant of the request
    body, while the permission was checked in the tenant of the header; a
    failed request commits nothing. *)
Theorem create_endpoint_spec rq body w :
  db_ok (durable w) →
  post (get_db (create_invitation rq body)) w (λ r w',
    match r with
    | Ret (i, token) => ∃ u x,
        users (durable w) !! u_id u = Some u ∧ u_is_active u = true ∧
        tenants (durable w) !! t_id x = Some x ∧
        (u_is_superuser u = true ∨
         permits (durable w) (u_id u) (t_id x) "tenant:manage_invitations") ∧
        i_tenant_id i = ic_tenant_id body ∧ i_email i = ic_email body ∧ i_status i = PENDING ∧
        token = i_token i ∧ invitations (durable w') !! i_id i = Some i
    | Raise _ => durable w' = durable w
    end).
Proof.
  intros Hok. apply post_get_db_durable. unfold create_invitation. apply post_bind.
  pose proof (require_permission_post TENANT_MANAGE_INVITATIONS rq (reopen w)) as HP.
  rewrite view_reopen, durable_reopen in HP. specialize (HP (usable_reopen w) Hok).
  eapply post_mono; [exact HP|]. clear HP. intros [[u x]|e] w1 [Hd1 Hr].
  2:{ intros w2 Hw2. by rewrite Hw2. }
  destruct Hr as ((_ & Hu1 & Hok1 & m & Hv1) & Hus & Hact & _ & Hx & _ & Hper).
  rewrite view_reopen in Hv1, Hus, Hx, Hper.
  assert (u_is_superuser u = true ∨ permits (durable w) (u_id u) (t_id x) "tenant:manage_invitations")
    as Hallowed by (destruct Hper as [?|[_ ?]]; auto).
  apply post_try. eapply post_mono; [by apply create_invitation_post|]. intros [[i token]|e] w2.
  - intros (-> & Hcase) w3 Hw3. rewrite Hw3. exists u, x.
    destruct Hcase as [[(Hi & He & Ht & Hp & _) ->]|(_ & (d & _ & Hnew) & _ & _ & Hdw)].
    + split_and!; try done. autorewrite with world. rewrite Hd1. by rewrite Hv1 in Hi.
    + destruct Hnew as (? & ? & _ & _ & ? & _). split_and!; try done. rewrite Hdw. simpl.
      by rewrite lookup_insert_eq.
  - intros (Hd2 & _). assert (∀ e' : Exn, post (raise (W := World S) (A := Invitation * string) e') w2
      (λ r w', ∀ w'' : World S, durable w'' = durable w' →
      match r with
      | Ret (i, token) => ∃ u x,
        users (durable w) !! u_id u = Some u ∧ u_is_active u = true ∧
        tenants (durable w) !! t_id x = Some x ∧
        (u_is_superuser u = true ∨
         permits (durable w) (u_id u) (t_id x) "tenant:manage_invitations") ∧
        i_tenant_id i = ic_tenant_id body ∧ i_email i = ic_email body ∧ i_status i = PENDING ∧
        token = i_token i ∧ invitations (durable w'') !! i_id i = Some i
      | Raise _ => durable w'' = durable w end)) as Hfail.
    { intros e'. apply post_raise. intros w3 Hw3. by rewrite Hw3, Hd2. }
    unfold unexpected, http_bad_request_error. repeat case_match_goal; apply Hfail.
Qed.

(** The listing of a tenant's invitations is granted to superusers and to
    holders of the permission in that tenant; it shows only invitations of
    that tenant, newest first, and with a status filter only those with the
    status among the newest 1000; numbers beyond a [bigint] end in a 500. *)
Theorem list_endpoint_spec rq tid status skip limit u w1 w :
  db_ok (durable w) → get_current_active_user rq (reopen w) = (Ret u, w1) →
  post (get_db (list_invitations rq tid status skip limit)) w (λ r w', durable w' = durable w ∧
    ((u_is_superuser u = true ∨ permits (durable w) (u_id u) tid "tenant:manage_invitations") ∧
     (∃ all, StronglySorted (newer i_created_at) all ∧ NoDup all ∧
       (∀ i, i ∈ all ↔ invitations (durable w) !! i_id i = Some i ∧ i_tenant_id i = tid) ∧
       r = match status with
           | Some s => Ret (page skip limit (filter (λ i, i_status i = s) (page 0 1000 all)))
           | None =>
               if page_fits skip limit then Ret (page skip limit all)
               else Raise (HTTPException 500 "An unexpected error occurred while listing invitations.")
           end)
     ∨ u_is_superuser u = false ∧ ¬ permits (durable w) (u_id u) tid "tenant:manage_invitations" ∧
       http_status 200 r = 403%Z)).
Proof.
  intros Hok Hrun. pose proof (get_current_active_user_post rq (reopen w) (usable_reopen w)) as HP.
  rewrite view_reopen in HP. specialize (HP Hok). unfold post in HP. rewrite Hrun in HP.
  destruct HP as (_ & (Hd1 & Hu1 & Hok1 & m & Hv1) & _). autorewrite with world in *.
  apply post_get_db_durable.
  unfold list_invitations. apply post_bind. unfold post at 1. rewrite Hrun.
  apply post_bind, check_user_permission_post; [done..|]. intros b Hb. rewrite Hv1 in Hb.
  apply post_bind, post_raise_if; intros Hden.
  - intros w2 Hw2. rewrite Hw2, Hd1. split; [done|]. right.
    apply andb_true_iff in Hden as [Hb0 Hsu]. apply negb_true_iff in Hb0, Hsu. subst b.
    split_and!; try done. intros Hp. by apply Hb in Hp.
  - assert (u_is_superuser u = true ∨ permits (durable w) (u_id u) tid "tenant:manage_invitations") as Hp.
    { destruct (u_is_superuser u); [by left|right]. apply Hb. by destruct b. }
    set (all := order_by_desc i_created_at
      (select (S := S) (λ i, i_tenant_id i = tid) (view w1))).
    assert (all ≡ₚ select (S := S) (λ i, i_tenant_id i = tid) (view w1)) as Hperm
      by apply order_by_desc_perm.
    assert (StronglySorted (newer i_created_at) all ∧ NoDup all ∧
      ∀ i, i ∈ all ↔ invitations (durable w) !! i_id i = Some i ∧ i_tenant_id i = tid) as (Hs & Hnd & Hin).
    { split_and!; [apply order_by_desc_sorted| |].
      - rewrite Hperm. apply NoDup_filter, NoDup_rows, Hok1.
      - intros i. rewrite Hperm, elem_of_select. simpl. rewrite Hv1. simpl. split.
        + intros [Ht [j Hj]]. pose proof (model_ids (ok_invitations _ Hok) j i Hj) as Hid.
          simpl in Hid. by subst j.
        + intros [Hi Ht]. split; [done|]. by exists (i_id i). }
    unfold get_multi_by_tenant. apply post_try. destruct status as [s|].
    + apply post_bind, post_query_page; [done| |by vm_compute]. intros _. apply post_ret. intros w2 Hw2.
      rewrite Hw2, Hd1. split; [done|]. left. split; [done|]. by exists all.
    + apply post_query_page; [done| |]; intros ->; [|apply post_raise]; intros w2 Hw2;
        rewrite Hw2, Hd1; (split; [done|]); left; (split; [done|]); by exists all.
Qed.
End invitation_api_properties.

(** Alice administers Acme and has no role in Globex, yet the API creates an
    invitation to Globex in her name. *)
Theorem cross_tenant_invitation :
  ∃ rq body i token,
    rq_tenant_header rq = Some (uuid_str 10) ∧ ic_tenant_id body = 11%N ∧
    (get_db (create_invitation rq body) w0).1 = Ret (i, token) ∧
    i_tenant_id i = 11%N ∧ i_inviter_id i = u_id alice ∧ u_is_superuser alice = false ∧
    ¬ member (durable w0) (u_id alice) 11 ∧
    invitations (durable (get_db (create_invitation rq body) w0).2) !! i_id i = Some i.
Proof.
  exists (mkRequest (Some (jwt_encode 2000000000 (uuid_str 1))) None None (Some (uuid_str 10))).
  exists (mkInvitationCreate "mallory@x.io" 11 None (Some 7%Z)).
  assert (¬ member (durable w0) (u_id alice) 11) as Hm.
  { intros [rid [x Hx]].
    assert (map_Forall (λ k _, ¬ (k.1.1 = 1%N ∧ k.2 = 11%N)) (user_tenant_roles (durable w0))) as Hf
      by (apply (bool_decide_unpack _); vm_compute; exact I).
    exact (Hf _ _ Hx (conj eq_refl eq_refl)). }
  eexists _, _. split; [reflexivity|]. split; [reflexivity|].
  split; [vm_compute; reflexivity|]. split; [reflexivity|]. split; [reflexivity|].
  split; [reflexivity|]. split; [exact Hm|]. vm_compute. reflexivity.
Qed.

(** A request of Alice's, with her token and Acme as the active tenant. *)
Definition as_alice : Request :=
  mkRequest (Some (jwt_encode 2000000000 (uuid_str 1))) None None (Some (uuid_str 10)).

Lemma as_alice_user :
  ∃ w1, get_current_user as_alice (reopen w0) = (Ret alice, w1) ∧
        get_current_active_user as_alice (reopen w0) = (Ret alice, w1).
Proof. eexists. split; vm_compute; reflexivity. Qed.

Lemma alice_may : permits (durable w0) 1 10 "tenant:manage_invitations".
Proof.
  exists 20%N, 30%N, manage_invitations. split_and!.
  - eexists. vm_compute. reflexivity.
  - apply (bool_decide_unpack _). vm_compute. exact I.
  - vm_compute. reflexivity.
  - reflexivity.
Qed.

Lemma accept_endpoint_witness :
  let '(r, w') := get_db (accept_invitation
    (mkInvitationAccept "tok-pending" "longenough" (Some "Da") (Some "Ve"))) w0 in
  users (durable w') = users (durable w0) ∧
  (http_status 200 r = 400%Z ∨ http_status 200 r = 500%Z).
Proof.
  pose proof (accept_endpoint_never_succeeds
    (mkInvitationAccept "tok-pending" "longenough" (Some "Da") (Some "Ve")) w0 w0_durable_ok) as HP.
  destruct (get_db _ w0) as [r w']. destruct HP as (Hs & _ & Hu & _). split; [exact Hu|exact Hs].
Defined.

Lemma revoke_endpoint_witness :
  post (get_db (revoke_invitation as_alice 40)) w0 (λ r w', ∃ o, r = Ret o ∧ i_status o = REVOKED).
Proof.
  destruct as_alice_user as (w1 & Hrun & _).
  eapply post_mono; [apply (revoke_endpoint_spec as_alice 40 alice w1 w0 w0_durable_ok Hrun)|].
  intros r w'. cbv beta.
  assert (invitations (durable w0) !! 40%N = Some pending_inv) as -> by (vm_compute; reflexivity).
  intros [(_ & o & -> & _ & Hst)|(_ & Hno & _)]; [|destruct (Hno alice_may)].
  rewrite decide_True in Hst by reflexivity. exists o. split; [reflexivity|].
  destruct (stored_fields _ _ Hst) as (_ & _ & _ & -> & _). reflexivity.
Defined.

Lemma create_endpoint_witness :
  post (get_db (create_invitation as_alice (mkInvitationCreate "new@acme.io" 10 None (Some 7%Z)))) w0
    (λ r w', match r with Ret (i, _) => i_tenant_id i = 10%N | Raise _ => durable w' = durable w0 end).
Proof.
  eapply post_mono; [apply (create_endpoint_spec as_alice
    (mkInvitationCreate "new@acme.io" 10 None (Some 7%Z)) w0 w0_durable_ok)|].
  intros [[i token]|e] w'; [|exact id]. intros (u & x & _ & _ & _ & _ & Ht & _). exact Ht.
Defined.

Lemma list_endpoint_witness :
  post (get_db (list_invitations as_alice 10 (Some PENDING) 0 5)) w0 (λ r w', ∃ l, r = Ret l).
Proof.
  destruct as_alice_user as (w1 & _ & Hrun).
  eapply post_mono; [apply (list_endpoint_spec as_alice 10 (Some PENDING) 0 5 alice w1 w0 w0_durable_ok Hrun)|].
  intros r w' (_ & [(_ & all & _ & _ & _ & ->)|(_ & Hno & _)]); [|destruct (Hno alice_may)].
  eexists. reflexivity.
Defined.
