(* ===== verification/TenantApi.v ===== *)
(** * [endpoints/tenants.py], [endpoints/users.py],
      [endpoints/tenant_user_management.py] and [endpoints/auth.py]

    A Module per file of endpoints ([Tenants], [Users], [TenantUsers], [Auth]),
    a definition per handler, then the properties of logins, profile and status
    updates and tenant creation. *)

From stdpp Require Import base tactics list gmap strings.
From Stdlib Require Import ZArith Lia.
From S2P Require Import Prelude PyStd Effects Models Session Snapshot Crud Stability.
From S2P Require Import RoleService UserService Security ApiKeyService Deps.
From S2P Require Permissions TenantService.

(** What FastAPI injects for [Depends(None)] on a parameter annotated with this
    class: it fails with an exception, or passes a value no handler uses. *)
Class Fastapi := { depends_none : string → option Exn }.

#[global] Instance lenient_fastapi : Fastapi := {| depends_none _ := None |}.

Section inject.
Context {S : Type} `{Session S} `{Fastapi}.

Definition inject_none (annotation : string) : M (World S) unit :=
  match depends_none annotation with Some e => raise e | None => mret tt end.
End inject.

(** ** [endpoints/tenants.py] *)

Module Tenants.
Section tenants.
Context {S : Type} `{Session S} `{Inputs} `{Jose}.

Definition list_accessible_tenants (rq : Request) : M (World S) (list Tenant) :=
  current_user ← get_current_user rq;
  TenantService.get_multi_by_user (u_id current_user).

Definition create_tenant (tenant_in : TenantService.TenantCreate) : M (World S) Tenant :=
  existing_tenant ← TenantService.get_by_name (TenantService.tc_name tenant_in);
  raise_if (truthy existing_tenant)
    (http_validation_error ("Tenant with name " +:+ TenantService.tc_name tenant_in
                            +:+ " already exists")) ;;
  TenantService.create tenant_in.

Definition get_tenant_by_id (tenant_id : Uuid) : M (World S) Tenant :=
  tenant ← get Tenant tenant_id;
  require tenant (HTTPException 404 "Tenant not found").

Definition get_tenant_by_slug (slug : string) : M (World S) Tenant :=
  tenant ← TenantService.get_by_slug slug;
  require tenant (http_not_found_error "Tenant not found").

Definition update_tenant (tenant_id : Uuid) (tenant_in : TenantService.TenantUpdate)
    : M (World S) Tenant :=
  tenant ← get Tenant tenant_id;
  tenant ← require tenant (HTTPException 404 "Tenant not found");
  TenantService.update tenant tenant_in.

Definition delete_tenant (tenant_id : Uuid) : M (World S) unit :=
  tenant ← get Tenant tenant_id;
  raise_if (negb (truthy tenant)) (HTTPException 404 "Tenant not found") ;;
  deleted_tenant ← delete_record Tenant tenant_id;
  raise_if (negb (truthy deleted_tenant)) (HTTPException 404 "Tenant not found or already deleted").
End tenants.
End Tenants.

(** ** [endpoints/users.py] *)

(** [UserListResponse]. *)
Record UserListResponse := mkUserListResponse {
  ul_items : list (User * list string);
  ul_total : nat;
  ul_page : nat;
  ul_limit : nat
}.

Module Users.
Section users.
Context {S : Type} `{Session S} `{Inputs} `{Passlib} `{Jose}.

(** The route's dependency runs first; the handler's parameter
    [get_current_active_tenant] is the cached result of the same request. *)
Definition list_users_in_active_tenant (rq : Request) (page limit : nat) (search : option string)
    : M (World S) UserListResponse :=
  '(_, active_tenant) ← require_permission_in_active_tenant Permissions.USER_READ rq;
  '(users, total_count) ←
    get_multi_by_tenant_paginated (t_id active_tenant) ((page - 1) * limit) limit search;
  mret (mkUserListResponse users total_count page limit).

Definition get_current_user_info (rq : Request) : M (World S) User := get_current_user rq.

Definition update_current_user (rq : Request) (user_in : UserUpdate) : M (World S) User :=
  current_user ← get_current_user rq;
  UserService.update current_user user_in.

Definition update_user_status_in_active_tenant (rq : Request) (user_id : Uuid) (is_active : bool)
    : M (World S) User :=
  '(_, active_tenant) ← require_permission_in_active_tenant Permissions.USER_UPDATE rq;
  db_user ← get_by_id_and_tenant user_id (t_id active_tenant);
  db_user ← require db_user
    (http_not_found_error ("User " +:+ uuid_str user_id +:+ " not found within this tenant context."));
  try_catch
    (UserService.update db_user (mkUserUpdate None None None None (Some (Some is_active))))
    (λ e, raise (HTTPException 500 "An unexpected error occurred while updating the user status.")).

Definition remove_user_from_active_tenant (rq : Request) (user_id : Uuid) : M (World S) unit :=
  '(_, active_tenant) ← require_permission_in_active_tenant Permissions.USER_DELETE rq;
  db_user ← get_by_id_and_tenant user_id (t_id active_tenant);
  match db_user with
  | None => mret tt
  | Some _ =>
      try_catch
        (UserService.delete user_id (t_id active_tenant) false ;; mret tt)
        (λ e, raise (HTTPException 500
           "An unexpected error occurred while removing the user from the tenant."))
  end.
End users.
End Users.

(** ** [endpoints/tenant_user_management.py] *)

Module TenantUsers.
Section tenant_users.
Context {S : Type} `{Session S} `{Inputs} `{Fastapi}.

Definition list_users_in_tenant (tenant_id : Uuid) (page limit : nat) (search : option string)
    : M (World S) UserListResponse :=
  tenant ← get_tenant_from_path tenant_id;
  '(users, total_count) ←
    get_multi_by_tenant_paginated (t_id tenant) ((page - 1) * limit) limit search;
  mret (mkUserListResponse users total_count page limit).

Definition get_tenant_user (tenant_id user_id : Uuid) : M (World S) User :=
  tenant ← get_tenant_from_path tenant_id;
  user ← get_by_id_and_tenant user_id (t_id tenant);
  require user (HTTPException 404 "User not found within this tenant").

(** [deps.ValidationError] does not exist: evaluating the second [except]
    clause raises. *)
Definition assign_role_to_user (tenant_id user_id role_id : Uuid) : M (World S) unit :=
  tenant ← get_tenant_from_path tenant_id;
  inject_none "UserSchema" ;;
  try_catch
    (assign_role_to_user_in_tenant user_id role_id (t_id tenant) ;; mret tt)
    (λ e, if is_not_found e then raise (HTTPException 404 (exn_str e))
          else raise (AttributeError "ValidationError")).

Definition remove_role_from_user (tenant_id user_id role_id : Uuid) : M (World S) unit :=
  tenant ← get_tenant_from_path tenant_id;
  inject_none "UserSchema" ;;
  deleted_count ← remove_role_from_user_in_tenant user_id role_id (t_id tenant) false;
  raise_if (Nat.eqb deleted_count 0)
    (HTTPException 404 ("Role " +:+ uuid_str role_id +:+ " assignment not found for user "
       +:+ uuid_str user_id +:+ " in tenant " +:+ uuid_str (t_id tenant))).
End tenant_users.
End TenantUsers.

(** ** [endpoints/auth.py] *)

Module Auth.
Section auth.
Context {S : Type} `{Session S} `{Inputs} `{Passlib} `{Jose}.

(** The reply's [access_token]; its [token_type] is always [bearer]. *)
Definition login_access_token (username password : string) : M (World S) string :=
  user ← get_by_email username;
  user ← require user (http_authentication_error "Incorrect email or password");
  is_password_valid ← verify_password password (u_hashed_password user);
  raise_if (negb is_password_valid) (http_authentication_error "Incorrect email or password") ;;
  raise_if (negb (u_is_active user)) (http_authentication_error "Inactive user") ;;
  create_access_token (uuid_str (u_id user))
    (Some (JWT_ACCESS_TOKEN_EXPIRE_MINUTES * 60 * us_per_s)%Z).
End auth.
End Auth.

(** ** Properties *)

Section tenant_api_properties.
Context {S : Type} `{SessionLaws S} `{Inputs} `{PasslibLaws} `{JoseLaws} `{Fastapi}.
Implicit Types w : World S.

(** An active account with this address whose stored hash takes the password. *)
Definition credentials (t : Tables) (username password : string) (u : User) : Prop :=
  users t !! u_id u = Some u ∧ u_email u = username ∧
  pwd_verify password (u_hashed_password u) = inl true ∧ u_is_active u = true.

Lemma email_unique t i j u v :
  db_ok t → users t !! i = Some u → users t !! j = Some v → u_email u = u_email v → u = v.
Proof.
  intros Hok Hi Hj He. enough (i = j) by congruence.
  eapply (model_unique (ok_users _ Hok) i j u v (UqUserEmail, u_email u)); eauto; simpl;
    [|rewrite He]; set_solver.
Qed.

(** The access token issued at [n] for a user identifies that user, on any
    later database where the account still exists, until it expires. *)
Lemma token_identifies e u w :
  usable w = true → db_ok (view w) → (0 ≤ e < 2 ^ 63)%Z → (u_id u < uuid_bound)%N →
  users (view w) !! u_id u = Some u →
  (get_current_user_from_token (Some (jwt_encode e (uuid_str (u_id u)))) w).1 =
    if (e <? now w / us_per_s)%Z then Raise (http_authentication_error "Token has expired")
    else Ret (Some u).
Proof.
  intros Hu Hok He Hid Hus. pose proof (encode_nonempty e (uuid_str (u_id u))) as Hne.
  pose proof (decode_encode (now w / us_per_s)%Z e (uuid_str (u_id u)) He) as Hdec.
  pose proof (get_current_user_from_token_post (Some (jwt_encode e (uuid_str (u_id u)))) w Hu Hok)
    as HP.
  set (tok := jwt_encode _ _) in *. unfold post in HP.
  destruct (get_current_user_from_token (Some tok) w) as [r w'] eqn:Hrun. destruct HP as [_ HP].
  replace (non_empty (Some tok)) with (Some tok) in HP
    by (unfold non_empty; destruct tok; done).
  destruct (e <? now w / us_per_s)%Z; simpl; destruct r as [o|x].
  - destruct HP as (v & -> & c & s & i & Hc & _). congruence.
  - destruct HP as [_ ->]. by rewrite bool_decide_eq_true_2.
  - destruct HP as (v & -> & c & s & i & Hc & Hs & Hi & Hv & _).
    rewrite Hdec in Hc. injection Hc as <-. simpl in Hs. injection Hs as <-.
    rewrite uuid_parse_str in Hi by done. congruence.
  - destruct HP as [Hno _]. destruct (Hno u). eexists _, _, _. rewrite Hdec, uuid_parse_str by done.
    done.
Qed.

Lemma get_by_id_and_tenant_post uid tid w Q :
  usable w = true → db_ok (view w) →
  (∀ u, users (view w) !! uid = Some u → member (view w) uid tid → Q (Ret (Some u)) w) →
  (users (view w) !! uid = None ∨ ¬ member (view w) uid tid → Q (Ret None) w) →
  post (get_by_id_and_tenant uid tid) w Q.
Proof.
  intros Hu Hok Hs Hn. apply post_query; [done|].
  match goal with |- context [first ?l] => set (found := l) end.
  assert (∀ u, u ∈ found ↔ users (view w) !! uid = Some u ∧ member (view w) uid tid) as Hin.
  { intros u. unfold found. rewrite list_elem_of_fmap. split.
    - intros ([u' [[v r] tn]] & -> & Hin). apply elem_of_join in Hin as (Hr & Ha & E1 & E2 & ->).
      apply elem_of_rows in Hr as [i Hi]. apply elem_of_utr_rows in Ha. simpl.
      pose proof (model_ids (ok_users _ Hok) i u' Hi) as Hid. simpl in Hid. rewrite <- Hid, E2 in Hi.
      rewrite <- E1, E2 in Ha. split; [exact Hi|by exists r].
    - intros [Hus [r Ha]]. exists (u, (uid, r, tid)). split; [done|].
      pose proof (model_ids (ok_users _ Hok) uid u Hus) as Hid.
      apply elem_of_join. rewrite elem_of_rows, elem_of_utr_rows. split; [by exists uid|done]. }
  unfold first. destruct found as [|u l]; simpl.
  - apply Hn. destruct (users (view w) !! uid) as [u|] eqn:Hus; [right|by left].
    intros Hm. eapply not_elem_of_nil. by apply Hin.
  - destruct (proj1 (Hin u)) as [??]; [by left|]. by apply Hs.
Qed.

(** A login succeeds exactly for the credentials of an active account; the
    token it returns authenticates that account, and only it, on every later
    request until it expires half an hour on, when the reply is 401.  Wrong
    credentials get 401 unless the stored hash itself is unreadable. *)
Theorem login_spec username password w :
  usable w = true → db_ok (view w) →
  (0 ≤ now w)%Z → (now w + 1800 * us_per_s ≤ dt_max)%Z →
  (∀ i u, users (view w) !! i = Some u → (i < uuid_bound)%N) →
  post (Auth.login_access_token username password) w (λ r w', w_db w' = w_db w ∧
    match r with
    | Ret token => ∃ u, credentials (view w) username password u ∧
        ∀ w1, usable w1 = true → db_ok (view w1) → users (view w1) !! u_id u = Some u →
          (get_current_user_from_token (Some token) w1).1 =
            if ((now w + 1800 * us_per_s) / us_per_s <? now w1 / us_per_s)%Z
            then Raise (http_authentication_error "Token has expired") else Ret (Some u)
    | Raise e => (∀ u, ¬ credentials (view w) username password u) ∧
        (http_status 200 r = 401%Z ∨
         ∃ i u, users (view w) !! i = Some u ∧ u_email u = username ∧
                pwd_verify password (u_hashed_password u) = inr e)
    end).
Proof.
  intros Hu Hok Hn Hmax Hids. unfold Auth.login_access_token.
  apply post_bind, get_by_email_post; [done| |].
  2:{ intros Hno. apply post_bind, post_require; [|done]. intros _. split; [done|].
      split; [|by left]. intros u (Hus & Hem & _). apply Hno. by exists (u_id u), u. }
  intros i u Hus Hem.
  pose proof (model_ids (ok_users _ Hok) i u Hus) as Hid. simpl in Hid. subst i.
  assert (¬ credentials (view w) username password u →
    ∀ v, ¬ credentials (view w) username password v) as Honly.
  { intros Hno v Hc. apply Hno. replace u with v; [done|]. destruct Hc as (Hv & Hve & _).
    eapply email_unique; [exact Hok|exact Hv|exact Hus|congruence]. }
  apply post_bind, post_require; [done|]. intros ? [= <-].
  apply post_bind. unfold verify_password, lift.
  destruct (pwd_verify password (u_hashed_password u)) as [b|e] eqn:Hpw.
  2:{ apply post_raise. split; [done|]. split; [|right; eauto].
      apply Honly. intros (_ & _ & Hv & _). congruence. }
  apply post_ret, post_bind, post_raise_if; intros Hb.
  { apply negb_true_iff in Hb. subst b. split; [done|]. split; [|by left].
    apply Honly. intros (_ & _ & Hv & _). congruence. }
  apply negb_false_iff in Hb. subst b. apply post_bind, post_raise_if; intros Ha.
  { apply negb_true_iff in Ha. split; [done|]. split; [|by left].
    apply Honly. intros (_ & _ & _ & Hv). congruence. }
  apply negb_false_iff in Ha. unfold create_access_token. do 2 wp_step.
  assert (dt_add (now w) (1800 * us_per_s) = Some (now w + 1800 * us_per_s)%Z) as Hadd.
  { unfold dt_add. rewrite (proj2 (Z.leb_le _ _)), (proj2 (Z.leb_le _ _)); [done|lia|].
    unfold dt_min, us_per_s. lia. }
  simpl. change (JWT_ACCESS_TOKEN_EXPIRE_MINUTES * 60 * us_per_s)%Z with (1800 * us_per_s)%Z.
  simpl. rewrite Hadd. apply post_bind, post_ret, post_ret. split; [done|]. exists u.
  split; [done|]. intros w1 Hu1 Hok1 Hus1. apply token_identifies; try done; [|by eapply Hids].
  unfold dt_max in Hmax. unfold us_per_s in *. split; [apply Z.div_pos; lia|].
  apply Z.div_lt_upper_bound; lia.
Qed.

(** Changing a user's status is guarded: whoever gets a success reply is an
    active user who is a superuser or holds [user:update] in the tenant of the
    header, and the target is a member of that tenant.  The reply shows the
    target with only [is_active] (and [updated_at]) changed; nothing is
    committed. *)
Theorem update_status_spec rq uid active w :
  db_ok (durable w) →
  post (get_db (Users.update_user_status_in_active_tenant rq uid active)) w (λ r w',
    durable w' = durable w ∧
    ∀ x, r = Ret x → ∃ caller tenant old,
      users (durable w) !! u_id caller = Some caller ∧ u_is_active caller = true ∧
      (∃ s, rq_tenant_header rq = Some s ∧ uuid_parse s = Some (t_id tenant)) ∧
      (u_is_superuser caller = true ∨
       permits (durable w) (u_id caller) (t_id tenant) "user:update") ∧
      users (durable w) !! uid = Some old ∧ member (durable w) uid (t_id tenant) ∧
      x = mkUser (u_id old) (u_email old) (u_hashed_password old) (u_full_name old) active
            (u_is_superuser old) (u_last_login old) (u_created_at old) (u_updated_at x)).
Proof.
  intros Hok. apply post_get_db_durable. unfold Users.update_user_status_in_active_tenant.
  apply post_bind. eapply post_mono; [apply require_permission_post;
    [apply usable_reopen|by rewrite view_reopen]|].
  rewrite durable_reopen. intros [[c x]|e] w1 [Hd1 Hr]; [|by intros w2 ->].
  destruct Hr as ((_ & Hu1 & Hok1 & m & Hv1) & Hc & Hact & _ & _ & Hhdr & Hper).
  rewrite view_reopen in Hv1, Hc, Hper.
  apply post_bind, get_by_id_and_tenant_post; [done..| |].
  2:{ intros _. apply post_bind, post_require; [|done]. intros _ w2 ->. done. }
  intros old Hold Hmem. apply post_bind, post_require; [done|]. intros ? [= <-].
  pose proof (model_ids (ok_users _ Hok1) uid old Hold) as Hid. simpl in Hid. subst uid.
  apply post_try. eapply post_mono; [apply update_post; done|].
  intros [y|e] w2 [Hd2 Hy]; [|apply post_raise; intros w3 ->; split; [congruence|done]].
  intros w3 ->. split; [congruence|]. intros y' [= <-]. exists c, x, old.
  destruct Hy as ((_ & _ & Hi & He & Ha & Hf & Hs & Hl & Hcr & Hp) & _).
  rewrite Hv1 in Hold, Hmem. split_and!; try done; [naive_solver|].
  destruct y. simpl in *. by subst.
Qed.

(** A tenant is created over the API only when no other tenant has its name
    or slug; a name in use is reported with 422, but a slug in use is left to
    the database and ends in 500, and no outcome commits anything. *)
Theorem create_tenant_spec tenant_in w :
  db_ok (durable w) →
  post (get_db (Tenants.create_tenant tenant_in)) w (λ r w', durable w' = durable w ∧
    let name := TenantService.tc_name tenant_in in
    let slug := TenantService.tc_slug tenant_in in
    if decide (map_Exists (λ _ x, t_name x = name) (tenants (durable w)))
    then http_status 201 r = 422%Z
    else if decide (map_Exists (λ _ x, t_slug x = slug) (tenants (durable w)))
    then http_status 201 r = 500%Z
    else match r with
         | Ret x => t_name x = name ∧ t_slug x = slug ∧
                    t_is_active x = default true (TenantService.tc_is_active tenant_in)
         | Raise e => ∃ i, is_Some (tenants (durable w) !! i) ∧ i = uuid4_at (w_uuid w)
         end).
Proof.
  intros Hok. apply post_get_db_durable. unfold Tenants.create_tenant.
  apply post_bind. unfold TenantService.get_by_name. apply post_query; [apply usable_reopen|].
  rewrite view_reopen. destruct (first _) as [x|] eqn:Hf.
  - apply first_select_Some in Hf as [Hn [i Hi]]. simpl in Hi.
    apply post_bind, post_raise_if; [|done]. intros _ w2 ->. rewrite durable_reopen.
    split; [done|]. cbv zeta. rewrite decide_True; [done|]. by exists i, x.
  - apply post_bind, post_raise_if; [done|]. intros _.
    rewrite first_select_None in Hf.
    eapply post_mono; [apply TenantService.create_tenant_post; [apply usable_reopen|by rewrite view_reopen]|].
    rewrite view_reopen, durable_reopen. intros r w1 [Hd Hr] w2 ->. split; [done|]. cbv zeta.
    rewrite decide_False by (intros (i & x & Hi & Hx); by apply (Hf i x)).
    destruct r as [x|e].
    + destruct Hr as (_ & _ & Hnew & _ & Hcl & Hn & Hs & _ & Ha). rewrite decide_False; [done|].
      intros (i & y & Hi & Hy). apply Hcl. exists i, y. split_and!; [done| |right; congruence].
      intros ->. congruence.
    + destruct Hr as (_ & c & -> & Hcase). case_decide as Hslug; [done|].
      destruct Hcase as [(_ & Hpk)|(_ & i & y & Hi & [Hy|Hy])].
      * eexists. split; [exact Hpk|done].
      * by destruct (Hf i y Hi).
      * destruct Hslug. by exists i, y.
Qed.

(** A user's own profile update never changes privileges, keys or other
    users, whatever the body: only the e-mail address, the password hash, the
    active flag and [updated_at] of the caller's row can differ, exactly as the
    set fields say - so a deactivated user may set [is_active] again.  An
    address in use, and a [null] for a required column, end in 500.  Nothing
    is committed. *)
Theorem update_me_spec rq user_in u w1 w :
  db_ok (durable w) → get_current_user rq (reopen w) = (Ret u, w1) →
  post (Users.update_current_user rq user_in) (reopen w) (λ r w', durable w' = durable w ∧
    match r with
    | Ret x => user_updated user_in u x ∧ db_ok (view w') ∧
        view w' = set_users (<[u_id u := x]> (users (view w1))) (view w1) ∧
        ∀ i v, users (durable w) !! i = Some v → i ≠ u_id u →
          users (view w') !! i = Some v ∧ u_email v ≠ u_email x
    | Raise _ => http_status 200 r = 500%Z
    end).
Proof.
  intros Hok Hrun. destruct (authenticated_view _ _ _ _ Hok Hrun) as (Hu1 & Hok1 & Hd1 & [m Hv1] & Hus).
  unfold Users.update_current_user. apply post_bind. unfold post at 1. rewrite Hrun.
  eapply post_mono; [apply update_post; [done|done|by rewrite Hv1]|].
  intros [x|e] w2 [Hd2 Hx]; (split; [congruence|]).
  - destruct Hx as (Hx & _ & Hok2 & Hv2). split_and!; [done..|]. intros i v Hv Hne.
    assert (users (view w2) !! i = Some v) as Hi.
    { rewrite Hv2, Hv1. simpl. by rewrite lookup_insert_ne. }
    split; [done|]. intros He. apply Hne.
    assert (users (view w2) !! u_id u = Some x) as Hux by (rewrite Hv2; apply lookup_insert_eq).
    eapply (model_unique (ok_users _ Hok2) i (u_id u) v x (UqUserEmail, u_email x)); eauto; simpl;
      [rewrite He|]; set_solver.
  - destruct Hx as [(p & salt & _ & Hh)|(c & -> & _)]; [|done].
    by destruct (hash_errors _ _ _ Hh) as [msg ->].
Qed.
End tenant_api_properties.

Lemma login_witness :
  ∃ token w1, Auth.login_access_token "alice@acme.io" "wonderland" w0 = (Ret token, w1) ∧
    (get_current_user_from_token (Some token) w0).1 = Ret (Some alice).
Proof.
  assert (∀ i u, users (view w0) !! i = Some u → (i < uuid_bound)%N) as Hids.
  { assert (map_Forall (λ i _, (i < uuid_bound)%N) (users (view w0))) as HF
      by (apply (bool_decide_unpack _); vm_compute; exact I).
    intros i u Hi. exact (HF i u Hi). }
  pose proof (login_spec "alice@acme.io" "wonderland" w0 w0_usable w0_ok) as HP.
  assert (match (Auth.login_access_token "alice@acme.io" "wonderland" w0).1 with
          | Ret _ => true | Raise _ => false end = true) as Hr by (vm_compute; reflexivity).
  unfold post in HP. destruct (Auth.login_access_token _ _ w0) as [[token|e] w1]; [|discriminate].
  destruct HP as (_ & u & (Hus & Hem & _ & _) & Htok);
    [vm_compute; discriminate|vm_compute; discriminate|exact Hids|].
  assert (u = alice) as ->.
  { apply (email_unique (view w0) (u_id u) 1%N u alice w0_ok Hus); [vm_compute; reflexivity|exact Hem]. }
  exists token, w1. split; [reflexivity|].
  rewrite (Htok w0 w0_usable w0_ok Hus). vm_compute. reflexivity.
Defined.

(** The sample root user deactivates a member of the tenant in the header. *)
Definition as_root : Request :=
  mkRequest (Some (jwt_encode 2000000000 (uuid_str 3))) None None (Some (uuid_str 10)).

Lemma update_status_witness :
  post (get_db (Users.update_user_status_in_active_tenant as_root 2 false)) w0 (λ r w',
    durable w' = sample ∧ ∃ x, r = Ret x ∧ u_is_active x = false ∧ member sample 2 10).
Proof.
  pose proof (update_status_spec as_root 2 false w0 w0_durable_ok) as HP.
  assert (match (get_db (Users.update_user_status_in_active_tenant as_root 2 false) w0).1 with
          | Ret _ => true | Raise _ => false end = true) as Hr by (vm_compute; reflexivity).
  unfold post in *. destruct (get_db _ w0) as [[x|e] w']; [|discriminate].
  destruct HP as [Hd HP]. destruct (HP x eq_refl) as (c & y & old & _ & _ & (s & Hs & Hp) & _ & _ & Hm & Hx).
  split; [exact Hd|]. exists x. split; [reflexivity|]. split; [rewrite Hx; reflexivity|].
  injection Hs as <-. assert (uuid_parse (uuid_str 10) = Some 10%N) as H10 by (vm_compute; reflexivity).
  rewrite H10 in Hp. injection Hp as ->. exact Hm.
Defined.

Lemma create_tenant_witness :
  let same_slug := TenantService.mkTenantCreate "Acme Two" "acme" None None in
  post (get_db (Tenants.create_tenant same_slug)) w0 (λ r w', http_status 201 r = 500%Z).
Proof.
  intros same_slug. eapply post_mono; [exact (create_tenant_spec same_slug w0 w0_durable_ok)|].
  intros r w' [_ Hr]. cbv zeta in Hr. rewrite decide_False, decide_True in Hr; [exact Hr| |].
  - apply (bool_decide_unpack _). vm_compute. exact I.
  - apply (bool_decide_unpack _). vm_compute. exact I.
Defined.

(** A deactivated user reactivates the own account within the request. *)
Definition as_carol : Request :=
  mkRequest (Some (jwt_encode 2000000000 (uuid_str 4))) None None None.
Definition reactivate : UserUpdate := mkUserUpdate None None None None (Some (Some true)).

Lemma update_me_witness :
  post (Users.update_current_user as_carol reactivate) (reopen w0) (λ r w',
    durable w' = sample ∧ ∃ x, r = Ret x ∧ u_is_active x = true ∧ u_is_superuser x = false).
Proof.
  assert (∃ w1, get_current_user as_carol (reopen w0) = (Ret carol, w1)) as [w1 Hrun].
  { eexists. vm_compute. reflexivity. }
  pose proof (update_me_spec as_carol reactivate carol w1 w0 w0_durable_ok Hrun) as HP.
  assert (match (Users.update_current_user as_carol reactivate (reopen w0)).1 with
          | Ret _ => true | Raise _ => false end = true) as Hr by (vm_compute; reflexivity).
  unfold post in *. destruct (Users.update_current_user _ _ _) as [[x|e] w']; [|discriminate].
  destruct HP as [Hd [(_ & _ & _ & _ & Ha & _ & Hs & _) _]].
  split; [exact Hd|]. exists x. split; [reflexivity|]. split; [exact Ha|exact Hs].
Defined.

