(* ===== verification/RoleApi.v ===== *)
(** * [endpoints/roles.py] and [endpoints/api_keys.py]

    Modules [Roles] and [ApiKeys], a definition per handler; what role creation
    leaves behind, who may set a role's users, whose keys a caller reaches. *)

From stdpp Require Import base tactics list gmap strings.
From Stdlib Require Import ZArith Lia.
From S2P Require Import Prelude PyStd Effects Models Session Snapshot Crud Stability.
From S2P Require Import RoleService UserService Security Sha256 ApiKeyService Deps TenantApi.
From S2P Require Permissions.

(** ** [endpoints/roles.py] *)

Module Roles.
Section roles.
Context {S : Type} `{Session S} `{Inputs} `{Jose} `{Fastapi}.

Definition list_roles_in_active_tenant (rq : Request) (skip limit : nat) : M (World S) (list RoleList) :=
  '(_, active_tenant) ← require_permission_in_active_tenant Permissions.ROLE_READ rq;
  get_multi_by_tenant_with_user_count (t_id active_tenant) skip limit.

Definition create_custom_role_in_tenant (tenant_id : Uuid) (role_in : RoleCreate)
    : M (World S) Role :=
  tenant ← get_tenant_from_path tenant_id;
  inject_none "User" ;;
  try_catch
    (new_role ← create_custom_role role_in (t_id tenant);
     role_detail ← get_role_with_permissions (r_id new_role);
     require role_detail (HTTPException 500 "Failed to retrieve created role details."))
    (λ e, if is_http e then raise e else raise (HTTPException 500 "Could not create role.")).

Definition role_accessible (role : option Role) (tenant : Tenant) : bool :=
  match role with
  | None => false
  | Some r => r_is_system_role r || bool_decide (r_tenant_id r = Some (t_id tenant))
  end.

Definition get_role_details (tenant_id role_id : Uuid) : M (World S) Role :=
  tenant ← get_tenant_from_path tenant_id;
  inject_none "User" ;;
  role ← get_role_with_permissions role_id;
  raise_if (negb (role_accessible role tenant))
    (HTTPException 404 "Role not found or not accessible in this tenant") ;;
  require role (HTTPException 404 "Role not found or not accessible in this tenant").

Definition update_custom_role_in_tenant (tenant_id role_id : Uuid) (role_in : RoleUpdate)
    : M (World S) Role :=
  tenant ← get_tenant_from_path tenant_id;
  inject_none "User" ;;
  role ← get Role role_id;
  role ← require role (HTTPException 404 "Custom role not found in this tenant");
  raise_if (bool_decide (r_tenant_id role ≠ Some (t_id tenant)))
    (HTTPException 404 "Custom role not found in this tenant") ;;
  raise_if (r_is_system_role role) (HTTPException 403 "Cannot modify system roles.") ;;
  try_catch
    (updated_role ← update_custom_role role role_in;
     role_detail ← get_role_with_permissions (r_id updated_role);
     require role_detail (HTTPException 500 "Failed to retrieve updated role details."))
    (λ e, if is_http e then raise e else raise (HTTPException 500 "Could not update role.")).

Definition delete_custom_role_from_tenant (tenant_id role_id : Uuid) : M (World S) unit :=
  tenant ← get_tenant_from_path tenant_id;
  inject_none "User" ;;
  deleted_role ← delete_custom_role role_id (t_id tenant);
  raise_if (negb (truthy deleted_role))
    (HTTPException 404
       "Custom role not found, is a system role, or has users assigned in this tenant").

Definition list_available_permissions (rq : Request) : M (World S) (list Permission) :=
  require_permission_in_active_tenant Permissions.ROLE_READ rq ;;
  Crud.get_multi Permission 0 1000.

Definition get_assigned_users_for_role (tenant_id role_id : Uuid) : M (World S) (list Uuid) :=
  tenant ← get_tenant_from_path tenant_id;
  role ← get Role role_id;
  raise_if (negb (role_accessible role tenant))
    (HTTPException 404 "Role not found or not accessible in this tenant") ;;
  users ← get_users_for_role role_id (t_id tenant);
  mret (u_id <$> users).

Definition set_assigned_users_for_role (tenant_id role_id : Uuid) (user_ids : list Uuid)
    : M (World S) (list Uuid) :=
  tenant ← get_tenant_from_path tenant_id;
  set_users_for_role role_id (t_id tenant) user_ids.
End roles.
End Roles.

(** ** [endpoints/api_keys.py] *)

Module ApiKeys.
Section api_keys.
Context {S : Type} `{Session S} `{Inputs} `{Jose}.

Definition create_api_key (rq : Request) (api_key_in : APIKeyCreate) : M (World S) (APIKey * string) :=
  current_user ← get_current_active_user rq;
  raise_if (truthy (ak_tenant_id api_key_in) && negb (u_is_superuser current_user))
    (HTTPException 403 "You cannot create API keys for this tenant.") ;;
  try_catch
    (create_with_user api_key_in (u_id current_user) (ak_tenant_id api_key_in))
    (λ e, if is_value_error e then raise (HTTPException 400 (exn_str e))
          else raise (HTTPException 500 "Failed to create API key: An unexpected error occurred.")).

(** [skip] and [limit] are unrestricted integers: the database rejects
    negative ones, the driver those beyond a [bigint] ([query_page]). *)
Definition read_api_keys (rq : Request) (skip limit : Z) (tenant_id : option Uuid)
    : M (World S) (list APIKey) :=
  current_user ← get_current_active_user rq;
  raise_if ((skip <? 0)%Z || (limit <? 0)%Z)
    (DBAPIError "OFFSET and LIMIT must not be negative") ;;
  let skip := Z.to_nat skip in
  let limit := Z.to_nat limit in
  if u_is_superuser current_user then
    match tenant_id with
    | Some tenant_id => get_multi_by_tenant tenant_id skip limit
    | None => ApiKeyService.get_multi skip limit
    end
  else
    orm_keys ← get_multi_by_user (u_id current_user) skip limit;
    mret (match tenant_id with
          | Some tenant_id => filter (λ k, k_tenant_id k = Some tenant_id) orm_keys
          | None => orm_keys
          end).

(** [not current_user.is_superuser and api_key.user_id != current_user.id]. *)
Definition not_owner (current_user : User) (api_key : APIKey) : bool :=
  negb (u_is_superuser current_user) && bool_decide (k_user_id api_key ≠ u_id current_user).

Definition read_api_key (rq : Request) (api_key_id : Uuid) : M (World S) APIKey :=
  current_user ← get_current_active_user rq;
  api_key ← get APIKey api_key_id;
  api_key ← require api_key (HTTPException 404 "API key not found");
  raise_if (not_owner current_user api_key)
    (HTTPException 403 "You don't have permission to access this API key") ;;
  mret api_key.

Definition update_api_key (rq : Request) (api_key_id : Uuid) (api_key_in : APIKeyUpdate)
    : M (World S) APIKey :=
  current_user ← get_current_active_user rq;
  api_key ← get APIKey api_key_id;
  api_key ← require api_key (HTTPException 404 "API key not found");
  raise_if (not_owner current_user api_key)
    (HTTPException 403 "You don't have permission to update this API key") ;;
  ApiKeyService.update api_key api_key_in.

Definition delete_api_key (rq : Request) (api_key_id : Uuid) : M (World S) unit :=
  current_user ← get_current_active_user rq;
  api_key ← get APIKey api_key_id;
  api_key ← require api_key (HTTPException 404 "API key not found");
  raise_if (not_owner current_user api_key)
    (HTTPException 403 "You don't have permission to delete this API key") ;;
  deleted_key ← delete_record APIKey api_key_id;
  raise_if (negb (truthy deleted_key)) (HTTPException 404 "API key not found or already deleted").
End api_keys.
End ApiKeys.

(** ** Properties *)

Section role_api_properties.
Context {S : Type} `{SessionLaws S} `{InputsLaws} `{JoseLaws} `{Fastapi}.
Implicit Types w : World S.

(** The tenant of the path, or 404. *)
Lemma get_tenant_from_path_post tid w Q :
  usable w = true → db_ok (view w) →
  (∀ x, tenants (view w) !! tid = Some x → t_id x = tid → Q (Ret x) w) →
  (tenants (view w) !! tid = None →
     Q (Raise (HTTPException 404 ("Tenant " +:+ uuid_str tid +:+ " not found."))) w) →
  post (get_tenant_from_path tid) w Q.
Proof.
  intros Hu Hok Hs Hn. unfold get_tenant_from_path. apply post_bind, post_get; [done|apply Hok|].
  apply post_require; simpl; [done|]. intros x Hx. apply Hs; [done|].
  by apply (model_ids (ok_tenants _ Hok) tid x Hx).
Qed.

(** The listing of roles in the active tenant goes to holders of [role:read]
    there and superusers only.  Where [|] has no meaning for a UUID and a column
    the request that is allowed gets 500, and no request ever gets a list.  Where
    it has one, the reply is a page, ordered by name, of the roles whose tenant
    is the combined value, one line per role, each with the number of users who
    hold it in this tenant. *)
Theorem list_roles_spec rq skip limit w :
  db_ok (durable w) →
  post (get_db (Roles.list_roles_in_active_tenant rq skip limit)) w (λ r w',
    durable w' = durable w ∧
    (∀ l, r = Ret l → ∃ u x where_ all,
       accessible_filter (S := S) (t_id x) = inl where_ ∧
       tenants (durable w) !! t_id x = Some x ∧ users (durable w) !! u_id u = Some u ∧
       (u_is_superuser u = true ∨ permits (durable w) (u_id u) (t_id x) "role:read") ∧
       l = page skip limit all ∧ role_listing (S := S) where_ (t_id x) (durable w) all) ∧
    (sess_or_column (S := S) = None → (∀ l, r ≠ Ret l) ∧
       ∀ u x, (require_permission_in_active_tenant Permissions.ROLE_READ rq (reopen w)).1 = Ret (u, x) →
         http_status 200 r = 500%Z)).
Proof.
  intros Hok. apply post_get_db_durable. unfold Roles.list_roles_in_active_tenant. apply post_bind.
  pose proof (require_permission_post Permissions.ROLE_READ rq (reopen w) (usable_reopen w)) as Hp.
  rewrite view_reopen in Hp. specialize (Hp Hok). unfold post at 1. unfold post at 1 in Hp.
  destruct (require_permission_in_active_tenant _ rq (reopen w)) as [[[u x]|e] w1]; simpl.
  2:{ intros w2 Hw2. rewrite Hw2, (proj1 Hp), durable_reopen. split_and!; done. }
  destruct Hp as [Hd (Hk & Hus & _ & _ & Hx & _ & Hper)].
  destruct Hk as (_ & Hu1 & Hok1 & m & Hv). rewrite view_reopen in *.
  eapply post_mono; [by apply get_multi_by_tenant_with_user_count_post|].
  intros r w2 [-> Hr] w3 Hw3. rewrite Hw3, Hd, durable_reopen. split; [done|]. rewrite Hv in Hr.
  unfold accessible_filter in *. destruct sess_or_column as [orc|]; simpl in Hr.
  - destruct (page_fits skip limit); [|by subst r].
    destruct Hr as (all & -> & Hall). split; [|done]. intros l [= <-]. do 4 eexists.
    split_and!; [done..| |done|exact Hall]. destruct Hper as [|[_ ?]]; [by left|by right].
  - subst r. split_and!; done.
Qed.

(** Creating a role over the API never replies success: for an existing tenant
    the reply is always 500.  With a free name the role is committed all the
    same, with a taken one nothing changes and the 409 of the method is a
    [NameError]; only a rejected insert leaves nothing behind. *)
Theorem create_role_endpoint_spec tid role_in w :
  db_ok (durable w) → depends_none "User" = None →
  post (get_db (Roles.create_custom_role_in_tenant tid role_in)) w (λ r w',
    db_ok (durable w') ∧
    if decide (is_Some (tenants (durable w) !! tid)) then
      http_status 201 r = 500%Z ∧
      if decide (name_taken (rc_name role_in) tid (durable w) ∨
                 is_Some (roles (durable w) !! uuid4_at (w_uuid w)))
      then durable w' = durable w
      else roles (durable w') = <[uuid4_at (w_uuid w) := new_role role_in tid w]> (roles (durable w)) ∧
           users (durable w') = users (durable w) ∧
           user_tenant_roles (durable w') = user_tenant_roles (durable w)
    else http_status 201 r = 404%Z ∧ durable w' = durable w).
Proof.
  intros Hok Hdep. apply post_get_db_durable. unfold Roles.create_custom_role_in_tenant.
  apply post_bind, get_tenant_from_path_post; rewrite ?view_reopen; [apply usable_reopen|done| |].
  2:{ intros Hn w' ->. rewrite durable_reopen, decide_False by (intros [? ?]; congruence). done. }
  intros x Hx Hid. unfold inject_none. rewrite Hdep. apply post_bind, post_ret, post_try, post_bind.
  rewrite Hid.
  eapply post_mono; [apply create_custom_role_post; [apply usable_reopen|by rewrite view_reopen]|].
  cbv zeta. rewrite view_reopen, durable_reopen.
  change (new_role role_in tid (reopen w)) with (new_role role_in tid w).
  set (t1 := set_roles _ _). assert (∀ t', permissions_outcome (rc_permission_ids role_in)
    (r_id (new_role role_in tid w)) t1 t' → roles t' = roles t1 ∧ users t' = users t1 ∧
    user_tenant_roles t' = user_tenant_roles t1) as Hout.
  { intros t'. unfold permissions_outcome. repeat case_match; try (by intros ->).
    by intros [[s ->] _]. }
  assert (∀ t', role_free role_in tid (reopen w) → roles t' = roles t1 → users t' = users t1 →
    user_tenant_roles t' = user_tenant_roles t1 →
    if decide (name_taken (rc_name role_in) tid (durable w) ∨ is_Some (roles (durable w) !! uuid4_at (w_uuid w)))
    then t' = durable w
    else roles t' = <[uuid4_at (w_uuid w) := new_role role_in tid w]> (roles (durable w)) ∧
         users t' = users (durable w) ∧ user_tenant_roles t' = user_tenant_roles (durable w)) as Hnew.
  { intros t' [Hf Hn] Hr Hus Hut. rewrite view_reopen in Hf, Hn. rewrite decide_False; [done|].
    change (roles (durable w) !! uuid4_at (w_uuid w) = None) in Hn. rewrite Hn.
    intros [?|[? [=]]]. by apply Hf. }
  intros [role|e] w1.
  - intros (_ & Hfree & (Hr & Hus & Hut)%Hout & Hok1). apply post_bind. unfold post at 1.
    rewrite get_role_with_permissions_run. apply post_raise. intros w2 Hw2.
    rewrite Hw2, decide_True by eauto. split_and!; [done..|]. by apply Hnew.
  - intros Hcase. enough (is_http e = false ∧ db_ok (durable w1) ∧
      if decide (name_taken (rc_name role_in) tid (durable w) ∨ is_Some (roles (durable w) !! uuid4_at (w_uuid w)))
      then durable w1 = durable w
      else roles (durable w1) = <[uuid4_at (w_uuid w) := new_role role_in tid w]> (roles (durable w)) ∧
           users (durable w1) = users (durable w) ∧
           user_tenant_roles (durable w1) = user_tenant_roles (durable w)) as (He & Hok1 & Hgo).
    { rewrite He. apply post_raise. intros w2 Hw2. rewrite Hw2, decide_True by eauto. done. }
    destruct Hcase as [(-> & Hn & ->)|[(c & -> & Hd & Hins)|[(-> & Hd & Hf & Hokt)|(Href & Hf & Hp & Hok1)]]].
    + rewrite durable_reopen, decide_True by (by left). done.
    + rewrite Hd. split; [done|]. split; [done|]. rewrite decide_True; [done|right].
      unfold insert_row, put_row in Hins. rewrite role_violation_iff in Hins. simpl in Hins.
      destruct (roles (durable w) !! _) as [y|]; [by exists y|].
      rewrite decide_True in Hins; [done|by exists x].
    + rewrite Hd. split_and!; [done..|]. by apply Hnew.
    + apply Hout in Hp as (? & ? & ?). split_and!; [by eapply refresh_error|done|]. by apply Hnew.
Qed.

(** C29. The endpoint that sets a role's users asks for no credentials: for every
    existing tenant, every role the tenant can use and any existing users,
    anyone makes exactly these users holders of the role - committed, and each
    gains every permission the role grants in the tenant. *)
Theorem set_assigned_users_unguarded tid rid uids w :
  db_ok (durable w) → is_Some (tenants (durable w) !! tid) → accessible (durable w) rid tid →
  (∀ uid, uid ∈ uids → is_Some (users (durable w) !! uid)) →
  post (get_db (Roles.set_assigned_users_for_role tid rid uids)) w (λ r w', r = Ret uids ∧
    (∀ u, assigned (durable w') u rid tid ↔ u ∈ uids) ∧
    ∀ u pid p, u ∈ uids → (rid, pid) ∈ role_permissions (durable w) →
      permissions (durable w) !! pid = Some p → permits (durable w') u tid (p_code p)).
Proof.
  intros Hok [x Hx] Hacc Hus. apply post_get_db_durable. unfold Roles.set_assigned_users_for_role.
  apply post_bind, get_tenant_from_path_post; rewrite ?view_reopen; [apply usable_reopen|done| |];
    [|congruence].
  intros x' _ ->. eapply post_mono; [apply set_users_for_role_post;
    [apply usable_reopen|by rewrite view_reopen]|].
  rewrite view_reopen. intros [l|e] w1.
  - intros (-> & _ & [[m Hm] Ha] & _) w2 Hw2. rewrite Hw2. split; [done|].
    assert (∀ u, assigned (durable w1) u rid tid ↔ u ∈ uids) as Hset
      by (intros u; rewrite Ha, decide_True; done).
    split; [done|]. intros u pid p Hu Hr Hp. exists rid, pid, p.
    split; [by apply Hset|]. by rewrite Hm.
  - intros (_ & _ & [Hn|(_ & nw & c & Hc)]); [done|].
    set (t1 := delete_user_tenant_roles _ _) in Hc.
    assert (∃ t', insert_users_for_role nw rid tid uids t1 = inl t') as [t' Ht']; [|congruence].
    apply insert_users_for_role_iff; [by apply delete_user_tenant_roles_ok| |].
    + unfold accessible in Hacc. simpl. destruct (roles (durable w) !! rid) as [y|]; [by exists y|done].
    + split; [exact Hus|]. right. by exists x.
Qed.

(** Loading a key by its id. *)
Lemma owned_key_post id (m : APIKey → M (World S) APIKey) e e' u w Q :
  usable w = true → db_ok (view w) → u_is_superuser u = false →
  (∀ e, Q (Raise e) w) →
  (∀ k, api_keys (view w) !! id = Some k → k_id k = id → k_user_id k = u_id u → post (m k) w Q) →
  post (api_key ← get APIKey id; api_key ← require api_key e;
        raise_if (ApiKeys.not_owner u api_key) e' ;; m api_key) w Q.
Proof.
  intros Hu Hok Hsu He Hm. apply post_bind, post_get; [done|apply Hok|]. simpl.
  apply post_bind, post_require; [done|]. intros k Hk. apply post_bind, post_raise_if; [done|].
  unfold ApiKeys.not_owner. rewrite Hsu. simpl. intros Hown. apply bool_decide_eq_false, dec_stable in Hown.
  apply Hm; [done|by apply (model_ids (ok_api_keys _ Hok) id k Hk)|done].
Qed.

(** C34. API keys are private to their owner: a caller who is not a superuser
    only ever reads, lists, edits and deletes his own keys. *)
Theorem api_keys_private rq u w1 w :
  db_ok (durable w) → get_current_active_user rq (reopen w) = (Ret u, w1) →
  u_is_superuser u = false →
  let others_kept (w' : World S) := ∀ j k, api_keys (view w1) !! j = Some k →
    k_user_id k ≠ u_id u → api_keys (view w') !! j = Some k in
  (∀ id, post (ApiKeys.read_api_key rq id) (reopen w)
     (λ r _, ∀ k, r = Ret k → k_id k = id ∧ k_user_id k = u_id u)) ∧
  (∀ skip limit t, post (ApiKeys.read_api_keys rq skip limit t) (reopen w)
     (λ r _, ∀ l k, r = Ret l → k ∈ l →
        k_user_id k = u_id u ∧ ∀ tid, t = Some tid → k_tenant_id k = Some tid)) ∧
  (∀ id body, post (ApiKeys.update_api_key rq id body) (reopen w)
     (λ r w', ∀ k, r = Ret k → k_id k = id ∧ k_user_id k = u_id u ∧ others_kept w')) ∧
  (∀ id, post (ApiKeys.delete_api_key rq id) (reopen w)
     (λ r w', r = Ret tt → others_kept w' ∧ api_keys (view w') !! id = None)).
Proof.
  intros Hok Hrun Hsu others_kept.
  pose proof (get_current_active_user_post rq (reopen w) (usable_reopen w)) as HP.
  rewrite view_reopen in HP. specialize (HP Hok). unfold post in HP. rewrite Hrun in HP.
  destruct HP as (_ & (_ & Hu1 & Hok1 & _) & _).
  assert (∀ {A} (m : User → M (World S) A) Q,
    post (m u) w1 Q → post (get_current_active_user rq ≫= m) (reopen w) Q) as Hauth.
  { intros A m Q HP. apply post_bind. unfold post at 1. by rewrite Hrun. }
  split_and!.
  - intros id. apply Hauth, (owned_key_post _ mret); [done..|]. intros k _ Hid Ho.
    apply post_ret. by intros k' [= <-].
  - intros skip limit t. apply Hauth, post_bind, post_raise_if; [done|]. intros _. rewrite Hsu.
    apply post_bind. unfold get_multi_by_user. apply post_query_page; [done| |done]. intros _. apply post_ret.
    intros l k [= <-] Hin.
    assert (∀ s n, k ∈ page s n (select (S := S) (λ k, k_user_id k = u_id u) (view w1)) →
      k_user_id k = u_id u) as Hown.
    { intros s n Hk. apply page_elem_of, elem_of_select in Hk. naive_solver. }
    destruct t as [tid|]; [apply list_elem_of_filter in Hin as [Ht Hin]|]; naive_solver.
  - intros id body. apply Hauth, (owned_key_post _ (λ k, update k body)); [done..|].
    intros k Hk Hid Ho. unfold update, Crud.update.
    destruct (api_key_patch body k) as [k'|c] eqn:Hp; [|wp; done].
    assert (k_id k' = id ∧ k_user_id k' = u_id u) as [Hid' Ho'].
    { unfold api_key_patch in Hp. repeat case_match; by simplify_eq/=. }
    apply post_flush_row; [done| | |].
    + intros -> k0 [= <-]. split_and!; [done..|]. by intros j v Hv.
    + intros n t w2 _ _ Ht -> k0 [= <-]. split_and!; [done..|]. intros j v Hv Hne.
      autorewrite with world. apply (put_row_lookup _ _ _ j) in Ht. simpl in Ht. rewrite Ht.
      rewrite decide_False; [done|]. intros Hj. assert (j = id) as -> by congruence. congruence.
    + intros n c w2 _ _ _ _ k0 [=].
  - intros id. apply Hauth. apply post_bind, post_get; [done|apply Hok1|]. simpl.
    apply post_bind, post_require; [done|]. intros k Hk.
    apply post_bind, post_raise_if; [done|]. unfold ApiKeys.not_owner. rewrite Hsu. simpl.
    intros Hown. apply bool_decide_eq_false, dec_stable in Hown.
    apply post_bind. unfold delete_record. apply post_bind, post_get; [done|apply Hok1|]. simpl.
    rewrite Hk. apply post_bind, post_exec; [done| |done]. intros t [= <-].
    apply post_ret, post_raise_if; [done|]. intros _ _. unfold others_kept. rewrite view_write.
    pose proof (delete_row_lookup (R := APIKey) id) as Hdel. simpl in Hdel |- *.
    split; [|by rewrite Hdel, decide_True]. intros j v Hv Hne.
    rewrite Hdel, decide_False; [done|]. intros ->. congruence.
Qed.
(** Editing a role over the API only ever touches a custom role of the tenant
    in the path, and then exactly the set fields and, when given, the role's
    permissions; an edit that is committed is nevertheless reported as 500, and
    every other request changes nothing. *)
Theorem update_role_endpoint_spec tid rid role_in w :
  db_ok (durable w) → depends_none "User" = None →
  post (get_db (Roles.update_custom_role_in_tenant tid rid role_in)) w (λ r w',
    db_ok (durable w') ∧ (∃ e, r = Raise e) ∧
    (durable w' = durable w ∨
     ∃ old new, roles (durable w) !! rid = Some old ∧ r_tenant_id old = Some tid ∧
       r_is_system_role old = false ∧ role_updated role_in old new (durable w) (durable w') ∧
       http_status 200 r = 500%Z)).
Proof.
  intros Hok Hdep. apply post_get_db_durable. unfold Roles.update_custom_role_in_tenant.
  apply post_bind, get_tenant_from_path_post; rewrite ?view_reopen; [apply usable_reopen|done| |].
  2:{ intros _ w' ->. rewrite durable_reopen. eauto. }
  intros x Hx Hid. unfold inject_none. rewrite Hdep. apply post_bind, post_ret.
  apply post_bind, post_get; [apply usable_reopen|rewrite view_reopen; apply Hok|]. simpl.
  rewrite view_reopen. destruct (roles (durable w) !! rid) as [old|] eqn:Hr; simpl.
  2:{ apply post_bind, post_raise. intros w2 ->. rewrite durable_reopen. eauto. }
  pose proof (model_ids (ok_roles _ Hok) rid old Hr) as Hrid. simpl in Hrid.
  apply post_bind, post_ret, post_bind, post_raise_if; intros Hten.
  { intros w2 ->. rewrite durable_reopen. eauto. }
  apply bool_decide_eq_false, dec_stable in Hten. rewrite Hid in Hten.
  apply post_bind, post_raise_if; intros Hsys.
  { intros w2 ->. rewrite durable_reopen. eauto. }
  apply post_try, post_bind. eapply post_mono; [apply update_custom_role_post;
    [apply usable_reopen|by rewrite view_reopen|rewrite view_reopen; by rewrite Hrid]|].
  rewrite view_reopen, durable_reopen. intros [new|e] w1.
  - intros (Hupd & Hok1 & _). apply post_bind. unfold post at 1. rewrite get_role_with_permissions_run.
    apply post_raise. intros w2 ->. split_and!; [done|by eexists|]. right. by exists old, new.
  - intros Hcase. assert (db_ok (durable w1) ∧ (durable w1 = durable w ∨ is_http e = false ∧
      ∃ new, role_updated role_in old new (durable w) (durable w1))) as [Hok1 Hgo].
    { destruct Hcase as [[-> _]|(Href & Hok1 & _ & new & Hupd)]; [by auto|]. split; [done|]. right.
      split; [by eapply refresh_error|by exists new]. }
    destruct Hgo as [Hd|[He [new Hupd]]].
    + destruct (is_http e); apply post_raise; intros w2 ->; eauto.
    + rewrite He. apply post_raise. intros w2 ->. split_and!; [done|by eexists|]. right.
      by exists old, new.
Qed.
(** Over the API a key belongs to its creator, and only superusers create keys
    bound to a tenant: another caller who names one gets 403, and a
    tenant-scoped key without a tenant gets 400.  Of the returned key the
    database keeps the prefix and the SHA-256 hash. *)
Theorem create_key_endpoint_spec rq body u w1 w :
  db_ok (durable w) → get_current_active_user rq (reopen w) = (Ret u, w1) →
  post (get_db (ApiKeys.create_api_key rq body)) w (λ r w',
    match r with
    | Ret (k, raw) =>
        k_user_id k = u_id u ∧ api_keys (durable w') !! k_id k = Some k ∧
        k_key_prefix k = str_prefix 8 raw ∧ k_key_hash k = sha256_hex raw ∧
        k_tenant_id k = (if ak_scope body then None else ak_tenant_id body) ∧
        (u_is_superuser u = false → k_scope k = GLOBAL ∧ k_tenant_id k = None)
    | Raise _ => durable w' = durable w ∧
        (http_status 200 r = 403%Z ∧ u_is_superuser u = false ∧ is_Some (ak_tenant_id body)
         ∨ http_status 200 r = 400%Z ∧ ak_scope body = TENANT ∧ ak_tenant_id body = None
         ∨ http_status 200 r = 500%Z)
    end).
Proof.
  intros Hok Hrun. apply post_get_db_durable.
  pose proof (get_current_active_user_post rq (reopen w) (usable_reopen w)) as HP.
  rewrite view_reopen, durable_reopen in HP. specialize (HP Hok). unfold post in HP. rewrite Hrun in HP.
  destruct HP as (Hd1 & (_ & Hu1 & Hok1 & _) & _).
  unfold ApiKeys.create_api_key. apply post_bind. unfold post at 1. rewrite Hrun.
  apply post_bind, post_raise_if; intros Hb.
  { intros w2 ->. apply andb_true_iff in Hb as [Ht Hs]. apply bool_decide_eq_true in Ht.
    apply negb_true_iff in Hs. split; [congruence|]. by left. }
  apply post_try. eapply post_mono; [by apply create_with_user_post|]. intros [[k raw]|e] w2.
  - intros (Hraw & Hp & Hh & _ & Hus & Hten & Hsome & Hsc & _ & _ & Hd & _) w3 ->.
    assert (k_tenant_id k = if ak_scope body then None else ak_tenant_id body) as Hkt.
    { rewrite Hten. unfold key_tenant. destruct (ak_scope body), (ak_tenant_id body); done. }
    split_and!; try done; [rewrite Hd; apply lookup_insert_eq|].
    intros Hs. rewrite Hs, andb_true_r in Hb. apply bool_decide_eq_false in Hb.
    rewrite Hsc, Hkt. destruct (ak_scope body) eqn:Hscope; [done|].
    destruct Hb. rewrite <- Hkt. by apply Hsome.
  - intros (Hd & [(-> & Hs & Hk)|[->|[c ->]]]); apply post_raise; intros w3 ->; (split; [congruence|]);
      [right; left|by right; right..].
    unfold key_tenant in Hk. rewrite Hs in Hk. by destruct (ak_tenant_id body).
Qed.
End role_api_properties.

Definition alice_in_acme : Request :=
  mkRequest (Some (jwt_encode 2000000000 (uuid_str 1))) None None (Some (uuid_str 10)).

(** On the sample the listing is refused; over a library that defines the
    operator, it lists the tenant's roles. *)
Definition ored : Session Snap := snap_session false (Some true) (Some (λ x _, Some x)).

Lemma list_roles_witness :
  post (get_db (Roles.list_roles_in_active_tenant alice_in_acme 0 100)) w0
    (λ r w', http_status 200 r = 500%Z ∧ durable w' = durable w0) ∧
  @post (World Snap) _ (@get_db Snap ored _ (@Roles.list_roles_in_active_tenant Snap ored _ _ alice_in_acme 0 2)) w0
    (λ r w', ∃ l, r = Ret l ∧ rl_name <$> l = ["Default User Role"; "admin"]%string ∧
       ∀ e, e ∈ l → is_Some (roles sample !! rl_id e)).
Proof.
  split.
  - pose proof (list_roles_spec alice_in_acme 0 100 w0 w0_durable_ok) as HP.
    unfold post in *. destruct (get_db _ w0) as [r w']. destruct HP as (Hd & _ & Hn).
    split; [|exact Hd]. apply (proj2 (Hn eq_refl) alice acme). vm_compute. reflexivity.
  - pose proof (@list_roles_spec Snap ored (snap_laws _ _ _) _ _ _ alice_in_acme 0 2 w0
      w0_durable_ok) as HP.
    assert (match (@get_db Snap ored _ (@Roles.list_roles_in_active_tenant Snap ored _ _
      alice_in_acme 0 2) w0).1 with Ret l => rl_name <$> l | Raise _ => [] end
      = ["Default User Role"; "admin"]%string) as Hr by (vm_compute; reflexivity).
    unfold post in *. destruct (@get_db Snap ored _ _ w0) as [[l|e] w']; [|discriminate Hr].
    exists l. split; [reflexivity|]. split; [exact Hr|]. intros e He.
    destruct HP as (_ & HP & _). destruct (HP l eq_refl) as (u & x & f & all & _ & _ & _ & _ & -> & Hall).
    apply page_elem_of in He. destruct Hall as (_ & _ & Hall). apply Hall in He as (ro & Hro & _ & ->).
    exists ro. exact Hro.
Defined.

(** Both attempts fail with 500; the role is there from the first on. *)
Example create_role_twice :
  let c := Roles.create_custom_role_in_tenant 10 (mkRoleCreate "auditor" None None) in
  http_status 201 (get_db c w0).1 = 500%Z ∧ (get_db c (get_db c w0).2).1 = Raise (HTTPException 500 "Could not create role.").
Proof. vm_compute. split; reflexivity. Qed.

Lemma create_role_witness :
  post (get_db (Roles.create_custom_role_in_tenant 10 (mkRoleCreate "auditor" None None))) w0
    (λ r w', http_status 201 r = 500%Z ∧
       is_Some (roles (durable w') !! uuid4_at 0) ∧ roles (durable w0) !! uuid4_at 0 = None).
Proof.
  eapply post_mono; [exact (create_role_endpoint_spec 10 (mkRoleCreate "auditor" None None) w0
    w0_durable_ok eq_refl)|]. intros r w' [_ HP].
  assert (is_Some (tenants (durable w0) !! 10%N)) as Ht by (apply (bool_decide_unpack _); vm_compute; exact I).
  rewrite decide_True in HP by exact Ht. destruct HP as [Hr HP]. split; [exact Hr|].
  assert (roles (durable w0) !! uuid4_at 0 = None) as Hn by (vm_compute; reflexivity).
  split; [|exact Hn]. rewrite decide_False in HP.
  - destruct HP as [-> _]. eexists. apply lookup_insert_eq.
  - apply (bool_decide_unpack _). vm_compute. exact I.
Defined.

(** Without credentials, the sample's inactive user takes the tenant's admin role. *)
Lemma set_assigned_witness :
  post (get_db (Roles.set_assigned_users_for_role 10 20 [4]%N)) w0 (λ r w', r = Ret [4]%N ∧
    permits (durable w') 4 10 "tenant:manage_invitations").
Proof.
  eapply post_mono; [apply (set_assigned_users_unguarded 10 20 [4]%N w0 w0_durable_ok)|].
  - eexists. vm_compute. reflexivity.
  - apply (bool_decide_unpack _). vm_compute. exact I.
  - intros uid Hin. apply list_elem_of_singleton in Hin as ->. eexists. vm_compute. reflexivity.
  - intros r w' (-> & _ & Hp). split; [reflexivity|].
    apply (Hp 4%N 30%N manage_invitations).
    + apply list_elem_of_singleton. reflexivity.
    + apply (bool_decide_unpack _). vm_compute. exact I.
    + vm_compute. reflexivity.
Defined.

(** Bob owns no key, so he lists none. *)
Definition as_bob : Request :=
  mkRequest (Some (jwt_encode 2000000000 (uuid_str 2))) None None None.

Lemma api_keys_witness :
  post (ApiKeys.read_api_keys as_bob 0 10 None) (reopen w0)
    (λ r _, ∀ l k, r = Ret l → k ∈ l → k_user_id k = 2%N).
Proof.
  assert (∃ w1, get_current_active_user as_bob (reopen w0) = (Ret bob, w1)) as [w1 Hrun].
  { eexists. vm_compute. reflexivity. }
  destruct (api_keys_private as_bob bob w1 w0 w0_durable_ok Hrun eq_refl) as (_ & Hl & _).
  eapply post_mono; [exact (Hl 0%Z 10%Z None)|]. intros r w' HP l k Hr Hin.
  destruct (HP l k Hr Hin) as [Ho _]. exact Ho.
Defined.

Lemma update_role_witness :
  post (get_db (Roles.update_custom_role_in_tenant 10 22 (mkRoleUpdate (Some (Some "mine")) None None))) w0
    (λ r w', durable w' = durable w0).
Proof.
  eapply post_mono; [exact (update_role_endpoint_spec 10 22 _ w0 w0_durable_ok eq_refl)|].
  intros r w' (_ & _ & [Hd|(old & new & Hr & Hten & _)]); [exact Hd|].
  assert (roles (durable w0) !! 22%N = Some globex_role) as Hg by (vm_compute; reflexivity).
  rewrite Hg in Hr. injection Hr as <-. discriminate Hten.
Defined.

(** Bob's own key. *)
Definition bobs_key : APIKeyCreate := mkAPIKeyCreate "ci" None true None GLOBAL None.

Lemma create_key_witness :
  post (get_db (ApiKeys.create_api_key as_bob bobs_key)) w0 (λ r w',
    ∃ k raw, r = Ret (k, raw) ∧ k_user_id k = 2%N ∧ k_tenant_id k = None).
Proof.
  assert (∃ w1, get_current_active_user as_bob (reopen w0) = (Ret bob, w1)) as [w1 Hrun].
  { eexists. vm_compute. reflexivity. }
  pose proof (create_key_endpoint_spec as_bob bobs_key bob w1 w0 w0_durable_ok Hrun) as HP.
  assert (match (get_db (ApiKeys.create_api_key as_bob bobs_key) w0).1 with
          | Ret _ => true | Raise _ => false end = true) as Hr by (vm_compute; reflexivity).
  unfold post in *. destruct (get_db _ w0) as [[[k raw]|e] w']; [|discriminate].
  destruct HP as (Hu & _ & _ & _ & Ht & _). exists k, raw.
  split; [reflexivity|]. split; [exact Hu|exact Ht].
Defined.
