(* ===== verification/Api.v ===== *)
(** * [api/v1/api.py]: the router, and what holds of every request

    [Call] enumerates the modelled endpoints with their inputs; [handler] is the
    dispatch, [serve] runs one request in a session of its own, [run] a sequence
    of requests. *)

From stdpp Require Import base tactics list gmap strings.
From Stdlib Require Import ZArith Lia.
From S2P Require Import Prelude PyStd Effects Models Session Snapshot Crud Stability.
From S2P Require Import RoleService UserService Security InvitationService ApiKeyService Deps.
From S2P Require InvitationApi.
From S2P Require Import TenantApi RoleApi.
From S2P Require Permissions TenantService.
Import InvitationApi(Pydantic, toy_pydantic).

Inductive Call :=
  | Login (username password : string)
  | ListTenants (rq : Request)
  | CreateTenant (tenant_in : TenantService.TenantCreate)
  | GetTenant (tenant_id : Uuid)
  | GetTenantBySlug (slug : string)
  | UpdateTenant (tenant_id : Uuid) (tenant_in : TenantService.TenantUpdate)
  | DeleteTenant (tenant_id : Uuid)
  | ListUsers (rq : Request) (page limit : nat) (search : option string)
  | Me (rq : Request)
  | UpdateMe (rq : Request) (user_in : UserUpdate)
  | UpdateStatus (rq : Request) (user_id : Uuid) (is_active : bool)
  | RemoveUser (rq : Request) (user_id : Uuid)
  | ListTenantUsers (tenant_id : Uuid) (page limit : nat) (search : option string)
  | GetTenantUser (tenant_id user_id : Uuid)
  | AssignRole (tenant_id user_id role_id : Uuid)
  | RemoveRole (tenant_id user_id role_id : Uuid)
  | ListRoles (rq : Request) (skip limit : nat)
  | CreateRole (tenant_id : Uuid) (role_in : RoleCreate)
  | GetRole (tenant_id role_id : Uuid)
  | UpdateRole (tenant_id role_id : Uuid) (role_in : RoleUpdate)
  | DeleteRole (tenant_id role_id : Uuid)
  | ListPermissions (rq : Request)
  | GetRoleUsers (tenant_id role_id : Uuid)
  | SetRoleUsers (tenant_id role_id : Uuid) (user_ids : list Uuid)
  | CreateKey (rq : Request) (api_key_in : APIKeyCreate)
  | ReadKeys (rq : Request) (skip limit : Z) (tenant_id : option Uuid)
  | ReadKey (rq : Request) (api_key_id : Uuid)
  | UpdateKey (rq : Request) (api_key_id : Uuid) (api_key_in : APIKeyUpdate)
  | DeleteKey (rq : Request) (api_key_id : Uuid)
  | CreateInvitation (rq : Request) (invitation_in : InvitationApi.InvitationCreate)
  | ListInvitations (rq : Request) (tenant_id : Uuid) (status : option InvitationStatus) (skip limit : nat)
  | VerifyInvitation (token : string)
  | ReadInvitation (rq : Request) (invitation_id : Uuid)
  | RevokeInvitation (rq : Request) (invitation_id : Uuid)
  | AcceptInvitation (payload : InvitationApi.InvitationAccept).

Section api.
Context {S : Type} `{Session S} `{Inputs} `{Passlib} `{Jose} `{Pydantic} `{Fastapi}.

Definition handler (c : Call) : M (World S) unit :=
  match c with
  | Login username password => Auth.login_access_token username password ;; mret tt
  | ListTenants rq => Tenants.list_accessible_tenants rq ;; mret tt
  | CreateTenant tenant_in => Tenants.create_tenant tenant_in ;; mret tt
  | GetTenant tenant_id => Tenants.get_tenant_by_id tenant_id ;; mret tt
  | GetTenantBySlug slug => Tenants.get_tenant_by_slug slug ;; mret tt
  | UpdateTenant tenant_id tenant_in => Tenants.update_tenant tenant_id tenant_in ;; mret tt
  | DeleteTenant tenant_id => Tenants.delete_tenant tenant_id
  | ListUsers rq page limit search =>
      Users.list_users_in_active_tenant rq page limit search ;; mret tt
  | Me rq => Users.get_current_user_info rq ;; mret tt
  | UpdateMe rq user_in => Users.update_current_user rq user_in ;; mret tt
  | UpdateStatus rq user_id is_active =>
      Users.update_user_status_in_active_tenant rq user_id is_active ;; mret tt
  | RemoveUser rq user_id => Users.remove_user_from_active_tenant rq user_id
  | ListTenantUsers tenant_id page limit search =>
      TenantUsers.list_users_in_tenant tenant_id page limit search ;; mret tt
  | GetTenantUser tenant_id user_id => TenantUsers.get_tenant_user tenant_id user_id ;; mret tt
  | AssignRole tenant_id user_id role_id => TenantUsers.assign_role_to_user tenant_id user_id role_id
  | RemoveRole tenant_id user_id role_id => TenantUsers.remove_role_from_user tenant_id user_id role_id
  | ListRoles rq skip limit => Roles.list_roles_in_active_tenant rq skip limit ;; mret tt
  | CreateRole tenant_id role_in => Roles.create_custom_role_in_tenant tenant_id role_in ;; mret tt
  | GetRole tenant_id role_id => Roles.get_role_details tenant_id role_id ;; mret tt
  | UpdateRole tenant_id role_id role_in =>
      Roles.update_custom_role_in_tenant tenant_id role_id role_in ;; mret tt
  | DeleteRole tenant_id role_id => Roles.delete_custom_role_from_tenant tenant_id role_id
  | ListPermissions rq => Roles.list_available_permissions rq ;; mret tt
  | GetRoleUsers tenant_id role_id => Roles.get_assigned_users_for_role tenant_id role_id ;; mret tt
  | SetRoleUsers tenant_id role_id user_ids =>
      Roles.set_assigned_users_for_role tenant_id role_id user_ids ;; mret tt
  | CreateKey rq api_key_in => ApiKeys.create_api_key rq api_key_in ;; mret tt
  | ReadKeys rq skip limit tenant_id => ApiKeys.read_api_keys rq skip limit tenant_id ;; mret tt
  | ReadKey rq api_key_id => ApiKeys.read_api_key rq api_key_id ;; mret tt
  | UpdateKey rq api_key_id api_key_in => ApiKeys.update_api_key rq api_key_id api_key_in ;; mret tt
  | DeleteKey rq api_key_id => ApiKeys.delete_api_key rq api_key_id
  | CreateInvitation rq invitation_in => InvitationApi.create_invitation rq invitation_in ;; mret tt
  | ListInvitations rq tenant_id status skip limit =>
      InvitationApi.list_invitations rq tenant_id status skip limit ;; mret tt
  | VerifyInvitation token => InvitationApi.verify_invitation_token token ;; mret tt
  | ReadInvitation rq invitation_id => InvitationApi.read_invitation rq invitation_id ;; mret tt
  | RevokeInvitation rq invitation_id => InvitationApi.revoke_invitation rq invitation_id ;; mret tt
  | AcceptInvitation payload => InvitationApi.accept_invitation payload ;; mret tt
  end.

Definition serve (c : Call) : World S → World S := λ w, (get_db (handler c) w).2.

Definition run (cs : list Call) (w : World S) : World S := foldl (λ w c, serve c w) w cs.

(** Calls whose handler replies success without anything being committed. *)
Definition writes_lost (c : Call) : bool :=
  match c with
  | CreateTenant _ | UpdateTenant _ _ | DeleteTenant _ | UpdateMe _ _ | UpdateStatus _ _ _
  | RemoveUser _ _ | RemoveRole _ _ _ | AssignRole _ _ _ | UpdateKey _ _ _ | DeleteKey _ _ => true
  | _ => false
  end.

(** Calls that only read. *)
Definition reads_only (c : Call) : bool :=
  match c with
  | Login _ _ | ListTenants _ | GetTenant _ | GetTenantBySlug _ | ListUsers _ _ _ _ | Me _
  | ListTenantUsers _ _ _ _ | GetTenantUser _ _ | GetRole _ _ | ListRoles _ _ _ | ListPermissions _ | GetRoleUsers _ _
  | ReadKeys _ _ _ _ | ReadKey _ _ | ListInvitations _ _ _ _ _ | ReadInvitation _ _ => true
  | _ => false
  end.
End api.

(** ** Every service and dependency keeps integrity *)

Section services_sound.
Context {S : Type} `{SessionLaws S} `{Inputs} `{Passlib} `{Jose} `{Pydantic} `{Fastapi}.

Lemma sound_refresh_role ns : keeps (S := S) db_ok (refresh_role ns).
Proof. induction ns as [|n ns IH]; simpl; solve_sound; eauto. Qed.
#[local] Hint Resolve sound_refresh_role : sound.
Lemma sound_delete_assignments p `{!∀ k, Decision (p k)} : keeps (S := S) db_ok (delete_assignments p).
Proof. unfold delete_assignments. solve_sound. Qed.
Lemma sound_delete_user u t b : keeps (S := S) db_ok (UserService.delete u t b).
Proof. unfold UserService.delete. solve_sound. apply sound_delete_assignments. Qed.
Lemma sound_remove_role u r t b : keeps (S := S) db_ok (remove_role_from_user_in_tenant u r t b).
Proof. unfold remove_role_from_user_in_tenant. solve_sound. apply sound_delete_assignments. Qed.
Lemma sound_create_password_hash p : sound (create_password_hash (S := S) p).
Proof. unfold create_password_hash. solve_sound. Qed.
#[local] Hint Resolve sound_create_password_hash : sound.
Lemma sound_verify_password p h : sound (verify_password (S := S) p h).
Proof. unfold verify_password. solve_sound. Qed.
#[local] Hint Resolve sound_verify_password : sound.
Lemma sound_create_access_token s d : sound (create_access_token (S := S) s d).
Proof. unfold create_access_token. solve_sound. Qed.
#[local] Hint Resolve sound_create_access_token : sound.
Lemma sound_get_role_with_permissions r : sound (get_role_with_permissions (S := S) r).
Proof. unfold get_role_with_permissions. solve_sound. Qed.
#[local] Hint Resolve sound_get_role_with_permissions : sound.
Lemma sound_get_users_for_role r t : sound (get_users_for_role (S := S) r t).
Proof. unfold get_users_for_role. solve_sound. Qed.
#[local] Hint Resolve sound_get_users_for_role : sound.
Lemma sound_role_counts t k l : sound (get_multi_by_tenant_with_user_count (S := S) t k l).
Proof. unfold get_multi_by_tenant_with_user_count. solve_sound. Qed.
#[local] Hint Resolve sound_role_counts : sound.
Lemma sound_get_by_email e : sound (get_by_email (S := S) e).
Proof. unfold get_by_email. solve_sound. Qed.
#[local] Hint Resolve sound_get_by_email : sound.
Lemma sound_UserService_update u o : sound (UserService.update (S := S) u o).
Proof. unfold UserService.update. solve_sound. Qed.
#[local] Hint Resolve sound_UserService_update : sound.
Lemma sound_get_multi_by_tenant_paginated t k l s : sound (get_multi_by_tenant_paginated (S := S) t k l s).
Proof. unfold get_multi_by_tenant_paginated. solve_sound. Qed.
#[local] Hint Resolve sound_get_multi_by_tenant_paginated : sound.
Lemma sound_get_by_id_and_tenant u t : sound (get_by_id_and_tenant (S := S) u t).
Proof. unfold get_by_id_and_tenant. solve_sound. Qed.
#[local] Hint Resolve sound_get_by_id_and_tenant : sound.
Lemma sound_assign_role_to_user_in_tenant u r t : sound (assign_role_to_user_in_tenant (S := S) u r t).
Proof. unfold assign_role_to_user_in_tenant. solve_sound. Qed.
#[local] Hint Resolve sound_assign_role_to_user_in_tenant : sound.
Lemma sound_InvitationService_get_multi_by_tenant t k l : sound (InvitationService.get_multi_by_tenant (S := S) t k l).
Proof. unfold InvitationService.get_multi_by_tenant. solve_sound. Qed.
#[local] Hint Resolve sound_InvitationService_get_multi_by_tenant : sound.
Lemma sound_get_invitation_with_details i : sound (get_invitation_with_details (S := S) i).
Proof. unfold get_invitation_with_details. solve_sound. Qed.
#[local] Hint Resolve sound_get_invitation_with_details : sound.
Lemma sound_validate_api_key k : sound (validate_api_key (S := S) k).
Proof. unfold validate_api_key. solve_sound. Qed.
#[local] Hint Resolve sound_validate_api_key : sound.
Lemma sound_ApiKeyService_get_multi_by_tenant t k l : sound (ApiKeyService.get_multi_by_tenant (S := S) t k l).
Proof. unfold ApiKeyService.get_multi_by_tenant. solve_sound. Qed.
#[local] Hint Resolve sound_ApiKeyService_get_multi_by_tenant : sound.
Lemma sound_ApiKeyService_get_multi k l : sound (ApiKeyService.get_multi (S := S) k l).
Proof. unfold ApiKeyService.get_multi. solve_sound. Qed.
#[local] Hint Resolve sound_ApiKeyService_get_multi : sound.
Lemma sound_get_multi_by_user u k l : sound (get_multi_by_user (S := S) u k l).
Proof. unfold get_multi_by_user. solve_sound. Qed.
#[local] Hint Resolve sound_get_multi_by_user : sound.
Lemma sound_ApiKeyService_update k o : sound (ApiKeyService.update (S := S) k o).
Proof. unfold ApiKeyService.update. solve_sound. Qed.
#[local] Hint Resolve sound_ApiKeyService_update : sound.
Lemma sound_TenantService_get_multi_by_user u : sound (TenantService.get_multi_by_user (S := S) u).
Proof. unfold TenantService.get_multi_by_user. solve_sound. Qed.
#[local] Hint Resolve sound_TenantService_get_multi_by_user : sound.
Lemma sound_TenantService_get_by_name n : sound (TenantService.get_by_name (S := S) n).
Proof. unfold TenantService.get_by_name. solve_sound. Qed.
#[local] Hint Resolve sound_TenantService_get_by_name : sound.
Lemma sound_TenantService_get_by_slug n : sound (TenantService.get_by_slug (S := S) n).
Proof. unfold TenantService.get_by_slug. solve_sound. Qed.
#[local] Hint Resolve sound_TenantService_get_by_slug : sound.
Lemma sound_TenantService_create o : sound (TenantService.create (S := S) o).
Proof. unfold TenantService.create. solve_sound. Qed.
#[local] Hint Resolve sound_TenantService_create : sound.
Lemma sound_TenantService_update x o : sound (TenantService.update (S := S) x o).
Proof. unfold TenantService.update. solve_sound. Qed.
#[local] Hint Resolve sound_TenantService_update : sound.
Lemma sound_Permissions_get_by_code c : sound (Permissions.get_by_code (S := S) c).
Proof. unfold Permissions.get_by_code. solve_sound. Qed.
#[local] Hint Resolve sound_Permissions_get_by_code : sound.
Lemma sound_token_handler {A} e : sound (token_handler (S := S) (A := A) e).
Proof. unfold token_handler. solve_sound. Qed.
#[local] Hint Resolve sound_token_handler : sound.
Lemma sound_get_current_user_from_token tk : sound (get_current_user_from_token (S := S) tk).
Proof. unfold get_current_user_from_token. solve_sound. Qed.
#[local] Hint Resolve sound_get_current_user_from_token : sound.
Lemma sound_get_current_user_from_api_key a b : sound (get_current_user_from_api_key (S := S) a b).
Proof. unfold get_current_user_from_api_key. solve_sound. Qed.
#[local] Hint Resolve sound_get_current_user_from_api_key : sound.
Lemma sound_get_current_user rq : sound (get_current_user (S := S) rq).
Proof. unfold get_current_user. solve_sound. Qed.
#[local] Hint Resolve sound_get_current_user : sound.
Lemma sound_get_current_active_user rq : sound (get_current_active_user (S := S) rq).
Proof. unfold get_current_active_user. solve_sound. Qed.
#[local] Hint Resolve sound_get_current_active_user : sound.
Lemma sound_get_tenant_from_path t : sound (get_tenant_from_path (S := S) t).
Proof. unfold get_tenant_from_path. solve_sound. Qed.
#[local] Hint Resolve sound_get_tenant_from_path : sound.
Lemma sound_scalar_exists {A} q : sound (scalar_exists (S := S) (A := A) q).
Proof. unfold scalar_exists. solve_sound. Qed.
#[local] Hint Resolve sound_scalar_exists : sound.
Lemma sound_get_current_active_tenant u h : sound (get_current_active_tenant (S := S) u h).
Proof. unfold get_current_active_tenant. solve_sound. Qed.
#[local] Hint Resolve sound_get_current_active_tenant : sound.
Lemma sound_check_active_tenant_permission p u x : sound (check_active_tenant_permission (S := S) p u x).
Proof. unfold check_active_tenant_permission. solve_sound. Qed.
#[local] Hint Resolve sound_check_active_tenant_permission : sound.
Lemma sound_require_permission_in_active_tenant p rq : sound (require_permission_in_active_tenant (S := S) p rq).
Proof. unfold require_permission_in_active_tenant. solve_sound. Qed.
#[local] Hint Resolve sound_require_permission_in_active_tenant : sound.
Lemma sound_check_user_permission_for_tenant u t p : sound (check_user_permission_for_tenant (S := S) u t p).
Proof. unfold check_user_permission_for_tenant. solve_sound. Qed.
#[local] Hint Resolve sound_check_user_permission_for_tenant : sound.
Lemma sound_inject_none a : sound (inject_none (S := S) a).
Proof. unfold inject_none. solve_sound. Qed.
#[local] Hint Resolve sound_inject_none : sound.
Lemma sound_InvitationApi_unexpected {A} d : sound (InvitationApi.unexpected (S := S) (A := A) d).
Proof. unfold InvitationApi.unexpected. solve_sound. Qed.
#[local] Hint Resolve sound_InvitationApi_unexpected : sound.
Lemma sound_set_role_permissions r ps : sound (set_role_permissions (S := S) r ps).
Proof. unfold set_role_permissions. solve_sound. Qed.
#[local] Hint Resolve sound_set_role_permissions : sound.
Lemma sound_create_custom_role o t : sound (create_custom_role (S := S) o t).
Proof. unfold create_custom_role. unfold get_by_name_in_tenant. solve_sound. Qed.
#[local] Hint Resolve sound_create_custom_role : sound.
Lemma sound_update_custom_role r o : sound (update_custom_role (S := S) r o).
Proof. unfold update_custom_role. solve_sound. Qed.
#[local] Hint Resolve sound_update_custom_role : sound.
Lemma sound_delete_custom_role r t : sound (delete_custom_role (S := S) r t).
Proof. unfold delete_custom_role. unfold check_role_assigned. solve_sound. Qed.
#[local] Hint Resolve sound_delete_custom_role : sound.
Lemma sound_set_users_for_role r t us : sound (set_users_for_role (S := S) r t us).
Proof. unfold set_users_for_role. solve_sound. Qed.
#[local] Hint Resolve sound_set_users_for_role : sound.
Lemma sound_UserService_create_user_row o : sound (UserService.create_user_row (S := S) o).
Proof. unfold UserService.create_user_row. solve_sound. Qed.
#[local] Hint Resolve sound_UserService_create_user_row : sound.
Lemma sound_UserService_create_association u t r : sound (UserService.create_association (S := S) u t r).
Proof. unfold UserService.create_association. solve_sound. Qed.
#[local] Hint Resolve sound_UserService_create_association : sound.
Lemma sound_UserService_create o t b : sound (UserService.create (S := S) o t b).
Proof. unfold UserService.create. unfold get_by_name_in_tenant. solve_sound. Qed.
#[local] Hint Resolve sound_UserService_create : sound.
Lemma sound_token_urlsafe : sound (token_urlsafe (S := S)).
Proof. unfold token_urlsafe. solve_sound. Qed.
#[local] Hint Resolve sound_token_urlsafe : sound.
Lemma sound_InvitationService_create_invitation a b c d e : sound (InvitationService.create_invitation (S := S) a b c d e).
Proof. unfold InvitationService.create_invitation. solve_sound. Qed.
#[local] Hint Resolve sound_InvitationService_create_invitation : sound.
Lemma sound_get_by_token k : sound (get_by_token (S := S) k).
Proof. unfold get_by_token. solve_sound. Qed.
#[local] Hint Resolve sound_get_by_token : sound.
Lemma sound_verify_token k : sound (verify_token (S := S) k).
Proof. unfold verify_token. solve_sound. Qed.
#[local] Hint Resolve sound_verify_token : sound.
Lemma sound_InvitationService_accept_invitation k u : sound (InvitationService.accept_invitation (S := S) k u).
Proof. unfold InvitationService.accept_invitation. solve_sound. Qed.
#[local] Hint Resolve sound_InvitationService_accept_invitation : sound.
Lemma sound_InvitationService_revoke_invitation i : sound (InvitationService.revoke_invitation (S := S) i).
Proof. unfold InvitationService.revoke_invitation. solve_sound. Qed.
#[local] Hint Resolve sound_InvitationService_revoke_invitation : sound.
Lemma sound__generate_api_key : sound (_generate_api_key (S := S)).
Proof. unfold _generate_api_key. solve_sound. Qed.
#[local] Hint Resolve sound__generate_api_key : sound.
Lemma sound_create_with_user o u t : sound (create_with_user (S := S) o u t).
Proof. unfold create_with_user. solve_sound. Qed.
#[local] Hint Resolve sound_create_with_user : sound.
Lemma sound_update_last_used k : sound (update_last_used (S := S) k).
Proof. unfold update_last_used. solve_sound. Qed.
#[local] Hint Resolve sound_update_last_used : sound.
Lemma sound_InvitationApi_create_user_call o : sound (InvitationApi.create_user_call (S := S) o).
Proof. unfold InvitationApi.create_user_call. solve_sound. Qed.
#[local] Hint Resolve sound_InvitationApi_create_user_call : sound.
End services_sound.

#[export] Hint Resolve sound_create_password_hash sound_verify_password sound_create_access_token sound_get_role_with_permissions sound_get_users_for_role sound_role_counts sound_get_by_email sound_UserService_update sound_get_multi_by_tenant_paginated sound_get_by_id_and_tenant sound_assign_role_to_user_in_tenant sound_InvitationService_get_multi_by_tenant sound_get_invitation_with_details sound_validate_api_key sound_ApiKeyService_get_multi_by_tenant sound_ApiKeyService_get_multi sound_get_multi_by_user sound_ApiKeyService_update sound_TenantService_get_multi_by_user sound_TenantService_get_by_name sound_TenantService_get_by_slug sound_TenantService_create sound_TenantService_update sound_Permissions_get_by_code sound_token_handler sound_get_current_user_from_token sound_get_current_user_from_api_key sound_get_current_user sound_get_current_active_user sound_get_tenant_from_path sound_scalar_exists sound_get_current_active_tenant sound_check_active_tenant_permission sound_require_permission_in_active_tenant sound_check_user_permission_for_tenant sound_inject_none sound_InvitationApi_unexpected sound_set_role_permissions sound_create_custom_role sound_update_custom_role sound_delete_custom_role sound_set_users_for_role sound_UserService_create_user_row sound_UserService_create_association sound_UserService_create sound_token_urlsafe sound_InvitationService_create_invitation sound_get_by_token sound_verify_token sound_InvitationService_accept_invitation sound_InvitationService_revoke_invitation sound__generate_api_key sound_create_with_user sound_update_last_used sound_InvitationApi_create_user_call : sound.

#[export] Hint Resolve sound_refresh_role sound_delete_user sound_remove_role : sound.

(** ** The services and dependencies that never commit *)

Section services_nocommit.
Context {S : Type} `{SessionLaws S} `{Inputs} `{Passlib} `{Jose} `{Pydantic} `{Fastapi}.

Lemma nocommit_delete_assignments p `{!∀ k, Decision (p k)} : nocommit (S := S) (delete_assignments p).
Proof. unfold delete_assignments. solve_nocommit. Qed.
Lemma nocommit_delete_user u t : nocommit (S := S) (UserService.delete u t false).
Proof. unfold UserService.delete. solve_nocommit. apply nocommit_delete_assignments. Qed.
Lemma nocommit_remove_role u r t : nocommit (S := S) (remove_role_from_user_in_tenant u r t false).
Proof. unfold remove_role_from_user_in_tenant. solve_nocommit. apply nocommit_delete_assignments. Qed.
Lemma nocommit_create_password_hash p : nocommit (create_password_hash (S := S) p).
Proof. unfold create_password_hash. solve_nocommit. Qed.
#[local] Hint Resolve nocommit_create_password_hash : nocommit.
Lemma nocommit_verify_password p h : nocommit (verify_password (S := S) p h).
Proof. unfold verify_password. solve_nocommit. Qed.
#[local] Hint Resolve nocommit_verify_password : nocommit.
Lemma nocommit_create_access_token s d : nocommit (create_access_token (S := S) s d).
Proof. unfold create_access_token. solve_nocommit. Qed.
#[local] Hint Resolve nocommit_create_access_token : nocommit.
Lemma nocommit_get_role_with_permissions r : nocommit (get_role_with_permissions (S := S) r).
Proof. unfold get_role_with_permissions. solve_nocommit. Qed.
#[local] Hint Resolve nocommit_get_role_with_permissions : nocommit.
Lemma nocommit_get_users_for_role r t : nocommit (get_users_for_role (S := S) r t).
Proof. unfold get_users_for_role. solve_nocommit. Qed.
#[local] Hint Resolve nocommit_get_users_for_role : nocommit.
Lemma nocommit_role_counts t k l : nocommit (get_multi_by_tenant_with_user_count (S := S) t k l).
Proof. unfold get_multi_by_tenant_with_user_count. solve_nocommit. Qed.
#[local] Hint Resolve nocommit_role_counts : nocommit.
Lemma nocommit_get_by_email e : nocommit (get_by_email (S := S) e).
Proof. unfold get_by_email. solve_nocommit. Qed.
#[local] Hint Resolve nocommit_get_by_email : nocommit.
Lemma nocommit_UserService_update u o : nocommit (UserService.update (S := S) u o).
Proof. unfold UserService.update. solve_nocommit. Qed.
#[local] Hint Resolve nocommit_UserService_update : nocommit.
Lemma nocommit_get_multi_by_tenant_paginated t k l s : nocommit (get_multi_by_tenant_paginated (S := S) t k l s).
Proof. unfold get_multi_by_tenant_paginated. solve_nocommit. Qed.
#[local] Hint Resolve nocommit_get_multi_by_tenant_paginated : nocommit.
Lemma nocommit_get_by_id_and_tenant u t : nocommit (get_by_id_and_tenant (S := S) u t).
Proof. unfold get_by_id_and_tenant. solve_nocommit. Qed.
#[local] Hint Resolve nocommit_get_by_id_and_tenant : nocommit.
Lemma nocommit_assign_role_to_user_in_tenant u r t : nocommit (assign_role_to_user_in_tenant (S := S) u r t).
Proof. unfold assign_role_to_user_in_tenant. solve_nocommit. Qed.
#[local] Hint Resolve nocommit_assign_role_to_user_in_tenant : nocommit.
Lemma nocommit_InvitationService_get_multi_by_tenant t k l : nocommit (InvitationService.get_multi_by_tenant (S := S) t k l).
Proof. unfold InvitationService.get_multi_by_tenant. solve_nocommit. Qed.
#[local] Hint Resolve nocommit_InvitationService_get_multi_by_tenant : nocommit.
Lemma nocommit_get_invitation_with_details i : nocommit (get_invitation_with_details (S := S) i).
Proof. unfold get_invitation_with_details. solve_nocommit. Qed.
#[local] Hint Resolve nocommit_get_invitation_with_details : nocommit.
Lemma nocommit_validate_api_key k : nocommit (validate_api_key (S := S) k).
Proof. unfold validate_api_key. solve_nocommit. Qed.
#[local] Hint Resolve nocommit_validate_api_key : nocommit.
Lemma nocommit_ApiKeyService_get_multi_by_tenant t k l : nocommit (ApiKeyService.get_multi_by_tenant (S := S) t k l).
Proof. unfold ApiKeyService.get_multi_by_tenant. solve_nocommit. Qed.
#[local] Hint Resolve nocommit_ApiKeyService_get_multi_by_tenant : nocommit.
Lemma nocommit_ApiKeyService_get_multi k l : nocommit (ApiKeyService.get_multi (S := S) k l).
Proof. unfold ApiKeyService.get_multi. solve_nocommit. Qed.
#[local] Hint Resolve nocommit_ApiKeyService_get_multi : nocommit.
Lemma nocommit_get_multi_by_user u k l : nocommit (get_multi_by_user (S := S) u k l).
Proof. unfold get_multi_by_user. solve_nocommit. Qed.
#[local] Hint Resolve nocommit_get_multi_by_user : nocommit.
Lemma nocommit_ApiKeyService_update k o : nocommit (ApiKeyService.update (S := S) k o).
Proof. unfold ApiKeyService.update. solve_nocommit. Qed.
#[local] Hint Resolve nocommit_ApiKeyService_update : nocommit.
Lemma nocommit_TenantService_get_multi_by_user u : nocommit (TenantService.get_multi_by_user (S := S) u).
Proof. unfold TenantService.get_multi_by_user. solve_nocommit. Qed.
#[local] Hint Resolve nocommit_TenantService_get_multi_by_user : nocommit.
Lemma nocommit_TenantService_get_by_name n : nocommit (TenantService.get_by_name (S := S) n).
Proof. unfold TenantService.get_by_name. solve_nocommit. Qed.
#[local] Hint Resolve nocommit_TenantService_get_by_name : nocommit.
Lemma nocommit_TenantService_get_by_slug n : nocommit (TenantService.get_by_slug (S := S) n).
Proof. unfold TenantService.get_by_slug. solve_nocommit. Qed.
#[local] Hint Resolve nocommit_TenantService_get_by_slug : nocommit.
Lemma nocommit_TenantService_create o : nocommit (TenantService.create (S := S) o).
Proof. unfold TenantService.create. solve_nocommit. Qed.
#[local] Hint Resolve nocommit_TenantService_create : nocommit.
Lemma nocommit_TenantService_update x o : nocommit (TenantService.update (S := S) x o).
Proof. unfold TenantService.update. solve_nocommit. Qed.
#[local] Hint Resolve nocommit_TenantService_update : nocommit.
Lemma nocommit_Permissions_get_by_code c : nocommit (Permissions.get_by_code (S := S) c).
Proof. unfold Permissions.get_by_code. solve_nocommit. Qed.
#[local] Hint Resolve nocommit_Permissions_get_by_code : nocommit.
Lemma nocommit_token_handler {A} e : nocommit (token_handler (S := S) (A := A) e).
Proof. unfold token_handler. solve_nocommit. Qed.
#[local] Hint Resolve nocommit_token_handler : nocommit.
Lemma nocommit_get_current_user_from_token tk : nocommit (get_current_user_from_token (S := S) tk).
Proof. unfold get_current_user_from_token. solve_nocommit. Qed.
#[local] Hint Resolve nocommit_get_current_user_from_token : nocommit.
Lemma nocommit_get_current_user_from_api_key a b : nocommit (get_current_user_from_api_key (S := S) a b).
Proof. unfold get_current_user_from_api_key. solve_nocommit. Qed.
#[local] Hint Resolve nocommit_get_current_user_from_api_key : nocommit.
Lemma nocommit_get_current_user rq : nocommit (get_current_user (S := S) rq).
Proof. unfold get_current_user. solve_nocommit. Qed.
#[local] Hint Resolve nocommit_get_current_user : nocommit.
Lemma nocommit_get_current_active_user rq : nocommit (get_current_active_user (S := S) rq).
Proof. unfold get_current_active_user. solve_nocommit. Qed.
#[local] Hint Resolve nocommit_get_current_active_user : nocommit.
Lemma nocommit_get_tenant_from_path t : nocommit (get_tenant_from_path (S := S) t).
Proof. unfold get_tenant_from_path. solve_nocommit. Qed.
#[local] Hint Resolve nocommit_get_tenant_from_path : nocommit.
Lemma nocommit_scalar_exists {A} q : nocommit (scalar_exists (S := S) (A := A) q).
Proof. unfold scalar_exists. solve_nocommit. Qed.
#[local] Hint Resolve nocommit_scalar_exists : nocommit.
Lemma nocommit_get_current_active_tenant u h : nocommit (get_current_active_tenant (S := S) u h).
Proof. unfold get_current_active_tenant. solve_nocommit. Qed.
#[local] Hint Resolve nocommit_get_current_active_tenant : nocommit.
Lemma nocommit_check_active_tenant_permission p u x : nocommit (check_active_tenant_permission (S := S) p u x).
Proof. unfold check_active_tenant_permission. solve_nocommit. Qed.
#[local] Hint Resolve nocommit_check_active_tenant_permission : nocommit.
Lemma nocommit_require_permission_in_active_tenant p rq : nocommit (require_permission_in_active_tenant (S := S) p rq).
Proof. unfold require_permission_in_active_tenant. solve_nocommit. Qed.
#[local] Hint Resolve nocommit_require_permission_in_active_tenant : nocommit.
Lemma nocommit_check_user_permission_for_tenant u t p : nocommit (check_user_permission_for_tenant (S := S) u t p).
Proof. unfold check_user_permission_for_tenant. solve_nocommit. Qed.
#[local] Hint Resolve nocommit_check_user_permission_for_tenant : nocommit.
Lemma nocommit_inject_none a : nocommit (inject_none (S := S) a).
Proof. unfold inject_none. solve_nocommit. Qed.
#[local] Hint Resolve nocommit_inject_none : nocommit.
Lemma nocommit_InvitationApi_unexpected {A} d : nocommit (InvitationApi.unexpected (S := S) (A := A) d).
Proof. unfold InvitationApi.unexpected. solve_nocommit. Qed.
#[local] Hint Resolve nocommit_InvitationApi_unexpected : nocommit.
End services_nocommit.

#[export] Hint Resolve nocommit_create_password_hash nocommit_verify_password nocommit_create_access_token nocommit_get_role_with_permissions nocommit_get_users_for_role nocommit_role_counts nocommit_get_by_email nocommit_UserService_update nocommit_get_multi_by_tenant_paginated nocommit_get_by_id_and_tenant nocommit_assign_role_to_user_in_tenant nocommit_InvitationService_get_multi_by_tenant nocommit_get_invitation_with_details nocommit_validate_api_key nocommit_ApiKeyService_get_multi_by_tenant nocommit_ApiKeyService_get_multi nocommit_get_multi_by_user nocommit_ApiKeyService_update nocommit_TenantService_get_multi_by_user nocommit_TenantService_get_by_name nocommit_TenantService_get_by_slug nocommit_TenantService_create nocommit_TenantService_update nocommit_Permissions_get_by_code nocommit_token_handler nocommit_get_current_user_from_token nocommit_get_current_user_from_api_key nocommit_get_current_user nocommit_get_current_active_user nocommit_get_tenant_from_path nocommit_scalar_exists nocommit_get_current_active_tenant nocommit_check_active_tenant_permission nocommit_require_permission_in_active_tenant nocommit_check_user_permission_for_tenant nocommit_inject_none nocommit_InvitationApi_unexpected : nocommit.

#[export] Hint Resolve nocommit_delete_user nocommit_remove_role : nocommit.

(** ** Properties *)

Section api_properties.
Context {S : Type} `{SessionLaws S} `{Inputs} `{Passlib} `{Jose} `{Pydantic} `{Fastapi}.
Implicit Types w : World S.

Lemma handler_sound c : sound (handler (S := S) c).
Proof.
  destruct c; simpl; (apply keeps_bind; [|intros; apply keeps_ret]) || idtac;
    unfold Auth.login_access_token, Tenants.list_accessible_tenants, Tenants.create_tenant,
      Tenants.get_tenant_by_id, Tenants.get_tenant_by_slug, Tenants.update_tenant,
      Tenants.delete_tenant, Users.list_users_in_active_tenant, Users.get_current_user_info,
      Users.update_current_user, Users.update_user_status_in_active_tenant,
      Users.remove_user_from_active_tenant, TenantUsers.list_users_in_tenant,
      TenantUsers.get_tenant_user, TenantUsers.assign_role_to_user, TenantUsers.remove_role_from_user,
      Roles.list_roles_in_active_tenant, Roles.create_custom_role_in_tenant, Roles.get_role_details, Roles.update_custom_role_in_tenant,
      Roles.delete_custom_role_from_tenant, Roles.list_available_permissions,
      Roles.get_assigned_users_for_role, Roles.set_assigned_users_for_role,
      ApiKeys.create_api_key, ApiKeys.read_api_keys, ApiKeys.read_api_key, ApiKeys.update_api_key,
      ApiKeys.delete_api_key, InvitationApi.create_invitation, InvitationApi.list_invitations,
      InvitationApi.verify_invitation_token, InvitationApi.read_invitation,
      InvitationApi.revoke_invitation, InvitationApi.accept_invitation; solve_sound.
Qed.

Lemma handler_nocommit c : writes_lost c || reads_only c = true → nocommit (handler (S := S) c).
Proof.
  destruct c; try discriminate; intros _; simpl;
    (apply nocommit_bind; [|intros; apply nocommit_ret]) || idtac;
    unfold Auth.login_access_token, Tenants.list_accessible_tenants, Tenants.create_tenant,
      Tenants.get_tenant_by_id, Tenants.get_tenant_by_slug, Tenants.update_tenant,
      Tenants.delete_tenant, Users.list_users_in_active_tenant, Users.get_current_user_info,
      Users.update_current_user, Users.update_user_status_in_active_tenant,
      Users.remove_user_from_active_tenant, TenantUsers.list_users_in_tenant,
      TenantUsers.get_tenant_user, TenantUsers.assign_role_to_user, TenantUsers.remove_role_from_user,
      Roles.list_roles_in_active_tenant, Roles.get_role_details, Roles.list_available_permissions, Roles.get_assigned_users_for_role,
      ApiKeys.read_api_keys, ApiKeys.read_api_key, ApiKeys.update_api_key, ApiKeys.delete_api_key,
      InvitationApi.list_invitations, InvitationApi.read_invitation; solve_nocommit.
Qed.

(** Integrity is an invariant of the service: after any sequence of
    requests, with any inputs, primary keys identify rows, unique columns are
    unique and every foreign key has its target in the committed content. *)
Theorem requests_preserve_integrity cs w :
  db_ok (durable w) → db_ok (durable (run cs w)).
Proof.
  unfold run. revert w. induction cs as [|c cs IH]; intros w Hok; simpl; [done|].
  apply IH. unfold serve. apply keeps_get_db; [apply handler_sound|done].
Qed.

(** No sequence of the tenant, profile, status, membership, role-removal,
    role-assignment and key-editing requests, mixed with reading ones, changes
    what is committed, although the handlers write and reply success: their
    writes end with the session. *)
Theorem uncommitted_writes_are_lost cs w :
  Forall (λ c, writes_lost c || reads_only c = true) cs → durable (run cs w) = durable w.
Proof.
  unfold run. intros Hcs. revert w. induction Hcs as [|c cs Hc _ IH]; intros w; simpl; [done|].
  rewrite IH. unfold serve. apply nocommit_get_db. by apply handler_nocommit.
Qed.
End api_properties.

Lemma requests_integrity_witness :
  db_ok (durable (run [SetRoleUsers 10 20 [2]%N; AcceptInvitation
    (InvitationApi.mkInvitationAccept "tok-pending" "longenough" (Some "Da") (Some "Ve"));
    CreateRole 10 (mkRoleCreate "auditor" None None)] w0)).
Proof. apply requests_preserve_integrity. exact w0_durable_ok. Defined.

(** A deleted tenant is still there for the next request, though the deletion
    replied with success. *)
Lemma lost_writes_witness :
  (get_db (handler (DeleteTenant 11)) w0).1 = Ret tt ∧
  tenants (durable (run [DeleteTenant 11; GetTenant 11] w0)) !! 11%N = Some globex.
Proof.
  split; [vm_compute; reflexivity|].
  rewrite (uncommitted_writes_are_lost [DeleteTenant 11; GetTenant 11] w0).
  - vm_compute. reflexivity.
  - repeat constructor.
Defined.
