(* ===== verification/Rbac.v ===== *)
(** * Access control as an abstract machine

    [Access] is the part of the database that decides who may do what: users,
    tenants, permissions, roles, what roles grant and who holds them where.
    [change] specifies, without sessions, exceptions or commits, the four ways
    it may move.  Every request refines it: what a request commits is one
    [change] or none. *)

From stdpp Require Import base tactics list gmap strings relations.
From Stdlib Require Import ZArith Lia.
From S2P Require Import Prelude PyStd Effects Models Session Snapshot Crud Stability.
From S2P Require Import RoleService UserService Security InvitationService ApiKeyService Deps.
From S2P Require InvitationApi.
From S2P Require Import TenantApi RoleApi Api.
Import InvitationApi(Pydantic, toy_pydantic).

(** ** The specification *)

Record Access := mkAccess {
  ac_users : gmap Uuid User;
  ac_tenants : gmap Uuid Tenant;
  ac_permissions : gmap Uuid Permission;
  ac_roles : gmap Uuid Role;
  ac_grants : gset (Uuid * Uuid);          (** (role, permission) *)
  ac_held : gset (Uuid * Uuid * Uuid)      (** (user, role, tenant) *)
}.

(** The abstraction function. *)
Definition access (t : Tables) : Access :=
  mkAccess (users t) (tenants t) (permissions t) (roles t) (role_permissions t)
    (dom (user_tenant_roles t)).

(** The grants of role [rid] become [ps], other roles keep theirs. *)
Definition regrant (rid : Uuid) (ps : list Uuid) (g g' : gset (Uuid * Uuid)) : Prop :=
  ∀ r p, (r, p) ∈ g' ↔ if decide (r = rid) then p ∈ ps else (r, p) ∈ g.

Definition custom_role (tid : Uuid) (r : Role) : Prop :=
  r_tenant_id r = Some tid ∧ r_is_system_role r = false.

Inductive change (a : Access) : Access → Prop :=
  | change_create tid r ps g :
      is_Some (ac_tenants a !! tid) → custom_role tid r → ac_roles a !! r_id r = None →
      (∀ i r', ac_roles a !! i = Some r' → r_tenant_id r' = Some tid → r_name r' ≠ r_name r) →
      regrant (r_id r) ps (ac_grants a) g →
      change a (mkAccess (ac_users a) (ac_tenants a) (ac_permissions a)
                  (<[r_id r := r]> (ac_roles a)) g (ac_held a))
  | change_update tid r r' g :
      ac_roles a !! r_id r = Some r → custom_role tid r → custom_role tid r' → r_id r' = r_id r →
      (∀ i p, i ≠ r_id r → (i, p) ∈ g ↔ (i, p) ∈ ac_grants a) →
      change a (mkAccess (ac_users a) (ac_tenants a) (ac_permissions a)
                  (<[r_id r := r']> (ac_roles a)) g (ac_held a))
  | change_holders tid r (uids : list Uuid) h :
      is_Some (ac_tenants a !! tid) → ac_roles a !! r_id r = Some r →
      r_is_system_role r = true ∨ r_tenant_id r = Some tid →
      (∀ u, u ∈ uids → is_Some (ac_users a !! u)) →
      (∀ u i x, (u, i, x) ∈ h ↔ if decide (i = r_id r ∧ x = tid) then u ∈ uids
                                else (u, i, x) ∈ ac_held a) →
      change a (mkAccess (ac_users a) (ac_tenants a) (ac_permissions a) (ac_roles a)
                  (ac_grants a) h)
  | change_delete tid r :
      ac_roles a !! r_id r = Some r → custom_role tid r →
      (∀ u, (u, r_id r, tid) ∉ ac_held a) →
      change a (mkAccess (ac_users a) (ac_tenants a) (ac_permissions a)
                  (filter (λ kv, ¬ kv.1 = r_id r) (ac_roles a))
                  (filter (λ k, ¬ k.1 = r_id r) (ac_grants a))
                  (filter (λ k, ¬ k.1.2 = r_id r) (ac_held a))).

(** ** Invariants of the specification *)

(** Who holds a role in a tenant holds a system role or a role of that tenant. *)
Definition isolated (a : Access) : Prop :=
  ∀ u i tid, (u, i, tid) ∈ ac_held a →
    ∃ r, ac_roles a !! i = Some r ∧ (r_is_system_role r = true ∨ r_tenant_id r = Some tid).

Lemma change_isolated a a' :
  (∀ i r, ac_roles a !! i = Some r → r_id r = i) → change a a' → isolated a → isolated a'.
Proof.
  intros Hids Hc Hi. destruct Hc as [tid r ps g _ _ Hn _ _|tid r r' g Hr [Ht Hs] [Ht' Hs'] Hid _
    |tid r uids h _ Hr Hacc _ Hh|tid r Hr _ _]; intros u i x; simpl.
  - intros (r' & Hr' & ?)%Hi. exists r'. rewrite lookup_insert_ne by congruence. done.
  - intros (y & Hy & Hyx)%Hi. destruct (decide (i = r_id r)) as [->|Hne].
    + exists r'. rewrite lookup_insert, decide_True by done. split; [done|].
      assert (y = r) as -> by congruence. rewrite Ht', <-Ht. right. destruct Hyx; congruence.
    + exists y. by rewrite lookup_insert_ne by done.
  - rewrite Hh. case_decide as Hd; [|apply Hi]. destruct Hd as [-> ->]. eauto.
  - rewrite elem_of_filter. simpl. intros [Hne (y & Hy & ?)%Hi]. exists y.
    rewrite map_lookup_filter_Some. done.
Qed.

(** What no change touches. *)
Definition fixed_part (a a' : Access) : Prop :=
  ac_users a' = ac_users a ∧ ac_tenants a' = ac_tenants a ∧ ac_permissions a' = ac_permissions a ∧
  (∀ i r, r_is_system_role r = true → ac_roles a !! i = Some r ↔ ac_roles a' !! i = Some r) ∧
  (∀ i r r', ac_roles a !! i = Some r → ac_roles a' !! i = Some r' →
     r_tenant_id r' = r_tenant_id r).

Lemma change_fixed a a' : change a a' → fixed_part a a'.
Proof.
  intros Hc. destruct Hc as [tid r ps g _ [_ Hs] Hn _ _|tid r r' g Hr [Ht Hs] [Ht' Hs'] Hid _
    |tid r uids h _ Hr _ _ _|tid r Hr [_ Hs] _]; unfold fixed_part; simpl; split_and!; try done.
  - intros i x Hx. rewrite lookup_insert_Some. split.
    + intros Hi. right. split; [congruence|done].
    + intros [[_ <-]|[_ ?]]; [congruence|done].
  - intros i x x' Hi. rewrite lookup_insert_Some. intros [[<- _]|[_ ?]]; congruence.
  - intros i x Hx. rewrite lookup_insert_Some. split.
    + intros Hi. right. split; [|done]. intros <-. congruence.
    + intros [[_ <-]|[_ ?]]; [congruence|done].
  - intros i x x' Hi. rewrite lookup_insert_Some. intros [[<- <-]|[_ ?]]; congruence.
  - intros i x x' Hi ?. congruence.
  - intros i x Hx. rewrite map_lookup_filter_Some. simpl. split; [|naive_solver].
    intros Hi. split; [done|]. intros ->. congruence.
  - intros i x x' Hi. rewrite map_lookup_filter_Some. naive_solver.
Qed.

(** ** Refinement of the requests *)

Section refinement.
Context {S : Type} `{SessionLaws S} `{InputsLaws} `{Passlib} `{JoseLaws} `{Pydantic} `{Fastapi}.
Implicit Types w : World S.

Definition moves (t t' : Tables) : Prop :=
  access t' = access t ∨ change (access t) (access t').

(** Handlers that never touch the access-control tables. *)
Definition aside (a : Access) (t : Tables) : Prop := access t = a.

Lemma aside_flush_key a (k k' : APIKey) : keeps (S := S) (aside a) (flush_row k k').
Proof. by apply keeps_flush_row. Qed.
Lemma aside_flush_invitation a (i i' : Invitation) : keeps (S := S) (aside a) (flush_row i i').
Proof. by apply keeps_flush_row. Qed.
Lemma aside_create_key a mk : keeps (S := S) (aside a) (Crud.create (R := APIKey) mk).
Proof. by apply keeps_create. Qed.
Lemma aside_create_invitation a mk : keeps (S := S) (aside a) (Crud.create (R := Invitation) mk).
Proof. by apply keeps_create. Qed.
#[local] Hint Resolve aside_flush_key aside_flush_invitation aside_create_key
  aside_create_invitation : sound.

Lemma aside_current_user a rq : keeps (S := S) (aside a) (get_current_user rq).
Proof.
  unfold get_current_user, get_current_user_from_token, get_current_user_from_api_key,
    token_handler, validate_api_key. solve_sound.
Qed.
#[local] Hint Resolve aside_current_user : sound.
Lemma aside_active_user a rq : keeps (S := S) (aside a) (get_current_active_user rq).
Proof. unfold get_current_active_user. solve_sound. Qed.
#[local] Hint Resolve aside_active_user : sound.
Lemma aside_permission a uid tid perm :
  keeps (S := S) (aside a) (check_user_permission_for_tenant uid tid perm).
Proof. unfold check_user_permission_for_tenant, Permissions.get_by_code. solve_sound. Qed.
#[local] Hint Resolve aside_permission : sound.
Lemma aside_verify_token a token : keeps (S := S) (aside a) (verify_token token).
Proof. unfold verify_token, get_by_token. solve_sound. Qed.
#[local] Hint Resolve aside_verify_token : sound.

Definition role_call (c : Call) : bool :=
  match c with
  | CreateRole _ _ | UpdateRole _ _ _ | DeleteRole _ _ | SetRoleUsers _ _ _ => true
  | _ => false
  end.

Lemma handler_aside c a :
  writes_lost c || reads_only c || role_call c = false → keeps (S := S) (aside a) (handler c).
Proof.
  destruct c; try discriminate; intros _; unfold handler, ApiKeys.create_api_key,
    create_with_user, _generate_api_key, InvitationApi.create_invitation,
    InvitationService.create_invitation, InvitationApi.verify_invitation_token,
    InvitationApi.revoke_invitation, InvitationApi.accept_invitation, InvitationApi.unexpected,
    InvitationService.revoke_invitation, InvitationService.accept_invitation,
    get_invitation_with_details, require_permission_in_active_tenant, get_current_active_tenant,
    check_active_tenant_permission, scalar_exists, token_urlsafe, token_bytes,
    assign_role_to_user_in_tenant, get_by_id_and_tenant, InvitationApi.create_user_call;
    solve_sound.
Qed.

Lemma serve_aside c w :
  writes_lost c || reads_only c || role_call c = false →
  access (durable (serve c w)) = access (durable w).
Proof.
  intros Hc. unfold serve. rewrite get_db_durable.
  by apply (handler_aside c (access (durable w)) Hc (reopen w)), inv_reopen.
Qed.

(** The grants a role creation or update leaves. *)
Lemma regrant_outcome pids rid t t' :
  (∀ p, (rid, p) ∉ role_permissions t) → permissions_outcome pids rid t t' →
  ∃ ps, regrant rid ps (role_permissions t) (role_permissions t') ∧
    access t' = mkAccess (users t) (tenants t) (permissions t) (roles t) (role_permissions t')
                  (dom (user_tenant_roles t)).
Proof.
  intros Hno. assert (∀ t', t' = t → ∃ ps, regrant rid ps (role_permissions t) (role_permissions t') ∧
    access t' = mkAccess (users t) (tenants t) (permissions t) (roles t) (role_permissions t')
                  (dom (user_tenant_roles t))) as Hsame.
  { intros ? ->. exists []. split; [|done]. intros r p. case_decide as Hr; [|done]. subst r.
    split; [by intros ?%Hno|set_solver]. }
  unfold permissions_outcome. destruct pids as [[|p ps]|]; try apply Hsame.
  intros [[s ->] Hg]. exists (p :: ps). split; [exact Hg|done].
Qed.

(** A role stored under a fresh identifier and a free name is one change. *)
Lemma created_change (role : Role) (x : Tenant) (pids : option (list Uuid)) t t' :
  db_ok t → roles t !! r_id role = None → custom_role (t_id x) role →
  tenants t !! t_id x = Some x → ¬ name_taken (r_name role) (t_id x) t →
  permissions_outcome pids (r_id role) (set_roles (<[r_id role := role]> (roles t)) t) t' →
  moves t t'.
Proof.
  intros Hok Hn Hc Hx Hfree Hout. apply regrant_outcome in Hout as (ps & Hg & Ha).
  - right. rewrite Ha.
    refine (change_create (access t) (t_id x) role ps _ (mk_is_Some _ _ Hx) Hc Hn _ Hg).
    intros i r' Hr Ht Heq. apply Hfree. by exists i, r'.
  - intros p Hp. simpl in Hp. apply (ok_role_permissions _ Hok) in Hp as [[y Hy] _]. congruence.
Qed.

Lemma create_role_moves tid role_in w :
  usable w = true → db_ok (view w) → view w = durable w →
  post (Roles.create_custom_role_in_tenant tid role_in) w (λ _ w', moves (durable w) (durable w')).
Proof.
  intros Hu Hok Hvd. unfold Roles.create_custom_role_in_tenant.
  apply post_bind, get_tenant_from_path_post; [done..| |intros _; by left].
  intros x Hx Hid. apply post_bind. unfold inject_none.
  destruct (depends_none "User") as [e|]; [by left|]. apply post_ret, post_try_tail;
    [intros e; solve_nocommit|]. apply post_bind_tail; [intros y; solve_nocommit|].
  eapply post_mono; [by apply create_custom_role_post|]. cbv zeta. rewrite Hid, Hvd.
  set (role := new_role role_in tid w). set (t1 := set_roles _ _).
  rewrite Hvd in Hx, Hok. subst tid.
  assert (∀ pids t', role_free role_in (t_id x) w → permissions_outcome pids (r_id role) t1 t' →
    moves (durable w) t') as Hgo.
  { intros pids t' [Hfree Hn] Hout. rewrite Hvd in Hfree, Hn. by eapply (created_change role x). }
  intros [y|e] w'.
  - intros (_ & Hfree & Hout & _). by eapply Hgo.
  - intros [(_ & _ & ->)|[(c & _ & -> & _)|[(_ & -> & Hfree & _)|(_ & Hfree & Hout & _)]]].
    + by left.
    + by left.
    + by apply (Hgo None).
    + by eapply Hgo.
Qed.

Lemma update_role_moves tid rid role_in w :
  usable w = true → db_ok (view w) → view w = durable w →
  post (Roles.update_custom_role_in_tenant tid rid role_in) w (λ _ w', moves (durable w) (durable w')).
Proof.
  intros Hu Hok Hvd. unfold Roles.update_custom_role_in_tenant.
  apply post_bind, get_tenant_from_path_post; [done..| |intros _; by left].
  intros x Hx Hid. apply post_bind. unfold inject_none.
  destruct (depends_none "User") as [e|]; [by left|]. apply post_ret.
  apply post_bind, post_get; [done|apply Hok|]. simpl.
  apply post_bind, post_require; [by left|]. intros r Hr.
  pose proof (model_ids (ok_roles _ Hok) _ _ Hr) as Hrid. simpl in Hrid. subst rid.
  apply post_bind, post_raise_if; intros Hten; reflect_bools; [by left|]. apply dec_stable in Hten.
  apply post_bind, post_raise_if; intros Hsys; [by left|].
  apply post_try_tail; [intros e; solve_nocommit|]. apply post_bind_tail; [intros y; solve_nocommit|].
  assert (∀ y t', role_updated role_in r y (view w) t' → moves (durable w) t') as Hgo.
  { intros y t' ((z & Hp & Hyz) & [s ->] & Hg). rewrite Hvd in *. right.
    assert (r_id y = r_id r ∧ custom_role (t_id x) y) as [Hy Hc].
    { unfold custom_role, role_patch in *. destruct (ru_name role_in) as [[?|]|]; simplify_eq/=;
        destruct Hyz as [->|[n ->]]; done. }
    refine (change_update (access (durable w)) (t_id x) r y s Hr (conj Hten Hsys) Hc Hy _).
    intros i p Hi. specialize (Hg i p). simpl in *. rewrite Hg. destruct (ru_permission_ids role_in); [|done].
    by rewrite decide_False. }
  eapply post_mono; [by apply update_custom_role_post|]. intros [y|e] w'.
  - intros (Hup & _). by eapply Hgo.
  - intros [[-> _]|(_ & _ & _ & y & Hup)]; [by left|by eapply Hgo].
Qed.

Lemma delete_role_moves tid rid w :
  usable w = true → db_ok (view w) → view w = durable w →
  post (Roles.delete_custom_role_from_tenant tid rid) w (λ _ w', moves (durable w) (durable w')).
Proof.
  intros Hu Hok Hvd. unfold Roles.delete_custom_role_from_tenant.
  apply post_bind, get_tenant_from_path_post; [done..| |intros _; by left].
  intros x Hx Hid. apply post_bind. unfold inject_none.
  destruct (depends_none "User") as [e|]; [by left|]. apply post_ret.
  apply post_bind_tail; [intros y; solve_nocommit|].
  eapply post_mono; [by apply delete_custom_role_post|]. intros [[r|]|e] w'.
  - intros (Hr & Hsys & Hten & Hno & ->).
    pose proof (model_ids (ok_roles _ Hok) _ _ Hr) as Hrid. simpl in Hrid. subst rid.
    rewrite Hvd in *. right.
    assert (access (delete_role (r_id r) (durable w)) = mkAccess
      (users (durable w)) (tenants (durable w)) (permissions (durable w))
      (filter (λ kv, ¬ kv.1 = r_id r) (roles (durable w)))
      (filter (λ k, ¬ k.1 = r_id r) (role_permissions (durable w)))
      (filter (λ k, ¬ k.1.2 = r_id r) (dom (user_tenant_roles (durable w))))) as ->.
    { unfold access. simpl. f_equal. apply set_eq. intros k.
      rewrite elem_of_filter, !elem_of_dom. unfold is_Some. setoid_rewrite map_lookup_filter_Some.
      naive_solver. }
    refine (change_delete (access (durable w)) (t_id x) r Hr (conj Hten Hsys) _).
    intros u Hin. simpl in Hin. apply elem_of_dom in Hin. by eapply Hno.
  - intros [_ ->]. by left.
  - intros [-> _]. by left.
Qed.

Lemma set_users_moves tid rid uids w :
  usable w = true → db_ok (view w) → view w = durable w →
  post (Roles.set_assigned_users_for_role tid rid uids) w (λ _ w', moves (durable w) (durable w')).
Proof.
  intros Hu Hok Hvd. unfold Roles.set_assigned_users_for_role.
  apply post_bind, get_tenant_from_path_post; [done..| |intros _; by left].
  intros x Hx Hid. eapply post_mono; [by apply set_users_for_role_post|]. intros [l|e] w'.
  - intros (_ & Hacc & [[m Hm] Ha] & Hok'). rewrite Hvd in *. unfold accessible in Hacc.
    destruct (roles (durable w) !! rid) as [r|] eqn:Hr; [|done].
    pose proof (model_ids (ok_roles _ Hok) _ _ Hr) as Hrid. simpl in Hrid. subst rid. right.
    assert (access (durable w') = mkAccess (users (durable w)) (tenants (durable w))
      (permissions (durable w)) (roles (durable w)) (role_permissions (durable w))
      (dom (user_tenant_roles (durable w')))) as -> by (by rewrite Hm).
    subst tid. refine (change_holders (access (durable w)) (t_id x) r uids _
      (mk_is_Some _ _ Hx) Hr Hacc _ _).
    + intros u Hin. destruct (ok_user_tenant_roles _ Hok' u (r_id r) (t_id x)) as (Hus & _).
      * apply Ha. by rewrite decide_True.
      * simpl in Hus. by rewrite Hm in Hus.
    + intros u i tn. simpl. rewrite elem_of_dom. specialize (Ha u i tn). unfold assigned in Ha.
      rewrite Ha. case_decide; [done|]. by rewrite elem_of_dom.
  - intros [-> _]. by left.
Qed.

(** A request commits one change of the specification, or none. *)
Lemma serve_moves c w : db_ok (durable w) → moves (durable w) (durable (serve c w)).
Proof.
  intros Hok. destruct (writes_lost c || reads_only c) eqn:Hn.
  { left. unfold serve. f_equal. apply nocommit_get_db. by apply handler_nocommit. }
  destruct (role_call c) eqn:Hr; [|left; apply serve_aside; by rewrite Hn, Hr].
  unfold serve. rewrite get_db_durable.
  assert (∀ A (m : M (World S) A), post m (reopen w) (λ _ w', moves (durable (reopen w)) (durable w')) →
    moves (durable w) (durable ((m ;; mret tt) (reopen w)).2)) as Hgo.
  { intros A m HP. rewrite <-(durable_reopen w). unfold post, mbind, M_bind in *.
    by destruct (m (reopen w)) as [[?|?] ?]. }
  assert (∀ m : M (World S) unit, post m (reopen w) (λ _ w', moves (durable (reopen w)) (durable w')) →
    moves (durable w) (durable (m (reopen w)).2)) as Hgo1.
  { intros m HP. rewrite <-(durable_reopen w). unfold post in HP. by destruct (m (reopen w)). }
  destruct c; try discriminate Hr; [apply Hgo, create_role_moves|apply Hgo, update_role_moves
    |apply Hgo1, delete_role_moves|apply Hgo, set_users_moves]; autorewrite with world; done.
Qed.
End refinement.

(** ** Properties *)

Section rbac_properties.
Context {S : Type} `{SessionLaws S} `{InputsLaws} `{Passlib} `{JoseLaws} `{Pydantic} `{Fastapi}.
Implicit Types w : World S.

Lemma run_integrity cs w : db_ok (durable w) → db_ok (durable (run cs w)).
Proof.
  unfold run. revert w. induction cs as [|c cs IH]; intros w Hok; simpl; [done|].
  apply IH. unfold serve. by apply keeps_get_db; [apply handler_sound|].
Qed.

Lemma run_rtc cs w : db_ok (durable w) → rtc change (access (durable w)) (access (durable (run cs w))).
Proof.
  unfold run. revert w. induction cs as [|c cs IH]; intros w Hok; simpl; [apply rtc_refl|].
  assert (db_ok (durable (serve c w))) as Hok1 by apply (run_integrity [c] w Hok).
  destruct (serve_moves c w Hok) as [<-|Hc]; [by apply IH|].
  eapply rtc_l; [exact Hc|by apply IH].
Qed.

Lemma rtc_fixed a a' : rtc change a a' → ac_users a' = ac_users a ∧ ac_tenants a' = ac_tenants a ∧
  ac_permissions a' = ac_permissions a ∧
  ∀ i r, r_is_system_role r = true → ac_roles a !! i = Some r ↔ ac_roles a' !! i = Some r.
Proof.
  induction 1 as [a|a b c Hc _ (Hu & Ht & Hp & Hr)]; [done|].
  apply change_fixed in Hc as (Hu' & Ht' & Hp' & Hr' & _).
  split_and!; [congruence..|]. intros i r Hs. rewrite (Hr' i r Hs). by apply Hr.
Qed.

(** C2. The service refines the access-control machine.  Whatever requests
    arrive, in whatever order, with whatever results of the clock and the
    random sources, what they make of users, tenants, permissions, roles, grants
    and role holders is a sequence of the four changes of the specification;
    one request makes at most one. *)
Theorem requests_refine_access_control cs w :
  db_ok (durable w) →
  rtc change (access (durable w)) (access (durable (run cs w))) ∧
  ∀ c, moves (durable (run cs w)) (durable (run (cs ++ [c]) w)).
Proof.
  intros Hok. split; [by apply run_rtc|]. intros c. unfold run. rewrite foldl_app.
  by apply serve_moves, run_integrity.
Qed.

(** C5. Tenants stay apart and the fixed part stays fixed.  If every holder of a
    role in a tenant holds a system role or one of that tenant's own, this is so
    after any requests; no request ever creates, changes or deletes a user, a
    tenant, a permission or a system role, and no role changes tenant as long as
    it exists.  In particular accounts can never be created over the API. *)
Theorem tenant_isolation_invariant cs w :
  db_ok (durable w) → isolated (access (durable w)) →
  isolated (access (durable (run cs w))) ∧
  users (durable (run cs w)) = users (durable w) ∧
  tenants (durable (run cs w)) = tenants (durable w) ∧
  permissions (durable (run cs w)) = permissions (durable w) ∧
  ∀ i r, r_is_system_role r = true →
    roles (durable w) !! i = Some r ↔ roles (durable (run cs w)) !! i = Some r.
Proof.
  intros Hok Hiso. destruct (rtc_fixed _ _ (run_rtc cs w Hok)) as (Hu & Ht & Hp & Hs).
  split_and!; try done. clear Hu Ht Hp Hs. unfold run. revert w Hok Hiso.
  induction cs as [|c cs IH]; intros w Hok Hiso; simpl; [done|].
  apply IH; [by apply (run_integrity [c])|]. destruct (serve_moves c w Hok) as [->|Hc]; [done|].
  eapply change_isolated; [|exact Hc|exact Hiso]. intros i r Hr. by eapply (model_ids (ok_roles _ Hok)).
Qed.
End rbac_properties.

(** The sample is isolated. *)
Lemma sample_isolated : isolated (access (durable w0)).
Proof.
  assert (∀ k, k ∈ elements (ac_held (access (durable w0))) →
    match ac_roles (access (durable w0)) !! k.1.2 with
    | Some r => r_is_system_role r || bool_decide (r_tenant_id r = Some k.2)
    | None => false
    end = true) as Hall.
  { apply Forall_forall, (bool_decide_unpack _). vm_compute. exact I. }
  intros u i tid Hin. specialize (Hall (u, i, tid) (proj2 (elem_of_elements _ _) Hin)).
  cbn beta iota delta [fst snd] in Hall.
  destruct (ac_roles (access (durable w0)) !! i) as [r|]; [|discriminate Hall].
  exists r. split; [reflexivity|]. apply orb_true_iff in Hall as [?|?%bool_decide_eq_true]; auto.
Qed.

(** One request that moves the machine, and one that does not. *)
Lemma refine_witness :
  rtc change (access (durable w0)) (access (durable (run [SetRoleUsers 10 20 [2]%N; DeleteTenant 11] w0))) ∧
  access (durable (run [SetRoleUsers 10 20 [2; 4; 1]%N] w0)) ≠ access (durable w0).
Proof.
  split; [apply requests_refine_access_control; exact w0_durable_ok|].
  intros Heq. apply (f_equal (λ a, size (ac_held a))) in Heq. vm_compute in Heq. discriminate Heq.
Defined.

(** A role of another tenant cannot be handed out: the sequence leaves the
    holders isolated, though each request is accepted without credentials. *)
Lemma isolation_witness :
  isolated (access (durable (run [SetRoleUsers 10 22 [2]%N; SetRoleUsers 11 22 [2]%N] w0))) ∧
  users (durable (run [SetRoleUsers 10 22 [2]%N; SetRoleUsers 11 22 [2]%N] w0)) = users (durable w0).
Proof.
  destruct (tenant_isolation_invariant [SetRoleUsers 10 22 [2]%N; SetRoleUsers 11 22 [2]%N] w0
    w0_durable_ok sample_isolated) as (Hi & Hu & _). split; [exact Hi|exact Hu].
Defined.
