(* ===== verification/Replies.v ===== *)
(** * [schemas/*.py]: the response models

    What the endpoints reply.  The schemas are data - the fields pydantic collects
    along the class hierarchy, with types, defaults and exclusion - and pydantic's
    reading of an object under a schema is an interface, [ResponseModel], with the
    documented rules as laws.  [respond] is the router with its
    [response_model]s. *)

From stdpp Require Import base tactics list gmap strings.
From Stdlib Require Import ZArith Lia.
From S2P Require Import Prelude PyStd Effects Models Session Snapshot Crud Stability.
From S2P Require Import RoleService UserService Security InvitationService ApiKeyService Deps.
From S2P Require InvitationApi.
From S2P Require Import TenantApi RoleApi Api.
From S2P Require Permissions TenantService.
Import InvitationApi(Pydantic, toy_pydantic, email_valid).

(** ** Python values, field types, JSON *)

Inductive PyVal :=
  | PNone
  | PBool (b : bool)
  | PInt (z : Z)
  | PStr (s : string)
  | PUuid (u : Uuid)
  | PTime (t : PyDateTime)
  | PList (l : list PyVal)
  | PObj (attributes : list (string * PyVal)).   (** an object or a dict *)

Inductive PyType :=
  | TStr | TBool | TInt | TUuid | TUuid4 | TTime | TEmail
  | TMin (min_length : nat)
  | TUrl (kind : string)                 (** a URL class of pydantic *)
  | TConstr (min_length max_length : nat) (pattern : Ascii.ascii → bool)
  | TEnum (values : list string)
  | TOptional (t : PyType)
  | TList (t : PyType)
  | TModel (fields : list (string * PyType * option PyVal * bool)).

(** Name, type, default, [exclude]. *)
Notation Field := (string * PyType * option PyVal * bool)%type.

Definition required (n : string) (t : PyType) : Field := (n, t, None, false).
Definition optional (n : string) (t : PyType) : Field := (n, TOptional t, Some PNone, false).
Definition with_default (n : string) (t : PyType) (d : PyVal) : Field := (n, t, Some d, false).
Definition field_name (f : Field) : string := f.1.1.1.

(** The fields of a subclass: an inherited field that is declared again keeps
    its place. *)
Definition extend (parent own : list Field) : list Field :=
  ((λ f, default f (head (filter (λ g, field_name g = field_name f) own))) <$> parent) ++
  filter (λ g, field_name g ∉ (field_name <$> parent)) own.

Inductive Json :=
  | JNull
  | JBool (b : bool)
  | JInt (z : Z)
  | JStr (s : string)
  | JList (l : list Json)
  | JObject (members : list (string * Json)).

(** [getattr] or a dict's [get]. *)
Fixpoint attribute {V} (n : string) (a : list (string * V)) : option V :=
  match a with
  | [] => None
  | (m, v) :: a' => if String.eqb m n then Some v else attribute n a'
  end.

(** The four bits of [UUID.version]. *)
Definition uuid_version (u : Uuid) : N := N.land (N.shiftr u 76) 15.

(** Pydantic, reading an object from its attributes: [dump t v] is the JSON of
    [v] validated as [t], [None] for a [ValidationError]. *)
Class ResponseModel := {
  dump : PyType → PyVal → option Json;
  isoformat : PyDateTime → string;
  email_out : string → option string    (** the normalised address, if valid *)
}.

Section dump.
Context `{ResponseModel}.

(** One field: the attribute if there is one, else the default, else an error;
    an excluded field is validated and left out. *)
Definition dump_field (a : list (string * PyVal)) (f : Field) : option (list (string * Json)) :=
  let '(n, t, d, excluded) := f in
  match (match attribute n a with Some v => Some v | None => d end) with
  | None => None
  | Some v => j ← dump t v; Some (if excluded then [] else [(n, j)])
  end.

Definition dump_fields (a : list (string * PyVal)) (fs : list Field) : option (list (string * Json)) :=
  mjoin <$> mapM (dump_field a) fs.
End dump.

Class ResponseModelLaws `{ResponseModel} : Prop := {
  dump_str s : dump TStr (PStr s) = Some (JStr s);
  dump_bool b : dump TBool (PBool b) = Some (JBool b);
  dump_int z : dump TInt (PInt z) = Some (JInt z);
  dump_uuid u : dump TUuid (PUuid u) = Some (JStr (uuid_str u));
  dump_uuid4 u : dump TUuid4 (PUuid u) =
    if N.eqb (uuid_version u) 4 then Some (JStr (uuid_str u)) else None;
  dump_time t : dump TTime (PTime t) = Some (JStr (isoformat t));
  dump_email s : dump TEmail (PStr s) = JStr <$> email_out s;
  dump_constr lo hi p s : dump (TConstr lo hi p) (PStr s) =
    if ((lo <=? str_len s) && (str_len s <=? hi))%nat && forallb p (chars s)
    then Some (JStr s) else None;
  dump_enum vs s : dump (TEnum vs) (PStr s) = if bool_decide (s ∈ vs) then Some (JStr s) else None;
  dump_none t : dump (TOptional t) PNone = Some JNull;
  dump_some t v : v ≠ PNone → dump (TOptional t) v = dump t v;
  dump_list t l : dump (TList t) (PList l) = JList <$> mapM (dump t) l;
  dump_model fs a : dump (TModel fs) (PObj a) = JObject <$> dump_fields a fs
}.

(** ** The schemas *)

(** [schemas/base.py] *)
Definition IDSchema : list Field := [required "id" TUuid].
Definition TimestampSchema : list Field := [required "created_at" TTime; required "updated_at" TTime].

(** [schemas/iam/tenant.py] *)
Definition TenantBase : list Field :=
  [required "name" TStr; required "slug" (TConstr 3 50 TenantService.slug_char); optional "description" TStr;
   with_default "is_active" (TOptional TBool) (PBool true)].
Definition TenantSchema : list Field := extend TenantBase
  [required "id" TUuid4; required "created_at" TTime; optional "updated_at" TTime].

(** [schemas/iam/user.py] *)
Definition UserBase : list Field :=
  [optional "email" TEmail; optional "first_name" TStr; optional "last_name" TStr;
   with_default "is_active" (TOptional TBool) (PBool true)].
Definition UserInDBBase : list Field := extend UserBase
  [required "id" TUuid; required "hashed_password" TStr; with_default "is_superuser" TBool (PBool false);
   required "created_at" TTime; optional "updated_at" TTime].
Definition UserSchema : list Field := extend UserInDBBase
  [("hashed_password", TOptional TStr, Some PNone, true); optional "roles" (TList TStr)].
Definition UserListSchema : list Field :=
  [required "items" (TList (TModel UserSchema)); required "total" TInt; required "page" TInt;
   required "limit" TInt].

(** [schemas/iam/permission.py] *)
Definition PermissionBase : list Field :=
  [required "name" TStr; required "code" TStr; optional "description" TStr].
Definition PermissionSchema : list Field := extend PermissionBase [required "id" TUuid].

(** [schemas/iam/role.py] *)
Definition RoleBase : list Field := [required "name" TStr; optional "description" TStr].
Definition RoleSchema : list Field :=
  extend (extend (extend RoleBase TimestampSchema) IDSchema) [required "is_system_role" TBool].
Definition RoleListSchema : list Field :=
  [required "id" TUuid; required "name" TStr; optional "description" TStr; required "is_system_role" TBool;
   required "user_count" TInt].
Definition RoleDetail : list Field := extend RoleSchema
  [with_default "permissions" (TList (TModel PermissionSchema)) (PList [])].
Definition RoleUserAssignmentOutput : list Field := [required "user_ids" (TList TUuid)].

(** [schemas/iam/api_key.py] *)
Definition APIKeyBase : list Field :=
  [required "name" TStr; optional "description" TStr; with_default "is_active" TBool (PBool true);
   optional "expires_at" TTime; with_default "scope" (TEnum ["GLOBAL"; "TENANT"]) (PStr "TENANT");
   optional "tenant_id" TUuid4].
Definition APIKeyInDB : list Field := extend APIKeyBase
  [required "id" TUuid4; required "key_prefix" TStr; required "user_id" TUuid4; required "created_at" TTime;
   optional "updated_at" TTime; optional "last_used_at" TTime].
Definition APIKeyWithValue : list Field := extend APIKeyInDB [required "key" TStr].
Definition APIKeySchema : list Field := extend APIKeyInDB [].

(** [schemas/iam/invitation.py] *)
Definition InvitationStatusType : PyType := TEnum ["pending"; "accepted"; "expired"; "revoked"].
Definition InvitationInDBBase : list Field := extend TimestampSchema
  [required "id" TUuid; required "email" TEmail; required "status" InvitationStatusType;
   required "created_at" TTime; required "updated_at" TTime; required "expires_at" TTime;
   required "tenant_id" TUuid; required "inviter_id" TUuid; optional "user_id" TUuid;
   optional "accepted_at" TTime; optional "role_id" TUuid].
Definition InvitationResponse : list Field := extend InvitationInDBBase [].
Definition InvitationCreateResponse : list Field := extend InvitationResponse [required "token" TStr].
Definition InvitationDetailResponse : list Field := extend InvitationResponse
  [optional "tenant_name" TStr; optional "inviter_email" TStr;
   with_default "is_expired" TBool (PBool false); with_default "is_pending" TBool (PBool true)].
Definition InvitationTokenResponse : list Field :=
  [required "valid" TBool; optional "email" TStr; optional "tenant_id" TUuid; optional "tenant_name" TStr;
   optional "inviter_email" TStr; optional "expires_at" TTime; optional "role_id" TUuid;
   optional "token" TStr].

(** [schemas/iam/auth.py] *)
Definition Token : list Field := [required "access_token" TStr; required "token_type" TStr].

(** ** The objects ([models/iam/*.py]) *)

Definition of_option {A} (f : A → PyVal) (o : option A) : PyVal :=
  match o with Some x => f x | None => PNone end.

Notation naive z := (PTime (Naive z)).

Definition tenant_object (t : Tenant) : PyVal := PObj
  [("id", PUuid (t_id t)); ("name", PStr (t_name t)); ("slug", PStr (t_slug t));
   ("description", of_option PStr (t_description t)); ("is_active", PBool (t_is_active t));
   ("created_at", naive (t_created_at t)); ("updated_at", naive (t_updated_at t))].

(** The listing adds an attribute [roles]. *)
Definition user_object (u : User) (role_names : option (list string)) : PyVal := PObj
  ([("id", PUuid (u_id u)); ("email", PStr (u_email u)); ("hashed_password", PStr (u_hashed_password u));
    ("full_name", of_option PStr (u_full_name u)); ("is_active", PBool (u_is_active u));
    ("is_superuser", PBool (u_is_superuser u)); ("last_login", of_option (λ z, naive z) (u_last_login u));
    ("created_at", naive (u_created_at u)); ("updated_at", naive (u_updated_at u))] ++
   match role_names with Some ns => [("roles", PList (PStr <$> ns))] | None => [] end).

Definition role_object (r : Role) : PyVal := PObj
  [("id", PUuid (r_id r)); ("name", PStr (r_name r)); ("description", of_option PStr (r_description r));
   ("tenant_id", of_option PUuid (r_tenant_id r)); ("is_system_role", PBool (r_is_system_role r));
   ("created_at", naive (r_created_at r)); ("updated_at", naive (r_updated_at r))].

Definition role_list_object (r : RoleList) : PyVal := PObj
  [("id", PUuid (rl_id r)); ("name", PStr (rl_name r)); ("description", of_option PStr (rl_description r));
   ("is_system_role", PBool (rl_is_system_role r)); ("user_count", PInt (Z.of_nat (rl_user_count r)))].

Definition permission_object (p : Permission) : PyVal := PObj
  [("id", PUuid (p_id p)); ("name", PStr (p_name p)); ("code", PStr (p_code p));
   ("description", of_option PStr (p_description p)); ("created_at", naive (p_created_at p));
   ("updated_at", naive (p_updated_at p))].

Definition scope_value (s : APIKeyScope) : string :=
  match s with GLOBAL => "GLOBAL" | TENANT => "TENANT" end.

Definition key_attributes (k : APIKey) : list (string * PyVal) :=
  [("id", PUuid (k_id k)); ("name", PStr (k_name k)); ("key_prefix", PStr (k_key_prefix k));
   ("description", of_option PStr (k_description k)); ("is_active", PBool (k_is_active k));
   ("expires_at", of_option PTime (k_expires_at k)); ("last_used_at", of_option PTime (k_last_used_at k));
   ("user_id", PUuid (k_user_id k)); ("tenant_id", of_option PUuid (k_tenant_id k));
   ("created_at", PTime (k_created_at k)); ("updated_at", PTime (k_updated_at k));
   ("scope", PStr (scope_value (k_scope k)))].

Definition key_object (k : APIKey) : PyVal := PObj (key_attributes k ++ [("key_hash", PStr (k_key_hash k))]).

(** [response_data] of [create_api_key]. *)
Definition created_key_object (k : APIKey) (value : string) : PyVal :=
  PObj (key_attributes k ++ [("key", PStr value)]).

Definition status_value (s : InvitationStatus) : string :=
  match s with PENDING => "pending" | ACCEPTED => "accepted" | EXPIRED => "expired" | REVOKED => "revoked" end.

Definition invitation_attributes (i : Invitation) : list (string * PyVal) :=
  [("id", PUuid (i_id i)); ("email", PStr (i_email i)); ("token", PStr (i_token i));
   ("status", PStr (status_value (i_status i))); ("expires_at", naive (i_expires_at i));
   ("accepted_at", of_option (λ z, naive z) (i_accepted_at i)); ("tenant_id", PUuid (i_tenant_id i));
   ("inviter_id", PUuid (i_inviter_id i)); ("user_id", of_option PUuid (i_user_id i));
   ("role_id", of_option PUuid (i_role_id i)); ("created_at", naive (i_created_at i));
   ("updated_at", naive (i_updated_at i))].

(** The dict of [get_invitation_with_details]: every column, the token too. *)
Definition details_object (d : InvitationDetails) : PyVal := PObj
  (invitation_attributes (d_invitation d) ++
   [("tenant_name", of_option PStr (d_tenant_name d)); ("inviter_email", of_option PStr (d_inviter_email d));
    ("is_expired", PBool (d_is_expired d)); ("is_pending", PBool (d_is_pending d))]).

Definition token_response_object (r : InvitationApi.TokenResponse) : PyVal := PObj
  [("valid", PBool (InvitationApi.tr_valid r)); ("email", PStr (InvitationApi.tr_email r));
   ("tenant_id", PUuid (InvitationApi.tr_tenant_id r));
   ("tenant_name", of_option PStr (InvitationApi.tr_tenant_name r));
   ("inviter_email", of_option PStr (InvitationApi.tr_inviter_email r));
   ("expires_at", naive (InvitationApi.tr_expires_at r));
   ("role_id", of_option PUuid (InvitationApi.tr_role_id r)); ("token", PStr (InvitationApi.tr_token r))].

(** ** Replies *)

(** What a handler hands to its response model. *)
Inductive Result :=
  | RNothing
  | RToken (access_token : string)
  | RTenant (t : Tenant)
  | RTenants (ts : list Tenant)
  | RUser (u : User)
  | RUsers (l : UserListResponse)
  | RRole (r : Role)
  | RRoles (rs : list RoleList)
  | RPermissions (ps : list Permission)
  | RUserIds (ids : list Uuid)
  | RKey (k : APIKey)
  | RKeys (ks : list APIKey)
  | RCreatedKey (k : APIKey) (value : string)
  | RInvitation (i : Invitation)
  | RInvitations (is_ : list Invitation)
  | RCreatedInvitation (i : Invitation) (token : string)
  | RDetails (d : InvitationDetails)
  | RTokenResponse (r : InvitationApi.TokenResponse).

Definition user_list_object (l : UserListResponse) : PyVal := PObj
  [("items", PList ((λ '(u, ns), user_object u (Some ns)) <$> ul_items l));
   ("total", PInt (Z.of_nat (ul_total l))); ("page", PInt (Z.of_nat (ul_page l)));
   ("limit", PInt (Z.of_nat (ul_limit l)))].

(** The response model of each result, and the object it reads. *)
Definition response (r : Result) : option (PyType * PyVal) :=
  match r with
  | RNothing => None
  | RToken t => Some (TModel Token, PObj [("access_token", PStr t); ("token_type", PStr "bearer")])
  | RTenant t => Some (TModel TenantSchema, tenant_object t)
  | RTenants ts => Some (TList (TModel TenantSchema), PList (tenant_object <$> ts))
  | RUser u => Some (TModel UserSchema, user_object u None)
  | RUsers l => Some (TModel UserListSchema, user_list_object l)
  | RRole r => Some (TModel RoleDetail, role_object r)
  | RRoles rs => Some (TList (TModel RoleListSchema), PList (role_list_object <$> rs))
  | RPermissions ps => Some (TList (TModel PermissionSchema), PList (permission_object <$> ps))
  | RUserIds ids => Some (TModel RoleUserAssignmentOutput, PObj [("user_ids", PList (PUuid <$> ids))])
  | RKey k => Some (TModel APIKeySchema, key_object k)
  | RKeys ks => Some (TList (TModel APIKeySchema), PList (key_object <$> ks))
  | RCreatedKey k v => Some (TModel APIKeyWithValue, created_key_object k v)
  | RInvitation i => Some (TModel InvitationResponse, PObj (invitation_attributes i))
  | RInvitations is_ => Some (TList (TModel InvitationResponse), PList (PObj ∘ invitation_attributes <$> is_))
  | RCreatedInvitation i t =>
      Some (TModel InvitationCreateResponse, PObj (("token", PStr t) :: invitation_attributes i))
  | RDetails d => Some (TModel InvitationDetailResponse, details_object d)
  | RTokenResponse r => Some (TModel InvitationTokenResponse, token_response_object r)
  end.

(** The body, [JNull] for an empty one; [None] for a validation error. *)
Definition render `{ResponseModel} (r : Result) : option Json :=
  match response r with Some (t, v) => dump t v | None => Some JNull end.

(** An object that does not fit its response model: FastAPI's own error, or the
    [except] clause of the handlers that validate inside their [try]. *)
Definition invalid_response `{Pydantic} (r : Result) : Exn :=
  match r with
  | RCreatedKey _ _ => HTTPException 400 (InvitationApi.validation_message "APIKeyWithValue")
  | RCreatedInvitation _ _ => HTTPException 400 (InvitationApi.validation_message "InvitationCreateResponse")
  | RDetails _ => HTTPException 500 "An unexpected error occurred while reading the invitation."
  | RTokenResponse _ => HTTPException 500 "An unexpected error occurred while verifying the invitation token."
  | RInvitation _ => HTTPException 500 "An unexpected error occurred while revoking the invitation."
  | _ => PydanticValidationError "ResponseValidationError"
  end.

Section replies.
Context {S : Type} `{Session S} `{Inputs} `{Passlib} `{Jose} `{Pydantic} `{Fastapi} `{ResponseModel}.

(** [Api.handler] with the results kept. *)
Definition call (c : Call) : M (World S) Result :=
  match c with
  | Login username password => RToken <$> Auth.login_access_token username password
  | ListTenants rq => RTenants <$> Tenants.list_accessible_tenants rq
  | CreateTenant tenant_in => RTenant <$> Tenants.create_tenant tenant_in
  | GetTenant tenant_id => RTenant <$> Tenants.get_tenant_by_id tenant_id
  | GetTenantBySlug slug => RTenant <$> Tenants.get_tenant_by_slug slug
  | UpdateTenant tenant_id tenant_in => RTenant <$> Tenants.update_tenant tenant_id tenant_in
  | DeleteTenant tenant_id => (λ _, RNothing) <$> Tenants.delete_tenant tenant_id
  | ListUsers rq page limit search => RUsers <$> Users.list_users_in_active_tenant rq page limit search
  | Me rq => RUser <$> Users.get_current_user_info rq
  | UpdateMe rq user_in => RUser <$> Users.update_current_user rq user_in
  | UpdateStatus rq user_id is_active =>
      RUser <$> Users.update_user_status_in_active_tenant rq user_id is_active
  | RemoveUser rq user_id => (λ _, RNothing) <$> Users.remove_user_from_active_tenant rq user_id
  | ListTenantUsers tenant_id page limit search =>
      RUsers <$> TenantUsers.list_users_in_tenant tenant_id page limit search
  | GetTenantUser tenant_id user_id => RUser <$> TenantUsers.get_tenant_user tenant_id user_id
  | AssignRole tenant_id user_id role_id =>
      (λ _, RNothing) <$> TenantUsers.assign_role_to_user tenant_id user_id role_id
  | RemoveRole tenant_id user_id role_id =>
      (λ _, RNothing) <$> TenantUsers.remove_role_from_user tenant_id user_id role_id
  | ListRoles rq skip limit => RRoles <$> Roles.list_roles_in_active_tenant rq skip limit
  | CreateRole tenant_id role_in => RRole <$> Roles.create_custom_role_in_tenant tenant_id role_in
  | GetRole tenant_id role_id => RRole <$> Roles.get_role_details tenant_id role_id
  | UpdateRole tenant_id role_id role_in =>
      RRole <$> Roles.update_custom_role_in_tenant tenant_id role_id role_in
  | DeleteRole tenant_id role_id => (λ _, RNothing) <$> Roles.delete_custom_role_from_tenant tenant_id role_id
  | ListPermissions rq => RPermissions <$> Roles.list_available_permissions rq
  | GetRoleUsers tenant_id role_id => RUserIds <$> Roles.get_assigned_users_for_role tenant_id role_id
  | SetRoleUsers tenant_id role_id user_ids =>
      RUserIds <$> Roles.set_assigned_users_for_role tenant_id role_id user_ids
  | CreateKey rq api_key_in => (λ '(k, v), RCreatedKey k v) <$> ApiKeys.create_api_key rq api_key_in
  | ReadKeys rq skip limit tenant_id => RKeys <$> ApiKeys.read_api_keys rq skip limit tenant_id
  | ReadKey rq api_key_id => RKey <$> ApiKeys.read_api_key rq api_key_id
  | UpdateKey rq api_key_id api_key_in => RKey <$> ApiKeys.update_api_key rq api_key_id api_key_in
  | DeleteKey rq api_key_id => (λ _, RNothing) <$> ApiKeys.delete_api_key rq api_key_id
  | CreateInvitation rq invitation_in =>
      (λ '(i, t), RCreatedInvitation i t) <$> InvitationApi.create_invitation rq invitation_in
  | ListInvitations rq tenant_id status skip limit =>
      RInvitations <$> InvitationApi.list_invitations rq tenant_id status skip limit
  | VerifyInvitation token => RTokenResponse <$> InvitationApi.verify_invitation_token token
  | ReadInvitation rq invitation_id => RDetails <$> InvitationApi.read_invitation rq invitation_id
  | RevokeInvitation rq invitation_id => RInvitation <$> InvitationApi.revoke_invitation rq invitation_id
  | AcceptInvitation payload => RUser <$> InvitationApi.accept_invitation payload
  end.

(** A request as the client sees it. *)
Definition respond (c : Call) : M (World S) Json :=
  r ← call c;
  match render r with Some j => mret j | None => raise (invalid_response r) end.

Lemma call_handler c w : ((λ _, tt) <$> call c) w = handler c w.
Proof.
  destruct c; simpl; unfold fmap, M_fmap, mbind, M_bind, mret, M_ret;
    repeat case_match; simplify_eq/=; try done;
    repeat match goal with a : () |- _ => destruct a end; done.
Qed.
End replies.

(** ** What a reply shows *)

Section contents.
Context `{ResponseModelLaws} `{Pydantic}.

Lemma dump_fields_nil a : dump_fields a [] = Some [].
Proof. done. Qed.

Lemma dump_fields_cons a n t d excluded fs : dump_fields a ((n, t, d, excluded) :: fs) =
  match (match attribute n a with Some v => Some v | None => d end) with
  | None => None
  | Some v => match dump t v with
      | None => None
      | Some j => app (if excluded : bool then [] else [(n, j)]) <$> dump_fields a fs
      end
  end.
Proof.
  unfold dump_fields. simpl. destruct (match attribute n a with Some v => Some v | None => d end) as [v|];
    [|done]. destruct (dump t v); simpl; [|done]. by destruct (mapM (dump_field a) fs).
Qed.

Lemma dump_option {A} t (f : A → PyVal) (o : option A) : (∀ x, f x ≠ PNone) →
  dump (TOptional t) (of_option f o) = match o with Some x => dump t (f x) | None => Some JNull end.
Proof. intros Hf. destruct o; simpl; [by apply dump_some|apply dump_none]. Qed.

Lemma mapM_ext {A B C} (f : B → option C) (g h : A → B) l :
  (∀ x, f (g x) = f (h x)) → mapM f (g <$> l) = mapM f (h <$> l).
Proof.
  intros Hf. induction l as [|x l IH]; [done|]. rewrite !fmap_cons. cbn [mapM]. by rewrite Hf, IH.
Qed.

Lemma mapM_total {A B C} (f : B → option C) (g : A → B) (h : A → C) l :
  (∀ x, x ∈ l → f (g x) = Some (h x)) → mapM f (g <$> l) = Some (h <$> l).
Proof.
  induction l as [|x l IH]; intros Hf; [done|]. rewrite !fmap_cons. cbn [mapM].
  rewrite (Hf x) by (by left). cbn [mbind option_bind].
  rewrite IH by (intros y Hy; apply Hf; by right). done.
Qed.

Lemma dump_strs ns : dump (TList TStr) (PList (PStr <$> ns)) = Some (JList (JStr <$> ns)).
Proof. rewrite dump_list, (mapM_total _ _ JStr); [done|]. intros x _. apply dump_str. Qed.

Definition optional_json {A} (f : A → Json) (o : option A) : Json := match o with Some x => f x | None => JNull end.
Definition time_json (t : PyDateTime) : Json := JStr (isoformat t).
Definition uuid_json (u : Uuid) : Json := JStr (uuid_str u).
Definition naive_json (z : datetime) : Json := time_json (Naive z).

Lemma dump_option_str o : dump (TOptional TStr) (of_option PStr o) = Some (optional_json JStr o).
Proof. rewrite dump_option by done. destruct o; [apply dump_str|done]. Qed.
Lemma dump_option_uuid o : dump (TOptional TUuid) (of_option PUuid o) = Some (optional_json uuid_json o).
Proof. rewrite dump_option by done. destruct o; [apply dump_uuid|done]. Qed.
Lemma dump_option_time o : dump (TOptional TTime) (of_option PTime o) = Some (optional_json time_json o).
Proof. rewrite dump_option by done. destruct o; [apply dump_time|done]. Qed.
Lemma dump_option_naive o :
  dump (TOptional TTime) (of_option (λ z, PTime (Naive z)) o) = Some (optional_json naive_json o).
Proof. rewrite dump_option by done. destruct o; [apply dump_time|done]. Qed.


(** The arithmetic on an identifier is not for computing. *)
#[local] Opaque uuid_version.

Definition version4 (u : Uuid) : bool := N.eqb (uuid_version u) 4.
Definition optional_version4 (o : option Uuid) : bool := match o with Some u => version4 u | None => true end.

Lemma dump_option_uuid4 o : dump (TOptional TUuid4) (of_option PUuid o) =
  if optional_version4 o then Some (optional_json uuid_json o) else None.
Proof. rewrite dump_option by done. destruct o; [apply dump_uuid4|done]. Qed.

Lemma dump_status s : dump InvitationStatusType (PStr (status_value s)) = Some (JStr (status_value s)).
Proof. unfold InvitationStatusType. rewrite dump_enum. destruct s; reflexivity. Qed.
Lemma dump_scope s : dump (TEnum ["GLOBAL"; "TENANT"]) (PStr (scope_value s)) = Some (JStr (scope_value s)).
Proof. rewrite dump_enum. destruct s; reflexivity. Qed.

(** Read a schema field by field. *)
Ltac read_field :=
  rewrite dump_fields_cons; cbn [attribute String.eqb Ascii.eqb Bool.eqb];
  rewrite ?dump_option_str, ?dump_option_uuid, ?dump_option_uuid4, ?dump_option_time, ?dump_option_naive,
    ?dump_none, ?dump_status, ?dump_scope;
  try (rewrite dump_some by done);
  rewrite ?dump_str, ?dump_bool, ?dump_int, ?dump_uuid, ?dump_uuid4, ?dump_time, ?dump_email,
    ?dump_constr, ?dump_strs.

Ltac read_fields schema :=
  rewrite dump_model; let fs := eval cbv -[InvitationStatusType TenantService.slug_char] in schema in
  change schema with fs; repeat read_field; rewrite ?dump_fields_nil.

Lemma user_json u ns : dump (TModel UserSchema) (user_object u ns) =
  (λ e, JObject [("email", JStr e); ("first_name", JNull); ("last_name", JNull);
     ("is_active", JBool (u_is_active u)); ("id", uuid_json (u_id u));
     ("is_superuser", JBool (u_is_superuser u)); ("created_at", naive_json (u_created_at u));
     ("updated_at", naive_json (u_updated_at u));
     ("roles", optional_json (λ l, JList (JStr <$> l)) ns)]) <$> email_out (u_email u).
Proof. unfold user_object. destruct ns; cbn [app]; read_fields UserSchema; by destruct (email_out _). Qed.

Lemma tenant_json t : dump (TModel TenantSchema) (tenant_object t) =
  if TenantService.valid_slug (t_slug t) && version4 (t_id t)
  then Some (JObject [("name", JStr (t_name t)); ("slug", JStr (t_slug t));
    ("description", optional_json JStr (t_description t)); ("is_active", JBool (t_is_active t));
    ("id", uuid_json (t_id t)); ("created_at", naive_json (t_created_at t));
    ("updated_at", naive_json (t_updated_at t))])
  else None.
Proof.
  unfold tenant_object, version4, TenantService.valid_slug. read_fields TenantSchema.
  destruct (_ && _); simpl; [|done]. by destruct (N.eqb _ _).
Qed.

Lemma role_json r : dump (TModel RoleDetail) (role_object r) = Some (JObject
  [("name", JStr (r_name r)); ("description", optional_json JStr (r_description r));
   ("created_at", naive_json (r_created_at r)); ("updated_at", naive_json (r_updated_at r));
   ("id", uuid_json (r_id r)); ("is_system_role", JBool (r_is_system_role r)); ("permissions", JList [])]).
Proof. unfold role_object. read_fields RoleDetail. by rewrite dump_list. Qed.

Lemma role_list_json r : dump (TModel RoleListSchema) (role_list_object r) = Some (JObject
  [("id", uuid_json (rl_id r)); ("name", JStr (rl_name r));
   ("description", optional_json JStr (rl_description r));
   ("is_system_role", JBool (rl_is_system_role r)); ("user_count", JInt (Z.of_nat (rl_user_count r)))]).
Proof. unfold role_list_object. by read_fields RoleListSchema. Qed.

Lemma permission_json p : dump (TModel PermissionSchema) (permission_object p) = Some (JObject
  [("name", JStr (p_name p)); ("code", JStr (p_code p)); ("description", optional_json JStr (p_description p));
   ("id", uuid_json (p_id p))]).
Proof. unfold permission_object. by read_fields PermissionSchema. Qed.

(** The members of a key, and the condition on its identifiers. *)
Definition key_members (k : APIKey) : list (string * Json) :=
  [("name", JStr (k_name k)); ("description", optional_json JStr (k_description k));
   ("is_active", JBool (k_is_active k)); ("expires_at", optional_json time_json (k_expires_at k));
   ("scope", JStr (scope_value (k_scope k))); ("tenant_id", optional_json uuid_json (k_tenant_id k));
   ("id", uuid_json (k_id k)); ("key_prefix", JStr (k_key_prefix k)); ("user_id", uuid_json (k_user_id k));
   ("created_at", time_json (k_created_at k)); ("updated_at", time_json (k_updated_at k));
   ("last_used_at", optional_json time_json (k_last_used_at k))].
Definition key_ids_ok (k : APIKey) : bool :=
  optional_version4 (k_tenant_id k) && version4 (k_id k) && version4 (k_user_id k).

Lemma key_json k : dump (TModel APIKeySchema) (key_object k) =
  if key_ids_ok k then Some (JObject (key_members k)) else None.
Proof.
  unfold key_object, key_attributes, key_ids_ok, version4. cbn [app]. read_fields APIKeySchema.
  destruct (optional_version4 (k_tenant_id k)); [|done]. destruct (N.eqb (uuid_version (k_id k)) 4); [|done].
  by destruct (N.eqb (uuid_version (k_user_id k)) 4).
Qed.

Lemma created_key_json k v : dump (TModel APIKeyWithValue) (created_key_object k v) =
  if key_ids_ok k then Some (JObject (key_members k ++ [("key", JStr v)])) else None.
Proof.
  unfold created_key_object, key_attributes, key_ids_ok, version4. cbn [app]. read_fields APIKeyWithValue.
  destruct (optional_version4 (k_tenant_id k)); [|done]. destruct (N.eqb (uuid_version (k_id k)) 4); [|done].
  by destruct (N.eqb (uuid_version (k_user_id k)) 4).
Qed.

(** The members of an invitation with a valid address, without the token. *)
Definition invitation_members (e : string) (i : Invitation) : list (string * Json) :=
  [("created_at", naive_json (i_created_at i)); ("updated_at", naive_json (i_updated_at i));
   ("id", uuid_json (i_id i)); ("email", JStr e); ("status", JStr (status_value (i_status i)));
   ("expires_at", naive_json (i_expires_at i)); ("tenant_id", uuid_json (i_tenant_id i));
   ("inviter_id", uuid_json (i_inviter_id i)); ("user_id", optional_json uuid_json (i_user_id i));
   ("accepted_at", optional_json naive_json (i_accepted_at i));
   ("role_id", optional_json uuid_json (i_role_id i))].

Lemma invitation_json i : dump (TModel InvitationResponse) (PObj (invitation_attributes i)) =
  (λ e, JObject (invitation_members e i)) <$> email_out (i_email i).
Proof. unfold invitation_attributes. read_fields InvitationResponse. by destruct (email_out _). Qed.

Lemma created_invitation_json i t :
  dump (TModel InvitationCreateResponse) (PObj (("token", PStr t) :: invitation_attributes i)) =
  (λ e, JObject (invitation_members e i ++ [("token", JStr t)])) <$> email_out (i_email i).
Proof. unfold invitation_attributes. read_fields InvitationCreateResponse. by destruct (email_out _). Qed.

Lemma details_json d : dump (TModel InvitationDetailResponse) (details_object d) =
  (λ e, JObject (invitation_members e (d_invitation d) ++
     [("tenant_name", optional_json JStr (d_tenant_name d));
      ("inviter_email", optional_json JStr (d_inviter_email d)); ("is_expired", JBool (d_is_expired d));
      ("is_pending", JBool (d_is_pending d))])) <$> email_out (i_email (d_invitation d)).
Proof.
  unfold details_object, invitation_attributes. cbn [app]. read_fields InvitationDetailResponse.
  by destruct (email_out _).
Qed.

Lemma token_response_json r : is_Some (dump (TModel InvitationTokenResponse) (token_response_object r)).
Proof. unfold token_response_object. read_fields InvitationTokenResponse. by eexists. Qed.

Lemma user_list_json l : dump (TModel UserListSchema) (user_list_object l) =
  (λ js, JObject [("items", JList js); ("total", JInt (Z.of_nat (ul_total l)));
     ("page", JInt (Z.of_nat (ul_page l))); ("limit", JInt (Z.of_nat (ul_limit l)))]) <$>
  mapM (dump (TModel UserSchema)) ((λ '(u, ns), user_object u (Some ns)) <$> ul_items l).
Proof.
  unfold user_list_object. rewrite dump_model. unfold UserListSchema, required. repeat read_field.
  rewrite dump_fields_nil, dump_list. by destruct (mapM _ _).
Qed.

Lemma user_ids_json ids : dump (TModel RoleUserAssignmentOutput) (PObj [("user_ids", PList (PUuid <$> ids))]) =
  Some (JObject [("user_ids", JList (uuid_json <$> ids))]).
Proof.
  rewrite dump_model. unfold RoleUserAssignmentOutput, required. repeat read_field.
  rewrite dump_fields_nil, dump_list, (mapM_total _ _ uuid_json); [done|]. intros x _. apply dump_uuid.
Qed.

Lemma token_json t : dump (TModel Token) (PObj [("access_token", PStr t); ("token_type", PStr "bearer")]) =
  Some (JObject [("access_token", JStr t); ("token_type", JStr "bearer")]).
Proof. by read_fields Token. Qed.

(** ** What a reply needs, and what it hides *)

Definition presentable_tenant (t : Tenant) : Prop :=
  TenantService.valid_slug (t_slug t) = true ∧ version4 (t_id t) = true.

(** The response model takes the object. *)
Definition presentable (r : Result) : Prop :=
  match r with
  | RTenant t => presentable_tenant t
  | RTenants ts => Forall presentable_tenant ts
  | RUser u => is_Some (email_out (u_email u))
  | RUsers l => Forall (λ un, is_Some (email_out (u_email un.1))) (ul_items l)
  | RKey k | RCreatedKey k _ => key_ids_ok k = true
  | RKeys ks => Forall (λ k, key_ids_ok k = true) ks
  | RInvitation i | RCreatedInvitation i _ => is_Some (email_out (i_email i))
  | RInvitations is_ => Forall (λ i, is_Some (email_out (i_email i))) is_
  | RDetails d => is_Some (email_out (i_email (d_invitation d)))
  | _ => True
  end.

Lemma presentable_list {A} (t : PyType) (f : A → PyVal) (P : A → Prop) l :
  (∀ x, is_Some (dump t (f x)) ↔ P x) → is_Some (dump (TList t) (PList (f <$> l))) ↔ Forall P l.
Proof.
  intros Hf. rewrite dump_list, fmap_is_Some, mapM_is_Some, Forall_fmap.
  apply Forall_proper; [|done]. intros x. apply Hf.
Qed.

Lemma always_Some {A} (x : A) : is_Some (Some x) ↔ True.
Proof. split; [done|]. intros _. by exists x. Qed.

Lemma if_is_Some {A} (b : bool) (x : A) : is_Some (if b then Some x else None) ↔ b = true.
Proof. destruct b; [by split; [|by eexists]|]. split; [by intros []|done]. Qed.

Lemma tenant_presentable t : is_Some (dump (TModel TenantSchema) (tenant_object t)) ↔ presentable_tenant t.
Proof. by rewrite tenant_json, if_is_Some, andb_true_iff. Qed.

Lemma render_presentable r : is_Some (render r) ↔ presentable r.
Proof.
  destruct r; unfold render; cbn [response presentable].
  - apply always_Some.
  - rewrite token_json. apply always_Some.
  - apply tenant_presentable.
  - apply presentable_list, tenant_presentable.
  - by rewrite user_json, fmap_is_Some.
  - rewrite user_list_json, fmap_is_Some, mapM_is_Some, Forall_fmap. apply Forall_proper; [|done].
    intros [u ns]. unfold compose. by rewrite user_json, fmap_is_Some.
  - rewrite role_json. apply always_Some.
  - rewrite (presentable_list _ _ (λ _, True)).
    + split; [done|]. intros _. by apply Forall_true.
    + intros x. rewrite role_list_json. apply always_Some.
  - rewrite (presentable_list _ _ (λ _, True)).
    + split; [done|]. intros _. by apply Forall_true.
    + intros x. rewrite permission_json. apply always_Some.
  - rewrite user_ids_json. apply always_Some.
  - by rewrite key_json, if_is_Some.
  - apply presentable_list. intros k. by rewrite key_json, if_is_Some.
  - by rewrite created_key_json, if_is_Some.
  - by rewrite invitation_json, fmap_is_Some.
  - apply (presentable_list _ (λ i, PObj (invitation_attributes i))). intros i.
    by rewrite invitation_json, fmap_is_Some.
  - by rewrite created_invitation_json, fmap_is_Some.
  - by rewrite details_json, fmap_is_Some.
  - split; [done|]. intros _. apply token_response_json.
Qed.

(** Another password hash, key hash or invitation token in the stored row. *)
Definition redact_user (h : string) (u : User) : User :=
  mkUser (u_id u) (u_email u) h (u_full_name u) (u_is_active u) (u_is_superuser u) (u_last_login u)
    (u_created_at u) (u_updated_at u).
Definition redact_key (h : string) (k : APIKey) : APIKey :=
  mkAPIKey (k_id k) (k_name k) (k_key_prefix k) h (k_description k) (k_is_active k) (k_expires_at k)
    (k_last_used_at k) (k_user_id k) (k_tenant_id k) (k_created_at k) (k_updated_at k) (k_scope k).
Definition redact_invitation (h : string) (i : Invitation) : Invitation :=
  mkInvitation (i_id i) (i_email i) h (i_status i) (i_expires_at i) (i_accepted_at i) (i_tenant_id i)
    (i_inviter_id i) (i_user_id i) (i_role_id i) (i_created_at i) (i_updated_at i).

Definition redact (h : string) (r : Result) : Result :=
  match r with
  | RUser u => RUser (redact_user h u)
  | RUsers l => RUsers (mkUserListResponse (prod_map (redact_user h) id <$> ul_items l) (ul_total l)
                          (ul_page l) (ul_limit l))
  | RKey k => RKey (redact_key h k)
  | RKeys ks => RKeys (redact_key h <$> ks)
  | RCreatedKey k v => RCreatedKey (redact_key h k) v
  | RInvitation i => RInvitation (redact_invitation h i)
  | RInvitations is_ => RInvitations (redact_invitation h <$> is_)
  | RCreatedInvitation i _ => RCreatedInvitation (redact_invitation h i) h
  | RDetails d => RDetails (mkInvitationDetails (redact_invitation h (d_invitation d)) (d_tenant_name d)
                              (d_inviter_email d) (d_is_expired d) (d_is_pending d))
  | _ => r
  end.

Lemma hidden_list {A} (t : PyType) (f : A → PyVal) (g : A → A) l :
  (∀ x, dump t (f (g x)) = dump t (f x)) →
  dump (TList t) (PList (f <$> (g <$> l))) = dump (TList t) (PList (f <$> l)).
Proof. intros Hf. by rewrite !dump_list, <-list_fmap_compose, (mapM_ext _ _ f l). Qed.

(** Only the creation of an invitation replies a stored secret, in a member of its own. *)
Lemma render_redact h r : (∀ i t, r ≠ RCreatedInvitation i t) → render (redact h r) = render r.
Proof.
  intros Hr. destruct r; unfold render; cbn [response redact]; try done.
  - by rewrite !user_json.
  - rewrite !user_list_json. cbn [ul_items ul_total ul_page ul_limit]. f_equal.
    rewrite <-list_fmap_compose. apply mapM_ext. intros [u ns]. unfold compose, prod_map. cbn [fst snd id].
    by rewrite !user_json.
  - by rewrite !key_json.
  - apply hidden_list. intros k. by rewrite !key_json.
  - by rewrite !invitation_json.
  - apply (hidden_list _ (λ i, PObj (invitation_attributes i))). intros i. by rewrite !invitation_json.
  - by destruct (Hr i token).
  - by rewrite !details_json.
Qed.

Lemma render_created_invitation i t j :
  render (RCreatedInvitation i t) = Some j → ∃ ms, j = JObject (ms ++ [("token", JStr t)]) ∧
    ∀ h, render (redact h (RCreatedInvitation i t)) = Some (JObject (ms ++ [("token", JStr h)])).
Proof.
  unfold render. cbn [response redact]. rewrite created_invitation_json.
  intros (e & He & ->)%fmap_Some. exists (invitation_members e i). split; [done|]. intros h.
  rewrite created_invitation_json. cbn [i_email redact_invitation]. by rewrite He.
Qed.
End contents.

(** ** Properties *)

Section reply_properties.
Context {S : Type} `{Session S} `{Inputs} `{Passlib} `{Jose} `{Pydantic} `{Fastapi} `{ResponseModelLaws}.

Lemma respond_run c (w : World S) : respond c w =
  match call c w with
  | (Ret r, w') => (match render r with Some j => Ret j | None => Raise (invalid_response r) end, w')
  | (Raise e, w') => (Raise e, w')
  end.
Proof.
  unfold respond, mbind, M_bind. destruct (call c w) as [[r|e] w']; [|done]. by destruct (render r).
Qed.

Lemma fmap_ret {A B} (f : A → B) (m : M (World S) A) w y :
  ((f <$> m) w).1 = Ret y → ∃ x, (m w).1 = Ret x ∧ y = f x.
Proof.
  unfold fmap, M_fmap, mbind, M_bind, mret, M_ret. destruct (m w) as [[x|e] w']; [|done].
  intros [= <-]. by exists x.
Qed.

Lemma call_created_invitation c w i token : (call c w).1 = Ret (RCreatedInvitation i token) →
  ∃ rq body, c = CreateInvitation rq body ∧ (InvitationApi.create_invitation rq body w).1 = Ret (i, token).
Proof.
  destruct c; cbn [call]; intros (x & Hx & Hr)%fmap_ret; try discriminate Hr; destruct x; try discriminate Hr.
  injection Hr as -> ->. by do 2 eexists.
Qed.


(** C36. A request ends for the client as its handler does, except that a result
    that does not fit its response model becomes an error.  That is so exactly
    for a tenant whose slug is not 3 to 50 slug characters or whose identifier
    is not of version 4, a key with an identifier that is not, and a user or an
    invitation with an address pydantic refuses.  The error does not take the
    handler's effects back. *)
Theorem respond_spec c w :
  (respond c w).2 = (handler c w).2 ∧
  match (call c w).1 with
  | Raise e => (handler c w).1 = Raise e ∧ (respond c w).1 = Raise e
  | Ret r => (handler c w).1 = Ret tt ∧
      (presentable r → ∃ j, (respond c w).1 = Ret j) ∧
      (¬ presentable r → (respond c w).1 = Raise (invalid_response r))
  end.
Proof.
  rewrite respond_run, <-call_handler. unfold fmap, M_fmap.
  destruct (call c w) as [[r|e] w']; [|done]. cbn [fst snd]. split; [done|].
  split; [done|]. pose proof (render_presentable r) as Hp. destruct (render r) as [j|].
  - split; [by eexists|]. intros Hno. destruct Hno. by apply Hp.
  - split; [|done]. intros Hpr. by apply Hp in Hpr as [].
Qed.

(** A reply about a user never shows a name: [first_name] and [last_name] are
    no attributes of the stored user and come out as [null], and [full_name],
    which holds them, is no field of the response model. *)
Lemma user_reply_names u ns j :
  dump (TModel UserSchema) (user_object u ns) = Some j →
  ∃ ms, j = JObject ms ∧ ms.*1 = ["email"; "first_name"; "last_name"; "is_active"; "id"; "is_superuser";
      "created_at"; "updated_at"; "roles"] ∧
    ("first_name", JNull) ∈ ms ∧ ("last_name", JNull) ∈ ms.
Proof.
  rewrite user_json. intros (e & He & ->)%fmap_Some. eexists. split; [done|]. split; [done|]. set_solver.
Qed.
End reply_properties.

(** ** A reader of response models *)

Fixpoint plain_dump (t : PyType) (v : PyVal) {struct t} : option Json :=
  match t, v with
  | TStr, PStr s => Some (JStr s)
  | TBool, PBool b => Some (JBool b)
  | TInt, PInt z => Some (JInt z)
  | TUuid, PUuid u => Some (JStr (uuid_str u))
  | TUuid4, PUuid u => if N.eqb (uuid_version u) 4 then Some (JStr (uuid_str u)) else None
  | TTime, PTime t => Some (JStr "a time")
  | TEmail, PStr s => if email_valid (Pydantic := toy_pydantic) s then Some (JStr s) else None
  | TConstr lo hi p, PStr s =>
      if ((lo <=? str_len s) && (str_len s <=? hi))%nat && forallb p (chars s) then Some (JStr s) else None
  | TEnum vs, PStr s => if bool_decide (s ∈ vs) then Some (JStr s) else None
  | TOptional t, PNone => Some JNull
  | TOptional t, _ => plain_dump t v
  | TList t, PList l => JList <$> mapM (plain_dump t) l
  | TModel fs, PObj a => JObject <$> (mjoin <$> mapM (λ '(n, t, d, excluded),
      match (match attribute n a with Some v => Some v | None => d end) with
      | None => None
      | Some v => j ← plain_dump t v; Some (if excluded : bool then [] else [(n, j)])
      end) fs)
  | _, _ => None
  end.

#[global] Instance plain_response_model : ResponseModel := {|
  dump := plain_dump;
  isoformat _ := "a time";
  email_out s := if email_valid (Pydantic := toy_pydantic) s then Some s else None
|}.

#[global] Instance plain_response_model_laws : ResponseModelLaws.
Proof.
  split; try reflexivity.
  - intros s. simpl. by case_match.
  - intros t v Hv. by destruct v; [destruct Hv|..].
Qed.

Definition alice_reply : Json := JObject
  [("email", JStr "alice@acme.io"); ("first_name", JNull); ("last_name", JNull); ("is_active", JBool true);
   ("id", JStr "00000000-0000-0000-0000-000000000001"); ("is_superuser", JBool false);
   ("created_at", JStr "a time"); ("updated_at", JStr "a time"); ("roles", JNull)].

(** A second inviter of an address gets the token the first invitation has. *)
Definition dave_again : Call :=
  CreateInvitation alice_in_acme (InvitationApi.mkInvitationCreate "dave@acme.io" 10 None (Some 7%Z)).


(** The sample's tenant has an identifier of no version, so showing it fails. *)
Lemma respond_witness : (call (GetTenant 10) w0).1 = Ret (RTenant acme) ∧
  (respond (GetTenant 10) w0).1 = Raise (PydanticValidationError "ResponseValidationError").
Proof.
  pose proof (respond_spec (GetTenant 10) w0) as [_ Hm].
  assert ((call (GetTenant 10) w0).1 = Ret (RTenant acme)) as Hc by (vm_compute; reflexivity).
  split; [exact Hc|]. rewrite Hc in Hm. destruct Hm as (_ & _ & Hno). apply Hno.
  intros [_ Hv]. vm_compute in Hv. discriminate Hv.
Defined.
