(* ===== verification/RateLimiter.v ===== *)
(** * [core/rate_limiter.py]

    The decorator [rate_limit]: a sliding window per path and client in a Redis
    sorted set.  Redis is an interface, with the documented effect of the four
    commands of the pipeline and of expiry; the pipeline is a [MULTI]/[EXEC]
    transaction, so a request is one step, at one instant for client and server.
    Instants are [time.time()] floats counted in units of 2^-22 seconds, the
    spacing of such floats since 2004, on which subtracting whole seconds is
    exact. *)

From stdpp Require Import base tactics list gmap sorting strings pretty.
From Stdlib Require Import ZArith Lia Ascii.
From S2P Require Import Prelude PyStd Effects.

#[local] Open Scope Z_scope.

(** ** Redis *)

Inductive Command :=
  | ZADD (key member : string) (score : Z)
  | ZREMRANGEBYSCORE (key : string) (lo hi : Z)
  | ZCARD (key : string)
  | EXPIRE (key : string) (seconds : Z).

Definition command_key (c : Command) : string :=
  match c with ZADD k _ _ | ZREMRANGEBYSCORE k _ _ | ZCARD k | EXPIRE k _ => k end.

(** Instants per second. *)
Definition ticks : Z := 2 ^ 22.

Class Redis (R : Type) := {
  zset : Z → R → string → gmap string Z;   (** members and scores of a key at an instant *)
  deadline : R → string → option Z;        (** when the key expires *)
  command : Z → Command → R → Z * R        (** a command at an instant: its reply *)
}.

Class RedisLaws (R : Type) `{Redis R} : Prop := {
  zadd_members now k m s (r : R) :
    zset now (command now (ZADD k m s) r).2 k = <[m := s]> (zset now r k);
  zrem_members now k lo hi (r : R) :
    zset now (command now (ZREMRANGEBYSCORE k lo hi) r).2 k =
      filter (λ kv, ¬ (lo ≤ kv.2 ≤ hi)) (zset now r k);
  zcard_reply now k (r : R) : (command now (ZCARD k) r).1 = Z.of_nat (size (zset now r k));
  zcard_members now k (r : R) : zset now (command now (ZCARD k) r).2 k = zset now r k;
  expire_members now k s (r : R) : 0 < s →
    zset now (command now (EXPIRE k s) r).2 k = zset now r k;
  expire_deadline now k s (r : R) : 0 < s → zset now r k ≠ ∅ →
    deadline (command now (EXPIRE k s) r).2 k = Some (now + s * ticks);
  other_members now now' c k (r : R) : command_key c ≠ k →
    zset now' (command now c r).2 k = zset now' r k;
  time_passes now now' (r : R) k : now ≤ now' →
    zset now' r k = zset now r k ∨
    zset now' r k = ∅ ∧ ∃ d, deadline r k = Some d ∧ d ≤ now'
}.

(** [str(current_time)]: different floats print differently. *)
Class FloatStr := {
  float_str : Z → string;
  float_str_inj :: Inj (=) (=) float_str
}.

(** ** The decorator *)

(** What the decorator reads of a request. *)
Record HttpRequest := mkHttpRequest {
  hr_path : string;
  hr_forwarded : option string;    (** the [X-Forwarded-For] header *)
  hr_client : option string        (** [request.client.host], if there is a client *)
}.

(** [s.split(",")[0]]. *)
Fixpoint until_comma (l : list ascii) : list ascii :=
  match l with
  | c :: l' => if Ascii.eqb c "," then [] else c :: until_comma l'
  | [] => []
  end.

Definition client_identifier (request : HttpRequest) : string :=
  let client_host := default "unknown_client" (hr_client request) in
  match hr_forwarded request with
  | Some forwarded =>
      if str_truthy forwarded then str_strip (of_chars (until_comma (chars forwarded)))
      else client_host
  | None => client_host
  end.

Definition rate_key (request : HttpRequest) : string :=
  "rate_limit:" +:+ hr_path request +:+ ":" +:+ client_identifier request.

Section rate_limit.
Context {R : Type} `{Redis R} `{FloatStr}.

Definition exec_command (now : Z) (c : Command) : M R Z := λ r,
  (Ret (command now c r).1, (command now c r).2).

(** [pipe.execute()]: the replies in order. *)
Fixpoint execute (now : Z) (cs : list Command) : M R (list Z) :=
  match cs with
  | [] => mret []
  | c :: cs' =>
      reply ← exec_command now c;
      replies ← execute now cs';
      mret (reply :: replies)
  end.

Definition pipeline (window_seconds : Z) (key : string) (current_time : Z) : list Command :=
  [ ZADD key (float_str current_time) current_time;
    ZREMRANGEBYSCORE key 0 (current_time - window_seconds * ticks);
    ZCARD key;
    EXPIRE key window_seconds ].

(** The wrapper [rate_limit(max_requests, window_seconds)(func)] returns, given
    the [Request] among its arguments and [time.time()]: [Some] of the result of
    [func] where that is called, [None] where the wrapper returns [None]. *)
Definition rate_limit {A} (max_requests window_seconds : Z) (func : M R A)
    (request : option HttpRequest) (current_time : Z) : M R (option A) :=
  match request with
  | None => Some <$> func
  | Some request =>
      if negb (str_truthy (client_identifier request)) then Some <$> func
      else
        results ← execute current_time (pipeline window_seconds (rate_key request) current_time);
        let request_count := nth 2 results 0 in
        raise_if (max_requests <? request_count) (HTTPException 429 "Too Many Requests") ;;
        mret None
  end.
End rate_limit.

Arguments rate_limit : simpl never.

(** ** The specification: a sliding window over the attempts *)

(** The distinct instants of [h] in the window that ends at [t]. *)
Definition recent (window t : Z) (h : list Z) : list Z :=
  remove_dups (filter (λ s, t - window * ticks < s) h).

Section window.
Context {R : Type} `{RedisLaws R} `{FloatStr}.
Context (max_requests window_seconds : Z) (Hw : 0 < window_seconds).

Notation W := (window_seconds * ticks).

(** What the store knows of a key whose attempts were [h]. *)
Definition tracks (r : R) (k : string) (last : Z) (h : list Z) : Prop :=
  Forall (λ s, 0 ≤ s ≤ last) h ∧ ∀ now, last ≤ now →
  (∀ m s, zset now r k !! m = Some s → m = float_str s ∧ s ∈ h) ∧
  (∀ s, s ∈ h → now - W < s → zset now r k !! float_str s = Some s).

Lemma W_pos : 0 < W.
Proof. unfold ticks. lia. Qed.

Lemma execute_pipeline k t (r : R) :
  let r1 := (command t (ZADD k (float_str t) t) r).2 in
  let r2 := (command t (ZREMRANGEBYSCORE k 0 (t - W)) r1).2 in
  let r3 := (command t (ZCARD k) r2).2 in
  ∃ results, execute t (pipeline window_seconds k t) r =
    (Ret results, (command t (EXPIRE k window_seconds) r3).2) ∧
    nth 2 results 0 = Z.of_nat (size (zset t r2 k)).
Proof.
  cbv zeta. rewrite <-zcard_reply. eexists. split; reflexivity.
Qed.

Lemma members_after k t (r : R) :
  let r2 := (command t (ZREMRANGEBYSCORE k 0 (t - W)) (command t (ZADD k (float_str t) t) r).2).2 in
  zset t (execute t (pipeline window_seconds k t) r).2 k = zset t r2 k ∧
  zset t r2 k = filter (λ kv, ¬ (0 ≤ kv.2 ≤ t - W)) (<[float_str t := t]> (zset t r k)).
Proof.
  cbv zeta. destruct (execute_pipeline k t r) as (res & Hrun & _). rewrite Hrun. simpl.
  rewrite expire_members, zcard_members, zrem_members, zadd_members by done. done.
Qed.

Lemma tracks_request k t last h (r : R) :
  last ≤ t → 0 ≤ t → tracks r k last h →
  tracks (execute t (pipeline window_seconds k t) r).2 k t (t :: h).
Proof.
  intros Ht Ht0 [Hh Hk]. destruct (Hk t Ht) as [Hin Hall]. pose proof W_pos as HW.
  destruct (members_after k t r) as [Hm Hm']. rewrite Hm' in Hm. clear Hm'.
  set (r' := (execute _ _ r).2) in *. set (m := filter _ _) in *.
  assert (∀ n s, m !! n = Some s → n = float_str s ∧ s ∈ t :: h) as Hin'.
  { intros n s [Hn _]%map_lookup_filter_Some. apply lookup_insert_Some in Hn as [[<- <-]|[_ Hn]].
    - split; [done|by left].
    - apply Hin in Hn as [-> Hn]. split; [done|by right]. }
  assert (∀ s, s ∈ t :: h → t - W < s → m !! float_str s = Some s) as Hall'.
  { intros s Hs Hlt. apply map_lookup_filter_Some. simpl. split; [|lia].
    apply elem_of_cons in Hs as [->|Hs]; [by rewrite lookup_insert, decide_True|].
    apply lookup_insert_Some. destruct (decide (t = s)) as [->|Hne]; [by left|right].
    split; [by intros ?%float_str_inj|by apply Hall]. }
  split.
  { constructor; [lia|]. eapply Forall_impl; [exact Hh|]. simpl. lia. }
  intros now Hnow. destruct (time_passes t now r' k Hnow) as [->|(-> & d & Hd & Hle)].
  - rewrite Hm. split; [exact Hin'|]. intros s Hs Hlt. apply Hall'; [done|]. lia.
  - assert (d = t + W) as ->.
    { destruct (execute_pipeline k t r) as (res & Hrun & _). unfold r' in Hd. rewrite Hrun in Hd.
      simpl in Hd. rewrite expire_deadline in Hd; [by injection Hd|done|].
      rewrite zcard_members, zrem_members, zadd_members. intros He.
      specialize (Hall' t). unfold m in Hall'. rewrite He, lookup_empty in Hall'.
      discriminate Hall'; [by left|lia]. }
    split; [intros n s; by rewrite lookup_empty|]. intros s Hs Hlt.
    assert (s ≤ t) by (apply elem_of_cons in Hs as [->|Hs]; [lia|rewrite Forall_forall in Hh; apply Hh in Hs; lia]).
    lia.
Qed.

Lemma tracks_other k k' t last h (r : R) :
  k ≠ k' → tracks r k' last h → tracks (execute t (pipeline window_seconds k t) r).2 k' last h.
Proof.
  intros Hne [Hh Hk]. split; [exact Hh|]. intros now Hnow. specialize (Hk now Hnow).
  destruct (execute_pipeline k t r) as (res & Hrun & _). rewrite Hrun. simpl.
  by rewrite !other_members.
Qed.

Lemma tracks_later k last last' h (r : R) : last ≤ last' → tracks r k last h → tracks r k last' h.
Proof.
  intros Hle [Hh Hk]. split; [eapply Forall_impl; [exact Hh|]; simpl; lia|].
  intros now Hnow. apply Hk. lia.
Qed.

(** The count the pipeline reads is the number of distinct attempts in the
    window, this one included. *)
Lemma request_count_spec k t last h (r : R) results :
  last ≤ t → 0 ≤ t → tracks r k last h →
  execute t (pipeline window_seconds k t) r = (Ret results, (execute t (pipeline window_seconds k t) r).2) →
  nth 2 results 0 = Z.of_nat (length (recent window_seconds t (t :: h))).
Proof.
  intros Ht Ht0 [Hh Hk] Hrun. destruct (Hk t Ht) as [Hin Hall]. pose proof W_pos as HW.
  destruct (execute_pipeline k t r) as (res & Hrun' & Hres). rewrite Hrun' in Hrun.
  injection Hrun as <-. rewrite Hres. destruct (members_after k t r) as [_ ->]. f_equal.
  set (m := filter _ _). rewrite <-(length_map_to_list m).
  assert (map_to_list m ≡ₚ (λ s, (float_str s, s)) <$> recent window_seconds t (t :: h)) as ->;
    [|by rewrite length_fmap].
  apply NoDup_Permutation; [apply NoDup_map_to_list| |].
  { apply NoDup_fmap; [|apply NoDup_remove_dups]. by intros ?? [= _ ?]. }
  intros [n s]. rewrite elem_of_map_to_list, list_elem_of_fmap. unfold m, recent.
  setoid_rewrite elem_of_remove_dups. setoid_rewrite list_elem_of_filter.
  rewrite map_lookup_filter_Some, lookup_insert_Some. simpl. split.
  - intros [[[<- <-]|[_ Hn]] Hs].
    + exists t. split; [done|]. split; [lia|by left].
    + apply Hin in Hn as [-> Hn]. exists s. split; [done|]. rewrite Forall_forall in Hh.
      pose proof (Hh s Hn). split; [lia|by right].
  - intros (s' & [= -> ->] & Hs & Hs'). split; [|lia].
    destruct (decide (t = s')) as [->|Hne]; [by left|right]. split; [by intros ?%float_str_inj|].
    apply Hall; [|done]. by apply elem_of_cons in Hs' as [->|?].
Qed.
End window.

Lemma recent_ext window t h h' :
  (∀ s, s ∈ h ↔ s ∈ h') → length (recent window t h) = length (recent window t h').
Proof.
  intros Heq. apply Permutation_length, NoDup_Permutation; try apply NoDup_remove_dups.
  intros s. unfold recent. rewrite !elem_of_remove_dups, !list_elem_of_filter. by rewrite Heq.
Qed.

Lemma recent_mono window t t' h h' :
  (∀ s, s ∈ h → t - window * ticks < s → s ∈ h' ∧ t' - window * ticks < s) →
  (length (recent window t h) ≤ length (recent window t' h'))%nat.
Proof.
  intros Hsub. apply submseteq_length, NoDup_submseteq; [apply NoDup_remove_dups|].
  intros s. unfold recent. rewrite !elem_of_remove_dups, !list_elem_of_filter.
  intros [Ht Hs]. destruct (Hsub s Hs Ht). done.
Qed.

(** ** Sequences of requests *)

Notation Arrival := (HttpRequest * Z)%type.

(** The instants of the attempts under a key. *)
Definition attempts (k : string) (arr : list Arrival) : list Z :=
  snd <$> filter (λ a, rate_key a.1 = k) arr.

(** Instants do not decrease, and every request identifies its client. *)
Definition in_order (arr : list Arrival) : Prop :=
  StronglySorted (λ a b : Arrival, a.2 ≤ b.2) arr ∧ Forall (λ a : Arrival, 0 ≤ a.2) arr ∧
  Forall (λ a : Arrival, str_truthy (client_identifier a.1) = true) arr.

Lemma StronglySorted_snoc_inv {A} (R : A → A → Prop) l x :
  StronglySorted R (l ++ [x]) → StronglySorted R l ∧ ∀ y, y ∈ l → R y x.
Proof.
  induction l as [|y l IH]; simpl; intros Hs; [split; [constructor|set_solver]|].
  inversion_clear Hs as [|?? Hs' Hf]. destruct (IH Hs') as [Hl Hx]. apply Forall_app in Hf as [Hf Hfx].
  split; [by constructor|]. intros z [->|Hz]%elem_of_cons; [by inversion Hfx|by apply Hx].
Qed.

Lemma in_order_snoc arr a : in_order (arr ++ [a]) →
  in_order arr ∧ 0 ≤ a.2 ∧ str_truthy (client_identifier a.1) = true ∧ ∀ b, b ∈ arr → b.2 ≤ a.2.
Proof.
  intros (Hs & Hp & Hi). apply StronglySorted_snoc_inv in Hs as [Hs Hle].
  apply Forall_app in Hp as [Hp Hpa]. apply Forall_app in Hi as [Hi Hia].
  inversion_clear Hpa. inversion_clear Hia. split_and!; try done.
Qed.

Lemma elem_of_attempts k arr s : s ∈ attempts k arr ↔ ∃ rq, (rq, s) ∈ arr ∧ rate_key rq = k.
Proof.
  unfold attempts. rewrite list_elem_of_fmap. setoid_rewrite list_elem_of_filter. split.
  - intros ([rq s'] & -> & Hk & Hin). by exists rq.
  - intros (rq & Hin & Hk). by exists (rq, s).
Qed.

Lemma attempts_snoc k arr rq t :
  attempts k (arr ++ [(rq, t)]) = attempts k arr ++ if decide (rate_key rq = k) then [t] else [].
Proof.
  unfold attempts. rewrite filter_app, fmap_app, filter_cons, filter_nil. simpl. by case_decide.
Qed.

(** ** Choosing a client *)

Definition forwarded_as (x : string) (rq : HttpRequest) : HttpRequest :=
  mkHttpRequest (hr_path rq) (Some x) (hr_client rq).

(** A name of [n + 1] letters. *)
Definition long_name (n : nat) : list ascii := replicate (S n) "x"%char.

Lemma identifier_long_name n rq :
  client_identifier (forwarded_as (of_chars (long_name n)) rq) = of_chars (long_name n).
Proof.
  change (client_identifier (forwarded_as (of_chars (long_name n)) rq)) with
    (str_strip (of_chars (until_comma (chars (of_chars (long_name n)))))).
  unfold str_strip. rewrite !String.list_ascii_of_string_of_list_ascii.
  assert (until_comma (long_name n) = long_name n) as ->.
  { unfold long_name. generalize (S n). intros m. induction m as [|m IH]; [done|].
    simpl. by rewrite IH. }
  rewrite strip_id; [done|].
  apply Forall_replicate. done.
Qed.

Lemma length_of_chars l : String.length (of_chars l) = length l.
Proof. induction l as [|c l IH]; simpl; [done|by rewrite IH]. Qed.

Lemma length_app_str a b : String.length (a +:+ b) = (String.length a + String.length b)%nat.
Proof. induction a as [|c a IH]; simpl; [done|by rewrite IH]. Qed.

(** Any client can take a key that no request used before. *)
Lemma fresh_forwarded (arr : list Arrival) rq : ∃ x,
  client_identifier (forwarded_as x rq) = x ∧
  str_truthy (client_identifier (forwarded_as x rq)) = true ∧
  ∀ a, a ∈ arr → rate_key a.1 ≠ rate_key (forwarded_as x rq).
Proof.
  set (n := list_max ((λ a, String.length (rate_key a.1)) <$> arr)).
  exists (of_chars (long_name n)). rewrite identifier_long_name. split_and!; [done|done|].
  intros a Ha Hk. apply (f_equal String.length) in Hk.
  assert (String.length (rate_key a.1) ≤ n)%nat as Hle.
  { apply (proj1 (Forall_forall _ _) (proj1 (list_max_le _ _) (le_n n))).
    apply list_elem_of_fmap. by exists a. }
  unfold rate_key in Hk at 2. rewrite identifier_long_name, !length_app_str, length_of_chars in Hk.
  unfold long_name in Hk. rewrite length_replicate in Hk. lia.
Qed.

Section sequences.
Context {R : Type} `{RedisLaws R} `{FloatStr}.
Context {A : Type} (func : M R A) (max_requests window_seconds : Z).

Definition one (r : R) (a : Arrival) : R :=
  (rate_limit max_requests window_seconds func (Some a.1) a.2 r).2.

Definition after (arr : list Arrival) (r : R) : R := foldl one r arr.

(** The instants at which a key's requests were let through. *)
Fixpoint admitted (k : string) (arr : list Arrival) (r : R) : list Z :=
  match arr with
  | [] => []
  | a :: arr' =>
      match (rate_limit max_requests window_seconds func (Some a.1) a.2 r).1 with
      | Ret _ => if decide (rate_key a.1 = k) then [a.2] else []
      | Raise _ => []
      end ++ admitted k arr' (one r a)
  end.

(** A store without keys. *)
Definition fresh_store (r : R) : Prop := ∀ now k, zset now r k = ∅.

Context (Hw : 0 < window_seconds).

Lemma rate_limit_run {B} (f : M R B) rq t (r : R) : str_truthy (client_identifier rq) = true →
  ∃ results,
  execute t (pipeline window_seconds (rate_key rq) t) r =
    (Ret results, (execute t (pipeline window_seconds (rate_key rq) t) r).2) ∧
  rate_limit max_requests window_seconds f (Some rq) t r =
    (if max_requests <? nth 2 results 0 then Raise (HTTPException 429 "Too Many Requests") else Ret None,
     (execute t (pipeline window_seconds (rate_key rq) t) r).2).
Proof.
  intros Hid. destruct (execute_pipeline window_seconds (rate_key rq) t r) as (res & Hrun & _).
  exists res. rewrite Hrun. split; [done|]. unfold rate_limit. rewrite Hid.
  etrans; [exact (bind_ret_run _ _ _ _ _ Hrun)|]. unfold raise_if. by case_if.
Qed.

Lemma after_tracks arr r0 k last :
  fresh_store r0 → in_order arr → 0 ≤ last → (∀ a, a ∈ arr → a.2 ≤ last) →
  tracks window_seconds (after arr r0) k last (attempts k arr).
Proof.
  intros Hf. revert last. induction arr as [|[rq t] arr IH] using rev_ind; intros last Ho H0l Hle.
  { split; [constructor|]. intros now _. unfold after. simpl. rewrite Hf. split; [|set_solver].
    intros m s. by rewrite lookup_empty. }
  apply in_order_snoc in Ho as (Ho & H0t & Hid & Hlt). simpl in *.
  assert (t ≤ last) as Htl by (apply (Hle (rq, t)); set_solver).
  specialize (IH t Ho H0t Hlt). unfold after. rewrite foldl_app. simpl.
  destruct (rate_limit_run func rq t (after arr r0) Hid) as (res & _ & Hrun).
  change (one (foldl one r0 arr) (rq, t)) with
    (rate_limit max_requests window_seconds func (Some rq) t (after arr r0)).2.
  rewrite Hrun. cbn [snd].
  apply (tracks_later _ _ t); [done|].
  destruct (decide (rate_key rq = k)) as [<-|Hne].
  - apply (tracks_request _ Hw _ t t) in IH; [|lia|done].
    destruct IH as [Hh Hk]. assert (∀ s, s ∈ attempts (rate_key rq) (arr ++ [(rq, t)]) ↔
      s ∈ t :: attempts (rate_key rq) arr) as Heq.
    { intros s. rewrite attempts_snoc, decide_True by done.
      rewrite elem_of_app, list_elem_of_singleton, elem_of_cons. tauto. }
    split; [rewrite Forall_forall in *; intros s; rewrite Heq; apply Hh|].
    intros now Hnow. setoid_rewrite Heq. by apply Hk.
  - apply (tracks_other window_seconds _ _ t _ _ _ Hne) in IH.
    by rewrite attempts_snoc, decide_False, app_nil_r.
Qed.

Lemma verdict arr rq t r0 :
  fresh_store r0 → in_order (arr ++ [(rq, t)]) →
  (rate_limit max_requests window_seconds func (Some rq) t (after arr r0)).1 =
    if max_requests <? Z.of_nat (length (recent window_seconds t (t :: attempts (rate_key rq) arr)))
    then Raise (HTTPException 429 "Too Many Requests") else Ret None.
Proof.
  intros Hf (Ho & H0t & Hid & Hlt)%in_order_snoc. cbn [fst snd] in *.
  pose proof (after_tracks arr r0 (rate_key rq) t Hf Ho H0t Hlt) as Htr.
  destruct (rate_limit_run func rq t (after arr r0) Hid) as (res & Hex & ->). simpl.
  by rewrite (request_count_spec _ Hw _ t t _ _ res (Z.le_refl t) H0t Htr Hex).
Qed.

Lemma admitted_app k arr arr' r :
  admitted k (arr ++ arr') r = admitted k arr r ++ admitted k arr' (after arr r).
Proof.
  revert r. induction arr as [|a arr IH]; intros r; simpl; [done|].
  by rewrite IH, <-app_assoc.
Qed.

Lemma admitted_attempts k arr r s : s ∈ admitted k arr r → s ∈ attempts k arr.
Proof.
  revert r. induction arr as [|[rq t] arr IH]; intros r; simpl; [set_solver|].
  rewrite elem_of_app. intros [Hs|Hs%IH]; apply elem_of_attempts.
  - case_match; [|set_solver]. case_decide; [|set_solver].
    apply list_elem_of_singleton in Hs as ->. exists rq. set_solver.
  - apply elem_of_attempts in Hs as (rq' & ? & ?). exists rq'. set_solver.
Qed.

(** C9. The limiter is exactly a sliding window.  After any requests in order of
    time, a request at [t] is refused with 429 if more than [max_requests]
    distinct instants, [t] included, carry an attempt under its path and client
    in the window (t - window_seconds, t], and is let through otherwise; refused
    attempts count like the others, and the expiry of keys never shows.  The
    decorated function is not called in either case. *)
Theorem sliding_window arr rq t r0 :
  fresh_store r0 → in_order (arr ++ [(rq, t)]) →
  (rate_limit max_requests window_seconds func (Some rq) t (after arr r0)).1 =
    (if max_requests <? Z.of_nat (length (recent window_seconds t (t :: attempts (rate_key rq) arr)))
     then Raise (HTTPException 429 "Too Many Requests") else Ret None) ∧
  ∀ B (other : M R B) r, (rate_limit max_requests window_seconds other (Some rq) t r).2
                         = (rate_limit max_requests window_seconds func (Some rq) t r).2.
Proof.
  intros Hf Ho. split; [by apply verdict|]. intros B other r.
  apply in_order_snoc in Ho as (_ & _ & Hid & _). simpl in Hid.
  destruct (rate_limit_run other rq t r Hid) as (? & _ & ->).
  by destruct (rate_limit_run func rq t r Hid) as (? & _ & ->).
Qed.

(** C23. The bound the limiter promises: in no window of [window_seconds] are
    requests of one client to one path let through at more than
    [max_requests] instants. *)
Theorem admitted_bounded k arr r0 T :
  fresh_store r0 → in_order arr → 0 ≤ max_requests →
  Z.of_nat (length (recent window_seconds T (filter (λ s, s ≤ T) (admitted k arr r0)))) ≤ max_requests.
Proof.
  intros Hf Ho Hmax. induction arr as [|[rq t] arr IH] using rev_ind; [exact Hmax|].
  pose proof (in_order_snoc _ _ Ho) as (Ho' & H0t & Hid & Hlt). specialize (IH Ho'). cbn [fst snd] in *.
  rewrite admitted_app. cbn [admitted fst snd]. rewrite app_nil_r.
  pose proof (verdict arr rq t r0 Hf Ho) as Hv. rewrite Hv.
  destruct (_ <? _) eqn:Hb; [by rewrite app_nil_r|]. apply Z.ltb_ge in Hb.
  case_decide as Hk; [subst k|by rewrite app_nil_r].
  destruct (decide (t ≤ T)) as [HT|HT].
  - etrans; [|exact Hb]. apply inj_le, recent_mono. intros s Hs Hlo.
    apply list_elem_of_filter in Hs as [_ [Hs%admitted_attempts|Hs%list_elem_of_singleton]%elem_of_app].
    + split; [by right|lia].
    + subst s. split; [by left|lia].
  - rewrite filter_app, filter_cons_False by done. by rewrite app_nil_r.
Qed.

(** The window with nothing in it but the request itself. *)
Lemma silent_window h t : (∀ s, s ∈ h → s = t ∨ s ≤ t - window_seconds * ticks) →
  length (recent window_seconds t (t :: h)) = 1%nat.
Proof.
  intros Hs. transitivity (length (recent window_seconds t [t])).
  - apply Nat.le_antisymm; apply recent_mono; intros s Hin Hlo.
    + split; [|done]. apply elem_of_cons in Hin as [->|Hin]; [by left|].
      destruct (Hs s Hin) as [->|?]; [by left|lia].
    + split; [|done]. apply list_elem_of_singleton in Hin as ->. by left.
  - unfold recent. rewrite filter_cons_True by (pose proof (W_pos _ Hw); lia). done.
Qed.

Lemma remove_dups_cons_new (x : Z) l : x ∉ l → remove_dups (x :: l) = x :: remove_dups l.
Proof. intros Hx. simpl. by case_decide. Qed.

Lemma in_order_last arr rq t rq' : in_order (arr ++ [(rq, t)]) →
  str_truthy (client_identifier rq') = true → in_order (arr ++ [(rq', t)]).
Proof.
  intros Ho Hid. pose proof Ho as (Hp & Hp0 & _ & Hlt)%in_order_snoc. destruct Hp as (Hs & Hnn & Hi).
  cbn [fst snd] in *. split_and!.
  - clear -Hs Hlt. induction Hs as [|a l Hs IH Ha]; simpl; [repeat constructor|].
    constructor; [apply IH; intros; apply Hlt; by right|]. apply Forall_app. split; [done|].
    repeat constructor. simpl. apply Hlt. by left.
  - apply Forall_app. by repeat constructor.
  - apply Forall_app. by repeat constructor.
Qed.

(** C33. The limiter lets clients in again, and lets them escape.  With a positive
    budget a request is let through once no attempt under its key lies in the
    last window, whatever happened before.  A client that keeps attempting at
    [max_requests] or more instants per window is refused every time.  And because
    the client is read from the [X-Forwarded-For] header, after any history there
    is a header with which the same request is let through. *)
Theorem limiter_liveness arr rq t r0 :
  fresh_store r0 → in_order (arr ++ [(rq, t)]) → 1 ≤ max_requests →
  ((∀ s, s ∈ attempts (rate_key rq) arr → s = t ∨ s ≤ t - window_seconds * ticks) →
     (rate_limit max_requests window_seconds func (Some rq) t (after arr r0)).1 = Ret None) ∧
  (t ∉ attempts (rate_key rq) arr →
   max_requests ≤ Z.of_nat (length (recent window_seconds t (attempts (rate_key rq) arr))) →
     (rate_limit max_requests window_seconds func (Some rq) t (after arr r0)).1
       = Raise (HTTPException 429 "Too Many Requests")) ∧
  ∃ x, (rate_limit max_requests window_seconds func (Some (forwarded_as x rq)) t (after arr r0)).1
         = Ret None.
Proof.
  intros Hf Ho Hmax. pose proof Ho as (Ho' & H0t & _ & Hlt)%in_order_snoc. cbn [fst snd] in *. split_and!.
  - intros Hs. rewrite verdict by done. rewrite (silent_window _ _ Hs).
    by rewrite (proj2 (Z.ltb_ge _ _)) by lia.
  - intros Hnew Hmany. rewrite verdict by done. rewrite (proj2 (Z.ltb_lt _ _)); [done|].
    unfold recent in *. rewrite filter_cons_True by (pose proof (W_pos _ Hw); lia).
    rewrite remove_dups_cons_new by (by rewrite list_elem_of_filter; intros [_ ?]). simpl. lia.
  - destruct (fresh_forwarded arr rq) as (x & Hx & Hid & Hnew). exists x. rewrite verdict.
    + rewrite silent_window; [by rewrite (proj2 (Z.ltb_ge _ _)) by lia|].
      intros s (rq' & Hin & Hk)%elem_of_attempts. by destruct (Hnew _ Hin).
    + done.
    + by apply (in_order_last arr rq).
Qed.
End sequences.

(** ** A concrete store *)

Notation ToyRedis := (gmap string (gmap string Z * option Z)).

Definition toy_zset (now : Z) (r : ToyRedis) (k : string) : gmap string Z :=
  match r !! k with
  | Some (m, Some d) => if decide (d ≤ now) then ∅ else m
  | Some (m, None) => m
  | None => ∅
  end.

(** The deadline of a key that still lives. *)
Definition toy_deadline (now : Z) (r : ToyRedis) (k : string) : option Z :=
  match r !! k with
  | Some (_, Some d) => if decide (d ≤ now) then None else Some d
  | _ => None
  end.

Definition toy_command (now : Z) (c : Command) (r : ToyRedis) : Z * ToyRedis :=
  let k := command_key c in
  let m := toy_zset now r k in
  match c with
  | ZADD _ n s => (if decide (is_Some (m !! n)) then 0 else 1, <[k := (<[n := s]> m, toy_deadline now r k)]> r)
  | ZREMRANGEBYSCORE _ lo hi =>
      let m' := filter (λ kv, ¬ (lo ≤ kv.2 ≤ hi)) m in
      (Z.of_nat (size m - size m'), <[k := (m', toy_deadline now r k)]> r)
  | ZCARD _ => (Z.of_nat (size m), r)
  | EXPIRE _ s =>
      if decide (m = ∅) then (0, r) else (1, <[k := (m, Some (now + s * ticks))]> r)
  end.

#[global] Instance toy_redis : Redis ToyRedis := {|
  zset := toy_zset;
  deadline r k := r !! k ≫= snd;
  command := toy_command
|}.

Lemma toy_zset_insert now r k k' m :
  toy_zset now (<[k := (m, toy_deadline now r k)]> r) k' = if decide (k = k') then m else toy_zset now r k'.
Proof.
  unfold toy_zset, toy_deadline. destruct (decide (k = k')) as [<-|Hne].
  - rewrite lookup_insert, decide_True by done.
    destruct (r !! k) as [[m' [d|]]|]; try done. case_decide; [done|]. by rewrite decide_False.
  - by rewrite lookup_insert_ne.
Qed.

#[global] Instance toy_redis_ok : RedisLaws ToyRedis.
Proof.
  split.
  - intros now k n s r. simpl. by rewrite toy_zset_insert, decide_True.
  - intros now k lo hi r. simpl. by rewrite toy_zset_insert, decide_True.
  - done.
  - done.
  - intros now k s r Hs. simpl. case_decide as Hm; simpl; [done|]. unfold toy_zset at 1.
    rewrite lookup_insert, decide_True by done. rewrite decide_False; [done|]. unfold ticks. lia.
  - intros now k s r Hs Hm. simpl in *. rewrite decide_False by done. simpl.
    by rewrite lookup_insert, decide_True.
  - intros now now' c k r Hk. destruct c; simpl in *; try case_decide; simpl; try done;
      unfold toy_zset at 1; by rewrite lookup_insert_ne.
  - intros now now' r k Hle. simpl. unfold toy_zset. destruct (r !! k) as [[m [d|]]|]; try (by left).
    simpl. destruct (decide (d ≤ now')); [by right; eauto|]. left. rewrite decide_False; [done|lia].
Qed.

#[global] Instance decimal_str : FloatStr := {| float_str := pretty |}.

Definition login_from (x : option string) : HttpRequest :=
  mkHttpRequest "/api/v1/auth/login" x (Some "10.0.0.7").

(** Three attempts within a minute, then one more. *)
Definition burst : list Arrival :=
  [(login_from None, 100 * ticks); (login_from None, 110 * ticks); (login_from None, 120 * ticks)].

Lemma burst_in_order t : 120 * ticks ≤ t → in_order (burst ++ [(login_from None, t)]).
Proof.
  unfold ticks. intros Ht. split_and!; repeat constructor; simpl; unfold ticks; try lia; done.
Qed.

Definition endpoint : M ToyRedis unit := mret tt.

(** A budget of two a minute: the fourth attempt after ten more seconds is
    refused, a minute after the third it passes. *)
Lemma sliding_window_witness :
  (rate_limit 2 60 endpoint (Some (login_from None)) (130 * ticks) (after endpoint 2 60 burst ∅)).1
    = Raise (HTTPException 429 "Too Many Requests") ∧
  (rate_limit 2 60 endpoint (Some (login_from None)) (180 * ticks) (after endpoint 2 60 burst ∅)).1
    = Ret None.
Proof.
  assert (fresh_store (R := ToyRedis) ∅) as Hf by (intros ? ?; reflexivity).
  split.
  - destruct (sliding_window endpoint 2 60 eq_refl burst (login_from None) (130 * ticks) ∅ Hf
      (burst_in_order (130 * ticks) ltac:(unfold ticks; lia))) as [-> _]. vm_compute. reflexivity.
  - destruct (sliding_window endpoint 2 60 eq_refl burst (login_from None) (180 * ticks) ∅ Hf
      (burst_in_order (180 * ticks) ltac:(unfold ticks; lia))) as [-> _]. vm_compute. reflexivity.
Defined.

Lemma admitted_bounded_witness :
  admitted endpoint 2 60 (rate_key (login_from None)) burst (∅ : ToyRedis) = [100 * ticks; 110 * ticks] ∧
  Z.of_nat (length (recent 60 (130 * ticks) (filter (λ s, s ≤ 130 * ticks)
    (admitted endpoint 2 60 (rate_key (login_from None)) burst (∅ : ToyRedis))))) ≤ 2.
Proof.
  split; [vm_compute; reflexivity|].
  apply (admitted_bounded endpoint 2 60 eq_refl).
  - intros ? ?. reflexivity.
  - apply (in_order_snoc burst (login_from None, 120 * ticks)). apply burst_in_order. lia.
  - lia.
Defined.

Lemma limiter_liveness_witness :
  (rate_limit 2 60 endpoint (Some (login_from None)) (130 * ticks) (after endpoint 2 60 burst ∅)).1
    = Raise (HTTPException 429 "Too Many Requests") ∧
  ∃ x, (rate_limit 2 60 endpoint (Some (forwarded_as x (login_from None))) (130 * ticks)
          (after endpoint 2 60 burst ∅)).1 = Ret None.
Proof.
  destruct (limiter_liveness endpoint 2 60 eq_refl burst (login_from None) (130 * ticks) (∅ : ToyRedis))
    as (_ & Hrefused & Hspoof).
  - intros ? ?. reflexivity.
  - apply burst_in_order. unfold ticks. lia.
  - lia.
  - split; [|exact Hspoof]. apply Hrefused.
    + apply (bool_decide_unpack _). vm_compute. exact I.
    + vm_compute. discriminate.
Defined.
