(* ===== verification/Config.v ===== *)
(** * [core/config.py]

    The two validators of [Settings] that compute: the list of CORS origins and
    the URL of the test database.  The values come from the environment and are
    strings; pydantic's validation of the results is outside the model. *)

From stdpp Require Import base tactics list gmap strings.
From Stdlib Require Import ZArith Lia Ascii.
From S2P Require Import Prelude PyStd Effects.

(** ** Defaults the application uses *)

Definition API_V1_STR : string := "/api/v1".
Definition PROJECT_NAME : string := "VirtualStack API".
Definition VERSION : string := "0.1.0".
Definition DESCRIPTION : string := "VirtualStack API - Multi-tenant cloud management platform".

(** ** [assemble_cors_origins] *)

(** What the validator may be given. *)
Inductive RawValue :=
  | RawStr (s : string)
  | RawList (items : list string)
  | RawOther (repr : string).

Definition assemble_cors_origins (v : RawValue) : RawValue + Exn :=
  match v with
  | RawStr s =>
      if negb (str_starts_with "[" s)
      then inl (RawList ((λ item, of_chars (strip is_space item)) <$> split_on "," (chars s)))
      else inl v
  | RawList _ => inl v
  | RawOther r => inr (ValueError r)
  end.

(** ** [build_test_database_url] *)

Notation Values := (gmap string string).

(** [values.get(key)] as a condition. *)
Definition component (values : Values) (key : string) : option string :=
  match values !! key with
  | Some v => if str_truthy v then Some v else None
  | None => None
  end.

Definition test_db_components : list string :=
  ["TEST_POSTGRES_USER"; "TEST_POSTGRES_PASSWORD"; "TEST_POSTGRES_SERVER"; "TEST_POSTGRES_PORT";
   "TEST_POSTGRES_DB"].

(** [all([user, password, host, port, db])] guards the assignment. *)
Definition build_test_database_url (values : Values) : Values :=
  match values !! "TEST_DATABASE_URL" with
  | Some _ => values
  | None =>
      match mapM (component values) test_db_components with
      | Some [user; password; host; port; db] =>
          <["TEST_DATABASE_URL" := "postgresql+asyncpg://" +:+ user +:+ ":" +:+ password +:+ "@"
                                     +:+ host +:+ ":" +:+ port +:+ "/" +:+ db]> values
      | _ => values
      end
  end.

(** ** Properties *)

(** An origin as an administrator writes it: no comma, no white space around. *)
Definition plain_item (item : list ascii) : Prop := ","%char ∉ item ∧ strip is_space item = item.

(** Origins written with commas are read back one by one: for any non-empty
    list of origins without commas or surrounding white space, the first not
    starting with a bracket, the joined string gives exactly the list; a list is
    kept, and anything that is neither string nor list is a [ValueError]. *)
Theorem cors_origins_roundtrip :
  (∀ items, items ≠ [] → Forall plain_item items →
     str_starts_with "[" (of_chars (join_on "," items)) = false →
     assemble_cors_origins (RawStr (of_chars (join_on "," items))) = inl (RawList (of_chars <$> items))) ∧
  (∀ l, assemble_cors_origins (RawList l) = inl (RawList l)) ∧
  (∀ r, assemble_cors_origins (RawOther r) = inr (ValueError r)).
Proof.
  split_and!; [|done..]. intros items Hne Hall Hb. unfold assemble_cors_origins. rewrite Hb. simpl.
  rewrite String.list_ascii_of_string_of_list_ascii, split_join; [|done|].
  - do 2 f_equal. apply list_fmap_ext. intros i item Hi%list_elem_of_lookup_2.
    rewrite Forall_forall in Hall. by destruct (Hall item Hi) as [_ ->].
  - eapply Forall_impl; [exact Hall|]. by intros item [? _].
Qed.

Lemma build_test_database_url_keeps (values : Values) key :
  key ≠ "TEST_DATABASE_URL" → build_test_database_url values !! key = values !! key.
Proof.
  intros Hkey. unfold build_test_database_url. repeat case_match; try done. by rewrite lookup_insert_ne.
Qed.

(** The test database's URL: a value given explicitly is never replaced;
    otherwise one is composed exactly when the environment itself sets all five
    components to non-empty strings.  The defaults the class declares for the
    components are not seen, so with nothing set there is no URL.  Nothing else
    changes, and running the validator again changes nothing. *)
Theorem test_database_url_spec (values : Values) :
  build_test_database_url (build_test_database_url values) = build_test_database_url values ∧
  (∀ key, key ≠ "TEST_DATABASE_URL" → build_test_database_url values !! key = values !! key) ∧
  (∀ url, values !! "TEST_DATABASE_URL" = Some url →
     build_test_database_url values !! "TEST_DATABASE_URL" = Some url) ∧
  (values !! "TEST_DATABASE_URL" = None →
     is_Some (build_test_database_url values !! "TEST_DATABASE_URL") ↔
       ∀ key, key ∈ test_db_components → is_Some (component values key)) ∧
  build_test_database_url ∅ !! "TEST_DATABASE_URL" = None.
Proof.
  pose proof (build_test_database_url_keeps values) as Hkeep.
  assert (values !! "TEST_DATABASE_URL" = None →
    is_Some (build_test_database_url values !! "TEST_DATABASE_URL") ↔
      ∀ key, key ∈ test_db_components → is_Some (component values key)) as Hiff.
  { intros Hn. transitivity (Forall (is_Some ∘ component values) test_db_components); [|apply Forall_forall].
    rewrite <-mapM_is_Some. unfold build_test_database_url. rewrite Hn.
    destruct (mapM _ _) as [l|] eqn:Hl; [|rewrite Hn; split; by intros []].
    apply length_mapM in Hl. destruct l as [|a [|b [|c [|d [|e [|]]]]]]; try discriminate Hl.
    by rewrite lookup_insert, decide_True. }
  split_and!; [| |  | |done]; try done.
  - unfold build_test_database_url at 2 3. destruct (values !! "TEST_DATABASE_URL") as [u|] eqn:Hu.
    + unfold build_test_database_url. by rewrite Hu.
    + destruct (mapM _ _) as [[|a [|b [|c [|d [|e [|]]]]]]|] eqn:Hl;
        unfold build_test_database_url; rewrite ?Hu, ?Hl; try done.
      by rewrite lookup_insert, decide_True.
  - intros url Hu. unfold build_test_database_url. by rewrite Hu.
Qed.

Example test_url_ex :
  build_test_database_url (list_to_map [("TEST_POSTGRES_USER", "u"); ("TEST_POSTGRES_PASSWORD", "p");
    ("TEST_POSTGRES_SERVER", "h"); ("TEST_POSTGRES_PORT", "5433"); ("TEST_POSTGRES_DB", "d")])
    !! "TEST_DATABASE_URL" = Some "postgresql+asyncpg://u:p@h:5433/d".
Proof. reflexivity. Qed.

Example cors_ex : assemble_cors_origins (RawStr "http://a.io, http://b.io") =
  inl (RawList ["http://a.io"; "http://b.io"]).
Proof. reflexivity. Qed.

Lemma cors_origins_witness :
  assemble_cors_origins (RawStr "http://a.io,https://b.io") = inl (RawList ["http://a.io"; "https://b.io"]).
Proof.
  apply (proj1 cors_origins_roundtrip [chars "http://a.io"; chars "https://b.io"]);
    [discriminate| |reflexivity].
  repeat (apply List.Forall_cons; [split; [apply (bool_decide_unpack _); vm_compute; exact I|reflexivity]|]).
  apply List.Forall_nil.
Defined.
