(* ===== verification/Routing.v ===== *)
(** * [api/v1/api.py] and the decorators of [endpoints/*.py]: the routing table

    The table the application hands to Starlette - method, path template and
    endpoint, in the order the files declare and include them - and Starlette's
    choice as an interface, [Starlette], with its documented rules as laws.  A
    path parameter is bound by name; FastAPI converts it ([Http.v]). *)

From stdpp Require Import base tactics list strings finite.
From Stdlib Require Import ZArith Lia Ascii.
From S2P Require Import Prelude PyStd.

(** ** Templates *)

Inductive Method := GET | HEAD | POST | PUT | PATCH | DELETE | OPTIONS.

#[global] Instance Method_eq_dec : EqDecision Method.
Proof. solve_decision. Defined.

(** A segment of a template: literal text, or [{name}]. *)
Inductive Segment :=
  | Lit (text : string)
  | Par (name : string).

(** The segments of a path, between slashes; the leading slash is required. *)
Definition segments (path : string) : option (list string) :=
  match chars path with
  | "/"%char :: l => Some (of_chars <$> split_on "/" l)
  | _ => None
  end.

Definition compile_segment (s : string) : Segment :=
  match chars s with
  | "{"%char :: l =>
      match reverse l with
      | "}"%char :: n => Par (of_chars (reverse n))
      | _ => Lit s
      end
  | _ => Lit s
  end.

Definition compile (template : string) : list Segment :=
  match segments template with Some ss => compile_segment <$> ss | None => [] end.

(** A parameter takes a non-empty segment. *)
Fixpoint match_segments (t : list Segment) (p : list string) : option (list (string * string)) :=
  match t, p with
  | [], [] => Some []
  | Lit text :: t', x :: p' => if String.eqb text x then match_segments t' p' else None
  | Par name :: t', x :: p' => if str_truthy x then cons (name, x) <$> match_segments t' p' else None
  | _, _ => None
  end.

Definition path_match (template path : string) : option (list (string * string)) :=
  match segments path with Some p => match_segments (compile template) p | None => None end.

(** ** Routes *)

(** The endpoint functions, by file. *)
Inductive Endpoint :=
  | login_access_token
  | list_users_in_active_tenant | get_current_user_info | update_current_user
  | update_user_status_in_active_tenant | remove_user_from_active_tenant
  | list_accessible_tenants | create_tenant | get_tenant_by_id | get_tenant_by_slug
  | update_tenant | delete_tenant
  | create_api_key | read_api_keys | read_api_key | update_api_key | delete_api_key
  | create_invitation | list_invitations | verify_invitation_token | read_invitation
  | revoke_invitation | accept_invitation
  | list_users_in_tenant | get_tenant_user | assign_role_to_user | remove_role_from_user
  | list_roles_in_active_tenant | create_custom_role_in_tenant | get_role_details
  | update_custom_role_in_tenant | delete_custom_role_from_tenant | list_available_permissions
  | get_assigned_users_for_role | set_assigned_users_for_role.

#[global] Instance Endpoint_eq_dec : EqDecision Endpoint.
Proof. solve_decision. Defined.

(** What a route leads to: an endpoint of the API, one of the two health checks
    of [main.py], or a page FastAPI generates. *)
Inductive Target :=
  | ToApi (e : Endpoint)
  | root
  | health_check
  | Page (name : string).

#[global] Instance Target_eq_dec : EqDecision Target.
Proof. solve_decision. Defined.

Record Route := mkRoute {
  methods : list Method;
  template : string;
  target : Target
}.

(** [@router.<method>(path)]. *)
Definition api_route (m : Method) (path : string) (e : Endpoint) : Route := mkRoute [m] path (ToApi e).

Definition include_router (routes : list Route) (prefix : string) : list Route :=
  (λ r, mkRoute (methods r) (prefix +:+ template r) (target r)) <$> routes.

(** [endpoints/auth.py] *)
Definition auth_router : list Route := [api_route POST "/token" login_access_token].

(** [endpoints/users.py] *)
Definition users_router : list Route :=
  [api_route GET "/" list_users_in_active_tenant;
   api_route GET "/me" get_current_user_info;
   api_route PUT "/me" update_current_user;
   api_route PATCH "/{user_id}" update_user_status_in_active_tenant;
   api_route DELETE "/{user_id}" remove_user_from_active_tenant].

(** [endpoints/tenants.py] *)
Definition tenants_router : list Route :=
  [api_route GET "/" list_accessible_tenants;
   api_route POST "/" create_tenant;
   api_route GET "/{tenant_id}" get_tenant_by_id;
   api_route GET "/slug/{slug}" get_tenant_by_slug;
   api_route PUT "/{tenant_id}" update_tenant;
   api_route DELETE "/{tenant_id}" delete_tenant].

(** [endpoints/api_keys.py] *)
Definition api_keys_router : list Route :=
  [api_route POST "/" create_api_key;
   api_route GET "/" read_api_keys;
   api_route GET "/{api_key_id}" read_api_key;
   api_route PUT "/{api_key_id}" update_api_key;
   api_route DELETE "/{api_key_id}" delete_api_key].

(** [endpoints/invitations.py] *)
Definition invitations_router : list Route :=
  [api_route POST "/" create_invitation;
   api_route GET "/" list_invitations;
   api_route POST "/verify" verify_invitation_token;
   api_route GET "/{invitation_id}" read_invitation;
   api_route POST "/{invitation_id}/revoke" revoke_invitation;
   api_route POST "/accept" accept_invitation].

(** [endpoints/tenant_user_management.py] *)
Definition tenant_users_router : list Route :=
  [api_route GET "/" list_users_in_tenant;
   api_route GET "/{user_id}" get_tenant_user;
   api_route POST "/{user_id}/roles" assign_role_to_user;
   api_route DELETE "/{user_id}/roles/{role_id}" remove_role_from_user].

(** [endpoints/roles.py] *)
Definition roles_router : list Route :=
  [api_route GET "/" list_roles_in_active_tenant;
   api_route POST "/" create_custom_role_in_tenant;
   api_route GET "/{role_id}" get_role_details;
   api_route PATCH "/{role_id}" update_custom_role_in_tenant;
   api_route DELETE "/{role_id}" delete_custom_role_from_tenant;
   api_route GET "/permissions" list_available_permissions;
   api_route GET "/{role_id}/users" get_assigned_users_for_role;
   api_route PUT "/{role_id}/users" set_assigned_users_for_role].

(** [api/v1/api.py] *)
Definition api_router : list Route :=
  include_router auth_router "/auth" ++
  include_router users_router "/users" ++
  include_router tenants_router "/tenants" ++
  include_router api_keys_router "/api-keys" ++
  include_router invitations_router "/invitations" ++
  include_router tenant_users_router "/tenants/{tenant_id}/users" ++
  include_router roles_router "/tenants/{tenant_id}/roles".

(** [main.py]: the pages FastAPI adds for the URLs it is given come first, then
    the two health checks, then the API. *)
Definition app_routes (API_V1_STR : string) : list Route :=
  [mkRoute [GET; HEAD] (API_V1_STR +:+ "/openapi.json") (Page "openapi");
   mkRoute [GET; HEAD] "/docs" (Page "docs");
   mkRoute [GET; HEAD] "/docs/oauth2-redirect" (Page "oauth2-redirect");
   mkRoute [GET; HEAD] "/redoc" (Page "redoc");
   mkRoute [GET] "/" root;
   mkRoute [GET] "/health" health_check] ++
  include_router api_router API_V1_STR.

(** ** Starlette's router *)

Inductive Routed :=
  | Found (t : Target) (path_params : list (string * string))
  | MethodNotAllowed
  | RedirectSlashes (path : string)
  | NotFound.

Definition full_match (r : Route) (m : Method) (path : string) : option (list (string * string)) :=
  if bool_decide (m ∈ methods r) then path_match (template r) path else None.

Class Starlette := { dispatch_route : list Route → Method → string → Routed }.

Class StarletteLaws `{Starlette} : Prop := {
  (** the first route that matches path and method *)
  route_first rs1 r rs2 m path ps :
    (∀ r', r' ∈ rs1 → full_match r' m path = None) → full_match r m path = Some ps →
    dispatch_route (rs1 ++ r :: rs2) m path = Found (target r) ps;
  (** otherwise 405 when a route matches the path alone *)
  route_partial rs m path :
    (∀ r, r ∈ rs → full_match r m path = None) →
    (∃ r, r ∈ rs ∧ is_Some (path_match (template r) path)) →
    dispatch_route rs m path = MethodNotAllowed;
  (** otherwise 404, or a redirect to the path with or without a final slash *)
  route_none rs m path :
    (∀ r, r ∈ rs → path_match (template r) path = None) →
    dispatch_route rs m path = NotFound ∨
    ∃ p, dispatch_route rs m path = RedirectSlashes p
}.

(** ** URLs *)

Definition first_match (rs : list Route) (m : Method) (path : string)
    : option (Target * list (string * string)) :=
  head (omap (λ r, pair (target r) <$> full_match r m path) rs).

Definition fill_segment (f : string → string) (s : Segment) : string :=
  match s with Lit text => text | Par name => f name end.

(** The URL of a template with its parameters filled in. *)
Definition url (t : list Segment) (f : string → string) : string :=
  of_chars ("/"%char :: join_on "/" (chars ∘ fill_segment f <$> t)).

Definition path_params (t : list Segment) (f : string → string) : list (string * string) :=
  omap (λ s, match s with Lit _ => None | Par name => Some (name, f name) end) t.

(** The method and the path an endpoint is declared with, prefixes included. *)
Definition location (API_V1_STR : string) (e : Endpoint) : option (Method * list Segment) :=
  head (omap (λ r, if decide (target r = ToApi e)
                   then (λ m, (m, compile (template r))) <$> head (methods r) else None)
             (app_routes API_V1_STR)).

(** ** Lemmas *)

Section lemmas.
Context `{StarletteLaws}.
Implicit Types rs : list Route.

Lemma first_match_Some rs m path t ps :
  first_match rs m path = Some (t, ps) → dispatch_route rs m path = Found t ps.
Proof.
  intros Hf.
  enough (∃ rs1 r rs2, rs = rs1 ++ r :: rs2 ∧ (∀ r', r' ∈ rs1 → full_match r' m path = None) ∧
    full_match r m path = Some ps ∧ target r = t) as (rs1 & r & rs2 & -> & Hn & Hm & <-).
  { by apply route_first. }
  unfold first_match in Hf. induction rs as [|r rs IH]; [done|]. simpl in Hf.
  destruct (full_match r m path) as [ps'|] eqn:Hm; simpl in Hf.
  - injection Hf as <- <-. exists [], r, rs. split_and!; try done. intros r' Hr. by apply elem_of_nil in Hr.
  - destruct (IH Hf) as (rs1 & r0 & rs2 & -> & Hn & Hm' & Ht). exists (r :: rs1), r0, rs2.
    split_and!; try done. by intros r' [->|Hr]%elem_of_cons; [|apply Hn].
Qed.

Lemma first_match_None rs m path :
  first_match rs m path = None → ∀ r, r ∈ rs → full_match r m path = None.
Proof.
  unfold first_match. intros Hf r Hr. induction rs as [|r0 rs IH]; [by apply elem_of_nil in Hr|].
  simpl in Hf. destruct (full_match r0 m path) as [ps|] eqn:Hm; [done|]. simpl in Hf.
  apply elem_of_cons in Hr as [->|Hr]; [done|by apply IH].
Qed.

(** What the router answers, by cases. *)
Lemma dispatch_cases rs m path :
  match first_match rs m path with
  | Some (t, ps) => dispatch_route rs m path = Found t ps
  | None => dispatch_route rs m path = MethodNotAllowed ∨ dispatch_route rs m path = NotFound ∨
            ∃ p, dispatch_route rs m path = RedirectSlashes p
  end.
Proof.
  destruct (first_match rs m path) as [[t ps]|] eqn:Hf; [by apply first_match_Some|].
  destruct (decide (Exists (λ r, is_Some (path_match (template r) path)) rs)) as [He|He].
  - left. apply Exists_exists in He. by apply route_partial; [apply first_match_None|].
  - right. apply route_none. intros r Hr. destruct (path_match (template r) path) eqn:Hp; [|done].
    destruct He. apply Exists_exists. exists r. split; [done|]. by rewrite Hp.
Qed.
End lemmas.

(** Text that can stand between two slashes. *)
Definition plain_segment (s : string) : Prop := s ≠ "" ∧ "/"%char ∉ chars s.

Definition slash_free (s : Segment) : bool :=
  match s with Lit text => bool_decide ("/"%char ∉ chars text) | Par _ => true end.

Lemma segments_url t f :
  t ≠ [] → forallb slash_free t = true → (∀ n, plain_segment (f n)) →
  segments (url t f) = Some (fill_segment f <$> t).
Proof.
  intros Hne Ht Hf. unfold segments, url. rewrite String.list_ascii_of_string_of_list_ascii.
  rewrite split_join.
  - rewrite <-list_fmap_compose. f_equal. apply list_fmap_ext. intros i s _.
    apply String.string_of_list_ascii_of_string.
  - by destruct t.
  - apply Forall_fmap, Forall_forall. intros s Hs. unfold compose.
    rewrite forallb_forall in Ht. apply list_elem_of_In, Ht in Hs. destruct s as [text|n]; simpl in *.
    + by apply bool_decide_eq_true in Hs.
    + apply Hf.
Qed.

(** ** Properties *)

Lemma match_segments_length t p ps : match_segments t p = Some ps → length t = length p.
Proof.
  revert p ps. induction t as [|[text|n] t IH]; intros [|x p] ps; simpl; try done.
  - case_match; [|done]. intros Hm. f_equal. by eapply IH.
  - case_match; [|done]. intros (ps' & Hm & _)%fmap_Some. f_equal. by eapply IH.
Qed.

(** [first_match] on the segments of a path, long and short templates skipped. *)
Definition match_table (rs : list Route) (m : Method) (p : list string)
    : option (Target * list (string * string)) :=
  head (omap (λ r, pair (target r) <$>
    (if bool_decide (m ∈ methods r) && (length (compile (template r)) =? length p)%nat
     then match_segments (compile (template r)) p else None)) rs).

Lemma first_match_table rs m path p :
  segments path = Some p → first_match rs m path = match_table rs m p.
Proof.
  intros Hp. unfold first_match, match_table. f_equal.
  induction rs as [|r rs IH]; [done|]. cbn [omap list_omap]. rewrite IH.
  unfold full_match, path_match. rewrite Hp. case_bool_decide; [|done]. simpl.
  destruct (match_segments _ _) as [ps|] eqn:Hm.
  - by rewrite (proj2 (Nat.eqb_eq _ _) (match_segments_length _ _ _ Hm)).
  - by destruct (Nat.eqb _ _).
Qed.

(** Every endpoint's own URL leads to it, except for the shadowed one. *)
Lemma match_table_url e f : (∀ n, plain_segment (f n)) → ∃ m t,
  location "/api/v1" e = Some (m, t) ∧ t ≠ [] ∧ forallb slash_free t = true ∧
  match_table (app_routes "/api/v1") m (fill_segment f <$> t) =
    Some (if decide (e = list_available_permissions)
          then (ToApi get_role_details, [("tenant_id", f "tenant_id"); ("role_id", "permissions")])
          else (ToApi e, path_params t f)).
Proof.
  intros Hf. destruct e;
    eexists _, _; (split; [vm_compute; reflexivity|]); (split; [discriminate|]; split; [reflexivity|]);
    cbn [fmap list_fmap fill_segment path_params omap list_omap];
    repeat match goal with |- context [f ?n] =>
      let c := fresh "c" in let s := fresh "s" in let Hn := fresh "Hn" in
      destruct (Hf n) as [Hn _]; revert Hn; generalize (f n); intros [|c s] Hn; [done|clear Hn] end;
    vm_compute; reflexivity.
Qed.

Lemma first_match_elem rs m path t ps :
  first_match rs m path = Some (t, ps) → ∃ r, r ∈ rs ∧ target r = t ∧ full_match r m path = Some ps.
Proof.
  unfold first_match. intros Hh%head_Some_elem_of.
  apply list_elem_of_omap in Hh as (r & Hr & Hm). exists r.
  destruct (full_match r m path); simpl in Hm; [|done]. by injection Hm as <- <-.
Qed.

Lemma match_lit text t p ps : match_segments (Lit text :: t) p = Some ps →
  ∃ p', p = text :: p' ∧ match_segments t p' = Some ps.
Proof.
  destruct p as [|x p']; [done|]. simpl. destruct (String.eqb text x) eqn:Hx; [|done].
  apply String.eqb_eq in Hx as <-. by exists p'.
Qed.

Lemma match_par n t p ps : match_segments (Par n :: t) p = Some ps →
  ∃ x p' ps', p = x :: p' ∧ x ≠ "" ∧ ps = (n, x) :: ps' ∧ match_segments t p' = Some ps'.
Proof.
  destruct p as [|x p']; [done|]. simpl. destruct (str_truthy x) eqn:Hx; [|done].
  intros (ps' & Hm & ->)%fmap_Some. exists x, p', ps'. split_and!; try done. by intros ->.
Qed.

Section properties.
Context `{StarletteLaws}.

(** C25. Routing.  The URL and the method an endpoint is declared with, whatever
    non-empty text without slashes stands for its parameters, lead to that
    endpoint with those parameters - for every endpoint but one: the listing of
    the permissions is declared after [/{role_id}], so its URL is the one of a
    role named "permissions".  No request at all reaches the listing. *)
Theorem routing_roundtrip :
  (∀ e f, (∀ n, plain_segment (f n)) → ∃ m t,
     location "/api/v1" e = Some (m, t) ∧
     dispatch_route (app_routes "/api/v1") m (url t f) =
       if decide (e = list_available_permissions)
       then Found (ToApi get_role_details) [("tenant_id", f "tenant_id"); ("role_id", "permissions")]
       else Found (ToApi e) (path_params t f)) ∧
  ∀ m path ps, dispatch_route (app_routes "/api/v1") m path ≠ Found (ToApi list_available_permissions) ps.
Proof.
  split.
  - intros e f Hf. destruct (match_table_url e f Hf) as (m & t & Hl & Hne & Hs & Hm).
    exists m, t. split; [done|]. rewrite <-(first_match_table _ m (url t f)) in Hm by (by apply segments_url).
    by destruct (decide _); apply first_match_Some.
  - intros m path ps Hd. pose proof (dispatch_cases (app_routes "/api/v1") m path) as Hc.
    destruct (first_match _ m path) as [[t ps']|] eqn:Hf; rewrite Hd in Hc;
      [|by destruct Hc as [|[|[? ?]]]].
    injection Hc as <- <-. destruct (first_match_elem _ _ _ _ _ Hf) as (r & Hr & Ht & Hm).
    assert (r = mkRoute [GET] "/api/v1/tenants/{tenant_id}/roles/permissions" (ToApi list_available_permissions)) as ->.
    { revert Ht. clear -Hr. revert r Hr.
      refine (proj1 (Forall_forall (λ r, target r = ToApi list_available_permissions →
        r = mkRoute [GET] "/api/v1/tenants/{tenant_id}/roles/permissions" (ToApi list_available_permissions)) _) _).
      repeat (apply List.Forall_cons; [intros Ht; (discriminate Ht || reflexivity)|]). apply List.Forall_nil. }
    unfold full_match in Hm. case_bool_decide as Hmet; [|done]. change (m ∈ [GET]) in Hmet.
    apply list_elem_of_singleton in Hmet as ->. unfold path_match in Hm.
    destruct (segments path) as [p|] eqn:Hp; [|done].
    rewrite (first_match_table _ _ _ p Hp) in Hf. clear Hd Hr Ht Hp.
    change (compile _) with [Lit "api"; Lit "v1"; Lit "tenants"; Par "tenant_id"; Lit "roles"; Lit "permissions"] in Hm.
    repeat (apply match_lit in Hm as (? & -> & Hm)). apply match_par in Hm as (tid & ? & ? & -> & Hx & -> & Hm).
    repeat (apply match_lit in Hm as (? & -> & Hm)). destruct tid as [|c tid]; [done|].
    match type of Hm with match_segments [] ?p = _ => destruct p; [|done] end.
    vm_compute in Hf. discriminate Hf.
Qed.
End properties.

(** [deps.py]: the URL [oauth2_scheme] announces for logins. *)
Definition oauth2_token_url (API_V1_STR : string) : string := API_V1_STR +:+ "/auth/login/access-token".

Section token_url.
Context `{StarletteLaws}.

(** The announced URL is no route of the application, with or without a final
    slash, whatever the method. *)
Lemma token_url_unrouted m path :
  path = oauth2_token_url "/api/v1" ∨ path = oauth2_token_url "/api/v1" +:+ "/" →
  dispatch_route (app_routes "/api/v1") m path = NotFound ∨
  ∃ p, dispatch_route (app_routes "/api/v1") m path = RedirectSlashes p.
Proof.
  intros Hpath. apply route_none.
  assert (Forall (λ r, path_match (template r) (oauth2_token_url "/api/v1") = None ∧
    path_match (template r) (oauth2_token_url "/api/v1" +:+ "/") = None) (app_routes "/api/v1")) as Hall.
  { repeat (apply List.Forall_cons; [split; vm_compute; reflexivity|]). apply List.Forall_nil. }
  intros r Hr. rewrite Forall_forall in Hall. destruct (Hall r Hr). by destruct Hpath as [->| ->].
Qed.
End token_url.

(** ** A router *)

#[global] Instance plain_starlette : Starlette := {|
  dispatch_route rs m path :=
    match first_match rs m path with
    | Some (t, ps) => Found t ps
    | None =>
        if existsb (λ r, truthy (path_match (template r) path)) rs then MethodNotAllowed
        else
          let other := match reverse (chars path) with
                       | "/"%char :: l => of_chars (reverse l)
                       | _ => path +:+ "/"
                       end in
          if existsb (λ r, truthy (path_match (template r) other)) rs then RedirectSlashes other else NotFound
    end
|}.

#[global] Instance plain_starlette_laws : StarletteLaws.
Proof.
  assert (∀ rs m path, (∀ r, r ∈ rs → full_match r m path = None) → first_match rs m path = None) as Hnone.
  { intros rs m path Hn. unfold first_match. induction rs as [|r rs IH]; [done|].
    simpl. rewrite Hn by (by left). simpl. apply IH. intros r' Hr. apply Hn. by right. }
  split.
  - intros rs1 r rs2 m path ps Hn Hm. simpl. unfold first_match.
    enough (head (omap (λ r, pair (target r) <$> full_match r m path) (rs1 ++ r :: rs2)) =
      Some (target r, ps)) as -> by done.
    rewrite omap_app. simpl. rewrite Hm. simpl. specialize (Hnone rs1 m path Hn).
    unfold first_match in Hnone. apply head_None in Hnone. by rewrite Hnone.
  - intros rs m path Hn (r & Hr & Hp). simpl. rewrite Hnone by done.
    enough (existsb (λ r, truthy (path_match (template r) path)) rs = true) as -> by done.
    apply existsb_exists. exists r. split; [by apply list_elem_of_In|by apply bool_decide_eq_true].
  - intros rs m path Hn. simpl. rewrite Hnone.
    + enough (existsb (λ r, truthy (path_match (template r) path)) rs = false) as ->
        by (case_match; eauto).
      apply not_true_iff_false. intros (r & Hr & Hp)%existsb_exists.
      apply bool_decide_eq_true in Hp as [? Hp]. apply list_elem_of_In in Hr. by rewrite Hn in Hp.
    + intros r Hr. unfold full_match. rewrite Hn by done. by case_bool_decide.
Qed.

Lemma routing_witness :
  dispatch_route (app_routes "/api/v1") GET "/api/v1/tenants/acme/roles/permissions" =
    Found (ToApi get_role_details) [("tenant_id", "acme"); ("role_id", "permissions")].
Proof.
  destruct (proj1 routing_roundtrip list_available_permissions (λ _, "acme")) as (m & t & Hl & Hd).
  - intros _. split; [discriminate|]. apply (bool_decide_unpack _). vm_compute. exact I.
  - vm_compute in Hl. injection Hl as <- <-. exact Hd.
Defined.

Example routing_ex :
  dispatch_route (app_routes "/api/v1") DELETE "/api/v1/tenants/1/users/2/roles/3" =
    Found (ToApi remove_role_from_user) [("tenant_id", "1"); ("user_id", "2"); ("role_id", "3")] ∧
  dispatch_route (app_routes "/api/v1") POST "/api/v1/users/" = MethodNotAllowed ∧
  dispatch_route (app_routes "/api/v1") GET "/api/v1/users" = RedirectSlashes "/api/v1/users/" ∧
  dispatch_route (app_routes "/api/v1") GET "/api/v1/roles" = NotFound.
Proof. vm_compute. auto. Qed.
