(* ===== verification/Schemas.v ===== *)
(** * [schemas/iam/*.py]: the request models

    What the endpoints accept.  The schemas are data, as in [Replies]; pydantic's
    validation of a JSON value against a type is an interface, [RequestModel],
    with the documented rules as laws.  A model keeps the fields that are set, so
    that [model_dump(exclude_unset=True)] is visible; the readers turn it into the
    records the handlers take, and [request_models_accept] says which bodies get
    that far. *)

From stdpp Require Import base tactics list gmap strings.
From Stdlib Require Import ZArith Lia Ascii.
From S2P Require Import Prelude PyStd Effects Models Session.
From S2P Require Import RoleService UserService ApiKeyService.
From S2P Require InvitationApi TenantService.
From S2P Require Import Replies.
Import InvitationApi(Pydantic, toy_pydantic, email_valid).
Import TenantService(slug_char, valid_slug).

(** ** Validation *)

(** Pydantic reading JSON, and the converters of path and query parameters. *)
Class RequestModel := {
  load : PyType → Json → option PyVal;
  uuid_in : string → option Uuid;
  int_in : string → option Z;
  url_in : string → string → option string;  (** the normal form under a URL class *)
  password_form : list (string * string) → option (string * string)
    (** [OAuth2PasswordRequestForm]: user name and password *)
}.

Section load.
Context `{RequestModel}.

(** One field: validated when given, absent when it has a default. *)
Definition load_field (ms : list (string * Json)) (f : Field) : option (list (string * PyVal)) :=
  let '(n, t, d, _) := f in
  match attribute n ms with
  | Some j => v ← load t j; Some [(n, v)]
  | None => match d with Some _ => Some [] | None => None end
  end.

Definition load_fields (ms : list (string * Json)) (fs : list Field) : option (list (string * PyVal)) :=
  mjoin <$> mapM (load_field ms) fs.
End load.

Class RequestModelLaws `{ResponseModel} `{RequestModel} : Prop := {
  load_str j : load TStr j = match j with JStr s => Some (PStr s) | _ => None end;
  load_min n j : load (TMin n) j =
    match j with JStr s => if (n <=? str_len s)%nat then Some (PStr s) else None | _ => None end;
  load_constr lo hi p j : load (TConstr lo hi p) j =
    match j with
    | JStr s => if ((lo <=? str_len s) && (str_len s <=? hi))%nat && forallb p (chars s)
                then Some (PStr s) else None
    | _ => None
    end;
  load_enum vs j : load (TEnum vs) j =
    match j with JStr s => if bool_decide (s ∈ vs) then Some (PStr s) else None | _ => None end;
  load_email j : load TEmail j = match j with JStr s => PStr <$> email_out s | _ => None end;
  load_url k j : load (TUrl k) j = match j with JStr s => PStr <$> url_in k s | _ => None end;
  load_uuid j : load TUuid j = match j with JStr s => PUuid <$> uuid_in s | _ => None end;
  load_uuid4 j : load TUuid4 j =
    match j with
    | JStr s => u ← uuid_in s; if N.eqb (uuid_version u) 4 then Some (PUuid u) else None
    | _ => None
    end;
  (** lax mode reads booleans, integers and times from other JSON values too *)
  load_bool b : load TBool (JBool b) = Some (PBool b);
  load_bool_inv j v : load TBool j = Some v → ∃ b, v = PBool b;
  load_int z : load TInt (JInt z) = Some (PInt z);
  load_int_inv j v : load TInt j = Some v → ∃ z, v = PInt z;
  load_time_inv j v : load TTime j = Some v → ∃ t, v = PTime t;
  load_optional t j : load (TOptional t) j = match j with JNull => Some PNone | _ => load t j end;
  load_list t j : load (TList t) j = match j with JList l => PList <$> mapM (load t) l | _ => None end;
  load_model fs j : load (TModel fs) j = match j with JObject ms => PObj <$> load_fields ms fs | _ => None end;
  (** the canonical spelling of a UUID, and a plain login *)
  uuid_in_str u : (u < uuid_bound)%N → uuid_in (uuid_str u) = Some u;
  password_form_plain u p : u ≠ "" → p ≠ "" → password_form [("username", u); ("password", p)] = Some (u, p)
}.

(** ** The schemas *)

(** [schemas/iam/tenant.py] *)
Definition TenantCreateSchema : list Field := extend TenantBase [].
Definition TenantUpdateSchema : list Field :=
  [optional "name" TStr; optional "description" TStr; optional "is_active" TBool].

(** [schemas/iam/user.py]; the validators of [password] repeat [min_length]. *)
Definition UserUpdateSchema : list Field := extend UserBase
  [optional "email" TEmail; optional "first_name" TStr; optional "last_name" TStr;
   optional "password" (TMin 8); optional "is_active" TBool].
Definition UserStatusUpdateSchema : list Field := [required "is_active" TBool].

(** [schemas/iam/role.py] *)
Definition RoleCreateSchema : list Field := extend RoleBase
  [with_default "permission_ids" (TOptional (TList TUuid)) (PList [])].
Definition RoleUpdateSchema : list Field :=
  [optional "name" TStr; optional "description" TStr; optional "permission_ids" (TList TUuid)].
Definition RoleAssignSchema : list Field := [required "role_id" TUuid].
Definition RoleUserAssignmentInput : list Field := [required "user_ids" (TList TUuid)].

(** [schemas/iam/api_key.py] *)
Definition APIKeyCreateSchema : list Field := extend APIKeyBase [].
Definition APIKeyUpdateSchema : list Field :=
  [optional "name" TStr; optional "description" TStr; optional "is_active" TBool; optional "expires_at" TTime].

(** [schemas/iam/invitation.py]; the validator of [InvitationAccept.password]
    asks for eight characters. *)
Definition InvitationBase : list Field :=
  [required "email" TEmail; required "tenant_id" TUuid4; optional "role_id" TUuid4;
   with_default "expires_in_days" (TOptional TInt) (PInt 7)].
Definition InvitationCreateSchema : list Field := extend InvitationBase [required "tenant_id" TUuid4].
Definition InvitationVerifySchema : list Field := [required "token" TStr].
Definition InvitationAcceptSchema : list Field :=
  [required "token" TStr; required "password" (TMin 8); optional "first_name" TStr; optional "last_name" TStr].

(** ** From a validated model to the handlers' records *)

Definition as_str (v : PyVal) : option string := match v with PStr s => Some s | _ => None end.
Definition as_bool (v : PyVal) : option bool := match v with PBool b => Some b | _ => None end.
Definition as_int (v : PyVal) : option Z := match v with PInt z => Some z | _ => None end.
Definition as_uuid (v : PyVal) : option Uuid := match v with PUuid u => Some u | _ => None end.
Definition as_time (v : PyVal) : option PyDateTime := match v with PTime t => Some t | _ => None end.
Definition as_uuids (v : PyVal) : option (list Uuid) :=
  match v with PList l => mapM as_uuid l | _ => None end.
Definition as_scope (v : PyVal) : option APIKeyScope :=
  match v with
  | PStr s => if String.eqb s "GLOBAL" then Some GLOBAL else if String.eqb s "TENANT" then Some TENANT else None
  | _ => None
  end.
Definition as_optional {A} (f : PyVal → option A) (v : PyVal) : option (option A) :=
  match v with PNone => Some None | _ => Some <$> f v end.

(** The value of a field, set or default. *)
Definition field (fs : list Field) (a : list (string * PyVal)) (n : string) : option PyVal :=
  match attribute n a with
  | Some v => Some v
  | None => f ← head (filter (λ f, field_name f = n) fs); f.1.2
  end.

(** A field of a partial update: [None] when it is not set. *)
Definition set_field {A} (f : PyVal → option A) (a : list (string * PyVal)) (n : string)
    : option (option (option A)) :=
  match attribute n a with Some v => Some <$> as_optional f v | None => Some None end.

Section readers.
Implicit Types a : list (string * PyVal).

Definition tenant_create a : option TenantService.TenantCreate :=
  let get := field TenantCreateSchema a in
  name ← get "name" ≫= as_str;
  slug ← get "slug" ≫= as_str;
  description ← get "description" ≫= as_optional as_str;
  is_active ← get "is_active" ≫= as_optional as_bool;
  Some (TenantService.mkTenantCreate name slug description is_active).

Definition tenant_update a : option TenantService.TenantUpdate :=
  name ← set_field as_str a "name";
  description ← set_field as_str a "description";
  is_active ← set_field as_bool a "is_active";
  Some (TenantService.mkTenantUpdate name description is_active).

Definition user_update a : option UserUpdate :=
  email ← set_field as_str a "email";
  first_name ← set_field as_str a "first_name";
  last_name ← set_field as_str a "last_name";
  password ← set_field as_str a "password";
  is_active ← set_field as_bool a "is_active";
  Some (mkUserUpdate email first_name last_name password is_active).

Definition user_status_update a : option bool := field UserStatusUpdateSchema a "is_active" ≫= as_bool.

Definition role_create a : option RoleCreate :=
  let get := field RoleCreateSchema a in
  name ← get "name" ≫= as_str;
  description ← get "description" ≫= as_optional as_str;
  permission_ids ← get "permission_ids" ≫= as_optional as_uuids;
  Some (mkRoleCreate name description permission_ids).

(** [permission_ids] unset and [null] are the same to the service. *)
Definition role_update a : option RoleUpdate :=
  name ← set_field as_str a "name";
  description ← set_field as_str a "description";
  permission_ids ← set_field as_uuids a "permission_ids";
  Some (mkRoleUpdate name description (mjoin permission_ids)).

Definition role_assign a : option Uuid := field RoleAssignSchema a "role_id" ≫= as_uuid.

Definition role_users a : option (list Uuid) := field RoleUserAssignmentInput a "user_ids" ≫= as_uuids.

Definition api_key_create a : option APIKeyCreate :=
  let get := field APIKeyCreateSchema a in
  name ← get "name" ≫= as_str;
  description ← get "description" ≫= as_optional as_str;
  is_active ← get "is_active" ≫= as_bool;
  expires_at ← get "expires_at" ≫= as_optional as_time;
  scope ← get "scope" ≫= as_scope;
  tenant_id ← get "tenant_id" ≫= as_optional as_uuid;
  Some (mkAPIKeyCreate name description is_active expires_at scope tenant_id).

Definition api_key_update a : option APIKeyUpdate :=
  name ← set_field as_str a "name";
  description ← set_field as_str a "description";
  is_active ← set_field as_bool a "is_active";
  expires_at ← set_field as_time a "expires_at";
  Some (mkAPIKeyUpdate name description is_active expires_at).

Definition invitation_create a : option InvitationApi.InvitationCreate :=
  let get := field InvitationCreateSchema a in
  email ← get "email" ≫= as_str;
  tenant_id ← get "tenant_id" ≫= as_uuid;
  role_id ← get "role_id" ≫= as_optional as_uuid;
  expires_in_days ← get "expires_in_days" ≫= as_optional as_int;
  Some (InvitationApi.mkInvitationCreate email tenant_id role_id expires_in_days).

Definition invitation_verify a : option string := field InvitationVerifySchema a "token" ≫= as_str.

Definition invitation_accept a : option InvitationApi.InvitationAccept :=
  let get := field InvitationAcceptSchema a in
  token ← get "token" ≫= as_str;
  password ← get "password" ≫= as_str;
  first_name ← get "first_name" ≫= as_optional as_str;
  last_name ← get "last_name" ≫= as_optional as_str;
  Some (InvitationApi.mkInvitationAccept token password first_name last_name).
End readers.

(** The body as the record of a handler, [None] for a validation error. *)
Definition read_model `{RequestModel} {A} (fs : list Field) (conv : list (string * PyVal) → option A)
    (j : Json) : option A :=
  match load (TModel fs) j with Some (PObj a) => conv a | _ => None end.

(** ** [schemas/base.py: PageResponse] *)

(** No endpoint replies with it. *)
Definition PageResponse (t : PyType) : list Field :=
  [required "items" (TList t); required "total" TInt; required "page" TInt; required "page_size" TInt].

(** The property [pages]; [None]: [ZeroDivisionError]. *)
Definition pages (total page_size : Z) : option Z :=
  if (page_size =? 0)%Z then None else Some ((total + page_size - 1) / page_size)%Z.

(** The pages hold every item, and all but the last are full. *)
Lemma pages_spec total page_size :
  (0 < page_size)%Z → ∃ n, pages total page_size = Some n ∧ (total ≤ n * page_size < total + page_size)%Z.
Proof.
  intros Hp. unfold pages. destruct (Z.eqb_spec page_size 0) as [->|_]; [done|]. eexists. split; [done|].
  pose proof (Z.mul_div_le (total + page_size - 1) page_size Hp).
  pose proof (Z.mul_succ_div_gt (total + page_size - 1) page_size Hp). lia.
Qed.

(** ** What validation guarantees *)

Section typing.
Context `{RequestModelLaws}.

(** The values of a type; a nested model is not looked into. *)
Fixpoint has_type (t : PyType) (v : PyVal) : Prop :=
  match t with
  | TStr => ∃ s, v = PStr s
  | TMin n => ∃ s, v = PStr s ∧ (n ≤ str_len s)%nat
  | TConstr lo hi p => ∃ s, v = PStr s ∧ (lo ≤ str_len s ≤ hi)%nat ∧ forallb p (chars s) = true
  | TEnum vs => ∃ s, v = PStr s ∧ s ∈ vs
  | TEmail => ∃ s e, v = PStr e ∧ email_out s = Some e
  | TUrl k => ∃ s u, v = PStr u ∧ url_in k s = Some u
  | TUuid => ∃ u, v = PUuid u
  | TUuid4 => ∃ u, v = PUuid u ∧ uuid_version u = 4%N
  | TBool => ∃ b, v = PBool b
  | TInt => ∃ z, v = PInt z
  | TTime => ∃ t, v = PTime t
  | TOptional t => v = PNone ∨ has_type t v
  | TList t => ∃ l, v = PList l ∧ Forall (has_type t) l
  | TModel _ => ∃ a, v = PObj a
  end.

#[local] Opaque uuid_version.

Lemma load_typed t j v : load t j = Some v → has_type t v.
Proof.
  revert j v. induction t as [| | | | | | |n|k|lo hi p|vs|t IH|t IH|fs]; intros j v; simpl.
  - rewrite load_str. destruct j; try done. intros [= <-]. eauto.
  - apply load_bool_inv.
  - apply load_int_inv.
  - rewrite load_uuid. destruct j; try done. intros (u & _ & ->)%fmap_Some. eauto.
  - rewrite load_uuid4. destruct j; try done. intros (u & _ & Hu)%bind_Some.
    destruct (N.eqb_spec (uuid_version u) 4); [|done]. injection Hu as <-. eauto.
  - apply load_time_inv.
  - rewrite load_email. destruct j; try done. intros (e & He & ->)%fmap_Some. eauto.
  - rewrite load_min. destruct j; try done. destruct (Nat.leb_spec n (str_len s)); [|done].
    intros [= <-]. eauto.
  - rewrite load_url. destruct j; try done. intros (e & He & ->)%fmap_Some. eauto.
  - rewrite load_constr. destruct j; try done.
    destruct (Nat.leb_spec lo (str_len s)), (Nat.leb_spec (str_len s) hi); try done. simpl.
    destruct (forallb p (chars s)) eqn:Hp; [|done]. intros [= <-]. eauto.
  - rewrite load_enum. destruct j; try done. case_bool_decide; [|done]. intros [= <-]. eauto.
  - rewrite load_optional. destruct j; try (intros Hl; right; by eapply IH). intros [= <-]. by left.
  - rewrite load_list. destruct j; try done. intros (l' & Hl & ->)%fmap_Some. exists l'. split; [done|].
    apply mapM_Some in Hl. induction Hl; constructor; eauto.
  - rewrite load_model. destruct j; try done. intros (a & _ & ->)%fmap_Some. eauto.
Qed.

(** A field that fails makes the model fail. *)
Lemma load_fields_missing ms fs f : f ∈ fs → load_field ms f = None → load_fields ms fs = None.
Proof.
  unfold load_fields. intros Hf Hn. apply fmap_None. induction fs as [|g fs IH]; [by apply elem_of_nil in Hf|].
  simpl. apply elem_of_cons in Hf as [<-|Hf]; [by rewrite Hn|].
  destruct (load_field ms g); simpl; [|done]. by rewrite IH.
Qed.

(** The attributes a schema allows: set and of the field's type, or absent with
    a default. *)
Definition conforms (fs : list Field) (a : list (string * PyVal)) : Prop :=
  Forall (λ '(n, t, d, _), match attribute n a with Some v => has_type t v | None => is_Some d end) fs.

Lemma attribute_app {V} n (a b : list (string * V)) :
  attribute n (a ++ b) = match attribute n a with Some v => Some v | None => attribute n b end.
Proof. induction a as [|[m v] a IH]; simpl; [done|]. by destruct (String.eqb m n). Qed.

Lemma load_fields_conforms ms fs a :
  NoDup (field_name <$> fs) → load_fields ms fs = Some a →
  conforms fs a ∧ ∀ n, n ∉ (field_name <$> fs) → attribute n a = None.
Proof.
  unfold load_fields, conforms. intros Hnd (as_ & Has & ->)%fmap_Some.
  apply mapM_Some in Has. induction Has as [|[[[n t] d] x] o fs as_ Hf Has IH]; simpl; [split; [constructor|done]|].
  apply NoDup_cons in Hnd as [Hn Hnd]. destruct (IH Hnd) as [Hc Ho]. unfold field_name in Hn. simpl in Hn.
  assert (∀ m, m ≠ n → attribute m o = None) as Hother.
  { intros m Hm. simpl in Hf. destruct (attribute n ms) as [j|].
    - apply bind_Some in Hf as (v & _ & [= <-]). simpl. destruct (String.eqb_spec n m); congruence.
    - destruct d; [|done]. by injection Hf as <-. }
  split.
  - constructor.
    + rewrite attribute_app. simpl in Hf. destruct (attribute n ms) as [j|].
      * apply bind_Some in Hf as (v & Hv & [= <-]). simpl. rewrite String.eqb_refl. by eapply load_typed.
      * destruct d as [d|]; [|done]. injection Hf as <-. simpl. rewrite Ho by done. by eexists.
    + rewrite Forall_forall in Hc |- *. intros [[[m t'] d'] x'] Hin. rewrite attribute_app, Hother.
      * by apply (Hc _ Hin).
      * intros ->. apply Hn. apply list_elem_of_fmap. by exists (n, t', d', x').
  - intros m [Hm Hm']%not_elem_of_cons. rewrite attribute_app, Hother by done. by apply Ho.
Qed.

(** A reader succeeds on every model the schema lets through, and what it
    yields satisfies [Q]. *)
Definition reads {A} (fs : list Field) (conv : list (string * PyVal) → option A) (Q : A → Prop) : Prop :=
  ∀ a, conforms fs a → ∃ x, conv a = Some x ∧ Q x.

Lemma read_model_spec {A} (fs : list Field) (conv : list (string * PyVal) → option A) Q j :
  NoDup (field_name <$> fs) → reads fs conv Q →
  match read_model fs conv j with
  | Some x => Q x
  | None => load (TModel fs) j = None
  end.
Proof.
  intros Hnd Hr. unfold read_model. destruct (load (TModel fs) j) as [v|] eqn:Hl; [|done].
  rewrite load_model in Hl. destruct j; try done. apply fmap_Some in Hl as (a & Ha & ->).
  destruct (Hr a) as (x & -> & HQ); [|done]. by eapply load_fields_conforms.
Qed.

(** ** The readers are total *)

(** [f] reads every value of [t], and what it reads satisfies [P]. *)
Definition converts {A} (t : PyType) (f : PyVal → option A) (P : A → Prop) : Prop :=
  ∀ v, has_type t v → ∃ x, f v = Some x ∧ P x.

Definition find_field (n : string) (fs : list Field) : option Field :=
  head (filter (λ f, field_name f = n) fs).

Lemma find_field_elem n fs f : find_field n fs = Some f → f ∈ fs ∧ field_name f = n.
Proof. intros [Hn Hin]%head_filter_Some. done. Qed.

Lemma bind_field {A B} fs a n t d x (f : PyVal → option A) (k : A → option B) P Q :
  conforms fs a → find_field n fs = Some (n, t, d, x) → (∀ v, d = Some v → has_type t v) →
  converts t f P → (∀ y, P y → ∃ z, k y = Some z ∧ Q z) →
  ∃ z, (y ← field fs a n ≫= f; k y) = Some z ∧ Q z.
Proof.
  intros Hc Hf Hd Hconv Hk. pose proof (find_field_elem _ _ _ Hf) as [Hin _].
  unfold conforms in Hc. rewrite Forall_forall in Hc. specialize (Hc _ Hin). simpl in Hc.
  assert (∃ v, field fs a n = Some v ∧ has_type t v) as (v & Hv & Ht).
  { unfold field. destruct (attribute n a) as [v|]; [by exists v|]. destruct Hc as [v ->].
    exists v. split; [|by apply Hd]. change (find_field n fs ≫= (λ f0, f0.1.2) = Some v). by rewrite Hf. }
  destruct (Hconv v Ht) as (y & Hy & HP). rewrite Hv. simpl. rewrite Hy. simpl. by apply Hk.
Qed.

Lemma last_field {A} fs a n t d x (f : PyVal → option A) Q :
  conforms fs a → find_field n fs = Some (n, t, d, x) → (∀ v, d = Some v → has_type t v) →
  converts t f Q → ∃ z, field fs a n ≫= f = Some z ∧ Q z.
Proof.
  intros Hc Hf Hd Hconv.
  destruct (bind_field fs a n t d x f Some Q Q Hc Hf Hd Hconv) as (z & Hz & HQ); [by eauto|].
  exists z. split; [|done]. destruct (field fs a n ≫= f); done.
Qed.

Lemma bind_set_field {A B} fs a n t d x (f : PyVal → option A)
    (k : option (option A) → option B) (P : A → Prop) Q :
  conforms fs a → find_field n fs = Some (n, TOptional t, d, x) → converts t f P →
  (∀ y, (∀ z, y = Some (Some z) → P z) → ∃ z, k y = Some z ∧ Q z) →
  ∃ z, (y ← set_field f a n; k y) = Some z ∧ Q z.
Proof.
  intros Hc Hf Hconv Hk. pose proof (find_field_elem _ _ _ Hf) as [Hin _].
  unfold conforms in Hc. rewrite Forall_forall in Hc. specialize (Hc _ Hin). simpl in Hc.
  unfold set_field. destruct (attribute n a) as [v|]; [|by apply Hk].
  destruct Hc as [->|Ht]; [by apply Hk|]. destruct (Hconv v Ht) as (y & Hy & HP). unfold as_optional.
  destruct v; simpl; rewrite ?Hy; simpl; apply Hk; try done; by intros ? [= <-].
Qed.

Lemma converts_optional {A} t (f : PyVal → option A) P :
  converts t f P → converts (TOptional t) (as_optional f) (λ o, ∀ y, o = Some y → P y).
Proof.
  intros Hc v [->|Ht]; [by exists None|]. destruct (Hc v Ht) as (y & Hy & HP).
  unfold as_optional. destruct v; rewrite ?Hy; simpl; eexists; (split; [done|]); try done;
    by intros ? [= <-].
Qed.
Lemma converts_str : converts TStr as_str (λ _, True).
Proof. intros v [s ->]. by exists s. Qed.
Lemma converts_min n : converts (TMin n) as_str (λ s, (n ≤ str_len s)%nat).
Proof. intros v (s & -> & Hs). by exists s. Qed.
Lemma converts_constr lo hi p :
  converts (TConstr lo hi p) as_str (λ s, (lo ≤ str_len s ≤ hi)%nat ∧ forallb p (chars s) = true).
Proof. intros v (s & -> & Hs). by exists s. Qed.
Lemma converts_email : converts TEmail as_str (λ e, ∃ s, email_out s = Some e).
Proof. intros v (s & e & -> & Hs). exists e. split; [done|]. by exists s. Qed.
Lemma converts_bool : converts TBool as_bool (λ _, True).
Proof. intros v [b ->]. by exists b. Qed.
Lemma converts_int : converts TInt as_int (λ _, True).
Proof. intros v [z ->]. by exists z. Qed.
Lemma converts_time : converts TTime as_time (λ _, True).
Proof. intros v [z ->]. by exists z. Qed.
Lemma converts_uuid : converts TUuid as_uuid (λ _, True).
Proof. intros v [u ->]. by exists u. Qed.
Lemma converts_uuid4 : converts TUuid4 as_uuid (λ u, uuid_version u = 4%N).
Proof. intros v (u & -> & Hu). by exists u. Qed.
Lemma converts_scope : converts (TEnum ["GLOBAL"; "TENANT"]) as_scope (λ _, True).
Proof.
  intros v (s & -> & [->|[->|Hs%elem_of_nil]%elem_of_cons]%elem_of_cons); [by exists GLOBAL|by exists TENANT|done].
Qed.
Lemma converts_uuids : converts (TList TUuid) as_uuids (λ _, True).
Proof.
  intros v (l & -> & Hl). simpl. induction Hl as [|v l [u ->] _ (us & Hus & _)]; [by exists []|].
  exists (u :: us). simpl. by rewrite Hus.
Qed.
End typing.

Create HintDb readers.
#[export] Hint Resolve converts_optional converts_str converts_min converts_constr converts_email
  converts_bool converts_int converts_time converts_uuid converts_uuid4 converts_scope converts_uuids : readers.
#[export] Hint Constructors Forall : readers.

(** A default is of the type of its field. *)
Ltac solve_default :=
  intros ? Hd; simplify_eq; simpl; first [by left|right|idtac]; eauto;
  eexists; (split; [done|]); repeat constructor.

(** Walks through a reader, field by field. *)
Ltac solve_reads :=
  let a := fresh "a" in let Hc := fresh "Hc" in intros a Hc;
  repeat first
    [ eapply bind_field; [exact Hc|reflexivity|solve_default|eauto with readers|cbv beta; intros]
    | eapply bind_set_field; [exact Hc|reflexivity|eauto with readers|cbv beta; intros]
    | eapply last_field; [exact Hc|reflexivity|solve_default|eauto with readers] ];
  try (eexists; split; [reflexivity|]); simpl; try done.

(** ** The constraints a handler can count on *)

Section constraints.
Context `{RequestModelLaws}.

Lemma reads_tenant_create :
  reads TenantCreateSchema tenant_create (λ t, valid_slug (TenantService.tc_slug t) = true).
Proof.
  unfold tenant_create. solve_reads. unfold valid_slug. rewrite !andb_true_iff, !Nat.leb_le. naive_solver.
Qed.
Lemma reads_tenant_update : reads TenantUpdateSchema tenant_update (λ _, True).
Proof. unfold tenant_update. solve_reads. Qed.
Lemma reads_user_update : reads UserUpdateSchema user_update (λ u,
  (∀ p, uu_password u = Some (Some p) → (8 ≤ str_len p)%nat) ∧
  (∀ e, uu_email u = Some (Some e) → ∃ s, email_out s = Some e)).
Proof. unfold user_update. solve_reads. Qed.
Lemma reads_user_status_update : reads UserStatusUpdateSchema user_status_update (λ _, True).
Proof. unfold user_status_update. solve_reads. Qed.
Lemma reads_role_create : reads RoleCreateSchema role_create (λ _, True).
Proof. unfold role_create. solve_reads. Qed.
Lemma reads_role_update : reads RoleUpdateSchema role_update (λ _, True).
Proof. unfold role_update. solve_reads. Qed.
Lemma reads_role_assign : reads RoleAssignSchema role_assign (λ _, True).
Proof. unfold role_assign. solve_reads. Qed.
Lemma reads_role_users : reads RoleUserAssignmentInput role_users (λ _, True).
Proof. unfold role_users. solve_reads. Qed.
Lemma reads_api_key_create : reads APIKeyCreateSchema api_key_create (λ k,
  ∀ tid, ak_tenant_id k = Some tid → uuid_version tid = 4%N).
Proof. unfold api_key_create. solve_reads. Qed.
Lemma reads_api_key_update : reads APIKeyUpdateSchema api_key_update (λ _, True).
Proof. unfold api_key_update. solve_reads. Qed.
Lemma reads_invitation_create : reads InvitationCreateSchema invitation_create (λ i,
  (∃ s, email_out s = Some (InvitationApi.ic_email i)) ∧ uuid_version (InvitationApi.ic_tenant_id i) = 4%N ∧
  ∀ rid, InvitationApi.ic_role_id i = Some rid → uuid_version rid = 4%N).
Proof. unfold invitation_create. solve_reads. Qed.
Lemma reads_invitation_verify : reads InvitationVerifySchema invitation_verify (λ _, True).
Proof. unfold invitation_verify. solve_reads. Qed.
Lemma reads_invitation_accept : reads InvitationAcceptSchema invitation_accept (λ p,
  (8 ≤ str_len (InvitationApi.ia_password p))%nat).
Proof. unfold invitation_accept. solve_reads. Qed.

(** Every request schema with its reader. *)
Inductive RequestSchema : ∀ A : Type, list Field → (list (string * PyVal) → option A) → Prop :=
  | rs_tenant_create : RequestSchema _ TenantCreateSchema tenant_create
  | rs_tenant_update : RequestSchema _ TenantUpdateSchema tenant_update
  | rs_user_update : RequestSchema _ UserUpdateSchema user_update
  | rs_user_status_update : RequestSchema _ UserStatusUpdateSchema user_status_update
  | rs_role_create : RequestSchema _ RoleCreateSchema role_create
  | rs_role_update : RequestSchema _ RoleUpdateSchema role_update
  | rs_role_assign : RequestSchema _ RoleAssignSchema role_assign
  | rs_role_users : RequestSchema _ RoleUserAssignmentInput role_users
  | rs_api_key_create : RequestSchema _ APIKeyCreateSchema api_key_create
  | rs_api_key_update : RequestSchema _ APIKeyUpdateSchema api_key_update
  | rs_invitation_create : RequestSchema _ InvitationCreateSchema invitation_create
  | rs_invitation_verify : RequestSchema _ InvitationVerifySchema invitation_verify
  | rs_invitation_accept : RequestSchema _ InvitationAcceptSchema invitation_accept.

(** Field names of a schema are distinct. *)
Lemma schema_names A fs conv : RequestSchema A fs conv → NoDup (field_name <$> fs).
Proof. destruct 1; apply (bool_decide_unpack _); vm_compute; exact I. Qed.

Lemma schema_reads A fs conv : RequestSchema A fs conv → ∃ Q, reads fs conv Q.
Proof.
  destruct 1; eexists;
    first [apply reads_tenant_create|apply reads_tenant_update|apply reads_user_update
      |apply reads_user_status_update|apply reads_role_create|apply reads_role_update
      |apply reads_role_assign|apply reads_role_users|apply reads_api_key_create
      |apply reads_api_key_update|apply reads_invitation_create|apply reads_invitation_verify
      |apply reads_invitation_accept].
Qed.
End constraints.

(** ** What validation accepts *)

(** The conditions on the members of a body. *)
Section accepted.
Context `{RequestModelLaws}.
Implicit Types (P : Json → Prop) (ms : list (string * Json)).

Definition given (n : string) P ms : Prop := ∃ j, attribute n ms = Some j ∧ P j.
Definition may (n : string) P ms : Prop := ∀ j, attribute n ms = Some j → P j.

Definition nullable P (j : Json) : Prop := j = JNull ∨ P j.
Definition text (Q : string → Prop) (j : Json) : Prop := ∃ s, j = JStr s ∧ Q s.
Definition list_of P (j : Json) : Prop := ∃ l, j = JList l ∧ Forall P l.

Definition any_text : Json → Prop := text (λ _, True).
Definition address : Json → Prop := text (λ s, is_Some (email_out s)).
Definition uuid : Json → Prop := text (λ s, is_Some (uuid_in s)).
Definition uuid4 : Json → Prop := text (λ s, ∃ u, uuid_in s = Some u ∧ uuid_version u = 4%N).
(** Pydantic's lax mode decides what else than the JSON type it takes. *)
Definition boolean (j : Json) : Prop := is_Some (load TBool j).
Definition integer (j : Json) : Prop := is_Some (load TInt j).
Definition time (j : Json) : Prop := is_Some (load TTime j).

Lemma accepts_str j : is_Some (load TStr j) ↔ any_text j.
Proof.
  rewrite load_str. unfold any_text, text. split; [|by intros (s & -> & _)].
  destruct j; intros [v Hv]; try done. by eexists.
Qed.
Lemma accepts_min n j : is_Some (load (TMin n) j) ↔ text (λ s, n ≤ str_len s)%nat j.
Proof.
  rewrite load_min. unfold text. split.
  - destruct j; intros [v Hv]; try done. eexists. split; [done|]. by destruct (Nat.leb_spec n (str_len s)).
  - intros (s & -> & Hs%Nat.leb_le). by rewrite Hs.
Qed.
Lemma accepts_slug j : is_Some (load (TConstr 3 50 slug_char) j) ↔ text (λ s, valid_slug s = true) j.
Proof.
  rewrite load_constr. unfold text, valid_slug. split.
  - destruct j; intros [v Hv]; try done. eexists. split; [done|]. by case_match.
  - intros (s & -> & Hs). by rewrite Hs.
Qed.
Lemma accepts_enum vs j : is_Some (load (TEnum vs) j) ↔ text (λ s, s ∈ vs) j.
Proof.
  rewrite load_enum. unfold text. split.
  - destruct j; intros [v Hv]; try done. eexists. split; [done|]. by case_bool_decide.
  - intros (s & -> & Hs). by rewrite bool_decide_eq_true_2.
Qed.
Lemma accepts_email j : is_Some (load TEmail j) ↔ address j.
Proof.
  rewrite load_email. unfold address, text. split.
  - destruct j; intros [v Hv]; try done. eexists. split; [done|]. by destruct (email_out s).
  - intros (s & -> & [e ->]). by eexists.
Qed.
Lemma accepts_uuid j : is_Some (load TUuid j) ↔ uuid j.
Proof.
  rewrite load_uuid. unfold uuid, text. split.
  - destruct j; intros [v Hv]; try done. eexists. split; [done|]. by destruct (uuid_in s).
  - intros (s & -> & [e ->]). by eexists.
Qed.
Lemma accepts_uuid4 j : is_Some (load TUuid4 j) ↔ uuid4 j.
Proof.
  rewrite load_uuid4. unfold uuid4, text. split.
  - destruct j; intros [v Hv]; try done. eexists. split; [done|].
    apply bind_Some in Hv as (u & Hu & Hv). exists u. split; [done|].
    by destruct (N.eqb_spec (uuid_version u) 4).
  - intros (s & -> & u & -> & Hu). cbn [mbind option_bind]. rewrite Hu. by eexists.
Qed.
Lemma accepts_optional t P j :
  (∀ j, is_Some (load t j) ↔ P j) → is_Some (load (TOptional t) j) ↔ nullable P j.
Proof.
  intros HP. rewrite load_optional. unfold nullable. rewrite <-HP.
  destruct j; try (split; [by right|by intros [?|?]]). split; [by left|by eexists].
Qed.
Lemma accepts_list t P j :
  (∀ j, is_Some (load t j) ↔ P j) → is_Some (load (TList t) j) ↔ list_of P j.
Proof.
  intros HP. rewrite load_list. unfold list_of. split.
  - destruct j; try by intros []. rewrite fmap_is_Some, mapM_is_Some. intros Hl. eexists. split; [done|].
    eapply Forall_impl; [exact Hl|]. intros x. apply HP.
  - intros (l & -> & Hl). rewrite fmap_is_Some, mapM_is_Some. eapply Forall_impl; [exact Hl|]. intros x. apply HP.
Qed.

Definition accepted_field ms (f : Field) : Prop :=
  let '(n, t, d, _) := f in
  match attribute n ms with Some j => is_Some (load t j) | None => is_Some d end.

Lemma accepts_model fs j :
  is_Some (load (TModel fs) j) ↔ ∃ ms, j = JObject ms ∧ Forall (accepted_field ms) fs.
Proof.
  assert (∀ ms f, is_Some (load_field ms f) ↔ accepted_field ms f) as Hf.
  { intros ms [[[n t] d] x]. simpl. destruct (attribute n ms) as [j'|].
    - split; [intros [a (v & Hv & _)%bind_Some]; by exists v|intros [v ->]; by eexists].
    - destruct d; split; intros [? [=]]; by eexists. }
  rewrite load_model. split.
  - destruct j; try by intros []. unfold load_fields. rewrite !fmap_is_Some, mapM_is_Some. intros Hl.
    eexists. split; [done|]. eapply Forall_impl; [exact Hl|]. intros f. apply Hf.
  - intros (ms & -> & Hl). unfold load_fields. rewrite !fmap_is_Some, mapM_is_Some.
    eapply Forall_impl; [exact Hl|]. intros f. apply Hf.
Qed.

Lemma accepts_required n t P ms :
  (∀ j, is_Some (load t j) ↔ P j) → accepted_field ms (n, t, None, false) ↔ given n P ms.
Proof.
  intros HP. simpl. unfold given. destruct (attribute n ms) as [j|].
  - rewrite HP. split; [by exists j|]. by intros (j' & [= <-] & ?).
  - split; [by intros []|]. by intros (j' & ? & _).
Qed.
Lemma accepts_default n t d P ms :
  (∀ j, is_Some (load t j) ↔ P j) → accepted_field ms (n, t, Some d, false) ↔ may n P ms.
Proof.
  intros HP. simpl. unfold may. destruct (attribute n ms) as [j|].
  - rewrite HP. split; [by intros ? ? [= <-]|]. intros Hj. by apply Hj.
  - split; [done|]. intros _. by eexists.
Qed.
End accepted.

Create HintDb accepts.
#[export] Hint Resolve accepts_str accepts_min accepts_slug accepts_enum accepts_email accepts_uuid
  accepts_uuid4 accepts_optional accepts_list : accepts.
#[export] Hint Extern 0 (is_Some _ ↔ boolean _) => reflexivity : accepts.
#[export] Hint Extern 0 (is_Some _ ↔ integer _) => reflexivity : accepts.
#[export] Hint Extern 0 (is_Some _ ↔ time _) => reflexivity : accepts.

(** Field by field, from the schema to the conditions. *)
Ltac solve_accepts :=
  rewrite accepts_model; apply exist_proper; intros ms; apply and_iff_compat_l;
  match goal with |- Forall _ ?fs ↔ _ => let fs' := eval vm_compute in fs in change fs with fs' end;
  repeat first
    [ rewrite Forall_singleton | rewrite Forall_cons; f_equiv
    | apply accepts_required; intros; eauto with accepts
    | apply accepts_default; intros; eauto with accepts ].

Section schema_properties.
Context `{RequestModelLaws}.

(** C27. Which bodies the endpoints take.  For each of the thirteen request models,
    validation accepts exactly the JSON objects that have the required members,
    and whose members of the declared names are of the declared kind: slugs of 3
    to 50 lower-case letters, digits and hyphens, addresses pydantic takes,
    passwords of at least eight characters, UUIDs - of version 4 for tenants and
    roles of an invitation and the tenant of a key - and scopes GLOBAL or TENANT.
    An update may leave out or null every member; other members are ignored. *)
Theorem request_models_accept j :
  let accepts fs (Q : list (string * Json) → Prop) :=
    is_Some (load (TModel fs) j) ↔ ∃ ms, j = JObject ms ∧ Q ms in
  accepts TenantCreateSchema (λ ms, given "name" any_text ms ∧ given "slug" (text (λ s, valid_slug s = true)) ms ∧
    may "description" (nullable any_text) ms ∧ may "is_active" (nullable boolean) ms) ∧
  accepts TenantUpdateSchema (λ ms, may "name" (nullable any_text) ms ∧
    may "description" (nullable any_text) ms ∧ may "is_active" (nullable boolean) ms) ∧
  accepts UserUpdateSchema (λ ms, may "email" (nullable address) ms ∧
    may "first_name" (nullable any_text) ms ∧ may "last_name" (nullable any_text) ms ∧
    may "is_active" (nullable boolean) ms ∧ may "password" (nullable (text (λ s, 8 ≤ str_len s)%nat)) ms) ∧
  accepts UserStatusUpdateSchema (given "is_active" boolean) ∧
  accepts RoleCreateSchema (λ ms, given "name" any_text ms ∧ may "description" (nullable any_text) ms ∧
    may "permission_ids" (nullable (list_of uuid)) ms) ∧
  accepts RoleUpdateSchema (λ ms, may "name" (nullable any_text) ms ∧
    may "description" (nullable any_text) ms ∧ may "permission_ids" (nullable (list_of uuid)) ms) ∧
  accepts RoleAssignSchema (given "role_id" uuid) ∧
  accepts RoleUserAssignmentInput (given "user_ids" (list_of uuid)) ∧
  accepts APIKeyCreateSchema (λ ms, given "name" any_text ms ∧ may "description" (nullable any_text) ms ∧
    may "is_active" boolean ms ∧ may "expires_at" (nullable time) ms ∧
    may "scope" (text (λ s, s ∈ ["GLOBAL"; "TENANT"])) ms ∧ may "tenant_id" (nullable uuid4) ms) ∧
  accepts APIKeyUpdateSchema (λ ms, may "name" (nullable any_text) ms ∧
    may "description" (nullable any_text) ms ∧ may "is_active" (nullable boolean) ms ∧
    may "expires_at" (nullable time) ms) ∧
  accepts InvitationCreateSchema (λ ms, given "email" address ms ∧ given "tenant_id" uuid4 ms ∧
    may "role_id" (nullable uuid4) ms ∧ may "expires_in_days" (nullable integer) ms) ∧
  accepts InvitationVerifySchema (given "token" any_text) ∧
  accepts InvitationAcceptSchema (λ ms, given "token" any_text ms ∧
    given "password" (text (λ s, 8 ≤ str_len s)%nat) ms ∧
    may "first_name" (nullable any_text) ms ∧ may "last_name" (nullable any_text) ms).
Proof.
  intros accepts. unfold accepts. split_and!; solve_accepts.
Qed.
End schema_properties.

(** ** A validator *)

Fixpoint decimal (acc : Z) (l : list Ascii.ascii) : option Z :=
  match l with
  | [] => Some acc
  | c :: l' =>
      let d := (Z.of_N (Ascii.N_of_ascii c) - 48)%Z in
      if ((0 <=? d) && (d <=? 9))%Z then decimal (10 * acc + d) l' else None
  end.

Definition plain_int (s : string) : option Z :=
  match chars s with
  | [] => None
  | "-"%char :: l => match l with [] => None | _ => Z.opp <$> decimal 0 l end
  | l => decimal 0 l
  end.

Fixpoint plain_load (t : PyType) (j : Json) {struct t} : option PyVal :=
  match t, j with
  | TStr, JStr s => Some (PStr s)
  | TMin n, JStr s => if (n <=? str_len s)%nat then Some (PStr s) else None
  | TConstr lo hi p, JStr s =>
      if ((lo <=? str_len s) && (str_len s <=? hi))%nat && forallb p (chars s) then Some (PStr s) else None
  | TEnum vs, JStr s => if bool_decide (s ∈ vs) then Some (PStr s) else None
  | TEmail, JStr s => if email_valid (Pydantic := toy_pydantic) s then Some (PStr s) else None
  | TUrl k, JStr s => if str_contains "://" s then Some (PStr s) else None
  | TUuid, JStr s => PUuid <$> uuid_parse s
  | TUuid4, JStr s => u ← uuid_parse s; if N.eqb (uuid_version u) 4 then Some (PUuid u) else None
  | TBool, JBool b => Some (PBool b)
  | TInt, JInt z => Some (PInt z)
  | TTime, JInt z => Some (PTime (Aware z 0))
  | TOptional t, JNull => Some PNone
  | TOptional t, j => plain_load t j
  | TList t, JList l => PList <$> mapM (plain_load t) l
  | TModel fs, JObject ms => PObj <$> (mjoin <$> mapM (λ '(n, t, d, x),
      match attribute n ms with
      | Some j => v ← plain_load t j; Some [(n, v)]
      | None => match d with Some _ => Some [] | None => None end
      end) fs)
  | _, _ => None
  end.

#[global] Instance plain_request_model : RequestModel := {|
  load := plain_load;
  uuid_in := uuid_parse;
  int_in := plain_int;
  url_in _ s := if str_contains "://" s then Some s else None;
  password_form l :=
    match attribute "username" l, attribute "password" l with
    | Some u, Some p => if str_truthy u && str_truthy p then Some (u, p) else None
    | _, _ => None
    end
|}.

#[global] Instance plain_request_model_laws : RequestModelLaws.
Proof.
  split; try reflexivity.
  - intros j. simpl. destruct j; try done. by case_match.
  - intros k j. simpl. destruct j; try done. by case_match.
  - intros j v. destruct j; try done. intros [= <-]. eauto.
  - intros j v. destruct j; try done. intros [= <-]. eauto.
  - intros j v. destruct j; try done. intros [= <-]. eauto.
  - intros u Hu. by apply uuid_parse_str.
  - intros u p Hu Hp. simpl. unfold str_truthy.
    by rewrite (proj2 (String.eqb_neq _ _) Hu), (proj2 (String.eqb_neq _ _) Hp).
Qed.

(** An update keeps what is set. *)
Example read_model_ex :
  read_model TenantCreateSchema tenant_create (JObject [("name", JStr "Acme"); ("slug", JStr "acme")]) =
    Some (TenantService.mkTenantCreate "Acme" "acme" None (Some true)) ∧
  read_model TenantCreateSchema tenant_create (JObject [("name", JStr "Acme"); ("slug", JStr "a!")]) = None ∧
  read_model UserUpdateSchema user_update (JObject [("first_name", JNull)]) =
    Some (mkUserUpdate None (Some None) None None None).
Proof. vm_compute. auto. Qed.

(** A body for [POST /invitations/accept]. *)
Definition accept_body (password : string) : Json :=
  JObject [("token", JStr "tok-pending"); ("password", JStr password); ("note", JInt 1)].

Lemma request_models_witness :
  is_Some (load (TModel InvitationAcceptSchema) (accept_body "longenough")) ∧
  ¬ is_Some (load (TModel InvitationAcceptSchema) (accept_body "shorter")).
Proof.
  split.
  - apply (request_models_accept (accept_body "longenough")). eexists. split; [reflexivity|].
    split; [eexists; split; [reflexivity|]; eexists; split; [reflexivity|exact I]|].
    split; [eexists; split; [reflexivity|]; eexists; split; [reflexivity|vm_compute; lia]|].
    split; intros j [=].
  - intros Hs. apply (request_models_accept (accept_body "shorter")) in Hs.
    destruct Hs as (ms & [= <-] & _ & (j & [= <-] & s & [= <-] & Hlen) & _). vm_compute in Hlen. lia.
Defined.
