(* ===== verification/App.v ===== *)
(** * [main.py], [api/middleware.py] and [db/init_db.py]

    What surrounds the endpoints: the middleware that reads [X-Tenant-ID], the
    start-up of the application with its data seeding, the health checks. *)

From stdpp Require Import base tactics list gmap strings relations.
From Stdlib Require Import ZArith Lia Ascii.
From S2P Require Import Prelude PyStd Effects Models Session Snapshot Crud Stability.
From S2P Require Import Security Deps TenantApi Api Rbac.
From S2P Require InvitationApi TenantService RoleService.
Import InvitationApi(Pydantic, toy_pydantic).
Import TenantService(slug_char, valid_slug).

(** ** [api/middleware.py: TenantContextMiddleware] *)

Inductive Reply (A : Type) :=
  | JSONResponse (status_code : Z) (detail : string)
  | Response (a : A).
Arguments JSONResponse {A}.
Arguments Response {A}.

(** [dispatch], given the [X-Tenant-ID] header and the rest of the application
    as a function of [request.state.tenant_id]. *)
Definition dispatch {W A} (tenant_id_str : option string) (call_next : option Uuid → M W A)
    : M W (Reply A) :=
  match non_empty tenant_id_str with
  | Some s =>
      match uuid_parse s with
      | Some tenant_id => Response <$> call_next (Some tenant_id)
      | None => mret (JSONResponse 400 "Invalid tenant ID format. Must be a valid UUID.")
      end
  | None => Response <$> call_next None
  end.

(** ** [db/init_db.py] *)

(** The separators of [re.sub(r'[\s_]+', '-', ...)]. *)
Definition is_sep (c : ascii) : bool := is_space c || Ascii.eqb c "_".

(** Each run of separators becomes one hyphen; [prev]: inside a run. *)
Fixpoint hyphenate (prev : bool) (l : list ascii) : list ascii :=
  match l with
  | [] => []
  | c :: l' =>
      if is_sep c then (if prev then hyphenate true l' else "-"%char :: hyphenate true l')
      else c :: hyphenate false l'
  end.

Definition slugify (value : string) : string :=
  of_chars (ascii_lower <$> hyphenate false (strip is_space (chars value))).

(** A running process: the module global [_HAS_SEEDED] and the world. *)
Record Process (S : Type) := mkProcess {
  has_seeded : bool;
  process_world : World S
}.
Arguments mkProcess {S}. Arguments has_seeded {S}. Arguments process_world {S}.

Section app.
Context {S : Type} `{Session S} `{Inputs}.

(** A computation of the database session inside the process. *)
Definition in_session {A} (m : M (World S) A) : M (Process S) A := λ p,
  let '(r, w) := m (process_world p) in (r, mkProcess (has_seeded p) w).

(** The database actions of [seed_initial_data] are commented out: it returns
    an empty dictionary and sets the flag. *)
Definition seed_initial_data : M (Process S) (gmap string Uuid) := λ p,
  if has_seeded p then (Ret ∅, p)
  else (Ret ∅, mkProcess true (process_world p)).

Definition init_db : M (Process S) unit := mret tt.

(** [lifespan] up to its [yield]: a session of its own; nothing is pending when
    it flushes; an exception is logged and rolled back. *)
Definition lifespan : M (Process S) unit := λ p,
  let '(r, p') :=
    try_catch (seed_initial_data ;; in_session commit)
              (λ e, in_session rollback)
              (mkProcess (has_seeded p) (reopen (process_world p))) in
  (r, mkProcess (has_seeded p') (reopen (process_world p'))).

(** ** [main.py]: the health checks *)

Record Health := mkHealth { h_status : string; h_version : string; h_name : option string }.

Definition root (PROJECT_NAME VERSION : string) : M (Process S) Health :=
  mret (mkHealth "healthy" VERSION (Some PROJECT_NAME)).

Definition health_check (VERSION : string) : M (Process S) Health :=
  mret (mkHealth "healthy" VERSION None).

(** A process starts with the flag unset; [n] start-ups in one process. *)
Definition boots (n : nat) (w : World S) : World S :=
  process_world (Nat.iter n (λ p, (lifespan p).2) (mkProcess false w)).
End app.

(** ** Properties *)

Section app_properties.
Context {S : Type} `{SessionLaws S} `{InputsLaws} `{Passlib} `{JoseLaws} `{Pydantic} `{Fastapi}.
Implicit Types w : World S.

(** What [get_current_active_tenant] can answer for a header. *)
Lemma active_tenant_result u hdr w :
  usable w = true → db_ok (view w) →
  ((∀ s, non_empty hdr = Some s → uuid_parse s ≠ None) →
     (get_current_active_tenant u hdr w).1
       ≠ Raise (HTTPException 400 "Invalid Tenant ID format in X-Tenant-ID header.")) ∧
  ∀ x, (get_current_active_tenant u hdr w).1 = Ret x → non_empty hdr ≫= uuid_parse = Some (t_id x).
Proof.
  intros Hu Hok.
  set (mem := λ tid, negb (bool_decide (filter (λ '(uid, _, tn), uid = u_id u ∧ tn = tid)
                             (utr_rows (S := S) (view w)) = []))).
  pose proof (get_current_active_tenant_post u hdr mem w Hu Hok) as Hpost. unfold post in Hpost.
  destruct (get_current_active_tenant u hdr w) as [r w2]. simpl.
  destruct Hpost as [_ ->].
  { intros tid. unfold mem. rewrite negb_true_iff, bool_decide_eq_false. apply member_rows_iff. }
  destruct (non_empty hdr) as [s|]; [|done]. simpl. destruct (uuid_parse s) as [tid|] eqn:Hp;
    [|split; [intros Hno; by destruct (Hno s eq_refl Hp)|done]].
  destruct (tenants (view w) !! tid) as [x|] eqn:Hx; [|done].
  pose proof (model_ids (ok_tenants _ Hok) _ _ Hx) as Hid. simpl in Hid. subst tid.
  destruct (u_is_superuser u); [split; [done|by intros ? [= <-]]|].
  unfold verdict. destruct sess_bare_exists as [b|]; [|done].
  destruct (mem (t_id x) && b); split; try done; by intros ? [= <-].
Qed.

(** ** Slugs *)

Lemma hyphenate_clean b l c : c ∈ hyphenate b l → is_sep c = false.
Proof.
  revert b. induction l as [|d l IH]; intros b; simpl; [set_solver|].
  destruct (is_sep d) eqn:Hd; [destruct b; [apply IH|]|];
    (intros [->|Hc]%elem_of_cons; [done|by eapply IH]).
Qed.

Lemma hyphenate_id b l : (∀ c, c ∈ l → is_sep c = false) → hyphenate b l = l.
Proof.
  revert b. induction l as [|d l IH]; intros b Hl; simpl; [done|].
  rewrite Hl by (by left). f_equal. apply IH. intros c Hc. apply Hl. by right.
Qed.

Lemma hyphenate_slug b l :
  (∀ c, c ∈ hyphenate b l → slug_char (ascii_lower c) = true) ↔
  ∀ c, c ∈ l → is_sep c = true ∨ slug_char (ascii_lower c) = true.
Proof.
  revert b. induction l as [|d l IH]; intros b; simpl; [set_solver|].
  setoid_rewrite elem_of_cons. destruct (is_sep d) eqn:Hd; [destruct b|].
  - rewrite IH. naive_solver.
  - setoid_rewrite elem_of_cons. split.
    + intros Hall c [->|Hc]; [by left|]. apply (proj1 (IH true)); [|done]. eauto.
    + intros Hall c [->|Hc]; [done|]. eapply (proj2 (IH true)); [|done]. eauto.
  - setoid_rewrite elem_of_cons. split.
    + intros Hall c [->|Hc]; [right; eauto|]. apply (proj1 (IH false)); [|done]. eauto.
    + intros Hall c [->|Hc]; [destruct (Hall d); [by left|congruence|done]|].
      eapply (proj2 (IH false)); [|done]. eauto.
Qed.

Lemma all_chars (P : ascii → bool) :
  forallb P (ascii_of_nat <$> seq 0 256) = true → ∀ c, P c = true.
Proof.
  rewrite forallb_forall. intros Hall c. apply Hall. apply list_elem_of_In, list_elem_of_fmap.
  exists (nat_of_ascii c). split; [by rewrite ascii_nat_embedding|].
  apply elem_of_seq. pose proof (nat_ascii_bounded c). lia.
Qed.

Lemma lower_not_sep c : is_sep c = false → is_sep (ascii_lower c) = false.
Proof.
  intros Hc. pose proof (all_chars (λ c, implb (negb (is_sep c)) (negb (is_sep (ascii_lower c))))
    ltac:(vm_compute; reflexivity) c) as Ht. simpl in Ht. rewrite Hc in Ht. simpl in Ht.
  by apply negb_true_iff.
Qed.

Lemma lower_idemp c : ascii_lower (ascii_lower c) = ascii_lower c.
Proof.
  apply Ascii.eqb_eq.
  exact (all_chars (λ c, Ascii.eqb (ascii_lower (ascii_lower c)) (ascii_lower c))
    ltac:(vm_compute; reflexivity) c).
Qed.

Lemma strip_clean l : (∀ c, c ∈ l → is_sep c = false) → strip is_space l = l.
Proof.
  intros Hl. apply strip_id, Forall_forall. intros c Hc. specialize (Hl c Hc).
  unfold is_sep in Hl. by apply orb_false_iff in Hl as [? _].
Qed.

(** ** Start-up *)

Lemma lifespan_run (p : Process S) : ∃ w, lifespan p = (Ret tt, mkProcess true w) ∧
  durable w = durable (process_world p).
Proof.
  unfold lifespan, try_catch, seed_initial_data, in_session, mbind, M_bind. simpl.
  assert (∀ w, usable w = true → commit w = (Ret tt, on_db sess_commit w)) as Hc by apply commit_run.
  destruct (has_seeded p); simpl; rewrite Hc by apply usable_reopen; simpl;
    (eexists; split; [done|]; by autorewrite with world).
Qed.

(** The middleware and the tenant dependency agree.  A non-empty header that is
    no UUID gets 400 before anything else runs, and nothing changes.  Any other
    request reaches the application, where [get_current_active_tenant] can no
    longer find the header malformed - its own 400 for that is dead code - and
    where the tenant it returns is the one the middleware put in the state. *)
Theorem middleware_guards_header {A} hdr (call_next : option Uuid → M (World S) A) w :
  (∃ s, hdr = Some s ∧ s ≠ "" ∧ uuid_parse s = None ∧
     dispatch hdr call_next w =
       (Ret (JSONResponse 400 "Invalid tenant ID format. Must be a valid UUID."), w)) ∨
  (∃ state, dispatch hdr call_next w = (Response <$> call_next state) w ∧
     (∀ s, hdr = Some s → s ≠ "" → uuid_parse s = state) ∧
     ∀ u w1, usable w1 = true → db_ok (view w1) →
       (get_current_active_tenant u hdr w1).1
         ≠ Raise (HTTPException 400 "Invalid Tenant ID format in X-Tenant-ID header.") ∧
       ∀ x, (get_current_active_tenant u hdr w1).1 = Ret x → state = Some (t_id x)).
Proof.
  unfold dispatch. destruct (non_empty hdr) as [s|] eqn:Hs.
  - assert (hdr = Some s ∧ s ≠ "") as [-> Hne].
    { unfold non_empty in Hs. destruct hdr as [s'|]; [|done].
      destruct (str_truthy s') eqn:Ht; [|done]. injection Hs as ->. split; [done|].
      intros ->. discriminate Ht. }
    destruct (uuid_parse s) as [tid|] eqn:Hp; [|left; by exists s].
    right. exists (Some tid). split; [done|]. split; [by intros ? [= <-] _|].
    intros u w1 Hu Hok. destruct (active_tenant_result u (Some s) w1 Hu Hok) as [Hno Hx].
    rewrite Hs in Hno, Hx. simpl in Hno, Hx. split.
    + apply Hno. intros ? [= <-]. by rewrite Hp.
    + intros x Hr. rewrite <-Hp. by apply Hx.
  - right. exists None. split; [done|]. split.
    { intros s -> Hne. unfold non_empty, str_truthy in Hs. apply String.eqb_neq in Hne.
      by rewrite Hne in Hs. }
    intros u w1 Hu Hok. destruct (active_tenant_result u hdr w1 Hu Hok) as [Hno Hx].
    rewrite Hs in Hno, Hx. split; [by apply Hno|exact Hx].
Qed.

(** [slugify] is a normal form of what it keeps: applying it twice changes
    nothing more, no white space, underscore or upper-case letter of ASCII is
    left, and the result is made of slug characters exactly when the trimmed
    value has only letters, digits and hyphens of ASCII and separators.  Other
    characters survive, so a name with one of them gives no valid slug. *)
Theorem slugify_spec value :
  slugify (slugify value) = slugify value ∧
  (∀ c, c ∈ chars (slugify value) → is_sep c = false ∧ ascii_lower c = c) ∧
  (forallb slug_char (chars (slugify value)) = true ↔
   ∀ c, c ∈ strip is_space (chars value) → is_sep c = true ∨ slug_char (ascii_lower c) = true).
Proof.
  assert (∀ c, c ∈ chars (slugify value) → is_sep c = false ∧ ascii_lower c = c) as Hclean.
  { unfold slugify. rewrite String.list_ascii_of_string_of_list_ascii.
    intros c (d & -> & Hd%hyphenate_clean)%list_elem_of_fmap.
    split; [by apply lower_not_sep|apply lower_idemp]. }
  split; [|split; [exact Hclean|]].
  - unfold slugify at 1. rewrite strip_clean, hyphenate_id.
    + rewrite <-(String.string_of_list_ascii_of_string (slugify value)) at 2. f_equal.
      transitivity (id <$> chars (slugify value)); [|apply list_fmap_id].
      apply list_fmap_ext. intros i c Hc%list_elem_of_lookup_2. by apply Hclean.
    + intros c Hc. by apply Hclean.
    + intros c Hc. by apply Hclean.
  - unfold slugify. rewrite String.list_ascii_of_string_of_list_ascii, <-(hyphenate_slug false).
    generalize (hyphenate false (strip is_space (chars value))). intros l.
    induction l as [|c l IH]; simpl; [set_solver|]. rewrite andb_true_iff, IH.
    setoid_rewrite elem_of_cons. naive_solver.
Qed.

(** Starting up does nothing to the data.  Whatever the flag and however often
    the application starts, the committed content is unchanged - the seeding the
    log announces is commented out - and each later start skips it.  With the
    endpoints that follow, no user, tenant or permission that was not there
    before start-up ever exists. *)
Theorem startup_seeds_nothing n w cs :
  db_ok (durable w) →
  durable (boots n w) = durable w ∧
  (∀ p : Process S, (lifespan p).1 = Ret tt ∧ has_seeded (lifespan p).2 = true) ∧
  users (durable (run cs (boots n w))) = users (durable w) ∧
  tenants (durable (run cs (boots n w))) = tenants (durable w) ∧
  permissions (durable (run cs (boots n w))) = permissions (durable w).
Proof.
  intros Hok. assert (durable (boots n w) = durable w) as Hd.
  { unfold boots. induction n as [|n IH]; simpl; [done|].
    destruct (lifespan_run (Nat.iter n (λ p, (lifespan p).2) (mkProcess false w))) as (w1 & -> & Hw).
    simpl. by rewrite Hw. }
  split; [done|]. split.
  { intros p. by destruct (lifespan_run p) as (w1 & -> & _). }
  assert (db_ok (durable (boots n w))) as Hok' by (by rewrite Hd).
  destruct (rtc_fixed _ _ (run_rtc cs _ Hok')) as (Hu & Ht & Hp & _). simpl in Hu, Ht, Hp.
  by rewrite Hu, Ht, Hp, Hd.
Qed.
End app_properties.

(** A malformed header stops at the middleware; a good one reaches the endpoint
    and names the tenant it works in. *)
Example middleware_ex :
  (dispatch (Some "acme") (λ _, get_current_active_tenant alice (Some "acme")) w0).1
    = Ret (JSONResponse 400 "Invalid tenant ID format. Must be a valid UUID.") ∧
  (dispatch (Some (uuid_str 10)) (λ _, get_current_active_tenant alice (Some (uuid_str 10))) w0).1
    = Ret (Response acme).
Proof. split; vm_compute; reflexivity. Qed.

Example slugify_ex : slugify "  Default Test__Tenant " = "default-test-tenant"%string.
Proof. reflexivity. Qed.

Lemma startup_witness :
  users (durable (run [SetRoleUsers 10 20 [2]%N] (boots 2 w0))) = users (durable w0).
Proof. apply (startup_seeds_nothing 2 w0 [SetRoleUsers 10 20 [2]%N] w0_durable_ok). Defined.

Lemma middleware_witness :
  dispatch (Some "acme") (λ _, get_current_active_tenant alice (Some "acme")) w0 =
    (Ret (JSONResponse 400 "Invalid tenant ID format. Must be a valid UUID."), w0).
Proof.
  destruct (middleware_guards_header (Some "acme")
    (λ _, get_current_active_tenant alice (Some "acme")) w0)
    as [(s & Hs & _ & _ & Hd)|(state & Hd & Hstate & _)]; [exact Hd|].
  specialize (Hstate "acme" eq_refl ltac:(discriminate)).
  unfold dispatch. change (non_empty (Some "acme")) with (Some "acme").
  change (uuid_parse "acme") with (@None Uuid). reflexivity.
Defined.
