(* ===== verification/Http.v ===== *)
(** * A request on the wire

    [http] is the application from the outside: the tenant middleware, the
    router, FastAPI's conversion of path, query and body into the arguments of a
    handler, the session, the status.  Its theorems carry what is proved of
    calls over to HTTP: nothing a client can send escapes the access-control
    machine, and which endpoints look at credentials at all. *)

From stdpp Require Import base tactics list gmap strings relations.
From Stdlib Require Import ZArith Lia Sorted.
From S2P Require Import Prelude PyStd Effects Models Session Snapshot Crud Stability.
From S2P Require Import RoleService UserService Security InvitationService ApiKeyService Deps.
From S2P Require InvitationApi.
From S2P Require Import TenantApi RoleApi Api Rbac Replies.
From S2P Require Permissions TenantService Config App.
From S2P Require Import Routing Schemas.
Import InvitationApi(Pydantic, toy_pydantic, email_valid).
Import TenantService(valid_slug).

(** ** Requests and answers *)

Inductive Body :=
  | NoBody
  | Malformed                            (** text that is not JSON *)
  | JsonBody (j : Json)
  | FormBody (fields : list (string * string)).

Record HttpRequest := mkHttp {
  hq_method : Method;
  hq_path : string;
  hq_query : list (string * string);
  hq_token : option string;              (** of [Authorization: Bearer] *)
  hq_api_key : option string;            (** [X-API-Key] *)
  hq_tenant : option string;             (** [X-Tenant-ID] *)
  hq_body : Body
}.

Record Answer := mkAnswer {
  status : Z;
  content : option Json                  (** of a success *)
}.

(** A repeated query parameter has its last value. *)
Definition query_param (n : string) (h : HttpRequest) : option string :=
  snd <$> last (filter (λ p, p.1 = n) (hq_query h)).

(** What [oauth2_scheme], [api_key_header] and [api_key_query] extract. *)
Definition credentials (h : HttpRequest) : Request :=
  mkRequest (hq_token h) (hq_api_key h) (query_param "api_key" h) (hq_tenant h).

(** ** Arguments *)

Section arguments.
Context `{RequestModel}.

Definition uuid_param (n : string) (ps : list (string * string)) : option Uuid :=
  attribute n ps ≫= uuid_in.

(** [n: int = Query(d, ge=lo, le=hi)]. *)
Definition int_param (n : string) (d : Z) (ge le : option Z) (h : HttpRequest) : option Z :=
  match query_param n h with
  | None => Some d
  | Some s =>
      z ← int_in s;
      if match ge with Some lo => lo <=? z | None => true end &&
         match le with Some hi => z <=? hi | None => true end
      then Some z else None
  end%Z.

Definition page_param (h : HttpRequest) : option nat := Z.to_nat <$> int_param "page" 1 (Some 1%Z) None h.
Definition skip_param (h : HttpRequest) : option nat := Z.to_nat <$> int_param "skip" 0 (Some 0%Z) None h.
Definition limit_param (d : Z) (le : Z) (h : HttpRequest) : option nat :=
  Z.to_nat <$> int_param "limit" d (Some 1%Z) (Some le) h.

(** [Optional[...] = Query(None)]: [Some None] when it is not given. *)
Definition optional_param {A} (f : string → option A) (n : string) (h : HttpRequest) : option (option A) :=
  match query_param n h with None => Some None | Some s => Some <$> f s end.

Definition status_in (s : string) : option InvitationStatus :=
  if String.eqb s "pending" then Some PENDING
  else if String.eqb s "accepted" then Some ACCEPTED
  else if String.eqb s "expired" then Some EXPIRED
  else if String.eqb s "revoked" then Some REVOKED
  else None.

Definition body {A} (h : HttpRequest) (fs : list Field) (conv : list (string * PyVal) → option A) : option A :=
  match hq_body h with JsonBody j => read_model fs conv j | _ => None end.

(** The call an endpoint makes of the request, from the parameters its function
    declares: a function per file, [None] for a [RequestValidationError]. *)

(** [endpoints/auth.py] *)
Definition auth_arguments (e : Endpoint) (ps : list (string * string)) (h : HttpRequest) : option Call :=
  match e with
  | login_access_token =>
      form ← match hq_body h with FormBody l => Some l | _ => None end;
      '(username, password) ← password_form form;
      Some (Login username password)
  | _ => None
  end.

(** [endpoints/users.py] *)
Definition users_arguments (e : Endpoint) (ps : list (string * string)) (h : HttpRequest) : option Call :=
  let rq := credentials h in
  match e with
  | list_users_in_active_tenant =>
      page ← page_param h; limit ← limit_param 20 100 h;
      Some (ListUsers rq page limit (query_param "search" h))
  | get_current_user_info => Some (Me rq)
  | update_current_user => user_in ← body h UserUpdateSchema user_update; Some (UpdateMe rq user_in)
  | update_user_status_in_active_tenant =>
      user_id ← uuid_param "user_id" ps;
      is_active ← body h UserStatusUpdateSchema user_status_update;
      Some (UpdateStatus rq user_id is_active)
  | remove_user_from_active_tenant => user_id ← uuid_param "user_id" ps; Some (RemoveUser rq user_id)
  | _ => None
  end.

(** [endpoints/tenants.py] *)
Definition tenants_arguments (e : Endpoint) (ps : list (string * string)) (h : HttpRequest) : option Call :=
  let rq := credentials h in
  match e with
  | list_accessible_tenants => Some (ListTenants rq)
  | create_tenant => tenant_in ← body h TenantCreateSchema tenant_create; Some (CreateTenant tenant_in)
  | get_tenant_by_id => tenant_id ← uuid_param "tenant_id" ps; Some (GetTenant tenant_id)
  | get_tenant_by_slug => slug ← attribute "slug" ps; Some (GetTenantBySlug slug)
  | update_tenant =>
      tenant_id ← uuid_param "tenant_id" ps;
      tenant_in ← body h TenantUpdateSchema tenant_update;
      Some (UpdateTenant tenant_id tenant_in)
  | delete_tenant => tenant_id ← uuid_param "tenant_id" ps; Some (DeleteTenant tenant_id)
  | _ => None
  end.

(** [endpoints/api_keys.py] *)
Definition api_keys_arguments (e : Endpoint) (ps : list (string * string)) (h : HttpRequest) : option Call :=
  let rq := credentials h in
  match e with
  | create_api_key => api_key_in ← body h APIKeyCreateSchema api_key_create; Some (CreateKey rq api_key_in)
  | read_api_keys =>
      skip ← int_param "skip" 0 None None h; limit ← int_param "limit" 100 None None h;
      tenant_id ← optional_param uuid_in "tenant_id" h;
      Some (ReadKeys rq skip limit tenant_id)
  | read_api_key => api_key_id ← uuid_param "api_key_id" ps; Some (ReadKey rq api_key_id)
  | update_api_key =>
      api_key_id ← uuid_param "api_key_id" ps;
      api_key_in ← body h APIKeyUpdateSchema api_key_update;
      Some (UpdateKey rq api_key_id api_key_in)
  | delete_api_key => api_key_id ← uuid_param "api_key_id" ps; Some (DeleteKey rq api_key_id)
  | _ => None
  end.

(** [endpoints/invitations.py] *)
Definition invitations_arguments (e : Endpoint) (ps : list (string * string)) (h : HttpRequest) : option Call :=
  let rq := credentials h in
  match e with
  | create_invitation =>
      invitation_in ← body h InvitationCreateSchema invitation_create;
      Some (CreateInvitation rq invitation_in)
  | list_invitations =>
      tenant_id ← query_param "tenant_id" h ≫= uuid_in;
      status_filter ← optional_param status_in "status" h;
      skip ← skip_param h; limit ← limit_param 100 200 h;
      Some (ListInvitations rq tenant_id status_filter skip limit)
  | verify_invitation_token =>
      token ← body h InvitationVerifySchema invitation_verify; Some (VerifyInvitation token)
  | read_invitation => invitation_id ← uuid_param "invitation_id" ps; Some (ReadInvitation rq invitation_id)
  | revoke_invitation => invitation_id ← uuid_param "invitation_id" ps; Some (RevokeInvitation rq invitation_id)
  | accept_invitation =>
      payload ← body h InvitationAcceptSchema invitation_accept; Some (AcceptInvitation payload)
  | _ => None
  end.

(** [endpoints/tenant_user_management.py] *)
Definition tenant_users_arguments (e : Endpoint) (ps : list (string * string)) (h : HttpRequest) : option Call :=
  match e with
  | list_users_in_tenant =>
      tenant_id ← uuid_param "tenant_id" ps;
      page ← page_param h; limit ← limit_param 20 100 h;
      Some (ListTenantUsers tenant_id page limit (query_param "search" h))
  | get_tenant_user =>
      tenant_id ← uuid_param "tenant_id" ps; user_id ← uuid_param "user_id" ps;
      Some (GetTenantUser tenant_id user_id)
  | assign_role_to_user =>
      tenant_id ← uuid_param "tenant_id" ps; user_id ← uuid_param "user_id" ps;
      role_id ← body h RoleAssignSchema role_assign;
      Some (AssignRole tenant_id user_id role_id)
  | remove_role_from_user =>
      tenant_id ← uuid_param "tenant_id" ps; user_id ← uuid_param "user_id" ps;
      role_id ← uuid_param "role_id" ps;
      Some (RemoveRole tenant_id user_id role_id)
  | _ => None
  end.

(** [endpoints/roles.py] *)
Definition roles_arguments (e : Endpoint) (ps : list (string * string)) (h : HttpRequest) : option Call :=
  let rq := credentials h in
  match e with
  | list_roles_in_active_tenant =>
      skip ← skip_param h; limit ← limit_param 100 100 h; Some (ListRoles rq skip limit)
  | create_custom_role_in_tenant =>
      tenant_id ← uuid_param "tenant_id" ps;
      role_in ← body h RoleCreateSchema role_create;
      Some (CreateRole tenant_id role_in)
  | get_role_details =>
      tenant_id ← uuid_param "tenant_id" ps; role_id ← uuid_param "role_id" ps;
      Some (GetRole tenant_id role_id)
  | update_custom_role_in_tenant =>
      tenant_id ← uuid_param "tenant_id" ps; role_id ← uuid_param "role_id" ps;
      role_in ← body h RoleUpdateSchema role_update;
      Some (UpdateRole tenant_id role_id role_in)
  | delete_custom_role_from_tenant =>
      tenant_id ← uuid_param "tenant_id" ps; role_id ← uuid_param "role_id" ps;
      Some (DeleteRole tenant_id role_id)
  | list_available_permissions => Some (ListPermissions rq)
  | get_assigned_users_for_role =>
      tenant_id ← uuid_param "tenant_id" ps; role_id ← uuid_param "role_id" ps;
      Some (GetRoleUsers tenant_id role_id)
  | set_assigned_users_for_role =>
      tenant_id ← uuid_param "tenant_id" ps; role_id ← uuid_param "role_id" ps;
      user_ids ← body h RoleUserAssignmentInput role_users;
      Some (SetRoleUsers tenant_id role_id user_ids)
  | _ => None
  end.

Definition to_call (e : Endpoint) (ps : list (string * string)) (h : HttpRequest) : option Call :=
  match e with
  | login_access_token => auth_arguments e ps h
  | list_users_in_active_tenant | get_current_user_info | update_current_user
  | update_user_status_in_active_tenant | remove_user_from_active_tenant => users_arguments e ps h
  | list_accessible_tenants | create_tenant | get_tenant_by_id | get_tenant_by_slug | update_tenant
  | delete_tenant => tenants_arguments e ps h
  | create_api_key | read_api_keys | read_api_key | update_api_key | delete_api_key
    => api_keys_arguments e ps h
  | create_invitation | list_invitations | verify_invitation_token | read_invitation
  | revoke_invitation | accept_invitation => invitations_arguments e ps h
  | list_users_in_tenant | get_tenant_user | assign_role_to_user | remove_role_from_user
    => tenant_users_arguments e ps h
  | list_roles_in_active_tenant | create_custom_role_in_tenant | get_role_details
  | update_custom_role_in_tenant | delete_custom_role_from_tenant | list_available_permissions
  | get_assigned_users_for_role | set_assigned_users_for_role => roles_arguments e ps h
  end.

(** Endpoints whose parameters include a JSON body: its text is parsed before
    any dependency runs. *)
Definition takes_json (e : Endpoint) : bool :=
  match e with
  | create_tenant | update_tenant | update_current_user | update_user_status_in_active_tenant
  | assign_role_to_user | create_custom_role_in_tenant | update_custom_role_in_tenant
  | set_assigned_users_for_role | create_api_key | update_api_key | create_invitation
  | verify_invitation_token | accept_invitation => true
  | _ => false
  end.

Definition malformed_body (e : Endpoint) (h : HttpRequest) : bool :=
  takes_json e && match hq_body h with Malformed => true | _ => false end.
End arguments.

(** [status_code] of the decorators. *)
Definition success_status (e : Endpoint) : Z :=
  match e with
  | create_tenant | create_custom_role_in_tenant | create_api_key | create_invitation => 201
  | delete_tenant | remove_user_from_active_tenant | delete_api_key | assign_role_to_user
  | remove_role_from_user | delete_custom_role_from_tenant => 204
  | _ => 200
  end.

(** FastAPI's answer to a [RequestValidationError]. *)
Definition unprocessable : Exn := HTTPException 422 "Request validation failed".

Section http.
Context {S : Type} `{Session S} `{Inputs} `{Passlib} `{Jose} `{Pydantic} `{Fastapi}.
Context `{ResponseModel} `{RequestModel} `{Starlette}.
Implicit Types w : World S.

(** ** Dependencies *)

Definition path_tenant (ps : list (string * string)) (annotation : option string) : M (World S) unit :=
  match uuid_param "tenant_id" ps with
  | Some tenant_id => get_tenant_from_path tenant_id ;; mret tt
  | None => mret tt
  end ;;
  match annotation with Some a => inject_none a | None => mret tt end.

(** The dependencies an endpoint declares; they run, and their exceptions win,
    when other parameters are invalid. *)
Definition guard (e : Endpoint) (ps : list (string * string)) (h : HttpRequest) : M (World S) unit :=
  let rq := credentials h in
  match e with
  | list_accessible_tenants | get_current_user_info | update_current_user | read_invitation
  | revoke_invitation => get_current_user rq ;; mret tt
  | list_users_in_active_tenant => require_permission_in_active_tenant Permissions.USER_READ rq ;; mret tt
  | update_user_status_in_active_tenant =>
      require_permission_in_active_tenant Permissions.USER_UPDATE rq ;; mret tt
  | remove_user_from_active_tenant =>
      require_permission_in_active_tenant Permissions.USER_DELETE rq ;; mret tt
  | list_roles_in_active_tenant | list_available_permissions =>
      require_permission_in_active_tenant Permissions.ROLE_READ rq ;; mret tt
  | create_invitation =>
      require_permission_in_active_tenant Permissions.TENANT_MANAGE_INVITATIONS rq ;; mret tt
  | create_api_key | read_api_keys | read_api_key | update_api_key | delete_api_key
  | list_invitations => get_current_active_user rq ;; mret tt
  | list_users_in_tenant | get_tenant_user | get_assigned_users_for_role | set_assigned_users_for_role =>
      path_tenant ps None
  | assign_role_to_user | remove_role_from_user => path_tenant ps (Some "UserSchema")
  | create_custom_role_in_tenant | get_role_details | update_custom_role_in_tenant
  | delete_custom_role_from_tenant => path_tenant ps (Some "User")
  | login_access_token | create_tenant | get_tenant_by_id | get_tenant_by_slug | update_tenant
  | delete_tenant | verify_invitation_token | accept_invitation => mret tt
  end.

Definition endpoint (e : Endpoint) (ps : list (string * string)) (h : HttpRequest) : M (World S) Json :=
  match to_call e ps h with
  | Some c => respond c
  | None => guard e ps h ;; raise unprocessable
  end.

Definition answer_of (ok : Z) (r : outcome Json) : Answer :=
  mkAnswer (http_status ok r) match r with Ret j => Some j | Raise _ => None end.

Definition run_endpoint (e : Endpoint) (ps : list (string * string)) (h : HttpRequest) w : Answer * World S :=
  if malformed_body e h then (mkAnswer 422 None, w)
  else let '(r, w') := get_db (endpoint e ps h) w in (answer_of (success_status e) r, w').

(** ** The application *)

Definition health_json (r : App.Health) : Json :=
  JObject (("status", JStr (App.h_status r)) :: ("version", JStr (App.h_version r)) ::
    match App.h_name r with Some n => [("name", JStr n)] | None => [] end).

Definition health_answer (m : M (App.Process S) App.Health) w : Answer :=
  match (m (App.mkProcess true w)).1 with Ret r => mkAnswer 200 (Some (health_json r)) | Raise _ => mkAnswer 500 None end.

Definition router (h : HttpRequest) w : Answer * World S :=
  match dispatch_route (app_routes Config.API_V1_STR) (hq_method h) (hq_path h) with
  | Found (ToApi e) ps => run_endpoint e ps h w
  | Found root _ => (health_answer (App.root Config.PROJECT_NAME Config.VERSION) w, w)
  | Found health_check _ => (health_answer (App.health_check Config.VERSION) w, w)
  | Found (Page _) _ => (mkAnswer 200 None, w)
  | MethodNotAllowed => (mkAnswer 405 None, w)
  | RedirectSlashes _ => (mkAnswer 307 None, w)
  | NotFound => (mkAnswer 404 None, w)
  end.

Definition http (h : HttpRequest) w : Answer * World S :=
  match App.dispatch (hq_tenant h) (λ _ w, let '(a, w') := router h w in (Ret a, w')) w with
  | (Ret (App.Response a), w') => (a, w')
  | (Ret (App.JSONResponse s _), w') => (mkAnswer s None, w')
  | (Raise e, w') => (mkAnswer (http_status 200 (Raise (A := unit) e)) None, w')
  end.

(** A client's requests, one after another. *)
Definition http_run (hs : list HttpRequest) w : World S := foldl (λ w h, (http h w).2) w hs.
End http.

(** The definition of [to_call] at a known endpoint. *)
Ltac expand_call := cbv beta iota zeta delta [to_call auth_arguments users_arguments tenants_arguments
  api_keys_arguments invitations_arguments tenant_users_arguments roles_arguments].

(** ** What validation guarantees of a call *)

(** The constraints of the parameters and request models. *)
Definition well_formed `{ResponseModel} (c : Call) : Prop :=
  match c with
  | CreateTenant t => valid_slug (TenantService.tc_slug t) = true
  | ListUsers _ page limit _ | ListTenantUsers _ page limit _ => (1 ≤ page ∧ 1 ≤ limit ≤ 100)%nat
  | ListRoles _ _ limit => (1 ≤ limit ≤ 100)%nat
  | ListInvitations _ _ _ _ limit => (1 ≤ limit ≤ 200)%nat
  | UpdateMe _ u =>
      (∀ p, uu_password u = Some (Some p) → 8 ≤ str_len p)%nat ∧
      (∀ e, uu_email u = Some (Some e) → ∃ s, email_out s = Some e)
  | CreateKey _ k => ∀ tid, ak_tenant_id k = Some tid → uuid_version tid = 4%N
  | CreateInvitation _ i =>
      (∃ s, email_out s = Some (InvitationApi.ic_email i)) ∧
      uuid_version (InvitationApi.ic_tenant_id i) = 4%N ∧
      ∀ rid, InvitationApi.ic_role_id i = Some rid → uuid_version rid = 4%N
  | AcceptInvitation p => (8 ≤ str_len (InvitationApi.ia_password p))%nat
  | _ => True
  end.

Section parameters.
Context `{RequestModelLaws}.

Lemma int_param_bounds n d ge le h z :
  int_param n d ge le h = Some z →
  (∀ lo, ge = Some lo → (lo ≤ d → lo ≤ z)%Z) ∧ (∀ hi, le = Some hi → (d ≤ hi → z ≤ hi)%Z).
Proof.
  unfold int_param. destruct (query_param n h) as [s|].
  - intros (z' & _ & Hz)%bind_Some.
    destruct ge as [lo|], le as [hi|]; simpl in Hz; repeat case_match; simplify_eq;
      split; intros ? [= <-]; rewrite ?andb_true_iff, ?Z.leb_le in *; lia.
  - intros [= <-]. split; lia.
Qed.

Lemma page_bounds h p : page_param h = Some p → (1 ≤ p)%nat.
Proof.
  unfold page_param. intros (z & [Hlo _]%int_param_bounds & ->)%fmap_Some.
  specialize (Hlo _ eq_refl). lia.
Qed.

Lemma limit_bounds d le h l :
  (1 ≤ d ≤ le)%Z → limit_param d le h = Some l → (1 ≤ l ≤ Z.to_nat le)%nat.
Proof.
  unfold limit_param. intros Hd (z & [Hlo Hhi]%int_param_bounds & ->)%fmap_Some.
  specialize (Hlo _ eq_refl). specialize (Hhi _ eq_refl). lia.
Qed.

Lemma body_reads {A} h fs (conv : list (string * PyVal) → option A) Q x :
  RequestSchema A fs conv → reads fs conv Q → body h fs conv = Some x → Q x.
Proof.
  unfold body. intros Hs Hr Hb. destruct (hq_body h) as [| |j|]; try done.
  pose proof (read_model_spec fs conv Q j (schema_names _ _ _ Hs) Hr) as Hm. by rewrite Hb in Hm.
Qed.

Lemma to_call_well_formed e ps h c : to_call e ps h = Some c → well_formed c.
Proof.
  destruct e; expand_call; intros Hc;
    repeat match goal with
    | Hc : _ ≫= _ = Some _ |- _ => apply bind_Some in Hc as (? & ? & Hc)
    | Hc : (let '(_, _) := ?p in _) = Some _ |- _ => destruct p
    end; simplify_eq; try exact I; unfold well_formed.
  all: repeat match goal with
    | Hp : page_param _ = Some _ |- _ => apply page_bounds in Hp
    | Hp : limit_param _ _ _ = Some _ |- _ => apply limit_bounds in Hp; [|lia]
    end; try lia.
  all: match goal with Hb : body _ _ _ = Some _ |- _ => revert Hb end.
  - apply (body_reads _ _ _ (λ u, (∀ p, uu_password u = Some (Some p) → 8 ≤ str_len p)%nat ∧
      (∀ e, uu_email u = Some (Some e) → ∃ s, email_out s = Some e))); [constructor|apply reads_user_update].
  - apply (body_reads _ _ _ (λ t, valid_slug (TenantService.tc_slug t) = true));
      [constructor|apply reads_tenant_create].
  - apply (body_reads _ _ _ (λ k, ∀ tid, ak_tenant_id k = Some tid → uuid_version tid = 4%N));
      [constructor|apply reads_api_key_create].
  - apply (body_reads _ _ _ (λ i, (∃ s, email_out s = Some (InvitationApi.ic_email i)) ∧
      uuid_version (InvitationApi.ic_tenant_id i) = 4%N ∧
      ∀ rid, InvitationApi.ic_role_id i = Some rid → uuid_version rid = 4%N));
      [constructor|apply reads_invitation_create].
  - apply (body_reads _ _ _ (λ p, (8 ≤ str_len (InvitationApi.ia_password p))%nat));
      [constructor|apply reads_invitation_accept].
Qed.
End parameters.

(** ** From requests to calls *)

Section requests.
Context {S : Type} `{SessionLaws S} `{InputsLaws} `{Passlib} `{JoseLaws} `{Pydantic} `{Fastapi}.
Context `{RequestModelLaws} `{Starlette}.
Implicit Types w : World S.

Lemma nocommit_guard e ps h : nocommit (guard (S := S) e ps h).
Proof. destruct e; simpl; unfold path_tenant; repeat case_match; solve_nocommit. Qed.

(** The answer of a routed request: the header is checked first. *)
Lemma http_header h w :
  http h w =
    match non_empty (hq_tenant h) with
    | Some s => match uuid_parse s with Some _ => router h w | None => (mkAnswer 400 None, w) end
    | None => router h w
    end.
Proof.
  unfold http, App.dispatch. destruct (non_empty (hq_tenant h)) as [s|]; [destruct (uuid_parse s)|];
    unfold fmap, M_fmap; try (by destruct (router h w)); done.
Qed.

Lemma respond_durable c w : durable (get_db (respond c) w).2 = durable (serve c w).
Proof.
  unfold serve. rewrite !get_db_durable. unfold respond, mbind, M_bind. pose proof (call_handler c (reopen w)) as Hc.
  unfold fmap, M_fmap in Hc. destruct (call c (reopen w)) as [[r|e] w']; rewrite <-Hc; [|done].
  by destruct (render r).
Qed.

(** What one request commits: nothing, or what a well-formed call does. *)
Lemma http_step h w :
  durable (http h w).2 = durable w ∨
  ∃ c, well_formed c ∧ durable (http h w).2 = durable (serve c w).
Proof.
  assert (durable (router h w).2 = durable w ∨
    ∃ c, well_formed c ∧ durable (router h w).2 = durable (serve c w)) as Hr.
  { unfold router. destruct (dispatch_route _ _ _) as [[e| | |n] ps| | |]; try (by left).
    unfold run_endpoint, endpoint. destruct (malformed_body e h); [by left|].
    destruct (to_call e ps h) as [c|] eqn:Hc.
    - right. exists c. split; [by eapply to_call_well_formed|]. rewrite <-respond_durable.
      by destruct (get_db (respond c) w).
    - left. assert (nocommit (guard (S := S) e ps h ;; raise (A := Json) unprocessable)) as Hn
        by (apply nocommit_bind; [apply nocommit_guard|intros; apply nocommit_raise]).
      apply nocommit_get_db in Hn. specialize (Hn w). by destruct (get_db _ w). }
  rewrite http_header. destruct (non_empty _) as [s|]; [|done]. destruct (uuid_parse s); [done|by left].
Qed.

Lemma http_step_sound h w : db_ok (durable w) → db_ok (durable (http h w).2).
Proof.
  intros Hok. destruct (http_step h w) as [->|(c & _ & ->)]; [done|]. by apply (run_integrity [c]).
Qed.
(** What any number of requests keeps. *)
Lemma http_run_access hs w : db_ok (durable w) →
  db_ok (durable (http_run hs w)) ∧ rtc change (access (durable w)) (access (durable (http_run hs w))).
Proof.
  unfold http_run. revert w. induction hs as [|h hs IH]; intros w Hok; simpl; [by split; [|apply rtc_refl]|].
  destruct (IH (http h w).2 (http_step_sound h w Hok)) as [Hok' Hrtc]. split; [done|].
  destruct (http_step h w) as [Heq|(c & _ & Heq)]; rewrite Heq in Hrtc; [done|].
  destruct (serve_moves c w Hok) as [Ha|Hc]; [by rewrite Ha in Hrtc|]. by eapply rtc_l.
Qed.
End requests.

(** ** Who is asked for credentials *)

(** Endpoints with a dependency on the current user. *)
Definition guarded (e : Endpoint) : bool :=
  match e with
  | list_accessible_tenants | get_current_user_info | update_current_user | read_invitation
  | revoke_invitation | list_users_in_active_tenant | update_user_status_in_active_tenant
  | remove_user_from_active_tenant | list_roles_in_active_tenant | list_available_permissions
  | create_invitation | create_api_key | read_api_keys | read_api_key | update_api_key
  | delete_api_key | list_invitations => true
  | _ => false
  end.

(** Neither a token nor an API key. *)
Definition anonymous (h : HttpRequest) : Prop :=
  non_empty (hq_token h) = None ∧ non_empty (hq_api_key h) = None ∧
  non_empty (query_param "api_key" h) = None.

(** A tenant header that is no UUID. *)
Definition bad_tenant_header (h : HttpRequest) : bool :=
  match non_empty (hq_tenant h) with
  | Some s => match uuid_parse s with Some _ => false | None => true end
  | None => false
  end.

(** The same request without its credentials. *)
Definition strip_credentials (h : HttpRequest) : HttpRequest :=
  mkHttp (hq_method h) (hq_path h) (filter (λ p, p.1 ≠ "api_key") (hq_query h)) None None
    (hq_tenant h) (hq_body h).

Section access.
Context {S : Type} `{Session S} `{Inputs} `{Passlib} `{Jose} `{Pydantic} `{Fastapi}.
Context `{ResponseModel} `{RequestModel} `{Starlette}.
Implicit Types w : World S.

Definition unauthenticated : Exn := HTTPException 401 "Not authenticated".

Lemma anonymous_user h w : anonymous h →
  get_current_user (credentials h) w = (Raise unauthenticated, w).
Proof.
  intros (Ht & Hh & Hq). unfold get_current_user, credentials, get_current_user_from_token,
    get_current_user_from_api_key. simpl. rewrite Ht, Hh, Hq. done.
Qed.

Lemma bind_unauthenticated {A B} (m : M (World S) A) (f : A → M (World S) B) w :
  m w = (Raise unauthenticated, w) → (m ≫= f) w = (Raise unauthenticated, w).
Proof. apply bind_raise_run. Qed.

Lemma fmap_unauthenticated {A B} (m : M (World S) A) (f : A → B) w :
  m w = (Raise unauthenticated, w) → (f <$> m) w = (Raise unauthenticated, w).
Proof. unfold fmap, M_fmap. by intros ->. Qed.

(** Opens the handlers and dependencies up to their first step. *)
Ltac ask_first Hu :=
  unfold Tenants.list_accessible_tenants, Users.get_current_user_info, Users.update_current_user,
    InvitationApi.read_invitation, InvitationApi.revoke_invitation, Users.list_users_in_active_tenant,
    Users.update_user_status_in_active_tenant, Users.remove_user_from_active_tenant,
    Roles.list_roles_in_active_tenant, Roles.list_available_permissions, InvitationApi.create_invitation,
    ApiKeys.create_api_key, ApiKeys.read_api_keys, ApiKeys.read_api_key, ApiKeys.update_api_key,
    ApiKeys.delete_api_key, InvitationApi.list_invitations, require_permission_in_active_tenant,
    get_current_active_user;
  repeat first [exact Hu|apply bind_unauthenticated].

(** A guarded endpoint asks for the user before it does anything else. *)
Lemma guarded_endpoint e ps h w :
  guarded e = true → anonymous h → endpoint e ps h w = (Raise unauthenticated, w).
Proof.
  intros He Ha. pose proof (anonymous_user h w Ha) as Hu.
  unfold endpoint. destruct (to_call e ps h) as [c|] eqn:Hc.
  - unfold respond. apply bind_unauthenticated.
    revert Hc; destruct e; try discriminate He; expand_call; intros Hc;
      repeat (apply bind_Some in Hc as (? & _ & Hc)); injection Hc as <-; unfold call;
      apply fmap_unauthenticated;
      ask_first Hu.
  - apply bind_unauthenticated.
    destruct e; try discriminate He; simpl; ask_first Hu.
Qed.

Lemma query_strip n h : n ≠ "api_key" → query_param n (strip_credentials h) = query_param n h.
Proof.
  intros Hn. unfold query_param. simpl. do 2 f_equal. rewrite list_filter_filter.
  apply list_filter_iff. intros p. naive_solver.
Qed.

Lemma open_call e ps h : guarded e = false → to_call e ps (strip_credentials h) = to_call e ps h.
Proof.
  intros He. destruct e; try discriminate He; expand_call; try done.
  unfold page_param, limit_param, int_param. by rewrite !query_strip by done.
Qed.

Lemma open_endpoint e ps h w : guarded e = false →
  run_endpoint e ps (strip_credentials h) w = run_endpoint e ps h w.
Proof.
  intros He. unfold run_endpoint, endpoint. rewrite open_call by done.
  assert (guard (S := S) e ps (strip_credentials h) = guard e ps h) as -> by (by destruct e).
  done.
Qed.
End access.

(** ** Listings *)

(** Every result of [m] satisfies [P]. *)
Definition returns {W A} (m : M W A) (P : A → Prop) : Prop := ∀ w a, (m w).1 = Ret a → P a.

Section returns.
Context {S : Type} `{Session S}.
Implicit Types w : World S.

Lemma returns_bind {W A B} (m : M W A) (f : A → M W B) P :
  (∀ a, returns (f a) P) → returns (m ≫= f) P.
Proof. intros Hf w b. unfold mbind, M_bind. destruct (m w) as [[a|e] w']; simpl; [apply Hf|done]. Qed.
Lemma returns_fmap {W A B} (m : M W A) (f : A → B) P : returns m (P ∘ f) → returns (f <$> m) P.
Proof. intros Hm w b. specialize (Hm w). unfold fmap, M_fmap. destruct (m w) as [[a|e] w']; simpl; [|done]. intros [= <-]. by apply Hm. Qed.
Lemma returns_ret {W A} (a : A) (P : A → Prop) : P a → returns (mret a : M W A) P.
Proof. by intros HP w b [= <-]. Qed.
Lemma returns_raise {W A} e (P : A → Prop) : returns (raise e : M W A) P.
Proof. done. Qed.
Lemma returns_query {A} (q : Tables → A) (P : A → Prop) :
  (∀ t, P (q t)) → returns (query (S := S) q) P.
Proof. intros HP w a. unfold query. case_match; [|done]. simpl. by intros [= <-]. Qed.
Lemma returns_query_page {A} skip limit (q : Tables → list A) :
  returns (query_page (S := S) skip limit q) (λ l, List.length l ≤ limit)%nat.
Proof.
  apply returns_bind; intros l. apply returns_bind; intros _. apply returns_ret, page_length.
Qed.
Lemma returns_try {W A} (m : M W A) h P : returns m P → (∀ e, returns (h e) P) → returns (try_catch m h) P.
Proof. intros Hm Hh w a. specialize (Hm w). unfold try_catch. destruct (m w) as [[b|e] w']; [by apply Hm|apply Hh]. Qed.
Lemma returns_bind_P {W A B} (m : M W A) (f : A → M W B) Q P :
  returns m Q → (∀ a, Q a → returns (f a) P) → returns (m ≫= f) P.
Proof.
  intros Hm Hf w b. specialize (Hm w). unfold mbind, M_bind.
  destruct (m w) as [[a|e] w']; simpl; [by apply Hf, Hm|done].
Qed.
End returns.

(** How many entries a reply lists. *)
Definition entries (r : Result) : nat :=
  match r with
  | RUsers l => List.length (ul_items l)
  | RRoles l => List.length l
  | RKeys l => List.length l
  | RInvitations l => List.length l
  | _ => 0
  end.

(** The page size a call asks for. *)
Definition page_size (c : Call) : option nat :=
  match c with
  | ListUsers _ _ limit _ | ListTenantUsers _ _ limit _ | ListRoles _ _ limit
  | ListInvitations _ _ _ _ limit => Some limit
  | ReadKeys _ _ limit _ => Some (Z.to_nat limit)
  | _ => None
  end.

Section listings.
Context {S : Type} `{Session S} `{Inputs} `{Passlib} `{Jose} `{Pydantic} `{Fastapi}.

Lemma returns_users tid skip limit search :
  returns (get_multi_by_tenant_paginated (S := S) tid skip limit search) (λ r, List.length r.1 ≤ limit)%nat.
Proof.
  unfold get_multi_by_tenant_paginated. apply returns_bind; intros _. apply returns_bind; intros n.
  apply (returns_bind_P _ _ (λ l, (List.length l ≤ limit)%nat));
    [apply returns_query_page|]. intros users Hu.
  apply returns_bind; intros m. apply returns_ret. simpl. by rewrite length_fmap.
Qed.

Lemma returns_page c n :
  page_size c = Some n → returns (call (S := S) c) (λ r, entries r ≤ n)%nat.
Proof.
  destruct c; try discriminate; intros [= <-]; unfold call; apply returns_fmap; unfold compose; simpl.
  - unfold Users.list_users_in_active_tenant. apply returns_bind; intros [_ x].
    eapply returns_bind_P; [apply returns_users|]. intros [us n] Hu. by apply returns_ret.
  - unfold TenantUsers.list_users_in_tenant. apply returns_bind; intros x.
    eapply returns_bind_P; [apply returns_users|]. intros [us n] Hu. by apply returns_ret.
  - unfold Roles.list_roles_in_active_tenant. apply returns_bind; intros [_ x].
    unfold get_multi_by_tenant_with_user_count. apply returns_bind; intros f.
    apply returns_query_page.
  - unfold ApiKeys.read_api_keys. apply returns_bind; intros u. apply returns_bind; intros _.
    destruct (u_is_superuser u); [destruct tenant_id|].
    + apply returns_query_page.
    + apply returns_query_page.
    + apply (returns_bind_P _ _ (λ l, (List.length l ≤ Z.to_nat limit)%nat));
        [apply returns_query_page|].
      intros ks Hks. apply returns_ret. destruct tenant_id; [|done]. etrans; [|exact Hks].
      apply length_filter.
  - unfold InvitationApi.list_invitations. apply returns_bind; intros u. apply returns_bind; intros b.
    apply returns_bind; intros _. apply returns_try; [|intros; apply returns_raise].
    case_match; [apply returns_bind; intros l; apply returns_ret; apply page_length|].
    apply returns_query_page.
Qed.

(** The users on page [p] of the listing of a tenant's users; none when the request fails. *)
Definition page_users (tid : Uuid) (n : nat) (search : option string) (w : World S) (p : nat) : list User :=
  match (call (ListTenantUsers tid p n search) w).1 with Ret (RUsers l) => fst <$> ul_items l | _ => [] end.
End listings.

Lemma pages_join {A} n (l : list A) k : mjoin ((λ p, page ((p - 1) * n) n l) <$> seq 1 k) = take (k * n) l.
Proof.
  induction k as [|k IH]; [done|].
  rewrite seq_S, fmap_app, join_app, IH. simpl. rewrite app_nil_r. unfold page.
  replace (k - 0) with k by lia. rewrite Nat.add_comm, <-take_take_drop. f_equal; f_equal; lia.
Qed.

Section tenant_listings.
Context {S : Type} `{SessionLaws S} `{Inputs} `{Passlib} `{Jose} `{Pydantic} `{Fastapi}.
Implicit Types w : World S.

Lemma list_tenant_users_run tid p n search w : usable w = true → db_ok (view w) →
  let all := tenant_listing (S := S) tid (view w) in
  (∃ items, is_Some (tenants (view w) !! tid) ∧ non_empty search = None ∧
     (call (ListTenantUsers tid p n search) w).1 = Ret (RUsers (mkUserListResponse items (length all) p n)) ∧
     fst <$> items = page ((p - 1) * n) n all)
  ∨ (∃ e, (call (ListTenantUsers tid p n search) w).1 = Raise e) ∧
    (is_Some (tenants (view w) !! tid) → non_empty search = None → page_fits ((p - 1) * n) n = false).
Proof.
  intros Hu Hok all. cbn [call].
  assert (post (TenantUsers.list_users_in_tenant tid p n search) w (λ r _,
    (∃ items, is_Some (tenants (view w) !! tid) ∧ non_empty search = None ∧
       r = Ret (mkUserListResponse items (length all) p n) ∧ fst <$> items = page ((p - 1) * n) n all)
    ∨ (∃ e, r = Raise e) ∧
      (is_Some (tenants (view w) !! tid) → non_empty search = None → page_fits ((p - 1) * n) n = false))) as HP.
  { unfold TenantUsers.list_users_in_tenant. apply post_bind, get_tenant_from_path_post; [done..| |].
    2:{ intros Hn. right. split; [by eexists|]. rewrite Hn. by intros []. }
    intros x Hx Hid. apply post_bind. eapply post_mono; [by apply listing_page_post|]. intros r w1 [-> Hr].
    rewrite Hid in Hr. fold all in Hr.
    destruct search as [[|c s]|]; [|subst r; right; by split; [eexists|]|]; simpl;
      (destruct (page_fits _ _); [|subst r; right; by split; [eexists|]]);
      destruct Hr as (items & -> & Hpage & _); left; exists items; by split_and!. }
  unfold post in HP. unfold fmap, M_fmap, mbind, M_bind, mret, M_ret.
  destruct (TenantUsers.list_users_in_tenant tid p n search w) as [r w'].
  destruct HP as [(items & Hx & Hs & -> & Hpage)|[[e ->] Hno]]; [left|right]; [by exists items|].
  by split; [eexists|].
Qed.

(** Once one page of the listing is replied, all are, as far as the driver takes
    the numbers, and together they are the listing. *)
Lemma listing_pages tid p n search w r : usable w = true → db_ok (view w) →
  (call (ListTenantUsers tid p n search) w).1 = Ret r →
  let all := tenant_listing (S := S) tid (view w) in
  (∀ q, page_fits ((q - 1) * n) n = true → ∃ l,
     (call (ListTenantUsers tid q n search) w).1 = Ret (RUsers l) ∧ ul_total l = length all ∧
     fst <$> ul_items l = page ((q - 1) * n) n all) ∧
  ∀ k, (Z.of_nat (k * n) < 2 ^ 63)%Z → mjoin (page_users tid n search w <$> seq 1 k) = take (k * n) all.
Proof.
  intros Hu Hok Hr all.
  assert (∀ q, page_fits ((q - 1) * n) n = true → ∃ l,
     (call (ListTenantUsers tid q n search) w).1 = Ret (RUsers l) ∧ ul_total l = length all ∧
     fst <$> ul_items l = page ((q - 1) * n) n all) as Hpages.
  { destruct (list_tenant_users_run tid p n search w Hu Hok) as [(items & Hx & Hs & _)|[[e He] _]];
      [|congruence]. intros q Hq.
    destruct (list_tenant_users_run tid q n search w Hu Hok) as [(items' & _ & _ & Hc & Hpage)|[_ Hno]].
    - by eexists.
    - specialize (Hno Hx Hs). congruence. }
  split; [exact Hpages|]. intros k Hk. rewrite <-pages_join. f_equal. apply list_fmap_ext.
  intros i q Hi. apply lookup_seq in Hi as [-> Hi].
  destruct (Hpages (1 + i)%nat) as (l & Hl & _ & Hus); [|unfold page_users; by rewrite Hl].
  unfold page_fits. apply andb_true_intro; split; apply Z.ltb_lt; nia.
Qed.
End tenant_listings.

(** ** Properties *)

Section http_properties.
Context {S : Type} `{SessionLaws S} `{InputsLaws} `{Passlib} `{JoseLaws} `{Pydantic} `{Fastapi}.
Context `{RequestModelLaws} `{Starlette}.
Implicit Types w : World S.

(** C3. Nothing a client can send escapes the access-control machine.  Each HTTP
    request - any method, path, header, query and body - commits nothing or what
    one call does whose arguments satisfy the constraints of the parameters and
    request models; so after any sequence of requests integrity holds, what
    became of users, tenants, permissions, roles and their holders is a sequence
    of the specified changes, and the accounts, tenants and permissions are those
    of the beginning. *)
Theorem http_refines_access_control hs w :
  db_ok (durable w) →
  db_ok (durable (http_run hs w)) ∧
  rtc change (access (durable w)) (access (durable (http_run hs w))) ∧
  users (durable (http_run hs w)) = users (durable w) ∧
  tenants (durable (http_run hs w)) = tenants (durable w) ∧
  permissions (durable (http_run hs w)) = permissions (durable w) ∧
  ∀ h, durable (http_run (hs ++ [h]) w) = durable (http_run hs w) ∨
       ∃ c, well_formed c ∧ durable (http_run (hs ++ [h]) w) = durable (serve c (http_run hs w)).
Proof.
  intros Hok. destruct (http_run_access hs w Hok) as [Hok' Hrtc].
  destruct (rtc_fixed _ _ Hrtc) as (Hu & Ht & Hp & _). split_and!; try done.
  intros h. unfold http_run. rewrite foldl_app. apply http_step.
Qed.

(** C4. Who is asked for credentials.  A request with neither token nor API key is
    turned away by the seventeen endpoints that depend on the current user - 401,
    or 400 and 422 for a malformed tenant header or a body that is not JSON -
    and commits nothing.  The other eighteen never look: their answers and their
    effects are the same without the credentials.  Among these are creating,
    changing and deleting roles, and setting who holds one. *)
Theorem http_credentials h w e ps :
  dispatch_route (app_routes Config.API_V1_STR) (hq_method h) (hq_path h) = Found (ToApi e) ps →
  if guarded e
  then anonymous h →
       (http h w).1 = mkAnswer (if bad_tenant_header h then 400
                                else if malformed_body e h then 422 else 401)%Z None ∧
       durable (http h w).2 = durable w
  else http (strip_credentials h) w = http h w.
Proof.
  intros Hd. destruct (guarded e) eqn:He.
  - intros Ha.
    assert ((router h w).1 = mkAnswer (if malformed_body e h then 422 else 401) None ∧
      durable (router h w).2 = durable w) as Hr.
    { unfold router. rewrite Hd. unfold run_endpoint. destruct (malformed_body e h); [done|].
      pose proof (get_db_durable (endpoint e ps h) w) as Hdur.
      pose proof (get_db_outcome (endpoint e ps h) w) as Hout.
      rewrite guarded_endpoint in Hdur, Hout by done.
      destruct (get_db (endpoint e ps h) w) as [r w']. simpl in Hdur, Hout. subst r.
      split; [done|]. simpl. rewrite Hdur. apply durable_reopen. }
    rewrite http_header. unfold bad_tenant_header.
    destruct (non_empty _) as [s|]; [|done]. by destruct (uuid_parse s).
  - rewrite !http_header. simpl. unfold router. simpl. rewrite Hd. by rewrite open_endpoint.
Qed.

(** C28. No listing of users, roles or invitations replies more entries than the
    page asked for, and validation bounds the page: 100 entries, 200 for
    invitations.  Only the listing of API keys accepts any size.  Where the
    listing of a tenant's users replies a page it replies every page whose
    numbers are [bigint]s, each with the number of all the tenant's users; and
    the first [k] replies, put together, are the first [k] times [n] of them in
    the order of their addresses: none is left out and none repeated. *)
Theorem listing_bounds e ps h c w r n :
  usable w = true → db_ok (view w) →
  to_call e ps h = Some c → (call c w).1 = Ret r → page_size c = Some n →
  (entries r ≤ n)%nat ∧ (e ≠ read_api_keys → (1 ≤ n ≤ 200)%nat) ∧
  ∀ tid p search, c = ListTenantUsers tid p n search → ∃ all,
    NoDup all ∧ StronglySorted (collate_le (S := S) u_email) all ∧
    (∀ u, u ∈ all ↔ users (view w) !! u_id u = Some u ∧ ∃ rid, assigned (view w) (u_id u) rid tid) ∧
    (∀ q, page_fits ((q - 1) * n) n = true → ∃ l,
       (call (ListTenantUsers tid q n search) w).1 = Ret (RUsers l) ∧ ul_total l = length all ∧
       fst <$> ul_items l = page ((q - 1) * n) n all) ∧
    ∀ k, (Z.of_nat (k * n) < 2 ^ 63)%Z → mjoin (page_users tid n search w <$> seq 1 k) = take (k * n) all.
Proof.
  intros Hu Hok Hc Hr Hn. split; [by eapply returns_page|]. split.
  - intros He. pose proof (to_call_well_formed e ps h c Hc) as Hw.
    destruct c; try discriminate Hn; injection Hn as <-; simpl in Hw; try lia.
    revert Hc; destruct e; expand_call; intros Hc; repeat (apply bind_Some in Hc as (? & _ & Hc));
      repeat case_match; simplify_eq.
  - intros tid p search ->. exists (tenant_listing (S := S) tid (view w)).
    destruct (tenant_listing_spec tid (view w) Hok) as (? & ? & ?).
    destruct (listing_pages tid p n search w r Hu Hok Hr). by split_and!.
Qed.
End http_properties.

(** ** Examples *)

Definition plain_get (path : string) (query : list (string * string)) (token tenant : option string) : HttpRequest :=
  mkHttp GET path query token None tenant NoBody.

Definition tenant_url (rest : string) : string := "/api/v1/tenants/" +:+ uuid_str 10 +:+ rest.

(** Nobody in particular puts three users into a role of the sample's tenant. *)
Definition anonymous_takeover : HttpRequest :=
  mkHttp PUT (tenant_url ("/roles/" +:+ uuid_str 20 +:+ "/users")) [] None None None
    (JsonBody (JObject [("user_ids", JList [JStr (uuid_str 2); JStr (uuid_str 4); JStr (uuid_str 1)])])).

Example http_ex :
  (http anonymous_takeover w0).1 = mkAnswer 200 (Some (JObject [("user_ids",
     JList [JStr (uuid_str 2); JStr (uuid_str 4); JStr (uuid_str 1)])])) ∧
  (http (plain_get (tenant_url "/roles/permissions") [] None None) w0).1 = mkAnswer 422 None ∧
  (http (plain_get "/api/v1/users/me" [] None (Some "acme")) w0).1 = mkAnswer 400 None ∧
  (** the guard's refusal wins over the invalid parameter *)
  (http (plain_get "/api/v1/users/" [("limit", "0")] (rq_token alice_in_acme) (Some (uuid_str 10))) w0).1
    = mkAnswer 403 None ∧
  (http (plain_get "/api/v1/api-keys/" [("limit", "ten")] (rq_token alice_in_acme) None) w0).1
    = mkAnswer 422 None ∧
  (http (plain_get "/" [] None None) w0).1 = mkAnswer 200 (Some (JObject [("status", JStr "healthy");
     ("version", JStr "0.1.0"); ("name", JStr "VirtualStack API")])).
Proof. vm_compute. tauto. Qed.

(** The takeover moves the machine. *)
Lemma http_refine_witness :
  db_ok (durable (http_run [anonymous_takeover] w0)) ∧
  access (durable (http_run [anonymous_takeover] w0)) ≠ access (durable w0).
Proof.
  split; [apply (http_refines_access_control [anonymous_takeover] w0 w0_durable_ok)|].
  intros Heq. apply (f_equal (λ a, size (ac_held a))) in Heq. vm_compute in Heq. discriminate Heq.
Defined.

Lemma http_credentials_witness :
  (http (plain_get "/api/v1/users/me" [] None None) w0).1 = mkAnswer 401 None ∧
  http (strip_credentials anonymous_takeover) w0 = http anonymous_takeover w0.
Proof.
  split.
  - apply (http_credentials (plain_get "/api/v1/users/me" [] None None) w0 get_current_user_info []);
      [vm_compute; reflexivity|split_and!; reflexivity].
  - apply (http_credentials anonymous_takeover w0 set_assigned_users_for_role
      [("tenant_id", uuid_str 10); ("role_id", uuid_str 20)]). vm_compute. reflexivity.
Defined.

(** The users of the sample's tenant, one and two per page. *)
Definition user_listing : HttpRequest := plain_get (tenant_url "/users/") [("limit", "2")] None None.

Lemma listing_witness :
  (∃ r : Result, (call (ListTenantUsers 10 1 2 None) w0).1 = Ret r ∧ (entries r ≤ 2)%nat) ∧
  ∃ all, take 4 all = [alice; bob; carol] ∧ ∀ u, u ∈ all ↔ users (view w0) !! u_id u = Some u ∧
    ∃ rid, assigned (view w0) (u_id u) rid 10.
Proof.
  assert (∃ r : Result, (call (ListTenantUsers 10 1 2 None) w0).1 = Ret r) as [r Hr]
    by (vm_compute; eexists; reflexivity).
  destruct (listing_bounds list_users_in_tenant [("tenant_id", uuid_str 10)] user_listing
    (ListTenantUsers 10 1 2 None) w0 r 2 w0_usable w0_ok) as (Hn & _ & Hl);
    [vm_compute; reflexivity|exact Hr|reflexivity|].
  split; [exists r; split; [exact Hr|exact Hn]|].
  destruct (Hl 10%N 1%nat None eq_refl) as (all & _ & _ & Hall & _ & Hk). exists all.
  split; [|exact Hall].
  assert (mjoin (page_users 10 2 None w0 <$> seq 1 2) = [alice; bob; carol]) as Hj
    by (vm_compute; reflexivity).
  rewrite <- Hj. symmetry. apply (Hk 2%nat). reflexivity.
Defined.
