(* ===== verification/HttpSession.v ===== *)
(** * A client's session

    [endpoints/auth.py] and [users.py: /me] over HTTP: a login, whatever requests
    follow - of anyone - and the profile asked for with the token.  The theorem
    puts together what is proved of tokens, routes, request bodies, replies and
    of what no request changes. *)

From stdpp Require Import base tactics list gmap strings relations.
From Stdlib Require Import ZArith Lia.
From S2P Require Import Prelude PyStd Effects Models Session Snapshot.
From S2P Require Import Security Deps.
From S2P Require Config.
From S2P Require Import TenantApi Api Rbac Replies Routing Schemas Http.
Import InvitationApi(Pydantic, toy_pydantic).

(** ** The two requests *)

(** [POST /auth/token] with the form an OAuth2 client sends. *)
Definition login_request (username password : string) : HttpRequest :=
  mkHttp POST "/api/v1/auth/token" [] None None None
    (FormBody [("username", username); ("password", password)]).

(** [GET /users/me] with the token. *)
Definition me_request (token : string) : HttpRequest :=
  mkHttp GET "/api/v1/users/me" [] (Some token) None None NoBody.

(** The body of a login's reply. *)
Definition token_body (token : string) : Json :=
  JObject [("access_token", JStr token); ("token_type", JStr "bearer")].

(** A token issued at [issued] is refused at [n]: both are taken down to the
    second. *)
Definition token_expired (issued n : Z) : bool :=
  ((issued + 1800 * us_per_s) / us_per_s <? n / us_per_s)%Z.

(** The answer that shows a user. *)
Definition profile `{ResponseModel} (u : User) : Answer :=
  match render (RUser u) with Some j => mkAnswer 200 (Some j) | None => mkAnswer 500 None end.

Section session.
Context {S : Type} `{SessionLaws S} `{InputsLaws} `{PasslibLaws} `{JoseLaws} `{Pydantic} `{Fastapi}.
Context `{ResponseModelLaws} {RM : RequestModel} {RML : RequestModelLaws} `{StarletteLaws}.
Implicit Types w : World S.

(** A request without tenant header whose route is known. *)
Lemma http_routed h w e ps :
  hq_tenant h = None → malformed_body e h = false →
  first_match (app_routes Config.API_V1_STR) (hq_method h) (hq_path h) = Some (ToApi e, ps) →
  (http h w).1 = answer_of (success_status e) (endpoint e ps h (reopen w)).1 ∧
  durable (http h w).2 = durable (get_db (endpoint e ps h) w).2.
Proof.
  intros Ht Hb Hf. rewrite http_header, Ht. simpl. unfold router.
  rewrite (first_match_Some _ _ _ _ _ Hf). unfold run_endpoint. rewrite Hb.
  pose proof (get_db_outcome (endpoint e ps h) w) as Hr.
  destruct (get_db (endpoint e ps h) w) as [r w']. simpl in *. by subst r.
Qed.

Lemma login_endpoint username password w : username ≠ "" → password ≠ "" →
  endpoint login_access_token [] (login_request username password) w =
    respond (Login username password) w.
Proof.
  intros Hu Hp. unfold endpoint. expand_call. simpl. by rewrite password_form_plain.
Qed.

(** The reply to [/users/me], from the user of the token. *)
Lemma me_answer token w r w' :
  get_current_user_from_token (Some token) w = (r, w') →
  answer_of 200 (endpoint get_current_user_info [] (me_request token) w).1 =
    match r with
    | Ret (Some u) => profile u
    | Ret None => mkAnswer 401 None
    | Raise e => mkAnswer (http_status 200 (Raise (A := unit) e)) None
    end.
Proof.
  intros Ht. unfold endpoint. expand_call. unfold respond, call, Users.get_current_user_info, get_current_user.
  unfold fmap, M_fmap, mbind, M_bind. simpl. rewrite Ht.
  destruct r as [[u|]|e]; [|done|by destruct e].
  simpl. unfold profile. by destruct (render (RUser u)).
Qed.

(** The rows of users outlast every request. *)
Lemma http_run_users hs w : db_ok (durable w) →
  db_ok (durable (http_run hs w)) ∧ users (durable (http_run hs w)) = users (durable w).
Proof.
  intros Hok. destruct (http_run_access hs w Hok) as [Hok' Hrtc].
  by destruct (rtc_fixed _ _ Hrtc) as [Hu _].
Qed.

(** A login: nothing is committed; a token, which shows its account wherever the
    users are still the same, or no token. *)
Lemma login_answer username password w a w1 :
  db_ok (durable w) → (0 ≤ now w)%Z → (now w + 1800 * us_per_s ≤ dt_max)%Z →
  (∀ i u, users (durable w) !! i = Some u → (i < uuid_bound)%N) →
  username ≠ "" → password ≠ "" → http (login_request username password) w = (a, w1) →
  durable w1 = durable w ∧
  match content a with
  | Some _ => ∃ u token,
      TenantApi.credentials (durable w) username password u ∧ a = mkAnswer 200 (Some (token_body token)) ∧
      ∀ w2, db_ok (durable w2) → users (durable w2) = users (durable w) →
        (http (me_request token) w2).1 =
          if token_expired (now w) (now w2) then mkAnswer 401 None else profile u
  | None => (∀ u, ¬ TenantApi.credentials (durable w) username password u) ∧
      (status a = 401%Z ∨ ∃ i u e, users (durable w) !! i = Some u ∧ u_email u = username ∧
         pwd_verify password (u_hashed_password u) = inr e)
  end.
Proof.
  intros Hok Hn Hmax Hids Hne Hpe Hrun.
  destruct (http_routed (login_request username password) w login_access_token []) as [Ha Hd];
    [done..|]. rewrite Hrun in Ha, Hd. simpl in Ha, Hd.
  rewrite get_db_durable in Hd. rewrite login_endpoint in Ha, Hd by done.
  pose proof (login_spec username password (reopen w) (usable_reopen w)) as HP.
  rewrite view_reopen in HP. specialize (HP Hok Hn Hmax Hids). unfold post in HP.
  destruct (Auth.login_access_token username password (reopen w)) as [r w'] eqn:Hlog.
  destruct HP as [Hw HP].
  assert (respond (Login username password) (reopen w) =
    (match r with Ret token => Ret (token_body token) | Raise e => Raise e end, w')) as Hresp.
  { unfold respond, call, fmap, M_fmap, mbind, M_bind. rewrite Hlog. destruct r as [token|e]; [|done].
    unfold render, response. by rewrite token_json. }
  rewrite Hresp in Ha, Hd. simpl in Ha, Hd.
  assert (durable w1 = durable w) as Hdw.
  { rewrite Hd. unfold durable. rewrite Hw. apply durable_reopen. }
  split; [done|]. subst a. destruct r as [token|e]; simpl.
  - destruct HP as (u & Hc & Htok). exists u, token. split_and!; [done..|]. intros w2 Hok2 Hus2.
    destruct (http_routed (me_request token) w2 get_current_user_info []) as [-> _]; [done..|].
    specialize (Htok (reopen w2) (usable_reopen w2)). rewrite view_reopen, Hus2 in Htok.
    specialize (Htok Hok2 (proj1 Hc)).
    destruct (get_current_user_from_token (Some token) (reopen w2)) as [r2 w3] eqn:Hr2.
    change (success_status get_current_user_info) with 200%Z.
    rewrite (me_answer _ _ _ _ Hr2). simpl in Htok. unfold token_expired.
    change (now (reopen w)) with (now w) in Htok. change (now (reopen w2)) with (now w2) in Htok.
    by destruct (_ <? _)%Z; rewrite Htok.
  - destruct HP as [Hno Hs]. split; [done|]. destruct Hs as [Hs|(i & u & Hi & He & Hp)]; [left; by destruct e|].
    right. by exists i, u, e.
Qed.

(** C17. A session from the outside.  A login commits nothing and succeeds exactly
    with the credentials of an active account, with the token in its body; then,
    whatever requests anyone sends in between, asking for the profile with that
    token shows that account until the half hour is over and gets 401 from then
    on.  A login with other credentials gets no token, and a 401 unless the stored
    hash is unreadable. *)
Theorem http_session username password w a w1 :
  db_ok (durable w) → (0 ≤ now w)%Z → (now w + 1800 * us_per_s ≤ dt_max)%Z →
  (∀ i u, users (durable w) !! i = Some u → (i < uuid_bound)%N) →
  username ≠ "" → password ≠ "" → http (login_request username password) w = (a, w1) →
  durable w1 = durable w ∧
  match content a with
  | Some _ => ∃ u token,
      TenantApi.credentials (durable w) username password u ∧ a = mkAnswer 200 (Some (token_body token)) ∧
      ∀ hs, let w2 := http_run hs w1 in
        (http (me_request token) w2).1 =
          if token_expired (now w) (now w2) then mkAnswer 401 None else profile u
  | None => (∀ u, ¬ TenantApi.credentials (durable w) username password u) ∧
      (status a = 401%Z ∨ ∃ i u e, users (durable w) !! i = Some u ∧ u_email u = username ∧
         pwd_verify password (u_hashed_password u) = inr e)
  end.
Proof.
  intros Hok Hn Hmax Hids Hne Hpe Hrun.
  destruct (login_answer _ _ _ _ _ Hok Hn Hmax Hids Hne Hpe Hrun) as [Hd Ha]. split; [done|].
  destruct (content a); [|done]. destruct Ha as (u & token & Hc & -> & Hme). exists u, token. split_and!; [done..|].
  intros hs. destruct (http_run_users hs w1) as [Hok2 Hus2]; [by rewrite Hd|]. apply Hme; [done|]. by rewrite Hus2, Hd.
Qed.
End session.

(** ** Example *)

(** The profile of the sample's Alice, after somebody else's change of a role. *)
Definition alice_login : HttpRequest := login_request "alice@acme.io" "wonderland".
Definition alice_w : World Snap := (http alice_login w0).2.

Lemma http_session_witness : ∃ token,
  (http alice_login w0).1 = mkAnswer 200 (Some (token_body token)) ∧
  (http (me_request token) (http_run [anonymous_takeover] alice_w)).1 = profile alice.
Proof.
  assert (∀ i u, users (durable w0) !! i = Some u → (i < uuid_bound)%N) as Hids.
  { assert (map_Forall (λ i _, (i < uuid_bound)%N) (users (durable w0))) as HF
      by (apply (bool_decide_unpack _); vm_compute; exact I).
    intros i u Hi. exact (HF i u Hi). }
  destruct (http_session "alice@acme.io" "wonderland" w0 (http alice_login w0).1 alice_w) as [_ HP];
    [exact w0_durable_ok|vm_compute; discriminate|vm_compute; discriminate|exact Hids|discriminate|discriminate
    |unfold alice_w, alice_login; by destruct (http _ w0)|].
  assert (∃ j, content (http alice_login w0).1 = Some j) as [j Hj] by (vm_compute; eexists; reflexivity).
  rewrite Hj in HP. destruct HP as (u & token & (Hu & He & _) & -> & Hme). exists token. split; [done|].
  rewrite (Hme [anonymous_takeover]).
  assert (u = alice) as ->.
  { apply (email_unique (durable w0) (u_id u) 1%N u alice w0_durable_ok Hu); [vm_compute; reflexivity|exact He]. }
  vm_compute. reflexivity.
Defined.
