(* ===== verification/ApiClient.v ===== *)
(** * [scripts/test_api_basic.py]: a client of the running service

    The script's checks, over a network that answers a request or fails
    ([httpx.RequestError]); what it prints is its result.  [at_server] puts the
    application of [Http] behind one address, and the theorems say what the script
    then reports and that it changes nothing. *)

From stdpp Require Import base tactics list gmap strings.
From Stdlib Require Import ZArith Lia.
From S2P Require Import Prelude PyStd Effects Models Session Snapshot Stability.
From S2P Require Import Security Deps.
From S2P Require Config.
From S2P Require Import TenantApi Api Rbac Replies Routing Schemas Http HttpSession.
Import InvitationApi(Pydantic, toy_pydantic).

(** ** Requests to an address *)

Record Fetch := mkFetch {
  f_method : Method;
  f_url : string;
  f_params : list (string * string);
  f_token : option string;                       (** [Authorization: Bearer] *)
  f_form : option (list (string * string))
}.

Definition get_url (url : string) (token : option string) : Fetch := mkFetch GET url [] token None.
Definition post_form (url : string) (data : list (string * string)) : Fetch := mkFetch POST url [] None (Some data).

(** What the script logs of a check: its verdict, or why it stops or skips. *)
Inductive Line :=
  | PASSED (what : string)
  | FAILED (what : string)
  | Info (text : string).

(** ** Reading replies *)

Definition contains (n : string) (m : list (string * Json)) : bool :=
  match attribute n m with Some _ => true | None => false end.

Definition is_str (s : string) (j : option Json) : bool :=
  match j with Some (JStr s') => String.eqb s' s | _ => false end.

(** [not j]. *)
Definition falsy (j : Json) : bool :=
  match j with
  | JNull => true | JBool b => negb b | JInt z => Z.eqb z 0 | JStr s => String.eqb s ""
  | JList l => bool_decide (l = []) | JObject m => bool_decide (m = [])
  end.

(** The body of a 200; any other answer, and none, is logged as a failure. *)
Definition ok_body (a : option Answer) : option Json :=
  match a with Some a => if Z.eqb (status a) 200 then content a else None | None => None end.

(** [any(user.get("email") == name for user in items)], [None] when it raises. *)
Fixpoint any_email (name : string) (items : list Json) : option bool :=
  match items with
  | [] => Some false
  | JObject m :: l => if is_str name (attribute "email" m) then Some true else any_email name l
  | _ :: _ => None
  end.

(** ** The script *)

Definition getenv (environ : gmap string string) (n d : string) : string := default d (environ !! n).

Definition default_base : string := "http://127.0.0.1:8000".
Definition api_v1_base : string := "http://127.0.0.1:8000/api/v1".

Section client.
Context {N : Type} (net : Fetch → N → option Answer * N) (environ : gmap string string).

Definition API_BASE_URL : string := getenv environ "API_BASE_URL" default_base.
Definition TEST_USERNAME : string := getenv environ "TEST_USERNAME" "admin@example.com".
Definition TEST_PASSWORD : string := getenv environ "TEST_PASSWORD" "changeme".

Definition test_health_check (n : N) : list Line * N :=
  let '(a, n) := net (get_url (API_BASE_URL +:+ "/health") None) n in
  (match ok_body a with
   | Some (JObject m) => if is_str "healthy" (attribute "status" m) then [PASSED "Health check"] else [FAILED "Health check"]
   | _ => [FAILED "Health check"]
   end, n).

Definition login_form : list (string * string) := [("username", TEST_USERNAME); ("password", TEST_PASSWORD)].

(** Nothing calls it: [test_login] took its place. *)
Definition get_auth_token (n : N) : option string * list Line * N :=
  let '(a, n) := net (post_form (api_v1_base +:+ "/auth/token") login_form) n in
  match ok_body a with
  | Some (JObject m) =>
      match attribute "access_token" m with
      | Some (JStr t) => if String.eqb t "" then (None, [FAILED "Login"], n) else (Some t, [Info "Login successful"], n)
      | _ => (None, [FAILED "Login"], n)
      end
  | _ => (None, [FAILED "Login"], n)
  end.

(** The token is text in every reply ([Replies.Token]). *)
Definition test_login (n : N) : option string * list Line * N :=
  let '(a, n) := net (post_form (API_BASE_URL +:+ "/api/v1/auth/token") login_form) n in
  match ok_body a with
  | Some (JObject m) =>
      match attribute "access_token" m with
      | Some (JStr t) => if is_str "bearer" (attribute "token_type" m) then (Some t, [], n) else (None, [FAILED "Login"], n)
      | _ => (None, [FAILED "Login"], n)
      end
  | _ => (None, [FAILED "Login"], n)
  end.

Definition test_get_current_user (token : string) (n : N) : bool * list Line * N :=
  let '(a, n) := net (get_url (api_v1_base +:+ "/users/me") (Some token)) n in
  match ok_body a with
  | Some (JObject m) =>
      if contains "id" m && is_str "admin@example.com" (attribute "email" m)
         && contains "is_active" m && contains "is_superuser" m
      then (true, [PASSED "Get current user"], n)
      else (false, [FAILED "Get current user"], n)
  | _ => (false, [FAILED "Get current user"], n)
  end.

(** [tenants[0]["id"] if tenants else None]: the verdict comes before it. *)
Definition test_list_tenants (token : string) (n : N) : option string * list Line * N :=
  let '(a, n) := net (get_url (api_v1_base +:+ "/tenants/") (Some token)) n in
  match ok_body a with
  | None => (None, [FAILED "List tenants"], n)
  | Some j =>
      if falsy j then (None, [PASSED "List tenants"], n)
      else match j with
           | JList (JObject m :: _) =>
               match attribute "id" m with
               | Some (JStr i) => (Some i, [PASSED "List tenants"], n)
               | _ => (None, [PASSED "List tenants"; FAILED "List tenants"], n)
               end
           | _ => (None, [PASSED "List tenants"; FAILED "List tenants"], n)
           end
  end.

Definition test_list_users_in_tenant (token tenant_id : string) (n : N) : list Line * N :=
  if String.eqb tenant_id "" then ([Info "Skipping list users test: No tenant ID available."], n)
  else
    let '(a, n) := net (mkFetch GET (api_v1_base +:+ "/tenants/" +:+ tenant_id +:+ "/users/")
                          [("page", "1"); ("limit", "5")] (Some token) None) n in
    (match ok_body a with
     | Some (JObject m) =>
         match attribute "items" m with
         | Some (JList items) =>
             if contains "total" m then
               match any_email TEST_USERNAME items with Some _ => [PASSED "List users"] | None => [FAILED "List users"] end
             else [FAILED "List users"]
         | _ => [FAILED "List users"]
         end
     | _ => [FAILED "List users"]
     end, n).

Definition main (n : N) : list Line * N :=
  let '(l1, n) := test_health_check n in
  match test_login n with
  | (None, l2, n) => (l1 ++ l2 ++ [Info "Login failed, cannot proceed with authenticated tests."], n)
  | (Some token, l2, n) =>
      if String.eqb token "" then (l1 ++ l2 ++ [Info "Login failed, cannot proceed with authenticated tests."], n)
      else
        let '(me, l3, n) := test_get_current_user token n in
        let l3 := l3 ++ (if me : bool then [] else [Info "Get current user failed"]) in
        let '(tenant, l4, n) := test_list_tenants token n in
        let '(l5, n) :=
          match non_empty tenant with
          | None => ([Info "Skipping user tests as no tenant ID was retrieved."], n)
          | Some tenant_id => test_list_users_in_tenant token tenant_id n
          end in
        (l1 ++ l2 ++ [Info "Login successful"] ++ l3 ++ l4 ++ l5 ++ [Info "Basic API Tests Finished"], n)
  end.
End client.

(** ** A network with one server *)

Fixpoint strip_prefix (p s : string) : option string :=
  match p, s with
  | EmptyString, _ => Some s
  | String a p', String b s' => if Ascii.eqb a b then strip_prefix p' s' else None
  | _, _ => None
  end.

Lemma strip_prefix_app p s : strip_prefix p (p +:+ s) = Some s.
Proof. induction p as [|a p IH]; simpl; [done|]. by rewrite Ascii.eqb_refl. Qed.

Section server.
Context {S : Type} `{Session S} `{Inputs} `{Passlib} `{Jose} `{Pydantic} `{Fastapi}.
Context `{ResponseModel} `{RequestModel} `{Starlette}.

Definition to_request (f : Fetch) (path : string) : HttpRequest :=
  mkHttp (f_method f) path (f_params f) (f_token f) None None
    (match f_form f with Some l => FormBody l | None => NoBody end).

(** Nobody answers at another address. *)
Definition at_server (base : string) (f : Fetch) (w : World S) : option Answer * World S :=
  match strip_prefix base (f_url f) with
  | Some path => let '(a, w') := http (to_request f path) w in (Some a, w')
  | None => (None, w)
  end.
End server.

(** ** Reading requests commit nothing *)

(** The endpoints of the [GET] routes. *)
Definition reading (e : Endpoint) : bool :=
  match e with
  | list_users_in_active_tenant | get_current_user_info | list_accessible_tenants | get_tenant_by_id
  | get_tenant_by_slug | read_api_keys | read_api_key | list_invitations | read_invitation
  | list_users_in_tenant | get_tenant_user | list_roles_in_active_tenant | get_role_details
  | list_available_permissions | get_assigned_users_for_role => true
  | _ => false
  end.

Lemma get_routes : Forall (λ r, GET ∈ methods r → ∀ e, target r = ToApi e → reading e = true) (app_routes Config.API_V1_STR).
Proof.
  assert (forallb (λ r, match target r with
    | ToApi e => reading e || negb (bool_decide (GET ∈ methods r)) | _ => true end) (app_routes Config.API_V1_STR) = true) as Hall by (vm_compute; reflexivity).
  apply Forall_forall. intros r Hr Hget e He.
  pose proof (proj1 (List.forallb_forall _ _) Hall r (proj1 (list_elem_of_In _ _) Hr)) as Hr'. simpl in Hr'. rewrite He in Hr'.
  apply orb_true_iff in Hr' as [?|Hn]; [done|]. by rewrite bool_decide_eq_true_2 in Hn.
Qed.

Section client_facts.
Context {S : Type} `{SessionLaws S} `{InputsLaws} `{PasslibLaws} `{JoseLaws} `{Pydantic} `{Fastapi}.
Context `{ResponseModelLaws} {RM : RequestModel} {RML : RequestModelLaws} `{StarletteLaws}.
Implicit Types w : World S.

Lemma reading_calls e ps h c : reading e = true → to_call e ps h = Some c → reads_only c = true.
Proof.
  intros He Hc. destruct e; try discriminate He; revert Hc; expand_call;
    intros Hc; repeat (apply bind_Some in Hc as (? & _ & Hc)); by injection Hc as <-.
Qed.

Lemma endpoint_nocommit e ps h : reading e = true → nocommit (endpoint (S := S) e ps h).
Proof.
  intros He. unfold endpoint. destruct (to_call e ps h) as [c|] eqn:Hc.
  - intros w. pose proof (handler_nocommit c) as Hn. rewrite (reading_calls e ps h c He Hc), orb_true_r in Hn.
    specialize (Hn eq_refl w). rewrite <-call_handler in Hn. unfold fmap, M_fmap in Hn. unfold respond, mbind, M_bind.
    destruct (call c w) as [[r|x] w']; [|done]. by destruct (render r).
  - apply nocommit_bind; [apply nocommit_guard|intros; apply nocommit_raise].
Qed.

(** [GET] is safe: whatever the path, nothing is committed. *)
Lemma get_commits_nothing h w : hq_method h = GET → durable (http h w).2 = durable w.
Proof.
  intros Hm. rewrite http_header. assert (durable (router h w).2 = durable w) as Hr.
  { unfold router. rewrite Hm. pose proof (dispatch_cases (app_routes Config.API_V1_STR) GET (hq_path h)) as Hd.
    destruct (first_match _ _ _) as [[t ps]|] eqn:Hf.
    - rewrite Hd. destruct t as [e| | |]; try done. unfold run_endpoint. destruct (malformed_body e h); [done|].
      unfold first_match in Hf. apply head_Some_elem_of, list_elem_of_omap in Hf as (r & Hr & Hf).
      apply fmap_Some in Hf as (ps' & Hf & Heq). injection Heq as Ht _. unfold full_match in Hf.
      case_bool_decide as Hget; [|done].
      assert (reading e = true) as He by exact (proj1 (Forall_forall _ _) get_routes r Hr Hget e (eq_sym Ht)).
      pose proof (nocommit_get_db _ (endpoint_nocommit e ps h He) w) as Hn. by destruct (get_db _ w).
    - by destruct Hd as [->|[->|[p ->]]]. }
  destruct (non_empty _) as [x|]; [|done]. by destruct (uuid_parse x).
Qed.

(** The network of one server, address by address. *)
Lemma at_server_url base path f w : f_url f = base +:+ path →
  at_server base f w = let '(a, w') := http (to_request f path) w in (Some a, w').
Proof. intros Hf. unfold at_server. by rewrite Hf, strip_prefix_app. Qed.

Lemma at_server_get base f w : f_method f = GET → durable (at_server base f w).2 = durable w.
Proof.
  intros Hm. unfold at_server. destruct (strip_prefix _ _) as [path|]; [|done].
  pose proof (get_commits_nothing (to_request f path) w Hm) as Hg. by destruct (http _ w).
Qed.

Lemma health_passes environ w : API_BASE_URL environ = default_base →
  test_health_check (at_server default_base) environ w = ([PASSED "Health check"], w).
Proof.
  intros Hb. unfold test_health_check. rewrite Hb, (at_server_url _ "/health") by done.
  rewrite http_header. simpl. unfold router. by rewrite (first_match_Some _ _ _ health_check []).
Qed.

Lemma users_step environ token tid w :
  durable (test_list_users_in_tenant (at_server default_base) environ token tid w).2 = durable w.
Proof.
  unfold test_list_users_in_tenant. destruct (String.eqb tid ""); [done|].
  match goal with |- context [at_server ?b ?f w] => pose proof (at_server_get b f w eq_refl) as Hg; destruct (at_server b f w) as [a w'] end.
  done.
Qed.

Lemma tenants_step token w : durable (test_list_tenants (at_server default_base) token w).2 = durable w.
Proof.
  unfold test_list_tenants.
  match goal with |- context [at_server ?b ?f w] => pose proof (at_server_get b f w eq_refl) as Hg; destruct (at_server b f w) as [a w'] end.
  simpl in Hg. by repeat case_match.
Qed.

(** What the script makes of the profile of an account. *)
Definition profile_passes (u : User) : bool :=
  match email_out (u_email u) with Some e => String.eqb e "admin@example.com" | None => false end.

Lemma me_step token u expired w :
  (http (me_request token) w).1 = (if expired : bool then mkAnswer 401 None else profile u) →
  test_get_current_user (at_server default_base) token w =
    (negb expired && profile_passes u,
     if negb expired && profile_passes u then [PASSED "Get current user"] else [FAILED "Get current user"],
     (http (me_request token) w).2).
Proof.
  intros Ha. unfold test_get_current_user. rewrite (at_server_url _ "/api/v1/users/me") by done.
  change (to_request _ _) with (me_request token). destruct (http (me_request token) w) as [a w']. simpl in *. subst a.
  destruct expired; [done|]. unfold profile, render, response, profile_passes. rewrite user_json.
  destruct (email_out (u_email u)) as [e|]; [|done]. simpl. by destruct (String.eqb e _).
Qed.

Lemma empty_token_refused u w : (http (me_request "") w).1 ≠ profile u.
Proof.
  destruct (http_routed (me_request "") w get_current_user_info []) as [-> _]; [done..|].
  rewrite guarded_endpoint by done. unfold profile. destruct (render (RUser u)); discriminate.
Qed.

Lemma token_fresh n : token_expired n n = false.
Proof. unfold token_expired. apply Z.ltb_ge. apply Z.div_le_mono; unfold us_per_s; lia. Qed.

(** C31. The script against the running application.  Whatever the accounts, it
    commits nothing, and the health check passes.  Without an active account for
    its user name and password it stops after the login.  With one it goes on,
    and reports its check of [/users/me] as passed exactly when the account's
    address is the constant [admin@example.com], whatever user name it was given
    to log in with. *)
Theorem basic_api_test_spec environ w :
  let username := TEST_USERNAME environ in let password := TEST_PASSWORD environ in
  API_BASE_URL environ = default_base → username ≠ "" → password ≠ "" →
  db_ok (durable w) → (0 ≤ now w)%Z → (now w + 1800 * us_per_s ≤ dt_max)%Z →
  (∀ i u, users (durable w) !! i = Some u → (i < uuid_bound)%N) →
  let '(log, w') := main (at_server default_base) environ w in
  let w1 := (http (login_request username password) w).2 in
  durable w' = durable w ∧
  ((∀ u, ¬ TenantApi.credentials (durable w) username password u) →
     log = [PASSED "Health check"; FAILED "Login"; Info "Login failed, cannot proceed with authenticated tests."]) ∧
  (∀ u, TenantApi.credentials (durable w) username password u → ∃ rest,
     log = PASSED "Health check" :: Info "Login successful" ::
       (if negb (token_expired (now w) (now w1)) && profile_passes u then [PASSED "Get current user"]
        else [FAILED "Get current user"; Info "Get current user failed"]) ++ rest).
Proof.
  intros username password Hb Hu Hp Hok Hn Hmax Hids. unfold main. rewrite health_passes by done.
  unfold test_login. rewrite Hb, (at_server_url _ "/api/v1/auth/token") by done.
  change (to_request _ _) with (login_request username password).
  destruct (http (login_request username password) w) as [a w1] eqn:Hlog. simpl.
  destruct (login_answer _ _ _ _ _ Hok Hn Hmax Hids Hu Hp Hlog) as [Hd Ha].
  destruct (content a) as [j|] eqn:Hj.
  - destruct Ha as (u & token & Hc & -> & Hme). injection Hj as <-. simpl.
    assert (String.eqb token "" = false) as ->.
    { apply String.eqb_neq. intros ->. specialize (Hme w Hok eq_refl). rewrite token_fresh in Hme.
      by apply (empty_token_refused u w). }
    assert (db_ok (durable w1)) as Hok1 by (by rewrite Hd).
    specialize (Hme w1 Hok1). rewrite Hd in Hme. specialize (Hme eq_refl).
    rewrite (me_step _ _ _ _ Hme).
    pose proof (get_commits_nothing (me_request token) w1 eq_refl) as Hd2.
    destruct (http (me_request token) w1) as [a2 w2]. simpl in *.
    pose proof (tenants_step token w2) as Hd3.
    destruct (test_list_tenants _ token w2) as [[tid l4] w3]. simpl in *.
    assert (∃ l5 w4, (match non_empty tid with
      | Some t => test_list_users_in_tenant (at_server default_base) environ token t w3
      | None => ([Info "Skipping user tests as no tenant ID was retrieved."], w3) end) = (l5, w4) ∧
      durable w4 = durable w3) as (l5 & w4 & -> & Hd4).
    { destruct (non_empty tid) as [t|]; [|by eexists _, _]. pose proof (users_step environ token t w3) as Hd4.
      destruct (test_list_users_in_tenant _ _ _ _ _) as [l5 w4]. by eexists _, _. }
    split_and!.
    + by rewrite Hd4, Hd3, Hd2, Hd.
    + intros Hno. by destruct (Hno u).
    + intros u' Hc'. assert (u' = u) as ->.
      { destruct Hc as (Hl & He & _), Hc' as (Hl' & He' & _).
        apply (email_unique (durable w) (u_id u') (u_id u) u' u Hok Hl' Hl). congruence. }
      destruct (negb _ && _); simpl; by eexists.
  - destruct Ha as [Hno _].
    assert ((if Z.eqb (status a) 200 then None else None) = @None Json) as -> by (by destruct (Z.eqb _ _)).
    simpl. split_and!; [done|done|]. intros u Hc. by destruct (Hno u).
Qed.
End client_facts.

Definition sample_environ : gmap string string :=
  {[ "TEST_USERNAME" := "alice@acme.io"; "TEST_PASSWORD" := "wonderland" ]}.

(** The sample's Alice logs in, and the script calls her profile a failure. *)
Example basic_api_test_witness :
  durable (main (at_server default_base) sample_environ w0).2 = durable w0 ∧
  ∃ rest, (main (at_server default_base) sample_environ w0).1 =
    PASSED "Health check" :: Info "Login successful" :: FAILED "Get current user" :: Info "Get current user failed" :: rest.
Proof.
  assert (∀ i u, users (durable w0) !! i = Some u → (i < uuid_bound)%N) as Hids.
  { assert (map_Forall (λ i _, (i < uuid_bound)%N) (users (durable w0))) as HF
      by (apply (bool_decide_unpack _); vm_compute; exact I).
    intros i u Hi. exact (HF i u Hi). }
  assert (TenantApi.credentials (durable w0) (TEST_USERNAME sample_environ) (TEST_PASSWORD sample_environ) alice) as Hc
    by (vm_compute; auto).
  pose proof (basic_api_test_spec sample_environ w0 ltac:(vm_compute; reflexivity) ltac:(vm_compute; discriminate)
    ltac:(vm_compute; discriminate) w0_durable_ok ltac:(vm_compute; discriminate) ltac:(vm_compute; discriminate) Hids) as H.
  destruct (main (at_server default_base) sample_environ w0) as [log w'].
  destruct H as (Hd & _ & Hl). split; [exact Hd|]. destruct (Hl alice Hc) as [rest Hr]. exists rest.
  simpl. rewrite Hr. vm_compute. reflexivity.
Defined.

(** [API_BASE_URL] moves the health check and the login only: against a service
    elsewhere every later check is sent to the constant address and fails. *)
Example other_address :
  (main (at_server "http://api:8000") (<["API_BASE_URL" := "http://api:8000"]> sample_environ) w0).1 =
    [PASSED "Health check"; Info "Login successful"; FAILED "Get current user"; Info "Get current user failed";
     FAILED "List tenants"; Info "Skipping user tests as no tenant ID was retrieved."; Info "Basic API Tests Finished"].
Proof. vm_compute. reflexivity. Qed.
