(* ===== verification/Frame.v ===== *)
(** * What requests can never change

    The frame of the whole interface: rows that only the passage of time and the
    four role operations may touch.  [kept t0 t] compares the content [t0] of
    some moment with a later [t]: keys keep everything but the marks of their
    use, invitations only close.  Every handler keeps it ([serve_kept]), so every
    sequence of HTTP requests does - and a key, once stored, admits its owner
    whatever anyone sends to withdraw it. *)

From stdpp Require Import base tactics list gmap strings relations.
From Stdlib Require Import ZArith Lia.
From S2P Require Import Prelude PyStd Effects Models Session Snapshot Crud Stability.
From S2P Require Import RoleService UserService Security InvitationService Sha256 ApiKeyService Deps.
From S2P Require Permissions Config.
From S2P Require InvitationApi.
From S2P Require Import TenantApi RoleApi Api Rbac Replies Routing Schemas Http HttpSession.
Import InvitationApi(Pydantic, toy_pydantic).

(** ** Rows that persist *)

(** Every row of [m] is still in [m'], related by [R]. *)
Definition persist {A} (R : A → A → Prop) (m m' : gmap Uuid A) : Prop :=
  ∀ i x, m !! i = Some x → ∃ y, m' !! i = Some y ∧ R x y.

Section persist.
Context {A : Type} (R : A → A → Prop) `{!PreOrder R}.

#[global] Instance persist_preorder : PreOrder (persist R).
Proof.
  split.
  - intros m i x Hx. by exists x.
  - intros m1 m2 m3 H12 H23 i x Hx. apply H12 in Hx as (y & Hy & Hxy).
    apply H23 in Hy as (z & Hz & Hyz). exists z. split; [done|]. by etrans.
Qed.

Lemma persist_insert m i x y : m !! i = Some x → R x y → persist R m (<[i := y]> m).
Proof.
  intros Hx Hxy j z Hz. destruct (decide (i = j)) as [->|Hne].
  - exists y. rewrite lookup_insert, decide_True by done. split; [done|]. congruence.
  - exists z. by rewrite lookup_insert_ne.
Qed.

Lemma persist_new m i y : m !! i = None → persist R m (<[i := y]> m).
Proof.
  intros Hn j z Hz. exists z. rewrite lookup_insert_ne by congruence. done.
Qed.
End persist.

(** A key with other marks of use. *)
Definition same_key (k k' : APIKey) : Prop := ∃ d u,
  k' = mkAPIKey (k_id k) (k_name k) (k_key_prefix k) (k_key_hash k) (k_description k) (k_is_active k)
         (k_expires_at k) d (k_user_id k) (k_tenant_id k) (k_created_at k) u (k_scope k).

#[global] Instance same_key_preorder : PreOrder same_key.
Proof.
  split.
  - intros k. exists (k_last_used_at k), (k_updated_at k). by destruct k.
  - intros k1 k2 k3 (d & u & ->) (d' & u' & ->). by exists d', u'.
Qed.

(** The steps of an invitation that is not accepted. *)
Inductive quiet_step : Invitation → Invitation → Prop :=
  | quiet_revoke i o : i_status i = PENDING → stored o (set_status REVOKED i) → quiet_step i o
  | quiet_expire i o n : (i_expires_at i < n)%Z → stored o (set_status EXPIRED i) → quiet_step i o.

Lemma quiet_status_step i o : quiet_step i o → status_step i o.
Proof. intros []; [by apply step_revoke|by eapply step_expire]. Qed.

Lemma quiet_steps_unaccepted i o : rtc quiet_step i o →
  (i_status o = ACCEPTED → i_status i = ACCEPTED) ∧ i_user_id o = i_user_id i ∧
  i_accepted_at o = i_accepted_at i.
Proof.
  induction 1 as [i|i o p Hs _ IH]; [done|]. destruct IH as (Hacc & Hu & Ha).
  destruct Hs as [i o _ Hst|i o n _ Hst];
    destruct (stored_fields _ _ Hst) as (_&_&_&Es&_&Ea&_&_&Eu&_); simpl in *;
    (split; [intros Hp; by apply Hacc in Hp; rewrite Es in Hp|split; congruence]).
Qed.

Definition kept (t0 t : Tables) : Prop :=
  db_ok t ∧ persist same_key (api_keys t0) (api_keys t) ∧
  persist (rtc quiet_step) (invitations t0) (invitations t).

(** The same keys and invitations. *)
Definition beside (t0 t : Tables) : Prop := api_keys t = api_keys t0 ∧ invitations t = invitations t0.

Lemma kept_refl t : db_ok t → kept t t.
Proof. intros Hok. split; [done|]. split; reflexivity. Qed.

Lemma kept_key t0 t k k' : kept t0 t → db_ok (with_key k' t) →
  api_keys t !! k_id k = Some k → same_key k k' → kept t0 (with_key k' t).
Proof.
  intros (_ & Hk & Hi) Hok Hl Hs. split; [done|]. split; [|done]. etrans; [exact Hk|].
  simpl. assert (k_id k' = k_id k) as -> by (by destruct Hs as (? & ? & ->)).
  by eapply persist_insert; [apply _|..].
Qed.

Lemma kept_invitation t0 t i o : kept t0 t → db_ok (with_invitation o t) →
  invitations t !! i_id i = Some i → quiet_step i o → kept t0 (with_invitation o t).
Proof.
  intros (_ & Hk & Hi) Hok Hl Hs. split; [done|]. split; [done|]. etrans; [exact Hi|]. simpl.
  rewrite (status_step_id _ _ (quiet_status_step _ _ Hs)).
  eapply persist_insert; [apply _|exact Hl|by apply rtc_once].
Qed.

Lemma kept_new_key t0 t k : kept t0 t → db_ok (with_key k t) →
  api_keys t !! k_id k = None → kept t0 (with_key k t).
Proof.
  intros (_ & Hk & Hi) Hok Hl. split; [done|]. split; [|done]. etrans; [exact Hk|].
  apply persist_new; [apply _|done].
Qed.

Lemma kept_new_invitation t0 t o : kept t0 t → db_ok (with_invitation o t) →
  invitations t !! i_id o = None → kept t0 (with_invitation o t).
Proof.
  intros (_ & Hk & Hi) Hok Hl. split; [done|]. split; [done|]. etrans; [exact Hi|].
  apply persist_new; [apply _|done].
Qed.

(** ** Every handler keeps them *)

Section handlers.
Context {S : Type} `{SessionLaws S} `{InputsLaws} `{Passlib} `{JoseLaws} `{Pydantic} `{Fastapi}.
Implicit Types w : World S.

Lemma keeps_usable P {A} (m : M (World S) A) :
  (∀ w, usable w = false → (m w).2 = w) →
  (∀ w, usable w = true → holds P w → post m w (λ _ w', holds P w')) → keeps P m.
Proof.
  intros Hno Hm w Hw. destruct (usable w) eqn:Hu.
  - specialize (Hm w Hu Hw). unfold post in Hm. by destruct (m w).
  - by rewrite Hno.
Qed.

Context (t0 : Tables).
Notation K := (kept t0).

Lemma keeps_create_key mk : keeps (S := S) K (Crud.create (R := APIKey) mk).
Proof.
  unfold Crud.create. repeat (apply keeps_bind; [|intros ?]); auto with sound.
  apply keeps_exec. intros t t' Ht Hins. pose proof Ht as [Hok _].
  pose proof (insert_row_ok _ _ _ Hok (ok_api_keys _ Hok) Hins) as Hok'.
  apply insert_row_eq in Hins as (Hn & -> & _). by apply kept_new_key.
Qed.

Lemma keeps_create_invitation mk : keeps (S := S) K (Crud.create (R := Invitation) mk).
Proof.
  unfold Crud.create. repeat (apply keeps_bind; [|intros ?]); auto with sound.
  apply keeps_exec. intros t t' Ht Hins. pose proof Ht as [Hok _].
  pose proof (insert_row_ok _ _ _ Hok (ok_invitations _ Hok) Hins) as Hok'.
  apply insert_row_eq in Hins as (Hn & -> & _). by apply kept_new_invitation.
Qed.

(** Validation writes the marks of use. *)
Lemma keeps_validate raw : keeps (S := S) K (validate_api_key raw).
Proof.
  apply keeps_usable.
  - intros w Hu. unfold validate_api_key. case_match; [done|]. unfold mbind, M_bind, query. by rewrite Hu.
  - intros w Hu [Hd Hv]. specialize (Hv Hu). pose proof Hv as [Hok _].
    eapply post_mono; [by apply validate_api_key_post|].
    intros r w' (Hd' & Hok' & Hu' & [(_ & _ & ->)|(_ & k & (Hl & _) & Hr)]); [done|].
    destruct (expiry_test k (now w)) as [[]|]; [| |].
    + destruct Hr as [_ ->]. done.
    + destruct Hr as (k' & u & _ & _ & Hv' & Hk'). split; [by rewrite Hd'|]. intros _.
      rewrite Hv' in Hok' |- *. eapply kept_key; [done..|].
      destruct Hk' as [->|[n ->]]; unfold same_key; simpl; eauto.
    + destruct Hr as [_ ->]. done.
Qed.

Lemma keeps_verify_token token : keeps (S := S) K (verify_token token).
Proof.
  apply keeps_usable.
  - intros w Hu. unfold verify_token, get_by_token, mbind, M_bind, query. by rewrite Hu.
  - intros w Hu [Hd Hv]. specialize (Hv Hu). pose proof Hv as [Hok _].
    apply verify_token_post; [done..| |].
    + intros i _ _. by split.
    + intros i o w' [Hi _] He Hst Hv' Hd' _ Hok'. rewrite Hv' in Hok'.
      assert (K (view w')) as HK; [|by split; [rewrite Hd'|]].
      rewrite Hv'. eapply kept_invitation; [done|done|exact Hi|]. by eapply quiet_expire.
Qed.

Lemma keeps_revoke id : keeps (S := S) K (InvitationService.revoke_invitation id).
Proof.
  apply keeps_usable.
  - intros w Hu. unfold InvitationService.revoke_invitation, get, mbind, M_bind, query. by rewrite Hu.
  - intros w Hu [Hd Hv]. specialize (Hv Hu). pose proof Hv as [Hok _].
    unfold InvitationService.revoke_invitation. apply post_bind, post_get; [done|apply Hok|]. simpl.
    destruct (invitations (view w) !! id) as [i|] eqn:Hi; [|by apply post_ret].
    pose proof (model_ids (ok_invitations _ Hok) id i Hi) as Hid. simpl in Hid. subst id.
    case_bool_decide as Hp; [by apply post_ret|].
    apply post_bind. eapply post_mono; [by apply (flush_invitation_post i (set_status REVOKED i))|].
    intros [o|e] w' [Hd' Hr].
    + destruct Hr as (Hu' & Hok' & Hst & Hv' & _). rewrite Hv' in Hok'.
      assert (K (view w')) as HK.
      { rewrite Hv'. eapply kept_invitation; [done|done|exact Hi|]. by apply quiet_revoke. }
      wp. by split; autorewrite with world.
    + destruct Hr as [Hu' _]. split; [by rewrite Hd'|by rewrite Hu'].
Qed.
#[local] Hint Resolve keeps_create_key keeps_create_invitation keeps_validate keeps_verify_token
  keeps_revoke : sound.

Lemma keeps_current_user rq : keeps (S := S) K (get_current_user rq).
Proof.
  unfold get_current_user, get_current_user_from_token, get_current_user_from_api_key, token_handler.
  solve_sound.
Qed.
#[local] Hint Resolve keeps_current_user : sound.

Lemma keeps_permission uid tid perm :
  keeps (S := S) K (check_user_permission_for_tenant uid tid perm).
Proof. unfold check_user_permission_for_tenant, Permissions.get_by_code. solve_sound. Qed.
#[local] Hint Resolve keeps_permission : sound.

(** A computation followed by one that never returns. *)
Lemma keeps_bind_raises P {A B} (m : M (World S) A) (f : A → M (World S) B) :
  keeps P m → (∀ w, ∃ e, (m w).1 = Raise e) → keeps P (m ≫= f).
Proof.
  intros Hm Hr w Hw. specialize (Hm w Hw). destruct (Hr w) as [e He]. unfold mbind, M_bind.
  destruct (m w) as [[a|e'] w']; [done|]. exact Hm.
Qed.

(** Accepting gets no further than the account that can not be created. *)
Lemma keeps_accept payload : keeps (S := S) K (InvitationApi.accept_invitation payload).
Proof.
  unfold InvitationApi.accept_invitation, InvitationApi.create_user_call, InvitationApi.unexpected.
  apply keeps_try; [|intros e; solve_sound]. apply keeps_bind; [solve_sound|]. intros i.
  apply keeps_bind; [solve_sound|]. intros i'. apply keeps_bind_raises; [solve_sound|].
  intros w. unfold try_catch, lift. destruct (InvitationApi.user_create_schema _ _ _ _) as [u|e];
    unfold mbind, M_bind, raise, mret, M_ret; simpl; [by eexists|]. destruct (is_value_error e); by eexists.
Qed.

Definition role_free_call (c : Call) : bool := writes_lost c || reads_only c || role_call c.

Lemma handler_kept c : role_free_call c = false → keeps (S := S) K (handler c).
Proof.
  destruct c; try discriminate; intros _; unfold handler, ApiKeys.create_api_key,
    create_with_user, _generate_api_key, InvitationApi.create_invitation,
    InvitationService.create_invitation, InvitationApi.verify_invitation_token,
    InvitationApi.revoke_invitation, InvitationApi.unexpected,
    get_invitation_with_details, require_permission_in_active_tenant, get_current_active_tenant,
    get_current_active_user, check_active_tenant_permission, scalar_exists, token_urlsafe, token_bytes.
  5: { apply keeps_bind; [apply keeps_accept|intros; apply keeps_ret]. }
  all: solve_sound.
Qed.

(** The role operations write neither keys nor invitations. *)
Lemma beside_create_role mk : keeps (S := S) (beside t0) (Crud.create (R := Role) mk).
Proof. by apply keeps_create. Qed.
Lemma beside_flush_role (r r' : Role) : keeps (S := S) (beside t0) (flush_row r r').
Proof. by apply keeps_flush_row. Qed.
Lemma beside_update_role (r : Role) patch : keeps (S := S) (beside t0) (Crud.update r patch).
Proof.
  unfold Crud.update. destruct (patch r); [apply beside_flush_role|].
  apply keeps_bind; [by apply keeps_exec|intros ?; apply keeps_ret].
Qed.
Lemma beside_refresh ns : keeps (S := S) (beside t0) (refresh_role ns).
Proof. induction ns as [|n ns IH]; simpl; solve_sound; eauto. Qed.
#[local] Hint Resolve beside_create_role beside_update_role beside_refresh : sound.

Lemma beside_insert_permissions rid ps t t' :
  beside t0 t → insert_role_permissions rid ps t = inl t' → beside t0 t'.
Proof. by intros Hb (-> & _)%insert_role_permissions_inv. Qed.
Lemma beside_insert_users n rid tid us t t' :
  beside t0 t → insert_users_for_role n rid tid us t = inl t' → beside t0 t'.
Proof. by intros Hb ([m ->] & _)%insert_users_for_role_lookup. Qed.
#[local] Hint Resolve beside_insert_permissions beside_insert_users : db.

Lemma role_call_beside c : role_call c = true → keeps (S := S) (beside t0) (handler c).
Proof.
  destruct c; try discriminate; intros _; unfold handler, Roles.create_custom_role_in_tenant,
    Roles.update_custom_role_in_tenant, Roles.delete_custom_role_from_tenant,
    Roles.set_assigned_users_for_role, get_tenant_from_path, inject_none, create_custom_role,
    update_custom_role, delete_custom_role, set_users_for_role, set_role_permissions,
    get_by_name_in_tenant, check_role_assigned, get_role_with_permissions; solve_sound.
Qed.
End handlers.

(** ** Properties *)

Section frame.
Context {S : Type} `{SessionLaws S} `{InputsLaws} `{Passlib} `{JoseLaws} `{Pydantic} `{Fastapi}.
Implicit Types w : World S.

Lemma serve_kept c w : db_ok (durable w) → kept (durable w) (durable (serve c w)).
Proof.
  intros Hok. destruct (writes_lost c || reads_only c) eqn:Hn.
  { assert (durable (serve c w) = durable w) as ->
      by (unfold serve; apply nocommit_get_db; by apply handler_nocommit). by apply kept_refl. }
  destruct (role_call c) eqn:Hr.
  - assert (beside (durable w) (durable (serve c w))) as [Hk Hi]
      by (by apply (keeps_get_db (beside (durable w)) (handler c)); [apply role_call_beside|]).
    split; [by apply (run_integrity [c])|]. by rewrite Hk, Hi; split.
  - apply (keeps_get_db (kept (durable w)) (handler c)); [|by apply kept_refl]. apply handler_kept. unfold role_free_call. by rewrite Hn, Hr.
Qed.

Lemma kept_trans t1 t2 t3 : kept t1 t2 → kept t2 t3 → kept t1 t3.
Proof.
  intros (_ & Hk1 & Hi1) (Hok & Hk2 & Hi2). split; [done|]. split; by etrans.
Qed.
End frame.

Section http_frame.
Context {S : Type} `{SessionLaws S} `{InputsLaws} `{PasslibLaws} `{JoseLaws} `{Pydantic} `{Fastapi}.
Context `{ResponseModelLaws} {RM : RequestModel} {RML : RequestModelLaws} `{StarletteLaws}.
Implicit Types w : World S.

Lemma http_run_kept hs w : db_ok (durable w) → kept (durable w) (durable (http_run hs w)).
Proof.
  unfold http_run. revert w. induction hs as [|h hs IH]; intros w Hok; simpl; [by apply kept_refl|].
  eapply kept_trans; [|apply IH, http_step_sound, Hok].
  destruct (http_step h w) as [->|(c & _ & ->)]; [by apply kept_refl|by apply serve_kept].
Qed.

(** C8. The frame of the interface.  Whatever HTTP requests arrive, accounts,
    tenants and permissions stay as they are; no API key is deleted, deactivated,
    renamed or given another expiry, owner or secret - only the marks of its use
    move; no invitation disappears and none is ever accepted: it is revoked while
    it is pending, or expires. *)
Theorem http_frame hs w :
  db_ok (durable w) →
  let t := durable w in let t' := durable (http_run hs w) in
  users t' = users t ∧ tenants t' = tenants t ∧ permissions t' = permissions t ∧
  (∀ i k, api_keys t !! i = Some k → ∃ k', api_keys t' !! i = Some k' ∧ same_key k k') ∧
  (∀ i x, invitations t !! i = Some x → ∃ o, invitations t' !! i = Some o ∧ rtc quiet_step x o ∧
     (i_status o = ACCEPTED → i_status x = ACCEPTED) ∧ i_user_id o = i_user_id x ∧
     i_accepted_at o = i_accepted_at x).
Proof.
  intros Hok t t'. destruct (http_run_access hs w Hok) as [_ Hrtc].
  destruct (rtc_fixed _ _ Hrtc) as (Hu & Ht & Hp & _).
  destruct (http_run_kept hs w Hok) as (_ & Hk & Hi). split_and!; try done.
  intros i x Hx. destruct (Hi i x Hx) as (o & Ho & Hs). exists o. split; [done|]. split; [done|].
  by apply quiet_steps_unaccepted.
Qed.

(** [GET /users/me] with a key in the header [X-API-Key]. *)
Definition me_by_key (raw : string) : HttpRequest :=
  mkHttp GET "/api/v1/users/me" [] None (Some raw) None NoBody.

Lemma me_by_key_answer raw w r w' :
  str_truthy raw = true → validate_api_key raw w = (r, w') →
  answer_of 200 (endpoint get_current_user_info [] (me_by_key raw) w).1 =
    match r with
    | Ret (Some (_, u)) => profile u
    | Ret None => mkAnswer 401 None
    | Raise e => mkAnswer (http_status 200 (Raise (A := unit) e)) None
    end.
Proof.
  intros Hraw Hv. unfold endpoint. expand_call. unfold respond, call, Users.get_current_user_info,
    get_current_user, get_current_user_from_token, get_current_user_from_api_key.
  unfold fmap, M_fmap, mbind, M_bind. simpl. unfold non_empty. rewrite Hraw. cbn -[validate_api_key].
  rewrite Hraw, Hv. destruct r as [[[k u]|]|e]; [|done|by destruct e].
  simpl. unfold profile. by destruct (render (RUser u)).
Qed.

(** C11. An API key can not be withdrawn.  Once a key is stored, active, its raw
    form admits its owner after any requests of anyone - those that answered
    success to deactivating, shortening or deleting it among them - until the
    expiry it was created with; a key with an expiry gets 500 instead where the
    database delivers aware timestamps. *)
Theorem api_keys_never_withdrawn raw k w :
  db_ok (durable w) → authenticates (durable w) raw k → (8 ≤ str_len raw)%nat →
  ∃ u, users (durable w) !! k_user_id k = Some u ∧
    ∀ hs, let w' := http_run hs w in
      (http (me_by_key raw) w').1 =
        match k_expires_at k with
        | None => profile u
        | Some e => if sess_tz_aware (S := S) then mkAnswer 500 None
                    else if (dt_instant e <? now w')%Z then mkAnswer 401 None else profile u
        end.
Proof.
  intros Hok (Hl & Hpre & Hhash & Hact) Hlen.
  destruct (model_fk (ok_api_keys _ Hok) (k_id k) k FkApiKeyUser (RefUser (k_user_id k)) Hl) as [u Hu];
    [simpl; set_solver|].
  exists u. split; [done|]. intros hs w'.
  destruct (http_run_kept hs w Hok) as (Hok' & Hk & _). fold w' in Hok', Hk.
  destruct (http_run_users hs w Hok) as [_ Hus]. fold w' in Hus.
  destruct (Hk _ _ Hl) as (k' & Hl' & d & n & ->).
  destruct (http_routed (me_by_key raw) w' get_current_user_info []) as [-> _]; [done..|].
  assert (str_truthy raw = true) as Hraw by (by destruct raw; [unfold str_len in Hlen; simpl in Hlen; lia|]).
  pose proof (validate_api_key_post raw (reopen w') (usable_reopen w')) as HP. rewrite view_reopen in HP.
  specialize (HP Hok'). unfold post in HP.
  destruct (validate_api_key raw (reopen w')) as [r w2] eqn:Hr. destruct HP as (_ & _ & _ & HP).
  change (success_status get_current_user_info) with 200%Z. rewrite (me_by_key_answer _ _ _ _ Hraw Hr).
  match type of Hl' with _ = Some ?x => set (k' := x) in Hl' end.
  assert (authenticates (durable w') raw k') as Hauth by done.
  destruct HP as [([Hshort|Hno] & _)|(_ & j & Hj & Hcase)]; [lia|by destruct (Hno k')|].
  pose proof (authenticates_unique _ _ _ _ Hok' Hj Hauth) as ->.
  unfold expiry_test, loaded in Hcase. simpl in Hcase. rewrite Hus in Hcase.
  change (now (reopen w')) with (now w') in Hcase.
  destruct (k_expires_at k) as [e|].
  - destruct (sess_tz_aware (S := S)); simpl in Hcase.
    + by destruct Hcase as [[m ->] _].
    + destruct (dt_instant e <? now w')%Z; [by destruct Hcase as [-> _]|].
      destruct Hcase as (k2 & u' & -> & Hu' & _). congruence.
  - destruct Hcase as (k2 & u' & -> & Hu' & _). congruence.
Qed.
End http_frame.

(** ** Example *)

(** Alice stores a key, then deletes it with it. *)
Definition create_key_request : HttpRequest :=
  mkHttp POST "/api/v1/api-keys/" [] (rq_token alice_in_acme) None None
    (JsonBody (JObject [("name", JStr "ci"); ("scope", JStr "GLOBAL")])).

Definition key_w : World Snap := (http create_key_request w0).2.
Definition alice_raw : string := raw_key_of (token_bytes_at 0).
Definition alice_key : option APIKey := snd <$> head (map_to_list (api_keys (durable key_w))).

Definition delete_key_request (k : APIKey) : HttpRequest :=
  mkHttp DELETE ("/api/v1/api-keys/" +:+ uuid_str (k_id k)) [] None (Some alice_raw) None NoBody.

Lemma never_withdrawn_witness : ∃ k, alice_key = Some k ∧
  status (http (delete_key_request k) key_w).1 = 204%Z ∧
  (http (me_by_key alice_raw) (http_run [delete_key_request k] key_w)).1 = profile alice.
Proof.
  destruct alice_key as [k|] eqn:Hk; [|vm_compute in Hk; discriminate Hk].
  vm_compute in Hk. injection Hk as <-. eexists. split; [reflexivity|]. split; [vm_compute; reflexivity|].
  match goal with |- (http _ (http_run [delete_key_request ?k] _)).1 = _ =>
    destruct (api_keys_never_withdrawn alice_raw k key_w) as (u & Hu & Hme) end.
  - apply http_step_sound, w0_durable_ok.
  - split_and!; vm_compute; reflexivity.
  - vm_compute. lia.
  - rewrite (Hme [delete_key_request _]). simpl. vm_compute in Hu. injection Hu as <-. reflexivity.
Defined.

Lemma http_frame_witness :
  users (durable (http_run [anonymous_takeover; create_key_request] w0)) = users (durable w0).
Proof. apply (http_frame [anonymous_takeover; create_key_request] w0 w0_durable_ok). Defined.
