(* ===== verification/Imports.v ===== *)
(** * Importing modules

    What Python's import system does with a package of source modules, as the
    backend uses it: [sys.modules], a package loaded before its submodules, a
    module entered in [sys.modules] before its body runs and taken out when the
    body raises, [from m import x] with its fallback to a submodule, star
    imports and [__all__].  The table of modules is a parameter: the backend's is
    [ModuleTable]. *)

From stdpp Require Import base tactics list gmap strings sets relations.
From Stdlib Require Import Ascii Lia.
From S2P Require Import Prelude PyStd Effects.

(** ** Names and statements *)

(** A dotted name, the innermost component first. *)
Notation Name := (list string).
Notation "p ⋅ x" := (cons x%string p) (at level 40, left associativity) : vs_scope.

Fixpoint dotted (p : Name) : string :=
  match p with
  | [] => ""
  | [c] => c
  | c :: q => String.append (dotted q) (String.append "." c)
  end.

(** What a statement of a module's top level does to its namespace, and what it
    needs.  [A]: the statements whose outcome depends on the environment. *)
Inductive Stmt (A : Type) :=
  | Lib (distribution : string) (names : list string)        (** [import d], [from d import ...], outside the package *)
  | From (source : Name) (names : list (string * string))    (** [from source import x as y, ...] *)
  | FromStar (source : Name)                                 (** [from source import *] *)
  | All (names : list string)                                (** [__all__ = [...]] *)
  | Def (names uses : list string)                           (** a definition: what it binds, the names it evaluates *)
  | Do (a : A) (names uses : list string).                   (** the same, for a statement that may raise *)
Arguments Lib {A}. Arguments From {A}. Arguments FromStar {A}. Arguments All {A}. Arguments Def {A}. Arguments Do {A}.

Record Source (A : Type) := mkSource {
  is_package : bool;
  body : list (Stmt A)
}.
Arguments mkSource {A}. Arguments is_package {A}. Arguments body {A}.

(** ** The interpreter *)

Record Namespace := mkNamespace {
  bound : gset string;
  all_names : option (list string)
}.

Record Interp := mkInterp {
  sys_modules : gmap Name Namespace;
  executed : list Name               (** the bodies started, in order *)
}.

Inductive Failure :=
  | ModuleNotFound (n : Name)                   (** [ModuleNotFoundError: No module named n] *)
  | NotAPackage (n : Name)                      (** the same, [n]'s parent being no package *)
  | CannotImportName (x : string) (n : Name)    (** [ImportError: cannot import name x from n] *)
  | NoAttribute (x : string) (n : Name)         (** [AttributeError], of a star import *)
  | NotDefined (x : string)                     (** [NameError] *)
  | Raised (e : Exn).

Inductive Outcome :=
  | Done (s : Interp)
  | Failed (e : Failure) (s : Interp)
  | OutOfFuel.

Notation Import := (Interp → Outcome).

Definition and_then (m k : Import) : Import := λ s,
  match m s with Done s' => k s' | o => o end.
Notation "m ⨾ k" := (and_then m k) (at level 80, right associativity) : vs_scope.

Fixpoint for_each {B} (f : B → Import) (l : list B) : Import :=
  match l with [] => Done | x :: l' => f x ⨾ for_each f l' end.

Definition fresh : Interp := mkInterp ∅ [].

Definition loaded (p : Name) (s : Interp) : bool := bool_decide (is_Some (sys_modules s !! p)).

(** [hasattr(sys.modules[p], x)]. *)
Definition has (p : Name) (x : string) (s : Interp) : bool :=
  match sys_modules s !! p with Some ns => bool_decide (x ∈ bound ns) | None => false end.

Definition bind (p : Name) (x : string) : Import := λ s,
  Done (mkInterp (alter (λ ns, mkNamespace ({[x]} ∪ bound ns) (all_names ns)) p (sys_modules s)) (executed s)).

Definition set_all (p : Name) (xs : list string) : Import := λ s,
  Done (mkInterp (alter (λ ns, mkNamespace (bound ns) (Some xs)) p (sys_modules s)) (executed s)).

Definition start (p : Name) (s : Interp) : Interp :=
  mkInterp (<[p := mkNamespace ∅ None]> (sys_modules s)) (executed s ++ [p]).

(** A body that raises takes its module out of [sys.modules]. *)
Definition finish (p : Name) (o : Outcome) : Outcome :=
  match o with
  | Failed e s => Failed e (mkInterp (delete p (sys_modules s)) (executed s))
  | _ => o
  end.

Section imports.
Context {A : Type} (files : gmap Name (Source A)) (effect : A → option Exn).

(** [hasattr(sys.modules[p], '__path__')]. *)
Definition has_path (p : Name) (s : Interp) : bool :=
  loaded p s && match files !! p with Some f => is_package f | None => false end.

Section body.
Variable load : Name → Import.

(** One name of [_handle_fromlist]: a submodule is imported when the package
    has no such attribute; that it does not exist is no error yet. *)
Definition fromlist (src : Name) (x : string) : Import := λ s,
  if has src x s then Done s
  else if has_path src s then
    match load (src ⋅ x) s with
    | Failed (ModuleNotFound n) s' =>
        if bool_decide (n = src ⋅ x) then Done s' else Failed (ModuleNotFound n) s'
    | o => o
    end
  else Done s.

(** [IMPORT_FROM], then the binding. *)
Definition import_name (p src : Name) (xy : string * string) : Import := λ s,
  if has src xy.1 s || loaded (src ⋅ xy.1) s then bind p xy.2 s
  else Failed (CannotImportName xy.1 src) s.

(** The attribute of a star import. *)
Definition export_name (p src : Name) (x : string) : Import := λ s,
  if has src x s then bind p x s else Failed (NoAttribute x src) s.

Definition use (p : Name) (x : string) : Import := λ s,
  if has p x s then Done s else Failed (NotDefined x) s.

Definition is_private (x : string) : bool := match x with String c _ => Ascii.eqb c "_" | _ => false end.

Definition import_star (p src : Name) : Import := λ s,
  match sys_modules s !! src with
  | Some (mkNamespace _ (Some xs)) => (for_each (fromlist src) xs ⨾ for_each (export_name p src) xs) s
  | Some (mkNamespace b None) => for_each (bind p) (filter (λ x, is_private x = false) (elements b)) s
  | None => Done s
  end.

Definition perform (a : A) : Import := λ s,
  match effect a with Some e => Failed (Raised e) s | None => Done s end.

Definition exec_stmt (p : Name) (st : Stmt A) : Import :=
  match st with
  | Lib _ xs => for_each (bind p) xs
  | From src xs => load src ⨾ for_each (fromlist src) xs.*1 ⨾ for_each (import_name p src) xs
  | FromStar src => load src ⨾ import_star p src
  | All xs => bind p "__all__" ⨾ set_all p xs
  | Def xs us => for_each (use p) us ⨾ for_each (bind p) xs
  | Do a xs us => for_each (use p) us ⨾ perform a ⨾ for_each (bind p) xs
  end.

Definition exec_body (p : Name) (l : list (Stmt A)) : Import := for_each (exec_stmt p) l.

(** [_find_and_load]. *)
Fixpoint find_and_load (p : Name) : Import := λ s,
  match p with
  | [] => Done s
  | c :: q =>
      if loaded p s then Done s
      else
        (find_and_load q ⨾ λ s,
          if loaded p s then Done s
          else if negb (bool_decide (q = []) || has_path q s) then Failed (NotAPackage p) s
          else match files !! p with
               | None => Failed (ModuleNotFound p) s
               | Some f => ((λ s, finish p (exec_body p (body f) (start p s))) ⨾ bind q c) s
               end) s
  end.
End body.

(** [import p]; the fuel bounds the nesting of bodies. *)
Fixpoint import_module (fuel : nat) (p : Name) : Import :=
  match fuel with
  | O => λ _, OutOfFuel
  | S n => find_and_load (import_module n) p
  end.

(** A name that [m]'s body imports from, or its package. *)
Definition sources (f : Source A) : list Name :=
  omap (λ st, match st with From src _ | FromStar src => Some src | _ => None end) (body f).

Definition requires (m d : Name) : Prop :=
  d ≠ [] ∧ ((∃ f, files !! m = Some f ∧ d ∈ sources f) ∨ ∃ c, m = d ⋅ c).
End imports.

(** ** Relations an import respects *)

Section theory.
Context {A : Type} (files : gmap Name (Source A)) (effect : A → option Exn).

Notation imp := (import_module files effect).

(** [R s o]: the outcome [o] is admissible from [s].  An import respects [R]
    when its primitive steps do. *)
Record Respectful (R : Interp → Outcome → Prop) : Prop := {
  r_refl s : R s (Done s);
  r_seq s s1 o : R s (Done s1) → R s1 o → R s o;
  r_bind s p x s' : bind p x s = Done s' → R s (Done s');
  r_set_all s p xs s' : set_all p xs s = Done s' → R s (Done s');
  r_fail s e : (∀ n, e = ModuleNotFound n → files !! n = None) → R s (Failed e s)
}.

(** The two steps that call [import_module]: running a body, from [R] inside
    the body to [R'] outside, and the submodule that does not exist. *)
Definition loads (n : nat) (R R' : Interp → Outcome → Prop) : Prop :=
  ∀ c q s f, sys_modules s !! (q ⋅ c) = None → files !! (q ⋅ c) = Some f → q = [] ∨ loaded q s = true →
    let o := exec_body files effect (imp n) (q ⋅ c) (body f) (start (q ⋅ c) s) in
    R (start (q ⋅ c) s) o → R' s (finish (q ⋅ c) o).

Definition misses (n : nat) (R : Interp → Outcome → Prop) : Prop :=
  ∀ q c s s', loaded q s = true → imp n (q ⋅ c) s = Failed (ModuleNotFound (q ⋅ c)) s' → R s (Done s').

Definition respects (R : Interp → Outcome → Prop) (m : Import) : Prop := ∀ s, R s (m s).

Section respects.
Context (R : Interp → Outcome → Prop) (HR : Respectful R).

Lemma respects_done : respects R Done.
Proof. intros s. apply (r_refl _ HR). Qed.

Lemma respects_bind p x : respects R (bind p x).
Proof. intros s. by apply (r_bind _ HR s p x). Qed.

Lemma respects_set_all p xs : respects R (set_all p xs).
Proof. intros s. by apply (r_set_all _ HR s p xs). Qed.

Lemma respects_fail e s : (∀ n, e ≠ ModuleNotFound n) → R s (Failed e s).
Proof. intros He. apply (r_fail _ HR). intros n ->. by destruct (He n). Qed.

Lemma respects_then m k : respects R m → respects R k → respects R (m ⨾ k).
Proof.
  intros Hm Hk s. unfold and_then. specialize (Hm s). destruct (m s) as [s1| |]; try done.
  by apply (r_seq _ HR _ s1).
Qed.

Lemma respects_for_each {B} (f : B → Import) l : (∀ x, respects R (f x)) → respects R (for_each f l).
Proof.
  intros Hf. induction l as [|x l IH]; [apply respects_done|]. by apply respects_then.
Qed.

Lemma respects_guard (b : Interp → bool) (m : Import) e :
  (∀ n, e ≠ ModuleNotFound n) → respects R m → respects R (λ s, if b s then m s else Failed e s).
Proof. intros He Hm s. destruct (b s); [apply Hm|by apply respects_fail]. Qed.
End respects.
#[local] Hint Resolve respects_done respects_bind respects_set_all respects_then respects_for_each : respects.

Section body.
Context (n : nat) (R R' : Interp → Outcome → Prop) (HR : Respectful R) (HR' : Respectful R').
Context (Hload : ∀ p, respects R (imp n p)) (Hmisses : misses n R) (Hloads : loads n R R').

Lemma respects_fromlist src x : respects R (fromlist files (imp n) src x).
Proof.
  intros s. unfold fromlist. destruct (has src x s); [apply (r_refl _ HR)|].
  destruct (has_path files src s) eqn:Hp; [|apply (r_refl _ HR)].
  pose proof (Hload (src ⋅ x) s) as Hl. destruct (imp n (src ⋅ x) s) as [s1|e s1|] eqn:He; try done.
  destruct e as [m| | | | |]; try done. case_bool_decide as Hm; [|done]. subst m.
  apply (Hmisses src x); [|done]. by apply andb_true_iff in Hp as [? _].
Qed.

Lemma respects_names p src xs :
  respects R (for_each (fromlist files (imp n) src) xs.*1 ⨾ for_each (import_name p src) xs).
Proof.
  apply respects_then; [done| |]; apply respects_for_each; try done; [by apply respects_fromlist|].
  intros xy. apply (respects_guard R HR (λ s, _ || _)); auto with respects; done.
Qed.

Lemma respects_star p src : respects R (import_star files (imp n) p src).
Proof.
  intros s. unfold import_star. destruct (sys_modules s !! src) as [[b [xs|]]|]; [| |apply (r_refl _ HR)].
  - apply respects_then; [done| |]; apply respects_for_each; try done; [by apply respects_fromlist|]. intros x.
    apply (respects_guard R HR (has src x)); auto with respects; done.
  - apply respects_for_each; auto with respects.
Qed.

Lemma respects_stmt p st : respects R (exec_stmt files effect (imp n) p st).
Proof.
  assert (∀ x, respects R (use p x)) as Huse by (intros x; apply (respects_guard R HR (has p x)); auto with respects; done).
  destruct st; simpl; auto using respects_names, respects_star with respects.
  apply respects_then; [done|auto with respects|]. apply respects_then; [done| |auto with respects].
  intros s. unfold perform. destruct (effect a); [by apply respects_fail|apply (r_refl _ HR)].
Qed.

Lemma respects_body p l : respects R (exec_body files effect (imp n) p l).
Proof. apply respects_for_each; [done|]. intros st. apply respects_stmt. Qed.

Lemma respects_find p : respects R' (find_and_load files effect (imp n) p).
Proof.
  induction p as [|c q IH]; intros s; simpl; [apply (r_refl _ HR')|].
  destruct (loaded (q ⋅ c) s); [apply (r_refl _ HR')|]. revert s. apply respects_then; [done..|]. intros s.
  destruct (loaded (q ⋅ c) s) eqn:Hl; [apply (r_refl _ HR')|].
  destruct (bool_decide (q = []) || has_path files q s) eqn:Hq; [|by apply respects_fail]. simpl.
  destruct (files !! (q ⋅ c)) as [f|] eqn:Hf; [|apply (r_fail _ HR'); by intros ? [= <-]].
  assert (R' s (finish (q ⋅ c) (exec_body files effect (imp n) (q ⋅ c) (body f) (start (q ⋅ c) s)))) as H.
  { apply Hloads; [|done| |by apply respects_body].
    - apply eq_None_not_Some. unfold loaded in Hl. by apply bool_decide_eq_false in Hl.
    - apply orb_true_iff in Hq as [Hq|Hq]; [left; by apply bool_decide_eq_true in Hq|right].
      by apply andb_true_iff in Hq as [? _]. }
  unfold and_then. destruct (finish _ _) as [s1| |]; try done. by apply (r_seq _ HR' _ s1), respects_bind.
Qed.
End body.

Lemma import_respects R n p :
  Respectful R → (∀ s, R s OutOfFuel) → (∀ n, misses n R) → (∀ n, loads n R R) → respects R (imp n p).
Proof.
  intros HR Hfuel Hm Hl. revert p. induction n as [|n IH]; intros p s; [apply Hfuel|]. by apply (respects_find n R R).
Qed.

(** The module a [ModuleNotFoundError] names does not exist. *)
Definition names_missing (_ : Interp) (o : Outcome) : Prop :=
  match o with Failed (ModuleNotFound m) _ => files !! m = None | _ => True end.

Lemma import_not_found n p s m s' : imp n p s = Failed (ModuleNotFound m) s' → files !! m = None.
Proof.
  intros He. enough (respects names_missing (imp n p)) as HR by (specialize (HR s); by rewrite He in HR).
  apply import_respects; [split| | |]; try done.
  - intros ? [] He'; try done. by apply He'.
  - intros k c q s1 f _ _ _ o Ho. subst o. by destruct (exec_body _ _ _ _ _ _) as [|[]|].
Qed.

(** A submodule that does not exist leaves no trace. *)
Lemma import_missing n q c s s' :
  loaded q s = true → imp n (q ⋅ c) s = Failed (ModuleNotFound (q ⋅ c)) s' → s' = s.
Proof.
  intros Hq He. pose proof (import_not_found _ _ _ _ _ He) as Hf. destruct n as [|n]; [done|].
  cbn [import_module find_and_load] in He. destruct (loaded (q ⋅ c) s); [done|].
  assert (find_and_load files effect (imp n) q s = Done s) as Hfq by (destruct q; simpl; [done|by rewrite Hq]).
  unfold and_then at 1 in He. rewrite Hfq in He. rewrite Hf in He.
  destruct (loaded (q ⋅ c) s); [done|]. destruct (negb _); [done|]. by injection He.
Qed.

Lemma misses_refl R n : Respectful R → misses n R.
Proof. intros HR q c s s' Hq He. rewrite (import_missing _ _ _ _ _ Hq He). apply (r_refl _ HR). Qed.

(** ** What an import leaves behind *)

Definition dom_grows (s s' : Interp) : Prop := ∀ m, loaded m s = true → loaded m s' = true.

#[global] Instance dom_grows_preorder : PreOrder dom_grows.
Proof. split; [by intros s m|intros s1 s2 s3 H1 H2 m Hm; by apply H2, H1]. Qed.

Lemma loaded_alter m p f s :
  loaded m (mkInterp (alter f p (sys_modules s)) (executed s)) = loaded m s.
Proof.
  unfold loaded. apply bool_decide_ext. simpl. destruct (decide (p = m)) as [->|Hp].
  - rewrite lookup_alter_eq. by rewrite fmap_is_Some.
  - by rewrite lookup_alter_ne.
Qed.

Lemma loaded_start m p s : loaded m (start p s) = bool_decide (m = p) || loaded m s.
Proof.
  unfold loaded, start. simpl. destruct (decide (m = p)) as [->|Hp].
  - rewrite lookup_insert_eq, (bool_decide_eq_true_2 (p = p)) by done. by apply bool_decide_eq_true_2.
  - rewrite lookup_insert_ne by done. by rewrite (bool_decide_eq_false_2 (m = p)).
Qed.

Lemma bind_loaded p x s s' : bind p x s = Done s' → (∀ m, loaded m s' = loaded m s) ∧ executed s' = executed s.
Proof. intros [= <-]. split; [intros m; apply loaded_alter|done]. Qed.

Lemma set_all_loaded p xs s s' : set_all p xs s = Done s' → (∀ m, loaded m s' = loaded m s) ∧ executed s' = executed s.
Proof. intros [= <-]. split; [intros m; apply loaded_alter|done]. Qed.

Lemma loaded_None m s : sys_modules s !! m = None → loaded m s = false.
Proof. intros Hm. unfold loaded. apply bool_decide_eq_false. by rewrite Hm, <-eq_None_not_Some. Qed.

Definition grows (s : Interp) (o : Outcome) : Prop :=
  match o with Done s' => dom_grows s s' | _ => True end.

Lemma grows_respectful : Respectful grows.
Proof.
  split; simpl; try done.
  - intros s s1 [s'| |] H1 H2; simpl in *; [|done..]. by trans s1.
  - intros s p x s' Hb m. by rewrite (proj1 (bind_loaded _ _ _ _ Hb)).
  - intros s p x s' Hb m. by rewrite (proj1 (set_all_loaded _ _ _ _ Hb)).
Qed.

Lemma import_grows n p : respects grows (imp n p).
Proof.
  apply import_respects; [apply grows_respectful|done|intros k; apply misses_refl, grows_respectful|].
  intros k c q s f _ _ _ o. destruct o as [s'| |]; simpl; try done. intros Hg m Hm. apply Hg.
  by rewrite loaded_start, Hm, orb_true_r.
Qed.

Lemma grows_misses n : misses n grows.
Proof. apply misses_refl, grows_respectful. Qed.

Lemma body_grows n p l : respects grows (exec_body files effect (imp n) p l).
Proof. apply respects_body; [apply grows_respectful|intros q; apply import_grows|apply grows_misses]. Qed.

Lemma body_grows_Done n p l s s' : exec_body files effect (imp n) p l s = Done s' → dom_grows s s'.
Proof. intros He. pose proof (body_grows n p l s) as Hg. by rewrite He in Hg. Qed.

(** *** A module imported is there, and so is all it imports from *)

Lemma then_Done m k s s' : (m ⨾ k) s = Done s' → ∃ s1, m s = Done s1 ∧ k s1 = Done s'.
Proof. unfold and_then. destruct (m s) as [s1| |]; [|done..]. by exists s1. Qed.

Lemma import_loaded n p s s' : p ≠ [] → imp n p s = Done s' → loaded p s' = true.
Proof.
  intros Hp. destruct n as [|n]; [done|]. destruct p as [|c q]; [done|]. cbn [import_module find_and_load].
  destruct (loaded (q ⋅ c) s) eqn:Hl; [by intros [= <-]|].
  intros (s1 & _ & Hs1)%then_Done. destruct (loaded (q ⋅ c) s1) eqn:Hl1; [by injection Hs1 as <-|].
  destruct (negb _); [done|]. destruct (files !! (q ⋅ c)) as [f|]; [|done].
  apply then_Done in Hs1 as (s2 & Hs2 & Hb). rewrite (proj1 (bind_loaded _ _ _ _ Hb)).
  destruct (exec_body _ _ _ _ _ _) as [s3| |] eqn:He; try done. injection Hs2 as <-.
  apply (body_grows_Done _ _ _ _ _ He). by rewrite loaded_start, bool_decide_eq_true_2.
Qed.

Lemma body_sources n p l s s' :
  exec_body files effect (imp n) p l s = Done s' →
  ∀ st src, st ∈ l → (∃ xs, st = From src xs) ∨ st = FromStar src → src ≠ [] → loaded src s' = true.
Proof.
  revert s. induction l as [|st0 l IH]; intros s Hs st src Hst Hsrc Hne; [by apply elem_of_nil in Hst|].
  apply then_Done in Hs as (s1 & Hs1 & Hs'). apply elem_of_cons in Hst as [->|Hst]; [|by apply (IH s1 Hs' st)].
  apply (body_grows_Done _ _ _ _ _ Hs').
  assert (∃ k, (imp n src ⨾ k) s = Done s1 ∧ respects grows k) as (k & Hk & Hgk).
  { pose proof grows_respectful as HR. destruct Hsrc as [[xs ->]| ->]; simpl in Hs1; (eexists; split; [exact Hs1|]).
    - apply respects_names; [done|intros q; apply import_grows|apply grows_misses].
    - apply respects_star; [done|intros q; apply import_grows|apply grows_misses]. }
  apply then_Done in Hk as (s2 & Hs2 & Hk). specialize (Hgk s2). rewrite Hk in Hgk. apply Hgk.
  by apply (import_loaded n _ s).
Qed.

Definition closed (s s' : Interp) : Prop :=
  ∀ m, loaded m s' = true → loaded m s = false →
    is_Some (files !! m) ∧ ∀ d, requires files m d → loaded d s' = true.

Definition closes (s : Interp) (o : Outcome) : Prop :=
  match o with Done s' => dom_grows s s' ∧ closed s s' | _ => True end.

Lemma closed_same s s' : (∀ m, loaded m s' = loaded m s) → dom_grows s s' ∧ closed s s'.
Proof. intros Hs. split; intros m; rewrite Hs; [done|]. by intros ->. Qed.

Lemma closes_respectful : Respectful closes.
Proof.
  split; simpl; try done.
  - intros s. by apply closed_same.
  - intros s s1 [s2| |] [Hg1 Hc1] Ho; simpl in *; [|done..]. destruct Ho as [Hg2 Hc2]. split; [by trans s1|].
    intros m Hm2 Hm. destruct (loaded m s1) eqn:Hm1; [|by apply Hc2].
    destruct (Hc1 m Hm1 Hm) as [Hf Hd]. split; [done|]. intros d Hr. by apply Hg2, Hd.
  - intros s p x s' [Hb _]%bind_loaded. by apply closed_same.
  - intros s p x s' [Hb _]%set_all_loaded. by apply closed_same.
Qed.

Lemma import_closes n p : respects closes (imp n p).
Proof.
  apply import_respects; [apply closes_respectful|done|intros k; apply misses_refl, closes_respectful|].
  intros k c q s f Hs Hf Hq o. subst o. destruct (exec_body _ _ _ _ _ _) as [s'| |] eqn:He; simpl; try done.
  intros [Hg Hc]. split.
  { intros m Hm. apply Hg. by rewrite loaded_start, Hm, orb_true_r. }
  intros m Hm' Hm. destruct (decide (m = q ⋅ c)) as [->|Hne].
  - split; [done|]. intros d [Hd [(f' & Hf' & Hin)|(c' & Heq)]].
    + simplify_eq. apply list_elem_of_omap in Hin as (st & Hst & Hsrc). apply (body_sources _ _ _ _ _ He st); [done| |done].
      destruct st; simplify_eq; eauto.
    + injection Heq as -> ->. destruct Hq as [->|Hq]; [done|]. apply Hg. by rewrite loaded_start, Hq, orb_true_r.
  - apply Hc; [done|]. by rewrite loaded_start, Hm, bool_decide_eq_false_2.
Qed.

(** *** No body runs twice *)

Definition once (s : Interp) (o : Outcome) : Prop :=
  match o with
  | Done s' => dom_grows s s' ∧ ∃ l, executed s' = executed s ++ l ∧ NoDup l ∧
      (∀ m, m ∈ l → loaded m s = false ∧ is_Some (files !! m) ∧ loaded m s' = true) ∧
      ∀ m, loaded m s' = true → loaded m s = true ∨ m ∈ l
  | Failed _ s' => ∃ l, executed s' = executed s ++ l ∧ NoDup l ∧
      ∀ m, m ∈ l → loaded m s = false ∧ is_Some (files !! m)
  | OutOfFuel => True
  end.

Lemma once_same s s' : (∀ m, loaded m s' = loaded m s) ∧ executed s' = executed s → once s (Done s').
Proof.
  intros [Hs He]. split; [by intros m; rewrite Hs|]. exists []. rewrite app_nil_r. split_and!; [done|constructor| |].
  - by intros m ?%elem_of_nil.
  - intros m Hm. left. by rewrite <-Hs.
Qed.

Lemma once_respectful : Respectful once.
Proof.
  split.
  - intros s. by apply once_same.
  - intros s s1 o [Hg1 (l1 & He1 & Hn1 & Hl1 & Hb1)] Ho.
    assert (∀ l2, NoDup l2 → (∀ m, m ∈ l2 → loaded m s1 = false) → NoDup (l1 ++ l2)) as Happ.
    { intros l2 Hn2 Hl2. apply NoDup_app. split_and!; [done| |done]. intros m Hm1 Hm2.
      apply Hl2 in Hm2. apply Hl1 in Hm1 as (_ & _ & Hm1). congruence. }
    assert (∀ m, loaded m s1 = false → loaded m s = false) as Hback.
    { intros m Hm. apply not_true_is_false. intros Hm'. apply Hg1 in Hm'. congruence. }
    destruct o as [s2|e s2|]; simpl in *; [| |done].
    + destruct Ho as [Hg2 (l2 & He2 & Hn2 & Hl2 & Hb2)]. split; [by trans s1|]. exists (l1 ++ l2).
      rewrite He2, He1, app_assoc. split_and!; [done|apply Happ; naive_solver| |].
      * intros m [Hm|Hm]%elem_of_app; [|naive_solver]. destruct (Hl1 m Hm) as (? & ? & ?). auto.
      * intros m [Hm|Hm]%Hb2; [|right; apply elem_of_app; auto]. destruct (Hb1 m Hm); [auto|].
        right. apply elem_of_app. auto.
    + destruct Ho as (l2 & He2 & Hn2 & Hl2). exists (l1 ++ l2). rewrite He2, He1, app_assoc.
      split_and!; [done|apply Happ; naive_solver|]. intros m [Hm|Hm]%elem_of_app; naive_solver.
  - intros s p x s' Hb%bind_loaded. by apply once_same.
  - intros s p x s' Hb%set_all_loaded. by apply once_same.
  - intros s e _. exists []. rewrite app_nil_r. split_and!; [done|constructor|]. by intros m ?%elem_of_nil.
Qed.

Lemma import_once n p : respects once (imp n p).
Proof.
  apply import_respects; [apply once_respectful|done|intros k; apply misses_refl, once_respectful|].
  intros k c q s f Hs Hf Hq o. subst o. apply loaded_None in Hs.
  assert (∀ l, NoDup l → (∀ m, m ∈ l → loaded m (start (q ⋅ c) s) = false) →
    NoDup (q ⋅ c :: l) ∧ ∀ m, m ∈ q ⋅ c :: l → loaded m s = false) as Hcons.
  { intros l Hn Hl. split.
    - constructor; [|done]. intros Hin. apply Hl in Hin. by rewrite loaded_start, bool_decide_eq_true_2 in Hin.
    - intros m [->|Hm]%elem_of_cons; [done|]. apply Hl in Hm. rewrite loaded_start in Hm.
      by apply orb_false_iff in Hm as [_ ?]. }
  destruct (exec_body _ _ _ _ _ _) as [s'|e s'|]; simpl; [| |done].
  - intros [Hg (l & He & Hn & Hl & Hb)]. destruct (Hcons l) as [Hn' Hl']; [done|naive_solver|].
    split; [intros m Hm; apply Hg; by rewrite loaded_start, Hm, orb_true_r|].
    exists (q ⋅ c :: l). rewrite He, <-app_assoc. split_and!; [done..| |]; intros m Hm.
    + split; [by apply Hl'|]. apply elem_of_cons in Hm as [->|Hm]; [|naive_solver]. split; [done|]. apply Hg.
      by rewrite loaded_start, bool_decide_eq_true_2.
    + destruct (Hb m Hm) as [Hs'|Hin]; [|right; by right]. rewrite loaded_start in Hs'.
      apply orb_true_iff in Hs' as [->%bool_decide_eq_true|Hs']; [right; left|by left].
  - intros (l & He & Hn & Hl). destruct (Hcons l) as [Hn' Hl']; [done|naive_solver|].
    exists (q ⋅ c :: l). rewrite He, <-app_assoc. split_and!; [done..|]. intros m Hm. split; [by apply Hl'|].
    apply elem_of_cons in Hm as [->|Hm]; naive_solver.
Qed.

(** *** Termination *)

(** The modules that are still to be loaded. *)
Definition remaining (s : Interp) : nat := size (dom files ∖ dom (sys_modules s) : gset Name).

Lemma loaded_dom m s : loaded m s = true ↔ m ∈ dom (sys_modules s).
Proof. unfold loaded. by rewrite bool_decide_eq_true, elem_of_dom. Qed.

Lemma remaining_grows s s' : dom_grows s s' → (remaining s' ≤ remaining s)%nat.
Proof.
  intros Hg. unfold remaining. apply subseteq_size. intros m [Hf Hm]%elem_of_difference. apply elem_of_difference. split; [done|].
  rewrite <-loaded_dom in *. auto.
Qed.

Lemma remaining_start p s :
  sys_modules s !! p = None → is_Some (files !! p) → S (remaining (start p s)) = remaining s.
Proof.
  intros Hs%not_elem_of_dom Hf%elem_of_dom. unfold remaining, start. simpl. rewrite dom_insert_L.
  generalize dependent (dom (sys_modules s)). generalize dependent (dom files). intros F Hf D Hs.
  assert (size (F ∖ D) = size (({[p]} : gset Name) ∪ F ∖ ({[p]} ∪ D))) as ->.
  { f_equal. apply set_eq. intros m. destruct (decide (m = p)) as [->|]; set_solver. }
  rewrite (size_union (C := gset Name) {[p]} (F ∖ ({[p]} ∪ D))) by set_solver.
  by rewrite (size_singleton (C := gset Name)).
Qed.

Definition fuelled (k : nat) (s : Interp) (o : Outcome) : Prop :=
  match o with Done s' => dom_grows s s' | Failed _ _ => True | OutOfFuel => (k ≤ remaining s)%nat end.

Lemma fuelled_respectful k : Respectful (fuelled k).
Proof.
  split; simpl; try done.
  - intros s s1 [s2| |] Hg Ho; simpl in *; [by trans s1|done|]. apply remaining_grows in Hg. lia.
  - intros s p x s' [Hb _]%bind_loaded m. by rewrite Hb.
  - intros s p x s' [Hb _]%set_all_loaded m. by rewrite Hb.
Qed.

Lemma import_fuelled n p : respects (fuelled n) (imp n p).
Proof.
  revert p. induction n as [|n IH]; intros p; [intros s; simpl; lia|]. simpl.
  apply (respects_find n (fuelled n) (fuelled (S n))); [apply fuelled_respectful..|done| |].
  { apply misses_refl, fuelled_respectful. }
  intros c q s f Hs Hf Hq o. subst o. destruct (exec_body _ _ _ _ _ _) as [s'| |]; simpl; try done.
  - intros Hg m Hm. apply Hg. by rewrite loaded_start, Hm, orb_true_r.
  - rewrite <-(remaining_start (q ⋅ c) s) by done. lia.
Qed.

(** [import] terminates: the bodies on the stack are all different. *)
Lemma import_terminates n p s : (remaining s < n)%nat → imp n p s ≠ OutOfFuel.
Proof.
  intros Hn Ho. pose proof (import_fuelled n p s) as Hf. rewrite Ho in Hf. simpl in Hf. lia.
Qed.
End theory.

(** ** More fuel, and an environment that answers the same, change nothing *)

Section agree.
Context {A : Type} (files : gmap Name (Source A)) (effect effect' : A → option Exn).
Context (Heffect : ∀ a, effect' a = effect a).

Definition agrees (m m' : Import) : Prop := ∀ s, m s ≠ OutOfFuel → m' s = m s.

Lemma agrees_refl m : agrees m m.
Proof. by intros s. Qed.

Lemma agrees_then m m' k k' : agrees m m' → agrees k k' → agrees (m ⨾ k) (m' ⨾ k').
Proof.
  intros Hm Hk s. unfold and_then. specialize (Hm s). destruct (m s) as [s1|e s1|]; [| |done].
  - rewrite Hm by done. apply Hk.
  - by rewrite Hm.
Qed.

Lemma agrees_for_each {B} (f f' : B → Import) l : (∀ x, agrees (f x) (f' x)) → agrees (for_each f l) (for_each f' l).
Proof. intros Hf. induction l; simpl; [apply agrees_refl|by apply agrees_then]. Qed.

Section load.
Context (load load' : Name → Import) (Hload : ∀ p, agrees (load p) (load' p)).

Lemma agrees_fromlist src x : agrees (fromlist files load src x) (fromlist files load' src x).
Proof.
  intros s. unfold fromlist. destruct (has src x s); [done|]. destruct (has_path files src s); [|done].
  specialize (Hload (src ⋅ x) s). destruct (load (src ⋅ x) s); [by rewrite Hload..|done].
Qed.

Lemma agrees_stmt p st : agrees (exec_stmt files effect load p st) (exec_stmt files effect' load' p st).
Proof.
  destruct st; simpl; try apply agrees_refl.
  - repeat apply agrees_then; try apply agrees_refl; [apply Hload|]. apply agrees_for_each, agrees_fromlist.
  - apply agrees_then; [apply Hload|]. intros s. unfold import_star.
    destruct (sys_modules s !! source) as [[b [xs|]]|]; [|done..].
    apply agrees_then; [|apply agrees_refl]. apply agrees_for_each, agrees_fromlist.
  - repeat apply agrees_then; try apply agrees_refl. intros s. unfold perform. by rewrite Heffect.
Qed.

Lemma agrees_find p : agrees (find_and_load files effect load p) (find_and_load files effect' load' p).
Proof.
  induction p as [|c q IH]; intros s; simpl; [done|]. destruct (loaded (q ⋅ c) s); [done|].
  revert s. apply agrees_then; [done|]. intros s. destruct (loaded (q ⋅ c) s); [done|].
  destruct (negb _); [done|]. destruct (files !! (q ⋅ c)) as [f|]; [|done]. revert s.
  apply agrees_then; [|apply agrees_refl]. intros s.
  assert (agrees (exec_body files effect load (q ⋅ c) (body f)) (exec_body files effect' load' (q ⋅ c) (body f))) as Hb.
  { apply agrees_for_each. intros st. apply agrees_stmt. }
  specialize (Hb (start (q ⋅ c) s)). destruct (exec_body files effect load _ _ _); simpl; intros H; [by rewrite Hb..|done].
Qed.
End load.

Lemma import_agrees n m p : (n ≤ m)%nat → agrees (import_module files effect n p) (import_module files effect' m p).
Proof.
  revert m p. induction n as [|n IH]; intros m p Hm; [by intros s|]. destruct m as [|m]; [lia|].
  apply agrees_find. intros q. apply IH. lia.
Qed.
End agree.

(** ** From a fresh interpreter *)

Section from_fresh.
Context {A : Type} (files : gmap Name (Source A)) (effect : A → option Exn).

Lemma import_complete n p s d :
  p ≠ [] → import_module files effect n p fresh = Done s → rtc (requires files) p d →
  is_Some (files !! d) ∧ loaded d s = true.
Proof.
  intros Hp Hs Hd. pose proof (import_closes files effect n p fresh) as Hc. rewrite Hs in Hc. destruct Hc as [_ Hc].
  assert (∀ m, loaded m s = true → is_Some (files !! m) ∧ ∀ d, requires files m d → loaded d s = true) as Hc'.
  { intros m Hm. by apply Hc. }
  apply (import_loaded files effect n p fresh s Hp) in Hs.
  induction Hd as [m|m m' d Hr _ IH]; [by split; [apply Hc'|]|]. apply IH; [by apply (proj1 Hr)|by apply (Hc' m)].
Qed.

(** What does not exist but is required, by whatever path, is an import that fails. *)
Lemma import_requires_missing n p d :
  p ≠ [] → rtc (requires files) p d → files !! d = None → (size (dom files : gset Name) < n)%nat →
  ∃ e s, import_module files effect n p fresh = Failed e s.
Proof.
  intros Hp Hd Hf Hn. destruct (import_module files effect n p fresh) as [s|e s|] eqn:He; [|eauto|].
  - destruct (import_complete n p s d Hp He Hd) as [[f Hf'] _]. by rewrite Hf in Hf'.
  - apply import_terminates in He; [done|]. unfold remaining, fresh. simpl. by rewrite dom_empty_L, difference_empty_L.
Qed.

(** An import of any module of any table, started in a fresh interpreter with
    more fuel than there are modules: it terminates, no body runs twice, and it
    succeeds only when everything required exists. *)
Lemma import_outcome n p :
  p ≠ [] → (size (dom files : gset Name) < n)%nat →
  match import_module files effect n p fresh with
  | Done s => NoDup (executed s) ∧ (∀ m, m ∈ executed s ↔ loaded m s = true) ∧ loaded p s = true ∧
      ∀ d, rtc (requires files) p d → is_Some (files !! d) ∧ loaded d s = true
  | Failed e s => NoDup (executed s) ∧ (∀ m, m ∈ executed s → is_Some (files !! m)) ∧
      ∀ m, e = ModuleNotFound m → files !! m = None
  | OutOfFuel => False
  end.
Proof.
  intros Hp Hn. pose proof (import_once files effect n p fresh) as Ho.
  destruct (import_module files effect n p fresh) as [s|e s|] eqn:He; simpl in Ho.
  - destruct Ho as [_ (l & Hl & Hnd & Hin & Hb)]. rewrite Hl. split_and!; [done| |by eapply import_loaded|].
    + intros m. split; [by intros (_ & _ & ?)%Hin|]. by intros [|]%Hb.
    + intros d. by apply import_complete with n.
  - destruct Ho as (l & Hl & Hnd & Hin). rewrite Hl. split_and!; [done|by intros m (_ & ?)%Hin|].
    intros m ->. by eapply import_not_found.
  - apply import_terminates in He; [done|]. unfold remaining, fresh. simpl. by rewrite dom_empty_L, difference_empty_L.
Qed.
End from_fresh.

(** Two modules that import each other: the one entered first has bound what
    the other asks of it. *)
Definition names (l : list string) : list (string * string) := (λ x, (x, x)) <$> l.

Definition knot : gmap Name (Source Empty_set) :=
  list_to_map
    [(["pkg"], mkSource true []);
     (["pkg"] ⋅ "a", mkSource false [Def ["x"] []; From (["pkg"] ⋅ "b") (names ["y"])]);
     (["pkg"] ⋅ "b", mkSource false [From (["pkg"] ⋅ "a") (names ["x"]); Def ["y"] ["x"]])].

Example import_knot :
  import_module knot (Empty_set_rect _) 4 (["pkg"] ⋅ "b") fresh =
    Failed (CannotImportName "y" (["pkg"] ⋅ "b")) (mkInterp {[ ["pkg"] := mkNamespace ∅ None ]} [["pkg"]; ["pkg"] ⋅ "b"; ["pkg"] ⋅ "a"]) ∧
  match import_module knot (Empty_set_rect _) 4 (["pkg"] ⋅ "a") fresh with
  | Done s => executed s = [["pkg"]; ["pkg"] ⋅ "a"; ["pkg"] ⋅ "b"] ∧ NoDup (executed s) ∧
      (∀ m, m ∈ executed s ↔ loaded m s = true) ∧ loaded (["pkg"] ⋅ "a") s = true ∧
      ∀ d, rtc (requires knot) (["pkg"] ⋅ "a") d → is_Some (knot !! d) ∧ loaded d s = true
  | _ => False
  end.
Proof.
  split; [vm_compute; reflexivity|].
  assert ((size (dom knot : gset Name) < 4)%nat) as Hn by (vm_compute; lia).
  pose proof (import_outcome knot (Empty_set_rect _) 4 (["pkg"] ⋅ "a") ltac:(done) Hn) as H.
  destruct (import_module knot (Empty_set_rect _) 4 (["pkg"] ⋅ "a") fresh) as [s|e s|] eqn:He; vm_compute in He; try discriminate He.
  split; [|exact H]. injection He as <-. reflexivity.
Qed.
