(* ===== verification/ModuleTable.v ===== *)
(** * The modules of [src/virtualstack]

    The top level of every module of the package, statement by statement: what
    it imports, what each definition binds and the names its header evaluates
    (decorators, bases, defaults, annotations, class attributes; builtins left
    out; of a dotted name the first component; a function's body is not run by the
    import).  Four statements depend on
    the environment and may raise: they are the [Action]s.  Calls of third-party
    code in the other definitions are taken not to raise, and the distributions
    of [requirements.txt] to be installed. *)

From stdpp Require Import base tactics list gmap strings.
From S2P Require Import Prelude PyStd Effects Imports.

Inductive Action :=
  | CreateSettings      (** [settings = Settings()] *)
  | CheckDatabaseUrl    (** [if not DATABASE_CONNECTION_URI: raise RuntimeError(...)] *)
  | CreateEngine        (** [engine = create_async_engine(...)] *)
  | CreateRedis.        (** [r = redis.from_url(...)] *)

(** ** The packages *)

Definition virtualstack : Name := ["virtualstack"].
Definition api : Name := virtualstack⋅"api".
Definition v1 : Name := api⋅"v1".
Definition endpoints : Name := v1⋅"endpoints".
Definition core : Name := virtualstack⋅"core".
Definition db : Name := virtualstack⋅"db".
Definition models : Name := virtualstack⋅"models".
Definition models_iam : Name := models⋅"iam".
Definition schemas : Name := virtualstack⋅"schemas".
Definition schemas_iam : Name := schemas⋅"iam".
Definition services : Name := virtualstack⋅"services".
Definition services_iam : Name := services⋅"iam".

(** The [__init__.py] files without a line. *)
Definition empty_package : Source Action := mkSource true [].

(** ** The modules *)

(** [api/deps.py] *)
Definition api_deps_module : Source Action := mkSource false [
  Lib "typing" ["Optional"; "Generator"; "Any"; "Annotated"];
  Lib "uuid" ["UUID"];
  Lib "fastapi" ["Depends"; "HTTPException"; "Security"; "status"; "Request"; "Path"; "Header"];
  Lib "fastapi.security" ["APIKeyHeader"; "APIKeyQuery"; "OAuth2PasswordBearer"];
  Lib "jose" ["jwt"];
  Lib "sqlalchemy.ext.asyncio" ["AsyncSession"];
  From (core⋅"config") (names ["settings"]);
  From (core⋅"exceptions") (names ["http_authentication_error"; "AuthorizationError"; "NotFoundError"]);
  From (core⋅"permissions") (names ["Permission"]);
  From (db⋅"session") (names ["get_db"]);
  From models_iam [("User", "User"); ("Role", "Role"); ("Permission", "PermissionModel")];
  From (schemas_iam⋅"auth") (names ["TokenPayload"]);
  From services_iam (names ["user_service"; "tenant_service"]);
  From (services_iam⋅"api_key") (names ["api_key_service"]);
  From (models_iam⋅"user_tenant_role") (names ["user_tenant_roles_table"]);
  From (models_iam⋅"role_permissions") (names ["role_permissions_table"]);
  Lib "sqlalchemy" ["select"; "distinct"; "exists"];
  Lib "logging" ["logging"];
  From (models_iam⋅"tenant") (names ["Tenant"]);
  Def ["logger"] ["logging"];
  Def ["oauth2_scheme"] ["OAuth2PasswordBearer"; "settings"];
  Def ["API_KEY_NAME"] [];
  Def ["api_key_header"] ["APIKeyHeader"; "API_KEY_NAME"];
  Def ["api_key_query"] ["APIKeyQuery"];
  Def ["get_current_user_from_token"] ["Depends"; "get_db"; "oauth2_scheme"; "AsyncSession"; "Optional"; "User"];
  Def ["get_current_user_from_api_key"] ["Depends"; "get_db"; "Security"; "api_key_header"; "api_key_query";
    "AsyncSession"; "Optional"; "User"];
  Def ["get_current_user"] ["Depends"; "get_current_user_from_token"; "get_current_user_from_api_key"; "Optional";
    "User"];
  Def ["get_current_active_user"] ["Depends"; "get_current_user"; "User"];
  Def ["get_current_superuser"] ["Depends"; "get_current_active_user"; "User"];
  Def ["get_tenant_id_from_path"] ["Request"; "Optional"; "UUID"];
  Def ["check_tenant_exists"] ["Depends"; "get_db"; "get_tenant_id_from_path"; "AsyncSession"; "UUID"];
  Def ["require_permission"] ["Permission"];
  Def ["get_tenant_from_path"] ["Path"; "Depends"; "get_db"; "UUID"; "AsyncSession"; "Tenant"];
  Def ["require_permission"] ["Any"];
  Def ["require_any_permission"] ["Any"];
  Def ["require_all_permissions"] ["Any"];
  Def ["get_tenant_from_path"] ["Path"; "Depends"; "get_db"; "UUID"; "AsyncSession"; "Tenant"];
  Def ["get_current_active_tenant"] ["Depends"; "get_db"; "get_current_active_user"; "Header"; "Request";
    "AsyncSession"; "User"; "Optional"; "Tenant"];
  Def ["require_permission"] ["Permission"];
  Def ["require_permission_in_active_tenant"] ["Permission"];
  Def ["require_permission_old_style_for_reference"] ["Any"];
  Def ["require_any_permission"] ["Any"];
  Def ["require_all_permissions"] ["Any"]].

(** [api/middleware.py] *)
Definition api_middleware_module : Source Action := mkSource false [
  Lib "typing" ["Callable"];
  Lib "uuid" ["UUID"];
  Lib "fastapi" ["FastAPI"; "Request"; "status"];
  Lib "fastapi.responses" ["JSONResponse"];
  Lib "starlette.middleware.base" ["BaseHTTPMiddleware"];
  Def ["TenantContextMiddleware"] ["BaseHTTPMiddleware"; "Request"; "Callable"];
  Def ["setup_middleware"] ["FastAPI"]].

(** [api/v1/api.py] *)
Definition api_v1_api_module : Source Action := mkSource false [
  Lib "fastapi" ["APIRouter"];
  From endpoints (names ["api_keys"; "auth"; "invitations"; "roles"; "tenants"; "users";
    "tenant_user_management"]);
  Def ["api_router"] ["APIRouter"];
  Def [] ["api_router"; "auth"];
  Def [] ["api_router"; "users"];
  Def [] ["api_router"; "tenants"];
  Def [] ["api_router"; "api_keys"];
  Def [] ["api_router"; "invitations"];
  Def [] ["api_router"; "tenant_user_management"];
  Def [] ["api_router"; "roles"]].

(** [api/v1/endpoints/api_keys.py] *)
Definition api_keys_module : Source Action := mkSource false [
  Lib "logging" ["logging"];
  Lib "typing" ["Optional"; "Any"];
  Lib "uuid" ["UUID"];
  Lib "datetime" ["datetime"; "timezone"];
  Lib "fastapi" ["APIRouter"; "Depends"; "HTTPException"; "status"];
  Lib "sqlalchemy.ext.asyncio" ["AsyncSession"];
  From (api⋅"deps") (names ["get_current_active_user"]);
  From (db⋅"session") (names ["get_db"]);
  From models_iam (names ["User"]);
  From (schemas_iam⋅"api_key") (names ["APIKey"; "APIKeyCreate"; "APIKeyUpdate"; "APIKeyWithValue"]);
  From services_iam (names ["api_key_service"]);
  Def ["logger"] ["logging"];
  Def ["router"] ["APIRouter"];
  Def ["create_api_key"] ["router"; "APIKeyWithValue"; "status"; "Depends"; "get_db"; "get_current_active_user";
    "AsyncSession"; "APIKeyCreate"; "User"];
  Def ["read_api_keys"] ["router"; "APIKey"; "Depends"; "get_db"; "get_current_active_user"; "AsyncSession";
    "Optional"; "UUID"; "User"];
  Def ["read_api_key"] ["router"; "APIKey"; "Depends"; "get_db"; "get_current_active_user"; "AsyncSession"; "UUID";
    "User"];
  Def ["update_api_key"] ["router"; "APIKey"; "Depends"; "get_db"; "get_current_active_user"; "AsyncSession";
    "UUID"; "APIKeyUpdate"; "User"];
  Def ["delete_api_key"] ["router"; "status"; "Depends"; "get_db"; "get_current_active_user"; "AsyncSession";
    "UUID"; "User"]].

(** [api/v1/endpoints/auth.py] *)
Definition auth_module : Source Action := mkSource false [
  Lib "datetime" ["timedelta"];
  Lib "typing" ["Any"];
  Lib "logging" ["logging"];
  Lib "fastapi" ["APIRouter"; "Depends"; "status"];
  Lib "fastapi.security" ["OAuth2PasswordRequestForm"];
  Lib "sqlalchemy.ext.asyncio" ["AsyncSession"];
  From (core⋅"config") (names ["settings"]);
  From (core⋅"exceptions") (names ["http_authentication_error"]);
  From (core⋅"rate_limiter") (names ["rate_limit"]);
  From (core⋅"security") (names ["create_access_token"; "verify_password"]);
  From (db⋅"session") (names ["get_db"]);
  From (schemas_iam⋅"auth") (names ["Token"]);
  From services_iam (names ["user_service"]);
  Def ["logger"] ["logging"];
  Def ["router"] ["APIRouter"];
  Def ["login_access_token"] ["router"; "Token"; "status"; "Depends"; "get_db"; "AsyncSession";
    "OAuth2PasswordRequestForm"; "Any"]].

(** [api/v1/endpoints/invitations.py] *)
Definition invitations_module : Source Action := mkSource false [
  Lib "logging" ["logging"];
  Lib "typing" ["List"; "Optional"];
  Lib "uuid" ["UUID"];
  Lib "datetime" ["datetime"];
  Lib "fastapi" ["APIRouter"; "Body"; "Depends"; "HTTPException"; "Query"; "status"; "Request"];
  Lib "sqlalchemy.ext.asyncio" ["AsyncSession"];
  Lib "sqlalchemy" ["select"; "distinct"];
  From api (names ["deps"]);
  From (core⋅"permissions") (names ["Permission"]);
  From (models_iam⋅"user") [("User", "UserModel")];
  From (schemas_iam⋅"invitation") (names ["InvitationAccept"; "InvitationCreate"; "InvitationUpdate";
    "InvitationVerify"; "InvitationResponse"; "InvitationDetailResponse"; "InvitationCreateResponse";
    "InvitationTokenResponse"; "InvitationStatus"]);
  From (schemas_iam⋅"user") (names ["UserCreate"; "User"]);
  From services_iam (names ["invitation_service"; "user_service"]);
  From (core⋅"exceptions") (names ["NotFoundError"; "AuthorizationError"; "http_bad_request_error"]);
  From (models_iam⋅"user_tenant_role") (names ["user_tenant_roles_table"]);
  From (models_iam⋅"role_permissions") (names ["role_permissions_table"]);
  Def ["router"] ["APIRouter"];
  Def ["logger"] ["logging"];
  Def ["create_invitation"] ["router"; "InvitationCreateResponse"; "status"; "Depends"; "deps"; "Permission";
    "InvitationCreate"; "AsyncSession"; "UserModel"];
  Def ["list_invitations"] ["router"; "List"; "InvitationResponse"; "Depends"; "deps"; "Query"; "AsyncSession";
    "UUID"; "Optional"; "InvitationStatus"; "UserModel"];
  Def ["check_user_permission_for_tenant"] ["AsyncSession"; "UUID"; "Permission"];
  Def ["verify_invitation_token"] ["router"; "InvitationTokenResponse"; "Depends"; "deps"; "InvitationVerify";
    "AsyncSession"];
  Def ["read_invitation"] ["router"; "InvitationDetailResponse"; "Depends"; "deps"; "UUID"; "AsyncSession";
    "UserModel"];
  Def ["revoke_invitation"] ["router"; "InvitationResponse"; "status"; "Depends"; "deps"; "UUID"; "AsyncSession";
    "UserModel"];
  Def ["accept_invitation"] ["router"; "User"; "Depends"; "deps"; "Body"; "AsyncSession"; "InvitationAccept"]].

(** [api/v1/endpoints/roles.py] *)
Definition roles_module : Source Action := mkSource false [
  Lib "uuid" ["UUID"];
  Lib "typing" ["Any"; "List"];
  Lib "fastapi" ["APIRouter"; "Depends"; "HTTPException"; "status"; "Path"; "Query"];
  Lib "sqlalchemy.ext.asyncio" ["AsyncSession"];
  From (api⋅"deps") (names ["get_db"; "get_current_active_user"; "get_tenant_from_path"; "require_permission";
    "get_current_active_tenant"; "require_permission_in_active_tenant"]);
  From (core⋅"permissions") (names ["Permission"]);
  From schemas_iam (names ["Role"; "RoleCreate"; "RoleUpdate"; "RoleList"; "RoleDetail";
    "RoleUserAssignmentInput"; "RoleUserAssignmentOutput"]);
  From (schemas_iam⋅"permission") [("Permission", "PermissionSchema")];
  From services_iam (names ["permission_service"; "role_service"]);
  From (models_iam⋅"user") (names ["User"]);
  From (models_iam⋅"tenant") (names ["Tenant"]);
  Def ["router"] ["APIRouter"];
  Def ["list_roles_in_active_tenant"] ["router"; "List"; "RoleList"; "Depends"; "get_current_active_tenant";
    "Query"; "get_db"; "require_permission_in_active_tenant"; "Permission"; "Tenant"; "AsyncSession"; "User"];
  Def ["create_custom_role_in_tenant"] ["router"; "RoleDetail"; "status"; "Depends"; "get_tenant_from_path";
    "get_db"; "require_permission"; "Tenant"; "RoleCreate"; "AsyncSession"; "User"];
  Def ["get_role_details"] ["router"; "RoleDetail"; "Depends"; "get_tenant_from_path"; "Path"; "get_db";
    "require_permission"; "Tenant"; "UUID"; "AsyncSession"; "User"];
  Def ["update_custom_role_in_tenant"] ["router"; "RoleDetail"; "Depends"; "get_tenant_from_path"; "Path"; "get_db";
    "require_permission"; "Tenant"; "UUID"; "RoleUpdate"; "AsyncSession"; "User"];
  Def ["delete_custom_role_from_tenant"] ["router"; "status"; "Depends"; "get_tenant_from_path"; "Path"; "get_db";
    "require_permission"; "Tenant"; "UUID"; "AsyncSession"; "User"];
  Def ["list_available_permissions"] ["router"; "List"; "PermissionSchema"; "Depends";
    "require_permission_in_active_tenant"; "Permission"; "get_db"; "get_current_active_tenant"; "AsyncSession";
    "Tenant"];
  Def ["get_assigned_users_for_role"] ["router"; "RoleUserAssignmentOutput"; "Depends"; "get_tenant_from_path";
    "Path"; "get_db"; "Tenant"; "UUID"; "AsyncSession"];
  Def ["set_assigned_users_for_role"] ["router"; "RoleUserAssignmentOutput"; "Depends"; "get_tenant_from_path";
    "Path"; "get_db"; "Tenant"; "UUID"; "RoleUserAssignmentInput"; "AsyncSession"];
  Lib "logging" ["logging"];
  Def ["logger"] ["logging"]].

(** [api/v1/endpoints/tenant_user_management.py] *)
Definition tenant_user_management_module : Source Action := mkSource false [
  Lib "typing" ["Any"; "List"; "Optional"];
  Lib "uuid" ["UUID"];
  Lib "fastapi" ["APIRouter"; "Depends"; "HTTPException"; "status"; "Query"; "Path"];
  Lib "sqlalchemy.ext.asyncio" ["AsyncSession"];
  From api (names ["deps"]);
  From (api⋅"deps") (names ["get_tenant_from_path"]);
  From (models_iam⋅"tenant") (names ["Tenant"]);
  From (schemas_iam⋅"role") (names ["RoleAssign"]);
  From (schemas_iam⋅"user") [("User", "UserSchema"); ("UserListResponse", "UserListResponse")];
  From services_iam (names ["user_service"; "tenant_service"; "role_service"]);
  Lib "logging" ["logging"];
  Def ["logger"] ["logging"];
  Def ["router"] ["APIRouter"];
  Def ["list_users_in_tenant"] ["router"; "UserListResponse"; "Depends"; "deps"; "get_tenant_from_path"; "Query";
    "AsyncSession"; "Tenant"; "Optional"];
  Def ["get_tenant_user"] ["router"; "UserSchema"; "Depends"; "get_tenant_from_path"; "Path"; "deps"; "Tenant";
    "UUID"; "AsyncSession"];
  Def ["assign_role_to_user"] ["router"; "status"; "Depends"; "get_tenant_from_path"; "Path"; "deps"; "Tenant";
    "UUID"; "RoleAssign"; "AsyncSession"; "UserSchema"];
  Def ["remove_role_from_user"] ["router"; "status"; "Depends"; "get_tenant_from_path"; "Path"; "deps"; "Tenant";
    "UUID"; "AsyncSession"; "UserSchema"]].

(** [api/v1/endpoints/tenants.py] *)
Definition tenants_module : Source Action := mkSource false [
  Lib "typing" ["Any"];
  Lib "uuid" ["UUID"];
  Lib "fastapi" ["APIRouter"; "Depends"; "HTTPException"; "Path"; "Query"; "status"];
  Lib "sqlalchemy.ext.asyncio" ["AsyncSession"];
  From (api⋅"deps") (names ["get_current_user"]);
  From (core⋅"exceptions") (names ["http_not_found_error"; "http_validation_error"]);
  From (db⋅"session") (names ["get_db"]);
  From (models_iam⋅"user") (names ["User"]);
  From (schemas_iam⋅"tenant") [("Tenant", "TenantSchema")];
  From (schemas_iam⋅"tenant") (names ["TenantCreate"; "TenantUpdate"]);
  From services_iam (names ["tenant_service"]);
  Def ["router"] ["APIRouter"];
  Def ["list_accessible_tenants"] ["router"; "TenantSchema"; "Depends"; "get_current_user"; "get_db";
    "AsyncSession"; "User"];
  Def ["create_tenant"] ["router"; "TenantSchema"; "status"; "Depends"; "get_db"; "AsyncSession"; "TenantCreate";
    "Any"];
  Def ["get_tenant_by_id"] ["router"; "TenantSchema"; "Depends"; "get_db"; "Path"; "AsyncSession"; "UUID"; "Any"];
  Def ["get_tenant_by_slug"] ["router"; "TenantSchema"; "Depends"; "get_db"; "Path"; "AsyncSession"; "Any"];
  Def ["update_tenant"] ["router"; "TenantSchema"; "Depends"; "get_db"; "Path"; "AsyncSession"; "UUID";
    "TenantUpdate"; "Any"];
  Def ["delete_tenant"] ["router"; "status"; "Depends"; "get_db"; "Path"; "AsyncSession"; "UUID"]].

(** [api/v1/endpoints/users.py] *)
Definition users_module : Source Action := mkSource false [
  Lib "typing" ["Any"; "Optional"];
  Lib "uuid" ["UUID"];
  Lib "fastapi" ["APIRouter"; "Depends"; "Path"; "Query"; "status"; "HTTPException"];
  Lib "sqlalchemy.ext.asyncio" ["AsyncSession"];
  From (api⋅"deps") (names ["get_current_user"; "get_tenant_from_path"; "require_permission";
    "get_current_active_tenant"; "require_permission_in_active_tenant"; "get_db"]);
  From (core⋅"exceptions") (names ["http_not_found_error"; "http_validation_error"]);
  From (models_iam⋅"user") (names ["User"]);
  From (models_iam⋅"tenant") (names ["Tenant"]);
  From (schemas_iam⋅"user") [("User", "UserSchema")];
  From (schemas_iam⋅"user") (names ["UserCreate"; "UserUpdate"; "UserListResponse"; "UserStatusUpdate"]);
  From services_iam (names ["user_service"]);
  From (core⋅"permissions") (names ["Permission"]);
  Lib "logging" ["logging"];
  Def ["logger"] ["logging"];
  Def ["router"] ["APIRouter"];
  Def ["list_users_in_active_tenant"] ["router"; "UserListResponse"; "Depends";
    "require_permission_in_active_tenant"; "Permission"; "get_db"; "get_current_active_tenant"; "Query";
    "AsyncSession"; "Tenant"; "Optional"];
  Def ["get_current_user_info"] ["router"; "UserSchema"; "Depends"; "get_current_user"; "User"];
  Def ["update_current_user"] ["router"; "UserSchema"; "Depends"; "get_db"; "get_current_user"; "AsyncSession";
    "UserUpdate"; "User"; "Any"];
  Def ["update_user_status_in_active_tenant"] ["router"; "UserSchema"; "Depends";
    "require_permission_in_active_tenant"; "Permission"; "Path"; "get_db"; "get_current_active_tenant"; "UUID";
    "UserStatusUpdate"; "AsyncSession"; "Tenant"];
  Def ["remove_user_from_active_tenant"] ["router"; "status"; "Depends"; "require_permission_in_active_tenant";
    "Permission"; "Path"; "get_db"; "get_current_active_tenant"; "UUID"; "AsyncSession"; "Tenant"]].

(** [core/config.py] *)
Definition core_config_module : Source Action := mkSource false [
  Lib "typing" ["Any"; "Optional"; "Union"];
  Lib "pydantic" ["AnyHttpUrl"; "PostgresDsn"; "ValidationInfo"; "field_validator"; "model_validator"; "Field"];
  Lib "pydantic_settings" ["BaseSettings"; "SettingsConfigDict"];
  Def ["Settings"] ["BaseSettings"; "SettingsConfigDict"; "Field"; "AnyHttpUrl"; "field_validator"; "Union";
    "Optional"; "PostgresDsn"; "model_validator"; "Any"; "ValidationInfo"];
  Do CreateSettings ["settings"] ["Settings"]].

(** [core/exceptions.py] *)
Definition core_exceptions_module : Source Action := mkSource false [
  Lib "fastapi" ["HTTPException"; "status"];
  Def ["VirtualStackException"] [];
  Def ["DatabaseError"] ["VirtualStackException"];
  Def ["NotFoundError"] ["VirtualStackException"];
  Def ["AuthenticationError"] ["VirtualStackException"];
  Def ["AuthorizationError"] ["VirtualStackException"];
  Def ["ValidationError"] ["VirtualStackException"];
  Def ["http_not_found_error"] ["HTTPException"];
  Def ["http_authentication_error"] ["HTTPException"];
  Def ["http_authorization_error"] ["HTTPException"];
  Def ["http_validation_error"] ["HTTPException"];
  Def ["http_bad_request_error"] ["HTTPException"]].

(** [core/permissions.py] *)
Definition core_permissions_module : Source Action := mkSource false [
  Lib "enum" ["Enum"];
  Lib "typing" ["Optional"; "List"];
  Lib "uuid" ["UUID"];
  Def ["Permission"] ["Enum"];
  Def ["ROLE_PERMISSIONS"] ["Permission"]].

(** [core/rate_limiter.py] *)
Definition core_rate_limiter_module : Source Action := mkSource false [
  Lib "time" ["time"];
  Lib "redis.asyncio" ["redis"];
  Lib "fastapi" ["Request"; "Depends"; "HTTPException"; "status"];
  Lib "typing" ["Callable"; "Optional"];
  Lib "functools" ["wraps"];
  From (core⋅"config") (names ["settings"]);
  Do CreateRedis ["r"] ["redis"; "settings"];
  Def ["rate_limit"] []].

(** [core/security.py] *)
Definition core_security_module : Source Action := mkSource false [
  Lib "datetime" ["datetime"; "timedelta"];
  Lib "typing" ["Any"; "Optional"; "Union"];
  Lib "jose" ["jwt"];
  Lib "passlib.context" ["CryptContext"];
  From (core⋅"config") (names ["settings"]);
  Def ["pwd_context"] ["CryptContext"];
  Def ["create_password_hash"] [];
  Def ["verify_password"] [];
  Def ["create_access_token"] ["Union"; "Any"; "Optional"; "timedelta"]].

(** [db/base.py] *)
Definition db_base_module : Source Action := mkSource false [
  Lib "sqlalchemy.ext.declarative" ["declared_attr"];
  Lib "sqlalchemy.orm" ["DeclarativeBase"];
  Def ["Base"] ["DeclarativeBase"; "declared_attr"];
  From models_iam (names ["api_key"; "invitation"; "permission"; "role"; "tenant"; "user"; "user_tenant_role";
    "role_permissions"])].

(** [db/init_db.py] *)
Definition db_init_db_module : Source Action := mkSource false [
  Lib "logging" ["logging"];
  Lib "re" ["re"];
  Lib "typing" ["Optional"];
  Lib "uuid" ["UUID"];
  Lib "sqlalchemy.ext.asyncio" ["AsyncSession"];
  From (core⋅"config") (names ["settings"]);
  From (schemas_iam⋅"tenant") (names ["TenantCreate"]);
  From (schemas_iam⋅"user") (names ["UserCreate"]);
  From (schemas_iam⋅"role") (names ["RoleCreate"]);
  From services_iam (names ["tenant_service"; "user_service"; "role_service"]);
  Def ["logger"] ["logging"];
  Def ["_HAS_SEEDED"] [];
  Def ["slugify"] [];
  Def ["seed_initial_data"] ["AsyncSession"];
  Def ["init_db"] []].

(** [db/session.py] *)
Definition db_session_module : Source Action := mkSource false [
  Lib "collections.abc" ["AsyncGenerator"];
  Lib "os" ["os"];
  Lib "sqlalchemy.ext.asyncio" ["AsyncSession"; "create_async_engine"];
  Lib "sqlalchemy.orm" ["sessionmaker"];
  From (core⋅"config") (names ["settings"]);
  Def ["RUN_ENV"] ["os"];
  Def ["DATABASE_CONNECTION_URI"] ["settings"];
  Do CheckDatabaseUrl [] ["DATABASE_CONNECTION_URI"];
  Def [] ["DATABASE_CONNECTION_URI"];
  Do CreateEngine ["engine"] ["create_async_engine"; "DATABASE_CONNECTION_URI"; "os"];
  Def ["SessionLocal"] ["sessionmaker"; "engine"; "AsyncSession"];
  Def ["get_db"] ["AsyncGenerator"; "AsyncSession"]].

(** [main.py] *)
Definition main_module : Source Action := mkSource false [
  Lib "logging" ["logging"];
  Lib "os" ["os"];
  Lib "contextlib" ["asynccontextmanager"];
  Lib "fastapi" ["FastAPI"];
  Lib "fastapi.middleware.cors" ["CORSMiddleware"];
  From (api⋅"middleware") (names ["setup_middleware"]);
  From (v1⋅"api") (names ["api_router"]);
  From (core⋅"config") (names ["settings"]);
  From (db⋅"session") (names ["SessionLocal"]);
  From (db⋅"init_db") (names ["seed_initial_data"]);
  Def ["logger"] ["logging"];
  Def ["lifespan"] ["asynccontextmanager"; "FastAPI"];
  Def ["app"] ["FastAPI"; "settings"; "lifespan"];
  Def [] ["app"; "CORSMiddleware"; "settings"];
  Def [] ["setup_middleware"; "app"];
  Def ["root"] ["app"];
  Def ["health_check"] ["app"];
  Def [] ["app"; "api_router"; "settings"]].

(** [models/__init__.py] *)
Definition models_module : Source Action := mkSource true [
  FromStar models_iam;
  All ["Tenant"; "Permission"; "TenantRole"; "TenantRolePermission"; "User"; "UserTenantRole"]].

(** [models/base.py] *)
Definition models_base_module : Source Action := mkSource false [
  Lib "datetime" ["datetime"];
  Lib "typing" ["Any"];
  Lib "uuid" ["uuid"];
  Lib "sqlalchemy" ["Column"; "DateTime"];
  Lib "sqlalchemy.dialects.postgresql" ["UUID"];
  Lib "sqlalchemy.orm" ["declarative_mixin"];
  Def ["TimestampMixin"] ["declarative_mixin"; "Column"; "DateTime"; "datetime"];
  Def ["UUIDMixin"] ["declarative_mixin"; "Column"; "UUID"; "uuid"];
  Def ["SoftDeleteMixin"] ["declarative_mixin"; "Column"; "DateTime"];
  Def ["to_dict"] ["Any"]].

(** [models/iam/__init__.py] *)
Definition models_iam_module : Source Action := mkSource true [
  From (models_iam⋅"tenant") (names ["Tenant"]);
  From (models_iam⋅"user") (names ["User"]);
  From (models_iam⋅"api_key") (names ["APIKey"]);
  From (models_iam⋅"invitation") (names ["Invitation"]);
  From (models_iam⋅"permission") (names ["Permission"]);
  From (models_iam⋅"role") (names ["Role"]);
  All ["User"; "Tenant"; "Role"; "Permission"; "APIKey"; "Invitation"]].

(** [models/iam/api_key.py] *)
Definition models_iam_api_key_module : Source Action := mkSource false [
  Lib "datetime" ["datetime"; "timezone"];
  Lib "uuid" ["uuid"];
  Lib "sqlalchemy" ["Boolean"; "Column"; "DateTime"; "Enum"; "ForeignKey"; "String"; "text"];
  Lib "sqlalchemy.dialects.postgresql" ["UUID"];
  Lib "sqlalchemy.orm" ["relationship"];
  From (db⋅"base_class") (names ["Base"]);
  From (schemas_iam⋅"api_key") (names ["APIKeyScope"]);
  Def ["APIKey"] ["Base"; "Column"; "UUID"; "uuid"; "String"; "Boolean"; "DateTime"; "ForeignKey"; "relationship";
    "Enum"; "APIKeyScope"]].

(** [models/iam/invitation.py] *)
Definition models_iam_invitation_module : Source Action := mkSource false [
  Lib "datetime" ["datetime"];
  Lib "enum" ["enum"];
  Lib "typing" ["Optional"];
  Lib "uuid" ["uuid"];
  Lib "sqlalchemy" ["DateTime"; "Enum"; "ForeignKey"; "String"];
  Lib "sqlalchemy.dialects.postgresql" ["UUID"];
  Lib "sqlalchemy.orm" ["Mapped"; "mapped_column"; "relationship"];
  From (db⋅"base_class") (names ["Base"]);
  Def ["InvitationStatus"] ["enum"];
  Def ["Invitation"] ["Base"; "Mapped"; "uuid"; "mapped_column"; "UUID"; "String"; "InvitationStatus"; "Enum";
    "datetime"; "DateTime"; "Optional"; "ForeignKey"; "relationship"]].

(** [models/iam/permission.py] *)
Definition models_iam_permission_module : Source Action := mkSource false [
  Lib "datetime" ["datetime"];
  Lib "uuid" ["uuid"];
  Lib "sqlalchemy" ["Column"; "DateTime"; "String"; "Text"];
  Lib "sqlalchemy.dialects.postgresql" ["UUID"];
  From (db⋅"base_class") (names ["Base"]);
  Def ["Permission"] ["Base"; "Column"; "UUID"; "uuid"; "String"; "Text"; "DateTime"; "datetime"]].

(** [models/iam/role.py] *)
Definition models_iam_role_module : Source Action := mkSource false [
  Lib "datetime" ["datetime"];
  Lib "uuid" ["uuid"];
  Lib "sqlalchemy" ["Column"; "DateTime"; "String"; "Text"; "ForeignKey"; "Boolean"];
  Lib "sqlalchemy.dialects.postgresql" ["UUID"];
  Lib "sqlalchemy.orm" ["relationship"];
  From (db⋅"base_class") (names ["Base"]);
  Def ["Role"] ["Base"; "Column"; "UUID"; "uuid"; "String"; "Text"; "ForeignKey"; "Boolean"; "DateTime"; "datetime";
    "relationship"]].

(** [models/iam/role_permissions.py] *)
Definition models_iam_role_permissions_module : Source Action := mkSource false [
  Lib "uuid" ["uuid"];
  Lib "sqlalchemy" ["Column"; "ForeignKey"; "Table"; "UniqueConstraint"];
  Lib "sqlalchemy.dialects.postgresql" ["pgUUID"];
  From (db⋅"base_class") (names ["Base"]);
  Def ["role_permissions_table"] ["Table"; "Base"; "Column"; "pgUUID"; "ForeignKey"; "UniqueConstraint"]].

(** [models/iam/tenant.py] *)
Definition models_iam_tenant_module : Source Action := mkSource false [
  Lib "datetime" ["datetime"];
  Lib "uuid" ["uuid"];
  Lib "sqlalchemy" ["Boolean"; "Column"; "DateTime"; "String"; "Text"];
  Lib "sqlalchemy.dialects.postgresql" ["UUID"];
  Lib "sqlalchemy.orm" ["relationship"];
  From (db⋅"base_class") (names ["Base"]);
  Def ["Tenant"] ["Base"; "Column"; "UUID"; "uuid"; "String"; "Text"; "Boolean"; "DateTime"; "datetime";
    "relationship"]].

(** [models/iam/tenant_role.py] *)
Definition models_iam_tenant_role_module : Source Action := mkSource false [
  Lib "uuid" ["uuid"];
  Lib "sqlalchemy" ["Column"; "ForeignKey"; "Table"; "UniqueConstraint"];
  Lib "sqlalchemy.dialects.postgresql" ["pgUUID"];
  From (db⋅"base_class") (names ["Base"]);
  Def ["tenant_roles_table"] ["Table"; "Base"; "Column"; "pgUUID"; "ForeignKey"; "UniqueConstraint"]].

(** [models/iam/user.py] *)
Definition models_iam_user_module : Source Action := mkSource false [
  Lib "datetime" ["datetime"];
  Lib "uuid" ["uuid"];
  Lib "sqlalchemy" ["Boolean"; "Column"; "DateTime"; "String"];
  Lib "sqlalchemy.dialects.postgresql" ["UUID"];
  Lib "sqlalchemy.orm" ["relationship"];
  From (db⋅"base_class") (names ["Base"]);
  Def ["User"] ["Base"; "Column"; "UUID"; "uuid"; "String"; "Boolean"; "DateTime"; "datetime"; "relationship"]].

(** [models/iam/user_tenant_role.py] *)
Definition models_iam_user_tenant_role_module : Source Action := mkSource false [
  Lib "uuid" ["uuid"];
  Lib "datetime" ["datetime"];
  Lib "sqlalchemy" ["Column"; "DateTime"; "ForeignKey"; "Table"; "UniqueConstraint"];
  Lib "sqlalchemy.dialects.postgresql" ["UUID"];
  Lib "sqlalchemy.orm" ["relationship"];
  From (db⋅"base_class") (names ["Base"]);
  Def ["user_tenant_roles_table"] ["Table"; "Base"; "Column"; "UUID"; "ForeignKey"; "DateTime"; "datetime";
    "UniqueConstraint"];
  Def ["UserTenantRole"] ["Base"; "user_tenant_roles_table"]].

(** [schemas/__init__.py] *)
Definition schemas_module : Source Action := mkSource true [
  From (schemas_iam⋅"api_key") (names ["APIKey"; "APIKeyBase"; "APIKeyCreate"; "APIKeyInDB"; "APIKeyScope";
    "APIKeyUpdate"; "APIKeyWithValue"]);
  From (schemas_iam⋅"auth") (names ["LoginRequest"; "Token"; "TokenPayload"]);
  From (schemas_iam⋅"invitation") (names ["InvitationAccept"; "InvitationBase"; "InvitationCreate";
    "InvitationStatus"; "InvitationUpdate"; "InvitationVerify"; "InvitationTokenResponse"]);
  From schemas_iam (names ["Invitation"]);
  From (schemas_iam⋅"role") (names ["Role"; "RoleBase"; "RoleCreate"; "RoleUpdate"; "RoleAssign"]);
  From (schemas_iam⋅"tenant") (names ["Tenant"; "TenantBase"; "TenantCreate"; "TenantUpdate"]);
  From (schemas_iam⋅"user") (names ["User"; "UserBase"; "UserCreate"; "UserUpdate"]);
  All ["LoginRequest"; "Token"; "TokenPayload"; "User"; "UserCreate"; "UserUpdate"; "UserBase"; "Tenant";
    "TenantCreate"; "TenantUpdate"; "TenantBase"; "APIKey"; "APIKeyCreate"; "APIKeyUpdate"; "APIKeyBase";
    "APIKeyInDB"; "APIKeyWithValue"; "APIKeyScope"; "Role"; "RoleCreate"; "RoleUpdate"; "RoleBase"; "RoleAssign";
    "Invitation"; "InvitationCreate"; "InvitationUpdate"; "InvitationAccept"; "InvitationBase"; "InvitationStatus";
    "InvitationVerify"; "InvitationTokenResponse"]].

(** [schemas/base.py] *)
Definition schemas_base_module : Source Action := mkSource false [
  Lib "datetime" ["datetime"];
  Lib "typing" ["Generic"; "Optional"; "TypeVar"];
  Lib "uuid" ["uuid"];
  Lib "pydantic" ["BaseModel"; "ConfigDict"; "Field"];
  Def ["BaseSchema"] ["BaseModel"; "ConfigDict"];
  Def ["IDSchema"] ["BaseSchema"; "uuid"; "Field"];
  Def ["TimestampSchema"] ["BaseSchema"; "datetime"; "Field"];
  Def ["TimestampMixin"] ["TimestampSchema"];
  Def ["SoftDeleteSchema"] ["BaseSchema"; "Optional"; "datetime"; "Field"];
  Def ["T"] ["TypeVar"];
  Def ["PageResponse"] ["BaseSchema"; "Generic"; "T"]].

(** [schemas/iam/__init__.py] *)
Definition schemas_iam_module : Source Action := mkSource true [
  From (schemas_iam⋅"api_key") (names ["APIKey"; "APIKeyCreate"; "APIKeyScope"; "APIKeyUpdate"; "APIKeyWithValue"]);
  From (schemas_iam⋅"auth") (names ["LoginRequest"; "Token"; "TokenPayload"]);
  From (schemas_iam⋅"invitation") (names ["InvitationAccept"; "InvitationCreate"; "InvitationDetailResponse";
    "InvitationSendResponse"; "InvitationTokenResponse"; "InvitationUpdate"; "InvitationVerify"]);
  From (schemas_iam⋅"invitation") [("InvitationResponse", "Invitation")];
  From (schemas_iam⋅"role") (names ["Role"; "RoleCreate"; "RoleUpdate"; "RoleAssign"; "RoleList"; "RoleDetail";
    "RoleUserAssignmentInput"; "RoleUserAssignmentOutput"]);
  From (schemas_iam⋅"tenant") (names ["Tenant"; "TenantBase"; "TenantCreate"; "TenantUpdate"]);
  From (schemas_iam⋅"user") (names ["User"; "UserBase"; "UserCreate"; "UserUpdate"; "UserListResponse"]);
  All ["LoginRequest"; "Token"; "TokenPayload"; "User"; "UserCreate"; "UserUpdate"; "UserBase"; "UserListResponse";
    "Tenant"; "TenantCreate"; "TenantUpdate"; "TenantBase"; "APIKey"; "APIKeyCreate"; "APIKeyUpdate";
    "APIKeyWithValue"; "APIKeyScope"; "Role"; "RoleCreate"; "RoleUpdate"; "RoleAssign"; "RoleList"; "RoleDetail";
    "RoleUserAssignmentInput"; "RoleUserAssignmentOutput"; "Invitation"; "InvitationCreate"; "InvitationUpdate";
    "InvitationVerify"; "InvitationAccept"; "InvitationSendResponse"; "InvitationTokenResponse";
    "InvitationDetailResponse"]].

(** [schemas/iam/api_key.py] *)
Definition schemas_iam_api_key_module : Source Action := mkSource false [
  Lib "datetime" ["datetime"];
  Lib "enum" ["Enum"];
  Lib "typing" ["Optional"];
  Lib "pydantic" ["UUID4"; "BaseModel"; "Field"; "ConfigDict"];
  Def ["APIKeyScope"] ["Enum"];
  Def ["APIKeyBase"] ["BaseModel"; "Field"; "Optional"; "datetime"; "APIKeyScope"; "UUID4"];
  Def ["APIKeyCreate"] ["APIKeyBase"];
  Def ["APIKeyUpdate"] ["BaseModel"; "Optional"; "Field"; "datetime"];
  Def ["APIKeyInDB"] ["APIKeyBase"; "UUID4"; "Field"; "datetime"; "Optional"; "ConfigDict"];
  Def ["APIKeyWithValue"] ["APIKeyInDB"; "Field"];
  Def ["APIKey"] ["APIKeyInDB"]].

(** [schemas/iam/auth.py] *)
Definition schemas_iam_auth_module : Source Action := mkSource false [
  Lib "typing" ["Optional"];
  Lib "pydantic" ["BaseModel"; "EmailStr"; "Field"];
  Def ["LoginRequest"] ["BaseModel"; "EmailStr"; "Field"];
  Def ["Token"] ["BaseModel"; "Field"];
  Def ["TokenPayload"] ["BaseModel"; "Optional"; "Field"]].

(** [schemas/iam/invitation.py] *)
Definition schemas_iam_invitation_module : Source Action := mkSource false [
  Lib "datetime" ["datetime"];
  Lib "enum" ["Enum"];
  Lib "typing" ["Optional"];
  Lib "uuid" ["UUID"];
  Lib "pydantic" ["UUID4"; "BaseModel"; "EmailStr"; "Field"; "validator"; "field_validator"; "ConfigDict"];
  From (models_iam⋅"invitation") (names ["InvitationStatus"]);
  From (schemas⋅"base") (names ["TimestampMixin"]);
  Def ["InvitationStatus"] ["Enum"];
  Def ["InvitationBase"] ["BaseModel"; "EmailStr"; "Field"; "UUID4"; "Optional"];
  Def ["InvitationCreate"] ["InvitationBase"; "UUID4"; "Field"];
  Def ["InvitationUpdate"] ["BaseModel"; "Optional"; "UUID"; "Field"];
  Def ["InvitationVerify"] ["BaseModel"; "Field"];
  Def ["InvitationAccept"] ["BaseModel"; "Field"; "Optional"; "field_validator"];
  Def ["InvitationInDBBase"] ["TimestampMixin"; "UUID"; "EmailStr"; "InvitationStatus"; "datetime"; "Optional";
    "ConfigDict"];
  Def ["InvitationResponse"] ["InvitationInDBBase"];
  Def ["InvitationCreateResponse"] ["InvitationResponse"; "Field"];
  Def ["InvitationDetailResponse"] ["InvitationResponse"; "Optional"];
  Def ["InvitationTokenResponse"] ["BaseModel"; "Field"; "Optional"; "UUID"; "datetime"];
  Def ["InvitationSendResponse"] ["BaseModel"; "UUID"; "Field"; "EmailStr"; "datetime"]].

(** [schemas/iam/permission.py] *)
Definition schemas_iam_permission_module : Source Action := mkSource false [
  From (schemas⋅"base") (names ["BaseSchema"]);
  Lib "typing" ["Optional"];
  Lib "uuid" ["UUID"];
  Lib "pydantic" ["ConfigDict"];
  Def ["PermissionBase"] ["BaseSchema"; "Optional"];
  Def ["PermissionCreate"] ["PermissionBase"];
  Def ["PermissionUpdate"] ["PermissionBase"; "Optional"];
  Def ["Permission"] ["PermissionBase"; "UUID"; "ConfigDict"];
  Def ["PermissionAssign"] ["BaseSchema"; "UUID"]].

(** [schemas/iam/role.py] *)
Definition schemas_iam_role_module : Source Action := mkSource false [
  Lib "typing" ["Optional"; "List"];
  Lib "uuid" ["UUID"];
  Lib "pydantic" ["BaseModel"; "ConfigDict"];
  From (schemas⋅"base") (names ["BaseSchema"; "IDSchema"; "TimestampSchema"]);
  From (schemas_iam⋅"permission") [("Permission", "PermissionSchema")];
  Def ["RoleBase"] ["BaseSchema"; "Optional"];
  Def ["RoleCreate"] ["RoleBase"; "Optional"; "List"; "UUID"];
  Def ["RoleUpdate"] ["BaseModel"; "Optional"; "List"; "UUID"];
  Def ["RoleAssign"] ["BaseModel"; "UUID"];
  Def ["Role"] ["IDSchema"; "TimestampSchema"; "RoleBase"; "ConfigDict"];
  Def ["RoleList"] ["BaseModel"; "UUID"; "Optional"; "ConfigDict"];
  Def ["RoleDetail"] ["Role"; "List"; "PermissionSchema"];
  Def ["RoleUserAssignmentInput"] ["BaseModel"; "List"; "UUID"];
  Def ["RoleUserAssignmentOutput"] ["BaseModel"; "List"; "UUID"]].

(** [schemas/iam/tenant.py] *)
Definition schemas_iam_tenant_module : Source Action := mkSource false [
  Lib "datetime" ["datetime"];
  Lib "typing" ["Optional"];
  Lib "pydantic" ["UUID4"; "BaseModel"; "constr"; "ConfigDict"];
  Def ["TenantBase"] ["BaseModel"; "constr"; "Optional"];
  Def ["TenantCreate"] ["TenantBase"];
  Def ["TenantUpdate"] ["BaseModel"; "Optional"];
  Def ["Tenant"] ["TenantBase"; "UUID4"; "datetime"; "Optional"; "ConfigDict"]].

(** [schemas/iam/user.py] *)
Definition schemas_iam_user_module : Source Action := mkSource false [
  Lib "datetime" ["datetime"];
  Lib "typing" ["Optional"; "List"];
  Lib "uuid" ["UUID"];
  Lib "pydantic" ["UUID4"; "BaseModel"; "EmailStr"; "Field"; "ConfigDict"; "field_validator"];
  Def ["UserBase"] ["BaseModel"; "Optional"; "EmailStr"];
  Def ["UserCreate"] ["UserBase"; "EmailStr"; "Field"; "field_validator"];
  Def ["UserUpdate"] ["UserBase"; "Optional"; "EmailStr"; "Field"; "field_validator"];
  Def ["UserStatusUpdate"] ["BaseModel"; "ConfigDict"];
  Def ["UserInDBBase"] ["UserBase"; "UUID"; "datetime"; "Optional"; "ConfigDict"];
  Def ["User"] ["UserInDBBase"; "Optional"; "Field"; "List"];
  Def ["UserInDB"] ["UserInDBBase"];
  Def ["UserListResponse"] ["BaseModel"; "List"; "User"]].

(** [services/__init__.py] *)
Definition services_module : Source Action := mkSource true [
  From (services⋅"base") (names ["CRUDBase"]);
  From (services_iam⋅"api_key") (names ["api_key_service"]);
  From (services_iam⋅"invitation") (names ["invitation_service"]);
  From (services_iam⋅"permission") (names ["permission_service"]);
  From (services_iam⋅"role") (names ["role_service"]);
  From (services_iam⋅"tenant") (names ["tenant_service"]);
  From (services_iam⋅"user") (names ["user_service"]);
  All ["CRUDBase"; "user_service"; "tenant_service"; "api_key_service"; "role_service"; "permission_service";
    "invitation_service"]].

(** [services/base.py] *)
Definition services_base_module : Source Action := mkSource false [
  Lib "typing" ["Any"; "Generic"; "Optional"; "TypeVar"; "Union"];
  Lib "uuid" ["UUID"];
  Lib "fastapi.encoders" ["jsonable_encoder"];
  Lib "pydantic" ["BaseModel"];
  Lib "sqlalchemy" ["select"];
  Lib "sqlalchemy.ext.asyncio" ["AsyncSession"];
  From (db⋅"base_class") (names ["Base"]);
  Def ["ModelType"] ["TypeVar"; "Base"];
  Def ["CreateSchemaType"] ["TypeVar"; "BaseModel"];
  Def ["UpdateSchemaType"] ["TypeVar"; "BaseModel"];
  Def ["CRUDBase"] ["Generic"; "ModelType"; "CreateSchemaType"; "UpdateSchemaType"; "AsyncSession"; "UUID";
    "Optional"; "Union"; "Any"]].

(** [services/iam/__init__.py] *)
Definition services_iam_module : Source Action := mkSource true [
  From (services_iam⋅"api_key") (names ["api_key_service"]);
  From (services_iam⋅"invitation") (names ["invitation_service"]);
  From (services_iam⋅"permission") (names ["permission_service"]);
  From (services_iam⋅"role") (names ["role_service"]);
  From (services_iam⋅"tenant") (names ["tenant_service"]);
  From (services_iam⋅"user") (names ["user_service"]);
  All ["user_service"; "tenant_service"; "api_key_service"; "role_service"; "permission_service";
    "invitation_service"]].

(** [services/iam/api_key.py] *)
Definition services_iam_api_key_module : Source Action := mkSource false [
  Lib "datetime" ["datetime"; "timezone"; "timedelta"];
  Lib "hashlib" ["hashlib"];
  Lib "secrets" ["secrets"];
  Lib "typing" ["Optional"; "Tuple"; "List"];
  Lib "uuid" ["UUID"];
  Lib "fastapi" ["HTTPException"; "status"];
  Lib "sqlalchemy.exc" ["IntegrityError"];
  Lib "sqlalchemy.ext.asyncio" ["AsyncSession"];
  Lib "fastapi.encoders" ["jsonable_encoder"];
  Lib "sqlalchemy" ["and_"; "select"; "inspect"];
  Lib "sqlalchemy.orm" ["load_only"];
  From (models_iam⋅"api_key") (names ["APIKey"]);
  From (models_iam⋅"user") (names ["User"]);
  From (schemas_iam⋅"api_key") (names ["APIKeyCreate"; "APIKeyUpdate"; "APIKeyScope"]);
  From (services⋅"base") (names ["CRUDBase"]);
  Lib "logging" ["logging"];
  Def ["logger"] ["logging"];
  Def ["APIKeyService"] ["CRUDBase"; "APIKey"; "APIKeyCreate"; "APIKeyUpdate"; "AsyncSession"; "UUID"; "Optional";
    "List"; "User"];
  Def ["api_key_service"] ["APIKeyService"; "APIKey"]].

(** [services/iam/invitation.py] *)
Definition services_iam_invitation_module : Source Action := mkSource false [
  Lib "datetime" ["datetime"; "timedelta"];
  Lib "secrets" ["secrets"];
  Lib "typing" ["Any"; "Optional"];
  Lib "uuid" ["UUID"];
  Lib "logging" ["logging"];
  Lib "fastapi.encoders" ["jsonable_encoder"];
  Lib "sqlalchemy" ["and_"; "select"];
  Lib "sqlalchemy.ext.asyncio" ["AsyncSession"];
  From (core⋅"config") (names ["settings"]);
  From (models_iam⋅"invitation") (names ["Invitation"; "InvitationStatus"]);
  From (models_iam⋅"tenant") (names ["Tenant"]);
  From (models_iam⋅"user") (names ["User"]);
  From (services⋅"base") (names ["CRUDBase"]);
  Def ["logger"] ["logging"];
  Def ["InvitationService"] ["CRUDBase"; "Invitation"; "Any"; "AsyncSession"; "UUID"; "Optional"];
  Def ["invitation_service"] ["InvitationService"; "Invitation"]].

(** [services/iam/permission.py] *)
Definition services_iam_permission_module : Source Action := mkSource false [
  Lib "typing" ["Any"; "Optional"];
  Lib "sqlalchemy" ["select"];
  Lib "sqlalchemy.ext.asyncio" ["AsyncSession"];
  From (models_iam⋅"permission") (names ["Permission"]);
  From (schemas_iam⋅"permission") (names ["PermissionCreate"; "PermissionUpdate"]);
  From (services⋅"base") (names ["CRUDBase"]);
  Def ["PermissionService"] ["CRUDBase"; "Permission"; "PermissionCreate"; "PermissionUpdate"; "AsyncSession";
    "Optional"];
  Def ["permission_service"] ["PermissionService"; "Permission"]].

(** [services/iam/role.py] *)
Definition services_iam_role_module : Source Action := mkSource false [
  Lib "typing" ["Any"; "Optional"; "List"];
  Lib "uuid" ["UUID"];
  Lib "logging" ["logging"];
  Lib "sqlalchemy" ["and_"; "select"; "insert"; "delete"; "func"; "exists"];
  Lib "sqlalchemy.ext.asyncio" ["AsyncSession"];
  Lib "sqlalchemy.orm" ["selectinload"; "joinedload"];
  Lib "sqlalchemy.exc" ["IntegrityError"];
  From (models_iam⋅"permission") (names ["Permission"]);
  From (models_iam⋅"role") (names ["Role"]);
  From (models_iam⋅"role_permissions") (names ["role_permissions_table"]);
  From (models_iam⋅"user_tenant_role") (names ["user_tenant_roles_table"]);
  From (models_iam⋅"user") (names ["User"]);
  From (services⋅"base") (names ["CRUDBase"]);
  From (schemas_iam⋅"role") (names ["RoleCreate"; "RoleUpdate"]);
  Def ["logger"] ["logging"];
  Def ["RoleService"] ["CRUDBase"; "Role"; "RoleCreate"; "RoleUpdate"; "AsyncSession"; "UUID"; "Optional"; "List";
    "User"];
  Def ["role_service"] ["RoleService"; "Role"]].

(** [services/iam/tenant.py] *)
Definition services_iam_tenant_module : Source Action := mkSource false [
  Lib "typing" ["Any"; "Optional"; "Union"; "List"];
  Lib "uuid" ["UUID"];
  Lib "fastapi.encoders" ["jsonable_encoder"];
  Lib "sqlalchemy" ["select"];
  Lib "sqlalchemy.ext.asyncio" ["AsyncSession"];
  Lib "sqlalchemy.orm" ["selectinload"];
  From (models_iam⋅"tenant") (names ["Tenant"]);
  From (models_iam⋅"user") (names ["User"]);
  From (models_iam⋅"user_tenant_role") (names ["UserTenantRole"]);
  From (schemas_iam⋅"tenant") (names ["TenantCreate"; "TenantUpdate"]);
  From (services⋅"base") (names ["CRUDBase"]);
  Def ["TenantService"] ["CRUDBase"; "Tenant"; "TenantCreate"; "TenantUpdate"; "AsyncSession"; "UUID"; "List";
    "Optional"; "Union"; "Any"];
  Def ["tenant_service"] ["TenantService"; "Tenant"]].

(** [services/iam/user.py] *)
Definition services_iam_user_module : Source Action := mkSource false [
  Lib "typing" ["Any"; "Dict"; "List"; "Optional"; "Union"; "Tuple"];
  Lib "uuid" ["UUID"];
  Lib "datetime" ["datetime"];
  Lib "fastapi.encoders" ["jsonable_encoder"];
  Lib "sqlalchemy" ["select"; "insert"; "delete"; "and_"; "update"; "func"; "or_"];
  Lib "sqlalchemy.ext.asyncio" ["AsyncSession"];
  Lib "sqlalchemy.exc" ["IntegrityError"];
  Lib "logging" ["logging"];
  Lib "sqlalchemy.orm" ["joinedload"];
  From (core⋅"security") (names ["create_password_hash"; "verify_password"]);
  From (models_iam⋅"user") (names ["User"]);
  From (models_iam⋅"user_tenant_role") (names ["UserTenantRole"]);
  From (models_iam⋅"role") (names ["Role"]);
  From (schemas_iam⋅"user") (names ["UserCreate"; "UserUpdate"]);
  From (services⋅"base") (names ["CRUDBase"]);
  From services_iam (names ["role_service"]);
  From services_iam (names ["tenant_service"]);
  From (core⋅"exceptions") (names ["AuthorizationError"; "ValidationError"; "NotFoundError"]);
  Def ["logger"] ["logging"];
  Def ["DEFAULT_ROLE_NAME"] [];
  Def ["UserService"] ["CRUDBase"; "User"; "UserCreate"; "UserUpdate"; "AsyncSession"; "Optional"; "UUID"; "Union";
    "Any"; "Tuple"; "List"; "Role"];
  Def ["user_service"] ["UserService"; "User"]].

(** ** The table *)

Definition table : list (Name * Source Action) :=
  [(virtualstack, empty_package);
    (virtualstack⋅"adapters", empty_package);
    (api, empty_package);
    (api⋅"deps", api_deps_module);
    (api⋅"middleware", api_middleware_module);
    (v1, empty_package);
    (v1⋅"api", api_v1_api_module);
    (endpoints, empty_package);
    (endpoints⋅"api_keys", api_keys_module);
    (endpoints⋅"auth", auth_module);
    (endpoints⋅"invitations", invitations_module);
    (endpoints⋅"roles", roles_module);
    (endpoints⋅"tenant_user_management", tenant_user_management_module);
    (endpoints⋅"tenants", tenants_module);
    (endpoints⋅"users", users_module);
    (core, empty_package);
    (core⋅"config", core_config_module);
    (core⋅"exceptions", core_exceptions_module);
    (core⋅"permissions", core_permissions_module);
    (core⋅"rate_limiter", core_rate_limiter_module);
    (core⋅"security", core_security_module);
    (db, empty_package);
    (db⋅"base", db_base_module);
    (db⋅"init_db", db_init_db_module);
    (db⋅"session", db_session_module);
    (virtualstack⋅"main", main_module);
    (models, models_module);
    (models⋅"base", models_base_module);
    (models_iam, models_iam_module);
    (models_iam⋅"api_key", models_iam_api_key_module);
    (models_iam⋅"invitation", models_iam_invitation_module);
    (models_iam⋅"permission", models_iam_permission_module);
    (models_iam⋅"role", models_iam_role_module);
    (models_iam⋅"role_permissions", models_iam_role_permissions_module);
    (models_iam⋅"tenant", models_iam_tenant_module);
    (models_iam⋅"tenant_role", models_iam_tenant_role_module);
    (models_iam⋅"user", models_iam_user_module);
    (models_iam⋅"user_tenant_role", models_iam_user_tenant_role_module);
    (schemas, schemas_module);
    (schemas⋅"base", schemas_base_module);
    (schemas_iam, schemas_iam_module);
    (schemas_iam⋅"api_key", schemas_iam_api_key_module);
    (schemas_iam⋅"auth", schemas_iam_auth_module);
    (schemas_iam⋅"invitation", schemas_iam_invitation_module);
    (schemas_iam⋅"permission", schemas_iam_permission_module);
    (schemas_iam⋅"role", schemas_iam_role_module);
    (schemas_iam⋅"tenant", schemas_iam_tenant_module);
    (schemas_iam⋅"user", schemas_iam_user_module);
    (services, services_module);
    (services⋅"base", services_base_module);
    (services_iam, services_iam_module);
    (services_iam⋅"api_key", services_iam_api_key_module);
    (services_iam⋅"invitation", services_iam_invitation_module);
    (services_iam⋅"permission", services_iam_permission_module);
    (services_iam⋅"role", services_iam_role_module);
    (services_iam⋅"tenant", services_iam_tenant_module);
    (services_iam⋅"user", services_iam_user_module);
    (virtualstack⋅"workers", empty_package)].

Definition repository : gmap Name (Source Action) := list_to_map table.
