(* ===== verification/ImportGraph.v ===== *)
(** * Starting the application, import by import

    What importing the modules of [ModuleTable] does: for the files as they are,
    for the files with a [db/base_class.py] - the module every model imports and
    the repository does not hold - and for the settings of an environment
    ([Settings]).  The engine and the Redis client are third-party constructors
    that may refuse their URL ([Drivers]). *)

From stdpp Require Import base tactics list gmap strings pretty relations.
From Stdlib Require Import ZArith Lia.
From S2P Require Import Prelude PyStd Effects.
From S2P Require Import Replies Schemas Settings Imports ModuleTable.
From S2P Require InvitationApi.
Import InvitationApi(toy_pydantic).

Definition failure (o : Outcome) : option Failure :=
  match o with Failed e _ => Some e | _ => None end.

Definition ran (o : Outcome) : list Name :=
  match o with Done s | Failed _ s => executed s | OutOfFuel => [] end.

(** Enough for the 58 files and one more. *)
Definition fuel : nat := 64.

Definition import_in (files : gmap Name (Source Action)) (effect : Action → option Exn) (p : Name) : Outcome :=
  import_module files effect fuel p fresh.

(** ** The module that is not there *)

Definition base_class : Name := db⋅"base_class".

Definition with_base_class (b : Source Action) : gmap Name (Source Action) := <[base_class := b]> repository.

(** A module that declares a base of its own, and one that passes on [db.base]'s. *)
Definition declares_base : Source Action :=
  mkSource false [Lib "sqlalchemy.orm" ["DeclarativeBase"]; Def ["Base"] ["DeclarativeBase"]].

Definition reexports_base : Source Action := mkSource false [From (db⋅"base") (names ["Base"])].

(** ** What may raise *)

(** The answers to the four [Action]s, one by one. *)
Definition answers (settings url engine redis : option Exn) (a : Action) : option Exn :=
  match a with CreateSettings => settings | CheckDatabaseUrl => url | CreateEngine => engine | CreateRedis => redis end.

Lemma import_answers files effect p :
  (size (dom files : gset Name) < fuel)%nat →
  import_in files effect p =
    import_in files (answers (effect CreateSettings) (effect CheckDatabaseUrl) (effect CreateEngine) (effect CreateRedis)) p.
Proof.
  intros Hn. apply import_agrees; [by intros []|lia|]. apply import_terminates.
  unfold remaining, fresh. simpl. by rewrite dom_empty_L, difference_empty_L.
Qed.

Lemma repository_size : (size (dom repository : gset Name) < fuel)%nat.
Proof. apply (bool_decide_unpack _). by vm_compute. Qed.

Lemma with_base_class_size b : (size (dom (with_base_class b) : gset Name) < fuel)%nat.
Proof.
  unfold with_base_class. rewrite dom_insert_L. apply (bool_decide_unpack _). by vm_compute.
Qed.

Lemma repository_answers effect p :
  import_in repository effect p =
    import_in repository (answers (effect CreateSettings) (effect CheckDatabaseUrl) (effect CreateEngine) (effect CreateRedis)) p.
Proof. apply import_answers, repository_size. Qed.

Lemma base_class_answers b effect p :
  import_in (with_base_class b) effect p =
    import_in (with_base_class b) (answers (effect CreateSettings) (effect CheckDatabaseUrl) (effect CreateEngine) (effect CreateRedis)) p.
Proof. apply import_answers, with_base_class_size. Qed.

Definition first_failure (l : list (option Exn)) : option Failure := Raised <$> foldr (λ x y, match x with None => y | _ => x end) None l.

Class Drivers := {
  create_async_engine : string → option Exn;
  redis_from_url : string → option Exn
}.

Section startup.
Context `{RequestModel} `{SettingsSource} `{Drivers}.

Definition redis_address (a : list (string * PyVal)) : string :=
  "redis://" +:+ default "" (get_setting a "REDIS_HOST" ≫= as_str) +:+ ":"
  +:+ match get_setting a "REDIS_PORT" with Some (PInt z) => pretty z | _ => "" end.

(** [settings.REDIS_URL or f"redis://{settings.REDIS_HOST}:{settings.REDIS_PORT}"]. *)
Definition redis_url (a : list (string * PyVal)) : string :=
  match get_setting a "REDIS_URL" with
  | Some (PStr u) => if str_truthy u then u else redis_address a
  | _ => redis_address a
  end.

(** The four statements in an environment. *)
Definition startup_effect (env : Config.Values) (a : Action) : option Exn :=
  match create_settings env, a with
  | inr e, _ => Some e
  | inl _, CreateSettings => None
  | inl _, CheckDatabaseUrl => match import_session env with inr e => Some e | inl _ => None end
  | inl _, CreateEngine => match import_session env with inl uri => create_async_engine uri | inr _ => None end
  | inl s, CreateRedis => redis_from_url (redis_url s)
  end.
End startup.

(** ** Imports inside functions *)

Definition get_user_permissions_imports : list (Stmt Action) :=
  [From (models_iam⋅"permission") [("Permission", "PermissionModel")];
   From (models_iam⋅"role_permission") (names ["RolePermission"])].

Definition accept_invitation_imports : list (Stmt Action) := [From services_iam (names ["user_service"])].

Definition check_user_permission_imports : list (Stmt Action) := [From services_iam (names ["permission_service"])].

(** The statements [l] of a function of the module [p], in an interpreter: what
    they raise, and how many bodies they run. *)
Definition called (files : gmap Name (Source Action)) (s : Interp) (p : Name) (l : list (Stmt Action)) : option Failure * nat :=
  let o := exec_body files (λ _, None) (import_module files (λ _, None) fuel) p l s in
  (failure o, length (ran o) - length (executed s))%nat.

(** ** Whatever the missing module is *)

(** Importing any module of the backend, with any [db/base_class.py] and
    whatever the environment answers, terminates, the cycles among models,
    schemas and services included.  No body runs twice.  When it succeeds, the
    bodies that ran are the modules in [sys.modules], and everything the module
    requires, through whatever chain of imports and packages, exists and is
    loaded; when it fails, a [ModuleNotFoundError] names a module that is not
    there. *)
Theorem import_spec b effect p :
  p ≠ [] →
  match import_in (with_base_class b) effect p with
  | Done s => NoDup (executed s) ∧ (∀ m, m ∈ executed s ↔ loaded m s = true) ∧ loaded p s = true ∧
      ∀ d, rtc (requires (with_base_class b)) p d → is_Some (with_base_class b !! d) ∧ loaded d s = true
  | Failed e s => NoDup (executed s) ∧ (∀ m, m ∈ executed s → is_Some (with_base_class b !! m)) ∧
      ∀ m, e = ModuleNotFound m → with_base_class b !! m = None
  | OutOfFuel => False
  end.
Proof. intros Hp. apply import_outcome; [done|apply with_base_class_size]. Qed.

Example import_spec_witness :
  match import_in (with_base_class declares_base) (λ _, None) schemas with
  | Done s => NoDup (executed s) ∧ loaded schemas s = true
  | _ => False
  end.
Proof.
  pose proof (import_spec declares_base (λ _, None) schemas ltac:(discriminate)) as H.
  assert (failure (import_in (with_base_class declares_base) (λ _, None) schemas) = None) as Hf
    by (vm_compute; reflexivity).
  destruct (import_in (with_base_class declares_base) (λ _, None) schemas) as [s|e s|];
    [|discriminate Hf|exact H].
  split; [exact (proj1 H)|exact (proj1 (proj2 (proj2 H)))].
Defined.

(** ** Once it is started *)

Lemma Done_inv (P : Interp → Prop) o : match o with Done s => P s | _ => False end → ∃ s, o = Done s ∧ P s.
Proof. destruct o as [s| |]; [|done..]. by exists s. Qed.

(** In the started application a star import of each package with an
    [__all__] works, except that of [models], whose list names classes no module
    defines.  The imports inside functions run no body, and the one of
    [get_user_permissions_in_tenant] names a module that does not exist: the
    method raises [ModuleNotFoundError]. *)
Theorem started_imports :
  ∃ s, import_in (with_base_class declares_base) (λ _, None) (virtualstack⋅"main") = Done s ∧
    length (executed s) = 54%nat ∧
    let call := called (with_base_class declares_base) s in
    (λ p, (call (virtualstack⋅"main") [FromStar p]).1) <$> [models; models_iam; schemas; schemas_iam; services; services_iam] =
      [Some (NoAttribute "TenantRole" models); None; None; None; None; None] ∧
    call (services_iam⋅"invitation") accept_invitation_imports = (None, 0%nat) ∧
    call (endpoints⋅"invitations") check_user_permission_imports = (None, 0%nat) ∧
    call (services_iam⋅"user") get_user_permissions_imports =
      (Some (ModuleNotFound (models_iam⋅"role_permission")), 0%nat) ∧
    dotted (models_iam⋅"role_permission") = "virtualstack.models.iam.role_permission"%string.
Proof.
  apply Done_inv. vm_compute. repeat split.
Qed.

(** ** The files as they are *)

Definition importable : list Name :=
  [virtualstack; virtualstack⋅"adapters"; api; api⋅"middleware"; v1; endpoints; core; core⋅"config"; core⋅"exceptions";
   core⋅"permissions"; core⋅"rate_limiter"; core⋅"security"; db; db⋅"session"; virtualstack⋅"workers"].

Lemma main_failure effect :
  failure (import_in (with_base_class declares_base) effect (virtualstack⋅"main")) =
    first_failure (effect <$> [CreateSettings; CheckDatabaseUrl; CreateEngine; CreateRedis]).
Proof.
  rewrite base_class_answers. simpl.
  generalize (effect CreateSettings), (effect CheckDatabaseUrl), (effect CreateEngine), (effect CreateRedis).
  intros c u e r. destruct c; [vm_compute; reflexivity|]. destruct u; [vm_compute; reflexivity|].
  destruct e; [vm_compute; reflexivity|]. destruct r; vm_compute; reflexivity.
Qed.

Definition before_models (effect : Action → option Exn) : option Failure :=
  first_failure (effect <$> [CreateSettings; CheckDatabaseUrl; CreateEngine]).

Ltac answer_by_answer effect :=
  unfold before_models; cbn [fmap list_fmap];
  generalize (effect CreateSettings), (effect CheckDatabaseUrl), (effect CreateEngine), (effect CreateRedis);
  intros c u e r; destruct c; [vm_compute; reflexivity|]; destruct u; [vm_compute; reflexivity|];
  destruct e; vm_compute; reflexivity.

Lemma repository_main effect :
  failure (import_in repository effect (virtualstack⋅"main")) = Some (default (ModuleNotFound base_class) (before_models effect)).
Proof. rewrite repository_answers. answer_by_answer effect. Qed.

Lemma reexported_main effect :
  failure (import_in (with_base_class reexports_base) effect (virtualstack⋅"main")) =
    Some (default (CannotImportName "Base" base_class) (before_models effect)).
Proof. rewrite base_class_answers. answer_by_answer effect. Qed.

Lemma repository_base effect : failure (import_in repository effect (db⋅"base")) = Some (ModuleNotFound base_class).
Proof. rewrite repository_answers. vm_compute. reflexivity. Qed.

Lemma reexported_base effect : failure (import_in (with_base_class reexports_base) effect (db⋅"base")) = None.
Proof. rewrite base_class_answers. vm_compute. reflexivity. Qed.

(** C10. With the files of the repository nothing that needs a model can be
    imported: of the 58 modules the 15 of [importable] can, the other 43, among
    them [virtualstack.main], [db.base] (which the migrations import) and every
    model, schema and service, end in [ModuleNotFoundError: virtualstack.db.base_class] -
    whatever the settings, unless one of the three statements before it raises
    first.  With a [base_class] that declares [Base] the application imports
    unless [Settings()], the check of [DATABASE_URL], the engine or the Redis
    client raises, in that order, and then 54 bodies have run.  With one that
    passes on the [Base] of [db.base], [db.base] imports and the application does
    not: the cycle is entered at a model, before [base_class] has bound [Base]. *)
Theorem application_imports effect :
  (λ m, failure (import_in repository (λ _, None) m)) <$> table.*1 =
    (λ m, if bool_decide (m ∈ importable) then None else Some (ModuleNotFound base_class)) <$> table.*1 ∧
  failure (import_in repository effect (virtualstack⋅"main")) =
    Some (default (ModuleNotFound base_class) (before_models effect)) ∧
  failure (import_in repository effect (db⋅"base")) = Some (ModuleNotFound base_class) ∧
  failure (import_in (with_base_class declares_base) effect (virtualstack⋅"main")) =
    first_failure (effect <$> [CreateSettings; CheckDatabaseUrl; CreateEngine; CreateRedis]) ∧
  length (ran (import_in (with_base_class declares_base) (λ _, None) (virtualstack⋅"main"))) = 54%nat ∧
  failure (import_in (with_base_class reexports_base) effect (db⋅"base")) = None ∧
  failure (import_in (with_base_class reexports_base) effect (virtualstack⋅"main")) =
    Some (default (CannotImportName "Base" base_class) (before_models effect)).
Proof.
  split_and!; [vm_compute; reflexivity|apply repository_main|apply repository_base|apply main_failure| |
    apply reexported_base|apply reexported_main].
  destruct started_imports as (s & -> & Hn & _). exact Hn.
Qed.

(** ** Started with an environment *)

Section started.
Context `{RequestModel} `{SettingsSource} `{Drivers}.

Definition start_application (env : Config.Values) : Outcome :=
  import_in (with_base_class declares_base) (startup_effect env) (virtualstack⋅"main").

(** C30. Which environments the application starts in, a [base_class] supplied:
    those [Settings] accepts with a [DATABASE_URL] that is not empty, an engine
    that takes it and a Redis client that takes [REDIS_URL] or the host and port.
    The first of these that fails is what the import raises: the error of
    [Settings()] or of the missing URL, the engine's, the Redis client's. *)
Theorem start_spec env :
  (failure (start_application env) = None ↔
     ∃ a uri, load_settings env = Some a ∧ import_session env = inl uri ∧
       create_async_engine uri = None ∧ redis_from_url (redis_url a) = None) ∧
  (∀ e, create_settings env = inr e → failure (start_application env) = Some (Raised e)) ∧
  (∀ e, import_session env = inr e → failure (start_application env) = Some (Raised e)) ∧
  (∀ uri e, import_session env = inl uri → create_async_engine uri = Some e →
     failure (start_application env) = Some (Raised e)) ∧
  (∀ a uri e, create_settings env = inl a → import_session env = inl uri → create_async_engine uri = None →
     redis_from_url (redis_url a) = Some e → failure (start_application env) = Some (Raised e)).
Proof.
  unfold start_application. rewrite main_failure. simpl. unfold startup_effect, first_failure, load_settings.
  destruct (create_settings env) as [a|e0] eqn:Ha; simpl.
  - destruct (import_session env) as [uri|e] eqn:Hu; simpl.
    + split_and!; [|done|done|by intros ? ? [= ->] ->|by intros ? ? ? [= ->] [= ->] -> ->]. split.
      * intros Hn. exists a, uri. destruct (create_async_engine uri); [done|]. by destruct (redis_from_url _).
      * by intros (a' & uri' & [= <-] & [= <-] & -> & ->).
    + split_and!; [|done|by intros ? [= ->]|done|done]. split; [done|]. by intros (? & ? & ? & ? & _).
  - assert (import_session env = inr e0) as Hu by (unfold import_session; by rewrite Ha).
    rewrite Hu. split_and!; [|by intros ? [= <-]|by intros ? [= <-]|done|done].
    split; [done|]. by intros (? & ? & ? & _).
Qed.
End started.

Instance plain_drivers : Drivers := {|
  create_async_engine u := if String.prefix "postgresql" u then None else Some (ValueError u);
  redis_from_url u := if String.prefix "redis://" u then None else Some (ValueError u)
|}.

Definition plain_environment : Config.Values :=
  {[ "DATABASE_URL" := "postgresql+asyncpg://u:p@h/db" ]}.

Example start_spec_witness :
  failure (start_application plain_environment) = None ∧
  failure (start_application ∅) = Some (Raised (RuntimeError "Primary DATABASE_URL not configured.")) ∧
  failure (start_application (<["BACKEND_CORS_ORIGINS" := "http://a.io"]> plain_environment)) =
    Some (Raised (SettingsError "BACKEND_CORS_ORIGINS")) ∧
  failure (start_application (<["REDIS_URL" := "http://h"]> plain_environment)) =
    Some (Raised (ValueError "http://h")).
Proof.
  split_and!.
  - apply (start_spec plain_environment). eexists _, _. split_and!; vm_compute; reflexivity.
  - apply (start_spec ∅). vm_compute. reflexivity.
  - apply (start_spec (<["BACKEND_CORS_ORIGINS" := "http://a.io"]> plain_environment)).
    vm_compute. reflexivity.
  - destruct (create_settings (<["REDIS_URL" := "http://h"]> plain_environment)) as [a|e] eqn:Ha;
      [|vm_compute in Ha; discriminate Ha].
    eapply (start_spec (<["REDIS_URL" := "http://h"]> plain_environment)); [exact Ha|..];
      [vm_compute; reflexivity|vm_compute; reflexivity|].
    vm_compute in Ha. injection Ha as <-. vm_compute. reflexivity.
Defined.
