(* ===== verification/Scripts.v ===== *)
(** * [scripts/seed_initial_data.py] and [scripts/run_seed.py]

    The seeding script as it is written, over the services it calls: the default
    permissions, tenant and administrator, and the transaction around them.  Its
    first project import names a module the repository does not have; the
    theorems say what it would do otherwise.  [run_seed] is the stand-alone
    runner of the start-up seeding. *)

From stdpp Require Import base tactics list gmap strings.
From Stdlib Require Import ZArith Lia.
From S2P Require Import Prelude PyStd Effects Models Session Snapshot Crud Stability.
From S2P Require Import RoleService UserService Security.
From S2P Require InvitationApi Permissions TenantService App.
From S2P Require Import Replies Schemas.
Import InvitationApi(Pydantic, toy_pydantic, email_valid).

(** ** The data *)

Record PermissionData := mkPermissionData {
  pd_key : string;
  pd_name : string;
  pd_description : string
}.

Definition DEFAULT_PERMISSIONS : list PermissionData :=
  [mkPermissionData "tenant.user.invite" "Invite Users" "Can invite users to the tenant";
   mkPermissionData "tenant.user.manage" "Manage Users" "Can manage users in the tenant";
   mkPermissionData "tenant.role.manage" "Manage Roles" "Can manage roles in the tenant";
   mkPermissionData "vm.read" "View VMs" "Can view VMs";
   mkPermissionData "vm.create" "Create VMs" "Can create VMs";
   mkPermissionData "vm.delete" "Delete VMs" "Can delete VMs";
   mkPermissionData "vm.power.manage" "Power VMs" "Can start/stop/restart VMs";
   mkPermissionData "vm.template.upload" "Upload Templates" "Can upload VM templates";
   mkPermissionData "vm.template.manage" "Manage Templates" "Can manage VM templates";
   mkPermissionData "support.ticket.create" "Create Tickets" "Can create support tickets";
   mkPermissionData "support.ticket.view" "View Tickets" "Can view support tickets";
   mkPermissionData "billing.view" "View Billing" "Can view billing information"].

(** [DEFAULT_ADMIN], as the arguments of [UserCreate]. *)
Definition DEFAULT_ADMIN : UserCreate :=
  mkUserCreate "admin@example.com" "Password123!" "Platform" "Admin" true true.

(** [DEFAULT_TENANT], as the arguments of [TenantCreate]. *)
Definition DEFAULT_TENANT_NAME : string := "Default Tenant".
Definition DEFAULT_TENANT : list (string * Json) :=
  [("name", JStr DEFAULT_TENANT_NAME);
   ("description", JStr "Default tenant for demonstration purposes")].

(** ** The functions *)

Section seed.
Context {S : Type} `{Session S} `{Inputs} `{Passlib} `{Pydantic} `{ResponseModel} `{RequestModel}.

(** One turn of the loop of [seed_permissions]; the argument [module] names no
    field of [PermissionCreate]. *)
Definition seed_permission (permission_data : PermissionData) : M (World S) unit :=
  existing ← Permissions.get_by_code (pd_key permission_data);
  match existing with
  | Some _ => mret tt
  | None =>
      Crud.create (λ i c u, mkPermission i (pd_name permission_data) (pd_key permission_data)
                              (Some (pd_description permission_data)) c u) ;;
      mret tt
  end.

Fixpoint seed_each (l : list PermissionData) : M (World S) unit :=
  match l with
  | [] => mret tt
  | permission_data :: l' => seed_permission permission_data ;; seed_each l'
  end.

Definition seed_permissions : M (World S) unit := seed_each DEFAULT_PERMISSIONS.

(** [TenantCreate(name=..., description=...)]. *)
Definition default_tenant_in : TenantService.TenantCreate + Exn :=
  match read_model TenantCreateSchema tenant_create (JObject DEFAULT_TENANT) with
  | Some tenant_in => inl tenant_in
  | None => inr (PydanticValidationError (InvitationApi.validation_message "TenantCreate"))
  end.

Definition seed_default_tenant : M (World S) Tenant :=
  existing ← TenantService.get_by_name DEFAULT_TENANT_NAME;
  match existing with
  | Some tenant => mret tenant
  | None => tenant_in ← lift default_tenant_in; TenantService.create tenant_in
  end.

(** [UserCreate(...)]. *)
Definition admin_in : UserCreate + Exn :=
  if email_valid (uc_email DEFAULT_ADMIN) && (8 <=? str_len (uc_password DEFAULT_ADMIN))%nat
  then inl DEFAULT_ADMIN
  else inr (PydanticValidationError (InvitationApi.validation_message "UserCreate")).

Definition seed_admin_user : M (World S) unit :=
  existing ← get_by_email (uc_email DEFAULT_ADMIN);
  match existing with
  | Some _ => mret tt
  | None =>
      tenant ← TenantService.get_by_name DEFAULT_TENANT_NAME;
      tenant ← match tenant with Some tenant => mret tenant | None => seed_default_tenant end;
      user_in ← lift admin_in;
      UserService.create user_in (t_id tenant) false ;; mret tt
  end.

(** The body of the [async for]; the session is closed when the loop is left.
    [get_db] and [init_db] are to come from [core/db.py], which does not exist:
    the first is read as the one of [db/session.py], the second does nothing.  No
    run of the script gets here. *)
Definition seed_all : M (World S) unit :=
  get_db (try_catch (seed_default_tenant ;; seed_permissions ;; seed_admin_user ;; commit)
                    (λ e, rollback ;; raise e)).

(** The modules of the package [virtualstack.core]. *)
Definition core_modules : list string := ["config"; "exceptions"; "permissions"; "rate_limiter"; "security"].

Definition import_core (name : string) : M (World S) unit :=
  raise_if (bool_decide (name ∉ core_modules)) (ModuleNotFoundError ("virtualstack.core." +:+ name)).

(** The script: its imports, then [asyncio.run(seed_all())]. *)
Definition seed_script : M (World S) unit := import_core "db" ;; seed_all.

(** ** [scripts/run_seed.py] *)

(** [main] in a process of its own, with the exit status. *)
Definition run_seed (w : World S) : outcome Z * App.Process S :=
  let '(r, p) := try_catch (App.seed_initial_data ;; App.in_session commit ;; mret 0%Z)
                           (λ e, App.in_session rollback ;; mret 1%Z)
                           (App.mkProcess false (reopen w)) in
  (r, App.mkProcess (App.has_seeded p) (reopen (App.process_world p))).
End seed.

(** ** Facts *)

Definition code_present (t : Tables) (d : PermissionData) : Prop :=
  ∃ i p, permissions t !! i = Some p ∧ p_code p = pd_key d.

(** The row that is in the way of a default permission: its name, another code. *)
Definition name_in_the_way (t : Tables) (d : PermissionData) : Prop :=
  ¬ code_present t d ∧ ∃ i p, permissions t !! i = Some p ∧ p_name p = pd_name d.

Definition default_tenant_present (t : Tables) : Prop :=
  ∃ i x, tenants t !! i = Some x ∧ t_name x = DEFAULT_TENANT_NAME.

Definition admin_present (t : Tables) : Prop := email_taken (uc_email DEFAULT_ADMIN) t.

(** The content has nothing left to seed. *)
Definition fully_seeded (t : Tables) : Prop :=
  default_tenant_present t ∧ Forall (code_present t) DEFAULT_PERMISSIONS ∧ admin_present t.

Section facts.
Context {S : Type} `{SessionLaws S} `{Inputs} `{PasslibLaws} `{Pydantic} `{RequestModelLaws}.
Implicit Types w : World S.

Lemma get_tenant_post w Q :
  usable w = true →
  (∀ i x, tenants (view w) !! i = Some x → t_name x = DEFAULT_TENANT_NAME → Q (Ret (Some x)) w) →
  (¬ default_tenant_present (view w) → Q (Ret None) w) →
  post (TenantService.get_by_name DEFAULT_TENANT_NAME) w Q.
Proof.
  intros Hu Hs Hn. apply post_query; [done|]. destruct (first _) as [x|] eqn:Hf.
  - apply first_select_Some in Hf as [? [i Hi]]. by eapply Hs.
  - apply Hn. intros (i & x & Hi & ?). rewrite first_select_None in Hf. by destruct (Hf i x Hi).
Qed.

(** The script's tenant has no slug, so it is no [TenantCreate]. *)
Lemma default_tenant_invalid :
  default_tenant_in = inr (PydanticValidationError (InvitationApi.validation_message "TenantCreate")).
Proof.
  unfold default_tenant_in, read_model. rewrite load_model.
  rewrite (load_fields_missing _ _ (required "slug" (TConstr 3 50 TenantService.slug_char))); [done| |done].
  right. left.
Qed.

(** What a turn of the loop does when it raises nothing. *)
Definition seeds (d : PermissionData) (t t' : Tables) : Prop :=
  (code_present t d ∧ t' = t) ∨
  (¬ code_present t d ∧ ¬ name_in_the_way t d ∧
   ∃ p, p_code p = pd_key d ∧ permissions t !! p_id p = None ∧
        t' = set_permissions (<[p_id p := p]> (permissions t)) t).

Lemma seed_permission_post d w :
  usable w = true → db_ok (view w) →
  post (seed_permission d) w (λ r w', durable w' = durable w ∧
    match r with
    | Ret _ => usable w' = true ∧ db_ok (view w') ∧ seeds d (view w) (view w')
    | Raise _ => ¬ code_present (view w) d
    end).
Proof.
  intros Hu Hok. unfold seed_permission. apply post_bind, post_query; [done|].
  destruct (first _) as [p|] eqn:Hf.
  - apply first_select_Some in Hf as [Hc [i Hi]]. apply post_ret. split_and!; try done.
    left. split; [|done]. by exists i, p.
  - assert (¬ code_present (view w) d) as Hno.
    { intros (i & p & Hi & Hc). rewrite first_select_None in Hf. by destruct (Hf i p Hi). }
    apply post_bind. unfold Crud.create. do 6 wp_step.
    apply post_bind, post_exec; [solve_usable| |]; autorewrite with world; [|intros c _; by split].
    intros t Ht. apply post_ret, post_ret. autorewrite with world.
    split_and!; [done|done|exact (insert_row_ok _ _ _ Hok (ok_permissions _ Hok) Ht)|].
    right. split; [done|]. apply insert_row_eq in Ht as (Hnone & -> & Hv).
    match type of Hnone with table _ !! row_id ?r = None => set (p := r) in * end. split.
    + intros (_ & i & q & Hi & Hq). unfold row_violation in Hv.
      destruct (unique_clash p (view w)) as [c|] eqn:Hc; [done|].
      pose proof (unique_clash_None p (view w) Hc (UqPermissionName, pd_name d) i q) as Hid.
      rewrite Hid in Hi; [|by left|done|rewrite <-Hq; by left]. simpl in Hi, Hnone. congruence.
    + by exists p.
Qed.

(** The loop. *)
Fixpoint seeded_by (l : list PermissionData) (t t' : Tables) : Prop :=
  match l with
  | [] => t' = t
  | d :: l' => ∃ t1, seeds d t t1 ∧ seeded_by l' t1 t'
  end.

(** Only permissions are added. *)
Definition more_permissions (t t' : Tables) : Prop :=
  permissions t ⊆ permissions t' ∧ t' = set_permissions (permissions t') t.

Lemma more_permissions_refl t : more_permissions t t.
Proof. split; [done|by destruct t]. Qed.

Lemma more_permissions_trans t1 t2 t3 :
  more_permissions t1 t2 → more_permissions t2 t3 → more_permissions t1 t3.
Proof. intros [Hs1 H1'] [Hs2 H2']. split; [by etrans|]. rewrite H2', H1'. by destruct t1, t2, t3. Qed.

Lemma seeds_more d t t' : seeds d t t' → more_permissions t t' ∧ code_present t' d.
Proof.
  intros [[Hc ->]|(_ & _ & p & Hp & Hn & ->)]; [split; [apply more_permissions_refl|done]|].
  split; [split; [by apply insert_subseteq|by destruct t]|].
  exists (p_id p), p. split; [apply lookup_insert_eq|done].
Qed.

Lemma code_present_mono t t' d : more_permissions t t' → code_present t d → code_present t' d.
Proof. intros [Hs _] (i & p & Hi & Hc). exists i, p. split; [by eapply lookup_weaken|done]. Qed.

(** A row in the way of another permission stays there. *)
Lemma seeds_in_the_way d d' t t' : pd_key d ≠ pd_key d' → seeds d t t' →
  name_in_the_way t d' → name_in_the_way t' d'.
Proof.
  intros Hne Hs [Hno (i & q & Hi & Hq)]. pose proof (seeds_more _ _ _ Hs) as [[Hsub _] _].
  split; [|exists i, q; split; [by eapply lookup_weaken|done]].
  destruct Hs as [[_ ->]|(_ & _ & p & Hp & Hn & ->)]; [done|]. intros (j & r & Hj & Hr).
  simpl in Hj. apply lookup_insert_Some in Hj as [[_ <-]|[_ Hj]]; [congruence|]. apply Hno. by exists j, r.
Qed.

Lemma seeded_by_more l t t' : seeded_by l t t' → more_permissions t t' ∧ Forall (code_present t') l.
Proof.
  revert t. induction l as [|d l IH]; intros t; simpl; [intros ->; split; [apply more_permissions_refl|constructor]|].
  intros (t1 & [Hm Hc]%seeds_more & [Hm' Hall]%IH). split; [by eapply more_permissions_trans|].
  constructor; [by eapply code_present_mono|done].
Qed.

Lemma seeded_by_clear l t t' d : NoDup (pd_key <$> l) → seeded_by l t t' → d ∈ l → ¬ name_in_the_way t d.
Proof.
  revert t. induction l as [|d' l IH]; intros t Hnd; simpl; [intros _ Hd; by apply elem_of_nil in Hd|].
  apply NoDup_cons in Hnd as [Hd' Hnd]. intros (t1 & Hs & Hl) [->|Hd]%elem_of_cons Hway.
  - destruct Hs as [[Hc _]|(_ & Hno & _)]; [by destruct Hway|done].
  - apply (IH t1 Hnd Hl Hd). eapply seeds_in_the_way; [|exact Hs|done].
    intros Heq. apply Hd'. rewrite Heq. by apply list_elem_of_fmap_2.
Qed.

Lemma seed_each_post l w :
  usable w = true → db_ok (view w) →
  post (seed_each l) w (λ r w', durable w' = durable w ∧
    match r with
    | Ret _ => usable w' = true ∧ db_ok (view w') ∧ seeded_by l (view w) (view w')
    | Raise _ => ¬ Forall (code_present (view w)) l
    end).
Proof.
  revert w. induction l as [|d l IH]; intros w Hu Hok; simpl; [by apply post_ret|].
  apply post_bind. eapply post_mono; [by apply seed_permission_post|].
  intros [[]|e] w1 [Hd Hr]; [|split; [done|by intros [? _]%Forall_cons]].
  destruct Hr as (Hu1 & Hok1 & Hs). eapply post_mono; [by apply IH|].
  intros [[]|e] w2 [Hd2 Hr2]; (split; [congruence|]).
  - destruct Hr2 as (Hu2 & Hok2 & Hl). split_and!; try done. by exists (view w1).
  - intros [_ Hl]%Forall_cons. apply Hr2. eapply Forall_impl; [exact Hl|]. intros d'.
    apply code_present_mono. by eapply seeds_more.
Qed.

(** With the tenant there, the administrator's turn creates him or does nothing. *)
Lemma seed_admin_post w :
  usable w = true → db_ok (view w) → default_tenant_present (view w) →
  post seed_admin_user w (λ r w', durable w' = durable w ∧
    match r with
    | Ret _ => db_ok (view w') ∧ admin_present (view w') ∧ tenants (view w') = tenants (view w) ∧
        permissions (view w') = permissions (view w) ∧
        (admin_present (view w) → w' = w)
    | Raise _ => ¬ admin_present (view w)
    end).
Proof.
  intros Hu Hok Ht. unfold seed_admin_user. apply post_bind, get_by_email_post; [done| |].
  - intros i u Hi He. apply post_ret. split_and!; try done. by exists i, u.
  - intros Hno. apply post_bind, get_tenant_post; [done| |done]. intros i x Hi Hx.
    apply post_bind, post_ret, post_bind. unfold lift, admin_in.
    destruct (email_valid _ && _); [|by apply post_raise].
    apply post_ret, post_bind. eapply post_mono; [by apply create_user_post|].
    intros [u|e] w' Hr; [|by destruct Hr as [? _]].
    destruct Hr as (((He & _) & _ & n & role & _ & _ & _ & Hv) & Hok' & Hd). apply post_ret.
    split_and!; try done; try (by rewrite Hv).
    exists (u_id u), u. rewrite Hv. simpl. split; [apply lookup_insert_eq|done].
Qed.

(** What [seed_all] makes of the content [t]. *)
Definition seed_result (t : Tables) (r : outcome unit) (t' : Tables) : Prop :=
  (fully_seeded t → r = Ret tt ∧ t' = t) ∧
  match r with
  | Ret _ => db_ok t' ∧ fully_seeded t' ∧ default_tenant_present t ∧
      Forall (λ d, ¬ name_in_the_way t d) DEFAULT_PERMISSIONS ∧
      permissions t ⊆ permissions t' ∧ tenants t' = tenants t
  | Raise e => t' = t ∧
      (¬ default_tenant_present t →
       e = PydanticValidationError (InvitationApi.validation_message "TenantCreate"))
  end.

Lemma seed_result_raise t e :
  ¬ fully_seeded t → default_tenant_present t → seed_result t (Raise e) t.
Proof. by split. Qed.

Lemma seed_body_post v :
  usable v = true → db_ok (view v) → durable v = view v →
  post (try_catch (seed_default_tenant ;; seed_permissions ;; seed_admin_user ;; commit)
                  (λ e, rollback ;; raise e)) v (λ r w', seed_result (view v) r (durable w')).
Proof.
  intros Hu Hok Hd. apply post_try, post_bind. unfold seed_default_tenant.
  apply post_bind, get_tenant_post; [done| |].
  2:{ intros Hno. apply post_bind. rewrite default_tenant_invalid.
      apply post_raise, post_bind, post_rollback, post_raise.
      autorewrite with world. rewrite Hd. split; [by intros [? _]|done]. }
  intros i x Hi Hx. assert (default_tenant_present (view v)) as Htp by (by exists i, x).
  apply post_ret, post_bind. eapply post_mono; [by apply seed_each_post|]. intros [[]|e] w1 [Hd1 Hr1].
  2:{ apply post_bind, post_rollback, post_raise. autorewrite with world. rewrite Hd1, Hd.
      apply seed_result_raise; [|done]. by intros (_ & ? & _). }
  destruct Hr1 as (Hu1 & Hok1 & Hs). pose proof (seeded_by_more _ _ _ Hs) as [[Hsub Hsame] Hall].
  apply post_bind. eapply post_mono; [apply seed_admin_post; [done|done|by rewrite Hsame]|].
  assert (admin_present (view v) ↔ admin_present (view w1)) as Hadm by (by rewrite Hsame).
  intros [[]|e] w2 [Hd2 Hr2].
  2:{ apply post_bind, post_rollback, post_raise. autorewrite with world. rewrite Hd2, Hd1, Hd.
      apply seed_result_raise; [|done]. intros (_ & _ & ?). by apply Hr2, Hadm. }
  destruct Hr2 as (Hok2 & Ha2 & Ht2 & Hp2 & Hskip).
  assert (fully_seeded (view v) → w2 = w1 ∧ view w1 = view v) as Hfull.
  { intros (_ & Hc & Ha). split; [by apply Hskip, Hadm|].
    enough (∀ l t t', Forall (code_present t) l → seeded_by l t t' → t' = t) as Hgo by (by eapply Hgo).
    clear. intros l. induction l as [|d l IH]; intros t t' Hall; simpl; [done|].
    apply Forall_cons in Hall as [Hd Hall]. intros (t1 & [[_ ->]|[Hno _]] & Hl); [by apply IH|done]. }
  unfold post, commit. destruct (usable w2) eqn:Hu2; simpl.
  - autorewrite with world. split.
    + intros Hf. destruct (Hfull Hf) as [-> ->]. done.
    + split_and!; try done.
      * split_and!; [|by eapply Forall_impl; [exact Hall|]; intros d; unfold code_present; rewrite Hp2|done].
        exists i, x. by rewrite Ht2, Hsame.
      * apply Forall_forall. intros d Hin. eapply seeded_by_clear; [|exact Hs|done].
        apply (bool_decide_unpack _). vm_compute. exact I.
      * by rewrite Hp2.
      * by rewrite Ht2, Hsame.
  - autorewrite with world. rewrite Hd2, Hd1, Hd. apply seed_result_raise; [|done].
    intros Hf. destruct (Hfull Hf) as [-> _]. congruence.
Qed.

Lemma seed_all_post w : db_ok (durable w) →
  post seed_all w (λ r w', seed_result (durable w) r (durable w')).
Proof.
  intros Hok. apply post_get_db_durable. rewrite <-(view_reopen w).
  eapply post_mono; [apply seed_body_post|by intros r w' Hr w'' ->];
    autorewrite with world; done.
Qed.
End facts.

(** ** Properties *)

Section script_properties.
Context {S : Type} `{SessionLaws S} `{Inputs} `{PasslibLaws} `{Pydantic} `{RequestModelLaws}.
Implicit Types w : World S.

(** C26. Seeding by script.  As the repository stands the script fails at its
    import, before it touches the database.  With that import mended by the
    [get_db] of [db/session.py], and the one of [UserStatus] dropped, a run seeds
    everything in one transaction or nothing: a failure leaves the content as it
    was, a success leaves nothing to seed, keeps what was there and creates no
    tenant, and running it again changes nothing.  It can only succeed where the
    default tenant exists already - the one it would create has no slug - and
    where no row has the name of a missing default permission. *)
Theorem seed_script_spec w :
  db_ok (durable w) →
  seed_script w = (Raise (ModuleNotFoundError "virtualstack.core.db"), w) ∧
  let '(r, w') := seed_all w in
  match r with
  | Raise _ => durable w' = durable w
  | Ret _ => db_ok (durable w') ∧ fully_seeded (durable w') ∧
      permissions (durable w) ⊆ permissions (durable w') ∧ tenants (durable w') = tenants (durable w) ∧
      (seed_all w').1 = Ret tt ∧ durable (seed_all w').2 = durable w'
  end ∧
  (¬ default_tenant_present (durable w) →
   r = Raise (PydanticValidationError (InvitationApi.validation_message "TenantCreate"))) ∧
  (∀ d, d ∈ DEFAULT_PERMISSIONS → name_in_the_way (durable w) d → ∃ e, r = Raise e).
Proof.
  intros Hok. split; [done|]. pose proof (seed_all_post w Hok) as HP. unfold post in HP.
  destruct (seed_all w) as [[[]|e] w']; destruct HP as [_ HP].
  - destruct HP as (Hok' & Hf & Ht & Hway & Hp & Hten). split_and!; try done.
    + pose proof (seed_all_post w' Hok') as HP'. unfold post in HP'.
      destruct (seed_all w') as [r2 w2]. by destruct HP' as [Hdone _]; destruct (Hdone Hf) as [-> _].
    + pose proof (seed_all_post w' Hok') as HP'. unfold post in HP'.
      destruct (seed_all w') as [r2 w2]. simpl. by destruct HP' as [Hdone _]; destruct (Hdone Hf) as [_ ->].
    + intros d Hd Hw. rewrite Forall_forall in Hway. by destruct (Hway d Hd).
  - destruct HP as [Hd Hno]. split_and!; [done|intros Ht; by rewrite (Hno Ht)|eauto].
Qed.
End script_properties.

Section run_seed_properties.
Context {S : Type} `{SessionLaws S} `{Inputs}.

(** The stand-alone runner succeeds and seeds nothing. *)
Lemma run_seed_spec (w : World S) :
  (run_seed w).1 = Ret 0%Z ∧ durable (App.process_world (run_seed w).2) = durable w.
Proof.
  unfold run_seed, try_catch, App.seed_initial_data, App.in_session, mbind, M_bind. simpl.
  rewrite commit_run by apply usable_reopen. simpl. by autorewrite with world.
Qed.
End run_seed_properties.

(** ** Examples *)

(** The sample with the tenant and its default role; then also with a row of
    the migration that seeds permissions. *)
Definition ready_ops : list (Tables → Tables + Constraint) :=
  sample_ops ++
  [insert_row (mkTenant 12 DEFAULT_TENANT_NAME "default-tenant" None true t0 t0);
   insert_row (mkRole 25 DEFAULT_ROLE_NAME None (Some 12%N) false t0 t0)].

Definition migrated_ops : list (Tables → Tables + Constraint) :=
  ready_ops ++ [insert_row (mkPermission 33 "View VMs" "vm:read" None t0 t0)].

Definition built (ops : list (Tables → Tables + Constraint)) : World Snap :=
  mkWorld (sess_open match build ops empty_tables with inl t => t | inr _ => empty_tables end) 0 0 0.

Lemma built_ok ops : Forall (λ u, ∀ t t', db_ok t → u t = inl t' → db_ok t') ops → db_ok (durable (built ops)).
Proof.
  intros Hops. unfold built, durable. simpl. destruct (build ops empty_tables) eqn:Hb; [|apply db_ok_empty].
  eapply build_ok; [exact Hops|apply db_ok_empty|exact Hb].
Qed.

Ltac solve_built :=
  apply built_ok; unfold ready_ops, migrated_ops, sample_ops; cbn [app];
  repeat (apply List.Forall_cons; [intros ? ? Hok Ht; first
    [ refine (insert_row_ok _ _ _ Hok _ Ht); apply Hok
    | by eapply insert_role_permissions_ok, Ht
    | by eapply insert_user_tenant_role_ok, Ht ]|]); apply List.Forall_nil.

Lemma ready_ok : db_ok (durable (built ready_ops)).
Proof. solve_built. Qed.
Lemma migrated_ok : db_ok (durable (built migrated_ops)).
Proof. unfold migrated_ops. solve_built. Qed.

(** On the mended script: twelve permissions and an administrator; on the
    migrated content the name "View VMs" stops it. *)
Example seed_all_ex :
  (seed_all (built ready_ops)).1 = Ret tt ∧
  size (permissions (durable (seed_all (built ready_ops)).2)) = 14%nat ∧
  (seed_all w0).1 = Raise (PydanticValidationError (InvitationApi.validation_message "TenantCreate")).
Proof. vm_compute. auto. Qed.

Lemma seed_script_witness :
  (seed_all (seed_all (built ready_ops)).2).1 = Ret tt ∧
  ∃ e, (seed_all (built migrated_ops)).1 = Raise e.
Proof.
  split.
  - pose proof (seed_script_spec (built ready_ops) ready_ok) as [_ HP].
    assert ((seed_all (built ready_ops)).1 = Ret tt) as Hr by (vm_compute; reflexivity).
    destruct (seed_all (built ready_ops)) as [r w']. cbn [fst] in Hr. subst r.
    destruct HP as [(_ & _ & _ & _ & Hagain & _) _]. exact Hagain.
  - pose proof (seed_script_spec (built migrated_ops) migrated_ok) as [_ HP].
    assert (name_in_the_way (durable (built migrated_ops)) (mkPermissionData "vm.read" "View VMs" "Can view VMs")) as Hway.
    { split.
      - intros (i & p & Hi & Hc). apply elem_of_map_to_list in Hi. revert Hi Hc.
        vm_compute map_to_list. intros Hi Hc.
        repeat (apply elem_of_cons in Hi as [Hi|Hi]; [injection Hi as -> ->; vm_compute in Hc; discriminate Hc|]).
        by apply elem_of_nil in Hi.
      - exists 33%N, (mkPermission 33 "View VMs" "vm:read" None t0 t0). vm_compute. auto. }
    destruct (seed_all (built migrated_ops)) as [r w']. destruct HP as (_ & _ & Hfail).
    destruct (Hfail _ ltac:(right; right; right; left) Hway) as [e ->]. exists e. reflexivity.
Defined.
