(* ===== verification/Catalog.v ===== *)
(** * The database catalogue the migrations work on

    PostgreSQL as far as the migrations use it: schemas, extensions, enumerated
    types, tables with their columns, keys and rows, and indexes; one total
    function per statement, with the errors the database answers.  [cat_ok] is
    the type system of the catalogue: every statement that is accepted keeps it. *)

From stdpp Require Import base tactics list gmap strings.
From Stdlib Require Import ZArith Lia.
From S2P Require Import Prelude.

(** ** Data *)

Inductive Value :=
  | VNull
  | VUuid (u : Uuid)
  | VStr (s : string)
  | VBool (b : bool)
  | VTime (t : Z).

#[global] Instance Value_eq_dec : EqDecision Value.
Proof. solve_decision. Defined.

(** SQL equality: [NULL] equals nothing. *)
Definition value_eqb (a b : Value) : bool :=
  match a, b with
  | VUuid x, VUuid y => N.eqb x y
  | VStr x, VStr y => String.eqb x y
  | VBool x, VBool y => Bool.eqb x y
  | VTime x, VTime y => Z.eqb x y
  | _, _ => false
  end.

Notation Row := (gmap string Value).

Inductive SqlType :=
  | TUuid | TString (n : nat) | TText | TBoolean | TDateTime (timezone : bool)
  | TEnum (name : string).

#[global] Instance SqlType_eq_dec : EqDecision SqlType.
Proof. solve_decision. Defined.

(** [server_default]: a literal, or a function the server calls. *)
Inductive ServerDefault :=
  | DLiteral (v : Value)
  | DFunction (name : string).

#[global] Instance ServerDefault_eq_dec : EqDecision ServerDefault.
Proof. solve_decision. Defined.

Record Column := mkColumn {
  c_name : string;
  c_type : SqlType;
  c_nullable : bool;
  c_default : option ServerDefault
}.

(** Tables and indexes are named in a schema. *)
Notation QName := (string * string)%type.

Record ForeignKey := mkForeignKey {
  fk_columns : list string;
  fk_table : QName;
  fk_target : list string   (** all are [ON DELETE CASCADE] *)
}.

#[global] Instance ForeignKey_eq_dec : EqDecision ForeignKey.
Proof. solve_decision. Defined.

Record Table := mkTable {
  tb_columns : list Column;
  tb_keys : list (string * list string);   (** primary key and unique constraints *)
  tb_foreign : list ForeignKey;
  tb_rows : list Row
}.

Record Catalog := mkCatalog {
  schemas : gset string;
  extensions : gset string;
  types : gset string;
  tables : gmap QName Table;
  indexes : gmap QName (string * list string)   (** the table and its columns *)
}.

Inductive DbError :=
  | UndefinedSchema | DuplicateRelation | UndefinedRelation | DuplicateColumn | UndefinedColumn
  | UndefinedType | UndefinedFunction | DependentObjects | NotNullViolation (column : string)
  | UniqueViolation (constraint : string) | ForeignKeyViolation | SyntaxError.

(** A statement. *)
Notation Ddl := (Catalog → Catalog + DbError).

Definition seq_ddl (d1 d2 : Ddl) : Ddl := λ c,
  match d1 c with inl c' => d2 c' | inr e => inr e end.

(** Statements in order, up to the first error. *)
Fixpoint run_ddl (ds : list Ddl) : Ddl :=
  match ds with
  | [] => inl
  | d :: ds' => seq_ddl d (run_ddl ds')
  end.

Definition set_tables m c := mkCatalog (schemas c) (extensions c) (types c) m (indexes c).
Definition set_indexes m c := mkCatalog (schemas c) (extensions c) (types c) (tables c) m.
Definition set_types m c := mkCatalog (schemas c) (extensions c) m (tables c) (indexes c).

Definition names (tb : Table) : list string := c_name <$> tb_columns tb.
Definition set_rows rs tb := mkTable (tb_columns tb) (tb_keys tb) (tb_foreign tb) rs.

(** ** Statements *)

(** The functions an extension provides. *)
Definition extension_functions (e : string) : list string :=
  if String.eqb e "uuid-ossp" then ["uuid_generate_v4"] else [].

Definition builtin_functions : list string := ["now"].

Definition function_known (c : Catalog) (f : string) : bool :=
  bool_decide (f ∈ builtin_functions) ||
  existsb (λ e, bool_decide (f ∈ extension_functions e)) (elements (extensions c)).

(** A function in a default exists. *)
Definition default_known (c : Catalog) (col : Column) : bool :=
  match c_default col with
  | Some (DFunction f) => function_known c f
  | _ => true
  end.

Definition type_known (c : Catalog) (t : SqlType) : bool :=
  match t with TEnum n => bool_decide (n ∈ types c) | _ => true end.

Definition uses_function (f : string) (tb : Table) : bool :=
  existsb (λ col, bool_decide (c_default col = Some (DFunction f))) (tb_columns tb).

Definition table_list (c : Catalog) : list (QName * Table) := map_to_list (tables c).

Definition create_schema (s : string) : Ddl := λ c,
  inl (mkCatalog ({[s]} ∪ schemas c) (extensions c) (types c) (tables c) (indexes c)).

Definition create_extension (e : string) : Ddl := λ c,
  inl (mkCatalog (schemas c) ({[e]} ∪ extensions c) (types c) (tables c) (indexes c)).

(** [DROP EXTENSION IF EXISTS], refused while a column default needs it. *)
Definition drop_extension (e : string) : Ddl := λ c,
  if bool_decide (e ∈ extensions c) &&
     existsb (λ '(_, tb), existsb (λ f, uses_function f tb) (extension_functions e)) (table_list c)
  then inr DependentObjects
  else inl (mkCatalog (schemas c) (extensions c ∖ {[e]}) (types c) (tables c) (indexes c)).

(** [DROP SCHEMA IF EXISTS ... CASCADE]: its tables and indexes go, and the
    foreign keys of other tables that point into it. *)
Definition drop_schema_cascade (s : string) : Ddl := λ c,
  inl (mkCatalog (schemas c ∖ {[s]}) (extensions c) (types c)
    ((λ tb, mkTable (tb_columns tb) (tb_keys tb)
              (filter (λ fk, (fk_table fk).1 ≠ s) (tb_foreign tb)) (tb_rows tb))
       <$> filter (λ kv, kv.1.1 ≠ s) (tables c))
    (filter (λ kv, kv.1.1 ≠ s) (indexes c))).

(** A foreign key of a table with columns [cols] finds its target. *)
Definition fk_wf (c : Catalog) (cols : list string) (fk : ForeignKey) : bool :=
  bool_decide (fk_columns fk ⊆ cols) &&
  match tables c !! fk_table fk with
  | Some tb => bool_decide (fk_target fk ⊆ names tb)
  | None => false
  end.

Definition create_table (n : QName) (tb : Table) : Ddl := λ c,
  if negb (bool_decide (n.1 ∈ schemas c)) then inr UndefinedSchema
  else if bool_decide (is_Some (tables c !! n)) || bool_decide (is_Some (indexes c !! n))
  then inr DuplicateRelation
  else if negb (bool_decide (NoDup (names tb))) then inr DuplicateColumn
  else if negb (forallb (λ col, type_known c (c_type col)) (tb_columns tb)) then inr UndefinedType
  else if negb (forallb (default_known c) (tb_columns tb)) then inr UndefinedFunction
  else if negb (forallb (λ k, bool_decide (k.2 ⊆ names tb)) (tb_keys tb)) then inr UndefinedColumn
  else if negb (forallb (fk_wf c (names tb)) (tb_foreign tb)) then inr UndefinedRelation
  else inl (set_tables (<[n := set_rows [] tb]> (tables c)) c).

(** [DROP TABLE], refused while a foreign key of another table points to it. *)
Definition drop_table (n : QName) : Ddl := λ c,
  match tables c !! n with
  | None => inr UndefinedRelation
  | Some _ =>
      if existsb (λ '(m, tb), bool_decide (m ≠ n) &&
                    existsb (λ fk, bool_decide (fk_table fk = n)) (tb_foreign tb)) (table_list c)
      then inr DependentObjects
      else inl (mkCatalog (schemas c) (extensions c) (types c) (delete n (tables c))
                  (filter (λ kv, (kv.1.1, kv.2.1) ≠ n) (indexes c)))
  end.

Definition create_index (s name table : string) (cols : list string) : Ddl := λ c,
  match tables c !! (s, table) with
  | None => inr UndefinedRelation
  | Some tb =>
      if bool_decide (is_Some (tables c !! (s, name))) || bool_decide (is_Some (indexes c !! (s, name)))
      then inr DuplicateRelation
      else if negb (bool_decide (cols ⊆ names tb)) then inr UndefinedColumn
      else inl (set_indexes (<[(s, name) := (table, cols)]> (indexes c)) c)
  end.

Definition drop_index (s name : string) : Ddl := λ c,
  if bool_decide (is_Some (indexes c !! (s, name)))
  then inl (set_indexes (delete (s, name) (indexes c)) c)
  else inr UndefinedRelation.

(** [CREATE TYPE ... AS ENUM] and [DROP TYPE], if needed ([checkfirst]). *)
Definition create_type (t : string) : Ddl := λ c, inl (set_types ({[t]} ∪ types c) c).

Definition drop_type (t : string) : Ddl := λ c,
  if existsb (λ '(_, tb), existsb (λ col, bool_decide (c_type col = TEnum t)) (tb_columns tb))
       (table_list c)
  then inr DependentObjects
  else inl (set_types (types c ∖ {[t]}) c).

Section values.
(** What a function of the server returns. *)
Context (fun_value : string → Value).

Definition default_value (col : Column) : Value :=
  match c_default col with
  | Some (DLiteral v) => v
  | Some (DFunction f) => fun_value f
  | None => VNull
  end.

(** [ALTER TABLE ... ADD COLUMN]: existing rows take the default. *)
Definition add_column (n : QName) (col : Column) : Ddl := λ c,
  match tables c !! n with
  | None => inr UndefinedRelation
  | Some tb =>
      if bool_decide (c_name col ∈ names tb) then inr DuplicateColumn
      else if negb (type_known c (c_type col)) then inr UndefinedType
      else if negb (default_known c col) then inr UndefinedFunction
      else if negb (c_nullable col) && bool_decide (default_value col = VNull)
              && negb (bool_decide (tb_rows tb = []))
      then inr (NotNullViolation (c_name col))
      else inl (set_tables (<[n := mkTable (tb_columns tb ++ [col]) (tb_keys tb) (tb_foreign tb)
             (insert (c_name col) (default_value col) <$> tb_rows tb)]> (tables c)) c)
  end.

(** [ALTER TABLE ... DROP COLUMN]: keys, foreign keys and indexes on the column
    go with it; refused while another table's foreign key points to it. *)
Definition drop_column (n : QName) (name : string) : Ddl := λ c,
  match tables c !! n with
  | None => inr UndefinedRelation
  | Some tb =>
      if negb (bool_decide (name ∈ names tb)) then inr UndefinedColumn
      else if existsb (λ '(_, tb'), existsb (λ fk, bool_decide (fk_table fk = n) &&
                         bool_decide (name ∈ fk_target fk)) (tb_foreign tb')) (table_list c)
      then inr DependentObjects
      else inl (mkCatalog (schemas c) (extensions c) (types c)
             (<[n := mkTable (filter (λ col, c_name col ≠ name) (tb_columns tb))
                  (filter (λ k, name ∉ k.2) (tb_keys tb))
                  (filter (λ fk, name ∉ fk_columns fk) (tb_foreign tb))
                  (delete name <$> tb_rows tb)]> (tables c))
             (filter (λ kv, (kv.1.1, kv.2.1) ≠ n ∨ name ∉ kv.2.2) (indexes c)))
  end.

(** The values of [cols] in two rows are equal. *)
Definition agree (cols cols' : list string) (r r' : Row) : bool :=
  forallb (λ '(a, b), value_eqb (default VNull (r !! a)) (default VNull (r' !! b))) (zip cols cols').

(** A row with the defaults of the columns not given. *)
Definition complete (tb : Table) (given : Row) : Row :=
  list_to_map ((λ col, (c_name col, default (default_value col) (given !! c_name col))) <$> tb_columns tb).

Definition fk_holds (c : Catalog) (r : Row) (fk : ForeignKey) : bool :=
  existsb (λ a, bool_decide (r !! a = Some VNull)) (fk_columns fk) ||
  match tables c !! fk_table fk with
  | Some tb => existsb (agree (fk_columns fk) (fk_target fk) r) (tb_rows tb)
  | None => false
  end.

Definition insert_row (n : QName) (given : Row) : Ddl := λ c,
  match tables c !! n with
  | None => inr UndefinedRelation
  | Some tb =>
      let r := complete tb given in
      if negb (forallb (λ a, bool_decide (a ∈ names tb)) (map_to_list given).*1) then inr UndefinedColumn
      else match filter (λ col, c_nullable col = false ∧ r !! c_name col = Some VNull) (tb_columns tb) with
      | col :: _ => inr (NotNullViolation (c_name col))
      | [] =>
          match filter (λ k, existsb (agree k.2 k.2 r) (tb_rows tb) = true) (tb_keys tb) with
          | k :: _ => inr (UniqueViolation k.1)
          | [] =>
              if forallb (fk_holds c r) (tb_foreign tb)
              then inl (set_tables (<[n := set_rows (tb_rows tb ++ [r]) tb]> (tables c)) c)
              else inr ForeignKeyViolation
          end
      end
  end.

(** [op.bulk_insert]. *)
Definition bulk_insert (n : QName) (given : list Row) : Ddl := run_ddl (insert_row n <$> given).
End values.

(** The rows of [tb] that point, over a foreign key to [n], to a row of [dead]. *)
Definition orphan (n : QName) (dead : list Row) (tb : Table) (r : Row) : bool :=
  existsb (λ fk, bool_decide (fk_table fk = n) &&
             existsb (agree (fk_columns fk) (fk_target fk) r) dead) (tb_foreign tb).

(** Delete the rows of [n] that satisfy [p], and then, [fuel] levels deep, the
    rows that point to a deleted one. *)
Fixpoint delete_rows (fuel : nat) (n : QName) (p : Row → bool) (c : Catalog) : Catalog :=
  match tables c !! n with
  | None => c
  | Some tb =>
      let dead := filter (λ r, p r = true) (tb_rows tb) in
      let c1 := set_tables (<[n := set_rows (filter (λ r, p r = false) (tb_rows tb)) tb]> (tables c)) c in
      match fuel, dead with
      | O, _ | _, [] => c1
      | S fuel', _ =>
          foldl (λ c' '(m, tb'),
            if existsb (λ fk, bool_decide (fk_table fk = n)) (tb_foreign tb')
            then delete_rows fuel' m (orphan n dead tb') c' else c') c1 (table_list c)
      end
  end.

(** [DELETE FROM n WHERE p].  A cascade passes each table at most once unless
    foreign keys form a cycle, so the number of tables is fuel enough. *)
Definition delete_where (n : QName) (p : Row → bool) : Ddl := λ c,
  match tables c !! n with
  | None => inr UndefinedRelation
  | Some _ => inl (delete_rows (size (tables c)) n p c)
  end.

(** ** The type system *)

(** A row has exactly the columns of its table, and no forbidden [NULL]. *)
Definition row_ok (tb : Table) (r : Row) : Prop :=
  (∀ a, is_Some (r !! a) ↔ a ∈ names tb) ∧
  ∀ col, col ∈ tb_columns tb → c_nullable col = false → r !! c_name col ≠ Some VNull.

Record table_ok (c : Catalog) (n : QName) (tb : Table) : Prop := {
  to_schema : n.1 ∈ schemas c;
  to_names : NoDup (names tb);
  to_types col : col ∈ tb_columns tb → type_known c (c_type col) = true;
  to_defaults col : col ∈ tb_columns tb → default_known c col = true;
  to_keys k : k ∈ tb_keys tb → k.2 ⊆ names tb;
  to_foreign fk : fk ∈ tb_foreign tb → fk_wf c (names tb) fk = true;
  to_rows r : r ∈ tb_rows tb → row_ok tb r
}.

Record cat_ok (c : Catalog) : Prop := {
  cat_tables n tb : tables c !! n = Some tb → table_ok c n tb;
  cat_indexes i t cols : indexes c !! i = Some (t, cols) →
    ∃ tb, tables c !! (i.1, t) = Some tb ∧ cols ⊆ names tb
}.

(** A statement that keeps the catalogue well formed whenever it is accepted. *)
Definition sound_ddl (d : Ddl) : Prop := ∀ c c', cat_ok c → d c = inl c' → cat_ok c'.

Create HintDb ddl.

Lemma run_ddl_sound ds : Forall sound_ddl ds → sound_ddl (run_ddl ds).
Proof.
  intros Hds. induction Hds as [|d ds Hd _ IH]; intros c c' Hok; simpl; [by intros [= <-]|].
  unfold seq_ddl. destruct (d c) as [c1|] eqn:Hc; [|done]. apply IH. by eapply Hd.
Qed.

Lemma run_ddl_error d ds c e : d c = inr e → run_ddl (d :: ds) c = inr e.
Proof. intros Hd. simpl. unfold seq_ddl. by rewrite Hd. Qed.

(** More schemas, types, functions and columns. *)
Record cat_le (c c' : Catalog) : Prop := {
  le_schemas : schemas c ⊆ schemas c';
  le_types : types c ⊆ types c';
  le_extensions : extensions c ⊆ extensions c';
  le_tables n tb : tables c !! n = Some tb →
    ∃ tb', tables c' !! n = Some tb' ∧ names tb ⊆ names tb'
}.

Lemma fk_wf_iff c cols fk : fk_wf c cols fk = true ↔
  fk_columns fk ⊆ cols ∧ ∃ tb, tables c !! fk_table fk = Some tb ∧ fk_target fk ⊆ names tb.
Proof.
  unfold fk_wf. rewrite andb_true_iff, bool_decide_eq_true.
  destruct (tables c !! fk_table fk) as [tb|]; rewrite ?bool_decide_eq_true; naive_solver.
Qed.

Lemma fk_wf_le c c' cols fk : cat_le c c' → fk_wf c cols fk = true → fk_wf c' cols fk = true.
Proof.
  intros Hle. rewrite !fk_wf_iff. intros (Hc & tb & Htb & Ht). split; [done|].
  destruct (le_tables _ _ Hle _ _ Htb) as (tb' & ? & ?). exists tb'. set_solver.
Qed.

Lemma type_known_le c c' t : types c ⊆ types c' → type_known c t = true → type_known c' t = true.
Proof. destruct t; simpl; try done. rewrite !bool_decide_eq_true. set_solver. Qed.

Lemma function_known_iff c f : function_known c f = true ↔
  f ∈ builtin_functions ∨ ∃ e, e ∈ extensions c ∧ f ∈ extension_functions e.
Proof.
  unfold function_known. rewrite orb_true_iff, bool_decide_eq_true, existsb_exists.
  setoid_rewrite bool_decide_eq_true. setoid_rewrite <-list_elem_of_In.
  by setoid_rewrite elem_of_elements.
Qed.

Lemma default_known_le c c' col : extensions c ⊆ extensions c' →
  default_known c col = true → default_known c' col = true.
Proof.
  unfold default_known. destruct (c_default col) as [[v|f]|]; try done.
  rewrite !function_known_iff. set_solver.
Qed.

Lemma table_ok_le c c' n tb : cat_le c c' → table_ok c n tb → table_ok c' n tb.
Proof.
  intros Hle [Hs Hn Ht Hd Hk Hf Hr]. pose proof Hle as [Ls Lt Le _]. split; try done.
  - by apply Ls.
  - intros col Hc. by eapply type_known_le, Ht.
  - intros col Hc. by eapply default_known_le, Hd.
  - intros fk Hfk. by eapply fk_wf_le, Hf.
Qed.

(** An update of one table (or a new one) that only adds columns. *)
Lemma cat_ok_insert n tb c :
  cat_ok c → (∀ tb0, tables c !! n = Some tb0 → names tb0 ⊆ names tb) →
  (cat_le c (set_tables (<[n := tb]> (tables c)) c) →
     table_ok (set_tables (<[n := tb]> (tables c)) c) n tb) →
  cat_ok (set_tables (<[n := tb]> (tables c)) c).
Proof.
  intros [Ht Hi] Hnames Hok.
  assert (cat_le c (set_tables (<[n := tb]> (tables c)) c)) as Hle.
  { split; try done. intros m tb0 Hm. simpl. destruct (decide (n = m)) as [<-|Hne].
    - exists tb. rewrite lookup_insert, decide_True by done. eauto.
    - exists tb0. by rewrite lookup_insert_ne. }
  specialize (Hok Hle). split.
  - intros m tb0. simpl. rewrite lookup_insert_Some. intros [[<- <-]|[_ Hm]]; [done|].
    by eapply table_ok_le, Ht.
  - intros i t cols Hc. simpl in Hc. destruct (Hi i t cols Hc) as (tb0 & Htb0 & Hcols).
    destruct (le_tables _ _ Hle _ _ Htb0) as (tb' & ? & ?). exists tb'. split; [done|set_solver].
Qed.

Lemma cat_ok_le_same c c' :
  cat_ok c → cat_le c c' → tables c' = tables c → indexes c' = indexes c → cat_ok c'.
Proof.
  intros [Ht Hi] Hle Heq Hieq. split.
  - intros n tb. rewrite Heq. intros Hn. by eapply table_ok_le, Ht.
  - intros i t cols. rewrite Heq, Hieq. apply Hi.
Qed.

Lemma create_schema_sound s : sound_ddl (create_schema s).
Proof. intros c c' Hok [= <-]. eapply cat_ok_le_same; [done| |done|done]. split; simpl; eauto; set_solver. Qed.
Lemma create_extension_sound e : sound_ddl (create_extension e).
Proof. intros c c' Hok [= <-]. eapply cat_ok_le_same; [done| |done|done]. split; simpl; eauto; set_solver. Qed.
Lemma create_type_sound t : sound_ddl (create_type t).
Proof. intros c c' Hok [= <-]. eapply cat_ok_le_same; [done| |done|done]. split; simpl; eauto; set_solver. Qed.

Lemma existsb_tables_false (P : QName * Table → bool) c n tb :
  existsb P (table_list c) = false → tables c !! n = Some tb → P (n, tb) = false.
Proof.
  intros He Hn. destruct (P (n, tb)) eqn:HP; [|done]. rewrite <-He. symmetry.
  apply existsb_exists. exists (n, tb). split; [|done].
  by apply list_elem_of_In, elem_of_map_to_list.
Qed.

Lemma existsb_false_elem {A} (P : A → bool) l x : existsb P l = false → x ∈ l → P x = false.
Proof.
  intros He Hx. destruct (P x) eqn:HP; [|done]. rewrite <-He. symmetry.
  apply existsb_exists. exists x. split; [by apply list_elem_of_In|done].
Qed.

Lemma forallb_elem {A} (P : A → bool) l : forallb P l = true ↔ ∀ x, x ∈ l → P x = true.
Proof. rewrite forallb_forall. by setoid_rewrite list_elem_of_In. Qed.

Lemma create_table_sound n tb : sound_ddl (create_table n tb).
Proof.
  intros c c' Hok. unfold create_table. repeat (case_if; [done|]). intros [= <-].
  repeat match goal with H : negb _ = false |- _ => apply negb_false_iff in H end.
  reflect_bools. apply cat_ok_insert; [done| |].
  - intros tb0 Htb0. exfalso. eauto.
  - intros Hle. rewrite !forallb_elem in *. split; simpl; try done.
    + intros k Hk. apply (bool_decide_eq_true_1 _). eauto.
    + intros fk Hfk. eapply fk_wf_le; [done|]. eauto.
    + set_solver.
Qed.

Lemma drop_extension_sound e : sound_ddl (drop_extension e).
Proof.
  intros c c' [Ht Hi]. unfold drop_extension. case_if; [done|]. intros [= <-]. split; [|exact Hi].
  intros n tb Hn. destruct (Ht n tb Hn) as [Hs Hnd Hty Hd Hk Hf Hr]. split; try done.
  intros col Hcol. specialize (Hd col Hcol). unfold default_known in *.
  destruct (c_default col) as [[v|f]|] eqn:Hdef; try done.
  rewrite function_known_iff in *. destruct Hd as [?|(e' & He' & Hfe)]; [by left|right].
  exists e'. split; [|done]. simpl. apply elem_of_difference. split; [done|].
  intros ->%elem_of_singleton. apply andb_false_iff in Heqb as [Hb|Hb].
  - by apply bool_decide_eq_false in Hb.
  - apply (existsb_tables_false _ _ n tb) in Hb; [|done]. simpl in Hb.
    apply (existsb_false_elem _ _ f) in Hb; [|done]. unfold uses_function in Hb.
    apply (existsb_false_elem _ _ col) in Hb; [|done]. by apply bool_decide_eq_false in Hb.
Qed.

Lemma drop_schema_cascade_sound s : sound_ddl (drop_schema_cascade s).
Proof.
  intros c c' [Ht Hi] [= <-].
  assert (∀ n tb, tables c !! n = Some tb → n.1 ≠ s →
    tables (set_tables ((λ tb, mkTable (tb_columns tb) (tb_keys tb)
      (filter (λ fk, (fk_table fk).1 ≠ s) (tb_foreign tb)) (tb_rows tb))
        <$> filter (λ kv, kv.1.1 ≠ s) (tables c)) c) !! n =
    Some (mkTable (tb_columns tb) (tb_keys tb)
      (filter (λ fk, (fk_table fk).1 ≠ s) (tb_foreign tb)) (tb_rows tb))) as Hkeep.
  { intros n tb Hn Hs. simpl. rewrite lookup_fmap, (map_lookup_filter_Some_2 _ _ n tb); done. }
  split; simpl in *.
  - intros n tb. rewrite lookup_fmap, fmap_Some. intros (tb0 & [Hn Hs]%map_lookup_filter_Some & ->).
    destruct (Ht n tb0 Hn) as [Hsc Hnd Hty Hd Hk Hf Hr]. split; simpl; try done.
    + set_solver.
    + intros fk [Hfs Hfk]%list_elem_of_filter. specialize (Hf fk Hfk). rewrite fk_wf_iff in *.
      destruct Hf as (Hc & tb' & Htb' & Htgt). split; [done|]. simpl. rewrite (Hkeep _ _ Htb' Hfs).
      eexists. split; [done|]. exact Htgt.
  - intros i t cols [Hc Hs]%map_lookup_filter_Some. destruct (Hi i t cols Hc) as (tb & Htb & Hcols).
    rewrite (Hkeep _ _ Htb Hs). eexists. split; [done|]. exact Hcols.
Qed.

Lemma drop_table_sound n : sound_ddl (drop_table n).
Proof.
  intros c c' [Ht Hi]. unfold drop_table. destruct (tables c !! n) as [tb0|] eqn:Hn; [|done].
  case_if; [done|]. intros [= <-]. split; simpl.
  - intros m tb [Hne Hm]%lookup_delete_Some. destruct (Ht m tb Hm) as [Hs Hnd Hty Hd Hk Hf Hr].
    split; try done. intros fk Hfk. specialize (Hf fk Hfk). rewrite fk_wf_iff in *.
    destruct Hf as (Hc & tb' & Htb' & Htgt). split; [done|]. exists tb'. split; [|done].
    apply lookup_delete_Some. split; [|done]. intros Heq.
    apply (existsb_tables_false _ _ m tb) in Heqb; [|done]. simpl in Heqb.
    rewrite bool_decide_eq_true_2 in Heqb by done. simpl in Heqb.
    apply (existsb_false_elem _ _ fk) in Heqb; [|done]. by apply bool_decide_eq_false in Heqb.
  - intros i t cols [Hc Hne]%map_lookup_filter_Some. simpl in Hne.
    destruct (Hi i t cols Hc) as (tb & Htb & Hcols). exists tb. split; [|done].
    by apply lookup_delete_Some.
Qed.

Lemma create_index_sound s name t cols : sound_ddl (create_index s name t cols).
Proof.
  intros c c' [Ht Hi]. unfold create_index. destruct (tables c !! (s, t)) as [tb|] eqn:Hn; [|done].
  repeat (case_if; [done|]). intros [= <-]. apply negb_false_iff, bool_decide_eq_true in Heqb0.
  split.
  - intros m tb' Hm. eapply table_ok_le; [|by apply Ht]. split; simpl; eauto.
  - intros i t' cols'. simpl. rewrite lookup_insert_Some. intros [[<- [= <- <-]]|[_ Hc]]; [eauto|].
    by apply Hi.
Qed.

Lemma drop_index_sound s name : sound_ddl (drop_index s name).
Proof.
  intros c c' [Ht Hi]. unfold drop_index. case_if; [|done]. intros [= <-]. split.
  - intros m tb' Hm. eapply table_ok_le; [|by apply Ht]. split; simpl; eauto.
  - intros i t cols. simpl. intros [_ Hc]%lookup_delete_Some. by apply Hi.
Qed.

Lemma drop_type_sound t : sound_ddl (drop_type t).
Proof.
  intros c c' [Ht Hi]. unfold drop_type. case_if; [done|]. intros [= <-]. split; [|exact Hi].
  intros n tb Hn. destruct (Ht n tb Hn) as [Hs Hnd Hty Hd Hk Hf Hr]. split; try done.
  intros col Hcol. specialize (Hty col Hcol). unfold type_known in *.
  destruct (c_type col) as [| | | | |e] eqn:Hce; try done. rewrite bool_decide_eq_true in *. simpl.
  apply elem_of_difference. split; [done|]. intros ->%elem_of_singleton.
  apply (existsb_tables_false _ _ n tb) in Heqb; [|done]. simpl in Heqb.
  apply (existsb_false_elem _ _ col) in Heqb; [|done]. by apply bool_decide_eq_false in Heqb.
Qed.

Lemma names_app tb col : c_name <$> (tb_columns tb ++ [col]) = names tb ++ [c_name col].
Proof. by rewrite fmap_app. Qed.

Lemma add_column_sound fv n col : sound_ddl (add_column fv n col).
Proof.
  intros c c' Hok. unfold add_column. destruct (tables c !! n) as [tb|] eqn:Hn; [|done].
  repeat (case_if; [done|]). intros [= <-].
  destruct (cat_tables _ Hok n tb Hn) as [Hs Hnd Hty Hd Hk Hf Hr].
  repeat match goal with H : negb _ = false |- _ => apply negb_false_iff in H end.
  apply bool_decide_eq_false in Heqb. apply cat_ok_insert; [done| |].
  - intros tb0 Htb0. rewrite Hn in Htb0. injection Htb0 as <-. unfold names at 2. simpl.
    rewrite names_app. set_solver.
  - intros Hle. split; unfold names; simpl; rewrite ?names_app; try done.
    + apply NoDup_app. split_and!; [done| |apply NoDup_singleton]. set_solver.
    + intros col' [Hc|Hc]%elem_of_app; [by apply Hty|]. by apply list_elem_of_singleton in Hc as ->.
    + intros col' [Hc|Hc]%elem_of_app; [by apply Hd|]. by apply list_elem_of_singleton in Hc as ->.
    + intros k Hin. specialize (Hk k Hin). set_solver.
    + intros fk Hfk. specialize (Hf fk Hfk). apply (fk_wf_le _ _ _ _ Hle) in Hf.
      rewrite fk_wf_iff in *. destruct Hf as [Hc ?]. split; [set_solver|done].
    + intros r (r0 & -> & Hr0)%list_elem_of_fmap. destruct (Hr r0 Hr0) as [Hdom Hnull]. split.
      * intros a. unfold names. simpl. rewrite names_app, lookup_insert_is_Some, Hdom, elem_of_app,
          list_elem_of_singleton. destruct (decide (c_name col = a)); naive_solver.
      * simpl. intros col' [Hc|Hc]%elem_of_app Hnn.
        -- rewrite lookup_insert_ne; [by apply Hnull|]. intros Heq. apply Heqb. rewrite Heq.
           apply list_elem_of_fmap. eauto.
        -- apply list_elem_of_singleton in Hc as ->. rewrite lookup_insert, decide_True by done.
           rewrite Hnn in Heqb2. simpl in Heqb2. apply andb_false_iff in Heqb2 as [Hv|Hv].
           ++ apply bool_decide_eq_false in Hv. congruence.
           ++ apply negb_false_iff, bool_decide_eq_true in Hv. rewrite Hv in Hr0. set_solver.
Qed.

Lemma names_filter name (cols : list Column) : c_name <$> filter (λ col, c_name col ≠ name) cols
  = filter (λ a, a ≠ name) (c_name <$> cols).
Proof. by rewrite filter_fmap. Qed.

(** A row loses the column with its table. *)
Lemma row_ok_delete tb name ks fks rs r : row_ok tb r →
  row_ok (mkTable (filter (λ col, c_name col ≠ name) (tb_columns tb)) ks fks rs) (delete name r).
Proof.
  intros [Hdom Hnull]. split.
  - intros a. unfold names. simpl. rewrite names_filter, list_elem_of_filter. fold (names tb). rewrite <-Hdom.
    destruct (decide (name = a)) as [->|Hne].
    + rewrite lookup_delete, decide_True by done. split; [by intros []|by intros [? _]].
    + rewrite lookup_delete_ne by done. naive_solver.
  - simpl. intros col [Hcn Hc]%list_elem_of_filter Hnn. rewrite lookup_delete_ne by done. by apply Hnull.
Qed.

(** No foreign key refers to a column that may be dropped. *)
Lemma existsb_no_target c n name m tbm fk :
  existsb (λ '(_, tb'), existsb (λ fk, bool_decide (fk_table fk = n) &&
    bool_decide (name ∈ fk_target fk)) (tb_foreign tb')) (table_list c) = false →
  tables c !! m = Some tbm → fk ∈ tb_foreign tbm → fk_table fk = n → name ∉ fk_target fk.
Proof.
  intros Hex Hm Hfk Hfn Hin. apply (existsb_tables_false _ _ m tbm) in Hex; [|done].
  simpl in Hex. apply (existsb_false_elem _ _ fk) in Hex; [|done].
  by apply andb_false_iff in Hex as [?%bool_decide_eq_false|?%bool_decide_eq_false].
Qed.

Lemma drop_column_sound n name : sound_ddl (drop_column n name).
Proof.
  intros c c' [Ht Hi]. unfold drop_column. destruct (tables c !! n) as [tb|] eqn:Hn; [|done].
  repeat (case_if; [done|]). intros [= <-].
  destruct (Ht n tb Hn) as [Hs Hnd Hty Hd Hk Hf Hr].
  set (tb1 := mkTable _ _ _ _). assert (names tb1 = filter (λ a, a ≠ name) (names tb)) as Hnames
    by apply names_filter.
  assert (∀ m tbm fk, tables c !! m = Some tbm → fk ∈ tb_foreign tbm →
    fk_table fk = n → name ∉ fk_target fk) as Hno.
  { intros m tbm fk. by apply existsb_no_target. }
  assert (∀ m tbm fk cols, tables c !! m = Some tbm → fk ∈ tb_foreign tbm →
    fk_columns fk ⊆ cols → fk_wf c (names tbm) fk = true →
    fk_wf (mkCatalog (schemas c) (extensions c) (types c) (<[n := tb1]> (tables c))
      (filter (λ kv, (kv.1.1, kv.2.1) ≠ n ∨ name ∉ kv.2.2) (indexes c))) cols fk = true) as Hwf.
  { intros m tbm fk cols Hm Hfk Hcols. rewrite !fk_wf_iff. intros (_ & tb' & Htb' & Htgt).
    split; [done|]. simpl. destruct (decide (n = fk_table fk)) as [->|Hne].
    - rewrite lookup_insert, decide_True by done. exists tb1. split; [done|]. rewrite Hnames.
      assert (tb' = tb) as -> by congruence. intros a Ha. apply list_elem_of_filter.
      split; [|by apply Htgt]. intros ->. by apply (Hno m tbm fk Hm Hfk eq_refl).
    - rewrite lookup_insert_ne by done. eauto. }
  split; simpl.
  - intros m tbm. rewrite lookup_insert_Some. intros [[<- <-]|[Hne Hm]].
    + split; simpl; try done.
      * rewrite Hnames. by apply NoDup_filter.
      * intros col [_ Hc]%list_elem_of_filter. by apply Hty.
      * intros col [_ Hc]%list_elem_of_filter. by apply Hd.
      * intros k [Hkn Hin]%list_elem_of_filter. rewrite Hnames. intros a Ha.
        apply list_elem_of_filter. split; [by intros ->|by apply (Hk k)].
      * intros fk [Hfn Hfk]%list_elem_of_filter. eapply Hwf; [exact Hn|done| |by apply Hf].
        rewrite Hnames. specialize (Hf fk Hfk). rewrite fk_wf_iff in Hf. destruct Hf as [Hc _].
        intros a Ha. apply list_elem_of_filter. split; [by intros ->|by apply Hc].
      * intros r (r0 & -> & Hr0)%list_elem_of_fmap. by apply row_ok_delete, Hr.
    + destruct (Ht m tbm Hm) as [Hs' Hnd' Hty' Hd' Hk' Hf' Hr']. split; try done.
      intros fk Hfk. pose proof (Hf' fk Hfk) as Hw. pose proof Hw as Hw'. rewrite fk_wf_iff in Hw'.
      eapply Hwf; [exact Hm|done| |done]. by destruct Hw'.
  - intros i t cols [Hc Hcond]%map_lookup_filter_Some. simpl in Hcond.
    destruct (Hi i t cols Hc) as (tb' & Htb' & Hcols).
    destruct (decide (n = (i.1, t))) as [->|Hne].
    + rewrite lookup_insert, decide_True by done. exists tb1. split; [done|]. rewrite Hnames.
      assert (tb' = tb) as -> by congruence. destruct Hcond as [Hcond|Hcond]; [done|].
      intros a Ha. apply list_elem_of_filter. split; [by intros ->|by apply Hcols].
    + rewrite lookup_insert_ne by done. eauto.
Qed.

(** Changing the rows of a table to well-typed ones. *)
Lemma set_rows_ok n tb rs c :
  cat_ok c → tables c !! n = Some tb → (∀ r, r ∈ rs → row_ok tb r) →
  cat_ok (set_tables (<[n := set_rows rs tb]> (tables c)) c).
Proof.
  intros Hok Hn Hrs. destruct (cat_tables _ Hok n tb Hn) as [Hs Hnd Hty Hd Hk Hf Hr].
  apply cat_ok_insert; [done| |].
  - intros tb0 Htb0. rewrite Hn in Htb0. by injection Htb0 as <-.
  - intros Hle. split; try done. intros fk Hfk. by eapply fk_wf_le, Hf.
Qed.

Lemma elem_of_complete fv tb given a v :
  NoDup (names tb) → complete fv tb given !! a = Some v ↔
    ∃ col, col ∈ tb_columns tb ∧ c_name col = a ∧ v = default (default_value fv col) (given !! a).
Proof.
  intros Hnd. unfold complete. rewrite <-elem_of_list_to_map.
  - rewrite list_elem_of_fmap. split; [intros (col & [= -> ->] & Hc); eauto|].
    intros (col & Hc & <- & ->). eauto.
  - by rewrite <-list_fmap_compose.
Qed.

Lemma insert_row_sound fv n given : sound_ddl (insert_row fv n given).
Proof.
  intros c c' Hok. unfold insert_row. destruct (tables c !! n) as [tb|] eqn:Hn; [|done]. cbv zeta.
  case_if; [done|]. destruct (filter _ (tb_columns tb)) eqn:Hnull; [|done].
  destruct (filter _ (tb_keys tb)); [|done]. case_if; [|done]. intros [= <-].
  apply set_rows_ok; [done..|].
  destruct (cat_tables _ Hok n tb Hn) as [Hs Hnd Hty Hd Hk Hf Hr].
  intros r [Hin|Hin]%elem_of_app; [by apply Hr|]. apply list_elem_of_singleton in Hin as ->. split.
  - intros a. unfold names. rewrite list_elem_of_fmap. split.
    + intros [v (col & Hc & <- & _)%elem_of_complete]; [|done]. eauto.
    + intros (col & -> & Hc). eexists. apply elem_of_complete; [done|]. eauto.
  - intros col Hc Hnn Hv. rewrite filter_nil_iff in Hnull. by apply (Hnull col Hc).
Qed.

Lemma bulk_insert_sound fv n given : sound_ddl (bulk_insert fv n given).
Proof.
  apply run_ddl_sound, Forall_forall. intros d (row & -> & _)%list_elem_of_fmap.
  apply insert_row_sound.
Qed.

Lemma delete_rows_ok fuel n p c : cat_ok c → cat_ok (delete_rows fuel n p c).
Proof.
  revert n p c. induction fuel as [|fuel IH]; intros n p c Hok; simpl;
    destruct (tables c !! n) as [tb|] eqn:Hn; try done.
  - apply set_rows_ok; [done..|]. intros r [_ Hr]%list_elem_of_filter.
    by apply (to_rows _ _ _ (cat_tables _ Hok n tb Hn)).
  - assert (cat_ok (set_tables (<[n := set_rows (filter (λ r, p r = false) (tb_rows tb)) tb]>
      (tables c)) c)) as Hok1.
    { apply set_rows_ok; [done..|]. intros r [_ Hr]%list_elem_of_filter.
      by apply (to_rows _ _ _ (cat_tables _ Hok n tb Hn)). }
    destruct (filter (λ r, p r = true) (tb_rows tb)) as [|d dead]; [done|].
    revert Hok1. generalize (set_tables (<[n := set_rows (filter (λ r, p r = false) (tb_rows tb)) tb]>
      (tables c)) c). induction (table_list c) as [|[m tb'] l IHl]; intros c1 Hok1; simpl; [done|].
    apply IHl. case_if; [by apply IH|done].
Qed.

Lemma delete_where_sound n p : sound_ddl (delete_where n p).
Proof.
  intros c c' Hok. unfold delete_where. destruct (tables c !! n); [|done]. intros [= <-].
  by apply delete_rows_ok.
Qed.

#[export] Hint Resolve create_schema_sound create_extension_sound create_type_sound
  create_table_sound drop_extension_sound drop_schema_cascade_sound drop_table_sound
  create_index_sound drop_index_sound drop_type_sound add_column_sound drop_column_sound
  insert_row_sound bulk_insert_sound delete_where_sound : ddl.

(** ** Rows written and removed *)

(** Table [n] with the rows [rs]. *)
Definition with_rows (n : QName) (rs : list Row) (c : Catalog) : Catalog :=
  set_tables (alter (set_rows rs) n (tables c)) c.

Lemma with_rows_eq n rs c tb :
  tables c !! n = Some tb → with_rows n rs c = set_tables (<[n := set_rows rs tb]> (tables c)) c.
Proof.
  intros Hn. unfold with_rows. f_equal. apply map_eq. intros m.
  destruct (decide (n = m)) as [<-|Hne].
  - by rewrite lookup_alter, lookup_insert, !decide_True, Hn.
  - by rewrite lookup_alter_ne, lookup_insert_ne.
Qed.

Lemma lookup_with_rows n m rs c :
  tables (with_rows n rs c) !! m =
    if decide (n = m) then set_rows rs <$> tables c !! m else tables c !! m.
Proof.
  simpl. destruct (decide (n = m)) as [<-|Hne]; [by rewrite lookup_alter, decide_True|].
  by rewrite lookup_alter_ne.
Qed.

Lemma set_tables_id c : set_tables (tables c) c = c.
Proof. by destruct c. Qed.

Lemma with_rows_id n c tb : tables c !! n = Some tb → with_rows n (tb_rows tb) c = c.
Proof.
  intros Hn. rewrite (with_rows_eq _ _ _ tb Hn). destruct tb. simpl. rewrite insert_id by done.
  apply set_tables_id.
Qed.

Lemma with_rows_twice n rs rs' c : with_rows n rs (with_rows n rs' c) = with_rows n rs c.
Proof.
  unfold with_rows, set_tables. simpl. f_equal. apply map_eq. intros m.
  destruct (decide (n = m)) as [<-|Hne]; [|by rewrite !lookup_alter_ne].
  rewrite !lookup_alter, !decide_True by done. by destruct (tables c !! n).
Qed.

(** The given columns exist, and no column without [NULL] is left empty. *)
Definition writable (fv : string → Value) (tb : Table) (given : Row) : Prop :=
  forallb (λ a, bool_decide (a ∈ names tb)) (map_to_list given).*1 = true ∧
  filter (λ col, c_nullable col = false ∧ complete fv tb given !! c_name col = Some VNull)
    (tb_columns tb) = [].

(** A row that meets no key of another one is stored. *)
Lemma insert_row_stored fv n given c tb :
  tables c !! n = Some tb → writable fv tb given →
  (∀ k r, k ∈ tb_keys tb → r ∈ tb_rows tb → agree k.2 k.2 (complete fv tb given) r = false) →
  forallb (fk_holds c (complete fv tb given)) (tb_foreign tb) = true →
  insert_row fv n given c = inl (with_rows n (tb_rows tb ++ [complete fv tb given]) c).
Proof.
  intros Hn [Hknown Hnull] Hkeys Hfk. unfold insert_row. rewrite Hn, Hknown. simpl.
  rewrite Hnull, Hfk. rewrite (with_rows_eq _ _ _ tb Hn).
  replace (filter _ (tb_keys tb)) with (@nil (string * list string)); [done|].
  symmetry. apply filter_nil_iff. intros k Hk Hex. apply existsb_exists in Hex as (r & Hr & Ha).
  rewrite Hkeys in Ha; [done..|by apply list_elem_of_In].
Qed.

(** A row that meets a key is refused under the name of the first such key. *)
Lemma insert_row_clash fv n given c tb k ks :
  tables c !! n = Some tb → writable fv tb given →
  filter (λ k, existsb (agree k.2 k.2 (complete fv tb given)) (tb_rows tb) = true) (tb_keys tb) = k :: ks →
  insert_row fv n given c = inr (UniqueViolation k.1).
Proof. intros Hn [Hknown Hnull] Hk. unfold insert_row. rewrite Hn, Hknown. simpl. by rewrite Hnull, Hk. Qed.

(** The rows of a bulk insert are stored, into a table without foreign keys. *)
Lemma bulk_insert_stored fv n given c tb :
  tables c !! n = Some tb → tb_foreign tb = [] → (∀ g, g ∈ given → writable fv tb g) →
  (∀ i g k r, given !! i = Some g → k ∈ tb_keys tb →
     r ∈ tb_rows tb ++ (complete fv tb <$> take i given) → agree k.2 k.2 (complete fv tb g) r = false) →
  bulk_insert fv n given c = inl (with_rows n (tb_rows tb ++ (complete fv tb <$> given)) c).
Proof.
  intros Hn Hf. revert c tb Hn Hf. induction given as [|g given IH]; intros c tb Hn Hf Hw Hk.
  - unfold bulk_insert. simpl. rewrite app_nil_r. by rewrite (with_rows_id _ _ _ Hn).
  - unfold bulk_insert in *. simpl. unfold seq_ddl. rewrite (insert_row_stored _ _ _ _ tb Hn).
    + rewrite (IH _ (set_rows (tb_rows tb ++ [complete fv tb g]) tb)).
      * rewrite with_rows_twice. simpl. by rewrite <-app_assoc.
      * rewrite lookup_with_rows, decide_True, Hn by done. done.
      * done.
      * intros g' Hg'. apply (Hw g'). by right.
      * intros i g' k r Hi Hkk Hr. apply (Hk (S i) g' k r); [done..|].
        simpl. simpl in Hr. rewrite <-app_assoc in Hr. exact Hr.
    + apply Hw. by left.
    + intros k r Hkk Hr. apply (Hk 0%nat g k r); [done..|]. apply elem_of_app. by left.
    + by rewrite Hf.
Qed.

Lemma filter_keep (p : Row → bool) (l : list Row) :
  (∀ r, r ∈ l → p r = false) → filter (λ r, p r = false) l = l.
Proof.
  induction l as [|r l IH]; intros Hp; [done|]. rewrite filter_cons_True by (apply Hp; by left).
  f_equal. apply IH. intros r' Hr'. apply Hp. by right.
Qed.

(** Deleting where nothing matches. *)
Lemma delete_where_none n p c tb :
  tables c !! n = Some tb → (∀ r, r ∈ tb_rows tb → p r = false) → delete_where n p c = inl c.
Proof.
  intros Hn Hp. unfold delete_where. rewrite Hn. f_equal.
  assert (filter (λ r, p r = true) (tb_rows tb) = []) as Hdead.
  { apply filter_nil_iff. intros r Hr. by rewrite Hp. }
  assert (filter (λ r, p r = false) (tb_rows tb) = tb_rows tb) as Hkeep
    by (apply filter_keep; done).
  etransitivity; [|exact (with_rows_id _ _ _ Hn)]. rewrite (with_rows_eq _ _ _ _ Hn).
  destruct (size (tables c)); simpl; rewrite Hn, ?Hdead, Hkeep; done.
Qed.

Lemma delete_rows_empty fuel n p c tb :
  tables c !! n = Some tb → tb_rows tb = [] → delete_rows fuel n p c = c.
Proof.
  intros Hn Hrows. etransitivity; [|exact (with_rows_id _ _ _ Hn)].
  rewrite (with_rows_eq _ _ _ _ Hn), Hrows. destruct fuel; simpl; by rewrite Hn, Hrows.
Qed.

(** Deleting rows nothing points to. *)
Lemma delete_where_leaf n p c tb :
  tables c !! n = Some tb →
  (∀ m tb', tables c !! m = Some tb' → existsb (λ fk, bool_decide (fk_table fk = n)) (tb_foreign tb') = true →
     m ≠ n ∧ tb_rows tb' = []) →
  delete_where n p c = inl (with_rows n (filter (λ r, p r = false) (tb_rows tb)) c).
Proof.
  intros Hn Hleaf. unfold delete_where. rewrite Hn. f_equal.
  rewrite (with_rows_eq _ _ _ _ Hn). set (c1 := set_tables _ c).
  destruct (size (tables c)) as [|fuel]; simpl; rewrite Hn; [done|].
  destruct (filter (λ r, p r = true) (tb_rows tb)) as [|d dead]; [done|].
  assert (∀ m tb', (m, tb') ∈ table_list c → tables c !! m = Some tb') as Hl
    by (intros m tb'; apply elem_of_map_to_list).
  fold c1. revert Hl. generalize (table_list c). intros l.
  induction l as [|[m tb'] l IH]; intros Hl; simpl; [done|].
  etransitivity; [|apply IH; intros m' tb0 Hin; apply Hl; by right]. f_equal.
  case_if; [|done]. destruct (Hleaf m tb') as [Hne Hrows]; [apply Hl; by left|done|].
  assert (tables c1 !! m = Some tb') as Hm.
  { simpl. rewrite lookup_insert_ne by done. apply Hl. by left. }
  by apply (delete_rows_empty _ _ _ _ tb').
Qed.
