(* ===== verification/Migrations.v ===== *)
(** * [alembic/versions/*.py]: the schema migrations

    Every revision as the statements its [upgrade] and [downgrade] issue, the
    revision graph, and Alembic's walk along it.  Alembic's bookkeeping in the
    version table is an interface.  [Env] holds what a run of the scripts draws:
    the identifiers computed at import, the clock, the password hash. *)

From stdpp Require Import base tactics list gmap strings.
From Stdlib Require Import ZArith Lia.
From S2P Require Import Prelude Catalog.
From S2P Require Permissions.

(** ** What a run draws *)

Record Env := mkEnv {
  perm_id : nat → Uuid;               (** [SYSTEM_PERMISSIONS[i]["id"]], at import *)
  DEFAULT_TENANT_ID : Uuid;           (** at import *)
  DEFAULT_ADMIN_ID : Uuid;            (** at import *)
  DEFAULT_ADMIN_ROLE_ID : Uuid;       (** at import *)
  association_id : Uuid;              (** [uuid.uuid4()] in [upgrade] *)
  utcnow : Z;
  hashed_password : string;           (** [create_password_hash("changeme")] *)
  expands_tuples : bool;
    (** whether the driver turns a tuple parameter into a parenthesised list *)
  fun_value : string → Value
}.

Definition iam (table : string) : QName := ("iam", table).

(** ** Columns *)

Definition required (n : string) (t : SqlType) : Column := mkColumn n t false None.
Definition optional (n : string) (t : SqlType) : Column := mkColumn n t true None.
Definition id_column : Column := required "id" TUuid.
Definition timestamps : list Column :=
  [required "created_at" (TDateTime false); required "updated_at" (TDateTime false)].
Definition deleted_at : Column := optional "deleted_at" (TDateTime false).

(** [sa.ForeignKey("iam.<table>.id", ondelete="CASCADE")]. *)
Definition references (column table : string) : ForeignKey :=
  mkForeignKey [column] (iam table) ["id"].

(** ** [20240330_create_iam_schema.py] *)

Definition schema_upgrade : list Ddl := [create_schema "iam"; create_extension "uuid-ossp"].

Definition schema_downgrade : list Ddl := [drop_extension "uuid-ossp"; drop_schema_cascade "iam"].

(** ** [20240330_create_iam_tables.py] *)

Definition tenants_table : Table := mkTable
  ([id_column] ++ timestamps ++ [deleted_at; required "name" (TString 255);
    required "slug" (TString 100); optional "description" TText; required "is_active" TBoolean])
  [("tenants_pkey", ["id"]); ("uq_tenant_slug", ["slug"])] [] [].

Definition permissions_table : Table := mkTable
  ([id_column] ++ timestamps ++ [required "name" (TString 255); required "code" (TString 100);
    optional "description" TText; required "module" (TString 100)])
  [("permissions_pkey", ["id"]); ("uq_permission_code", ["code"])] [] [].

Definition tenant_roles_table : Table := mkTable
  ([id_column] ++ timestamps ++ [deleted_at; required "name" (TString 255);
    optional "description" TText; required "is_system_role" TBoolean; required "tenant_id" TUuid])
  [("tenant_roles_pkey", ["id"]); ("uq_tenant_role_name", ["tenant_id"; "name"])]
  [references "tenant_id" "tenants"] [].

Definition tenant_role_permissions_table : Table := mkTable
  ([id_column] ++ timestamps ++ [required "tenant_role_id" TUuid; required "permission_id" TUuid])
  [("tenant_role_permissions_pkey", ["id"]);
   ("uq_tenant_role_permission", ["tenant_role_id"; "permission_id"])]
  [references "tenant_role_id" "tenant_roles"; references "permission_id" "permissions"] [].

Definition users_table : Table := mkTable
  ([id_column] ++ timestamps ++ [deleted_at; required "email" (TString 255);
    required "hashed_password" (TString 255); optional "full_name" (TString 255);
    required "is_active" TBoolean; required "is_superuser" TBoolean;
    optional "last_login" (TDateTime false)])
  [("users_pkey", ["id"]); ("uq_user_email", ["email"])] [] [].

Definition user_tenant_roles_table : Table := mkTable
  ([id_column] ++ timestamps ++ [required "user_id" TUuid; required "tenant_id" TUuid;
    required "tenant_role_id" TUuid])
  [("user_tenant_roles_pkey", ["id"]); ("uq_user_tenant_role", ["user_id"; "tenant_id"; "tenant_role_id"])]
  [references "user_id" "users"; references "tenant_id" "tenants";
   references "tenant_role_id" "tenant_roles"] [].

Definition tables_upgrade : list Ddl :=
  [ create_table (iam "tenants") tenants_table;
    create_index "iam" "ix_tenant_name" "tenants" ["name"];
    create_index "iam" "ix_tenant_slug" "tenants" ["slug"];
    create_table (iam "permissions") permissions_table;
    create_index "iam" "ix_permission_code" "permissions" ["code"];
    create_index "iam" "ix_permission_module" "permissions" ["module"];
    create_table (iam "tenant_roles") tenant_roles_table;
    create_index "iam" "ix_tenant_role_name" "tenant_roles" ["name"];
    create_table (iam "tenant_role_permissions") tenant_role_permissions_table;
    create_table (iam "users") users_table;
    create_index "iam" "ix_user_email" "users" ["email"];
    create_table (iam "user_tenant_roles") user_tenant_roles_table ].

Definition tables_downgrade : list Ddl :=
  [ drop_table (iam "user_tenant_roles"); drop_table (iam "users");
    drop_table (iam "tenant_role_permissions"); drop_table (iam "tenant_roles");
    drop_table (iam "permissions"); drop_table (iam "tenants") ].

(** ** [20240330_seed_permissions.py] *)

(** Description and module of the rows whose name and code are
    [Permissions.SYSTEM_PERMISSIONS]. *)
Definition SYSTEM_PERMISSION_DETAILS : list (string * string) :=
  [("Ability to view tenant information", "tenant"); ("Ability to create new tenants", "tenant");
   ("Ability to update tenant information", "tenant"); ("Ability to delete tenants", "tenant");
   ("Ability to view user information", "user"); ("Ability to create new users", "user");
   ("Ability to update user information", "user"); ("Ability to delete users", "user");
   ("Ability to view role information", "role"); ("Ability to create new roles", "role");
   ("Ability to update role information", "role"); ("Ability to delete roles", "role");
   ("Ability to view permission information", "permission");
   ("Ability to assign permissions to roles", "permission");
   ("Ability to view virtual machines", "vm"); ("Ability to create new virtual machines", "vm");
   ("Ability to update virtual machines", "vm"); ("Ability to delete virtual machines", "vm");
   ("Ability to power on/off virtual machines", "vm");
   ("Ability to view templates", "template"); ("Ability to create new templates", "template");
   ("Ability to update templates", "template"); ("Ability to delete templates", "template")].

Definition permission_row (env : Env) (i : nat) (p : (string * string) * (string * string)) : Row :=
  list_to_map
    [("id", VUuid (perm_id env i)); ("name", VStr p.1.1); ("code", VStr p.1.2);
     ("description", VStr p.2.1); ("module", VStr p.2.2);
     ("created_at", VTime (utcnow env)); ("updated_at", VTime (utcnow env))].

Definition permission_rows (env : Env) : list Row :=
  imap (permission_row env) (zip Permissions.SYSTEM_PERMISSIONS SYSTEM_PERMISSION_DETAILS).

Definition seed_permissions_upgrade (env : Env) : list Ddl :=
  [bulk_insert (fun_value env) (iam "permissions") (permission_rows env)].

(** [WHERE code IN :codes] with the tuple as one parameter: without expansion
    the statement is [IN $1], which the database does not parse. *)
Definition seed_permissions_downgrade (env : Env) : list Ddl :=
  [ if expands_tuples env
    then delete_where (iam "permissions")
           (λ r, existsb (λ code, value_eqb (default VNull (r !! "code")) (VStr code))
                   Permissions.permission_codes)
    else λ _, inr SyntaxError ].

(** ** [20240330_create_api_keys_table.py] *)

Definition api_keys_table : Table := mkTable
  [mkColumn "id" TUuid false (Some (DFunction "uuid_generate_v4"));
   required "name" (TString 255); required "key_prefix" (TString 8); required "key_hash" (TString 255);
   optional "description" (TString 500); required "is_active" TBoolean;
   optional "expires_at" (TDateTime false); optional "last_used_at" (TDateTime false);
   required "user_id" TUuid; optional "tenant_id" TUuid;
   mkColumn "created_at" (TDateTime false) false (Some (DFunction "now"));
   mkColumn "updated_at" (TDateTime false) false (Some (DFunction "now"))]
  [("api_keys_pkey", ["id"])]
  [references "user_id" "users"; references "tenant_id" "tenants"] [].

(** [index=True] on a column makes an index of SQLAlchemy's default name; the
    explicit [create_index] makes another one on the same column. *)
Definition api_keys_upgrade : list Ddl :=
  [ create_table (iam "api_keys") api_keys_table;
    create_index "iam" "ix_iam_api_keys_key_prefix" "api_keys" ["key_prefix"];
    create_index "iam" "ix_api_keys_key_prefix" "api_keys" ["key_prefix"];
    create_index "iam" "ix_api_keys_user_id" "api_keys" ["user_id"];
    create_index "iam" "ix_api_keys_tenant_id" "api_keys" ["tenant_id"] ].

Definition api_keys_downgrade : list Ddl :=
  [ drop_index "iam" "ix_api_keys_tenant_id"; drop_index "iam" "ix_api_keys_user_id";
    drop_index "iam" "ix_api_keys_key_prefix"; drop_table (iam "api_keys") ].

(** ** [manual_add_scope_column.py] *)

Definition scope_column : Column :=
  mkColumn "scope" (TEnum "api_key_scope") false (Some (DLiteral (VStr "TENANT"))).

Definition scope_upgrade (env : Env) : list Ddl :=
  [ create_type "api_key_scope"; add_column (fun_value env) (iam "api_keys") scope_column ].

Definition scope_downgrade : list Ddl :=
  [ drop_column (iam "api_keys") "scope"; drop_type "api_key_scope" ].

(** ** [ef986450914c...]: both functions are [pass] *)

Definition association_upgrade : list Ddl := [].
Definition association_downgrade : list Ddl := [].

(** ** [43ae6a20f723...] *)

Definition tenant_roles_upgrade : list Ddl := [].

(** [op.create_table('alembic_version', ...)] names no schema. *)
Definition tenant_roles_downgrade : list Ddl :=
  [ create_table ("public", "alembic_version")
      (mkTable [required "version_num" (TString 32)] [("alembic_version_pkc", ["version_num"])] [] []) ].

(** ** [b8f3acf95fa5...] *)

Definition default_tenant_row (env : Env) : Row := list_to_map
  [("id", VUuid (DEFAULT_TENANT_ID env)); ("name", VStr "Default Tenant"); ("slug", VStr "default-tenant");
   ("created_at", VTime (utcnow env)); ("updated_at", VTime (utcnow env)); ("is_active", VBool true)].

Definition default_role_row (env : Env) : Row := list_to_map
  [("id", VUuid (DEFAULT_ADMIN_ROLE_ID env)); ("tenant_id", VUuid (DEFAULT_TENANT_ID env));
   ("name", VStr "Admin"); ("description", VStr "Default administrator role for the tenant");
   ("is_system_role", VBool false); ("created_at", VTime (utcnow env)); ("updated_at", VTime (utcnow env))].

Definition default_admin_row (env : Env) : Row := list_to_map
  [("id", VUuid (DEFAULT_ADMIN_ID env)); ("email", VStr "admin@example.com");
   ("hashed_password", VStr (hashed_password env)); ("is_superuser", VBool true); ("is_active", VBool true);
   ("created_at", VTime (utcnow env)); ("updated_at", VTime (utcnow env))].

Definition default_association_row (env : Env) : Row := list_to_map
  [("id", VUuid (association_id env)); ("user_id", VUuid (DEFAULT_ADMIN_ID env));
   ("tenant_id", VUuid (DEFAULT_TENANT_ID env)); ("tenant_role_id", VUuid (DEFAULT_ADMIN_ROLE_ID env));
   ("created_at", VTime (utcnow env)); ("updated_at", VTime (utcnow env))].

Definition admin_upgrade (env : Env) : list Ddl :=
  [ bulk_insert (fun_value env) (iam "tenants") [default_tenant_row env];
    bulk_insert (fun_value env) (iam "tenant_roles") [default_role_row env];
    bulk_insert (fun_value env) (iam "users") [default_admin_row env];
    bulk_insert (fun_value env) (iam "user_tenant_roles") [default_association_row env] ].

(** [table.c.column == u]. *)
Definition column_is (column : string) (u : Uuid) (r : Row) : bool :=
  value_eqb (default VNull (r !! column)) (VUuid u).

Definition admin_downgrade (env : Env) : list Ddl :=
  [ delete_where (iam "user_tenant_roles")
      (λ r, column_is "user_id" (DEFAULT_ADMIN_ID env) r && column_is "tenant_id" (DEFAULT_TENANT_ID env) r);
    delete_where (iam "users") (column_is "id" (DEFAULT_ADMIN_ID env));
    delete_where (iam "tenant_roles") (column_is "id" (DEFAULT_ADMIN_ROLE_ID env));
    delete_where (iam "tenants") (column_is "id" (DEFAULT_TENANT_ID env)) ].

(** ** The revisions *)

Record Revision := mkRevision {
  revision : string;
  down_revision : option string;
  upgrade : Env → list Ddl;
  downgrade : Env → list Ddl
}.

Definition r_schema : Revision :=
  mkRevision "20240330_iam_schema" None (λ _, schema_upgrade) (λ _, schema_downgrade).
Definition r_tables : Revision :=
  mkRevision "20240330_iam_tables" (Some "20240330_iam_schema") (λ _, tables_upgrade) (λ _, tables_downgrade).
Definition r_seed : Revision :=
  mkRevision "20240330_seed_permissions" (Some "20240330_iam_tables")
    seed_permissions_upgrade seed_permissions_downgrade.
Definition r_api_keys : Revision :=
  mkRevision "20240330_create_api_keys" (Some "20240330_seed_permissions")
    (λ _, api_keys_upgrade) (λ _, api_keys_downgrade).
Definition r_scope : Revision :=
  mkRevision "manual_add_scope_column" (Some "20240330_create_api_keys") scope_upgrade (λ _, scope_downgrade).
Definition r_association : Revision :=
  mkRevision "ef986450914c" (Some "manual_add_scope_column")
    (λ _, association_upgrade) (λ _, association_downgrade).
Definition r_tenant_roles : Revision :=
  mkRevision "43ae6a20f723" (Some "ef986450914c") (λ _, tenant_roles_upgrade) (λ _, tenant_roles_downgrade).
Definition r_admin : Revision :=
  mkRevision "b8f3acf95fa5" (Some "43ae6a20f723") admin_upgrade admin_downgrade.

(** In the order of the directory. *)
Definition revisions : list Revision :=
  [r_api_keys; r_schema; r_tables; r_seed; r_tenant_roles; r_admin; r_association; r_scope].

Definition find_revision (r : string) : option Revision :=
  head (filter (λ rv, revision rv = r) revisions).

(** From a revision back to the base, [fuel] revisions at most; [None] for an
    unknown revision or when the fuel runs out. *)
Fixpoint lineage (fuel : nat) (r : option string) : option (list Revision) :=
  match r with
  | None => Some []
  | Some r =>
      match fuel, find_revision r with
      | S fuel', Some rv => cons rv <$> lineage fuel' (down_revision rv)
      | _, _ => None
      end
  end.

(** Revisions no other one builds on. *)
Definition heads : list Revision :=
  filter (λ rv, Forall (λ rv', down_revision rv' ≠ Some (revision rv)) revisions) revisions.

(** ** Alembic *)

(** [version_table_schema="iam"]. *)
Definition version_table : QName := iam "alembic_version".

Definition version_shape : Table :=
  mkTable [required "version_num" (TString 32)] [("alembic_version_pkc", ["version_num"])] [] [].

(** What it holds at a revision, [None] for the base. *)
Definition version_rows (r : option string) : list Row :=
  match r with Some r => [ {["version_num" := VStr r]} ] | None => [] end.

(** The statement Alembic issues after a step, in the version table: the
    revision before it and the one after it. *)
Class Alembic := {
  record_version : option string → option string → Ddl
}.

Class AlembicLaws `{Alembic} : Prop := {
  record_present from to c :
    tables c !! version_table = Some (set_rows (version_rows from) version_shape) →
    record_version from to c = inl (with_rows version_table (version_rows to) c);
  record_missing from to c : tables c !! version_table = None → ∃ e, record_version from to c = inr e;
  record_sound from to : sound_ddl (record_version from to)
}.

Inductive Step :=
  | Up (rv : Revision)
  | Down (rv : Revision).

Definition step_revision (st : Step) : Revision := match st with Up rv | Down rv => rv end.

Section alembic.
Context `{Alembic}.

Definition run_step (env : Env) (st : Step) : Ddl :=
  match st with
  | Up rv => seq_ddl (run_ddl (upgrade rv env)) (record_version (down_revision rv) (Some (revision rv)))
  | Down rv => seq_ddl (run_ddl (downgrade rv env)) (record_version (Some (revision rv)) (down_revision rv))
  end.

Definition run_steps (sts : list (Env * Step)) : Ddl := run_ddl ((λ '(env, st), run_step env st) <$> sts).

(** The way from the base to the only head, [[]] when there is none. *)
Definition linear : list Revision :=
  match heads with
  | [rv] => default [] (reverse <$> lineage (length revisions) (Some (revision rv)))
  | _ => []
  end.

(** The first [n] revisions of it. *)
Definition ups (env : Env) (n : nat) : list (Env * Step) := (λ rv, (env, Up rv)) <$> take n linear.

(** [alembic upgrade head] from the base. *)
Definition upgrade_head (env : Env) : Ddl := run_steps (ups env (length revisions)).
End alembic.

(** A database as Alembic finds it: the schema [env.py] makes sure of, and an
    empty version table. *)
Definition fresh : Catalog :=
  mkCatalog {["public"; "iam"]} ∅ ∅ {[version_table := version_shape]} ∅.

(** ** What the models expect ([models/iam/*.py]) *)

Record OrmTable := mkOrmTable {
  orm_columns : list string;
  orm_unique : list (list string)    (** primary key aside *)
}.

Definition orm_api_keys : OrmTable := mkOrmTable
  ["id"; "name"; "key_prefix"; "key_hash"; "description"; "is_active"; "expires_at"; "last_used_at";
   "user_id"; "tenant_id"; "created_at"; "updated_at"; "scope"] [["key_prefix"]].
Definition orm_invitations : OrmTable := mkOrmTable
  ["id"; "email"; "token"; "status"; "expires_at"; "accepted_at"; "tenant_id"; "inviter_id"; "user_id";
   "role_id"; "created_at"; "updated_at"] [["token"]].
Definition orm_permissions : OrmTable := mkOrmTable
  ["id"; "name"; "code"; "description"; "created_at"; "updated_at"] [["name"]; ["code"]].
Definition orm_role_permissions : OrmTable := mkOrmTable
  ["role_id"; "permission_id"] [["role_id"; "permission_id"]].
Definition orm_roles : OrmTable := mkOrmTable
  ["id"; "name"; "description"; "tenant_id"; "is_system_role"; "created_at"; "updated_at"] [].
Definition orm_tenant_roles : OrmTable := mkOrmTable ["tenant_id"; "role_id"] [["tenant_id"; "role_id"]].
Definition orm_tenants : OrmTable := mkOrmTable
  ["id"; "name"; "slug"; "description"; "is_active"; "created_at"; "updated_at"] [["name"]; ["slug"]].
Definition orm_user_tenant_roles : OrmTable := mkOrmTable
  ["user_id"; "role_id"; "tenant_id"; "created_at"] [["user_id"; "role_id"; "tenant_id"]].
Definition orm_users : OrmTable := mkOrmTable
  ["id"; "email"; "hashed_password"; "full_name"; "is_active"; "is_superuser"; "last_login";
   "created_at"; "updated_at"] [["email"]].

Definition orm_tables : list (string * OrmTable) :=
  [ ("api_keys", orm_api_keys); ("invitations", orm_invitations); ("permissions", orm_permissions);
    ("role_permissions", orm_role_permissions); ("roles", orm_roles); ("tenant_roles", orm_tenant_roles);
    ("tenants", orm_tenants); ("user_tenant_roles", orm_user_tenant_roles); ("users", orm_users) ].

(** Tables the models map and the database lacks. *)
Definition missing_tables (c : Catalog) : list string :=
  filter (λ t, tables c !! iam t = None) orm_tables.*1.

(** Mapped columns that an existing table lacks. *)
Definition missing_columns (c : Catalog) : list (string * string) :=
  orm_tables ≫= λ '(t, o), match tables c !! iam t with
    | Some tb => pair t <$> filter (λ a, a ∉ names tb) (orm_columns o)
    | None => []
    end.

(** Columns that must have a value, have no default and are not mapped: no
    [INSERT] of the models can succeed. *)
Definition unwritten_columns (c : Catalog) : list (string * string) :=
  orm_tables ≫= λ '(t, o), match tables c !! iam t with
    | Some tb => pair t <$> (c_name <$> filter (λ col,
        c_nullable col = false ∧ c_default col = None ∧ c_name col ∉ orm_columns o) (tb_columns tb))
    | None => []
    end.

(** Unique columns of the models that an existing table does not enforce. *)
Definition missing_unique (c : Catalog) : list (string * list string) :=
  orm_tables ≫= λ '(t, o), match tables c !! iam t with
    | Some tb => pair t <$> filter (λ k, k ∉ (tb_keys tb).*2) (orm_unique o)
    | None => []
    end.
