(* ===== verification/States.v ===== *)
(** * The catalogue after each migration

    What each revision of [Migrations.v] makes of the catalogue the one before
    it left: the upgrades succeed, and the downgrades that restore it do. *)

From stdpp Require Import base tactics list gmap strings.
From Stdlib Require Import ZArith Lia.
From S2P Require Import Prelude Catalog Migrations.
From S2P Require Permissions.

(** ** The catalogue after each revision *)

Definition forced (d : Ddl) (c : Catalog) : Catalog := match d c with inl c' => c' | inr _ => c end.

(** [V]: rows of the version table; [R]: rows of [permissions]. *)
Definition cat0 V := with_rows version_table V fresh.
Definition cat1 V := forced (run_ddl schema_upgrade) (cat0 V).
Definition cat2 V := forced (run_ddl tables_upgrade) (cat1 V).
Definition cat3 V R := with_rows (iam "permissions") R (cat2 V).
Definition cat4 V R := forced (run_ddl api_keys_upgrade) (cat3 V R).
Definition cat5 env V R := forced (run_ddl (scope_upgrade env)) (cat4 V R).

Definition accepted (r : Catalog + DbError) : bool := match r with inl _ => true | inr _ => false end.

Lemma forced_run d c : accepted (d c) = true → d c = inl (forced d c).
Proof. unfold forced. by destruct (d c). Qed.

Lemma schema_up V : run_ddl schema_upgrade (cat0 V) = inl (cat1 V).
Proof. apply forced_run. vm_compute. reflexivity. Qed.
Lemma tables_up V : run_ddl tables_upgrade (cat1 V) = inl (cat2 V).
Proof. apply forced_run. vm_compute. reflexivity. Qed.
Lemma api_keys_up V R : run_ddl api_keys_upgrade (cat3 V R) = inl (cat4 V R).
Proof. apply forced_run. vm_compute. reflexivity. Qed.
Lemma scope_up env V R : run_ddl (scope_upgrade env) (cat4 V R) = inl (cat5 env V R).
Proof. apply forced_run. vm_compute. reflexivity. Qed.

Lemma tables_down V : run_ddl tables_downgrade (cat2 V) = inl (cat1 V).
Proof. vm_compute. reflexivity. Qed.
Lemma api_keys_down V R : run_ddl api_keys_downgrade (cat4 V R) = inl (cat3 V R).
Proof. vm_compute. reflexivity. Qed.
Lemma scope_down env V R : run_ddl scope_downgrade (cat5 env V R) = inl (cat4 V R).
Proof. vm_compute. reflexivity. Qed.
Lemma schema_down V : ∃ c, run_ddl schema_downgrade (cat1 V) = inl c ∧ tables c !! version_table = None.
Proof. eexists. split; vm_compute; reflexivity. Qed.

(** *** The permission rows *)

Definition permission_stored (env : Env) (i : nat) (p : (string * string) * (string * string)) : Row :=
  complete (fun_value env) permissions_table (permission_row env i p).

Lemma permission_stored_keys env i p :
  permission_stored env i p !! "id" = Some (VUuid (perm_id env i)) ∧
  permission_stored env i p !! "code" = Some (VStr p.1.2).
Proof. split; reflexivity. Qed.

Lemma permission_writable env i p : writable (fun_value env) permissions_table (permission_row env i p).
Proof. split; vm_compute; reflexivity. Qed.

(** The identifiers drawn at import differ. *)
Definition distinct_ids (env : Env) : Prop :=
  ∀ i j, (i < 23)%nat → (j < 23)%nat → perm_id env i = perm_id env j → i = j.

Lemma agree_one a b r r' :
  agree [a] [b] r r' = value_eqb (default VNull (r !! a)) (default VNull (r' !! b)).
Proof. unfold agree. simpl. by rewrite andb_true_r. Qed.

Definition stored_permissions (env : Env) : list Row :=
  complete (fun_value env) permissions_table <$> permission_rows env.

Lemma permission_rows_lookup env i g :
  permission_rows env !! i = Some g ↔
  ∃ p, zip Permissions.SYSTEM_PERMISSIONS SYSTEM_PERMISSION_DETAILS !! i = Some p ∧ g = permission_row env i p.
Proof.
  unfold permission_rows. rewrite list_lookup_imap, fmap_Some. naive_solver.
Qed.

Lemma permission_codes_differ i j p q :
  zip Permissions.SYSTEM_PERMISSIONS SYSTEM_PERMISSION_DETAILS !! i = Some p →
  zip Permissions.SYSTEM_PERMISSIONS SYSTEM_PERMISSION_DETAILS !! j = Some q →
  p.1.2 = q.1.2 → i = j.
Proof.
  intros Hi Hj Heq. assert (NoDup (snd ∘ fst <$> zip Permissions.SYSTEM_PERMISSIONS SYSTEM_PERMISSION_DETAILS))
    as Hnd by (apply (bool_decide_unpack _); vm_compute; exact I).
  eapply NoDup_lookup; [exact Hnd|by rewrite list_lookup_fmap, Hi|].
  rewrite list_lookup_fmap, Hj. simpl. by rewrite Heq.
Qed.

Lemma seed_up env V : distinct_ids env →
  run_ddl (seed_permissions_upgrade env) (cat2 V) = inl (cat3 V (stored_permissions env)).
Proof.
  intros Hids. assert (tables (cat2 V) !! iam "permissions" = Some permissions_table) as Hn
    by (vm_compute; reflexivity).
  unfold seed_permissions_upgrade. simpl. unfold seq_ddl.
  rewrite (bulk_insert_stored _ _ _ _ permissions_table Hn); [done|done| |].
  - intros g [i Hi]%list_elem_of_lookup. apply permission_rows_lookup in Hi as (p & _ & ->).
    apply permission_writable.
  - intros i g k r Hi Hk Hr. apply permission_rows_lookup in Hi as (p & Hp & ->). simpl in Hr.
    apply list_elem_of_fmap in Hr as (g' & -> & Hg'). apply list_elem_of_lookup in Hg' as [j Hj].
    apply lookup_take_Some in Hj as [Hj Hlt]. apply permission_rows_lookup in Hj as (q & Hq & ->).
    change (agree k.2 k.2 (permission_stored env i p) (permission_stored env j q) = false).
    destruct (permission_stored_keys env i p) as [Hid Hcode].
    destruct (permission_stored_keys env j q) as [Hid' Hcode'].
    assert (length (zip Permissions.SYSTEM_PERMISSIONS SYSTEM_PERMISSION_DETAILS) = 23%nat) as Hlen
      by reflexivity.
    pose proof (lookup_lt_Some _ _ _ Hp). pose proof (lookup_lt_Some _ _ _ Hq).
    apply elem_of_cons in Hk as [->|Hk]; [|apply list_elem_of_singleton in Hk as ->];
      simpl snd; rewrite agree_one, ?Hid, ?Hid', ?Hcode, ?Hcode'; simpl.
    + apply N.eqb_neq. intros Heq. apply Hids in Heq; lia.
    + apply String.eqb_neq. intros Heq. pose proof (permission_codes_differ i j p q Hp Hq Heq). lia.
Qed.

Lemma stored_codes env r : r ∈ stored_permissions env →
  existsb (λ code, value_eqb (default VNull (r !! "code")) (VStr code)) Permissions.permission_codes = true.
Proof.
  intros (g & -> & Hg)%list_elem_of_fmap. apply list_elem_of_lookup in Hg as [i Hi].
  apply permission_rows_lookup in Hi as ([[name code] details] & Hp & ->).
  apply lookup_zip_Some in Hp as [Hp _]. apply existsb_exists. exists code. split.
  - apply list_elem_of_In, list_elem_of_fmap. exists (name, code). split; [done|].
    by eapply list_elem_of_lookup_2.
  - destruct (permission_stored_keys env i ((name, code), details)) as [_ Hcode].
    unfold permission_stored in Hcode. rewrite Hcode. simpl. apply String.eqb_refl.
Qed.

(** No foreign key with rows behind it points to table [n]. *)
Definition unreferenced (n : QName) (c : Catalog) : bool :=
  forallb (λ '(m, tb), negb (existsb (λ fk, bool_decide (fk_table fk = n)) (tb_foreign tb))
                       || (bool_decide (m ≠ n) && bool_decide (tb_rows tb = []))) (table_list c).

Lemma delete_unreferenced n p c tb :
  tables c !! n = Some tb → unreferenced n c = true →
  delete_where n p c = inl (with_rows n (filter (λ r, p r = false) (tb_rows tb)) c).
Proof.
  intros Hn Hu. apply delete_where_leaf; [done|]. intros m tb' Hm Hfk. unfold unreferenced in Hu.
  rewrite forallb_elem in Hu. specialize (Hu (m, tb') (proj2 (elem_of_map_to_list _ _ _) Hm)).
  simpl in Hu. rewrite Hfk in Hu. simpl in Hu. by apply andb_true_iff in Hu as [?%bool_decide_eq_true
    ?%bool_decide_eq_true].
Qed.

Lemma cat2_permissions V : tables (cat2 V) !! iam "permissions" = Some permissions_table.
Proof. vm_compute. reflexivity. Qed.
Lemma cat2_unreferenced V R :
  unreferenced (iam "permissions") (with_rows (iam "permissions") R (cat2 V)) = true.
Proof. vm_compute. reflexivity. Qed.

(** The codes do not depend on the process. *)
Lemma seed_down_of env env' V : expands_tuples env' = true →
  run_ddl (seed_permissions_downgrade env') (cat3 V (stored_permissions env)) = inl (cat2 V).
Proof.
  intros He. unfold seed_permissions_downgrade. rewrite He.
  unfold run_ddl, seq_ddl, cat3.
  pose proof (cat2_permissions V) as Hn. pose proof (cat2_unreferenced V) as Hu.
  revert Hn Hu. generalize (cat2 V). intros c Hn Hu.
  rewrite (delete_unreferenced _ _ _ (set_rows (stored_permissions env) permissions_table));
    [|by rewrite lookup_with_rows, decide_True, Hn|apply Hu].
  rewrite with_rows_twice. f_equal. etransitivity; [|exact (with_rows_id _ _ _ Hn)].
  match goal with |- with_rows _ ?l _ = _ => replace l with (@nil Row); [done|] end.
  symmetry. apply filter_nil_iff. intros r Hr. by rewrite (stored_codes env r Hr).
Qed.

(** *** The administrator *)

Definition tenant_stored env := complete (fun_value env) tenants_table (default_tenant_row env).
Definition role_stored env := complete (fun_value env) tenant_roles_table (default_role_row env).
Definition admin_stored env := complete (fun_value env) users_table (default_admin_row env).
Definition association_stored env :=
  complete (fun_value env) user_tenant_roles_table (default_association_row env).

(** The administrator's four rows, on any catalogue. *)
Definition with_tenant env c := with_rows (iam "tenants") [tenant_stored env] c.
Definition with_role env c := with_rows (iam "tenant_roles") [role_stored env] (with_tenant env c).
Definition with_admin env c := with_rows (iam "users") [admin_stored env] (with_role env c).
Definition cat8 env c :=
  with_rows (iam "user_tenant_roles") [association_stored env] (with_admin env c).

(** The four tables as the migrations leave them, without rows. *)
Record admin_tables (c : Catalog) : Prop := {
  at_tenants : tables c !! iam "tenants" = Some tenants_table;
  at_roles : tables c !! iam "tenant_roles" = Some tenant_roles_table;
  at_users : tables c !! iam "users" = Some users_table;
  at_associations : tables c !! iam "user_tenant_roles" = Some user_tenant_roles_table
}.

Lemma cat5_admin_tables env V R : admin_tables (cat5 env V R).
Proof. split; vm_compute; reflexivity. Qed.

Lemma insert_single fv n given c tb :
  tables c !! n = Some tb → tb_rows tb = [] → writable fv tb given →
  forallb (fk_holds c (complete fv tb given)) (tb_foreign tb) = true →
  run_ddl [bulk_insert fv n [given]] c = inl (with_rows n [complete fv tb given] c).
Proof.
  intros Hn Hrows Hw Hfk. unfold bulk_insert. simpl. unfold seq_ddl.
  rewrite (insert_row_stored _ _ _ _ tb Hn Hw); rewrite ?Hrows; try done. set_solver.
Qed.

(** A foreign key on one column, to a row with that identifier. *)
Lemma references_holds c r column table u tb row :
  tables c !! iam table = Some tb → tb_rows tb = [row] →
  r !! column = Some (VUuid u) → row !! "id" = Some (VUuid u) →
  fk_holds c r (references column table) = true.
Proof.
  intros Hn Hrows Hr Hrow. unfold fk_holds. apply orb_true_iff. right. simpl fk_table.
  rewrite Hn, Hrows. unfold existsb, fk_columns, fk_target, references.
  rewrite agree_one, Hr, Hrow. simpl. by rewrite N.eqb_refl.
Qed.

(** Look a table up through rewritten ones. *)
Ltac with_rows_lookup :=
  repeat (rewrite lookup_with_rows; first [rewrite decide_True by done | rewrite decide_False by done]).

Lemma admin_up env c : admin_tables c → run_ddl (admin_upgrade env) c = inl (cat8 env c).
Proof.
  intros [Ht Hr Hu Ha].
  assert (∀ d ds c c', run_ddl [d] c = inl c' → run_ddl (d :: ds) c = run_ddl ds c') as Hcons.
  { intros d ds c0 c'. simpl. unfold seq_ddl. destruct (d c0); [by intros [= ->]|done]. }
  unfold admin_upgrade.
  rewrite (Hcons _ _ _ (with_tenant env c)).
  2:{ by apply (insert_single _ _ _ _ _ Ht); [|split; vm_compute; reflexivity|]. }
  rewrite (Hcons _ _ _ (with_role env c)).
  2:{ apply (insert_single _ _ _ _ tenant_roles_table).
      - unfold with_tenant. with_rows_lookup. by rewrite Hr.
      - done.
      - split; vm_compute; reflexivity.
      - simpl. rewrite andb_true_r. apply (references_holds _ _ _ _ (DEFAULT_TENANT_ID env)
          (set_rows [tenant_stored env] tenants_table) (tenant_stored env)); [|reflexivity..].
        unfold with_tenant. with_rows_lookup. by rewrite Ht. }
  rewrite (Hcons _ _ _ (with_admin env c)).
  2:{ apply (insert_single _ _ _ _ users_table).
      - unfold with_role, with_tenant. with_rows_lookup. by rewrite Hu.
      - done.
      - split; vm_compute; reflexivity.
      - done. }
  apply (insert_single _ _ _ _ user_tenant_roles_table).
  - unfold with_admin, with_role, with_tenant. with_rows_lookup. by rewrite Ha.
  - done.
  - split; vm_compute; reflexivity.
  - simpl. rewrite !andb_true_iff. split_and!; [| | |done].
    + apply (references_holds _ _ _ _ (DEFAULT_ADMIN_ID env)
        (set_rows [admin_stored env] users_table) (admin_stored env)); [|reflexivity..].
      unfold with_admin, with_role, with_tenant.
      with_rows_lookup. by rewrite Hu.
    + apply (references_holds _ _ _ _ (DEFAULT_TENANT_ID env)
        (set_rows [tenant_stored env] tenants_table) (tenant_stored env)); [|reflexivity..].
      unfold with_admin, with_role, with_tenant.
      with_rows_lookup. by rewrite Ht.
    + apply (references_holds _ _ _ _ (DEFAULT_ADMIN_ROLE_ID env)
        (set_rows [role_stored env] tenant_roles_table) (role_stored env)); [|reflexivity..].
      unfold with_admin, with_role, with_tenant.
      with_rows_lookup. by rewrite Hr.
Qed.

(** *** Undoing the administrator *)

(** The conditions of the downgrade on the rows of the upgrade. *)
Lemma association_is env u t :
  column_is "user_id" u (association_stored env) && column_is "tenant_id" t (association_stored env) =
  N.eqb (DEFAULT_ADMIN_ID env) u && N.eqb (DEFAULT_TENANT_ID env) t.
Proof. reflexivity. Qed.
Lemma admin_is env u : column_is "id" u (admin_stored env) = N.eqb (DEFAULT_ADMIN_ID env) u.
Proof. reflexivity. Qed.
Lemma role_is env u : column_is "id" u (role_stored env) = N.eqb (DEFAULT_ADMIN_ROLE_ID env) u.
Proof. reflexivity. Qed.
Lemma tenant_is env u : column_is "id" u (tenant_stored env) = N.eqb (DEFAULT_TENANT_ID env) u.
Proof. reflexivity. Qed.

(** Deleting the one row of a table nothing points to restores the table. *)
Lemma delete_single n p row c tb :
  tables c !! n = Some tb → tb_rows tb = [] → unreferenced n (with_rows n [row] c) = true →
  delete_where n p (with_rows n [row] c) = inl (if p row then c else with_rows n [row] c).
Proof.
  intros Hn Hrows Hu. rewrite (delete_unreferenced _ _ _ (set_rows [row] tb)); [|by with_rows_lookup; rewrite Hn|done].
  rewrite with_rows_twice. simpl. f_equal. destruct (p row) eqn:Hp.
  - rewrite filter_cons_False by (by rewrite Hp). rewrite filter_nil, <-Hrows. by apply with_rows_id.
  - by rewrite filter_cons_True.
Qed.

(** Nothing with rows points to the administrator's rows, taken last first. *)
Record admin_leaves (env : Env) (c : Catalog) : Prop := {
  al_association : unreferenced (iam "user_tenant_roles") (cat8 env c) = true;
  al_admin : unreferenced (iam "users") (with_admin env c) = true;
  al_role : unreferenced (iam "tenant_roles") (with_role env c) = true;
  al_tenant : unreferenced (iam "tenants") (with_tenant env c) = true
}.

Lemma cat5_admin_leaves env V R : admin_leaves env (cat5 env V R).
Proof. split; vm_compute; reflexivity. Qed.

Lemma admin_down env c : admin_tables c → admin_leaves env c →
  run_ddl (admin_downgrade env) (cat8 env c) = inl c.
Proof.
  intros [Ht Hr Hu Ha] [La Lu Lr Lt]. unfold admin_downgrade, run_ddl, seq_ddl. unfold cat8 in *.
  rewrite (delete_single _ _ _ _ user_tenant_roles_table); [|..|done|exact La];
    [|by unfold with_admin, with_role, with_tenant; with_rows_lookup; rewrite Ha].
  rewrite association_is, !N.eqb_refl. cbn [andb]. unfold with_admin in *.
  rewrite (delete_single _ _ _ _ users_table); [|..|done|exact Lu];
    [|by unfold with_role, with_tenant; with_rows_lookup; rewrite Hu].
  rewrite admin_is, N.eqb_refl. unfold with_role in *.
  rewrite (delete_single _ _ _ _ tenant_roles_table); [|..|done|exact Lr];
    [|by unfold with_tenant; with_rows_lookup; rewrite Hr].
  rewrite role_is, N.eqb_refl. unfold with_tenant in *.
  rewrite (delete_single _ _ _ _ tenants_table Ht eq_refl Lt).
  by rewrite tenant_is, N.eqb_refl.
Qed.

(** By a process with other identifiers: nothing is deleted. *)
Lemma admin_down_other env env' c : admin_tables c →
  DEFAULT_TENANT_ID env ≠ DEFAULT_TENANT_ID env' → DEFAULT_ADMIN_ID env ≠ DEFAULT_ADMIN_ID env' →
  DEFAULT_ADMIN_ROLE_ID env ≠ DEFAULT_ADMIN_ROLE_ID env' →
  run_ddl (admin_downgrade env') (cat8 env c) = inl (cat8 env c).
Proof.
  intros [Ht Hr Hu Ha] Hnt%N.eqb_neq Hnu%N.eqb_neq Hnr%N.eqb_neq. unfold admin_downgrade, run_ddl, seq_ddl.
  assert (∀ n p row tb, tables (cat8 env c) !! n = Some (set_rows [row] tb) → p row = false →
    delete_where n p (cat8 env c) = inl (cat8 env c)) as Hkeep.
  { intros n p row tb Hn Hp. apply (delete_where_none _ _ _ _ Hn).
    by intros r ->%list_elem_of_singleton. }
  rewrite (Hkeep _ _ (association_stored env) user_tenant_roles_table); [..|by rewrite association_is, Hnu];
    [|unfold cat8, with_admin, with_role, with_tenant; with_rows_lookup; by rewrite Ha].
  rewrite (Hkeep _ _ (admin_stored env) users_table); [..|by rewrite admin_is, Hnu];
    [|unfold cat8, with_admin, with_role, with_tenant; with_rows_lookup; by rewrite Hu].
  rewrite (Hkeep _ _ (role_stored env) tenant_roles_table); [..|by rewrite role_is, Hnr];
    [|unfold cat8, with_admin, with_role, with_tenant; with_rows_lookup; by rewrite Hr].
  rewrite (Hkeep _ _ (tenant_stored env) tenants_table); [..|by rewrite tenant_is, Hnt]; [done|].
  unfold cat8, with_admin, with_role, with_tenant. with_rows_lookup. by rewrite Ht.
Qed.

(** A second default tenant, under another identifier, meets the slug. *)
Lemma admin_up_again env env' c : admin_tables c →
  DEFAULT_TENANT_ID env ≠ DEFAULT_TENANT_ID env' →
  run_ddl (admin_upgrade env') (cat8 env c) = inr (UniqueViolation "uq_tenant_slug").
Proof.
  intros [Ht Hr Hu Ha] Hne%not_eq_sym%N.eqb_neq. unfold admin_upgrade. apply run_ddl_error, run_ddl_error.
  apply (insert_row_clash _ _ _ _ (set_rows [tenant_stored env] tenants_table)
    ("uq_tenant_slug", ["slug"]) []).
  - unfold cat8, with_admin, with_role, with_tenant. with_rows_lookup. by rewrite Ht.
  - split; vm_compute; reflexivity.
  - change (complete _ _ _) with (tenant_stored env'). cbn [tb_keys tb_rows set_rows tenants_table].
    rewrite filter_cons_False, filter_cons_True; [done|reflexivity|].
    cbn [snd existsb]. rewrite agree_one. change (value_eqb _ _) with
      (N.eqb (DEFAULT_TENANT_ID env') (DEFAULT_TENANT_ID env)). by rewrite Hne.
Qed.

(** ** The states of an upgrade *)

(** The revision after [n] upgrades. *)
Definition version_at (n : nat) : option string :=
  match n with O => None | S m => revision <$> linear !! m end.

(** The catalogue after [n] upgrades by one process. *)
Definition state (env : Env) (n : nat) : Catalog :=
  let V := version_rows (version_at n) in
  let R := stored_permissions env in
  match n with
  | 0 => cat0 V
  | 1 => cat1 V
  | 2 => cat2 V
  | 3 => cat3 V R
  | 4 => cat4 V R
  | 5 | 6 | 7 => cat5 env V R
  | _ => cat8 env (cat5 env V R)
  end%nat.

Definition at_version (V : list Row) (c : Catalog) : Prop :=
  tables c !! version_table = Some (set_rows V version_shape).

Lemma with_rows_comm n m rs rs' c : n ≠ m →
  with_rows n rs (with_rows m rs' c) = with_rows m rs' (with_rows n rs c).
Proof.
  intros Hne. unfold with_rows, set_tables. simpl. f_equal. apply map_eq. intros k.
  destruct (decide (n = k)) as [<-|Hn]; [|destruct (decide (m = k)) as [<-|Hm]].
  - by rewrite lookup_alter, decide_True, !lookup_alter_ne, lookup_alter, decide_True by done.
  - by rewrite lookup_alter_ne, !lookup_alter, !(decide_True (P := m = m)), decide_False by done.
  - by rewrite !lookup_alter_ne.
Qed.

Lemma cat0_version V V' : with_rows version_table V' (cat0 V) = cat0 V'.
Proof. apply with_rows_twice. Qed.
Lemma cat1_version V V' : with_rows version_table V' (cat1 V) = cat1 V'.
Proof. vm_compute. reflexivity. Qed.
Lemma cat2_version V V' : with_rows version_table V' (cat2 V) = cat2 V'.
Proof. vm_compute. reflexivity. Qed.
Lemma cat3_version V V' R : with_rows version_table V' (cat3 V R) = cat3 V' R.
Proof. unfold cat3. rewrite with_rows_comm by done. by rewrite cat2_version. Qed.
Lemma cat4_version V V' R : with_rows version_table V' (cat4 V R) = cat4 V' R.
Proof. vm_compute. reflexivity. Qed.
Lemma cat5_version env V V' R : with_rows version_table V' (cat5 env V R) = cat5 env V' R.
Proof. vm_compute. reflexivity. Qed.
Lemma cat8_version env V V' R :
  with_rows version_table V' (cat8 env (cat5 env V R)) = cat8 env (cat5 env V' R).
Proof.
  unfold cat8, with_admin, with_role, with_tenant. rewrite !(with_rows_comm version_table) by done.
  by rewrite cat5_version.
Qed.

Lemma cat1_at V : at_version V (cat1 V).
Proof. vm_compute. reflexivity. Qed.
Lemma cat2_at V : at_version V (cat2 V).
Proof. vm_compute. reflexivity. Qed.
Lemma cat3_at V R : at_version V (cat3 V R).
Proof. unfold at_version, cat3. with_rows_lookup. apply cat2_at. Qed.
Lemma cat4_at V R : at_version V (cat4 V R).
Proof. vm_compute. reflexivity. Qed.
Lemma cat5_at env V R : at_version V (cat5 env V R).
Proof. vm_compute. reflexivity. Qed.
Lemma cat8_at env c V : at_version V c → at_version V (cat8 env c).
Proof.
  intros Hc. unfold at_version, cat8, with_admin, with_role, with_tenant. with_rows_lookup. exact Hc.
Qed.

(** ** The stray version table *)

Definition public_version : QName := ("public", "alembic_version").

(** The catalogue with the table the downgrade of [43ae6a20f723] makes. *)
Definition stray (c : Catalog) : Catalog :=
  set_tables (<[public_version := version_shape]> (tables c)) c.

Lemma stray_once c : "public" ∈ schemas c → tables c !! public_version = None →
  indexes c !! public_version = None → run_ddl tenant_roles_downgrade c = inl (stray c).
Proof.
  intros Hs Ht Hi. unfold tenant_roles_downgrade, run_ddl, seq_ddl, create_table.
  fold public_version. rewrite Ht, Hi. cbn [fst public_version]. by rewrite (bool_decide_true _ Hs).
Qed.

Lemma stray_twice c : "public" ∈ schemas c →
  run_ddl tenant_roles_downgrade (stray c) = inr DuplicateRelation.
Proof.
  intros Hs. apply run_ddl_error. unfold create_table. fold public_version.
  cbn [fst public_version stray set_tables schemas tables]. rewrite (bool_decide_true _ Hs), lookup_insert.
  by rewrite decide_True.
Qed.

Lemma stray_at c V : at_version V c → at_version V (stray c).
Proof. intros Hc. unfold at_version, stray. simpl. by rewrite lookup_insert_ne. Qed.

Lemma stray_version c V : with_rows version_table V (stray c) = stray (with_rows version_table V c).
Proof. unfold with_rows, stray, set_tables. simpl. f_equal. by rewrite alter_insert_ne. Qed.

Lemma cat5_public env V R : "public" ∈ schemas (cat5 env V R) ∧
  tables (cat5 env V R) !! public_version = None ∧ indexes (cat5 env V R) !! public_version = None.
Proof. split_and!; [|vm_compute; reflexivity..]. apply (bool_decide_unpack _). vm_compute. exact I. Qed.
