(* ===== verification/History.v ===== *)
(** * Migration histories

    What [alembic upgrade] and [alembic downgrade] do over the revisions of
    [Migrations.v]: the revision graph is one line, every history keeps the
    catalogue well formed, the way up succeeds, which steps can be undone and
    which can not, and what the models expect that the migrations do not make. *)

From stdpp Require Import base tactics list gmap strings.
From Stdlib Require Import ZArith Lia.
From S2P Require Import Prelude Catalog Migrations States.
From S2P Require Permissions.

(** ** Runs *)

Lemma run_ddl_app ds ds' c : run_ddl (ds ++ ds') c = seq_ddl (run_ddl ds) (run_ddl ds') c.
Proof.
  revert c. induction ds as [|d ds IH]; intros c; simpl; [done|]. unfold seq_ddl in *.
  destruct (d c); [apply IH|done].
Qed.

(** The way from the base to the head. *)
Lemma linear_eq :
  linear = [r_schema; r_tables; r_seed; r_api_keys; r_scope; r_association; r_tenant_roles; r_admin].
Proof. reflexivity. Qed.

Lemma linear_all : linear ≡ₚ revisions.
Proof. rewrite linear_eq. unfold revisions. solve_Permutation. Qed.

Lemma linear_links n rv : linear !! n = Some rv → down_revision rv = version_at n.
Proof.
  rewrite linear_eq. destruct n as [|[|[|[|[|[|[|[|n]]]]]]]]; intros [= <-]; reflexivity.
Qed.

Section runs.
Context `{AlembicLaws}.

Lemma run_steps_app sts sts' c :
  run_steps (sts ++ sts') c = seq_ddl (run_steps sts) (run_steps sts') c.
Proof. unfold run_steps. rewrite fmap_app. apply run_ddl_app. Qed.

Lemma run_steps_one env st c : run_steps [(env, st)] c = run_step env st c.
Proof. unfold run_steps. simpl. unfold seq_ddl. by destruct (run_step env st c). Qed.

Lemma run_steps_then sts env st c c' :
  run_steps sts c = inl c' → run_steps (sts ++ [(env, st)]) c = run_step env st c'.
Proof. intros Hc. rewrite run_steps_app. unfold seq_ddl. by rewrite Hc, run_steps_one. Qed.

Lemma step_up env rv c c' :
  run_ddl (upgrade rv env) c = inl c' → at_version (version_rows (down_revision rv)) c' →
  run_step env (Up rv) c = inl (with_rows version_table (version_rows (Some (revision rv))) c').
Proof. intros Hc Hv. simpl. unfold seq_ddl. rewrite Hc. by apply record_present. Qed.

Lemma step_down env rv c c' :
  run_ddl (downgrade rv env) c = inl c' → at_version (version_rows (Some (revision rv))) c' →
  run_step env (Down rv) c = inl (with_rows version_table (version_rows (down_revision rv)) c').
Proof. intros Hc Hv. simpl. unfold seq_ddl. rewrite Hc. by apply record_present. Qed.

Lemma ups_snoc env n rv : linear !! n = Some rv → ups env (S n) = ups env n ++ [(env, Up rv)].
Proof. intros Hn. unfold ups. by rewrite (take_S_r _ _ _ Hn), fmap_app. Qed.

Lemma state_step env n rv : distinct_ids env → linear !! n = Some rv →
  run_step env (Up rv) (state env n) = inl (state env (S n)).
Proof.
  intros Hids Hn. rewrite linear_eq in Hn. destruct n as [|[|[|[|[|[|[|[|n]]]]]]]]; try (injection Hn as <-); [..|discriminate Hn].
  - refine (eq_trans (step_up env r_schema _ _ (schema_up _) (cat1_at _)) (f_equal inl (cat1_version _ _))).
  - refine (eq_trans (step_up env r_tables _ _ (tables_up _) (cat2_at _)) (f_equal inl (cat2_version _ _))).
  - refine (eq_trans (step_up env r_seed _ _ (seed_up _ _ Hids) (cat3_at _ _)) (f_equal inl (cat3_version _ _ _))).
  - refine (eq_trans (step_up env r_api_keys _ _ (api_keys_up _ _) (cat4_at _ _)) (f_equal inl (cat4_version _ _ _))).
  - refine (eq_trans (step_up env r_scope _ _ (scope_up _ _ _) (cat5_at _ _ _)) (f_equal inl (cat5_version _ _ _ _))).
  - refine (eq_trans (step_up env r_association _ _ eq_refl (cat5_at _ _ _)) (f_equal inl (cat5_version _ _ _ _))).
  - refine (eq_trans (step_up env r_tenant_roles _ _ eq_refl (cat5_at _ _ _)) (f_equal inl (cat5_version _ _ _ _))).
  - refine (eq_trans (step_up env r_admin _ _ (admin_up env _ (cat5_admin_tables _ _ _))
      (cat8_at _ _ _ (cat5_at _ _ _))) (f_equal inl (cat8_version _ _ _ _))).
Qed.

Lemma ups_run env n : distinct_ids env → (n ≤ 8)%nat → run_steps (ups env n) fresh = inl (state env n).
Proof.
  intros Hids. induction n as [|n IH]; intros Hn; [done|].
  destruct (lookup_lt_is_Some_2 linear n) as [rv Hrv]; [change (length linear) with 8%nat; lia|].
  rewrite (ups_snoc _ _ _ Hrv), (run_steps_then _ _ _ _ (state env n)) by (apply IH; lia).
  by apply state_step.
Qed.

Lemma step_up_fail env rv c e : run_ddl (upgrade rv env) c = inr e → run_step env (Up rv) c = inr e.
Proof. intros Hc. simpl. unfold seq_ddl. by rewrite Hc. Qed.

Lemma step_down_fail env rv c e : run_ddl (downgrade rv env) c = inr e → run_step env (Down rv) c = inr e.
Proof. intros Hc. simpl. unfold seq_ddl. by rewrite Hc. Qed.

Lemma step_down_lost env rv c c' :
  run_ddl (downgrade rv env) c = inl c' → tables c' !! version_table = None →
  ∃ e, run_step env (Down rv) c = inr e.
Proof. intros Hc Hv. simpl. unfold seq_ddl. rewrite Hc. by apply record_missing. Qed.

(** *** Undoing a step *)

Lemma step_back env env' n rv c :
  linear !! n = Some rv → run_ddl (downgrade rv env') (state env (S n)) = inl c →
  at_version (version_rows (version_at (S n))) c →
  with_rows version_table (version_rows (version_at n)) c = state env n →
  run_step env' (Down rv) (state env (S n)) = inl (state env n).
Proof.
  intros Hrv Hc Hv Hn. simpl in Hv. rewrite Hrv in Hv.
  rewrite (step_down _ _ _ _ Hc Hv), (linear_links _ _ Hrv). by f_equal.
Qed.
End runs.

(** ** The revision graph *)

Lemma lineage_more fuel fuel' r l :
  lineage fuel r = Some l → (fuel ≤ fuel')%nat → lineage fuel' r = Some l.
Proof.
  revert fuel' r l. induction fuel as [|fuel IH]; intros fuel' [r|] l Hl Hle; [done| |..].
  - by destruct fuel'.
  - destruct fuel' as [|fuel']; [lia|]. simpl in *. destruct (find_revision r) as [rv|]; [|done].
    apply fmap_Some in Hl as (l' & Hl' & ->). rewrite (IH fuel' _ l' Hl'); [done|lia].
  - by destruct fuel'.
Qed.

(** The revisions form one line: a single head; from every revision the walk
    along [down_revision] reaches the base within eight steps and meets no
    revision twice; and on the way from the base to the head, which passes all
    of them, each names the one before it. *)
Theorem history_linear :
  heads = [r_admin] ∧
  (∀ rv, rv ∈ revisions → ∃ l, NoDup (revision <$> l) ∧ (∀ rv', rv' ∈ l → rv' ∈ revisions) ∧
     ∀ fuel, (8 ≤ fuel)%nat → lineage fuel (Some (revision rv)) = Some l) ∧
  linear ≡ₚ revisions ∧
  ∀ n rv, linear !! n = Some rv → down_revision rv = version_at n.
Proof.
  split_and!.
  - reflexivity.
  - intros rv Hrv.
    assert (∃ l, lineage 8 (Some (revision rv)) = Some l ∧ bool_decide (NoDup (revision <$> l)) = true ∧
      ∃ k, l = drop k (reverse linear)) as (l & Hl & Hnd & k & Hk).
    { rewrite linear_eq. unfold revisions in Hrv. repeat (apply elem_of_cons in Hrv as [->|Hrv]);
        [eexists; split; [reflexivity|split; [reflexivity|]]..|by apply elem_of_nil in Hrv].
      - by exists 4%nat. - by exists 7%nat. - by exists 6%nat. - by exists 5%nat. - by exists 1%nat.
      - by exists 0%nat. - by exists 2%nat. - by exists 3%nat. }
    exists l. split_and!; [by apply bool_decide_eq_true in Hnd| |].
    + intros rv' Hrv'. rewrite Hk in Hrv'.
      assert (rv' ∈ take k (reverse linear) ++ drop k (reverse linear)) as Hin
        by (apply elem_of_app; by right).
      rewrite take_drop, elem_of_reverse in Hin. by rewrite <-linear_all.
    + intros fuel. by apply lineage_more.
  - apply linear_all.
  - exact linear_links.
Qed.

(** ** Every history keeps the types *)

Lemma upgrade_sound env rv : rv ∈ revisions → Forall sound_ddl (upgrade rv env).
Proof.
  revert rv. apply Forall_forall. repeat apply Forall_cons_2; try apply Forall_nil_2; auto with ddl.
Qed.

Lemma seed_downgrade_sound env : Forall sound_ddl (seed_permissions_downgrade env).
Proof.
  apply Forall_singleton. case_match; [auto with ddl|]. by intros c c' _ Hc.
Qed.

Lemma downgrade_sound env rv : rv ∈ revisions → Forall sound_ddl (downgrade rv env).
Proof.
  revert rv. apply Forall_forall.
  repeat first [apply seed_downgrade_sound | apply Forall_cons_2]; try apply Forall_nil_2; auto with ddl.
Qed.

Lemma seq_sound d d' : sound_ddl d → sound_ddl d' → sound_ddl (seq_ddl d d').
Proof.
  intros Hd Hd' c c' Hc. unfold seq_ddl. destruct (d c) as [c1|] eqn:Hd1; [|done].
  apply Hd'. by eapply Hd.
Qed.

Lemma fresh_ok : cat_ok fresh.
Proof.
  split; [|done]. intros n tb Hn. unfold fresh in Hn. cbn [tables] in Hn.
  apply lookup_singleton_Some in Hn as [<- <-].
  split; simpl; try set_solver.
  - apply NoDup_singleton.
  - by intros col ->%list_elem_of_singleton.
Qed.

(** Whatever upgrades and downgrades of the eight revisions are run, in any
    order and by processes that draw different identifiers, an accepted history
    keeps the catalogue well formed: tables in existing schemas, columns of
    known types and defaults, keys, foreign keys and indexes on existing columns,
    and every row with exactly the columns of its table and no [NULL] where
    there must be none. *)
Theorem migrations_keep_types `{AlembicLaws} sts c c' :
  Forall (λ st, step_revision st.2 ∈ revisions) sts → cat_ok c →
  run_steps sts c = inl c' → cat_ok c'.
Proof.
  intros Hsts. apply run_ddl_sound. apply Forall_fmap. eapply Forall_impl; [exact Hsts|].
  intros [env [rv|rv]] Hrv; (apply seq_sound; [|apply record_sound]); apply run_ddl_sound.
  - by apply upgrade_sound.
  - by apply downgrade_sound.
Qed.

(** ** The way up *)

(** C24. From a database with the empty schema [iam], a process whose permission
    identifiers differ upgrades to the head: the 23 permissions, the default
    tenant, its [Admin] role and the superuser are stored, the user holds the
    role in the tenant, the role has no permissions, and the version table names
    the head. *)
Theorem upgrade_head_spec `{AlembicLaws} env : distinct_ids env →
  ∃ c, upgrade_head env fresh = inl c ∧
    tables c !! iam "permissions" = Some (set_rows (stored_permissions env) permissions_table) ∧
    length (stored_permissions env) = 23%nat ∧
    tables c !! iam "tenants" = Some (set_rows [tenant_stored env] tenants_table) ∧
    tables c !! iam "tenant_roles" = Some (set_rows [role_stored env] tenant_roles_table) ∧
    tables c !! iam "users" = Some (set_rows [admin_stored env] users_table) ∧
    tables c !! iam "user_tenant_roles" = Some (set_rows [association_stored env] user_tenant_roles_table) ∧
    tables c !! iam "tenant_role_permissions" = Some tenant_role_permissions_table ∧
    tables c !! version_table = Some (set_rows (version_rows (Some "b8f3acf95fa5")) version_shape).
Proof.
  intros Hids. exists (state env 8). split; [by apply ups_run|].
  split_and!; vm_compute; reflexivity.
Qed.

(** C37. At the head the models and the database disagree: the tables
    [invitations], [role_permissions] and [roles] do not exist; the association
    of users and the one of tenants have no [role_id]; permissions need a
    [module], an association an identifier, an update time and a
    [tenant_role_id], and a tenant's role nearly everything, that the models
    never write; and the names of permissions and tenants and the prefixes of API
    keys are unique for the models only. *)
Theorem schema_drift `{AlembicLaws} env : distinct_ids env →
  ∃ c, upgrade_head env fresh = inl c ∧
    missing_tables c = ["invitations"; "role_permissions"; "roles"] ∧
    missing_columns c = [("tenant_roles", "role_id"); ("user_tenant_roles", "role_id")] ∧
    unwritten_columns c = [("permissions", "module"); ("tenant_roles", "id");
      ("tenant_roles", "created_at"); ("tenant_roles", "updated_at"); ("tenant_roles", "name");
      ("tenant_roles", "is_system_role"); ("user_tenant_roles", "id");
      ("user_tenant_roles", "updated_at"); ("user_tenant_roles", "tenant_role_id")] ∧
    missing_unique c = [("api_keys", ["key_prefix"]); ("permissions", ["name"]);
      ("tenant_roles", ["tenant_id"; "role_id"]); ("tenants", ["name"]);
      ("user_tenant_roles", ["user_id"; "role_id"; "tenant_id"])].
Proof.
  intros Hids. exists (state env 8). split; [by apply ups_run|].
  split_and!; vm_compute; reflexivity.
Qed.

(** ** The way back *)

(** C13. Every step of the way up but the first and the seventh is undone by its
    downgrade: the history with the downgrade added ends in the catalogue it had
    before the step.  The permissions go only over a driver that expands the
    tuple of their codes, and the administrator only when the process that
    removes it is the one that made it. *)
Theorem migration_roundtrips `{AlembicLaws} env env' n rv :
  distinct_ids env → linear !! n = Some rv → n ≠ 0%nat → n ≠ 6%nat →
  (n = 2%nat → expands_tuples env' = true) → (n = 7%nat → env' = env) →
  run_steps (ups env (S n) ++ [(env', Down rv)]) fresh = run_steps (ups env n) fresh.
Proof.
  intros Hids Hrv Hn0 Hn6 Hseed Hadmin. pose proof (lookup_lt_Some _ _ _ Hrv) as Hlt.
  change (length linear) with 8%nat in Hlt.
  rewrite (run_steps_then _ _ _ _ (state env (S n))), ups_run by (try apply ups_run; lia || done).
  pose proof Hrv as Hrv'. rewrite linear_eq in Hrv'.
  destruct n as [|[|[|[|[|[|[|[|n]]]]]]]]; try done; try lia; injection Hrv' as <-.
  - exact (step_back _ env' 1 _ _ Hrv (tables_down _) (cat1_at _) (cat1_version _ _)).
  - exact (step_back _ env' 2 _ _ Hrv (seed_down_of _ _ _ (Hseed eq_refl)) (cat2_at _) (cat2_version _ _)).
  - exact (step_back _ env' 3 _ _ Hrv (api_keys_down _ _) (cat3_at _ _) (cat3_version _ _ _)).
  - exact (step_back _ env' 4 _ _ Hrv (scope_down _ _ _) (cat4_at _ _) (cat4_version _ _ _)).
  - exact (step_back _ env' 5 _ _ Hrv eq_refl (cat5_at _ _ _) (cat5_version _ _ _ _)).
  - rewrite (Hadmin eq_refl). exact (step_back _ env 7 _ _ Hrv
      (admin_down _ _ (cat5_admin_tables _ _ _) (cat5_admin_leaves _ _ _)) (cat5_at _ _ _) (cat5_version _ _ _ _)).
Qed.

(** Down, up and down again at [43ae6a20f723]. *)
Lemma stray_history `{AlembicLaws} env env' : distinct_ids env →
  run_steps (((ups env 7 ++ [(env', Down r_tenant_roles)]) ++ [(env', Up r_tenant_roles)]) ++
    [(env', Down r_tenant_roles)]) fresh = inr DuplicateRelation.
Proof.
  intros Hids. set (R := stored_permissions env).
  destruct (cat5_public env (version_rows (version_at 7)) R) as (Hp & Hpt & Hpi).
  assert (run_steps (ups env 7 ++ [(env', Down r_tenant_roles)]) fresh =
    inl (stray (cat5 env (version_rows (version_at 6)) R))) as H1.
  { rewrite (run_steps_then _ _ _ _ _ (ups_run env 7 Hids ltac:(lia))).
    etransitivity; [exact (step_down env' r_tenant_roles _ _ (stray_once _ Hp Hpt Hpi)
      (stray_at _ _ (cat5_at _ _ _)))|].
    rewrite stray_version. exact (f_equal inl (f_equal stray (cat5_version _ _ _ _))). }
  assert (run_steps ((ups env 7 ++ [(env', Down r_tenant_roles)]) ++ [(env', Up r_tenant_roles)]) fresh =
    inl (stray (cat5 env (version_rows (version_at 7)) R))) as H2.
  { rewrite (run_steps_then _ _ _ _ _ H1).
    etransitivity; [exact (step_up env' r_tenant_roles _ _ eq_refl (stray_at _ _ (cat5_at env _ _)))|].
    rewrite stray_version. exact (f_equal inl (f_equal stray (cat5_version _ _ _ _))). }
  rewrite (run_steps_then _ _ _ _ _ H2). apply step_down_fail. exact (stray_twice _ Hp).
Qed.

(** C38. Three steps can not be taken back.  Down to the base: the version table
    lies in the schema that is dropped, so Alembic finds it missing.
    [43ae6a20f723]: its downgrade makes a second version table in [public], and
    the next one fails on it.  [b8f3acf95fa5]: a process started later has drawn
    other identifiers, deletes nothing, and the upgrade after it meets the slug
    of the tenant that is still there. *)
Theorem irreversible_migrations `{AlembicLaws} env env' env'' : distinct_ids env →
  DEFAULT_TENANT_ID env ≠ DEFAULT_TENANT_ID env' → DEFAULT_ADMIN_ID env ≠ DEFAULT_ADMIN_ID env' →
  DEFAULT_ADMIN_ROLE_ID env ≠ DEFAULT_ADMIN_ROLE_ID env' → DEFAULT_TENANT_ID env ≠ DEFAULT_TENANT_ID env'' →
  (∃ e, run_steps (ups env 1 ++ [(env', Down r_schema)]) fresh = inr e) ∧
  run_steps (((ups env 7 ++ [(env', Down r_tenant_roles)]) ++ [(env', Up r_tenant_roles)]) ++
    [(env', Down r_tenant_roles)]) fresh = inr DuplicateRelation ∧
  run_steps (ups env 8 ++ [(env', Down r_admin)]) fresh =
    inl (with_rows version_table (version_rows (Some "43ae6a20f723")) (state env 8)) ∧
  run_steps ((ups env 8 ++ [(env', Down r_admin)]) ++ [(env'', Up r_admin)]) fresh =
    inr (UniqueViolation "uq_tenant_slug").
Proof.
  intros Hids Ht Ha Hr Ht'.
  assert (run_steps (ups env 8 ++ [(env', Down r_admin)]) fresh =
    inl (with_rows version_table (version_rows (Some "43ae6a20f723")) (state env 8))) as Hadmin.
  { rewrite (run_steps_then _ _ _ _ _ (ups_run env 8 Hids ltac:(lia))).
    exact (step_down _ r_admin _ _ (admin_down_other _ _ _ (cat5_admin_tables _ _ _) Ht Ha Hr)
      (cat8_at _ _ _ (cat5_at _ _ _))). }
  split_and!; [| |done|].
  - rewrite (run_steps_then _ _ _ _ _ (ups_run env 1 Hids ltac:(lia))).
    destruct (schema_down (version_rows (version_at 1))) as (c & Hc & Hv).
    exact (step_down_lost env' r_schema _ _ Hc Hv).
  - by apply stray_history.
  - rewrite (run_steps_then _ _ _ _ _ Hadmin). apply step_up_fail.
    change (state env 8) with (cat8 env (cat5 env (version_rows (version_at 8)) (stored_permissions env))).
    rewrite cat8_version. exact (admin_up_again _ _ _ (cat5_admin_tables _ _ _) Ht').
Qed.

(** ** A version table kept by hand *)

(** One [UPDATE] of the whole table. *)
#[export] Instance plain_alembic : Alembic := {|
  record_version from to c := match tables c !! version_table with
    | None => inr UndefinedRelation
    | Some tb => if bool_decide (names tb = ["version_num"])
                 then inl (with_rows version_table (version_rows to) c) else inr UndefinedColumn
    end
|}.

#[export] Instance plain_alembic_laws : AlembicLaws.
Proof.
  split.
  - intros from to c Hc. simpl. by rewrite Hc.
  - intros from to c Hc. simpl. rewrite Hc. by eexists.
  - intros from to c c' Hok. simpl. destruct (tables c !! version_table) as [tb|] eqn:Hc; [|done].
    case_bool_decide as Hn; [|done]. intros [= <-]. rewrite (with_rows_eq _ _ _ _ Hc).
    apply set_rows_ok; [done..|]. intros r Hr. destruct to as [v|]; [|by apply elem_of_nil in Hr].
    apply list_elem_of_singleton in Hr as ->. split.
    + intros a. rewrite Hn, list_elem_of_singleton, lookup_singleton_is_Some. done.
    + intros col Hcol _. assert (c_name col ∈ names tb) as Hin by (apply list_elem_of_fmap; eauto).
      rewrite Hn, list_elem_of_singleton in Hin. by rewrite Hin.
Qed.

(** What the [k]th process draws. *)
Definition sample_env (k : nat) : Env :=
  mkEnv (λ i, N.of_nat (100 * k + i)) (N.of_nat (100 * k + 90)) (N.of_nat (100 * k + 91))
    (N.of_nat (100 * k + 92)) (N.of_nat (100 * k + 93)) 0 "hash" true (λ _, VTime 0).

Lemma sample_distinct k : distinct_ids (sample_env k).
Proof. intros i j _ _. simpl. lia. Qed.

Lemma keep_types_witness :
  run_steps (ups (sample_env 1) 8) fresh = inl (state (sample_env 1) 8) ∧ cat_ok (state (sample_env 1) 8).
Proof.
  assert (run_steps (ups (sample_env 1) 8) fresh = inl (state (sample_env 1) 8)) as Hrun
    by (apply ups_run; [apply sample_distinct|lia]).
  split; [exact Hrun|]. apply (migrations_keep_types (ups (sample_env 1) 8) fresh).
  - apply Forall_fmap, Forall_forall. intros rv Hrv.
    change (take 8 linear) with linear in Hrv. cbn [compose step_revision snd]. by rewrite <-linear_all.
  - apply fresh_ok.
  - exact Hrun.
Defined.

Lemma upgrade_head_witness : distinct_ids (sample_env 1) ∧
  ∃ c, upgrade_head (sample_env 1) fresh = inl c.
Proof.
  split; [apply sample_distinct|].
  destruct (upgrade_head_spec (sample_env 1) (sample_distinct 1)) as (c & Hc & _). exact (ex_intro _ c Hc).
Defined.

Lemma schema_drift_witness : ∃ c, upgrade_head (sample_env 1) fresh = inl c ∧
  missing_tables c = ["invitations"; "role_permissions"; "roles"].
Proof.
  destruct (schema_drift (sample_env 1) (sample_distinct 1)) as (c & Hc & Hm & _). exact (ex_intro _ c (conj Hc Hm)).
Defined.

Lemma migration_roundtrips_witness :
  run_steps (ups (sample_env 1) 3 ++ [(sample_env 2, Down r_seed)]) fresh =
    run_steps (ups (sample_env 1) 2) fresh.
Proof.
  apply (migration_roundtrips (sample_env 1) (sample_env 2) 2 r_seed);
    [apply sample_distinct|reflexivity|lia|lia|reflexivity|lia].
Defined.

Lemma irreversible_witness :
  run_steps ((ups (sample_env 1) 8 ++ [(sample_env 2, Down r_admin)]) ++ [(sample_env 3, Up r_admin)]) fresh =
    inr (UniqueViolation "uq_tenant_slug").
Proof.
  apply (irreversible_migrations (sample_env 1) (sample_env 2) (sample_env 3));
    [apply sample_distinct|discriminate..].
Defined.
