(* ===== verification/AlembicEnv.v ===== *)
(** * [alembic/env.py]: how the migrations are run

    The object filter, the choice of the database, and the online and offline
    runs over an engine's connection and Alembic's migration context, which are
    interfaces: [Engine] is SQLAlchemy's connection (a transaction begins with
    the first statement, [commit] stores what it did, closing rolls back what was
    not committed) and [Context] is Alembic's, which leaves a transaction it
    finds to whoever began it. *)

From stdpp Require Import base tactics list gmap strings.
From Stdlib Require Import ZArith Lia.
From S2P Require Import Prelude Catalog Migrations States History.

(** ** The filter *)

(** [schema]: [None] when the object has no such attribute, [Some None] when
    the attribute is [None]. *)
Definition include_object (schema : option (option string)) (name type_ : string) : bool :=
  if String.eqb type_ "schema" && negb (String.eqb name "iam") then false
  else if String.eqb type_ "table" && match schema with Some s => bool_decide (s ≠ Some "iam") | None => false end
  then false
  else true.

(** A table is let through exactly when its schema is [iam]: not when it names
    none. *)
Lemma include_table_spec s name : include_object (Some s) name "table" = true ↔ s = Some "iam".
Proof.
  unfold include_object. cbn [String.eqb Ascii.eqb Bool.eqb andb]. case_bool_decide; naive_solver.
Qed.

(** ** The database *)

(** [engine_config]: the test database alone when the variable is set and not
    empty, else the section of [alembic.ini]. *)
Definition engine_config (test_db_url : option string) (section : gmap string string) : gmap string string :=
  match test_db_url with
  | Some u => if String.eqb u "" then section
              else delete "sqlalchemy.pool_size" (delete "sqlalchemy.poolclass" {["sqlalchemy.url" := u]})
  | None => section
  end.

Class Engine (Connection : Type) := {
  connect : gmap string string → Connection;
  execute : Ddl → Connection → Connection + DbError;
  commit : Connection → Connection;
  close : Connection → Connection;
  in_transaction : Connection → bool;
  sees : Connection → Catalog;          (** what the next statement works on *)
  committed : Connection → Catalog      (** what other connections see *)
}.

Class EngineLaws (Connection : Type) `{Engine Connection} : Prop := {
  connect_fresh cfg : sees (connect cfg) = committed (connect cfg) ∧ in_transaction (connect cfg) = false;
  execute_ok d k c : d (sees k) = inl c →
    ∃ k', execute d k = inl k' ∧ sees k' = c ∧ committed k' = committed k ∧ in_transaction k' = true;
  execute_error d k e : d (sees k) = inr e → execute d k = inr e;
  commit_stores k : sees (commit k) = sees k ∧ committed (commit k) = sees k ∧ in_transaction (commit k) = false;
  close_rolls_back k : sees (close k) = committed k ∧ committed (close k) = committed k
}.

Section engine.
Context {Connection : Type} `{Engine Connection}.

Fixpoint execute_all (ds : list Ddl) (k : Connection) : Connection + DbError :=
  match ds with
  | [] => inl k
  | d :: ds' => match execute d k with inl k' => execute_all ds' k' | inr e => inr e end
  end.

Context `{!EngineLaws Connection}.

(** Statements outside a block that commits: the connection sees them, nobody
    else does. *)
Lemma execute_all_ok ds k c : run_ddl ds (sees k) = inl c →
  ∃ k', execute_all ds k = inl k' ∧ sees k' = c ∧ committed k' = committed k.
Proof.
  revert k. induction ds as [|d ds IH]; intros k; simpl; [intros [= <-]; eauto|].
  unfold seq_ddl. destruct (d (sees k)) as [c1|] eqn:Hd; [|done]. intros Hc.
  apply execute_ok in Hd as (k1 & -> & <- & Hk1 & _).
  destruct (IH k1 Hc) as (k' & ? & ? & Hk'). exists k'. by rewrite Hk', Hk1.
Qed.

Lemma execute_all_error ds k e : run_ddl ds (sees k) = inr e → execute_all ds k = inr e.
Proof.
  revert k. induction ds as [|d ds IH]; intros k; simpl; [done|].
  unfold seq_ddl. destruct (d (sees k)) as [c1|e1] eqn:Hd.
  - intros Hc. apply execute_ok in Hd as (k1 & -> & <- & _). by apply IH.
  - intros [= ->]. by rewrite (execute_error _ _ _ Hd).
Qed.
End engine.

(** The statement that makes the version table when there is none. *)
Definition ensure_version : Ddl := λ c,
  match tables c !! version_table with
  | Some _ => inl c
  | None => create_table version_table version_shape c
  end.

(** Alembic's context over a connection: [run_migrations] is given the steps its
    command asked for, [begin_transaction] is the block around it, [render] the
    offline mode, which writes the statements out.  A run from the base starts
    with the version table. *)
Class Context (Connection : Type) `{Alembic} := {
  run_migrations : list (Env * Step) → Connection → Connection + DbError;
  begin_transaction : (Connection → Connection + DbError) → Connection → Connection + DbError;
  render : list (Env * Step) → list Ddl
}.

Definition statements `{Alembic} (sts : list (Env * Step)) : list Ddl := (λ '(env, st), run_step env st) <$> sts.

(** On a connection that is in a transaction already neither begins nor ends
    one; a block that begins one commits it. *)
Class ContextLaws (Connection : Type) `{Context Connection, Engine Connection} : Prop := {
  run_in_transaction sts k : in_transaction k = true →
    run_migrations sts k = execute_all (ensure_version :: statements sts) k;
  block_in_transaction m k : in_transaction k = true → begin_transaction m k = m k;
  block_begins m k : in_transaction k = false →
    begin_transaction m k = match m k with inl k' => inl (commit k') | inr e => inr e end;
  render_from_base sts : render sts = create_table version_table version_shape :: statements sts
}.

(** ** The runs *)

(** What leaves [env.py]. *)
Inductive EnvError :=
  | Database (e : DbError)
  | RuntimeError.     (** [asyncio.run()] inside a running event loop *)

Section runs.
Context {Connection : Type} `{ContextLaws Connection} `{!EngineLaws Connection}.

Definition do_run_migrations (sts : list (Env * Step)) (k : Connection) : Connection + DbError :=
  run_migrations sts k.

(** The database the configuration names, as other connections see it. *)
Definition database (test_db_url : option string) (section : gmap string string) : Catalog :=
  committed (connect (engine_config test_db_url section)).

(** The body of [async with connectable.connect() as connection]: the connection
    as it leaves it, and the outcome. *)
Definition with_connection (sts : list (Env * Step)) (k : Connection) : Connection * (() + EnvError) :=
  match execute (create_schema "iam") k with
  | inr e => (k, inr (Database e))
  | inl k1 =>
      match do_run_migrations sts k1 with
      | inr e => (k1, inr (Database e))
      | inl k2 => (k2, inl ())
      end
  end.

(** The connection is closed whatever the body does.  The result is the database
    afterwards, and the outcome. *)
Definition run_migrations_online (test_db_url : option string) (section : gmap string string)
    (sts : list (Env * Step)) : Catalog * (() + EnvError) :=
  let '(k, r) := with_connection sts (connect (engine_config test_db_url section)) in
  (committed (close k), r).

(** The script [--sql] prints, as one transaction. *)
Definition run_migrations_offline (sts : list (Env * Step)) : Ddl := run_ddl (render sts).

(** [asyncio.run], of the standard library: refused inside a running loop. *)
Definition asyncio_run (loop_running : bool) (db : Catalog) (m : Catalog * (() + EnvError)) :
    Catalog * (() + EnvError) :=
  if loop_running then (db, inr RuntimeError) else m.

(** The end of the module: [get_running_loop] raises without a loop, and the
    handler takes that for the same [RuntimeError] as [asyncio.run]'s. *)
Definition main_online (loop_running : bool) test_db_url section sts : Catalog * (() + EnvError) :=
  let run := asyncio_run loop_running (database test_db_url section) in
  let m := run_migrations_online test_db_url section sts in
  if loop_running then match run m with (_, inr RuntimeError) => run m | r => r end else run m.

(** The body of the block on a new connection: what it leaves uncommitted. *)
Lemma with_connection_spec cfg sts :
  let '(k, r) := with_connection sts (connect cfg) in
  committed k = committed (connect cfg) ∧
  (r = inl () ↔ ∃ c, run_ddl (create_schema "iam" :: ensure_version :: statements sts)
                      (committed (connect cfg)) = inl c) ∧
  (r = inl () → run_ddl (create_schema "iam" :: ensure_version :: statements sts)
                  (committed (connect cfg)) = inl (sees k)).
Proof.
  unfold with_connection, do_run_migrations. destruct (connect_fresh cfg) as [Hfresh _].
  rewrite <-Hfresh. set (k := connect cfg) in *. set (ds := ensure_version :: statements sts).
  destruct (execute_ok (create_schema "iam") k _ eq_refl) as (k1 & -> & Hs & Hc & Ht).
  assert (run_ddl (create_schema "iam" :: ds) (sees k) = run_ddl ds (sees k1)) as -> by (by rewrite Hs).
  rewrite run_in_transaction by done. fold ds. destruct (run_ddl ds (sees k1)) as [c|e] eqn:Hrun.
  - pose proof (execute_all_ok _ _ _ Hrun) as (k2 & -> & -> & Hc2). rewrite Hc2, Hc.
    split; [by rewrite Hfresh|]. split; [|done]. split; [by eexists|done].
  - rewrite (execute_all_error _ _ _ Hrun). rewrite Hc. split; [by rewrite Hfresh|]. split; [|done].
    split; [done|]. by intros [c ?].
Qed.

(** C39. The online run of any steps, from any state of the database its
    configuration names, leaves the database as it was: the statement that makes
    the schema has begun a transaction, so Alembic's run neither begins nor ends
    one, the block does not commit, and closing the connection rolls it back.  It
    reports success exactly when the steps succeed after the schema and the
    version table; a commit at the end of the block would then have stored what
    they do.  Inside a running event loop the run never starts. *)
Theorem online_commits_nothing loop_running test_db_url section sts :
  let r := main_online loop_running test_db_url section sts in
  let db := database test_db_url section in
  r.1 = db ∧
  (r.2 = inl () ↔ loop_running = false ∧
     ∃ c, run_ddl (create_schema "iam" :: ensure_version :: statements sts) db = inl c) ∧
  (r.2 = inl () → ∃ k c, with_connection sts (connect (engine_config test_db_url section)) = (k, inl ()) ∧
     run_ddl (create_schema "iam" :: ensure_version :: statements sts) db = inl c ∧
     committed (close (commit k)) = c).
Proof.
  destruct loop_running; [split; [done|]; split; simpl; [naive_solver|done]|].
  unfold main_online, asyncio_run, run_migrations_online, database. cbv zeta.
  set (cfg := engine_config test_db_url section).
  pose proof (with_connection_spec cfg sts) as HP.
  destruct (with_connection sts (connect cfg)) as [k r]. destruct HP as (Hk & Hr & Hc). cbn [fst snd].
  destruct (close_rolls_back k) as [_ ->]. split; [exact Hk|]. split; [rewrite Hr; naive_solver|].
  intros ->. exists k, (sees k). split; [done|]. split; [by apply Hc|].
  destruct (close_rolls_back (commit k)) as [_ ->]. apply commit_stores.
Qed.

(** The script of the offline run fails on a database without the schema: its
    first statement makes the version table in a schema that only a later one
    creates. *)
Theorem offline_needs_schema sts c :
  "iam" ∉ schemas c → run_migrations_offline sts c = inr UndefinedSchema.
Proof.
  intros Hs. unfold run_migrations_offline. rewrite render_from_base. apply run_ddl_error.
  unfold create_table. by rewrite (bool_decide_false (version_table.1 ∈ schemas c) Hs).
Qed.
End runs.

(** ** A connection as the committed catalogue and the one of its transaction *)

#[local] Instance plain_engine : Engine (Catalog * option Catalog) := {|
  connect _ := (fresh, None);
  execute d k := match d (default k.1 k.2) with inl c => inl (k.1, Some c) | inr e => inr e end;
  commit k := (default k.1 k.2, None);
  close k := (k.1, None);
  in_transaction k := bool_decide (is_Some k.2);
  sees k := default k.1 k.2;
  committed := fst
|}.

#[local] Instance plain_engine_laws : EngineLaws (Catalog * option Catalog).
Proof.
  split; [done|..]; simpl.
  - intros d [k1 k2] c. simpl. intros ->. by eexists.
  - intros d [k1 k2] e Hd. simpl in *. by rewrite Hd.
  - done.
  - done.
Qed.

#[local] Instance plain_context : Context (Catalog * option Catalog) := {|
  run_migrations sts := execute_all (ensure_version :: statements sts);
  begin_transaction m k :=
    if in_transaction k then m k else match m k with inl k' => inl (commit k') | inr e => inr e end;
  render sts := create_table version_table version_shape :: statements sts
|}.

#[local] Instance plain_context_laws : ContextLaws (Catalog * option Catalog).
Proof. split; [done| | |done]; intros m k Hk; unfold begin_transaction, plain_context; by rewrite Hk. Qed.

Lemma fresh_prefix : run_ddl [create_schema "iam"; ensure_version] fresh = inl fresh.
Proof. vm_compute. reflexivity. Qed.

Lemma run_after_prefix sts c : run_steps sts fresh = inl c →
  run_ddl (create_schema "iam" :: ensure_version :: statements sts) fresh = inl c.
Proof.
  intros Hc. change (create_schema "iam" :: ensure_version :: statements sts) with
    ([create_schema "iam"; ensure_version] ++ statements sts).
  rewrite run_ddl_app. unfold seq_ddl at 1. rewrite fresh_prefix. exact Hc.
Qed.

Lemma upgrade_after_prefix : run_ddl (create_schema "iam" :: ensure_version :: statements (ups (sample_env 1) 8)) fresh =
  inl (state (sample_env 1) 8).
Proof. apply run_after_prefix, ups_run; [apply sample_distinct|lia]. Qed.

(** A successful upgrade to the head that leaves the database at the base; with a
    commit it would be at the head. *)
Lemma online_witness : main_online false None ∅ (ups (sample_env 1) 8) = (fresh, inl ()) ∧
  ∃ k, with_connection (ups (sample_env 1) 8) (connect (engine_config None ∅)) = (k, inl ()) ∧
    committed (close (commit k)) = state (sample_env 1) 8.
Proof.
  destruct (online_commits_nothing false None ∅ (ups (sample_env 1) 8)) as (Hdb & [_ Hok] & Hcommit).
  assert ((main_online false None ∅ (ups (sample_env 1) 8)).2 = inl ()) as Hr.
  { apply Hok. split; [reflexivity|]. eexists. apply upgrade_after_prefix. }
  split; [apply injective_projections; [exact Hdb|exact Hr]|].
  destruct (Hcommit Hr) as (k & c & Hk & Hc & Hs). exists k. split; [exact Hk|].
  change (database None ∅) with fresh in Hc. rewrite upgrade_after_prefix in Hc.
  injection Hc as <-. exact Hs.
Defined.

Lemma offline_witness : run_migrations_offline (ups (sample_env 1) 8) (mkCatalog ∅ ∅ ∅ ∅ ∅) =
  inr UndefinedSchema.
Proof. apply offline_needs_schema. simpl. set_solver. Defined.
