(* ===== verification/ReadyCheck.v ===== *)
(** * [scripts/check_db_ready.py] and [check_db.py]

    The two scripts that look into the database, against the catalogues of an
    upgrade: the readiness check - a connection, one [SELECT] on [iam.users], an
    exit status - and the listing of the accounts. *)

From stdpp Require Import base tactics list gmap strings.
From Stdlib Require Import ZArith Lia.
From S2P Require Import Prelude Catalog Migrations States History.

(** [SELECT 1 FROM n LIMIT 1]. *)
Definition select_one (n : QName) (c : Catalog) : unit + DbError :=
  match tables c !! n with Some _ => inl tt | None => inr UndefinedRelation end.

(** [main]: 0 for a result, 1 for every exception; [None] is a database that
    does not answer.  [SystemExit] is no [Exception], so the first exit stands. *)
Definition check_db_ready (db : option Catalog) : Z :=
  match db with
  | None => 1
  | Some c => match select_one (iam "users") c with inl _ => 0 | inr _ => 1 end
  end.

(** Readiness.  On the way up the check fails before the second of the eight
    revisions and succeeds from it on: it reports ready where the models' tables
    for API keys, roles and invitations are missing, the last two even at the
    head. *)
Theorem readiness_spec `{AlembicLaws} env n c :
  distinct_ids env → (n ≤ 8)%nat → run_steps (ups env n) fresh = inl c →
  check_db_ready (Some c) = (if (2 <=? n)%nat then 0 else 1)%Z ∧
  (is_Some (tables c !! iam "api_keys") ↔ (4 ≤ n)%nat) ∧
  tables c !! iam "roles" = None ∧ tables c !! iam "invitations" = None.
Proof.
  intros Hids Hn. rewrite ups_run by done. intros [= <-].
  destruct n as [|[|[|[|[|[|[|[|[|n]]]]]]]]]; [..|lia];
    (split; [vm_compute; reflexivity|]; split; [|split; vm_compute; reflexivity]);
    (split; [intros Hs; try lia; vm_compute in Hs; by destruct Hs|intros Hl; try lia; vm_compute; by eexists]).
Qed.

Lemma readiness_witness :
  run_steps (ups (sample_env 1) 2) fresh = inl (state (sample_env 1) 2) ∧
  check_db_ready (Some (state (sample_env 1) 2)) = 0%Z.
Proof.
  assert (run_steps (ups (sample_env 1) 2) fresh = inl (state (sample_env 1) 2)) as Hr
    by (apply ups_run; [exact (sample_distinct 1)|lia]).
  split; [exact Hr|]. exact (proj1 (readiness_spec (sample_env 1) 2 _ (sample_distinct 1) ltac:(lia) Hr)).
Defined.

(** ** [check_db.py] *)

(** [SELECT cols FROM n]. *)
Definition select_columns (cols : list string) (n : QName) (c : Catalog) : list (list Value) + DbError :=
  match tables c !! n with
  | None => inr UndefinedRelation
  | Some tb =>
      if forallb (λ x, bool_decide (x ∈ Catalog.names tb)) cols
      then inl ((λ r : Row, (λ x, default VNull (r !! x)) <$> cols) <$> tb_rows tb)
      else inr UndefinedColumn
  end.

(** [main]: a line per account with its address and [is_superuser], or the line
    that reports any exception: [None]. *)
Definition check_db (db : option Catalog) : option (list (list Value)) :=
  match db with
  | None => None
  | Some c => match select_columns ["email"; "is_superuser"] (iam "users") c with inl rows => Some rows | inr _ => None end
  end.

(** On the way up the listing fails before the second revision, is empty up to
    the last, and at the head shows the one seeded superuser. *)
Lemma check_db_spec `{AlembicLaws} env n c :
  distinct_ids env → (n ≤ 8)%nat → run_steps (ups env n) fresh = inl c →
  check_db (Some c) =
    if (n <? 2)%nat then None
    else if (n <? 8)%nat then Some []
    else Some [[VStr "admin@example.com"; VBool true]].
Proof.
  intros Hids Hn. rewrite ups_run by done. intros [= <-].
  destruct n as [|[|[|[|[|[|[|[|[|n]]]]]]]]]; [..|lia]; vm_compute; reflexivity.
Qed.
