(* ===== verification/SeedTables.v ===== *)
(** * The table helpers of the seeding revisions

    [b8f3acf95fa5] and [20240330_seed_permissions] insert through lightweight
    [table(...)] declarations of their own: which columns they name, against the
    rows they are given and the tables that exist when they run. *)

From stdpp Require Import base tactics list gmap strings.
From Stdlib Require Import ZArith Lia.
From S2P Require Import Prelude Permissions Catalog Migrations States History.

(** The type of a [column(...)], without a length. *)
Inductive Kind := KUuid | KString | KText | KBoolean | KDateTime.

#[global] Instance Kind_eq_dec : EqDecision Kind.
Proof. solve_decision. Defined.

Definition kind_of (t : SqlType) : option Kind :=
  match t with
  | TUuid => Some KUuid | TString _ => Some KString | TText => Some KText | TBoolean => Some KBoolean
  | TDateTime _ => Some KDateTime | TEnum _ => None
  end.

(** A helper: the table's name in [iam] and its columns. *)
Notation Helper := (string * list (string * Kind))%type.

(** ** [b8f3acf95fa5_seed_initial_admin_user_and_default_.py] *)

Definition tenants_helper : Helper :=
  ("tenants", [("id", KUuid); ("name", KString); ("slug", KString); ("created_at", KDateTime);
               ("updated_at", KDateTime); ("is_active", KBoolean)]).

Definition users_helper : Helper :=
  ("users", [("id", KUuid); ("email", KString); ("hashed_password", KString); ("is_superuser", KBoolean);
             ("is_active", KBoolean); ("created_at", KDateTime); ("updated_at", KDateTime)]).

Definition tenant_roles_helper : Helper :=
  ("tenant_roles", [("id", KUuid); ("tenant_id", KUuid); ("name", KString); ("description", KText);
                    ("is_system_role", KBoolean); ("created_at", KDateTime); ("updated_at", KDateTime)]).

Definition user_tenant_roles_helper : Helper :=
  ("user_tenant_roles", [("id", KUuid); ("user_id", KUuid); ("tenant_id", KUuid); ("tenant_role_id", KUuid);
                         ("created_at", KDateTime); ("updated_at", KDateTime)]).

(** ** [20240330_seed_permissions.py] *)

Definition permissions_helper : Helper :=
  ("permissions", [("id", KUuid); ("created_at", KDateTime); ("updated_at", KDateTime); ("name", KString);
                   ("code", KString); ("description", KText); ("module", KString)]).

(** The kind of a value; [NULL] fits every column. *)
Definition fits (v : Value) (k : Kind) : bool :=
  match v, k with
  | VNull, _ | VUuid _, KUuid | VStr _, KString | VStr _, KText | VBool _, KBoolean | VTime _, KDateTime => true
  | _, _ => false
  end.

(** What [op.bulk_insert] asks: the row's keys are columns of the helper, with
    values of their types. *)
Definition row_fits (h : Helper) (r : Row) : bool :=
  forallb (λ '(n, v), match list_find (λ c, c.1 = n) h.2 with Some (_, (_, k)) => fits v k | None => false end)
    (map_to_list r).

(** The helper's table exists, with its columns, of its types. *)
Definition declared (h : Helper) (c : Catalog) : bool :=
  match tables c !! iam h.1 with
  | Some tb =>
      forallb (λ '(n, k), match list_find (λ col, c_name col = n) (tb_columns tb) with
                          | Some (_, col) => bool_decide (kind_of (c_type col) = Some k)
                          | None => false
                          end) h.2
  | None => false
  end.

(** The helpers against what the revisions insert: every row names columns of
    its helper only, with values of their types, and the tables the helpers
    describe exist with those columns when the revision runs. *)
Theorem seed_tables_spec env :
  forallb (λ h, declared h (state env 7)) [tenants_helper; users_helper; tenant_roles_helper; user_tenant_roles_helper] = true ∧
  declared permissions_helper (state env 2) = true ∧
  row_fits tenants_helper (default_tenant_row env) = true ∧
  row_fits tenant_roles_helper (default_role_row env) = true ∧
  row_fits users_helper (default_admin_row env) = true ∧
  row_fits user_tenant_roles_helper (default_association_row env) = true ∧
  forallb (row_fits permissions_helper) (permission_rows env) = true.
Proof. split_and!; vm_compute; reflexivity. Qed.
